(* ===== verification/_CoqProject ===== *)
-Q . S2P
Prelude.v
PyStr.v
SelfTest.v
Regex.v
MergeWarnings.v
PyFloat.v
FloatFacts.v
PyData.v
BenchSerial.v
InitcallLabels.v
PyJson.v
PyCsv.v
PcapHttp.v
UdpEcho.v
PinGates.v
D0070Pass.v
FixtureTshark.v
BenchHost.v
BenchTables.v
BenchRun.v
BenchSummary.v
BenchPublish.v
BenchSelftest.v
BenchSelftestFacts.v
BenchMain.v
BenchClient.v
ClientHarness.v
RegimeWitness.v
ExhibitPins.v
ExhibitFixtures.v
ExhibitGates.v
ExhibitValid.v
ExhibitTyping.v
ExhibitTables.v
ExhibitCross.v
ExhibitSerial.v
ExhibitSerialFacts.v
ExhibitLabels.v
ExhibitFacts.v
ExhibitMain.v
ExhibitSelftest.v
