(* ===== verification/Prelude.v ===== *)
(** * The Whimbrel measurement harness, verified

    Whimbrel is a small RISC-V guest whose boot latency is measured against a
    Linux guest.  The measuring is done by Python scripts under src/scripts/:
    they refuse to start on the wrong host or tree, boot guests in QEMU in a
    shuffled order, read each trial's serial log and pcap, append a row per
    accepted trial to runs.csv, and publish a summary only when every gate
    passes; the report's exhibits are then generated from the campaigns pinned
    in git.  What makes the scripts right is fail-closed behaviour: a number
    that is published went through all its gates, and a trial or file that fails
    one ends the campaign with an error, never with a skipped row.  This
    development models those scripts and proves that of them.

    ** Files

    Foundations, shared by the script files:
    - Prelude: results ([res], Python exceptions as [exn]), the loops of Python
      code over them ([foldM], [mapR], [filterR], ...), ordered dictionaries,
      a stable sort, and their lemmas;
    - PyStr (str), Regex (re, with a declarative reference semantics), PyFloat
      (binary64 floats, int/float arithmetic, formatting, median), FloatFacts
      (printed decimals read back, half-ulp bounds of quotients and products),
      PyData (row values, sets), PyCsv (csv writer and reader, with their round
      trip), PyJson (json.loads, with the round trip of flat objects);
    - SelfTest: the planted-failure idiom of the scripts' self-tests, and what a
      self-test that passes has shown; FixtureTshark: a tshark for the synthetic
      pcaps, for the witnesses only.

    Scripts; a file's definitions follow the script's functions by name:
    - MergeWarnings: linux-merge-warnings.py;
    - InitcallLabels: label-linux-initcalls.py;
    - PcapHttp: pcap_http.py;  D0070Pass: d0070-pcap-pass.py;
    - PinGates: the gates that d0070-pcap-pass.py, regime-witness.py and
      report-exhibits.py each write out over the rows of a pinned campaign;
    - UdpEcho: provoke-udp-echo.py;
    - BenchClient: bench-client.py;  RegimeWitness: regime-witness.py;
      ClientHarness: the client's JSON as the harness reads it;
    - bench.py in eight files: BenchSerial (serial log), BenchHost (host, tree
      and artifacts), BenchTables (CSV files, gates and metrics), BenchRun (one
      trial, the schedule, the campaign loop), BenchSummary (cmd_summarize, its
      verdict proved exact in BenchPublish), BenchSelftest (cmd_selftest, its
      theorems in BenchSelftestFacts) and BenchMain (cmd_run and main);
    - report-exhibits.py: ExhibitPins (the pins and the formatters),
      ExhibitGates (the four campaign validators, each proved exact in
      ExhibitValid), ExhibitTables (phase, edge, bump and ladder exhibits),
      ExhibitCross (the cross-system comparisons, the dump placement, the
      firmware exhibit), ExhibitSerial (the Linux
      decomposition from serial logs), ExhibitMain (main) and ExhibitSelftest
      (cmd_selftest, on the campaigns of ExhibitFixtures).  Theorems that
      need more than one of them have their own files: ExhibitTyping,
      ExhibitFacts, ExhibitSerialFacts and ExhibitLabels (InitcallLabels prints
      what ExhibitSerial reads).
    BenchMain calls all of bench.py's files; BenchTables takes the pcap extract
    through D0070Pass from PcapHttp, as bench.py imports it; BenchRun runs
    BenchClient's program as a process.

    ** How the code is represented

    A function that may raise returns [res].  Files are a finite map from path
    to text, threaded through what writes them; a campaign's mutable state is
    the record [bench_state], and a failing step returns the state it left.
    What the scripts only call is a parameter: git, tshark, cargo and QEMU are
    the host's [h_run] or a function from a command line to its answer, a
    trial's outside is a [world], the generator behind [random.shuffle] and the
    completion order of the thread pool are arbitrary functions, the client's
    clock is its sequence of readings and a connection the unbounded sequence of
    what its [recv] calls give.  The theorems hold for all of them, but for
    the self-test's, which needs a tshark that reads a pcap as it was written.
    A summary that raises keeps what it wrote ([filing]).  Of the files the
    harness reads, those under /proc and /sys may also exist and be unreadable;
    the others are there with their text or missing.

    Loops that are not structural take fuel that is proved enough: the log
    classifier one step per line ([classify_terminates]), the checksum folding
    the bits of its sum.  The client's loop ends whenever its clock advances and
    its peers do not drip bytes for ever, and then on any larger fuel; the second
    condition is needed, the receive loop having no deadline
    ([run_loop_terminates]).  CPython's ints are unbounded Z; floats are
    correctly rounded binary64.  Deviations: an int too large for a float is
    infinite instead of raising OverflowError; strings are UTF-8 bytes whose
    spaces, digits and line ends are ASCII; [x ** 2] is the correctly rounded
    square; sum() is the compensated one of CPython 3.12.

    ** What the theorems show

    - Campaigns: exit status 0 means every registered trial was run and
      accepted, is in runs.csv, and was summarised with the registered counts
      ([cmd_run_complete]); the ledger is right however a campaign ends
      ([campaign_ledger]; runs.csv is written with the first accepted trial, and
      until then left as it was found); an abort is on record exactly when a gate
      of the trial's own run failed, and not when the steal gate after it did
      ([failed_trial_journaled]), and publishes nothing, an fp-ab summary that had
      passed apart ([cmd_run_abort_unpublished]); a trial is
      accepted exactly when it passes every gate ([run_trial_iff]); the shuffle
      is fair ([recorded_schedule_fair]).
    - Publication: a summary is of an admitted, steal-free batch with the right
      counts, and passes exactly when the kernel, window, image and stability
      gates hold ([cmd_summarize_exact], [assert_aggregatable_iff],
      [compare_stability_nil_iff]); the host and
      artifact gates are exact ([require_host_controls_iff],
      [verify_linux_artifacts_iff]).
    - Exhibits: the command changes a file only to its writer's text, only
      when the seven pins it loads first meet their campaigns' specifications,
      and only when every writer before it gave its text ([main_fail_closed]);
      the other pins, the two D-0068 campaigns and the serial and label files, are
      checked by the writers that read them, so that a bad one stops the command
      after the exhibits before.  It completes exactly when the seven are admitted
      and every writer gives a text ([main_completes]); the specification is what the validators accept, no
      more and no less ([validate_iff], [validate_t48c_iff], [validate_t47_iff],
      [load_campaigns_exact]), and they raise nothing else on typed tables
      ([validate_typed]); the ladder and the alias are generated checked and
      whole ([ladder_checked], [current_comparison_whole]); the gap table lists
      the largest gaps, and divides the boot when the log's time does not go
      back ([gaps_divide_span]).
    - Readers: the parsers are inverse to what prints their input
      ([parse_phases_print], [parse_final_config_render],
      [parse_cpu_list_print], [append_csv_journal], [table_rows_print],
      [label_file_roundtrip]) and fail closed on anything else
      ([parse_phases_fail_closed]); the two PHASE parsers agree on every log
      without indented PHASE lines ([phase_parsers_agree]); the pcap gates and the serial falsifiers decide
      what they say ([extract_pcap_iff], [assert_syn_grid_sound],
      [cmd_scan_mtrap_iff], ...), and the pcap intervals are exact in nanoseconds
      although every time goes through a float ([extract_pcap_exact]).
    - Analyses: on every log the classifier refines a per-entry decision table
      ([classify_refines_entries]), which decides its exit status
      ([merge_gate_status]); the symbol search is the linear one
      ([resolve_nearest]); the D-0070 table does not depend on scheduling
      ([run_pool_schedule_independent]); the ARP-loss events are exact
      ([arp_signature_exact]); the warm-up join is faithful
      ([warmup_join_faithful]); the client keeps its cadence and reports a reply
      exactly when its connection carried one ([run_loop_sound]),
      and an accepted trial's latencies are its instants less the harness's start
      ([accepted_trial_measured]).
    - Self-tests: with a tshark that reads the synthetic pcaps as their frames
      were written, bench.py's is decided by the machine alone
      ([harness_selftest_decided]), report-exhibits.py's passes on every checkout
      with its pins ([selftest_passes]); a run that passes has refused every
      planted fault but the vacuous ones ([harness_evidence], [selftest_evidence]).

    The definitions were also run on the recorded data: on the committed serial
    logs and tables they give linux-decomposition.md and cross-system-current.md
    of src/report/exhibits byte for byte.

    ** Not modelled

    Every Python program of the repository is modelled; what is left out of
    them is argparse's syntax errors and help, and a failing write of an output
    file or creation of its directory.  The guests and the libraries in Rust,
    the Linux guest's C, the shell glue and the build files are other languages
    and are not modelled (but for the header linux-initcall-label.sh prints
    above the label tables, in ExhibitLabels): they enter as what a trial's serial log, pcap and
    exit status hold, which the theorems take as arbitrary. *)
From stdpp Require Export base list strings numbers sorting fin_sets.
From Stdlib Require Export ZArith.

Declare Scope py_scope.
Delimit Scope py_scope with py.
Open Scope string_scope.
Open Scope Z_scope.
Open Scope list_scope.

(** ** Exceptions and results *)

(** The exception classes the scripts declare themselves. *)
Inductive user_class :=
  | BenchFailC | PcapExtractErrorC | MergeWarnFailC | LabelFailC
  | PassFailC | FailC | ExhibitFailC.

(** What a Python computation raises.  A user class carries its message, a
    [KeyError] the [repr] of the missing key (its [str]), the other runtime
    exceptions are told apart by class only. *)
Inductive exn :=
  | UserExn (c : user_class) (msg : string)
  | KeyError (key_repr : string)
  | ValueError | TypeError | IndexError | AttributeError | StopIteration
  | ZeroDivisionError | StatisticsError | OverflowError
  | CsvError | StructError | CalledProcessError (cmd : list string) | FileNotFoundError | OSError | SystemExit (code : Z).

Abbreviation BenchFail := (UserExn BenchFailC).
Abbreviation PcapExtractError := (UserExn PcapExtractErrorC).
Abbreviation MergeWarnFail := (UserExn MergeWarnFailC).
Abbreviation LabelFail := (UserExn LabelFailC).
Abbreviation PassFail := (UserExn PassFailC).
Abbreviation RegimeFail := (UserExn FailC).
Abbreviation ExhibitFail := (UserExn ExhibitFailC).

#[export] Instance user_class_eq_dec : EqDecision user_class.
Proof. solve_decision. Defined.
#[export] Instance exn_eq_dec : EqDecision exn.
Proof. solve_decision. Defined.

Inductive res (A : Type) := Ok (a : A) | Err (e : exn).
Arguments Ok {A} a.
Arguments Err {A} e.

#[export] Instance res_eq_dec {A} `{!EqDecision A} : EqDecision (res A).
Proof. solve_decision. Defined.
#[export] Instance res_ret : MRet res := @Ok.
#[export] Instance res_bind : MBind res := λ A B f m,
  match m with Ok a => f a | Err e => Err e end.
#[export] Instance res_fmap : FMap res := λ A B f m,
  match m with Ok a => Ok (f a) | Err e => Err e end.

(** [if b: raise e] *)
Definition raise_when (b : bool) (e : exn) : res unit :=
  if b then Err e else Ok tt.

(** [for x in l: s = f(s, x)] where the body may raise. *)
Fixpoint foldM {S A} (f : S → A → res S) (s : S) (l : list A) : res S :=
  match l with
  | [] => Ok s
  | x :: l => s' ← f s x; foldM f s' l
  end.

(** [for x in l: f(x)] for a body run for its exceptions only. *)
Definition forM_ {A} (f : A → res unit) (l : list A) : res unit :=
  foldM (λ _ x, f x) tt l.

(** A computation that prints: its lines so far, and how it ends. *)
Definition printing (A : Type) : Type := (list string * res A)%type.
#[export] Instance printing_ret : MRet printing := λ A x, ([], Ok x).
#[export] Instance printing_bind : MBind printing := λ A B f m,
  match m.2 with Ok x => (m.1 ++ (f x).1, (f x).2) | Err e => (m.1, Err e) end.
Definition quiet {A} (r : res A) : printing A := ([], r).
Definition say_line (line : string) : printing unit := ([line], Ok tt).
Fixpoint foldP {S A} (f : S → A → printing S) (s : S) (l : list A) : printing S :=
  match l with
  | [] => mret s
  | x :: l => s' ← f s x; foldP f s' l
  end.

(** [[f(x) for x in l]] where [f] may raise; left to right. *)
Fixpoint mapR {A B} (f : A → res B) (l : list A) : res (list B) :=
  match l with
  | [] => Ok []
  | x :: l => y ← f x; ys ← mapR f l; Ok (y :: ys)
  end.

(** [[x for x in l if p(x)]] where [p] may raise. *)
Fixpoint filterR {A} (p : A → res bool) (l : list A) : res (list A) :=
  match l with
  | [] => Ok []
  | x :: l => b ← p x; ys ← filterR p l; Ok (if b : bool then x :: ys else ys)
  end.

(** [any(p(x) for x in l)]: stops at the first hit. *)
Fixpoint anyR {A} (p : A → res bool) (l : list A) : res bool :=
  match l with
  | [] => Ok false
  | x :: l => b ← p x; if b : bool then Ok true else anyR p l
  end.

(** [next(x for x in l if p(x))] *)
Fixpoint firstR {A} (p : A → res bool) (l : list A) : res A :=
  match l with
  | [] => Err StopIteration
  | x :: l => b ← p x; if b : bool then Ok x else firstR p l
  end.

(** [sum(f(x) for x in l)] on ints *)
Definition sumZ (l : list Z) : Z := foldl Z.add 0 l.

Definition of_option {A} (e : exn) (o : option A) : res A :=
  match o with Some a => Ok a | None => Err e end.

Definition is_ok {A} (r : res A) : bool := match r with Ok _ => true | Err _ => false end.
Lemma printing_Ok {A B} (m : printing A) (f : A → printing B) y :
  (x ← m; f x).2 = Ok y ↔ ∃ x, m.2 = Ok x ∧ (f x).2 = Ok y.
Proof. unfold mbind, printing_bind. destruct m as [ls [x|e]]; cbn; naive_solver. Qed.
Lemma is_ok_Ok {A} (r : res A) : is_ok r = true ↔ ∃ a, r = Ok a.
Proof. destruct r; naive_solver. Qed.
Definition is_some {A} (o : option A) : bool := match o with Some _ => true | None => false end.
Definition py_and (a : bool) (b : res bool) : res bool := if a then b else Ok false.
Definition py_or (a : bool) (b : res bool) : res bool := if a then Ok true else b.

(** [except X as e: raise Y(str(e)) from e]: rewraps one user class. *)
Definition rewrap {A} (c d : user_class) (r : res A) : res A :=
  match r with
  | Err (UserExn c' m) => if decide (c' = c) then Err (UserExn d m) else r
  | _ => r
  end.

(** ** Results: inversion lemmas *)
Lemma bind_Ok {A B} (f : A → res B) (m : res A) b :
  (m ≫= f) = Ok b ↔ ∃ a, m = Ok a ∧ f a = Ok b.
Proof. destruct m; cbn; naive_solver. Qed.
Lemma bind_Err {A B} (f : A → res B) (m : res A) e :
  (m ≫= f) = Err e ↔ m = Err e ∨ ∃ a, m = Ok a ∧ f a = Err e.
Proof. destruct m; cbn; naive_solver. Qed.
Lemma fmap_Ok {A B} (f : A → B) (m : res A) b : f <$> m = Ok b ↔ ∃ a, m = Ok a ∧ b = f a.
Proof. destruct m; cbn; naive_solver. Qed.
Lemma raise_when_Ok b e u : raise_when b e = Ok u ↔ b = false.
Proof. destruct b, u; cbn; naive_solver. Qed.
Lemma raise_when_Err b e e' : raise_when b e = Err e' ↔ b = true ∧ e = e'.
Proof. destruct b; cbn; naive_solver. Qed.
Lemma of_option_Ok {A} e (o : option A) a : of_option e o = Ok a ↔ o = Some a.
Proof. destruct o; cbn; naive_solver. Qed.

Section res_lemmas.
Context {A B C : Type}.
Implicit Types (m : res A) (l : list A).

Lemma foldM_app (f : C → A → res C) s l1 l2 :
  foldM f s (l1 ++ l2) = (s' ← foldM f s l1; foldM f s' l2).
Proof.
  revert s. induction l1 as [|x l1 IH]; intros s; [done|].
  cbn. destruct (f s x); cbn; auto.
Qed.

Lemma foldM_inv (P : C → Prop) (f : C → A → res C) s l s' :
  P s → (∀ s x s', P s → x ∈ l → f s x = Ok s' → P s') →
  foldM f s l = Ok s' → P s'.
Proof.
  revert s. induction l as [|x l IH]; intros s Hs Hstep; cbn.
  - by intros [= <-].
  - intros (s1 & H1 & H2)%bind_Ok. eapply IH; [|by intros; eapply Hstep; eauto; set_solver|done].
    eapply Hstep; eauto. set_solver.
Qed.

Lemma forM_Ok (f : A → res unit) l u :
  forM_ f l = Ok u ↔ ∀ x, x ∈ l → f x = Ok tt.
Proof.
  unfold forM_. destruct u. induction l as [|x l IH]; cbn.
  - split; [|done]. intros _ x Hx. by apply elem_of_nil in Hx.
  - rewrite bind_Ok. setoid_rewrite elem_of_cons. split.
    + intros ([] & H1 & H2). intros y [->|Hy]; [done|]. by apply IH.
    + intros H. exists tt. split; [by apply H; left|]. apply IH. auto.
Qed.

Lemma mapR_Ok (f : A → res B) l (l' : list B) :
  mapR f l = Ok l' ↔ Forall2 (λ x y, f x = Ok y) l l'.
Proof.
  revert l'. induction l as [|x l IH]; intros l'; cbn.
  - split; [intros [= <-]; constructor | by intros ->%Forall2_nil_inv_l].
  - rewrite bind_Ok. setoid_rewrite bind_Ok. setoid_rewrite IH. split.
    + intros (y & Hy & ys & Hys & [= <-]). by constructor.
    + intros (y & ys & Hy & Hys & ->)%Forall2_cons_inv_l. eauto 10.
Qed.

Lemma mapR_total (f : A → res B) (g : A → B) l :
  (∀ x, x ∈ l → f x = Ok (g x)) → mapR f l = Ok (g <$> l).
Proof.
  intros H. apply mapR_Ok. apply Forall2_fmap_r. apply Forall_Forall2_diag.
  by apply Forall_forall.
Qed.

Lemma filterR_total (f : A → res bool) (p : A → bool) l :
  (∀ x, x ∈ l → f x = Ok (p x)) → filterR f l = Ok (filter (λ x, p x = true) l).
Proof.
  induction l as [|x l IH]; intros H; [done|]. cbn [filterR].
  rewrite H by set_solver. cbn [mbind res_bind].
  rewrite IH by set_solver. cbn [mbind res_bind].
  rewrite filter_cons. case_decide as Hp; destruct (p x); naive_solver.
Qed.

Lemma filterR_defined (f : A → res bool) l : (∀ x, x ∈ l → ∃ b, f x = Ok b) → ∃ l', filterR f l = Ok l'.
Proof.
  induction l as [|x l IH]; intros H; [by exists []|]. destruct (H x ltac:(by left)) as [b Hb].
  destruct IH as [l' Hl]; [intros; apply H; by right|]. cbn [filterR]. rewrite Hb, Hl. cbn. eauto.
Qed.

Lemma filterR_first (f : A → res bool) l y ys :
  filterR f l = Ok (y :: ys) →
  ∃ pre post, l = pre ++ y :: post ∧ Forall (λ r, f r = Ok false) pre ∧ f y = Ok true.
Proof.
  induction l as [|x l IH]; cbn [filterR]; [done|].
  intros (b & Hb & (zs & Hl & H)%bind_Ok)%bind_Ok. destruct b.
  - injection H as -> ->. by exists [], l.
  - injection H as ->. destruct (IH Hl) as (pre & post & -> & Hp & Hy).
    exists (x :: pre), post. split; [done|]. split; [by constructor|done].
Qed.

Lemma anyR_total (f : A → res bool) (p : A → bool) l :
  (∀ x, x ∈ l → f x = Ok (p x)) → anyR f l = Ok (existsb p l).
Proof.
  induction l as [|x l IH]; intros H; [done|]. cbn.
  rewrite H by set_solver. cbn. destruct (p x); [done|]. apply IH. set_solver.
Qed.
End res_lemmas.

(** ** Which exceptions a computation may raise

    [raises_only c m]: if [m] raises, it raises the script's own class [c], the
    one its entry point turns into a TEST FAIL line. *)
Definition raises_only {A} (c : user_class) (m : res A) : Prop := ∀ e, m = Err e → ∃ msg, e = UserExn c msg.

Section raises_only.
Context (c : user_class) {A B : Type}.
Implicit Types (m : res A) (l : list A).

Lemma raises_Ok (a : A) : raises_only c (Ok a).
Proof. by intros e. Qed.
Lemma raises_user (msg : string) : raises_only c (@Err A (UserExn c msg)).
Proof. intros e [= <-]. eauto. Qed.
Lemma raises_when b msg : raises_only c (raise_when b (UserExn c msg)).
Proof. destruct b; intros e; [intros [= <-]; eauto|done]. Qed.
Lemma raises_bind m (f : A → res B) : raises_only c m → (∀ a, m = Ok a → raises_only c (f a)) → raises_only c (m ≫= f).
Proof. intros Hm Hf e [He|(a & Ha & He)]%bind_Err; [by apply Hm|by eapply Hf]. Qed.
Lemma raises_fmap m (f : A → B) : raises_only c m → raises_only c (f <$> m).
Proof. intros Hm e. destruct m; cbn; [done|]. intros [= ->]. by apply Hm. Qed.
Lemma raises_total m : (∃ a, m = Ok a) → raises_only c m.
Proof. by intros [a ->] e. Qed.
End raises_only.
Section raises_loops.
Context (c : user_class) {A B : Type}.
Implicit Types (l : list A).
Lemma raises_mapR (f : A → res B) l : (∀ x, x ∈ l → raises_only c (f x)) → raises_only c (mapR f l).
Proof.
  induction l as [|x l IH]; intros H; [by intros e|]. cbn. apply raises_bind; [apply H; by left|].
  intros y _. apply raises_bind; [apply IH; intros; apply H; by right|]. by intros ys _ e.
Qed.
Lemma raises_filterR (f : A → res bool) l : (∀ x, x ∈ l → raises_only c (f x)) → raises_only c (filterR f l).
Proof.
  induction l as [|x l IH]; intros H; [by intros e|]. cbn. apply raises_bind; [apply H; by left|].
  intros y _. apply raises_bind; [apply IH; intros; apply H; by right|]. by intros ys _ e.
Qed.
Lemma raises_anyR (f : A → res bool) l : (∀ x, x ∈ l → raises_only c (f x)) → raises_only c (anyR f l).
Proof.
  induction l as [|x l IH]; intros H; [by intros e|]. cbn. apply raises_bind; [apply H; by left|].
  intros [] _; [by intros e|]. apply IH. intros; apply H; by right.
Qed.
Lemma raises_forM (f : A → res unit) l : (∀ x, x ∈ l → raises_only c (f x)) → raises_only c (forM_ f l).
Proof.
  unfold forM_. generalize tt. induction l as [|x l IH]; intros u H; [by intros e|]. cbn.
  apply raises_bind; [apply H; by left|]. intros u' _. apply IH. intros; apply H; by right.
Qed.
End raises_loops.
Create HintDb raises.
#[export] Hint Resolve raises_Ok raises_user raises_when : raises.
(** One layer of a monadic program at a time; what is left are the leaves that
    are not raises of the class itself. *)
Ltac raises :=
  repeat first
  [ solve [eauto with raises]
  | match goal with
    | |- raises_only _ (_ ≫= _) => apply raises_bind; [|intros ? ?]
    | |- raises_only _ (_ <$> _) => apply raises_fmap
    | |- raises_only _ (mapR _ _) => apply raises_mapR; intros ? ?
    | |- raises_only _ (filterR _ _) => apply raises_filterR; intros ? ?
    | |- raises_only _ (anyR _ _) => apply raises_anyR; intros ? ?
    | |- raises_only _ (forM_ _ _) => apply raises_forM; intros ? ?
    | |- raises_only _ (if ?b then _ else _) => destruct b eqn:?
    | |- raises_only _ (let _ := _ in _) => cbv zeta
    | |- raises_only _ (match ?x with _ => _ end) => destruct x eqn:?
    end ].

(** ** Ordered dictionaries

    A Python [dict] iterates in insertion order and keeps a key's position
    when its value is overwritten. *)
Notation odict K V := (list (K * V)).

Section odict.
Context {K V : Type} `{!EqDecision K}.
Implicit Types (d : odict K V) (k : K) (v : V).

Fixpoint od_get (k : K) (d : odict K V) : option V :=
  match d with
  | [] => None
  | (k', v) :: d => if decide (k' = k) then Some v else od_get k d
  end.
Fixpoint od_set (k : K) (v : V) (d : odict K V) : odict K V :=
  match d with
  | [] => [(k, v)]
  | (k', v') :: d => if decide (k' = k) then (k', v) :: d else (k', v') :: od_set k v d
  end.
Definition od_keys (d : odict K V) : list K := d.*1.
Definition od_in (k : K) (d : odict K V) : bool := is_some (od_get k d).
(** [d.setdefault(k, v0)] followed by an in-place update [f] of the value. *)
Definition od_upd (k : K) (v0 : V) (f : V → V) (d : odict K V) : odict K V :=
  od_set k (f (default v0 (od_get k d))) d.
(** [d.update(d')] *)
Definition od_update (d d' : odict K V) : odict K V :=
  foldl (λ d p, od_set p.1 p.2 d) d d'.
(** A [dict(zip(...))] or a dict display: later keys win. *)
Definition od_of_list (l : list (K * V)) : odict K V := od_update [] l.

Lemma od_get_set d k k' v :
  od_get k' (od_set k v d) = if decide (k = k') then Some v else od_get k' d.
Proof.
  induction d as [|[k0 v0] d IH]; cbn; [done|].
  repeat (case_decide; cbn); congruence.
Qed.
Lemma od_get_set_eq d k v : od_get k (od_set k v d) = Some v.
Proof. rewrite od_get_set. by case_decide. Qed.
Lemma od_get_set_ne d k k' v : k ≠ k' → od_get k' (od_set k v d) = od_get k' d.
Proof. intros. rewrite od_get_set. by case_decide. Qed.

Lemma od_get_Some_elem d k v : od_get k d = Some v → (k, v) ∈ d.
Proof.
  induction d as [|[k0 v0] d IH]; cbn; [done|].
  case_decide; subst; [intros [= ->]|]; set_solver.
Qed.
Lemma od_get_NoDup d k v : NoDup (od_keys d) → (k, v) ∈ d → od_get k d = Some v.
Proof.
  induction d as [|[k0 v0] d IH]; cbn; [set_solver|].
  intros [Hk Hd]%NoDup_cons [[= -> ->]|Hin]%elem_of_cons; [by case_decide|].
  case_decide; subst; [|auto]. destruct Hk.
  apply list_elem_of_fmap. by exists (k, v).
Qed.
Lemma od_get_None d k : od_get k d = None ↔ k ∉ od_keys d.
Proof.
  induction d as [|[k0 v0] d IH]; cbn; [set_solver|].
  rewrite not_elem_of_cons. case_decide; naive_solver.
Qed.
Lemma od_in_spec d k : od_in k d = true ↔ k ∈ od_keys d.
Proof.
  unfold od_in. destruct (od_get k d) as [v|] eqn:E; cbn.
  - split; [|done]. intros _. apply od_get_Some_elem in E.
    apply list_elem_of_fmap. by exists (k, v).
  - apply od_get_None in E. naive_solver.
Qed.
Lemma od_keys_cons k v d : od_keys ((k, v) :: d) = k :: od_keys d.
Proof. done. Qed.
Lemma od_keys_set d k v :
  od_keys (od_set k v d) = if decide (k ∈ od_keys d) then od_keys d else od_keys d ++ [k].
Proof.
  induction d as [|[k0 v0] d IH]; cbn [od_set].
  - rewrite decide_False; [done|set_solver].
  - destruct (decide (k0 = k)) as [->|E]; rewrite ?od_keys_cons.
    + rewrite decide_True; [done|set_solver].
    + rewrite IH, ?od_keys_cons. destruct (decide (k ∈ od_keys d)).
      * rewrite decide_True; [done|set_solver].
      * rewrite decide_False; [done|set_solver].
Qed.
Lemma od_set_NoDup d k v : NoDup (od_keys d) → NoDup (od_keys (od_set k v d)).
Proof.
  intros H. rewrite od_keys_set. case_decide; [done|].
  apply NoDup_app. split; [done|]. split; [set_solver|]. apply NoDup_singleton.
Qed.
Lemma od_set_fresh d k v : k ∉ od_keys d → od_set k v d = d ++ [(k, v)].
Proof.
  induction d as [|[k0 v0] d IH]; cbn [od_set]; [done|]. rewrite od_keys_cons, not_elem_of_cons.
  intros [Hne Hd]. rewrite decide_False by done. cbn. by rewrite IH.
Qed.
(** A dict built from pairs with distinct keys keeps them as they are. *)
Lemma od_of_list_NoDup l : NoDup (od_keys l) → od_of_list l = l.
Proof.
  unfold od_of_list, od_update. intros H.
  assert (∀ acc, NoDup (od_keys (acc ++ l)) → foldl (λ d p, od_set p.1 p.2 d) acc l = acc ++ l) as Hg;
    [|by apply (Hg [])].
  clear H. induction l as [|[k v] l IH]; intros acc H; cbn [foldl]; [by rewrite app_nil_r|].
  unfold od_keys in H. rewrite fmap_app in H. cbn in H.
  cbn [fst snd]. rewrite od_set_fresh; cycle 1.
  { apply NoDup_app in H as (_ & H & _). intros Hk. apply (H k Hk). set_solver. }
  rewrite IH; [by rewrite <-app_assoc|]. unfold od_keys. rewrite !fmap_app. by rewrite <-app_assoc.
Qed.
End odict.

(** ** Sorting

    [sorted(l, key=...)] as a stable insertion sort: an element goes before the
    first one it does not exceed, so equal keys keep their order. *)
Section sort.
Context {A : Type} (leb : A → A → bool).

Fixpoint insert_by (x : A) (l : list A) : list A :=
  match l with
  | [] => [x]
  | y :: l' => if leb x y then x :: l else y :: insert_by x l'
  end.
Definition sort_by (l : list A) : list A := foldr insert_by [] l.

Lemma insert_by_perm x l : insert_by x l ≡ₚ x :: l.
Proof.
  induction l as [|y l IH]; cbn; [done|]. destruct (leb x y); [done|].
  rewrite IH. by constructor.
Qed.
Lemma sort_by_perm l : sort_by l ≡ₚ l.
Proof. induction l as [|x l IH]; cbn; [done|]. by rewrite insert_by_perm, IH. Qed.
Lemma length_sort_by l : length (sort_by l) = length l.
Proof. by rewrite sort_by_perm. Qed.
Lemma elem_of_sort_by x l : x ∈ sort_by l ↔ x ∈ l.
Proof. by rewrite sort_by_perm. Qed.

Context (leb_total : ∀ x y, leb x y = true ∨ leb y x = true)
        (leb_trans : ∀ x y z, leb x y = true → leb y z = true → leb x z = true).

Lemma insert_by_sorted x l : StronglySorted (λ a b, leb a b = true) l →
  StronglySorted (λ a b, leb a b = true) (insert_by x l).
Proof using leb_total leb_trans.
  induction 1 as [|y l Hl IH Hy]; cbn; [repeat constructor|].
  destruct (leb x y) eqn:E.
  - constructor; [by constructor|]. constructor; [done|].
    eapply Forall_impl; [exact Hy|]. cbn. eauto.
  - constructor; [done|]. rewrite insert_by_perm. constructor; [|done].
    destruct (leb_total x y); congruence.
Qed.
Lemma sort_by_sorted l : StronglySorted (λ a b, leb a b = true) (sort_by l).
Proof using leb_total leb_trans.
  induction l; cbn; [constructor|]. by apply insert_by_sorted.
Qed.
End sort.

(** Sorting by a finer order: [R] only has to follow from the comparison. *)
Lemma sort_by_sorted_rel {A} (leb : A → A → bool) (R : A → A → Prop) `{!Transitive R} l :
  (∀ x y, leb x y = true → R x y) → (∀ x y, leb x y = false → R y x) →
  StronglySorted R (sort_by leb l).
Proof.
  intros Ht Hf. induction l as [|x l IH]; cbn; [constructor|].
  change (foldr (insert_by leb) [] l) with (sort_by leb l).
  induction IH as [|y l' Hl IH Hy]; cbn; [repeat constructor|].
  destruct (leb x y) eqn:E.
  - constructor; [by constructor|]. constructor; [auto|].
    eapply Forall_impl; [exact Hy|]. intros z Hz. etrans; [by apply Ht|done].
  - constructor; [done|]. rewrite insert_by_perm. constructor; [auto|done].
Qed.
Lemma StronglySorted_lookup_lt {A} (R : A → A → Prop) l i j a b : StronglySorted R l →
  l !! i = Some a → l !! j = Some b → (i < j)%nat → R a b.
Proof.
  intros Hs. revert i j. induction Hs as [|x l Hl IH Hx]; intros i j Ha Hb Hij; [done|].
  destruct j as [|j]; [lia|]. destruct i as [|i]; cbn in *; [|by eapply IH; eauto with lia].
  injection Ha as <-. rewrite Forall_lookup in Hx. eauto.
Qed.

(** ** Sums *)
Lemma sumZ_cons x l : sumZ (x :: l) = x + sumZ l.
Proof.
  unfold sumZ. cbn [foldl]. assert (∀ z, foldl Z.add (z + x) l = x + foldl Z.add z l) as H; [|by apply H].
  induction l as [|y l IH]; intros z; cbn [foldl]; [lia|].
  rewrite <-IH. f_equal. lia.
Qed.
Lemma sumZ_app l1 l2 : sumZ (l1 ++ l2) = sumZ l1 + sumZ l2.
Proof. induction l1 as [|x l1 IH]; [done|]. cbn [app]. rewrite !sumZ_cons, IH. lia. Qed.
#[export] Instance sumZ_perm : Proper ((≡ₚ) ==> (=)) sumZ.
Proof. induction 1; rewrite ?sumZ_cons in *; lia. Qed.
Lemma sumZ_nonneg l : Forall (λ x, 0 ≤ x) l → 0 ≤ sumZ l.
Proof. induction 1; [done|]. rewrite sumZ_cons. lia. Qed.

(** What a script run leaves behind: exit status, stdout lines, stderr lines. *)
Record outcome := { rc : Z; out : list string; err : list string }.

Create HintDb py.
#[export] Hint Resolve od_set_NoDup : py.
#[export] Hint Rewrite @bind_Ok @raise_when_Ok @of_option_Ok @fmap_Ok : py.

(** [dupds]: turn an [Ok] equation of a monadic program into its steps. *)
Ltac inv_ok :=
  repeat match goal with
  | H : (_ ≫= _) = Ok _ |- _ => apply bind_Ok in H as (? & ? & ?)
  | H : raise_when _ _ = Ok _ |- _ => apply raise_when_Ok in H
  | H : of_option _ _ = Ok _ |- _ => apply of_option_Ok in H
  | H : _ <$> _ = Ok _ |- _ => apply fmap_Ok in H as (? & ? & ?)
  | H : Ok _ = Ok _ |- _ => injection H as H
  | H : Err _ = Ok _ |- _ => discriminate H
  end.
