(* ===== verification/PyStr.v ===== *)
(** * Python [str] operations used by the scripts

    A Python string is modelled by its UTF-8 bytes in a Rocq [string].  The
    classifications below ([isspace], line boundaries, digits) are Python's on
    the ASCII range; a byte above 127 is an ordinary character, so the model is
    exact for texts whose non-ASCII characters are neither spaces, line
    boundaries nor digits (serial logs, CSVs, kconfig files and the messages
    the scripts build). *)
From S2P Require Import Prelude.
From Stdlib Require Import Ascii.

Abbreviation to_l := String.list_ascii_of_string.
Abbreviation of_l := String.string_of_list_ascii.

Definition chr (n : N) : ascii := ascii_of_N n.
Definition ord (a : ascii) : N := N_of_ascii a.
(** The characters Rocq's string syntax makes awkward. *)
Definition dq : string := String (chr 34) EmptyString.
Definition nl : string := String (chr 10) EmptyString.
Definition cr : string := String (chr 13) EmptyString.
Definition tab : string := String (chr 9) EmptyString.
Definition bslash : string := String (chr 92) EmptyString.

Definition in_range (lo hi : N) (a : ascii) : bool := (lo <=? ord a)%N && (ord a <=? hi)%N.
(** [str.isspace] on ASCII: 0x09-0x0d, 0x1c-0x1f and the space. *)
Definition is_space (a : ascii) : bool := in_range 9 13 a || in_range 28 32 a.
Definition is_digit (a : ascii) : bool := in_range 48 57 a.
Definition is_upper (a : ascii) : bool := in_range 65 90 a.
Definition is_lower (a : ascii) : bool := in_range 97 122 a.
Definition is_word (a : ascii) : bool :=
  is_digit a || is_upper a || is_lower a || (ord a =? 95)%N.
Definition to_lower (a : ascii) : ascii := if is_upper a then chr (ord a + 32) else a.

Fixpoint drop_while (p : ascii → bool) (l : list ascii) : list ascii :=
  match l with
  | [] => []
  | a :: l' => if p a then drop_while p l' else l
  end.
Fixpoint take_while (p : ascii → bool) (l : list ascii) : list ascii :=
  match l with
  | [] => []
  | a :: l' => if p a then a :: take_while p l' else []
  end.
Definition strip_l (l : list ascii) : list ascii :=
  reverse (drop_while is_space (reverse (drop_while is_space l))).
(** [s.strip()], [s.rstrip("\r")], [s.lower()] *)
Definition strip (s : string) : string := of_l (strip_l (to_l s)).
Definition rstrip_chars (p : ascii → bool) (s : string) : string :=
  of_l (reverse (drop_while p (reverse (to_l s)))).
Definition lower (s : string) : string := of_l (to_lower <$> to_l s).

(** [s.splitlines()]: boundaries "\n", "\r", "\r\n", "\v", "\f",
    "\x1c"-"\x1e"; no final empty line. [acc] is the reversed current line. *)
Definition is_linebreak (a : ascii) : bool := in_range 10 13 a || in_range 28 30 a.
Fixpoint splitlines_l (acc : list ascii) (l : list ascii) : list (list ascii) :=
  match l with
  | [] => match acc with [] => [] | _ => [reverse acc] end
  | a :: l' =>
    if (ord a =? 13)%N then
      match l' with
      | b :: l'' => if (ord b =? 10)%N then reverse acc :: splitlines_l [] l''
                    else reverse acc :: splitlines_l [] l'
      | [] => reverse acc :: splitlines_l [] l'
      end
    else if is_linebreak a then reverse acc :: splitlines_l [] l'
    else splitlines_l (a :: acc) l'
  end.
Definition splitlines (s : string) : list string := of_l <$> splitlines_l [] (to_l s).

(** [s.split()] *)
Fixpoint split_ws_l (acc : list ascii) (l : list ascii) : list (list ascii) :=
  match l with
  | [] => match acc with [] => [] | _ => [reverse acc] end
  | a :: l' =>
    if is_space a then
      match acc with [] => split_ws_l [] l' | _ => reverse acc :: split_ws_l [] l' end
    else split_ws_l (a :: acc) l'
  end.
Definition split_ws (s : string) : list string := of_l <$> split_ws_l [] (to_l s).

(** [s.split(c)] for a one-character separator, and [s.split(c, 1)]. *)
Fixpoint split_on_l (c : ascii) (acc : list ascii) (l : list ascii) : list (list ascii) :=
  match l with
  | [] => [reverse acc]
  | a :: l' => if Ascii.eqb a c then reverse acc :: split_on_l c [] l'
               else split_on_l c (a :: acc) l'
  end.
Definition split_on (c : ascii) (s : string) : list string := of_l <$> split_on_l c [] (to_l s).
Fixpoint split_once_l (c : ascii) (acc : list ascii) (l : list ascii) :
    option (list ascii * list ascii) :=
  match l with
  | [] => None
  | a :: l' => if Ascii.eqb a c then Some (reverse acc, l') else split_once_l c (a :: acc) l'
  end.
Definition split_once (c : ascii) (s : string) : option (string * string) :=
  match split_once_l c [] (to_l s) with Some (a, b) => Some (of_l a, of_l b) | None => None end.

Fixpoint prefix_l (p l : list ascii) : bool :=
  match p, l with
  | [], _ => true
  | a :: p, b :: l => Ascii.eqb a b && prefix_l p l
  | _ :: _, [] => false
  end.
Definition startswith (s p : string) : bool := prefix_l (to_l p) (to_l s).
Definition endswith (s p : string) : bool := prefix_l (reverse (to_l p)) (reverse (to_l s)).
(** [s.find(sub)]: the first position, if any; [sub in s]. *)
Fixpoint find_l (p l : list ascii) : option nat :=
  if prefix_l p l then Some 0%nat
  else match l with [] => None | _ :: l => S <$> find_l p l end.
Definition find (sub s : string) : option nat := find_l (to_l sub) (to_l s).
Definition str_in (sub s : string) : bool := is_some (find sub s).
(** [s.replace(a, b)] for a nonempty [a]; [n] bounds the scan by the length. *)
Fixpoint replace_l (n : nat) (p q l : list ascii) : list ascii :=
  match n with
  | O => l
  | S n =>
    match l with
    | [] => []
    | c :: l' => if prefix_l p l then q ++ replace_l n p q (drop (length p) l)
                 else c :: replace_l n p q l'
    end
  end.
Definition replace (a b s : string) : string :=
  of_l (replace_l (String.length s) (to_l a) (to_l b) (to_l s)).
(** [s[i:j]] with nonnegative bounds, [s[i:]] *)
Definition slice (i j : nat) (s : string) : string := of_l (take (j - i) (drop i (to_l s))).
Definition slice_from (i : nat) (s : string) : string := of_l (drop i (to_l s)).
(** [s[:n]] counted in code points: a UTF-8 continuation byte is not one. *)
Definition is_cont (a : ascii) : bool := in_range 128 191 a.
Fixpoint take_chars_l (n : nat) (l : list ascii) : list ascii :=
  match l with
  | [] => []
  | a :: l => if is_cont a then a :: take_chars_l n l
              else match n with O => [] | S n => a :: take_chars_l n l end
  end.
Definition take_chars (n : nat) (s : string) : string := of_l (take_chars_l n (to_l s)).
(** [s.ljust(n, c)] *)
Definition ljust (n : nat) (c : ascii) (s : string) : string :=
  s +:+ of_l (replicate (n - String.length s) c).
Definition rjust (n : nat) (c : ascii) (s : string) : string :=
  of_l (replicate (n - String.length s) c) +:+ s.
(** [sep.join(l)] *)
Fixpoint join (sep : string) (l : list string) : string :=
  match l with
  | [] => ""
  | [s] => s
  | s :: l => s +:+ sep +:+ join sep l
  end.
Definition lines_ (l : list string) : string := join nl l.
(** [s.isdigit()] *)
Definition isdigit (s : string) : bool :=
  negb (String.eqb s "") && forallb is_digit (to_l s).
(** [s * n] *)
Fixpoint str_repeat (n : nat) (s : string) : string :=
  match n with O => "" | S n => s +:+ str_repeat n s end.

(** ** Integers to text and back *)
Definition digit_chr (d : N) : ascii := if (d <? 10)%N then chr (48 + d) else chr (87 + d).
Fixpoint digits_go (fuel : nat) (b n : N) (acc : list ascii) : list ascii :=
  match fuel with
  | O => acc
  | S f =>
    let acc := digit_chr (n mod b) :: acc in
    if (n <? b)%N then acc else digits_go f b (n / b) acc
  end.
Definition digits (b n : N) : list ascii := digits_go (S (N.to_nat (N.log2 n))) b n [].
Definition str_of_N (n : N) : string := of_l (digits 10 n).
(** [str(z)], [f"{z:x}"] for [z >= 0] *)
Definition str_of_Z (z : Z) : string :=
  match z with
  | Z0 => "0"
  | Zpos p => str_of_N (Npos p)
  | Zneg p => "-" +:+ str_of_N (Npos p)
  end.
Definition hex_of_Z (z : Z) : string :=
  match z with
  | Z0 => "0"
  | Zpos p => of_l (digits 16 (Npos p))
  | Zneg p => "-" +:+ of_l (digits 16 (Npos p))
  end.
Definition str_of_nat (n : nat) : string := str_of_N (N.of_nat n).

Definition digit_val (a : ascii) : option N :=
  if is_digit a then Some (ord a - 48)%N
  else if is_upper a then Some (ord a - 55)%N
  else if is_lower a then Some (ord a - 87)%N
  else None.
Definition digit_in (b : N) (a : ascii) : option N :=
  match digit_val a with Some d => if (d <? b)%N then Some d else None | None => None end.
(** A digit run with single underscores between digits, as [int()] takes it. *)
Fixpoint parse_digits (b : N) (acc : N) (l : list ascii) : option N :=
  match l with
  | [] => Some acc
  | a :: l' =>
    match digit_in b a with
    | Some d => parse_digits b (acc * b + d) l'
    | None =>
      if (ord a =? 95)%N then
        match l' with
        | a' :: l'' => match digit_in b a' with
                       | Some d => parse_digits b (acc * b + d) l''
                       | None => None
                       end
        | [] => None
        end
      else None
    end
  end.
Definition parse_nat_l (b : N) (l : list ascii) : option N :=
  match l with
  | [] => None
  | a :: l' => match digit_in b a with Some d => parse_digits b d l' | None => None end
  end.
Definition parse_sign (l : list ascii) : bool * list ascii :=
  match l with
  | a :: l' => if (ord a =? 45)%N then (true, l')
               else if (ord a =? 43)%N then (false, l') else (false, l)
  | [] => (false, [])
  end.
Definition signed (neg : bool) (n : N) : Z := if neg then - Z.of_N n else Z.of_N n.
(** [int(s)] and [int(s, 16)] (optional 0x prefix, which may be followed by an
    underscore); [None] is a [ValueError]. *)
Definition int_of_str (s : string) : option Z :=
  let '(neg, l) := parse_sign (strip_l (to_l s)) in
  signed neg <$> parse_nat_l 10 l.
Definition strip_0x (l : list ascii) : list ascii :=
  match l with
  | a :: b :: l' =>
    if ((ord a =? 48) && ((ord b =? 120) || (ord b =? 88)))%N
    then match l' with c :: l'' => if (ord c =? 95)%N then l'' else l' | [] => l' end
    else l
  | _ => l
  end.
Definition int16_of_str (s : string) : option Z :=
  let '(neg, l) := parse_sign (strip_l (to_l s)) in
  signed neg <$> parse_nat_l 16 (strip_0x l).

(** ** [repr] *)
Definition repr_chr (q : ascii) (a : ascii) : string :=
  let n := ord a in
  if (Ascii.eqb a q || (n =? 92)%N) then bslash +:+ String a ""
  else if (n =? 10)%N then bslash +:+ "n"
  else if (n =? 13)%N then bslash +:+ "r"
  else if (n =? 9)%N then bslash +:+ "t"
  else if ((n <? 32) || (n =? 127))%N then bslash +:+ "x" +:+ rjust 2 (chr 48) (of_l (digits 16 n))
  else String a "".
(** [repr(s)]: single quotes unless the string has one and no double quote. *)
Definition repr_str (s : string) : string :=
  let l := to_l s in
  let has c := existsb (λ a, (ord a =? c)%N) l in
  let q := if has 39%N && negb (has 34%N) then chr 34 else chr 39 in
  String q "" +:+ String.concat "" (repr_chr q <$> l) +:+ String q "".
Definition repr_list (l : list string) : string := "[" +:+ join ", " l +:+ "]".
Definition repr_tuple (l : list string) : string :=
  match l with [x] => "(" +:+ x +:+ ",)" | _ => "(" +:+ join ", " l +:+ ")" end.
Definition repr_strs (l : list string) : string := repr_list (repr_str <$> l).

(** Code-point order is byte order in UTF-8. *)
Definition str_leb (a b : string) : bool := String.leb a b.
Definition sorted_strs (l : list string) : list string := sort_by str_leb l.

(** ** Lemmas *)
Lemma to_l_of_l (l : list ascii) : to_l (of_l l) = l.
Proof. apply String.list_ascii_of_string_of_list_ascii. Qed.
Lemma of_l_to_l (s : string) : of_l (to_l s) = s.
Proof. apply String.string_of_list_ascii_of_string. Qed.
Lemma to_l_app (a b : string) : to_l (a +:+ b) = to_l a ++ to_l b.
Proof. induction a as [|c a IH]; [done|]. exact (f_equal (cons c) IH). Qed.
Lemma of_l_app (a b : list ascii) : of_l (a ++ b) = of_l a +:+ of_l b.
Proof. induction a as [|c a IH]; [done|]. exact (f_equal (String c) IH). Qed.
Lemma length_to_l (s : string) : length (to_l s) = String.length s.
Proof. induction s; cbn; auto. Qed.
Lemma length_of_l (l : list ascii) : String.length (of_l l) = length l.
Proof. induction l; cbn; auto. Qed.
#[export] Hint Rewrite to_l_of_l of_l_to_l to_l_app of_l_app length_to_l length_of_l : pystr.
#[export] Instance to_l_inj : Inj (=) (=) (String.list_ascii_of_string).
Proof. intros a b H. by rewrite <-(of_l_to_l a), H, of_l_to_l. Qed.

Lemma drop_while_id p l : (∀ a, head l = Some a → p a = false) → drop_while p l = l.
Proof. destruct l as [|a l]; intros H; cbn; [done|]. by rewrite H. Qed.
Lemma strip_l_id l :
  (∀ a, head l = Some a → is_space a = false) →
  (∀ a, last l = Some a → is_space a = false) → strip_l l = l.
Proof.
  intros Hh Hl. unfold strip_l. rewrite (drop_while_id _ l Hh).
  rewrite drop_while_id; [apply reverse_involutive|].
  intros a Ha. apply Hl. by rewrite <-head_reverse.
Qed.
Lemma strip_l_Forall l : Forall (λ a, is_space a = false) l → strip_l l = l.
Proof.
  intros H. apply strip_l_id; intros a Ha.
  - destruct l; inversion H; cbn in *; congruence.
  - rewrite Forall_forall in H. apply H. by apply last_Some_elem_of.
Qed.

Lemma is_space_digit a : is_digit a = true → is_space a = false.
Proof. destruct a as [[] [] [] [] [] [] [] []]; vm_compute; congruence. Qed.
Lemma is_linebreak_digit a : is_digit a = true → is_linebreak a = false.
Proof. destruct a as [[] [] [] [] [] [] [] []]; vm_compute; congruence. Qed.
Lemma is_linebreak_cr a : is_linebreak a = false → (ord a =? 13)%N = false.
Proof. destruct a as [[] [] [] [] [] [] [] []]; vm_compute; congruence. Qed.
Lemma is_space_linebreak a : is_space a = false → is_linebreak a = false.
Proof. destruct a as [[] [] [] [] [] [] [] []]; vm_compute; congruence. Qed.

Lemma splitlines_l_line acc l rest :
  Forall (λ a, is_linebreak a = false) l →
  splitlines_l acc (l ++ chr 10 :: rest) = (reverse acc ++ l) :: splitlines_l [] rest.
Proof.
  revert acc. induction l as [|a l IH]; intros acc Hl.
  - cbn. by rewrite app_nil_r.
  - apply Forall_cons in Hl as [Ha Hl]. cbn [app splitlines_l].
    rewrite (is_linebreak_cr _ Ha), Ha, (IH _ Hl), reverse_cons. by rewrite <-app_assoc.
Qed.
Lemma splitlines_cons (s rest : string) :
  Forall (λ a, is_linebreak a = false) (to_l s) →
  splitlines (s +:+ nl +:+ rest) = s :: splitlines rest.
Proof.
  intros H. unfold splitlines. autorewrite with pystr.
  change (to_l nl ++ to_l rest) with (chr 10 :: to_l rest).
  rewrite splitlines_l_line by done. cbn. by rewrite of_l_to_l.
Qed.

(** Printing then parsing a number gives it back, in any base up to 16. *)
Lemma digit_in_chr b d : (b <= 16 → d < b → digit_in b (digit_chr d) = Some d)%N.
Proof.
  intros Hb Hd. assert (d < 16)%N as Hd' by lia. unfold digit_in.
  assert (digit_val (digit_chr d) = Some d) as ->.
  { clear Hb Hd. revert d Hd'.
    assert (∀ k, (k < 16)%nat → digit_val (digit_chr (N.of_nat k)) = Some (N.of_nat k)) as H.
    { do 16 (destruct k; [reflexivity|]). lia. }
    intros d Hd. specialize (H (N.to_nat d)). rewrite N2Nat.id in H. apply H. lia. }
  by rewrite (proj2 (N.ltb_lt _ _) Hd).
Qed.
Lemma digit_chr_digit d : (d < 10)%N → is_digit (digit_chr d) = true.
Proof.
  intros Hd.
  assert (∀ k, (k < 10)%nat → is_digit (digit_chr (N.of_nat k)) = true) as H.
  { do 10 (destruct k; [reflexivity|]). lia. }
  specialize (H (N.to_nat d)). rewrite N2Nat.id in H. apply H. lia.
Qed.

Lemma digits_go_spec fuel b n acc :
  (2 <= b → n < b ^ N.of_nat fuel → 0 < N.of_nat fuel →
  ∃ ds, digits_go fuel b n acc = (digit_chr <$> ds) ++ acc ∧ ds ≠ [] ∧
    Forall (λ d, d < b) ds ∧
    ∀ a, foldl (λ x d, x * b + d) a ds = a * b ^ N.of_nat (length ds) + n)%N.
Proof.
  intros Hb. revert n acc. induction fuel as [|f IH]; intros n acc Hn Hf; [lia|].
  cbn [digits_go]. destruct (N.ltb_spec n b).
  - exists [n mod b]%N. rewrite N.mod_small by done. cbn. split_and!; [done|done| |].
    + by constructor.
    + intros a. change (N.pos (Pos.of_succ_nat 0)) with 1%N. rewrite N.pow_1_r. lia.
  - assert (0 < N.of_nat f)%N.
    { destruct f; [|lia]. change (N.of_nat 1) with 1%N in Hn. rewrite N.pow_1_r in Hn. lia. }
    destruct (IH (n / b) (digit_chr (n mod b) :: acc))%N as (ds & Hds & Hne & Hall & Hval); [|done|].
    { apply N.Div0.div_lt_upper_bound. rewrite Nat2N.inj_succ, N.pow_succ_r' in Hn. done. }
    exists (ds ++ [n mod b])%N. rewrite Hds, fmap_app, <-app_assoc. split_and!; [done| | |].
    + by destruct ds.
    + apply Forall_app. split; [done|]. constructor; [apply N.mod_lt; lia|constructor].
    + intros a. rewrite foldl_app, Hval. cbn. rewrite length_app. cbn.
      rewrite Nat.add_1_r, Nat2N.inj_succ, N.pow_succ_r'.
      pose proof (N.div_mod n b ltac:(lia)) as Hdm.
      set (q := (n / b)%N) in *. set (r := (n mod b)%N) in *. clearbody q r. subst n.
      ring.
Qed.
Lemma digits_spec b n :
  (2 <= b)%N → ∃ ds, digits b n = digit_chr <$> ds ∧ ds ≠ [] ∧ Forall (λ d, (d < b)%N) ds ∧
    foldl (λ x d, x * b + d)%N 0%N ds = n.
Proof.
  intros Hb. destruct (digits_go_spec (S (N.to_nat (N.log2 n))) b n []) as (ds & H1 & H2 & H3 & H4).
  - done.
  - rewrite Nat2N.inj_succ, N2Nat.id. eapply N.lt_le_trans; [|apply N.pow_le_mono_l, Hb].
    destruct (N.eq_dec n 0) as [->|]; [done|]. apply N.log2_spec. lia.
  - lia.
  - exists ds. rewrite app_nil_r in H1. split_and!; [done..|]. by rewrite H4.
Qed.
Lemma parse_digits_chr b a ds : (b <= 16)%N → Forall (λ d, (d < b)%N) ds →
  parse_digits b a (digit_chr <$> ds) = Some (foldl (λ x d, x * b + d)%N a ds).
Proof.
  intros Hb H. revert a. induction H as [|d ds Hd _ IH]; intros a; cbn; [done|].
  rewrite digit_in_chr by done. apply IH.
Qed.
Lemma parse_nat_digits b n : (2 <= b <= 16)%N → parse_nat_l b (digits b n) = Some n.
Proof.
  intros [Hb Hb']. destruct (digits_spec b n Hb) as (ds & -> & Hne & Hall & Hval).
  destruct ds as [|d ds]; [done|]. apply Forall_cons in Hall as [Hd Hall]. cbn.
  rewrite digit_in_chr by done. rewrite parse_digits_chr by done. f_equal. exact Hval.
Qed.
Lemma digits_10_digit n : Forall (λ a, is_digit a = true) (digits 10 n).
Proof.
  destruct (digits_spec 10 n) as (ds & -> & _ & H & _); [done|].
  apply Forall_fmap. eapply Forall_impl; [exact H|]. intros d. apply digit_chr_digit.
Qed.
Lemma digits_nonnil b n : (2 <= b)%N → digits b n ≠ [].
Proof. intros H. destruct (digits_spec b n H) as ([] & -> & ? & _); done. Qed.

Lemma parse_sign_digit l : Forall (λ a, is_digit a = true) l → parse_sign l = (false, l).
Proof.
  destruct 1 as [|a l Ha _]; cbn; [done|].
  assert ((ord a =? 45)%N = false ∧ (ord a =? 43)%N = false) as [-> ->]; [|done].
  destruct a as [[] [] [] [] [] [] [] []]; vm_compute in Ha |- *; try done.
Qed.
Lemma strip_l_digit l : Forall (λ a, is_digit a = true) l → strip_l l = l.
Proof. intros H. apply strip_l_Forall. eapply Forall_impl; [exact H|]. intros a. apply is_space_digit. Qed.

Lemma int_of_str_of_N n : int_of_str (str_of_N n) = Some (Z.of_N n).
Proof.
  unfold int_of_str, str_of_N. rewrite to_l_of_l, strip_l_digit by apply digits_10_digit.
  rewrite parse_sign_digit by apply digits_10_digit. by rewrite parse_nat_digits.
Qed.
Lemma int_of_str_of_Z z : int_of_str (str_of_Z z) = Some z.
Proof.
  destruct z as [|p|p]; [done|apply int_of_str_of_N|].
  unfold str_of_Z, int_of_str, str_of_N. rewrite to_l_app, to_l_of_l.
  change (to_l "-") with [chr 45]. cbn [app].
  rewrite strip_l_Forall; cycle 1.
  { constructor; [done|]. eapply Forall_impl; [apply digits_10_digit|].
    intros a. apply is_space_digit. }
  cbn [parse_sign]. change (ord (chr 45) =? 45)%N with true. cbn iota.
  by rewrite parse_nat_digits.
Qed.
Lemma isdigit_str_of_N n : isdigit (str_of_N n) = true.
Proof.
  unfold isdigit, str_of_N. rewrite to_l_of_l. apply andb_true_iff. split.
  - pose proof (digits_nonnil 10 n ltac:(done)). by destruct (digits 10 n).
  - apply forallb_forall. pose proof (digits_10_digit n) as H.
    rewrite List.Forall_forall in H. exact H.
Qed.

Lemma digit_in_digit a : is_digit a = true → ∃ d, digit_in 10 a = Some d.
Proof. destruct a as [[] [] [] [] [] [] [] []]; vm_compute; try discriminate; eauto. Qed.
Lemma parse_digits_digit acc l : Forall (λ a, is_digit a = true) l → ∃ n, parse_digits 10 acc l = Some n.
Proof.
  intros H. revert acc. induction H as [|a l Ha _ IH]; intros acc; cbn; [eauto|].
  destruct (digit_in_digit a Ha) as [d ->]. apply IH.
Qed.
(** [int()] of a nonempty digit run never raises. *)
Lemma int_of_digits l : l ≠ [] → Forall (λ a, is_digit a = true) l →
  ∃ n, int_of_str (of_l l) = Some (Z.of_N n).
Proof.
  intros Hne Hl. unfold int_of_str. rewrite to_l_of_l, strip_l_digit, parse_sign_digit by done.
  destruct l as [|a l]; [done|]. apply Forall_cons in Hl as [Ha Hl]. cbn.
  destruct (digit_in_digit a Ha) as [d ->]. destruct (parse_digits_digit d l Hl) as [n ->]. cbn. eauto.
Qed.
Lemma isdigit_Forall s : isdigit s = true ↔ s ≠ "" ∧ Forall (λ a, is_digit a = true) (to_l s).
Proof.
  unfold isdigit. rewrite andb_true_iff, negb_true_iff, String.eqb_neq, forallb_forall, Forall_forall.
  by setoid_rewrite <-list_elem_of_In.
Qed.
Lemma to_l_str_of_N n : to_l (str_of_N n) = digits 10 n.
Proof. apply to_l_of_l. Qed.
Lemma startswith_app p s : startswith (p +:+ s) p = true.
Proof.
  unfold startswith. rewrite to_l_app. induction (to_l p) as [|a l IH]; [done|].
  cbn. by rewrite Ascii.eqb_refl.
Qed.
Lemma replace_l_id n c l : Forall (λ a, a ≠ c) l → (length l ≤ n)%nat → replace_l n [c] [] l = l.
Proof.
  revert l. induction n as [|n IH]; intros [|a l] H Hn; cbn in *; try done; try lia.
  apply Forall_cons in H as [Ha H]. destruct (Ascii.eqb_spec c a); [congruence|].
  cbn. f_equal. apply IH; [done|lia].
Qed.
Lemma replace_cr_id s : Forall (λ a, is_linebreak a = false) (to_l s) → replace cr "" s = s.
Proof.
  intros H. unfold replace. change (to_l cr) with [chr 13]. change (to_l "") with (@nil ascii).
  rewrite replace_l_id; [apply of_l_to_l| |rewrite length_to_l; lia].
  eapply Forall_impl; [exact H|]. intros a Ha ->. done.
Qed.

(** A run of one class followed by something else splits in one way. *)
Lemma span_unique (f : ascii → bool) (u v x y : list ascii) a b :
  Forall (λ c, f c = true) u → Forall (λ c, f c = true) v → f a = false → f b = false →
  u ++ a :: x = v ++ b :: y → u = v ∧ a :: x = b :: y.
Proof.
  intros Hu. revert v. induction Hu as [|c u Hc _ IH]; intros v Hv Ha Hb Heq.
  - destruct Hv as [|d v Hd _]; [done|]. cbn in Heq. congruence.
  - destruct Hv as [|d v Hd Hv]; cbn in Heq; [congruence|].
    injection Heq as -> Heq. destruct (IH v Hv Ha Hb Heq) as [-> ?]. done.
Qed.

Definition no_break (s : string) : Prop := Forall (λ a, is_linebreak a = false) (to_l s).
Lemma no_break_app a b : no_break (a +:+ b) ↔ no_break a ∧ no_break b.
Proof. unfold no_break. rewrite to_l_app. apply Forall_app. Qed.
Lemma no_break_literal s : forallb (λ a, negb (is_linebreak a)) (to_l s) = true → no_break s.
Proof.
  intros H. apply Forall_forall. intros a Ha. rewrite forallb_forall in H.
  apply list_elem_of_In in Ha. specialize (H a Ha). by destruct (is_linebreak a).
Qed.

(** Lines each ended by a newline, and their [splitlines()]. *)
Definition unterminated (l : list string) : string := lines_ (l ++ [""]).
Lemma splitlines_unterminated ls : Forall no_break ls → splitlines (unterminated ls) = ls.
Proof.
  unfold unterminated, lines_. induction 1 as [|l ls Hl _ IH]; [done|].
  cbn [app join]. destruct (ls ++ [""]) as [|x xs] eqn:E; [by destruct ls|].
  rewrite splitlines_cons by done. by rewrite IH.
Qed.

(** [sub in s] means what it says. *)
Lemma prefix_l_spec p l : prefix_l p l = true ↔ ∃ l', l = p ++ l'.
Proof.
  revert l. induction p as [|a p IH]; intros l; cbn; [naive_solver|].
  destruct l as [|b l]; [naive_solver|].
  rewrite andb_true_iff, IH. destruct (Ascii.eqb_spec a b); naive_solver.
Qed.
Lemma find_l_None p l : find_l p l = None ↔ ∀ a b, l ≠ a ++ p ++ b.
Proof.
  induction l as [|c l IH]; cbn.
  - destruct (prefix_l p []) eqn:E; split; try done.
    + apply prefix_l_spec in E as [l' E]. intros H. by destruct (H [] l').
    + intros _ a b H. destruct a as [|]; [|done]. cbn in H.
      assert (prefix_l p [] = true) by (apply prefix_l_spec; eauto). congruence.
  - destruct (prefix_l p (c :: l)) eqn:E.
    + split; [done|]. apply prefix_l_spec in E as [l' E]. intros H. by destruct (H [] l').
    + rewrite fmap_None, IH. split; intros H a b Heq.
      * destruct a as [|a0 a]; cbn in Heq.
        -- assert (prefix_l p (c :: l) = true) by (apply prefix_l_spec; eauto). congruence.
        -- injection Heq as -> Heq. by destruct (H a b).
      * apply (H (c :: a) b). cbn. by rewrite Heq.
Qed.
Lemma find_None sub s : find sub s = None ↔ ∀ a b, s ≠ a +:+ sub +:+ b.
Proof.
  unfold find. rewrite find_l_None. split; intros H a b Heq.
  - apply (H (to_l a) (to_l b)). by rewrite Heq, !to_l_app.
  - apply (H (of_l a) (of_l b)). apply (inj to_l). by rewrite !to_l_app, !to_l_of_l.
Qed.
Lemma find_l_Some p l i : find_l p l = Some i → ∃ a b, l = a ++ p ++ b.
Proof.
  revert i. induction l as [|c l IH]; intros i; cbn.
  - destruct (prefix_l p []) eqn:E; [|done]. apply prefix_l_spec in E as [l' E]. intros _. by exists [], l'.
  - destruct (prefix_l p (c :: l)) eqn:E.
    + apply prefix_l_spec in E as [l' E]. intros _. by exists [], l'.
    + intros (j & Hj & _)%fmap_Some. apply IH in Hj as (a & b & ->). by exists (c :: a), b.
Qed.
Lemma find_Some sub s i : find sub s = Some i → ∃ a b, s = a +:+ sub +:+ b.
Proof.
  intros (a & b & H)%find_l_Some. exists (of_l a), (of_l b). apply (inj to_l).
  by rewrite !to_l_app, !to_l_of_l.
Qed.
Lemma str_in_spec sub s : str_in sub s = true ↔ ∃ a b, s = a +:+ sub +:+ b.
Proof.
  unfold str_in. destruct (find sub s) as [i|] eqn:E; split; try done.
  - intros _. by apply find_Some in E.
  - intros (a & b & ->). by destruct (proj1 (find_None _ _) E a b).
Qed.
Lemma str_in_app sub a b : str_in sub (a +:+ sub +:+ b) = true.
Proof. apply str_in_spec. eauto. Qed.
Lemma app_str_assoc (a b c : string) : a +:+ (b +:+ c) = (a +:+ b) +:+ c.
Proof. apply (inj to_l). by rewrite !to_l_app, app_assoc. Qed.
Lemma app_str_nil_r (a : string) : a +:+ "" = a.
Proof. apply (inj to_l). by rewrite to_l_app, app_nil_r. Qed.
Lemma str_in_prefix sub s t : str_in sub s = true → str_in sub (s +:+ t) = true.
Proof. intros (a & b & ->)%str_in_spec. rewrite <-!app_str_assoc. apply str_in_app. Qed.

(** [s.split(c)] undoes [c.join(l)] when no piece contains [c]. *)
Lemma split_on_l_app c acc u l : Forall (λ a, Ascii.eqb a c = false) u →
  split_on_l c acc (u ++ l) = split_on_l c (reverse u ++ acc) l.
Proof.
  revert acc. induction u as [|a u IH]; intros acc H; [done|]. cbn [app split_on_l].
  apply Forall_cons in H as [-> H]. rewrite IH by done. by rewrite reverse_cons, <-app_assoc.
Qed.
Definition no_char (c : ascii) (s : string) : Prop := Forall (λ a, Ascii.eqb a c = false) (to_l s).
Lemma split_on_join c ss : ss ≠ [] → Forall (no_char c) ss → split_on c (join (String c "") ss) = ss.
Proof.
  intros Hne H. destruct ss as [|s ss]; [done|]. clear Hne. unfold split_on.
  revert s H. induction ss as [|s' ss IH]; intros s H; apply Forall_cons in H as [Hs H].
  - cbn [join]. rewrite <-(app_nil_r (to_l s)), split_on_l_app by done. cbn.
    by rewrite app_nil_r, reverse_involutive, of_l_to_l.
  - change (join (String c "") (s :: s' :: ss)) with (s +:+ String c "" +:+ join (String c "") (s' :: ss)).
    rewrite !to_l_app, split_on_l_app by done. rewrite app_nil_r. cbn [to_l app split_on_l].
    rewrite Ascii.eqb_refl. cbn [fmap list_fmap]. rewrite reverse_involutive, of_l_to_l. f_equal.
    by apply IH.
Qed.
