(* ===== verification/SelfTest.v ===== *)
(** * Self-tests by planted failures (the scripts' [selftest] commands)

    The scripts test their own gates: an input with a planted fault must raise
    the script's exception with a message that contains the expected words, a
    clean input must pass.  This file has the idiom, shared by report-exhibits.py,
    regime-witness.py and bench.py, and what a self-test that passes has shown. *)
From S2P Require Import Prelude PyStr.

(** A planted fault, over the exception class [c]:
    [[try: run(); raise c(unfired)
      except c as e: if a needle not in str(e): raise
                     fired.append(f"{label}: {e}")]].
    The exception of a run that returns is raised inside the same [try]. *)
Record plant := { pl_run : res unit; pl_unfired : string; pl_needles : list string; pl_label : string }.
(** [if not b: raise] is an [Accept] without lines; a clean input fires its line. *)
Inductive step := Plant (p : plant) | Accept (r : res (list string)).
Definition void {A} (r : res A) : res unit := _ ← r; Ok tt.
Definition accepts {A} (r : res A) (line : string) : step := Accept (_ ← r; Ok [line]).
(** [expect_fail(run, needle, label)] *)
Definition expected {A} (r : res A) (needle label : string) : plant :=
  {| pl_run := void r; pl_unfired := label +:+ " did not fire"; pl_needles := [needle]; pl_label := label |}.
Definition refuses {A} (r : res A) (needle label : string) : step := Plant (expected r needle label).
Definition in_message (msg : string) (needle : string) : bool := str_in needle msg.

Section selftest.
Context (c : user_class).
Definition fires (p : plant) : res string :=
  match (match pl_run p with Ok _ => UserExn c (pl_unfired p) | Err e => e end) with
  | UserExn c' msg => if bool_decide (c' = c) && forallb (in_message msg) (pl_needles p)
                      then Ok (pl_label p +:+ ": " +:+ msg) else Err (UserExn c' msg)
  | e => Err e
  end.
Definition run_step (fired : list string) (s : step) : res (list string) :=
  match s with
  | Plant p => line ← fires p; Ok (fired ++ [line])
  | Accept r => lines ← r; Ok (fired ++ lines)
  end.
Definition run_steps (steps : list step) : res (list string) := foldM run_step [] steps.

(** ** What a passing self-test has shown *)
(** The fault was planted, and refused for the expected reason. *)
Definition refused (p : plant) (msg : string) : Prop :=
  pl_run p = Err (UserExn c msg) ∧ forallb (in_message msg) (pl_needles p) = true.
(** The needles are words of the message that says the gate did not fire. *)
Definition vacuous (p : plant) : bool := forallb (in_message (pl_unfired p)) (pl_needles p).
Lemma fires_Ok p line : fires p = Ok line ↔
  (∃ msg, refused p msg ∧ line = pl_label p +:+ ": " +:+ msg) ∨
  (pl_run p = Ok tt ∧ vacuous p = true ∧ line = pl_label p +:+ ": " +:+ pl_unfired p).
Proof.
  unfold fires, refused, vacuous. destruct (pl_run p) as [[]|e].
  - rewrite bool_decide_eq_true_2 by done. cbn [andb]. destruct (forallb _ _); naive_solver.
  - split.
    + intros H. left. destruct e as [c' msg| | | | | | | | | | | | | | | ]; try discriminate H.
      destruct (bool_decide_reflect (c' = c)) as [->|]; [|discriminate H]. cbn [andb] in H.
      destruct (forallb _ _) eqn:E; [|discriminate H]. injection H as <-. eauto.
    + intros [(msg & [[= ->] Hn] & ->)|[? _]]; [|done]. rewrite bool_decide_eq_true_2 by done. cbn [andb]. by rewrite Hn.
Qed.
(** The lines a step adds. *)
Definition step_lines (s : step) : res (list string) :=
  match s with Plant p => line ← fires p; Ok [line] | Accept r => r end.
Lemma foldM_steps steps fired l :
  foldM run_step fired steps = Ok l ↔ ∃ ls, Forall2 (λ s x, step_lines s = Ok x) steps ls ∧ l = fired ++ mjoin ls.
Proof.
  revert fired. induction steps as [|s steps IH]; intros fired; cbn [foldM].
  - split; [intros [= <-]; exists []; by rewrite app_nil_r|]. by intros (ls & ->%Forall2_nil_inv_l & ->); rewrite app_nil_r.
  - rewrite bind_Ok. setoid_rewrite IH. split.
    + intros (f' & Hs & ls & Hls & ->). destruct s as [p|r]; apply bind_Ok in Hs as (x & Hx & [= <-]).
      * exists ([x] :: ls). split; [constructor; [cbn; by rewrite Hx|done]|]. cbn. by rewrite <-app_assoc.
      * exists (x :: ls). split; [by constructor|]. cbn. by rewrite <-app_assoc.
    + intros (ls & Hf & ->). inversion Hf as [|? x ? ls' Hx Hls]; subst. exists (fired ++ x).
      split; [|exists ls'; split; [done|cbn; by rewrite <-app_assoc]].
      destruct s as [p|r]; cbn in Hx |- *; [|by rewrite Hx].
      apply bind_Ok in Hx as (y & -> & [= <-]). done.
Qed.
Lemma run_steps_Ok steps l :
  run_steps steps = Ok l ↔ ∃ ls, Forall2 (λ s x, step_lines s = Ok x) steps ls ∧ l = mjoin ls.
Proof. apply foldM_steps. Qed.
Lemma run_steps_app s1 s2 l : run_steps (s1 ++ s2) = Ok l ↔
  ∃ l1 l2, run_steps s1 = Ok l1 ∧ run_steps s2 = Ok l2 ∧ l = l1 ++ l2.
Proof.
  setoid_rewrite run_steps_Ok. split.
  - intros (ls & (l1 & l2 & H1 & H2 & ->)%Forall2_app_inv_l & ->). eexists _, _. rewrite join_app. eauto 10.
  - intros (? & ? & (l1 & H1 & ->) & (l2 & H2 & ->) & ->). exists (l1 ++ l2). rewrite join_app. auto using Forall2_app.
Qed.
(** A planted fault of a passing self-test was refused, unless its needles are
    words of its own did-not-fire message. *)
Lemma run_steps_refused steps l p : run_steps steps = Ok l → Plant p ∈ steps →
  (∃ msg, refused p msg) ∨ (pl_run p = Ok tt ∧ vacuous p = true).
Proof.
  intros (ls & Hf & _)%run_steps_Ok Hp. apply list_elem_of_lookup in Hp as (i & Hi). destruct (Forall2_lookup_l _ _ _ _ _ Hf Hi) as (x & _ & Hx).
  apply bind_Ok in Hx as (line & Hl & _). apply fires_Ok in Hl as [(msg & H & _)|(H & Hv & _)]; eauto.
Qed.
Lemma vacuous_fires p a : vacuous p = true → pl_run p = Ok a → is_ok (fires p) = true.
Proof.
  destruct a. intros Hv Hr. assert (fires p = Ok (pl_label p +:+ ": " +:+ pl_unfired p)) as ->; [|done].
  apply fires_Ok. by right.
Qed.
(** The plants of a self-test, and those whose outcome says nothing. *)
Definition plants (steps : list step) : list plant := omap (λ s, match s with Plant p => Some p | Accept _ => None end) steps.
Definition vacuous_labels (steps : list step) : list string := pl_label <$> filter (λ p, vacuous p = true) (plants steps).
Lemma plants_in steps p : p ∈ plants steps ↔ Plant p ∈ steps.
Proof.
  unfold plants. rewrite list_elem_of_omap. split.
  - intros (s & Hs & H). destruct s as [q|r]; [|done]. by injection H as ->.
  - intros H. by exists (Plant p).
Qed.
Lemma vacuous_labels_in steps p : Plant p ∈ steps → vacuous p = true → pl_label p ∈ vacuous_labels steps.
Proof. intros Hp%plants_in Hv. apply list_elem_of_fmap. exists p. split; [done|]. by apply list_elem_of_filter. Qed.
(** Evidence: outside the vacuous labels a plant was refused; a label that marks
    vacuous plants only marks plants that fire whatever the gate does. *)
Lemma run_steps_evidence steps l vac p : run_steps steps = Ok l → vacuous_labels steps = vac →
  Plant p ∈ steps → pl_label p ∉ vac → ∃ msg, refused p msg.
Proof.
  intros Hrun <- Hp Hl. destruct (run_steps_refused _ _ _ Hrun Hp) as [H|[_ H]]; [done|].
  by destruct Hl; apply vacuous_labels_in.
Qed.
Definition let_through (p : plant) : plant :=
  {| pl_run := Ok tt; pl_unfired := pl_unfired p; pl_needles := pl_needles p; pl_label := pl_label p |}.
Definition marks_vacuous (vac : list string) (p : plant) : bool := negb (bool_decide (pl_label p ∈ vac)) || vacuous p.
Lemma marked_fires steps vac p : forallb (marks_vacuous vac) (plants steps) = true →
  Plant p ∈ steps → pl_label p ∈ vac → is_ok (fires (let_through p)) = true.
Proof.
  intros Hb Hp%plants_in%list_elem_of_In Hl. rewrite forallb_forall in Hb. specialize (Hb p Hp). unfold marks_vacuous in Hb.
  rewrite bool_decide_eq_true_2 in Hb by done. by eapply (vacuous_fires (let_through p)).
Qed.
End selftest.
