(* ===== verification/Regex.v ===== *)
(** * The fragment of Python's [re] the scripts use

    A backtracking matcher with Python's priorities (greedy repetition, left
    alternative first) over patterns whose repetitions are over one character
    class.  A subject is a character list with the character before it (for
    [^] and the word boundary).  The declarative relation [rmatches] is the
    reference; the matcher is sound and complete for it. *)
From S2P Require Import Prelude PyStr.
From Stdlib Require Import Ascii.

Inductive regex :=
  | RCls (f : ascii → bool)
  | RLit (s : string)
  | RSeq (r1 r2 : regex)
  | RAlt (r1 r2 : regex)
  | ROpt (r : regex)
  | RStar (f : ascii → bool)
  | RPlus (f : ascii → bool)
  | RTimes (n : nat) (f : ascii → bool)
  | RGrp (n : nat) (r : regex)
  | RBol | REol | RWordB.

Declare Scope re_scope.
Delimit Scope re_scope with re.
Bind Scope re_scope with regex.
Infix "⋅⋅" := RSeq (at level 45, right associativity) : re_scope.

(** The character classes of the patterns; [.] excludes the newline. *)
Definition cS (a : ascii) : bool := negb (is_space a).
Definition cs (a : ascii) : bool := is_space a.
Definition cd (a : ascii) : bool := is_digit a.
Definition cdot (a : ascii) : bool := negb (ord a =? 10)%N.
Definition cSYM (a : ascii) : bool := is_upper a || is_digit a || (ord a =? 95)%N.
Definition chex (a : ascii) : bool := is_digit a || in_range 97 102 a.
Definition cHEX (a : ascii) : bool := is_digit a || in_range 97 102 a || in_range 65 70 a.

(** Captures: the latest binding of a group first. *)
Abbreviation caps := (list (nat * string)).
Definition grp (n : nat) (c : caps) : string := default "" (od_get n c).

Definition word_at (o : option ascii) : bool := match o with Some a => is_word a | None => false end.
(** [$]: at the end, or before one final newline. *)
Definition at_end (l : list ascii) : bool :=
  match l with [] => true | [a] => (ord a =? 10)%N | _ => false end.
Definition last_of (pv : option ascii) (l : list ascii) : option ascii :=
  match last l with Some a => Some a | None => pv end.

Section matcher.
Context {R : Type}.
Abbreviation cont := (option ascii → list ascii → caps → option R).

Fixpoint m_lit (s : list ascii) (pv : option ascii) (l : list ascii) (c : caps) (k : cont) : option R :=
  match s with
  | [] => k pv l c
  | a :: s => match l with
              | b :: l => if Ascii.eqb a b then m_lit s (Some b) l c k else None
              | [] => None
              end
  end.
(** Greedy: the longest run first, then shorter ones. *)
Fixpoint m_star (f : ascii → bool) (pv : option ascii) (l : list ascii) (c : caps) (k : cont) : option R :=
  match l with
  | a :: l' =>
    if f a then match m_star f (Some a) l' c k with Some x => Some x | None => k pv l c end
    else k pv l c
  | [] => k pv l c
  end.
Fixpoint m_times (n : nat) (f : ascii → bool) (pv : option ascii) (l : list ascii) (c : caps) (k : cont) : option R :=
  match n with
  | O => k pv l c
  | S n => match l with
           | a :: l => if f a then m_times n f (Some a) l c k else None
           | [] => None
           end
  end.

Fixpoint rm (r : regex) (pv : option ascii) (l : list ascii) (c : caps) (k : cont) : option R :=
  match r with
  | RCls f => m_times 1 f pv l c k
  | RLit s => m_lit (to_l s) pv l c k
  | RSeq r1 r2 => rm r1 pv l c (λ pv' l' c', rm r2 pv' l' c' k)
  | RAlt r1 r2 => match rm r1 pv l c k with Some x => Some x | None => rm r2 pv l c k end
  | ROpt r => match rm r pv l c k with Some x => Some x | None => k pv l c end
  | RStar f => m_star f pv l c k
  | RPlus f => m_times 1 f pv l c (λ pv' l' c', m_star f pv' l' c' k)
  | RTimes n f => m_times n f pv l c k
  | RGrp n r =>
    rm r pv l c (λ pv' l' c', k pv' l' ((n, of_l (take (length l - length l') l)) :: c'))
  | RBol => match pv with None => k pv l c | Some _ => None end
  | REol => if at_end l then k pv l c else None
  | RWordB => if xorb (word_at pv) (word_at (head l)) then k pv l c else None
  end.
End matcher.

(** [r.match(s)], [r.search(s)], [r.finditer(s)]. *)
Record rmatch := { m_group0 : string; m_caps : caps }.
Definition match_at (r : regex) (pv : option ascii) (l : list ascii) :
    option (rmatch * (option ascii * list ascii)) :=
  rm r pv l [] (λ pv' l' c,
    Some ({| m_group0 := of_l (take (length l - length l') l); m_caps := c |}, (pv', l'))).
Definition re_match (r : regex) (s : string) : option rmatch := fst <$> match_at r None (to_l s).
Fixpoint search_l (r : regex) (pv : option ascii) (l : list ascii) :
    option (rmatch * (option ascii * list ascii)) :=
  match match_at r pv l with
  | Some x => Some x
  | None => match l with [] => None | a :: l => search_l r (Some a) l end
  end.
Definition re_search (r : regex) (s : string) : option rmatch := fst <$> search_l r None (to_l s).
(** [n] bounds the matches by the length; an empty match moves one character on. *)
Fixpoint finditer_l (n : nat) (r : regex) (pv : option ascii) (l : list ascii) : list rmatch :=
  match n with
  | O => []
  | S n =>
    match search_l r pv l with
    | None => []
    | Some (m, (pv', l')) =>
      m :: (if String.eqb (m_group0 m) "" then
              match l' with [] => [] | a :: l'' => finditer_l n r (Some a) l'' end
            else finditer_l n r pv' l')
    end
  end.
Definition re_finditer (r : regex) (s : string) : list rmatch :=
  finditer_l (S (String.length s)) r None (to_l s).
Definition grp_of (n : nat) (m : rmatch) : string := grp n (m_caps m).

(** ** Reference relation *)
Inductive rmatches : regex → option ascii → list ascii → caps →
                     option ascii → list ascii → caps → Prop :=
  | MCls f pv a l c : f a = true → rmatches (RCls f) pv (a :: l) c (Some a) l c
  | MLit s pv l c : rmatches (RLit s) pv (to_l s ++ l) c (last_of pv (to_l s)) l c
  | MSeq r1 r2 pv l c pv1 l1 c1 pv2 l2 c2 :
      rmatches r1 pv l c pv1 l1 c1 → rmatches r2 pv1 l1 c1 pv2 l2 c2 →
      rmatches (RSeq r1 r2) pv l c pv2 l2 c2
  | MAltL r1 r2 pv l c pv' l' c' : rmatches r1 pv l c pv' l' c' → rmatches (RAlt r1 r2) pv l c pv' l' c'
  | MAltR r1 r2 pv l c pv' l' c' : rmatches r2 pv l c pv' l' c' → rmatches (RAlt r1 r2) pv l c pv' l' c'
  | MOptN r pv l c : rmatches (ROpt r) pv l c pv l c
  | MOptS r pv l c pv' l' c' : rmatches r pv l c pv' l' c' → rmatches (ROpt r) pv l c pv' l' c'
  | MStar f u pv l c : Forall (λ a, f a = true) u →
      rmatches (RStar f) pv (u ++ l) c (last_of pv u) l c
  | MPlus f u pv l c : u ≠ [] → Forall (λ a, f a = true) u →
      rmatches (RPlus f) pv (u ++ l) c (last_of pv u) l c
  | MTimes n f u pv l c : length u = n → Forall (λ a, f a = true) u →
      rmatches (RTimes n f) pv (u ++ l) c (last_of pv u) l c
  | MGrp n r pv l c pv' l' c' : rmatches r pv l c pv' l' c' →
      rmatches (RGrp n r) pv l c pv' l' ((n, of_l (take (length l - length l') l)) :: c')
  | MBol l c : rmatches RBol None l c None l c
  | MEol pv l c : at_end l = true → rmatches REol pv l c pv l c
  | MWordB pv l c : xorb (word_at pv) (word_at (head l)) = true → rmatches RWordB pv l c pv l c.

Lemma last_of_cons pv a l : last_of pv (a :: l) = last_of (Some a) l.
Proof.
  unfold last_of. rewrite last_cons. by destruct (last l).
Qed.

Section correctness.
Context {R : Type}.
Abbreviation cont := (option ascii → list ascii → caps → option R).
Implicit Types (k : cont).

Lemma m_lit_sound s pv l c k x : m_lit s pv l c k = Some x →
  ∃ l', l = s ++ l' ∧ k (last_of pv s) l' c = Some x.
Proof.
  revert pv l. induction s as [|a s IH]; intros pv l; cbn; [eauto|].
  destruct l as [|b l]; [done|]. destruct (Ascii.eqb_spec a b) as [->|]; [|done].
  intros (l' & -> & H)%IH. exists l'. by rewrite last_of_cons.
Qed.
Lemma m_lit_complete s pv l c k : m_lit s pv (s ++ l) c k = k (last_of pv s) l c.
Proof.
  revert pv. induction s as [|a s IH]; intros pv; [done|]. cbn [app m_lit].
  by rewrite Ascii.eqb_refl, IH, last_of_cons.
Qed.
Lemma m_star_sound f pv l c k x : m_star f pv l c k = Some x →
  ∃ u l', l = u ++ l' ∧ Forall (λ a, f a = true) u ∧ k (last_of pv u) l' c = Some x.
Proof.
  revert pv. induction l as [|a l IH]; intros pv; cbn.
  - intros H. by exists [], [].
  - destruct (f a) eqn:Hf; [|intros H; by exists [], (a :: l)].
    destruct (m_star f (Some a) l c k) eqn:E; [|intros H; by exists [], (a :: l)].
    intros [= ->]. apply IH in E as (u & l' & -> & Hu & Hk).
    exists (a :: u), l'. rewrite last_of_cons. auto.
Qed.
Lemma m_star_complete f pv u l c k : Forall (λ a, f a = true) u →
  m_star f pv (u ++ l) c k = None → k (last_of pv u) l c = None.
Proof.
  intros Hu. revert pv. induction Hu as [|a u Ha _ IH]; intros pv.
  - cbn [app]. destruct l as [|b l]; cbn; [done|].
    destruct (f b); [|done]. by destruct (m_star f (Some b) l c k).
  - cbn. rewrite Ha. destruct (m_star f (Some a) (u ++ l) c k) eqn:E; [done|].
    intros _. apply IH in E. by rewrite last_of_cons.
Qed.
Lemma m_times_sound n f pv l c k x : m_times n f pv l c k = Some x →
  ∃ u l', l = u ++ l' ∧ length u = n ∧ Forall (λ a, f a = true) u ∧
          k (last_of pv u) l' c = Some x.
Proof.
  revert pv l. induction n as [|n IH]; intros pv l; cbn.
  - intros H. by exists [], l.
  - destruct l as [|a l]; [done|]. destruct (f a) eqn:Hf; [|done].
    intros (u & l' & -> & <- & Hu & Hk)%IH. exists (a :: u), l'. rewrite last_of_cons. auto.
Qed.
Lemma m_times_complete f pv u l c k : Forall (λ a, f a = true) u →
  m_times (length u) f pv (u ++ l) c k = k (last_of pv u) l c.
Proof.
  intros Hu. revert pv. induction Hu as [|a u Ha _ IH]; intros pv; [done|].
  cbn. rewrite Ha, IH. by rewrite last_of_cons.
Qed.
End correctness.

Lemma rm_sound {R} r pv l c (k : option ascii → list ascii → caps → option R) x :
  rm r pv l c k = Some x → ∃ pv' l' c', rmatches r pv l c pv' l' c' ∧ k pv' l' c' = Some x.
Proof.
  revert pv l c k x. induction r; intros pv l c k x; cbn [rm].
  - intros (u & l' & -> & Hn & Hu & Hk)%m_times_sound.
    destruct u as [|a [|]]; try done. apply Forall_cons in Hu as [Ha _].
    do 3 eexists. split; [by constructor|done].
  - intros (l' & -> & Hk)%m_lit_sound. do 3 eexists. split; [constructor|done].
  - intros (pv1 & l1 & c1 & H1 & (pv2 & l2 & c2 & H2 & Hk)%IHr2)%IHr1.
    do 3 eexists. split; [by econstructor|done].
  - destruct (rm r1 pv l c k) eqn:E.
    + intros [= ->]. apply IHr1 in E as (? & ? & ? & ? & ?). do 3 eexists. split; [by constructor|done].
    + intros (? & ? & ? & ? & ?)%IHr2. do 3 eexists. split; [by apply MAltR|done].
  - destruct (rm r pv l c k) eqn:E.
    + intros [= ->]. apply IHr in E as (? & ? & ? & ? & ?). do 3 eexists. split; [by apply MOptS|done].
    + intros H. do 3 eexists. split; [constructor|done].
  - intros (u & l' & -> & Hu & Hk)%m_star_sound. do 3 eexists. split; [by constructor|done].
  - intros (u & l1 & -> & Hn & Hu & (v & l2 & -> & Hv & Hk)%m_star_sound)%m_times_sound.
    destruct u as [|a [|]]; try done. do 3 eexists. split.
    + apply (MPlus f (a :: v)); [done|]. constructor; [by inversion Hu|done].
    + by rewrite last_of_cons.
  - intros (u & l' & -> & Hn & Hu & Hk)%m_times_sound. do 3 eexists. split; [by constructor|done].
  - intros (? & ? & ? & ? & ?)%IHr. do 3 eexists. split; [by constructor|done].
  - destruct pv; [done|]. intros H. do 3 eexists. split; [constructor|done].
  - destruct (at_end l) eqn:E; [|done]. intros H. do 3 eexists. split; [by constructor|done].
  - destruct (xorb _ _) eqn:E; [|done]. intros H. do 3 eexists. split; [by constructor|done].
Qed.

Lemma rm_complete {R} r pv l c pv' l' c' (k : option ascii → list ascii → caps → option R) :
  rmatches r pv l c pv' l' c' → rm r pv l c k = None → k pv' l' c' = None.
Proof.
  intros H. revert k. induction H; intros k; cbn [rm].
  - cbn. by rewrite H.
  - by rewrite m_lit_complete.
  - intros H1. apply IHrmatches1 in H1. by apply IHrmatches2 in H1.
  - destruct (rm r1 pv l c k) eqn:E; [done|]. auto.
  - destruct (rm r1 pv l c k); [done|]. auto.
  - by destruct (rm r pv l c k).
  - destruct (rm r pv l c k) eqn:E; [done|]. auto.
  - by apply m_star_complete.
  - destruct u as [|a u]; [done|]. cbn. apply Forall_cons in H0 as [-> H0].
    intros Hk. eapply m_star_complete in Hk; [|done]. by rewrite last_of_cons.
  - subst n. by rewrite m_times_complete.
  - intros Hk. by apply IHrmatches in Hk.
  - done.
  - by rewrite H.
  - by rewrite H.
Qed.

(** [r.match(s)] succeeds exactly when the relation has a derivation. *)
Lemma re_match_iff r s :
  is_Some (re_match r s) ↔ ∃ pv l c, rmatches r None (to_l s) [] pv l c.
Proof.
  unfold re_match, match_at. split.
  - intros [m (x & Hx & _)%fmap_Some]. apply rm_sound in Hx as (? & ? & ? & ? & _). eauto.
  - intros (pv & l & c & H). destruct (rm _ _ _ _ _) eqn:E; cbn; [eauto|].
    by pose proof (rm_complete _ _ _ _ _ _ _ _ H E).
Qed.

(** ** Deterministic steps: what the matcher does on a text of known shape *)
Section steps.
Context {R : Type}.
Abbreviation cont := (option ascii → list ascii → caps → option R).
Implicit Types (k : cont).

Lemma rm_seq r1 r2 pv l c k :
  rm (RSeq r1 r2) pv l c k = rm r1 pv l c (λ pv' l' c', rm r2 pv' l' c' k).
Proof. done. Qed.
Lemma rm_bol l c k : rm RBol None l c k = k None l c.
Proof. done. Qed.
Lemma rm_star f pv l c k : rm (RStar f) pv l c k = m_star f pv l c k.
Proof. done. Qed.
Lemma rm_eol_end pv c k : rm REol pv [] c k = k pv [] c.
Proof. done. Qed.
Lemma rm_lit_app s pv l c k : rm (RLit s) pv (to_l s ++ l) c k = k (last_of pv (to_l s)) l c.
Proof. apply m_lit_complete. Qed.
Lemma m_star_greedy f pv u l c k x : Forall (λ a, f a = true) u →
  (∀ a, head l = Some a → f a = false) → k (last_of pv u) l c = Some x →
  m_star f pv (u ++ l) c k = Some x.
Proof.
  intros Hu Hl. revert pv. induction Hu as [|a u Ha _ IH]; intros pv Hk.
  - destruct l as [|b l]; [done|]. cbn. by rewrite Hl.
  - rewrite last_of_cons in Hk. cbn. by rewrite Ha, IH.
Qed.
Lemma rm_plus_greedy f pv u l c k x : u ≠ [] → Forall (λ a, f a = true) u →
  (∀ a, head l = Some a → f a = false) → k (last_of pv u) l c = Some x →
  rm (RPlus f) pv (u ++ l) c k = Some x.
Proof.
  intros Hne Hu Hl Hk. destruct u as [|a u]; [done|]. apply Forall_cons in Hu as [Ha Hu].
  rewrite last_of_cons in Hk. cbn. rewrite Ha. by apply m_star_greedy.
Qed.
Lemma grp_hit n x c : grp n ((n, x) :: c) = x.
Proof. unfold grp. cbn [od_get]. by rewrite decide_True. Qed.
Lemma grp_miss (n j : nat) x c : n ≠ j → grp n ((j, x) :: c) = grp n c.
Proof. intros. unfold grp. cbn [od_get]. by rewrite decide_False. Qed.
Lemma rm_grp n r pv u l c k :
  rm (RGrp n r) pv (u ++ l) c k =
  rm r pv (u ++ l) c (λ pv' l' c', k pv' l' ((n, of_l (take (length (u ++ l) - length l') (u ++ l))) :: c')).
Proof. done. Qed.
Lemma take_matched (u l : list ascii) : take (length (u ++ l) - length l) (u ++ l) = u.
Proof. rewrite length_app. replace (length u + length l - length l)%nat with (length u) by lia. by rewrite take_app_length. Qed.
Lemma rm_grp_plus_greedy n f pv u l c k x : u ≠ [] → Forall (λ a, f a = true) u →
  (∀ a, head l = Some a → f a = false) → k (last_of pv u) l ((n, of_l u) :: c) = Some x →
  rm (RGrp n (RPlus f)) pv (u ++ l) c k = Some x.
Proof.
  intros Hne Hu Hl Hk. rewrite rm_grp. apply rm_plus_greedy; [done..|]. by rewrite take_matched.
Qed.
(** A run that reaches the end of the text. *)
Lemma rm_grp_star_end n f pv u c k x : Forall (λ a, f a = true) u →
  k (last_of pv u) [] ((n, of_l u) :: c) = Some x →
  rm (RGrp n (RStar f)) pv u c k = Some x.
Proof.
  intros Hu Hk. rewrite <-(app_nil_r u). rewrite rm_grp. apply m_star_greedy; [done..|].
  by rewrite take_matched.
Qed.
Lemma m_lit_mismatch s pv l c k : prefix_l s l = false → m_lit s pv l c k = None.
Proof.
  revert pv l. induction s as [|a s IH]; intros pv [|b l]; cbn; [done..|].
  destruct (Ascii.eqb a b); cbn; auto.
Qed.
End steps.

(** A pattern that consumes the whole subject with captures [c]. *)
Lemma re_match_whole r s c :
  (∀ R (k : option ascii → list ascii → caps → option R) x,
     k (last_of None (to_l s)) [] c = Some x → rm r None (to_l s) [] k = Some x) →
  re_match r s = Some {| m_group0 := s; m_caps := c |}.
Proof.
  intros H. unfold re_match, match_at.
  erewrite H; [|cbn [length]; rewrite Nat.sub_0_r, firstn_all, of_l_to_l; reflexivity]. done.
Qed.
Lemma last_of_app pv l1 l2 : last_of (last_of pv l1) l2 = last_of pv (l1 ++ l2).
Proof. unfold last_of. rewrite last_app. by destruct (last l2), (last l1). Qed.

(** Inversion of the relation, one pattern constructor at a time. *)
Lemma rmatches_seq_inv r1 r2 pv l c pv' l' c' : rmatches (RSeq r1 r2) pv l c pv' l' c' →
  ∃ pv1 l1 c1, rmatches r1 pv l c pv1 l1 c1 ∧ rmatches r2 pv1 l1 c1 pv' l' c'.
Proof. inversion 1; subst; eauto. Qed.
Lemma rmatches_lit_inv s pv l c pv' l' c' : rmatches (RLit s) pv l c pv' l' c' →
  l = to_l s ++ l' ∧ c' = c.
Proof. inversion 1; subst; eauto. Qed.
Lemma rmatches_bol_inv pv l c pv' l' c' : rmatches RBol pv l c pv' l' c' →
  l = l' ∧ c' = c.
Proof. inversion 1; subst; eauto. Qed.
Lemma rmatches_eol_inv pv l c pv' l' c' : rmatches REol pv l c pv' l' c' →
  l = l' ∧ c' = c ∧ at_end l = true.
Proof. inversion 1; subst; eauto. Qed.
Lemma rmatches_star_inv f pv l c pv' l' c' : rmatches (RStar f) pv l c pv' l' c' →
  ∃ u, l = u ++ l' ∧ c' = c ∧ Forall (λ a, f a = true) u.
Proof. inversion 1; subst; eauto. Qed.
Lemma rmatches_plus_inv f pv l c pv' l' c' : rmatches (RPlus f) pv l c pv' l' c' →
  ∃ u, l = u ++ l' ∧ c' = c ∧ u ≠ [] ∧ Forall (λ a, f a = true) u.
Proof. inversion 1; subst; eauto 10. Qed.
Lemma rmatches_grp_plus_inv n f pv l c pv' l' c' : rmatches (RGrp n (RPlus f)) pv l c pv' l' c' →
  ∃ u, l = u ++ l' ∧ c' = (n, of_l u) :: c ∧ u ≠ [] ∧ Forall (λ a, f a = true) u.
Proof.
  inversion 1 as [| | | | | | | | | |? ? ? ? ? ? ? ? H'| | |]; subst.
  apply rmatches_plus_inv in H' as (u & -> & -> & Hne & Hu). exists u. by rewrite take_matched.
Qed.
Lemma rmatches_opt_inv r pv l c pv' l' c' : rmatches (ROpt r) pv l c pv' l' c' →
  (l = l' ∧ c' = c) ∨ rmatches r pv l c pv' l' c'.
Proof. inversion 1; subst; eauto. Qed.
Ltac inv_rm :=
  repeat match goal with
  | H : rmatches (RSeq _ _) _ _ _ _ _ _ |- _ => apply rmatches_seq_inv in H as (? & ? & ? & ? & ?)
  | H : rmatches (RLit _) _ _ _ _ _ _ |- _ => apply rmatches_lit_inv in H as (? & ?)
  | H : rmatches RBol _ _ _ _ _ _ |- _ => apply rmatches_bol_inv in H as (? & ?)
  | H : rmatches REol _ _ _ _ _ _ |- _ => apply rmatches_eol_inv in H as (? & ? & ?)
  | H : rmatches (RStar _) _ _ _ _ _ _ |- _ => apply rmatches_star_inv in H as (? & ? & ? & ?)
  | H : rmatches (RPlus _) _ _ _ _ _ _ |- _ => apply rmatches_plus_inv in H as (? & ? & ? & ? & ?)
  | H : rmatches (RGrp _ (RPlus _)) _ _ _ _ _ _ |- _ =>
      apply rmatches_grp_plus_inv in H as (? & ? & ? & ? & ?)
  end.
(** What [r.match(s)] returns, through the relation. *)
Lemma re_match_Some r s m : re_match r s = Some m →
  ∃ pv l, rmatches r None (to_l s) [] pv l (m_caps m).
Proof.
  unfold re_match, match_at. intros (x & Hx & ->)%fmap_Some.
  apply rm_sound in Hx as (pv & l & c & H & Hk). injection Hk as <-. eauto.
Qed.
Lemma match_at_sound r pv l m x : match_at r pv l = Some (m, x) →
  ∃ pv' l', rmatches r pv l [] pv' l' (m_caps m).
Proof.
  unfold match_at. intros Hx. apply rm_sound in Hx as (pv' & l' & c & H & Hk).
  injection Hk as <- _. eauto.
Qed.
Lemma search_l_sound r pv l m x : search_l r pv l = Some (m, x) →
  ∃ pv1 l1 pv2 l2, rmatches r pv1 l1 [] pv2 l2 (m_caps m).
Proof.
  revert pv. induction l as [|a l IH]; intros pv; cbn [search_l].
  - destruct (match_at r pv []) as [[m' x']|] eqn:E; [|done]. intros [= -> ->].
    apply match_at_sound in E as (? & ? & ?). eauto.
  - destruct (match_at r pv (a :: l)) as [[m' x']|] eqn:E; [|by apply IH]. intros [= -> ->].
    apply match_at_sound in E as (? & ? & ?). eauto.
Qed.
Lemma finditer_sound r s m : m ∈ re_finditer r s →
  ∃ pv1 l1 pv2 l2, rmatches r pv1 l1 [] pv2 l2 (m_caps m).
Proof.
  unfold re_finditer. generalize (S (String.length s)) as n. intros n.
  generalize (@None ascii) as pv. generalize (to_l s) as l.
  induction n as [|n IH]; intros l pv; cbn [finditer_l]; [by intros ?%elem_of_nil|].
  destruct (search_l r pv l) as [[m' [pv' l']]|] eqn:E; [|by intros ?%elem_of_nil].
  intros [->|H]%elem_of_cons; [by eapply search_l_sound|].
  destruct (String.eqb _ _); [|by eapply IH].
  destruct l' as [|a l'']; [by apply elem_of_nil in H|by eapply IH].
Qed.
Lemma re_search_Some r s m : re_search r s = Some m →
  ∃ pv1 l1 pv2 l2, rmatches r pv1 l1 [] pv2 l2 (m_caps m).
Proof.
  unfold re_search. intros ([m' x] & Hx & ->)%fmap_Some. by eapply search_l_sound.
Qed.
(** A match consumes a prefix, which a group around it captures. *)
Lemma rmatches_consumes r pv l c pv' l' c' : rmatches r pv l c pv' l' c' → ∃ u, l = u ++ l'.
Proof.
  induction 1; eauto; try (by exists []); [by eexists [_]|].
  destruct IHrmatches1 as [u1 ->], IHrmatches2 as [u2 ->]. exists (u1 ++ u2). by rewrite app_assoc.
Qed.
Lemma rmatches_grp_inv n r pv l c pv' l' c' : rmatches (RGrp n r) pv l c pv' l' c' →
  ∃ u c0, l = u ++ l' ∧ c' = (n, of_l u) :: c0 ∧ rmatches r pv l c pv' l' c0.
Proof.
  inversion 1 as [| | | | | | | | | |? ? ? ? ? ? ? ? H'| | |]; subst.
  destruct (rmatches_consumes _ _ _ _ _ _ _ H') as [u ->]. rewrite take_matched. eauto.
Qed.
