(* ===== verification/MergeWarnings.v ===== *)
(** * The merge_config gate: scripts/linux-merge-warnings.py

    Classification of a merge_config.sh log against the trimmed fragment
    (D-0073), the keeps check on the final .config (D-0062), and the script's
    own selftest and entry point.  A [dict] is an ordered dictionary, the
    fragment's override [set] a duplicate-free list; the three mutable lists of
    [classify] are the record [cstate]. *)
From S2P Require Import Prelude PyStr Regex.
From Stdlib Require Import Ascii.

(** ** Patterns *)
Definition SYM : regex := RPlus cSYM.
Definition CFG : regex := RGrp 1 (RLit "CONFIG_" ⋅⋅ SYM)%re.
Definition REDEFINED_RE : regex :=
  (RBol ⋅⋅ RLit "Value of " ⋅⋅ CFG ⋅⋅ RLit " is redefined by fragment ")%re.
Definition REDUNDANT_RE : regex :=
  (RBol ⋅⋅ RLit "Value of " ⋅⋅ CFG ⋅⋅ RLit " is redundant by fragment ")%re.
Definition NOT_FINAL_RE : regex :=
  (RBol ⋅⋅ RLit "Value requested for " ⋅⋅ CFG ⋅⋅ RLit " not in final .config")%re.
Definition REQUESTED_RE : regex :=
  (RBol ⋅⋅ RLit "Requested value:" ⋅⋅ RStar cs ⋅⋅ RGrp 1 (RStar cdot) ⋅⋅ REol)%re.
Definition ACTUAL_RE : regex :=
  (RBol ⋅⋅ RLit "Actual value:" ⋅⋅ RStar cs ⋅⋅ RGrp 1 (RStar cdot) ⋅⋅ REol)%re.
Definition MERGE_OVERRIDE_RE : regex :=
  (RLit "# merge-override " ⋅⋅ ROpt (RLit "CONFIG_") ⋅⋅ RGrp 1 SYM ⋅⋅ RWordB)%re.
Definition FRAG_Y_RE : regex :=
  (RBol ⋅⋅ RLit "CONFIG_" ⋅⋅ RGrp 1 SYM ⋅⋅ RLit "=" ⋅⋅ RGrp 2 (RStar cdot) ⋅⋅ REol)%re.
Definition FRAG_N_RE : regex :=
  (RBol ⋅⋅ RLit "# CONFIG_" ⋅⋅ RGrp 1 SYM ⋅⋅ RLit " is not set" ⋅⋅ REol)%re.
Definition CFG_Y_RE : regex :=
  (RBol ⋅⋅ RLit "CONFIG_" ⋅⋅ RGrp 1 SYM ⋅⋅ RLit "=" ⋅⋅ RGrp 2 (RStar cdot) ⋅⋅ REol)%re.
Definition CFG_N_RE : regex :=
  (RBol ⋅⋅ RLit "# CONFIG_" ⋅⋅ RGrp 1 SYM ⋅⋅ RLit " is not set" ⋅⋅ REol)%re.

Definition KEEP_Y : list string :=
  [ "TTY"; "SERIAL_8250"; "SERIAL_8250_CONSOLE"; "SERIAL_OF_PLATFORM";
    "PRINTK"; "NETDEVICES"; "VIRTIO_MENU"; "VIRTIO_MMIO"; "VIRTIO_NET";
    "NET"; "INET"; "BLK_DEV_INITRD"; "BINFMT_ELF"; "DEVTMPFS"; "FUTEX" ].

(** ** Parsers *)
Definition bare (cfg : string) : string :=
  if startswith cfg "CONFIG_" then slice_from 7 cfg else cfg.

Definition is_unset_line (val cfg : string) : bool :=
  let v := strip val in
  String.eqb v "" || String.eqb v ("# " +:+ cfg +:+ " is not set").

(** One iteration of the loop of [fragment_symbols]. *)
Definition fragment_line (out : odict string string) (raw : string) : odict string string :=
  let s := strip raw in
  match re_match FRAG_Y_RE s with
  | Some m => od_set (grp_of 1 m) (strip (grp_of 2 m)) out
  | None =>
    match re_match FRAG_N_RE s with
    | Some m => od_set (grp_of 1 m) "unset" out
    | None => out
    end
  end.
Definition fragment_symbols (frag : string) : odict string string :=
  foldl fragment_line [] (splitlines frag).

Definition set_add (x : string) (l : list string) : list string :=
  if bool_decide (x ∈ l) then l else l ++ [x].
Definition merge_overrides (frag : string) : list string :=
  foldl (λ found raw,
    match re_match MERGE_OVERRIDE_RE (strip raw) with
    | Some m => set_add (grp_of 1 m) found
    | None => found
    end) [] (splitlines frag).

(** One iteration of the loop of [parse_final_config] (no [strip] here). *)
Definition config_line (final : odict string string) (line : string) : odict string string :=
  match re_match CFG_Y_RE line with
  | Some m => od_set (grp_of 1 m) (strip (grp_of 2 m)) final
  | None =>
    match re_match CFG_N_RE line with
    | Some m => od_set (grp_of 1 m) "unset" final
    | None => final
    end
  end.
Definition parse_final_config (text : string) : odict string string :=
  foldl config_line [] (splitlines text).

(** ** The keeps check *)
Definition keep_got (final : odict string string) (sym : string) : string :=
  default "absent" (od_get sym final).
Definition check_keeps (cfg_text : string) : list string * list string :=
  let final := parse_final_config cfg_text in
  foldl (λ '(table, fails) sym,
    let got := keep_got final sym in
    let ok := String.eqb got "y" in
    let status := if ok then "PASS" else "FAIL" in
    (table ++ ["CONFIG_" +:+ sym +:+ ": final " +:+ got +:+ "  " +:+ status],
     if ok then fails
     else fails ++ ["TEST FAIL: keep CONFIG_" +:+ sym +:+ " is " +:+ got +:+ ", want y"]))
    (["===== 3c. D-0062 keeps must be y ====="], []) KEEP_Y.

(** ** Classification *)
Record cstate := { info : list string; fails : list string; drops : list string }.
Definition add_info (x : string) (s : cstate) : cstate :=
  {| info := info s ++ [x]; fails := fails s; drops := drops s |}.
Definition add_fail (x : string) (s : cstate) : cstate :=
  {| info := info s; fails := fails s ++ [x]; drops := drops s |}.
Definition add_drop (x : string) (s : cstate) : cstate :=
  {| info := info s; fails := fails s; drops := drops s ++ [x] |}.

Definition msg_annotated (cfg want got : string) : string :=
  "annotated merge-override: " +:+ cfg +:+ " requested " +:+ want +:+ ", final " +:+ got.
Definition msg_unannotated (cfg want got sym : string) : string :=
  "TEST FAIL: merge did not stick: " +:+ cfg +:+ " requested " +:+ want +:+ ", final "
  +:+ got +:+ " (unannotated; need # merge-override " +:+ sym +:+ ": <why>)".

Definition record_not_final (cfg requested actual : string)
    (in_frag : odict string string) (overrides : list string) (s : cstate) : cstate :=
  let req := strip requested in
  let act := strip actual in
  let sym := bare cfg in
  let asked := od_in sym in_frag in
  let want := if is_unset_line req cfg then "unset" else req in
  let got := if String.eqb act "" then "absent" else act in
  let overridden := bool_decide (sym ∈ overrides) in
  if is_unset_line req cfg && is_unset_line act cfg then
    add_info ("not in final after unset (menu vanished): " +:+ cfg) s
  else if is_unset_line req cfg && negb (is_unset_line act cfg) then
    if asked then
      if overridden then add_info (msg_annotated cfg want got) s
      else add_fail (msg_unannotated cfg want got sym) s
    else add_info ("unsolicited final value (not in fragment): " +:+ cfg) s
  else if negb (is_unset_line req cfg) && is_unset_line act cfg then
    if negb asked then add_drop cfg s
    else if overridden then add_info (msg_annotated cfg want got) s
    else add_fail (msg_unannotated cfg want got sym) s
  else if asked then
    if overridden then add_info (msg_annotated cfg want got) s
    else add_fail (msg_unannotated cfg want got sym) s
  else add_drop cfg s.

(** The inner [while j < len(lines) and j <= i + 4]: [n] is the iterations the
    window still allows; returns (requested, actual, j). *)
Fixpoint scan_values (n : nat) (lines : list string) (j : nat) (requested actual : string) :
    string * string * nat :=
  match n with
  | O => (requested, actual, j)
  | S n =>
    match lines !! j with
    | None => (requested, actual, j)
    | Some line =>
      match re_match REQUESTED_RE line with
      | Some rm => scan_values n lines (S j) (grp_of 1 rm) actual
      | None =>
        match re_match ACTUAL_RE line with
        | Some am => (requested, grp_of 1 am, S j)
        | None =>
          if String.eqb (strip line) "" then (requested, actual, S j)
          else scan_values n lines (S j) requested actual
        end
      end
    end
  end.

Section classify.
Context (in_frag : odict string string) (overrides : list string).

(** One iteration of the outer loop at line [i]: the next [i] and state. *)
Definition classify_step (lines : list string) (i : nat) (line : string) (s : cstate) :
    nat * cstate :=
  match re_match REDEFINED_RE line with
  | Some m => (S i, add_info ("redefined (informational): " +:+ grp_of 1 m) s)
  | None =>
    match re_match REDUNDANT_RE line with
    | Some m => (S i, add_info ("redundant (informational): " +:+ grp_of 1 m) s)
    | None =>
      match re_match NOT_FINAL_RE line with
      | Some m =>
        let '(requested, actual, j) := scan_values 4 lines (S i) "" "" in
        (j, record_not_final (grp_of 1 m) requested actual in_frag overrides s)
      | None => (S i, s)
      end
    end
  end.

(** [while i < len(lines)]; [None] is running out of fuel. *)
Fixpoint classify_loop (fuel : nat) (lines : list string) (i : nat) (s : cstate) :
    option cstate :=
  match lines !! i with
  | None => Some s
  | Some line =>
    match fuel with
    | O => None
    | S fuel => let '(i', s') := classify_step lines i line s in
                classify_loop fuel lines i' s'
    end
  end.
End classify.

Definition cstate0 : cstate := {| info := []; fails := []; drops := [] |}.
Definition drop_summary (s : cstate) : cstate :=
  match drops s with
  | [] => s
  | ds => add_info ("dependent drop (informational): " +:+ str_of_nat (length ds)
                    +:+ " symbols not in linux-trimmed.fragment") s
  end.
Definition classify_fuel (fuel : nat) (frag log : string) : option cstate :=
  drop_summary <$>
    classify_loop (fragment_symbols frag) (merge_overrides frag) fuel (splitlines log) 0 cstate0.
(** One unit of fuel per log line is enough ([classify_total]). *)
Definition classify (frag log : string) : cstate :=
  default cstate0 (classify_fuel (length (splitlines log)) frag log).

(** ** Entry points.  [read_text] is the file system: [None] raises. *)
Section main.
Context (read_text : string → option string).
Definition read (path : string) : res string := of_option FileNotFoundError (read_text path).

Definition check_merge_log (frag_path log_path : string) : res outcome :=
  frag ← read frag_path;
  log ← read log_path;
  let s := classify frag log in
  Ok {| rc := match fails s with [] => 0 | _ => 1 end;
        out := [];
        err := ((λ line, "linux-build: " +:+ line) <$> info s) ++ fails s |}.

Definition check_keeps_file (cfg_path : string) : res outcome :=
  text ← read cfg_path;
  let '(table, kfails) := check_keeps text in
  Ok {| rc := match kfails with [] => 0 | _ => 1 end; out := table; err := kfails |}.
End main.

Definition any_in (sub : string) (l : list string) : bool := existsb (str_in sub) l.
Definition nonempty {A} (l : list A) : bool := match l with [] => false | _ => true end.

(** ** The script's selftest, fixture by fixture *)
Definition frag_rtc : string := lines_
  [ "# RTC: goldfish_rtc registered as rtc0"; "# CONFIG_RTC_CLASS is not set";
    "# WATCHDOG: leftover"; "# CONFIG_WATCHDOG is not set"; "" ].
Definition log_redefined : string := lines_
  [ "Value of CONFIG_RTC_CLASS is redefined by fragment /tmp/frag:";
    "Previous value: CONFIG_RTC_CLASS=y";
    "New value: # CONFIG_RTC_CLASS is not set";
    "";
    "Value of CONFIG_WATCHDOG is redefined by fragment /tmp/frag:";
    "Previous value: CONFIG_WATCHDOG=y";
    "New value: # CONFIG_WATCHDOG is not set"; "" ].
Definition frag_ftrace : string := lines_ ["# FTRACE: missed trim"; "# CONFIG_FTRACE is not set"; ""].
(** The four-line record merge_config prints for one symbol. *)
Definition not_final_record (cfg requested actual : string) : list string :=
  [ "Value requested for " +:+ cfg +:+ " not in final .config";
    "Requested value: " +:+ requested; "Actual value: " +:+ actual; "" ].
Definition log_survived : string :=
  unterminated (not_final_record "CONFIG_FTRACE" "# CONFIG_FTRACE is not set" "CONFIG_FTRACE=y").
Definition frag_efi : string :=
  lines_ ["# CONFIG_EFI is not set"; "# merge-override EFI: PORTABLE select EFI"; ""].
Definition log_efi : string :=
  unterminated (not_final_record "CONFIG_EFI" "# CONFIG_EFI is not set" "CONFIG_EFI=y").
Definition frag_swap : string := lines_ ["# CONFIG_SWAP is not set"; ""].
Definition log_swap : string :=
  unterminated (not_final_record "CONFIG_SWAP" "# CONFIG_SWAP is not set" "").
Definition frag_parents : string := lines_
  [ "# CONFIG_BLOCK is not set"; "# CONFIG_NETWORK_FILESYSTEMS is not set";
    "# CONFIG_USB_SUPPORT is not set"; "# CONFIG_SOUND is not set";
    "# CONFIG_RTC_CLASS is not set"; "CONFIG_SERIAL_OF_PLATFORM=y"; "" ].
Definition want_drops : list string :=
  [ "CONFIG_SCSI_MOD"; "CONFIG_NFS_FS"; "CONFIG_USB_XHCI_HCD"; "CONFIG_SND_PCM";
    "CONFIG_RTC_LIB"; "CONFIG_SECURITY_SELINUX" ].
Definition log_case3 : string :=
  unterminated (want_drops ≫= λ c, not_final_record c (c +:+ "=y") "").
Definition frag_note_only : string := lines_ ["# SCSI_MOD: leftover"; "# CONFIG_BLOCK is not set"; ""].
Definition log_scsi : string :=
  unterminated (not_final_record "CONFIG_SCSI_MOD" "CONFIG_SCSI_MOD=y" "").
Definition frag_keep : string := lines_ ["CONFIG_SERIAL_OF_PLATFORM=y"; ""].
Definition log_gone : string :=
  unterminated (not_final_record "CONFIG_SERIAL_OF_PLATFORM" "CONFIG_SERIAL_OF_PLATFORM=y" "").
Definition frag_mixed : string := lines_ ["# CONFIG_FTRACE is not set"; "# CONFIG_BLOCK is not set"; ""].
Definition log_mixed : string := log_survived +:+ log_scsi.
Definition cfg_ok : string :=
  join nl ((λ s, "CONFIG_" +:+ s +:+ "=y") <$> KEEP_Y) +:+ nl.
Definition cfg_bad : string := replace ("CONFIG_VIRTIO_NET=y" +:+ nl) "" cfg_ok.

Definition set_eq (a b : list string) : bool :=
  forallb (λ x, bool_decide (x ∈ b)) a && forallb (λ x, bool_decide (x ∈ a)) b.

Definition selftest_merge : res unit :=
  let fires b msg := raise_when b (MergeWarnFail msg) in
  let s := classify frag_rtc log_redefined in
  _ ← fires (nonempty (fails s) || nonempty (drops s))
        ("TEST FAIL: redefined must not abort; got fails=" +:+ repr_strs (fails s)
         +:+ " drops=" +:+ repr_strs (drops s));
  _ ← fires (negb (any_in "CONFIG_RTC_CLASS" (info s))) "TEST FAIL: RTC_CLASS redefined not logged";
  let s := classify frag_ftrace log_survived in
  _ ← fires (negb (nonempty (fails s))) "TEST FAIL: case 1 FTRACE survival must abort";
  _ ← fires (nonempty (drops s)) "TEST FAIL: case 1 must not be a dependent drop";
  let s := classify frag_efi log_efi in
  _ ← fires (nonempty (fails s) || nonempty (drops s))
        ("TEST FAIL: annotated EFI must pass; " +:+ repr_strs (fails s));
  _ ← fires (negb (existsb (λ x, str_in "annotated merge-override" x && str_in "EFI" x) (info s)))
        "TEST FAIL: annotated EFI not logged";
  let s := classify frag_swap log_swap in
  _ ← fires (nonempty (fails s) || nonempty (drops s))
        ("TEST FAIL: case 2 vanished-after-unset must pass; fails=" +:+ repr_strs (fails s)
         +:+ " drops=" +:+ repr_strs (drops s));
  let s := classify frag_parents log_case3 in
  _ ← fires (nonempty (fails s))
        ("TEST FAIL: case 3 dependent drops must not abort; " +:+ repr_strs (fails s));
  _ ← fires (negb (set_eq (drops s) want_drops))
        ("TEST FAIL: case 3 drops " +:+ repr_strs (drops s) +:+ ", want "
         +:+ repr_strs (sorted_strs want_drops));
  _ ← fires (negb (existsb (λ x, str_in "dependent drop" x && str_in "6 symbols" x) (info s)))
        ("TEST FAIL: case 3 summary missing; info=" +:+ repr_strs (info s));
  let s := classify frag_note_only log_scsi in
  _ ← fires (nonempty (fails s) || negb (bool_decide (drops s = ["CONFIG_SCSI_MOD"])))
        ("TEST FAIL: intent note must not make SCSI_MOD a keep; fails=" +:+ repr_strs (fails s)
         +:+ " drops=" +:+ repr_strs (drops s));
  let s := classify frag_keep log_gone in
  _ ← fires (negb (nonempty (fails s))) "TEST FAIL: lost keep in fragment must abort";
  _ ← fires (nonempty (drops s)) "TEST FAIL: lost keep must not be a dependent drop";
  let s := classify frag_mixed log_mixed in
  _ ← fires (negb (any_in "FTRACE" (fails s))) "TEST FAIL: mixed log must still catch FTRACE";
  _ ← fires (negb (bool_decide ("CONFIG_SCSI_MOD" ∈ drops s)))
        "TEST FAIL: mixed log must still drop SCSI_MOD";
  let '(table, kfails) := check_keeps cfg_ok in
  _ ← fires (nonempty kfails) ("TEST FAIL: complete keeps must pass; " +:+ repr_strs kfails);
  _ ← fires (negb (any_in "3c." table)) "TEST FAIL: keeps table missing banner";
  let '(table, kfails) := check_keeps cfg_bad in
  fires (negb (any_in "VIRTIO_NET" kfails)) "TEST FAIL: missing VIRTIO_NET must fail keeps".

(** [main] over [sys.argv[1:]]. *)
Definition main_merge (read_text : string → option string) (argv : list string) : res outcome :=
  match argv with
  | [a] =>
    if String.eqb a "selftest" then
      match selftest_merge with
      | Ok _ => Ok {| rc := 0; out := ["TEST PASS: linux-merge-warnings selftest"]; err := [] |}
      | Err (UserExn MergeWarnFailC m) => Ok {| rc := 1; out := []; err := [m] |}
      | Err e => Err e
      end
    else Ok {| rc := 2; out := []; err := [
      "usage: linux-merge-warnings.py FRAGMENT MERGE_LOG";
      "       linux-merge-warnings.py keeps FINAL_CONFIG";
      "       linux-merge-warnings.py selftest"] |}
  | [a; b] =>
    if String.eqb a "keeps" then check_keeps_file read_text b
    else check_merge_log read_text a b
  | _ => Ok {| rc := 2; out := []; err := [
      "usage: linux-merge-warnings.py FRAGMENT MERGE_LOG";
      "       linux-merge-warnings.py keeps FINAL_CONFIG";
      "       linux-merge-warnings.py selftest"] |}
  end.

(** ** Termination *)
Lemma scan_values_ge n lines j requested actual :
  (j ≤ (scan_values n lines j requested actual).2)%nat.
Proof.
  revert j requested actual. induction n as [|n IH]; intros j requested actual;
    cbn [scan_values]; [done|].
  destruct (lines !! j) as [line|]; [|done].
  destruct (re_match REQUESTED_RE line) as [m|]; [etrans; [|apply IH]; lia|].
  destruct (re_match ACTUAL_RE line) as [m|]; [cbn [snd]; lia|].
  destruct (String.eqb _ _); [cbn [snd]; lia|]. etrans; [|apply IH]; lia.
Qed.
Lemma classify_step_gt in_frag overrides lines i line s :
  (i < (classify_step in_frag overrides lines i line s).1)%nat.
Proof.
  unfold classify_step.
  destruct (re_match REDEFINED_RE line) as [m|]; [cbn [fst]; lia|].
  destruct (re_match REDUNDANT_RE line) as [m|]; [cbn [fst]; lia|].
  destruct (re_match NOT_FINAL_RE line) as [m|]; [|cbn [fst]; lia].
  pose proof (scan_values_ge 4 lines (S i) "" "") as H.
  destruct (scan_values 4 lines (S i) "" "") as [[req act] j]. cbn [fst snd] in *. lia.
Qed.
Lemma classify_loop_total in_frag overrides fuel lines i s :
  (length lines ≤ fuel + i)%nat → is_Some (classify_loop in_frag overrides fuel lines i s).
Proof.
  revert i s. induction fuel as [|fuel IH]; intros i s Hlen; cbn [classify_loop].
  - rewrite lookup_ge_None_2 by lia. eauto.
  - destruct (lines !! i) as [line|]; [|eauto].
    pose proof (classify_step_gt in_frag overrides lines i line s) as Hgt.
    destruct (classify_step _ _ _ _ _ _) as [i' s']. cbn [fst] in Hgt. apply IH. lia.
Qed.
Lemma classify_loop_mono in_frag overrides fuel fuel' lines i s s' :
  (fuel ≤ fuel')%nat → classify_loop in_frag overrides fuel lines i s = Some s' →
  classify_loop in_frag overrides fuel' lines i s = Some s'.
Proof.
  revert fuel' i s. induction fuel as [|fuel IH]; intros [|fuel'] i s Hle; cbn [classify_loop];
    try lia; destruct (lines !! i); try done.
  destruct (classify_step _ _ _ _ _ _). apply IH. lia.
Qed.

(** [classify] terminates on every fragment and log: one iteration per log
    line is enough, and any larger bound gives the same result. *)
Theorem classify_terminates (frag log : string) (fuel : nat) :
  (length (splitlines log) ≤ fuel)%nat →
  classify_fuel fuel frag log = Some (classify frag log).
Proof.
  intros Hle. unfold classify, classify_fuel.
  destruct (classify_loop_total (fragment_symbols frag) (merge_overrides frag)
    (length (splitlines log)) (splitlines log) 0 cstate0) as [s Hs]; [lia|].
  rewrite (classify_loop_mono _ _ _ _ _ _ _ _ Hle Hs), Hs. done.
Qed.

(** ** The decision table of [record_not_final] *)
Section table.
Context (cfg requested actual : string) (in_frag : odict string string) (overrides : list string).
Let asks_unset := is_unset_line (strip requested) cfg.
Let ends_unset := is_unset_line (strip actual) cfg.
Let asked := od_in (bare cfg) in_frag.
Let annotated := bool_decide (bare cfg ∈ overrides).
Let want := if asks_unset then "unset" else strip requested.
Let got := if String.eqb (strip actual) "" then "absent" else strip actual.

(** A request of the fragment that did not stick and has no override. *)
Definition lost : bool := asked && negb annotated && negb (asks_unset && ends_unset).
(** A value nobody asked for that did not reach the final config. *)
Definition dropped : bool := negb asked && negb asks_unset.

Lemma record_not_final_fails s :
  fails (record_not_final cfg requested actual in_frag overrides s) =
  fails s ++ (if lost then [msg_unannotated cfg want got (bare cfg)] else []).
Proof.
  unfold record_not_final, lost. fold asks_unset ends_unset asked annotated want got.
  destruct asks_unset, ends_unset, asked, annotated; cbn; by rewrite ?app_nil_r.
Qed.
Lemma record_not_final_drops s :
  drops (record_not_final cfg requested actual in_frag overrides s) =
  drops s ++ (if dropped then [cfg] else []).
Proof.
  unfold record_not_final, dropped. fold asks_unset ends_unset asked annotated want got.
  destruct asks_unset, ends_unset, asked, annotated; cbn; by rewrite ?app_nil_r.
Qed.
Lemma record_not_final_one s :
  let s' := record_not_final cfg requested actual in_frag overrides s in
  (length (info s') + length (fails s') + length (drops s') =
   S (length (info s) + length (fails s) + length (drops s)))%nat.
Proof.
  unfold record_not_final. fold asks_unset ends_unset asked annotated want got.
  destruct asks_unset, ends_unset, asked, annotated; cbn; rewrite ?length_app; cbn; lia.
Qed.
End table.

(** ** What a merge_config log says, read line by line *)
Inductive entry := ERedefined (cfg : string) | ERedundant (cfg : string) | ENotFinal (cfg requested actual : string).

Definition first_group (r : regex) (line : string) : option string := grp_of 1 <$> re_match r line.
Definition requested_line : string → option string := first_group REQUESTED_RE.
Definition actual_line : string → option string := first_group ACTUAL_RE.
(** A record's values: the lines after its header up to and including the first
    that gives the actual value or is blank, at most four. *)
Definition closes (line : string) : bool :=
  negb (is_some (requested_line line)) && (is_some (actual_line line) || String.eqb (strip line) "").
Fixpoint upto {A} (p : A → bool) (l : list A) : list A :=
  match l with [] => [] | x :: l => if p x then [x] else x :: upto p l end.
Definition record_of (rest : list string) : list string := upto closes (take 4 rest).
Definition last_of (f : string → option string) (l : list string) : string := default "" (last (omap f l)).
(** The entries of a log, past the first [skip] lines. *)
Fixpoint read_log (skip : nat) (lines : list string) : list entry :=
  match lines with
  | [] => []
  | line :: rest =>
    match skip with
    | S skip => read_log skip rest
    | O =>
      match first_group REDEFINED_RE line, first_group REDUNDANT_RE line, first_group NOT_FINAL_RE line with
      | Some cfg, _, _ => ERedefined cfg :: read_log 0 rest
      | None, Some cfg, _ => ERedundant cfg :: read_log 0 rest
      | None, None, Some cfg =>
        let values := record_of rest in
        ENotFinal cfg (last_of requested_line values) (last_of actual_line values) :: read_log (length values) rest
      | None, None, None => read_log 0 rest
      end
    end
  end.
Definition log_entries (log : string) : list entry := read_log 0 (splitlines log).

Definition apply_entry (frag : string) (e : entry) (s : cstate) : cstate :=
  match e with
  | ERedefined cfg => add_info ("redefined (informational): " +:+ cfg) s
  | ERedundant cfg => add_info ("redundant (informational): " +:+ cfg) s
  | ENotFinal cfg requested actual =>
    record_not_final cfg requested actual (fragment_symbols frag) (merge_overrides frag) s
  end.

(** ** The lines merge_config prints *)
(** One symbol's lines; [tail] is what follows on its first line, the fragment's
    path among it; [pad1], [pad2] are the spaces before a value.  [BLine] is any
    other line, of make or of the shell. *)
Inductive block :=
  | BRedefined (sym tail : string)
  | BRedundant (sym tail : string)
  | BNotFinal (sym tail pad1 requested pad2 actual : string)
  | BLine (line : string).
Definition render_block (b : block) : list string :=
  match b with
  | BRedefined sym tail => ["Value of CONFIG_" +:+ sym +:+ " is redefined by fragment " +:+ tail]
  | BRedundant sym tail => ["Value of CONFIG_" +:+ sym +:+ " is redundant by fragment " +:+ tail]
  | BNotFinal sym tail pad1 requested pad2 actual =>
    ["Value requested for CONFIG_" +:+ sym +:+ " not in final .config" +:+ tail;
     "Requested value:" +:+ pad1 +:+ requested; "Actual value:" +:+ pad2 +:+ actual]
  | BLine line => [line]
  end.
Definition render_log (bs : list block) : list string := bs ≫= render_block.
Definition block_entry (b : block) : option entry :=
  match b with
  | BRedefined sym _ => Some (ERedefined ("CONFIG_" +:+ sym))
  | BRedundant sym _ => Some (ERedundant ("CONFIG_" +:+ sym))
  | BNotFinal sym _ _ requested _ actual => Some (ENotFinal ("CONFIG_" +:+ sym) requested actual)
  | BLine _ => None
  end.

(** Kconfig symbols, one-line values that do not start with a space, spaces, and
    lines that are not the first of a record. *)
Definition wf_sym (s : string) : Prop := s ≠ "" ∧ Forall (λ a, cSYM a = true) (to_l s).
Definition wf_val (v : string) : Prop := no_break v ∧ (∀ a, head (to_l v) = Some a → is_space a = false).
Definition wf_pad (s : string) : Prop := Forall (λ a, a = chr 32) (to_l s).
Definition wf_block (b : block) : Prop :=
  match b with
  | BRedefined sym tail | BRedundant sym tail => wf_sym sym ∧ no_break tail
  | BNotFinal sym tail pad1 requested pad2 actual =>
    wf_sym sym ∧ no_break tail ∧ wf_pad pad1 ∧ wf_val requested ∧ wf_pad pad2 ∧ wf_val actual
  | BLine line => no_break line ∧ startswith line "Value of " = false ∧ startswith line "Value requested for " = false
  end.

Lemma re_prefix_mismatch (p : string) (r : regex) (s : string) :
  startswith s p = false → re_match (RBol ⋅⋅ RLit p ⋅⋅ r)%re s = None.
Proof. intros H. unfold re_match, match_at. cbn. by rewrite m_lit_mismatch. Qed.

(** A pattern [^A(CONFIG_SYM)B] on a line of that shape. *)
Lemma cfg_line_match A B rest sym :
  wf_sym sym → (∀ a, head (to_l B) = Some a → cSYM a = false) → B ≠ "" →
  ∃ m, re_match (RBol ⋅⋅ RLit A ⋅⋅ CFG ⋅⋅ RLit B)%re
         (A +:+ "CONFIG_" +:+ sym +:+ B +:+ rest) = Some m ∧
       grp_of 1 m = "CONFIG_" +:+ sym.
Proof.
  intros [Hne Hsym] HB HBne. unfold re_match, match_at.
  assert (Hu : to_l sym ≠ []) by (by destruct sym).
  rewrite !to_l_app. unfold CFG, SYM.
  rewrite rm_seq, rm_bol, rm_seq, rm_lit_app, rm_seq.
  rewrite (app_assoc (to_l "CONFIG_") (to_l sym)), rm_grp, rm_seq.
  rewrite <-(app_assoc (to_l "CONFIG_")), rm_lit_app.
  erewrite (rm_plus_greedy cSYM _ (to_l sym)); [|done..| |].
  3: rewrite rm_lit_app, (app_assoc (to_l "CONFIG_") (to_l sym)), take_matched, of_l_app, !of_l_to_l; reflexivity.
  - eexists. split; reflexivity.
  - destruct B as [|b B]; [done|]. cbn. intros a [= <-]. by apply HB.
Qed.

(** A value pattern (a literal, spaces, the rest of the line) on a line. *)
Lemma value_line_match A pad v :
  wf_pad pad → wf_val v → ∃ m, re_match (RBol ⋅⋅ RLit A ⋅⋅ RStar cs ⋅⋅ RGrp 1 (RStar cdot) ⋅⋅ REol)%re
    (A +:+ pad +:+ v) = Some m ∧ grp_of 1 m = v.
Proof.
  intros Hp [Hv Hh]. unfold re_match, match_at. rewrite !to_l_app.
  rewrite rm_seq, rm_bol, rm_seq, rm_lit_app, rm_seq, rm_star.
  erewrite (m_star_greedy cs _ (to_l pad) (to_l v)); [|by eapply Forall_impl; [exact Hp|intros a ->]|done|].
  2: { rewrite rm_seq. apply rm_grp_star_end.
    - eapply Forall_impl; [exact Hv|]. intros a. unfold cdot, is_linebreak, in_range.
      by destruct (N.eqb_spec (ord a) 10) as [->|].
    - rewrite rm_eol_end, of_l_to_l. reflexivity. }
  eexists. split; reflexivity.
Qed.
Lemma cfg_line_inv A B line :
  is_Some (re_match (RBol ⋅⋅ RLit A ⋅⋅ CFG ⋅⋅ RLit B)%re line) →
  ∃ u l, to_l line = to_l A ++ to_l "CONFIG_" ++ u ++ to_l B ++ l ∧
         Forall (λ c, cSYM c = true) u.
Proof.
  intros (pv & l & c & H)%re_match_iff. remember (to_l line) as L eqn:HL. clear HL line.
  inversion H as [| |? ? ? ? ? ? ? ? ? ? ? Hb H1| | | | | | | | | | |]; subst.
  inversion Hb; subst; clear Hb H.
  inversion H1 as [| |? ? ? ? ? ? ? ? ? ? ? Ha H2| | | | | | | | | | |]; subst.
  inversion Ha; subst; clear Ha H1.
  inversion H2 as [| |? ? ? ? ? ? ? ? ? ? ? Hc H3| | | | | | | | | | |]; subst.
  inversion H3; subst; clear H3 H2.
  inversion Hc as [| | | | | | | | | |? ? ? ? ? ? ? ? Hg| | |]; subst; clear Hc.
  inversion Hg as [| |? ? ? ? ? ? ? ? ? ? ? Ha H2| | | | | | | | | | |]; subst.
  inversion Ha; subst; clear Ha Hg.
  inversion H2; subst; clear H2. eauto.
Qed.

(** ** The index loop reads what [read_log] reads *)
Lemma upto_length {A} (p : A → bool) l : (length (upto p l) ≤ length l)%nat.
Proof. induction l as [|x l IH]; [done|]. cbn. destruct (p x); cbn; lia. Qed.
Lemma read_log_skip k lines : read_log k lines = read_log 0 (drop k lines).
Proof.
  revert k. induction lines as [|line rest IH]; intros [|k]; try done. cbn [drop read_log]. apply IH.
Qed.
Lemma default_last_cons (x d : string) l : default d (last (x :: l)) = default x (last l).
Proof.
  revert x d. induction l as [|y l IH]; intros x d; [done|]. change (last (x :: y :: l)) with (last (y :: l)). by rewrite !IH.
Qed.
Lemma requested_not_actual line : is_Some (requested_line line) → actual_line line = None.
Proof.
  unfold requested_line, actual_line, first_group. intros [v (m & Hm & _)%fmap_Some].
  destruct (startswith line "Actual value:") eqn:E.
  - exfalso. assert (startswith line "Requested value:" = false) as Hr.
    { unfold startswith in *. apply prefix_l_spec in E as [l' ->]. done. }
    unfold REQUESTED_RE in Hm. by rewrite re_prefix_mismatch in Hm.
  - unfold ACTUAL_RE. by rewrite re_prefix_mismatch.
Qed.
Lemma scan_values_spec n lines : ∀ j requested actual, let values := upto closes (take n (drop j lines)) in
  scan_values n lines j requested actual =
  (default requested (last (omap requested_line values)), default actual (last (omap actual_line values)),
   (j + length values)%nat).
Proof.
  induction n as [|n IH]; intros j requested actual; cbn [scan_values]; cbv zeta; [by rewrite Nat.add_0_r|].
  destruct (lines !! j) as [line|] eqn:El; cycle 1.
  { rewrite drop_ge by (by apply lookup_ge_None). by rewrite Nat.add_0_r. }
  rewrite (drop_S _ _ _ El), firstn_cons. cbn [upto]. cbv zeta in IH.
  assert (closes line = negb (is_some (requested_line line)) && (is_some (actual_line line) || String.eqb (strip line) "")) as -> by done.
  destruct (re_match REQUESTED_RE line) as [m|] eqn:Er.
  - assert (requested_line line = Some (grp_of 1 m)) as Hr by (unfold requested_line, first_group; by rewrite Er).
    assert (actual_line line = None) as Ha by (apply requested_not_actual; by rewrite Hr).
    rewrite Hr. cbn [is_some negb andb omap list_omap length]. rewrite Hr, Ha, IH, default_last_cons, Nat.add_succ_r. done.
  - assert (requested_line line = None) as Hr by (unfold requested_line, first_group; by rewrite Er).
    rewrite Hr. cbn [is_some negb andb]. destruct (re_match ACTUAL_RE line) as [m|] eqn:Ea.
    + assert (actual_line line = Some (grp_of 1 m)) as Ha by (unfold actual_line, first_group; by rewrite Ea).
      rewrite Ha. cbn [is_some orb omap list_omap length]. rewrite Hr, Ha. cbn. by rewrite Nat.add_1_r.
    + assert (actual_line line = None) as Ha by (unfold actual_line, first_group; by rewrite Ea).
      rewrite Ha. cbn [is_some orb]. destruct (String.eqb (strip line) ""); cbn [omap list_omap length]; rewrite Hr, Ha.
      * cbn. by rewrite Nat.add_1_r.
      * by rewrite IH, Nat.add_succ_r.
Qed.

Section refinement.
Context (frag : string).
Let in_frag := fragment_symbols frag.
Let overrides := merge_overrides frag.

Definition fold_entries (s : cstate) (es : list entry) : cstate := foldl (λ s e, apply_entry frag e s) s es.
(** One iteration reads one entry or none. *)
Lemma classify_step_reads lines i line s i' s' : lines !! i = Some line →
  classify_step in_frag overrides lines i line s = (i', s') →
  fold_entries s (read_log 0 (drop i lines)) = fold_entries s' (read_log 0 (drop i' lines)).
Proof.
  intros El. rewrite (drop_S _ _ _ El). unfold classify_step. cbn [read_log]. unfold first_group.
  destruct (re_match REDEFINED_RE line) as [m|]; [by intros [= <- <-]|].
  destruct (re_match REDUNDANT_RE line) as [m|]; [by intros [= <- <-]|].
  destruct (re_match NOT_FINAL_RE line) as [m|]; [|by intros [= <- <-]].
  rewrite scan_values_spec. cbn [fmap option_fmap option_map]. fold (record_of (drop (S i) lines)).
  intros [= <- <-]. rewrite read_log_skip, drop_drop. done.
Qed.
Lemma classify_loop_reads fuel lines : ∀ i s r, classify_loop in_frag overrides fuel lines i s = Some r →
  r = fold_entries s (read_log 0 (drop i lines)).
Proof.
  induction fuel as [|fuel IH]; intros i s r; cbn [classify_loop];
    (destruct (lines !! i) as [line|] eqn:El;
      [|intros [= <-]; by rewrite drop_ge by (by apply lookup_ge_None)]); [done|].
  destruct (classify_step _ _ _ _ _ _) as [i' s'] eqn:Es. intros ->%IH. symmetry. by eapply classify_step_reads.
Qed.
Lemma classify_reads log : classify frag log = drop_summary (fold_entries cstate0 (log_entries log)).
Proof.
  unfold classify, classify_fuel.
  destruct (classify_loop_total in_frag overrides (length (splitlines log)) (splitlines log) 0 cstate0) as [r Hr]; [lia|].
  unfold in_frag, overrides in Hr. rewrite Hr. cbn. f_equal. by apply classify_loop_reads in Hr.
Qed.
End refinement.

(** ** Printed logs *)
Lemma first_group_other A r line : startswith line A = false → first_group (RBol ⋅⋅ RLit A ⋅⋅ r)%re line = None.
Proof. intros H. unfold first_group. by rewrite re_prefix_mismatch. Qed.
Lemma first_group_cfg A B tail sym : wf_sym sym → (∀ a, head (to_l B) = Some a → cSYM a = false) → B ≠ "" →
  first_group (RBol ⋅⋅ RLit A ⋅⋅ CFG ⋅⋅ RLit B)%re (A +:+ "CONFIG_" +:+ sym +:+ B +:+ tail) = Some ("CONFIG_" +:+ sym).
Proof. intros Hs HB Hne. unfold first_group. destruct (cfg_line_match A B tail sym Hs HB Hne) as (m & -> & <-). done. Qed.
Lemma redundant_not_redefined sym tail : wf_sym sym →
  first_group REDEFINED_RE ("Value of CONFIG_" +:+ sym +:+ " is redundant by fragment " +:+ tail) = None.
Proof.
  intros [_ Hs]. set (line := "Value of CONFIG_" +:+ _). unfold first_group.
  destruct (re_match REDEFINED_RE line) as [m'|] eqn:E; [|done]. exfalso.
  destruct (cfg_line_inv "Value of " " is redefined by fragment " line) as (u & l & Hl & Hu);
    [unfold REDEFINED_RE in E; by rewrite E|].
  unfold line in Hl. rewrite !to_l_app in Hl.
  change (to_l "Value of CONFIG_") with (to_l "Value of " ++ to_l "CONFIG_") in Hl.
  rewrite <-app_assoc in Hl. do 2 apply app_inv_head in Hl.
  eapply (span_unique cSYM (to_l sym) u) in Hl as [_ Hl]; [|done..]. done.
Qed.
Lemma value_line A pad v : wf_pad pad → wf_val v →
  first_group (RBol ⋅⋅ RLit A ⋅⋅ RStar cs ⋅⋅ RGrp 1 (RStar cdot) ⋅⋅ REol)%re (A +:+ pad +:+ v) = Some v.
Proof. intros Hp Hv. unfold first_group. destruct (value_line_match A pad v Hp Hv) as (m & -> & <-). done. Qed.
Lemma read_log_block b rest : wf_block b →
  read_log 0 (render_block b ++ rest) = option_list (block_entry b) ++ read_log 0 rest.
Proof.
  destruct b as [sym tail|sym tail|sym tail pad1 req pad2 act|line]; cbn [wf_block render_block app read_log block_entry option_list].
  - intros [Hs _]. change ("Value of CONFIG_" +:+ sym +:+ " is redefined by fragment " +:+ tail) with
      ("Value of " +:+ "CONFIG_" +:+ sym +:+ " is redefined by fragment " +:+ tail).
    unfold REDEFINED_RE. by rewrite first_group_cfg by (done || by intros a [= <-]).
  - intros [Hs _]. rewrite (redundant_not_redefined sym tail Hs).
    change ("Value of CONFIG_" +:+ sym +:+ " is redundant by fragment " +:+ tail) with
      ("Value of " +:+ "CONFIG_" +:+ sym +:+ " is redundant by fragment " +:+ tail).
    unfold REDUNDANT_RE. by rewrite first_group_cfg by (done || by intros a [= <-]).
  - intros (Hs & _ & Hp1 & Hr & Hp2 & Ha). unfold REDEFINED_RE, REDUNDANT_RE. rewrite !first_group_other by done.
    change ("Value requested for CONFIG_" +:+ sym +:+ " not in final .config" +:+ tail) with
      ("Value requested for " +:+ "CONFIG_" +:+ sym +:+ " not in final .config" +:+ tail).
    unfold NOT_FINAL_RE. rewrite first_group_cfg by (done || by intros a [= <-]).
    pose proof (value_line "Requested value:" pad1 req Hp1 Hr) as H1. fold REQUESTED_RE in H1.
    pose proof (value_line "Actual value:" pad2 act Hp2 Ha) as H2. fold ACTUAL_RE in H2.
    assert (requested_line ("Actual value:" +:+ pad2 +:+ act) = None) as H3 by (by apply first_group_other).
    assert (actual_line ("Requested value:" +:+ pad1 +:+ req) = None) as H4 by (by apply first_group_other).
    change (first_group REQUESTED_RE) with requested_line in H1. change (first_group ACTUAL_RE) with actual_line in H2.
    assert (record_of (("Requested value:" +:+ pad1 +:+ req) :: ("Actual value:" +:+ pad2 +:+ act) :: rest) =
      ["Requested value:" +:+ pad1 +:+ req; "Actual value:" +:+ pad2 +:+ act]) as ->.
    { unfold record_of. cbn [firstn upto]. unfold closes. by rewrite H1, H3, H2. }
    unfold last_of. cbn [omap list_omap length]. by rewrite H1, H3, H4, H2.
  - intros (_ & H1 & H2). unfold REDEFINED_RE, REDUNDANT_RE, NOT_FINAL_RE. by rewrite !first_group_other by done.
Qed.
Lemma read_log_render bs : Forall wf_block bs → read_log 0 (render_log bs) = omap block_entry bs.
Proof.
  induction 1 as [|b bs Hb _ IH]; [done|]. change (render_log (b :: bs)) with (render_block b ++ render_log bs).
  rewrite read_log_block, IH by done. cbn [omap list_omap]. by destruct (block_entry b).
Qed.

Lemma cSYM_not_linebreak a : cSYM a = true → is_linebreak a = false.
Proof. destruct a as [[] [] [] [] [] [] [] []]; vm_compute; congruence. Qed.
Lemma wf_sym_no_break sym : wf_sym sym → no_break sym.
Proof. intros [_ H]. eapply Forall_impl; [exact H|]. apply cSYM_not_linebreak. Qed.
Create HintDb merge.
#[export] Hint Resolve wf_sym_no_break no_break_literal : merge.
Ltac solve_no_break :=
  repeat (rewrite no_break_app; split); first [by apply no_break_literal | by auto with merge].

Lemma wf_pad_no_break s : wf_pad s → no_break s.
Proof. intros H. eapply Forall_impl; [exact H|]. by intros a ->. Qed.
#[export] Hint Resolve wf_pad_no_break : merge.
Lemma render_log_no_break bs : Forall wf_block bs → Forall no_break (render_log bs).
Proof.
  induction 1 as [|b bs Hb _ IH]; [constructor|].
  change (render_log (b :: bs)) with (render_block b ++ render_log bs).
  apply Forall_app. split; [|exact IH].
  destruct b; cbn [wf_block] in Hb; destruct_and?; cbn [render_block];
    rewrite !Forall_cons, Forall_nil; split_and!; try done;
    repeat match goal with H : wf_val _ |- _ => destruct H as [? _] end; solve_no_break.
Qed.
Lemma log_entries_render bs : Forall wf_block bs → log_entries (unterminated (render_log bs)) = omap block_entry bs.
Proof.
  intros H. unfold log_entries. rewrite splitlines_unterminated by by apply render_log_no_break. by apply read_log_render.
Qed.

(** The gate's two decisions on an entry. *)
Definition entry_lost (frag : string) (e : entry) : bool :=
  match e with
  | ENotFinal cfg req act => lost cfg req act (fragment_symbols frag) (merge_overrides frag)
  | _ => false
  end.
Definition entry_dropped (frag : string) (e : entry) : option string :=
  match e with
  | ENotFinal cfg req act => if dropped cfg req (fragment_symbols frag) then Some cfg else None
  | _ => None
  end.
Lemma foldl_entries_fails frag es s :
  fails (fold_entries frag s es) = [] ↔
  fails s = [] ∧ ∀ e, e ∈ es → entry_lost frag e = false.
Proof.
  revert s. unfold fold_entries. induction es as [|e es IH]; intros s; cbn [foldl].
  - split; [intros H; split; [done|intros e He; by apply elem_of_nil in He]|tauto].
  - rewrite IH. setoid_rewrite elem_of_cons.
    assert (fails (apply_entry frag e s) = [] ↔ fails s = [] ∧ entry_lost frag e = false) as ->.
    { destruct e as [| |sym req act]; cbn [apply_entry entry_lost add_info fails]; [tauto..|].
      rewrite record_not_final_fails. destruct (lost _ _ _ _ _); rewrite app_nil; naive_solver. }
    naive_solver.
Qed.
Lemma foldl_entries_drops frag es s :
  drops (fold_entries frag s es) = drops s ++ omap (entry_dropped frag) es.
Proof.
  revert s. unfold fold_entries. induction es as [|e es IH]; intros s; cbn [foldl]; [by rewrite app_nil_r|].
  rewrite IH. destruct e as [| |sym req act]; [done..|].
  cbn [apply_entry]. rewrite record_not_final_drops. cbn.
  destruct (dropped _ _ _); by rewrite <-app_assoc.
Qed.

Lemma drop_summary_lists s : fails (drop_summary s) = fails s ∧ drops (drop_summary s) = drops s.
Proof. unfold drop_summary. by destruct (drops s) eqn:E; cbn; rewrite ?E. Qed.

(** C11. Refinement: on every fragment and every log, the index loop of [classify]
    collects exactly what folding the per-entry decision over the log's entries
    gives, where the entries are what a plain reading of the lines finds
    ([log_entries]): failures iff some entry was lost, and the dependent drops in log
    order.  And the entries of a log merge_config printed, with any fragment path,
    any spaces before the values and any other lines in between, are the ones it
    printed, in order. *)
Theorem classify_refines_entries (frag : string) :
  (∀ log, let s := classify frag log in
    (fails s = [] ↔ ∀ e, e ∈ log_entries log → entry_lost frag e = false) ∧
    drops s = omap (entry_dropped frag) (log_entries log) ∧
    s = drop_summary (fold_entries frag cstate0 (log_entries log))) ∧
  (∀ bs, Forall wf_block bs → log_entries (unterminated (render_log bs)) = omap block_entry bs).
Proof.
  split; [|apply log_entries_render]. intros log. cbn zeta. rewrite (classify_reads frag log).
  set (t := fold_entries _ _ _). destruct (drop_summary_lists t) as [-> ->].
  unfold t. rewrite foldl_entries_fails, foldl_entries_drops. cbn. naive_solver.
Qed.

(** The decision table: every not-in-final record adds exactly one line,
    it is a failure exactly when the fragment asked for the symbol, no override
    covers it and the two sides are not both unset, and it is a dependent drop
    exactly when a value nobody asked for is gone or different. *)
Theorem record_not_final_table (cfg requested actual : string)
    (in_frag : odict string string) (overrides : list string) (s : cstate) :
  let s' := record_not_final cfg requested actual in_frag overrides s in
  (length (info s') + length (fails s') + length (drops s') =
   S (length (info s) + length (fails s) + length (drops s)))%nat ∧
  (length (fails s') = length (fails s) + (if lost cfg requested actual in_frag overrides then 1 else 0))%nat ∧
  drops s' = drops s ++ (if dropped cfg requested in_frag then [cfg] else []).
Proof.
  cbn zeta. split; [apply record_not_final_one|].
  rewrite record_not_final_fails, record_not_final_drops, length_app.
  by destruct (lost _ _ _ _ _).
Qed.

(** C39. The gate's exit status: on a readable fragment and a readable log,
    whatever they hold, the script returns 0 iff no symbol the fragment asked for was
    lost without an annotation, among the records the log holds, and 1 otherwise; it
    prints the failures last, one line each. *)
Theorem merge_gate_status (read_text : string → option string) (fp lp frag log : string) :
  read_text fp = Some frag → read_text lp = Some log → fp ≠ "keeps" →
  ∃ o, main_merge read_text [fp; lp] = Ok o ∧ (rc o = 0 ∨ rc o = 1) ∧
       (rc o = 0 ↔ ∀ e, e ∈ log_entries log → entry_lost frag e = false) ∧
       out o = [] ∧ ∃ notes, err o = ((λ line, "linux-build: " +:+ line) <$> notes) ++ fails (classify frag log).
Proof.
  intros Hf Hl Hk. unfold main_merge. rewrite (proj2 (String.eqb_neq _ _) Hk).
  unfold check_merge_log, read. rewrite Hf, Hl. cbn [of_option mbind res_bind].
  eexists. split; [reflexivity|]. cbn [rc out err].
  pose proof (foldl_entries_fails frag (log_entries log) cstate0) as H. cbn in H.
  rewrite (classify_reads frag log). destruct (drop_summary_lists (fold_entries frag cstate0 (log_entries log))) as [-> _].
  split_and!; [by destruct (fails _); [left|right]| |done|by eexists].
  destruct (fails _); naive_solver.
Qed.

(** ** The keeps check *)
Lemma check_keeps_acc final l table fs :
  let '(table', fs') := foldl (λ '(table, fails) sym,
    let got := keep_got final sym in
    let ok := String.eqb got "y" in
    let status := if ok then "PASS" else "FAIL" in
    (table ++ ["CONFIG_" +:+ sym +:+ ": final " +:+ got +:+ "  " +:+ status],
     if ok then fails
     else fails ++ ["TEST FAIL: keep CONFIG_" +:+ sym +:+ " is " +:+ got +:+ ", want y"]))
    (table, fs) l in
  length table' = (length table + length l)%nat ∧
  (fs' = [] ↔ fs = [] ∧ ∀ sym, sym ∈ l → od_get sym final = Some "y").
Proof.
  revert table fs. induction l as [|sym l IH]; intros table fs; cbn [foldl].
  - split; [cbn; lia|]. split; [|tauto]. intros ->. split; [done|].
    intros x Hx. by apply elem_of_nil in Hx.
  - specialize (IH (table ++ ["CONFIG_" +:+ sym +:+ ": final " +:+ keep_got final sym +:+ "  " +:+
      (if String.eqb (keep_got final sym) "y" then "PASS" else "FAIL")])
      (if String.eqb (keep_got final sym) "y" then fs else
       fs ++ ["TEST FAIL: keep CONFIG_" +:+ sym +:+ " is " +:+ keep_got final sym +:+ ", want y"])).
    cbn zeta. destruct (foldl _ _ _) as [table' fs']. destruct IH as [IH1 IH2].
    rewrite length_app in IH1. cbn in IH1 |- *. split; [lia|]. rewrite IH2.
    setoid_rewrite elem_of_cons. unfold keep_got.
    destruct (od_get sym final) as [v|] eqn:E; cbn.
    + destruct (String.eqb_spec v "y") as [->|Hv]; [naive_solver|].
      rewrite app_nil. naive_solver.
    + rewrite app_nil. naive_solver.
Qed.

(** The keeps gate: one table line per keep after the banner, and no
    failure line iff every keep is [y] in the final config. *)
Theorem check_keeps_iff (cfg_text : string) :
  length (check_keeps cfg_text).1 = S (length KEEP_Y) ∧
  ((check_keeps cfg_text).2 = [] ↔
   ∀ sym, sym ∈ KEEP_Y → od_get sym (parse_final_config cfg_text) = Some "y").
Proof.
  pose proof (check_keeps_acc (parse_final_config cfg_text) KEEP_Y
    ["===== 3c. D-0062 keeps must be y ====="] []) as H.
  unfold check_keeps. destruct (foldl _ _ _) as [table fs]. destruct H as [H1 H2].
  split; [exact H1|]. rewrite H2. naive_solver.
Qed.

(** ** Printing a config and parsing it back *)
Definition render_config_line (kv : string * option string) : string :=
  match kv.2 with
  | Some v => "CONFIG_" +:+ kv.1 +:+ "=" +:+ v
  | None => "# CONFIG_" +:+ kv.1 +:+ " is not set"
  end.
Definition config_value (v : option string) : string := default "unset" v.
(** Values that survive [strip()] and stay on one line. *)
Definition wf_config (kv : string * option string) : Prop :=
  wf_sym kv.1 ∧ ∀ v, kv.2 = Some v → no_break v ∧ strip v = v.

Lemma no_break_cdot l : Forall (λ a, is_linebreak a = false) l → Forall (λ a, cdot a = true) l.
Proof.
  intros H. eapply Forall_impl; [exact H|]. intros a. unfold cdot, is_linebreak, in_range.
  by destruct (N.eqb_spec (ord a) 10) as [->|].
Qed.

Lemma config_line_parse d kv : wf_config kv →
  config_line d (render_config_line kv) = od_set kv.1 (config_value kv.2) d.
Proof.
  destruct kv as [k [v|]]; cbn [fst snd]; intros [[Hne Hk] Hv]; cbn [fst snd] in *;
    assert (Hu : to_l k ≠ []) by (by destruct k); unfold config_line, render_config_line; cbn [fst snd].
  - destruct (Hv v eq_refl) as [Hnb Hs].
    assert (∃ m, re_match CFG_Y_RE ("CONFIG_" +:+ k +:+ "=" +:+ v) = Some m ∧
                 grp_of 1 m = k ∧ grp_of 2 m = v) as (m & -> & -> & ->); [|by rewrite Hs].
    unfold re_match, match_at, CFG_Y_RE, SYM. rewrite !to_l_app.
    rewrite rm_seq, rm_bol, rm_seq, rm_lit_app, rm_seq.
    erewrite rm_grp_plus_greedy; [|done|done|by intros a [= <-]|].
    2: { rewrite rm_seq, rm_lit_app, rm_seq. apply rm_grp_star_end; [by apply no_break_cdot|].
         rewrite rm_eol_end, !of_l_to_l. reflexivity. }
    eexists. split_and!; reflexivity.
  - assert (re_match CFG_Y_RE ("# CONFIG_" +:+ k +:+ " is not set") = None) as ->.
    { unfold CFG_Y_RE. by apply re_prefix_mismatch. }
    assert (∃ m, re_match CFG_N_RE ("# CONFIG_" +:+ k +:+ " is not set") = Some m ∧
                 grp_of 1 m = k) as (m & -> & ->); [|done].
    unfold re_match, match_at, CFG_N_RE, SYM. rewrite !to_l_app.
    rewrite rm_seq, rm_bol, rm_seq, rm_lit_app, rm_seq.
    erewrite rm_grp_plus_greedy; [|done|done|by intros a [= <-]|].
    2: { rewrite rm_seq. rewrite <-(app_nil_r (to_l " is not set")), rm_lit_app, rm_eol_end, !of_l_to_l. reflexivity. }
    eexists. split; reflexivity.
Qed.
Lemma render_config_no_break kvs : Forall wf_config kvs → Forall no_break (render_config_line <$> kvs).
Proof.
  intros H. apply Forall_fmap. eapply Forall_impl; [exact H|].
  intros [k [v|]] [Hk Hv]; cbn in *; unfold render_config_line; cbn.
  - destruct (Hv v eq_refl). solve_no_break.
  - solve_no_break.
Qed.

(** C40. Round trip: a config printed line by line parses back to the
    dictionary of its bindings, later lines winning, [unset] for a line that
    says the symbol is not set. *)
Theorem parse_final_config_render (kvs : list (string * option string)) :
  Forall wf_config kvs →
  parse_final_config (unterminated (render_config_line <$> kvs)) =
  od_of_list ((λ kv, (kv.1, config_value kv.2)) <$> kvs).
Proof.
  intros H. unfold parse_final_config.
  rewrite splitlines_unterminated by by apply render_config_no_break.
  unfold od_of_list, od_update. generalize (@nil (string * string)) as d.
  induction H as [|kv kvs Hkv _ IH]; intros d; [done|].
  cbn [fmap list_fmap foldl]. rewrite (config_line_parse _ _ Hkv). apply IH.
Qed.

(** The script's own selftest passes on the model. *)
Theorem selftest_merge_passes : selftest_merge = Ok tt.
Proof. vm_compute. reflexivity. Qed.

(** ** Witnesses *)
Lemma classify_terminates_witness :
  (length (splitlines log_case3) ≤ 100)%nat ∧
  classify_fuel 100 frag_parents log_case3 = Some (classify frag_parents log_case3).
Proof.
  assert (length (splitlines log_case3) ≤ 100)%nat as H by (vm_compute; lia).
  split; [exact H|]. exact (classify_terminates frag_parents log_case3 100 H).
Defined.

(** A log of linux-build.sh: the fragment it merges is its trimmed one, and make
    prints around the records. *)
Definition blocks_mixed : list block :=
  [ BLine "Merging bench/linux/linux-trimmed.fragment"; BLine "#";
    BRedefined "RTC_CLASS" "bench/linux/linux-trimmed.fragment:";
    BLine "Previous value: CONFIG_RTC_CLASS=y"; BLine "New value: # CONFIG_RTC_CLASS is not set"; BLine "";
    BLine "# configuration written to .config";
    BNotFinal "FTRACE" "" "  " "# CONFIG_FTRACE is not set" "     " "CONFIG_FTRACE=y"; BLine "";
    BNotFinal "SCSI_MOD" "" "  " "CONFIG_SCSI_MOD=y" "     " ""; BLine "" ].
Definition log_built : string := unterminated (render_log blocks_mixed).
Lemma wf_val_check v : forallb (λ a, negb (is_linebreak a)) (to_l v) = true →
  match to_l v with a :: _ => is_space a | [] => false end = false → wf_val v.
Proof.
  intros H1 H2. split; [by apply no_break_literal|].
  destruct (to_l v); [done|]. by intros a' [= <-].
Qed.
Lemma wf_sym_check s : negb (String.eqb s "") && forallb cSYM (to_l s) = true → wf_sym s.
Proof.
  intros [H1 H2]%andb_true_iff. split; [by destruct s|].
  apply Forall_forall. intros a Ha. rewrite forallb_forall in H2. apply H2. by apply list_elem_of_In.
Qed.
Lemma wf_pad_check s : forallb (Ascii.eqb (chr 32)) (to_l s) = true → wf_pad s.
Proof. intros H. apply Forall_forall. intros a Ha. rewrite forallb_forall in H. symmetry. apply Ascii.eqb_eq, H. by apply list_elem_of_In. Qed.
Lemma blocks_mixed_wf : Forall wf_block blocks_mixed.
Proof.
  repeat (constructor; [repeat split; first [done|by apply no_break_literal|by apply wf_sym_check|by apply wf_val_check|
    by apply wf_pad_check]|]). constructor.
Qed.

Lemma classify_refines_entries_witness :
  Forall wf_block blocks_mixed ∧ fails (classify frag_mixed log_built) ≠ [] ∧
  drops (classify frag_mixed log_built) = ["CONFIG_SCSI_MOD"].
Proof.
  split; [exact blocks_mixed_wf|].
  destruct (classify_refines_entries frag_mixed) as [Hc Hr]. specialize (Hr blocks_mixed blocks_mixed_wf).
  destruct (Hc log_built) as (_ & Hd & _). unfold log_built in *. rewrite Hr in Hd.
  split; [by vm_compute|]. rewrite Hd. vm_compute. reflexivity.
Defined.

Definition witness_fs (path : string) : option string :=
  if String.eqb path "frag" then Some frag_mixed else if String.eqb path "log" then Some log_built else None.
Lemma merge_gate_status_witness :
  ∃ o, main_merge witness_fs ["frag"; "log"] = Ok o ∧ rc o = 1.
Proof.
  destruct (merge_gate_status witness_fs "frag" "log" frag_mixed log_built)
    as (o & Ho & [Hrc|Hrc] & Hiff & _); [reflexivity..|discriminate| |].
  - exists o. split; [exact Ho|]. vm_compute in Ho. injection Ho as <-. reflexivity.
  - exists o. split; [exact Ho|exact Hrc].
Defined.

Definition config_sample : list (string * option string) :=
  [("TTY", Some "y"); ("EFI", None); ("HZ", Some "100"); ("TTY", Some "m")].
Lemma parse_final_config_render_witness :
  parse_final_config (unterminated (render_config_line <$> config_sample)) =
  [("TTY", "m"); ("EFI", "unset"); ("HZ", "100")].
Proof.
  rewrite parse_final_config_render; [vm_compute; reflexivity|].
  unfold config_sample. rewrite !Forall_cons, Forall_nil.
  split_and!; try exact I; (split; [by apply wf_sym_check|]);
    first [by intros v [=] | intros v [= <-]; split; [by apply no_break_literal|by vm_compute]].
Defined.
