(* ===== verification/PyFloat.v ===== *)
(** * Python numbers: binary64 floats and the int/float mix

    A Python float is a [spec_float] at precision 53 and emax 1024: the
    executable IEEE 754 specification of the standard library, with
    round-to-nearest-even results.  Conversions follow CPython: [int/int] and
    [float(str)] are correctly rounded, [f"{x:.kf}"] rounds the exact binary
    value half-even, [round(x)] is half-even, an [int] and a [float] compare by
    their exact values.  An int too large for a float converts to infinity
    here, where CPython raises [OverflowError]. *)
From S2P Require Import Prelude PyStr.
From Stdlib Require Import Ascii.
From Stdlib Require Export SpecFloat.

Abbreviation float := spec_float.
Abbreviation prec := 53%Z.
Abbreviation emax := 1024%Z.

Definition fadd : float → float → float := SFadd prec emax.
Definition fsub : float → float → float := SFsub prec emax.
Definition fmul : float → float → float := SFmul prec emax.
Definition fabs : float → float := SFabs.
Definition fopp : float → float := SFopp.
Definition fsqrt : float → float := SFsqrt prec emax.
Definition is_fzero (x : float) : bool := match x with S754_zero _ => true | _ => false end.
Definition fdiv (x y : float) : res float :=
  if is_fzero y then Err ZeroDivisionError else Ok (SFdiv prec emax x y).

(** [m * 2^e] to the nearest float. *)
Definition fscale (m e : Z) : float := binary_normalize prec emax m e false.
Definition float_of_Z (z : Z) : float := fscale z 0.

(** The correctly rounded quotient of two integers. *)
Definition fquot (n d : Z) : float :=
  match n, d with
  | Z0, _ => S754_zero false
  | _, Z0 => S754_nan
  | _, _ =>
    let '(q, e, l) := SFdiv_core_binary prec emax (Z.abs n) 0 (Z.abs d) 0 in
    binary_round_aux prec emax (xorb (n <? 0) (d <? 0)) q e l
  end.
(** [a / b] on ints *)
Definition int_truediv (a b : Z) : res float :=
  if b =? 0 then Err ZeroDivisionError else Ok (fquot a b).

(** The exact value [m * 2^e] of a finite float. *)
Definition dyadic (x : float) : option (Z * Z) :=
  match x with
  | S754_zero _ => Some (0, 0)
  | S754_finite s m e => Some (cond_Zopp s (Zpos m), e)
  | _ => None
  end.

(** [n / d] rounded half-even, for [0 <= n], [0 < d]. *)
Definition div_half_even (n d : Z) : Z :=
  let q := n / d in
  match 2 * (n mod d) ?= d with
  | Lt => q
  | Gt => q + 1
  | Eq => if Z.even q then q else q + 1
  end.
(** [|m| * 2^e * 10^k] rounded half-even. *)
Definition scaled_half_even (m e : Z) (k : nat) : Z :=
  let n := Z.abs m * 10 ^ Z.of_nat k in
  if 0 <=? e then n * 2 ^ e else div_half_even n (2 ^ (- e)).

(** [round(x)] and [int(x)] *)
Definition py_round (x : float) : res Z :=
  match x with
  | S754_nan => Err ValueError
  | S754_infinity _ => Err OverflowError
  | _ => match dyadic x with
         | Some (m, e) => Ok (Z.sgn m * scaled_half_even m e 0)
         | None => Err ValueError
         end
  end.
Definition py_trunc (x : float) : res Z :=
  match x with
  | S754_nan => Err ValueError
  | S754_infinity _ => Err OverflowError
  | _ => match dyadic x with
         | Some (m, e) => Ok (if 0 <=? e then m * 2 ^ e else Z.quot m (2 ^ (- e)))
         | None => Err ValueError
         end
  end.
(** [math.floor(x)], [math.ceil(x)] *)
Definition py_floor (x : float) : res Z :=
  match x with
  | S754_nan => Err ValueError
  | S754_infinity _ => Err OverflowError
  | _ => match dyadic x with
         | Some (m, e) => Ok (if 0 <=? e then m * 2 ^ e else m / 2 ^ (- e))
         | None => Err ValueError
         end
  end.
Definition py_ceil (x : float) : res Z := z ← py_floor (fopp x); Ok (- z).

(** [f"{x:.kf}"] *)
Definition fixed_digits (n : Z) (k : nat) : string :=
  let p := 10 ^ Z.of_nat k in
  str_of_Z (n / p) +:+
  match k with
  | O => ""
  | _ => "." +:+ rjust k (chr 48) (str_of_Z (n mod p))
  end.
Definition fsign (x : float) : bool :=
  match x with S754_zero s | S754_infinity s | S754_finite s _ _ => s | S754_nan => false end.
Definition fmt_fixed (k : nat) (x : float) : string :=
  match dyadic x with
  | Some (m, e) =>
    (if fsign x then "-" else "") +:+ fixed_digits (scaled_half_even m e k) k
  | None => match x with
            | S754_infinity s => if s then "-inf" else "inf"
            | _ => "nan"
            end
  end.

(** [float(s)]: a decimal literal with optional sign, fraction and exponent, or
    an infinity or nan; correctly rounded.  Underscores may separate digits. *)
Fixpoint drop_underscores (after_digit : bool) (l : list ascii) : option (list ascii) :=
  match l with
  | [] => Some []
  | a :: l' =>
    if (ord a =? 95)%N then
      match l' with
      | b :: _ => if after_digit && is_digit b then drop_underscores false l' else None
      | [] => None
      end
    else cons a <$> drop_underscores (is_digit a) l'
  end.
Definition all_digits (l : list ascii) : bool := forallb is_digit l.
Definition dec_val (l : list ascii) : Z :=
  foldl (λ acc a, acc * 10 + (Z.of_N (ord a) - 48)) 0 l.
Definition fdec (neg : bool) (n e10 : Z) : float :=
  let x := if 0 <=? e10 then float_of_Z (n * 10 ^ e10) else fquot n (10 ^ (- e10)) in
  if neg then fopp x else x.
Definition parse_exp (l : list ascii) : option Z :=
  match l with
  | [] => Some 0
  | a :: l =>
    if (ord a =? 101)%N || (ord a =? 69)%N then
      let '(neg, l) := parse_sign l in
      match l with
      | [] => None
      | _ => if all_digits l then Some (if neg then - dec_val l else dec_val l) else None
      end
    else None
  end.
Definition float_of_str (s : string) : option float :=
  l ← drop_underscores false (strip_l (to_l s));
  let '(neg, l) := parse_sign (to_lower <$> l) in
  let w := of_l l in
  if String.eqb w "inf" || String.eqb w "infinity" then Some (S754_infinity neg)
  else if String.eqb w "nan" then Some S754_nan
  else
    let ip := take_while is_digit l in
    let l := drop_while is_digit l in
    let '(fp, l) :=
      match l with
      | a :: l' => if (ord a =? 46)%N then (take_while is_digit l', drop_while is_digit l')
                   else ([], l)
      | [] => ([], [])
      end in
    match ip ++ fp with
    | [] => None
    | ds => match parse_exp l with
            | Some x => Some (fdec neg (dec_val ds) (x - Z.of_nat (length fp)))
            | None => None
            end
    end.

(** A float literal of the source. *)
Definition float_lit (s : string) : float := default S754_nan (float_of_str s).

(** [repr(x)]: the fewest significant digits that read back as [x], correctly
    rounded; exponent form below 1e-4 and from 1e16. *)
Definition dec_exponent (n d : Z) : Z :=
  let k := Z.of_nat (String.length (str_of_Z n)) - Z.of_nat (String.length (str_of_Z d)) in
  if (if 0 <=? k then d * 10 ^ k <=? n else d <=? n * 10 ^ (- k)) then k else k - 1.
(** [n / d] to [p] significant digits: the digits and the exponent of the last. *)
Definition dec_digits (p : nat) (n d : Z) : Z * Z :=
  let e := dec_exponent n d - Z.of_nat (p - 1) in
  (if 0 <=? e then div_half_even n (d * 10 ^ e) else div_half_even (n * 10 ^ (- e)) d, e).
Definition float_eqb (x y : float) : bool := SFeqb x y.
Fixpoint shortest (fuel p : nat) (n d : Z) (x : float) : Z * Z :=
  let '(q, e) := dec_digits p n d in
  match fuel with
  | O => (q, e)
  | S fuel => if float_eqb (fdec false q e) x then (q, e) else shortest fuel (S p) n d x
  end.
Definition strip_zeros (s : string) : string := rstrip_chars (λ a, (ord a =? 48)%N) s.
Definition repr_digits (q e : Z) : string :=
  let s := str_of_Z q in
  let x := e + Z.of_nat (String.length s) - 1 in
  let ds := strip_zeros s in
  if (-4 <=? x) && (x <? 16) then
    if x <? 0 then "0." +:+ str_repeat (Z.to_nat (- x - 1)) "0" +:+ ds
    else let ip := slice 0 (Z.to_nat (x + 1)) (ljust (Z.to_nat (x + 1)) (chr 48) s) in
         let fp := slice_from (Z.to_nat (x + 1)) ds in
         ip +:+ "." +:+ (if String.eqb fp "" then "0" else fp)
  else
    let m := slice 0 1 ds in
    let fp := slice_from 1 ds in
    m +:+ (if String.eqb fp "" then "" else "." +:+ fp) +:+ "e" +:+ (if x <? 0 then "-" else "+")
    +:+ rjust 2 (chr 48) (str_of_Z (Z.abs x)).
Definition repr_float (x : float) : string :=
  match x with
  | S754_nan => "nan"
  | S754_infinity s => if s then "-inf" else "inf"
  | S754_zero s => if s then "-0.0" else "0.0"
  | S754_finite s m e =>
    let '(n, d) := if 0 <=? e then (Zpos m * 2 ^ e, 1) else (Zpos m, 2 ^ (- e)) in
    let '(q, k) := shortest 16 1 n d (S754_finite false m e) in
    (if s then "-" else "") +:+ repr_digits q k
  end.

(** [f"{x:g}"]: six significant digits, trailing zeros removed. *)
Definition g_digits (q e : Z) : string :=
  let s := str_of_Z q in
  let x := e + Z.of_nat (String.length s) - 1 in
  let ds := strip_zeros s in
  if (-4 <=? x) && (x <? 6) then
    if x <? 0 then "0." +:+ str_repeat (Z.to_nat (- x - 1)) "0" +:+ ds
    else let fp := slice_from (Z.to_nat (x + 1)) ds in
         slice 0 (Z.to_nat (x + 1)) (ljust (Z.to_nat (x + 1)) (chr 48) s)
         +:+ (if String.eqb fp "" then "" else "." +:+ fp)
  else
    let fp := slice_from 1 ds in
    slice 0 1 ds +:+ (if String.eqb fp "" then "" else "." +:+ fp) +:+ "e" +:+ (if x <? 0 then "-" else "+")
    +:+ rjust 2 (chr 48) (str_of_Z (Z.abs x)).
Definition fmt_g (x : float) : string :=
  match x with
  | S754_finite s m e =>
    let '(n, d) := if 0 <=? e then (Zpos m * 2 ^ e, 1) else (Zpos m, 2 ^ (- e)) in
    let '(q, k) := dec_digits 6 n d in
    (if s then "-" else "") +:+ g_digits q k
  | S754_zero s => if s then "-0" else "0"
  | _ => repr_float x
  end.

(** ** int and float together *)
Inductive num := NInt (z : Z) | NFlt (x : float).
Definition num_f (n : num) : float := match n with NInt z => float_of_Z z | NFlt x => x end.
Definition num_is_int (n : num) : bool := match n with NInt _ => true | NFlt _ => false end.
Definition num_op (fz : Z → Z → Z) (ff : float → float → float) (a b : num) : num :=
  match a, b with
  | NInt x, NInt y => NInt (fz x y)
  | _, _ => NFlt (ff (num_f a) (num_f b))
  end.
Definition num_add : num → num → num := num_op Z.add fadd.
Definition num_sub : num → num → num := num_op Z.sub fsub.
Definition num_mul : num → num → num := num_op Z.mul fmul.
Definition num_abs (a : num) : num :=
  match a with NInt z => NInt (Z.abs z) | NFlt x => NFlt (fabs x) end.
(** [a / b] *)
Definition num_truediv (a b : num) : res num :=
  match a, b with
  | NInt x, NInt y => NFlt <$> int_truediv x y
  | _, _ => NFlt <$> fdiv (num_f a) (num_f b)
  end.

(** Exact comparison; [None] when one side is a nan. *)
Definition dy_compare (a b : Z * Z) : comparison :=
  let e := Z.min a.2 b.2 in
  (a.1 * 2 ^ (a.2 - e) ?= b.1 * 2 ^ (b.2 - e)).
Definition num_dy (a : num) : option (Z * Z) :=
  match a with NInt z => Some (z, 0) | NFlt x => dyadic x end.
Definition num_compare (a b : num) : option comparison :=
  match num_dy a, num_dy b with
  | Some x, Some y => Some (dy_compare x y)
  | _, _ => SFcompare (num_f a) (num_f b)
  end.
Definition num_ltb (a b : num) : bool := match num_compare a b with Some Lt => true | _ => false end.
Definition num_leb (a b : num) : bool := match num_compare a b with Some Lt | Some Eq => true | _ => false end.
Definition num_gtb (a b : num) : bool := num_ltb b a.
Definition num_geb (a b : num) : bool := num_leb b a.
Definition num_eqb (a b : num) : bool := match num_compare a b with Some Eq => true | _ => false end.
(** [f"{a:.kf}"], [f"{a}"] for an int *)
Definition num_fixed (k : nat) (a : num) : string := fmt_fixed k (num_f a).

(** [sorted(l)]: Python's sort only uses [<]. *)
Definition num_sorted (l : list num) : list num := sort_by (λ a b, negb (num_ltb b a)) l.
(** [min(l)], [max(l)]: the first extremal element. *)
Definition num_min (l : list num) : res num :=
  match l with
  | [] => Err ValueError
  | x :: l => Ok (foldl (λ m y, if num_ltb y m then y else m) x l)
  end.
Definition num_max (l : list num) : res num :=
  match l with
  | [] => Err ValueError
  | x :: l => Ok (foldl (λ m y, if num_gtb y m then y else m) x l)
  end.
Definition nth_num (l : list num) (i : nat) : res num := of_option IndexError (l !! i).

(** [statistics.median] *)
Definition median (data : list num) : res num :=
  let data := num_sorted data in
  let n := length data in
  if (n =? 0)%nat then Err StatisticsError
  else if Nat.odd n then nth_num data (n / 2)
  else a ← nth_num data (n / 2 - 1);
       b ← nth_num data (n / 2);
       num_truediv (num_add a b) (NInt 2).

(** [sum(l)] of floats: the compensated summation of CPython 3.12. *)
Definition fge (x y : float) : bool := SFleb y x.
Definition fsum_step (s : float * float) (x : float) : float * float :=
  let t := fadd s.1 x in
  (t, fadd s.2 (if fge (fabs s.1) (fabs x) then fadd (fsub s.1 t) x else fadd (fsub x t) s.1)).
Definition is_ffinite (x : float) : bool := match x with S754_zero _ | S754_finite _ _ _ => true | _ => false end.
Definition py_sum (l : list float) : num :=
  match l with
  | [] => NInt 0
  | x :: l => let '(f, c) := foldl fsum_step (fadd (S754_zero false) x, S754_zero false) l in
              NFlt (if negb (is_fzero c) && is_ffinite c then fadd f c else f)
  end.
(** [math.sqrt(x)] *)
Definition py_sqrt (x : float) : res float :=
  match x with
  | S754_finite true _ _ | S754_infinity true => Err ValueError
  | _ => Ok (fsqrt x)
  end.

(** [str(v)] of a number *)
Definition num_repr (a : num) : string := match a with NInt z => str_of_Z z | NFlt x => repr_float x end.
(** [float(v)] *)
Definition num_float (a : num) : num := NFlt (num_f a).

(** The interpolation every script's [percentile] ends with: between the
    elements at [f] and [c] of a sorted list, at position [k]. *)
Definition percentile_at (l : list num) (k : float) (f c : Z) : res num :=
  vf ← nth_num l (Z.to_nat f);
  if f =? c then Ok (num_float vf)
  else vc ← nth_num l (Z.to_nat c);
       Ok (NFlt (fadd (fmul (num_f vf) (fsub (float_of_Z c) k)) (fmul (num_f vc) (fsub k (float_of_Z f))))).

(** ** Sorting integers *)
Lemma num_compare_int a b : num_compare (NInt a) (NInt b) = Some (a ?= b).
Proof. unfold num_compare, dy_compare. cbn. by rewrite !Z.mul_1_r. Qed.
Lemma num_ltb_int a b : num_ltb (NInt a) (NInt b) = (a <? b).
Proof. unfold num_ltb. rewrite num_compare_int. unfold Z.ltb. by destruct (a ?= b). Qed.
Lemma num_leb_int a b : num_leb (NInt a) (NInt b) = (a <=? b).
Proof. unfold num_leb. rewrite num_compare_int. unfold Z.leb. by destruct (a ?= b). Qed.
Lemma sort_by_fmap {A B} (f : A → B) (leb : B → B → bool) (l : list A) :
  sort_by leb (f <$> l) = f <$> sort_by (λ x y, leb (f x) (f y)) l.
Proof.
  induction l as [|x l IH]; [done|]. cbn. change (foldr (insert_by leb) [] (f <$> l)) with (sort_by leb (f <$> l)).
  rewrite IH. change (foldr (insert_by (λ x y, leb (f x) (f y))) [] l) with (sort_by (λ x y, leb (f x) (f y)) l).
  clear IH. induction (sort_by _ l) as [|y l' IH']; [done|]. cbn. destruct (leb (f x) (f y)); [done|].
  exact (f_equal (cons (f y)) IH').
Qed.
Lemma sort_by_ext {A} (leb leb' : A → A → bool) (l : list A) :
  (∀ x y, leb x y = leb' x y) → sort_by leb l = sort_by leb' l.
Proof.
  intros H. induction l as [|x l IH]; [done|]. cbn.
  change (foldr (insert_by leb) [] l) with (sort_by leb l). rewrite IH.
  change (foldr (insert_by leb') [] l) with (sort_by leb' l).
  clear IH. induction (sort_by leb' l) as [|y l' IH']; [done|]. cbn. rewrite H. destruct (leb' x y); [done|]. by rewrite IH'.
Qed.
Lemma num_sorted_ints (l : list Z) : num_sorted (NInt <$> l) = NInt <$> sort_by Z.leb l.
Proof.
  unfold num_sorted. rewrite sort_by_fmap. f_equal. apply sort_by_ext. intros x y.
  rewrite num_ltb_int. lia.
Qed.
Lemma sort_by_leb_perm (l l' : list Z) : l ≡ₚ l' → sort_by Z.leb l = sort_by Z.leb l'.
Proof.
  intros H. assert (∀ l, StronglySorted Z.le (sort_by Z.leb l)) as Hs.
  { intros k. apply sort_by_sorted_rel; intros ??; lia. }
  apply (Sorted_unique Z.le); [apply StronglySorted_Sorted, Hs..|].
  by rewrite !sort_by_perm.
Qed.
(** Sorting ints: a list of ints and any permutation of it sort alike. *)
Lemma num_sorted_perm (l l' : list Z) : l ≡ₚ l' → num_sorted (NInt <$> l) = num_sorted (NInt <$> l').
Proof. intros H. by rewrite !num_sorted_ints, (sort_by_leb_perm l l'). Qed.
Lemma median_perm (l l' : list Z) : l ≡ₚ l' → median (NInt <$> l) = median (NInt <$> l').
Proof. intros H. unfold median. by rewrite (num_sorted_perm l l' H). Qed.
