(* ===== verification/FloatFacts.v ===== *)
(** * Decimals and rounding errors

    A fixed-point numeral reads back as the quotient of its digits; a quotient
    of integers and a product of floats are within one half unit of the last
    place of the exact value.  Together: a count of nanoseconds printed in
    seconds at nine decimals is recovered exactly by scaling and rounding. *)
From S2P Require Import Prelude PyStr PyFloat.
From Stdlib Require Import Ascii.

(** ** Printed decimals *)
Lemma str_of_Z_nonneg z : 0 ≤ z → str_of_Z z = str_of_N (Z.to_N z).
Proof. by destruct z. Qed.
Lemma digits_of_nonneg z : 0 ≤ z → to_l (str_of_Z z) ≠ [] ∧ Forall (λ a, is_digit a = true) (to_l (str_of_Z z)).
Proof.
  intros Hz. rewrite str_of_Z_nonneg, to_l_str_of_N by done. split; [by apply digits_nonnil|apply digits_10_digit].
Qed.
(** A fixed-point numeral: digits, a point, digits. *)
Definition decimal (s : string) : Prop := ∃ ip fp, to_l s = ip ++ chr 46 :: fp ∧ ip ≠ [] ∧
  Forall (λ a, is_digit a = true) ip ∧ Forall (λ a, is_digit a = true) fp.
Lemma rjust_digits n s : Forall (λ a, is_digit a = true) (to_l s) → Forall (λ a, is_digit a = true) (to_l (rjust n (chr 48) s)).
Proof.
  intros H. unfold rjust. rewrite to_l_app, to_l_of_l. apply Forall_app. split; [|done].
  apply Forall_forall. by intros a [-> _]%elem_of_replicate.
Qed.
Lemma to_lower_digit a : is_digit a = true → to_lower a = a.
Proof. destruct a as [[] [] [] [] [] [] [] []]; vm_compute; by try discriminate. Qed.
Lemma to_lower_digits l : Forall (λ a, is_digit a = true) l → to_lower <$> l = l.
Proof. induction 1 as [|a l Ha _ IH]; [done|]. rewrite fmap_cons, IH. by rewrite to_lower_digit. Qed.
Lemma take_digits ip rest : Forall (λ a, is_digit a = true) ip → (∀ a, head rest = Some a → is_digit a = false) →
  take_while is_digit (ip ++ rest) = ip ∧ drop_while is_digit (ip ++ rest) = rest.
Proof.
  induction 1 as [|a ip Ha _ IH]; intros Hr; cbn.
  - destruct rest as [|b rest]; [done|]. cbn. by rewrite Hr.
  - rewrite Ha. destruct (IH Hr) as [-> ->]. done.
Qed.
Lemma drop_underscores_none l : ∀ b, Forall (λ a, (ord a =? 95)%N = false) l → drop_underscores b l = Some l.
Proof.
  induction l as [|a l IH]; intros b; [done|]. intros [Ha Hl]%Forall_cons. cbn [drop_underscores]. by rewrite Ha, IH.
Qed.
Lemma is_digit_not_underscore a : is_digit a = true → (ord a =? 95)%N = false.
Proof. destruct a as [[] [] [] [] [] [] [] []]; vm_compute; congruence. Qed.
Example underscores :
  float_of_str "1_0.5" = float_of_str "10.5" ∧ float_of_str "1__0" = None ∧ float_of_str "1_" = None ∧ float_of_str "_1" = None.
Proof. by vm_compute. Qed.
(** [float()] of a numeral is its digits over the power of ten of its
    fraction. *)
Lemma float_of_numeral s ip fp : to_l s = ip ++ chr 46 :: fp → ip ≠ [] →
  Forall (λ a, is_digit a = true) ip → Forall (λ a, is_digit a = true) fp →
  float_of_str s = Some (fdec false (dec_val (ip ++ fp)) (- Z.of_nat (length fp))).
Proof.
  intros Hs Hne Hi Hf. unfold float_of_str. rewrite Hs.
  assert (Forall (λ a, is_space a = false) (ip ++ chr 46 :: fp)) as Hsp.
  { apply Forall_app. split; [|constructor; [done|]]; (eapply Forall_impl; [eassumption|]); apply is_space_digit. }
  rewrite strip_l_Forall by done. rewrite drop_underscores_none; cycle 1.
  { apply Forall_app. split; [|constructor; [done|]]; (eapply Forall_impl; [eassumption|]); apply is_digit_not_underscore. }
  cbn [mbind option_bind]. rewrite fmap_app, fmap_cons, !to_lower_digits by done.
  change (to_lower (chr 46)) with (chr 46). destruct ip as [|d ip]; [done|].
  assert (parse_sign ((d :: ip) ++ chr 46 :: fp) = (false, (d :: ip) ++ chr 46 :: fp)) as ->.
  { apply Forall_cons in Hi as [Hd _]. clear -Hd. destruct d as [[] [] [] [] [] [] [] []]; vm_compute in Hd; done. }
  cbv zeta. assert (∀ w, (∀ a, head (to_l w) = Some a → is_digit a = false) →
    String.eqb (of_l ((d :: ip) ++ chr 46 :: fp)) w = false) as Hw.
  { intros w Hh. apply String.eqb_neq. intros E. apply (f_equal to_l) in E. rewrite to_l_of_l in E.
    rewrite <-E in Hh. apply Forall_cons in Hi as [Hd _]. specialize (Hh d eq_refl). congruence. }
  rewrite !Hw by (by intros ? [= <-]). cbn [orb].
  destruct (take_digits (d :: ip) (chr 46 :: fp)) as [-> ->]; [done|by intros ? [= <-]|].
  change (ord (chr 46) =? 46)%N with true. cbv iota.
  destruct (take_digits fp []) as [Ht Hdr]; [done..|]. rewrite app_nil_r in Ht, Hdr. rewrite Ht, Hdr.
  reflexivity.
Qed.
Lemma float_of_decimal s : decimal s → ∃ v, float_of_str s = Some v.
Proof. intros (ip & fp & Hs & Hne & Hi & Hf). eauto using float_of_numeral. Qed.

(** ** The value of printed digits *)
Lemma dec_val_app a b : dec_val (a ++ b) = dec_val a * 10 ^ Z.of_nat (length b) + dec_val b.
Proof.
  unfold dec_val. rewrite foldl_app. generalize (foldl (λ acc a, acc * 10 + (Z.of_N (ord a) - 48)) 0 a) as x.
  assert (∀ l x y, foldl (λ acc a, acc * 10 + (Z.of_N (ord a) - 48)) (x + y) l =
    x * 10 ^ Z.of_nat (length l) + foldl (λ acc a, acc * 10 + (Z.of_N (ord a) - 48)) y l) as H.
  { intros l. induction l as [|c l IH]; intros x y; cbn [foldl length]; [lia|].
    rewrite Nat2Z.inj_succ, Z.pow_succ_r by lia.
    replace ((x + y) * 10 + (Z.of_N (ord c) - 48)) with (10 * x + (y * 10 + (Z.of_N (ord c) - 48))) by lia.
    rewrite IH. lia. }
  intros x. rewrite <-(Z.add_0_r x) at 1. apply H.
Qed.
Lemma dec_val_zeros k : dec_val (replicate k (chr 48)) = 0.
Proof. unfold dec_val. induction k as [|k IH]; [done|]. cbn. exact IH. Qed.
Lemma ord_digit_chr d : (d < 10)%N → Z.of_N (ord (digit_chr d)) - 48 = Z.of_N d.
Proof.
  intros Hd. assert (∀ k, (k < 10)%nat → Z.of_N (ord (digit_chr (N.of_nat k))) - 48 = Z.of_nat k) as H.
  { do 10 (destruct k; [reflexivity|]). lia. }
  specialize (H (N.to_nat d)). rewrite N2Nat.id in H. lia.
Qed.
Lemma dec_val_digits n : dec_val (digits 10 n) = Z.of_N n.
Proof.
  destruct (digits_spec 10 n) as (ds & -> & _ & Hds & <-); [done|]. unfold dec_val.
  assert (∀ a, foldl (λ acc a, acc * 10 + (Z.of_N (ord a) - 48)) (Z.of_N a) (digit_chr <$> ds) =
    Z.of_N (foldl (λ x d, x * 10 + d)%N a ds)) as H; [|exact (H 0%N)].
  induction Hds as [|d ds Hd _ IH]; intros a; [done|]. cbn [fmap list_fmap foldl].
  rewrite ord_digit_chr by done. rewrite <-IH. f_equal. lia.
Qed.
Lemma digits_go_length b k fuel n acc : (0 < b → n < b ^ N.of_nat (S k))%N →
  (0 < b)%N → (length (digits_go fuel b n acc) ≤ S k + length acc)%nat.
Proof.
  intros Hn Hb. revert k n acc Hn. induction fuel as [|f IH]; intros k n acc Hn; cbn [digits_go]; [lia|].
  destruct (N.ltb_spec n b); cbn [length]; [lia|].
  destruct k as [|k]; [specialize (Hn Hb); rewrite N.pow_1_r in Hn; lia|].
  etrans; [apply (IH k)|cbn; lia]. intros _. apply N.Div0.div_lt_upper_bound.
  rewrite <-N.pow_succ_r', <-Nat2N.inj_succ. auto.
Qed.
Lemma digits_of_length z k : 0 ≤ z < 10 ^ Z.of_nat (S k) → (length (to_l (str_of_Z z)) ≤ S k)%nat.
Proof.
  intros Hz. rewrite str_of_Z_nonneg, to_l_str_of_N by lia. unfold digits.
  etrans; [apply (digits_go_length _ k)|cbn; lia]; [intros _|done].
  apply N2Z.inj_lt. rewrite Z2N.id, N2Z.inj_pow, nat_N_Z by lia. lia.
Qed.

(** [f"{n / 10^k}"] at [k] decimals reads back as the quotient. *)
Lemma float_of_fixed_digits n k : 0 ≤ n →
  float_of_str (fixed_digits n (S k)) = Some (fquot n (10 ^ Z.of_nat (S k))).
Proof.
  intros Hn. set (p := 10 ^ Z.of_nat (S k)). assert (0 < p) as Hp by (apply Z.pow_pos_nonneg; lia).
  destruct (digits_of_nonneg (n / p)) as [Hne Hi]; [by apply Z.div_pos|].
  pose proof (Z.mod_pos_bound n p Hp) as Hm.
  destruct (digits_of_nonneg (n mod p)) as [_ Hf]; [lia|].
  pose proof (digits_of_length (n mod p) k Hm) as Hlen.
  erewrite float_of_numeral; [|unfold fixed_digits; fold p; rewrite !to_l_app; reflexivity|exact Hne|exact Hi|
    by apply rjust_digits].
  assert (length (to_l (rjust (S k) (chr 48) (str_of_Z (n mod p)))) = S k) as Hrl.
  { unfold rjust. rewrite to_l_app, to_l_of_l, length_app, length_replicate. rewrite !length_to_l in *. lia. }
  rewrite Hrl, dec_val_app, Hrl. fold p. unfold rjust. rewrite to_l_app, to_l_of_l, dec_val_app, dec_val_zeros.
  rewrite !str_of_Z_nonneg, !to_l_str_of_N, !dec_val_digits, !Z2N.id by (try apply Z.div_pos; lia).
  unfold fdec. rewrite (proj2 (Z.leb_gt 0 (- Z.of_nat (S k)))) by lia.
  rewrite Z.opp_involutive. fold p.
  assert (n / p * p + (0 * 10 ^ Z.of_nat (length (digits 10 (Z.to_N (n mod p)))) + n mod p) = n) as ->; [|done].
  pose proof (Z.div_mod n p). lia.
Qed.

(** ** Rounding

    [inb m l n d]: the quotient [n / d] lies in the unit interval above [m],
    at the place [l] says. *)
Definition inb (m : Z) (l : location) (n d : Z) : Prop :=
  match l with
  | loc_Exact => n = m * d
  | loc_Inexact c => m * d < n < (m + 1) * d ∧ (2 * n ?= (2 * m + 1) * d) = c
  end.
Definition shr_at (r : shr_record) : Z → Z → Prop := inb (shr_m r) (loc_of_shr_record r).

Ltac compares := repeat match goal with
  | H : (_ ?= _) = Lt |- _ => rewrite Z.compare_lt_iff in H
  | H : (_ ?= _) = Eq |- _ => rewrite Z.compare_eq_iff in H
  | H : (_ ?= _) = Gt |- _ => rewrite Z.compare_gt_iff in H
  | |- (_ ?= _) = Lt => rewrite Z.compare_lt_iff
  | |- (_ ?= _) = Eq => rewrite Z.compare_eq_iff
  | |- (_ ?= _) = Gt => rewrite Z.compare_gt_iff
  end.

Lemma shr_at_of_loc m l n d : inb m l n d → shr_at (shr_record_of_loc m l) n d.
Proof. by destruct l as [|[]]. Qed.
Lemma shr_1_at r n d : 0 < d → 0 ≤ shr_m r → shr_at r n d → shr_at (shr_1 r) n (d * 2) ∧ shr_m (shr_1 r) = shr_m r / 2.
Proof.
  intros Hd Hm Hr. destruct r as [[|[p|p|]|p] b s]; cbn [shr_m] in Hm; [| | | |lia].
  2: pose proof (Pos2Z.inj_xI p) as Hx. 3: pose proof (Pos2Z.inj_xO p) as Hx.
  all: destruct b, s; unfold shr_at in *; cbn [shr_1 shr_m loc_of_shr_record inb orb] in Hr |- *.
  all: split; [|first [apply Z.div_unique with 0; lia|apply Z.div_unique with 1; lia]].
  all: repeat match goal with H : _ ∧ _ |- _ => destruct H end; compares; repeat split; compares; lia.
Qed.
Lemma pow_xO p : 2 ^ Zpos p~0 = 2 ^ Zpos p * 2 ^ Zpos p.
Proof. rewrite <-Z.pow_add_r by lia. f_equal. lia. Qed.
Lemma pow_xI p : 2 ^ Zpos p~1 = 2 ^ Zpos p * 2 ^ Zpos p * 2.
Proof. rewrite <-pow_xO, Pos2Z.inj_xI, Z.pow_add_r by lia. done. Qed.
Lemma iter_shr_at p r n d : 0 < d → 0 ≤ shr_m r → shr_at r n d →
  shr_at (iter_pos shr_1 p r) n (d * 2 ^ Zpos p) ∧ shr_m (iter_pos shr_1 p r) = shr_m r / 2 ^ Zpos p.
Proof.
  revert r d. induction p as [p IH|p IH|]; intros r d Hd Hm Hr; cbn [iter_pos].
  - destruct (shr_1_at r n d Hd Hm Hr) as [H1 E1]. assert (0 ≤ shr_m (shr_1 r)) as Hm1 by (rewrite E1; by apply Z.div_pos).
    pose proof (Z.pow_pos_nonneg 2 (Zpos p) ltac:(lia) ltac:(lia)) as Hp.
    destruct (IH _ (d * 2) ltac:(lia) Hm1 H1) as [H2 E2].
    destruct (IH (iter_pos shr_1 p (shr_1 r)) (d * 2 * 2 ^ Zpos p)) as [H3 E3];
      [by repeat apply Z.mul_pos_pos|rewrite E2; by apply Z.div_pos|done|].
    rewrite pow_xI.
    split; [by replace (d * (2 ^ Zpos p * 2 ^ Zpos p * 2)) with (d * 2 * 2 ^ Zpos p * 2 ^ Zpos p) by lia|].
    rewrite E3, E2, E1, !Z.div_div by lia. f_equal. lia.
  - pose proof (Z.pow_pos_nonneg 2 (Zpos p) ltac:(lia) ltac:(lia)) as Hp.
    destruct (IH _ _ Hd Hm Hr) as [H2 E2].
    destruct (IH (iter_pos shr_1 p r) (d * 2 ^ Zpos p)) as [H3 E3]; [by apply Z.mul_pos_pos|rewrite E2; by apply Z.div_pos|done|].
    rewrite pow_xO.
    split; [by rewrite Z.mul_assoc|]. by rewrite E3, E2, Z.div_div by lia.
  - rewrite Z.pow_1_r. by apply shr_1_at.
Qed.
Lemma shr_spec r e k n d : 0 < d → 0 ≤ shr_m r → shr_at r n d → 0 ≤ k →
  ∃ r', shr r e k = (r', e + k) ∧ shr_at r' n (d * 2 ^ k) ∧ shr_m r' = shr_m r / 2 ^ k.
Proof.
  intros Hd Hm Hr Hk. destruct k as [|p|p]; [| |lia].
  - exists r. by rewrite Z.add_0_r, Z.pow_0_r, Z.mul_1_r, Z.div_1_r.
  - eexists. split; [reflexivity|]. by apply iter_shr_at.
Qed.
Lemma rne_error m l n d : 0 < d → inb m l n d →
  m ≤ round_nearest_even m l ≤ m + 1 ∧ 2 * Z.abs (round_nearest_even m l * d - n) ≤ d.
Proof.
  intros Hd H. destruct l as [|[]]; cbn in *; [lia|destruct H as [? ?]; compares..].
  - destruct (Z.even m); lia.
  - lia.
  - lia.
Qed.
Lemma Zdigits2_bounds m : 0 < m → 0 < Zdigits2 m ∧ 2 ^ (Zdigits2 m - 1) ≤ m < 2 ^ Zdigits2 m.
Proof.
  destruct m as [|p|p]; [lia| |lia]. intros _. cbn [Zdigits2].
  induction p as [p IH|p IH|]; cbn [digits2_pos]; [| |done]; split; try lia; destruct IH as [_ IH].
  all: rewrite Pos2Z.inj_succ; set (k := Zpos (digits2_pos p)) in *; assert (0 < k) by (unfold k; lia); clearbody k.
  all: replace (Z.succ k - 1) with (Z.succ (k - 1)) by lia; rewrite !Z.pow_succ_r by lia; lia.
Qed.
Lemma Zdigits2_unique m k : 2 ^ (k - 1) ≤ m < 2 ^ k → 0 < k → Zdigits2 m = k.
Proof.
  intros Hm Hk. assert (0 < 2 ^ (k - 1)) by (apply Z.pow_pos_nonneg; lia).
  destruct (Zdigits2_bounds m) as (Hd & H1 & H2); [lia|].
  assert (Zdigits2 m - 1 < k) by (apply (Z.pow_lt_mono_r_iff 2); lia).
  assert (k - 1 < Zdigits2 m) by (apply (Z.pow_lt_mono_r_iff 2); lia). lia.
Qed.

(** A value of at least 53 bits in the normal range rounds to a 53-bit float
    within half a unit of its last place. *)
Lemma round_error sx m ex l n d : 0 < d → inb m l n d → 2 ^ 52 ≤ m → -1074 ≤ Zdigits2 m + ex - 53 ≤ 970 →
  ∃ p e, binary_round_aux prec emax sx m ex l = S754_finite sx p e ∧
    2 ^ 52 ≤ Zpos p ≤ 2 ^ 53 ∧ ex ≤ e ≤ ex + Zdigits2 m - 52 ∧ 2 ^ 53 * Z.abs (Zpos p * 2 ^ (e - ex) * d - n) ≤ n.
Proof.
  intros Hd Hin Hm Hr. destruct (Zdigits2_bounds m) as (Hd0 & Hlo & Hhi); [lia|].
  remember (Zdigits2 m) as D eqn:HD.
  assert (52 < D) by (apply (Z.pow_lt_mono_r_iff 2); lia).
  unfold binary_round_aux, shr_fexp. rewrite <-HD. unfold fexp, emin.
  replace (Z.max (D + ex - prec) (3 - emax - prec) - ex) with (D - 53) by lia.
  set (k := D - 53) in *. assert (0 < 2 ^ k) as Hk by (apply Z.pow_pos_nonneg; lia).
  assert (2 ^ (D - 1) = 2 ^ 52 * 2 ^ k ∧ 2 ^ D = 2 ^ 53 * 2 ^ k) as [ED1 ED].
  { rewrite <-!Z.pow_add_r by lia. split; f_equal; lia. }
  assert (shr_m (shr_record_of_loc m l) = m) as Em by (by destruct l as [|[]]).
  destruct (shr_spec (shr_record_of_loc m l) ex k n d) as (r & -> & Hat & Hrm); [done|lia|by apply shr_at_of_loc|lia|].
  rewrite Em in Hrm. set (R := round_nearest_even (shr_m r) (loc_of_shr_record r)) in *.
  destruct (rne_error (shr_m r) (loc_of_shr_record r) n (d * 2 ^ k)) as [HR Herr]; [by apply Z.mul_pos_pos|done|].
  fold R in HR, Herr.
  assert (2 ^ 52 ≤ shr_m r < 2 ^ 53) as Hrr.
  { rewrite Hrm. split; [apply Z.div_le_lower_bound|apply Z.div_lt_upper_bound]; lia. }
  assert (m * d ≤ n) as Hmn by (destruct l; cbn in Hin; lia).
  assert (2 ^ 53 * Z.abs (R * 2 ^ k * d - n) ≤ n) as Hrel.
  { replace (R * 2 ^ k * d) with (R * (d * 2 ^ k)) by lia. nia. }
  clearbody R. destruct (Z.eq_dec R (2 ^ 53)) as [->|HR53].
  - change (Zdigits2 (2 ^ 53)) with 54. replace (Z.max (54 + (ex + k) - prec) (3 - emax - prec) - (ex + k)) with 1 by lia.
    change (shr (shr_record_of_loc (2 ^ 53) loc_Exact) (ex + k) 1) with
      ({| shr_m := Zpos 4503599627370496; shr_r := false; shr_s := false |}, ex + k + 1).
    cbn [shr_m]. rewrite (proj2 (Z.leb_le _ _)) by lia. eexists _, _. split_and!; [reflexivity|lia..|].
    replace (ex + k + 1 - ex) with (1 + k) by lia. rewrite Z.pow_add_r by lia.
    replace (4503599627370496 * (2 ^ 1 * 2 ^ k)) with (2 ^ 53 * 2 ^ k) by lia. exact Hrel.
  - rewrite (Zdigits2_unique R 53) by lia.
    replace (Z.max (53 + (ex + k) - prec) (3 - emax - prec) - (ex + k)) with 0 by lia. cbn [shr shr_record_of_loc shr_m].
    destruct R as [|p|p]; [lia| |lia]. rewrite (proj2 (Z.leb_le _ _)) by lia.
    eexists _, _. split_and!; [reflexivity|lia..|]. by replace (ex + k - ex) with k by lia.
Qed.

(** The rest of a division locates the quotient. *)
Lemma new_location_inb a d : 0 < d → inb (a / d) (new_location d (a mod d)) a d.
Proof.
  intros Hd. pose proof (Z.div_mod a d ltac:(lia)) as E. pose proof (Z.mod_pos_bound a d Hd) as Hr.
  set (q := a / d) in *. set (r := a mod d) in *. clearbody q r. subst a.
  unfold new_location, new_location_even, new_location_odd. destruct (Z.even d) eqn:Ev.
  - destruct (Z.eqb_spec r 0) as [->|Hne]; cbn [inb]; [lia|]. split; [lia|].
    destruct (2 * r ?= d) eqn:C; compares; lia.
  - assert (∃ j, d = 2 * j + 1) as [j Hj] by (apply Z.odd_spec; by rewrite <-Z.negb_even, Ev).
    destruct (Z.eqb_spec r 0) as [->|Hne]; cbn [inb]; [lia|]. split; [lia|].
    destruct (2 * r + 1 ?= d) eqn:C; compares; lia.
Qed.
(** [n / d] on ints is within half a unit of the last place. *)
Lemma fquot_error n d : 0 < n < 2 ^ 64 → 0 < d < 2 ^ 64 →
  ∃ p e s, fquot n d = S754_finite false p e ∧ 2 ^ 52 ≤ Zpos p ≤ 2 ^ 53 ∧ 0 ≤ s ∧ - s ≤ e ≤ 12 ∧ s ≤ 128 ∧
    2 ^ 53 * Z.abs (Zpos p * 2 ^ (e + s) * d - n * 2 ^ s) ≤ n * 2 ^ s.
Proof.
  intros Hn Hd. destruct (Zdigits2_bounds n) as (Hn0 & Hnl & Hnh); [lia|]. destruct (Zdigits2_bounds d) as (Hd0 & Hdl & Hdh); [lia|].
  assert (Zdigits2 n ≤ 64 ∧ Zdigits2 d ≤ 64) as [Hn64 Hd64].
  { split; [assert (Zdigits2 n - 1 < 64)|assert (Zdigits2 d - 1 < 64)]; try lia; apply (Z.pow_lt_mono_r_iff 2); lia. }
  remember (Z.max 0 (53 + Zdigits2 d - Zdigits2 n)) as s eqn:Es.
  assert (fquot n d = binary_round_aux prec emax false (n * 2 ^ s / d) (- s) (new_location d ((n * 2 ^ s) mod d))) as ->.
  { unfold fquot. destruct n as [|n|n], d as [|d|d]; try lia. unfold SFdiv_core_binary, fexp, emin. cbv zeta.
    change (Z.abs (Zpos n)) with (Zpos n). change (Z.abs (Zpos d)) with (Zpos d). replace (Z.min _ _) with (- s) by lia. replace (0 - 0 - - s) with s by lia.
    assert (match s with 0 => Zpos n | Zpos _ => Z.shiftl (Zpos n) s | Zneg _ => 0 end = Zpos n * 2 ^ s) as ->.
    { destruct s as [|p|p] eqn:E; [lia|by apply Z.shiftl_mul_pow2|lia]. }
    unfold Z.div, Z.modulo. by destruct (Z.div_eucl (Zpos n * 2 ^ s) (Zpos d)). }
  set (q := n * 2 ^ s / d). assert (0 < 2 ^ s) as Hs by (apply Z.pow_pos_nonneg; lia).
  assert (2 ^ 52 ≤ q) as Hq.
  { apply Z.div_le_lower_bound; [lia|]. apply Z.le_trans with (2 ^ (Zdigits2 n - 1) * 2 ^ s); [|nia].
    apply Z.le_trans with (2 ^ Zdigits2 d * 2 ^ 52); [lia|]. rewrite <-!Z.pow_add_r by lia. apply Z.pow_le_mono_r; lia. }
  assert (q < 2 ^ (64 + s)) as Hqu.
  { apply Z.div_lt_upper_bound; [lia|]. rewrite Z.pow_add_r by lia. nia. }
  destruct (Zdigits2_bounds q) as (Hq0 & Hql & Hqh); [lia|].
  assert (52 < Zdigits2 q) by (apply (Z.pow_lt_mono_r_iff 2); lia).
  assert (Zdigits2 q - 1 < 64 + s) by (apply (Z.pow_lt_mono_r_iff 2); lia).
  destruct (round_error false q (- s) (new_location d ((n * 2 ^ s) mod d)) (n * 2 ^ s) d)
    as (p & e & -> & Hp & He & Herr); [lia|apply new_location_inb; lia|done|lia|].
  exists p, e, s. replace (e + s) with (e - - s) by lia. split_and!; try done; lia.
Qed.

(** ** Nanoseconds *)
Lemma div_half_even_near m n t : 0 < t → 2 * Z.abs (m - n * t) < t → div_half_even m t = n.
Proof.
  intros Ht H. unfold div_half_even. pose proof (Z.div_mod m t ltac:(lia)) as E. pose proof (Z.mod_pos_bound m t Ht) as Hr.
  set (q := m / t) in *. set (r := m mod t) in *. clearbody q r. subst m.
  assert (q = n ∨ q + 1 = n) as [->| <-] by nia; destruct (2 * r ?= t) eqn:C; compares; lia.
Qed.
Lemma py_round_near p e n j : 0 ≤ j → - j ≤ e → 0 ≤ n → 2 * Z.abs (Zpos p * 2 ^ (e + j) - n * 2 ^ j) < 2 ^ j →
  py_round (S754_finite false p e) = Ok n.
Proof.
  intros Hj He Hn H. cbn [py_round dyadic cond_Zopp]. unfold scaled_half_even. cbv zeta. f_equal.
  change (10 ^ Z.of_nat 0) with 1. rewrite Z.mul_1_r. change (Z.abs (Zpos p)) with (Zpos p). change (Z.sgn (Zpos p)) with 1.
  rewrite Z.mul_1_l. assert (0 < 2 ^ j) as Hp by (apply Z.pow_pos_nonneg; lia).
  destruct (Z.leb_spec 0 e).
  - rewrite Z.pow_add_r in H by lia. nia.
  - assert (0 < 2 ^ (- e)) by (apply Z.pow_pos_nonneg; lia). assert (0 < 2 ^ (e + j)) by (apply Z.pow_pos_nonneg; lia).
    apply div_half_even_near; [done|].
    assert (2 ^ j = 2 ^ (e + j) * 2 ^ (- e)) as Ej by (rewrite <-Z.pow_add_r by lia; f_equal; lia).
    rewrite Ej in H. nia.
Qed.
(** A count of nanoseconds below 2^50 (thirteen days), as seconds, scaled and
    rounded. *)
Lemma ns_of_quotient n : 0 ≤ n < 2 ^ 50 → py_round (fmul (fquot n (10 ^ 9)) (float_of_Z 1000000000)) = Ok n.
Proof.
  intros Hn. destruct (Z.eq_dec n 0) as [->|Hne]; [done|].
  destruct (fquot_error n (10 ^ 9)) as (p & e & s & -> & Hp & Hs & He & Hs' & Herr); [lia..|].
  change (float_of_Z 1000000000) with (S754_finite false 8388608000000000 (-23)). cbn [fmul SFmul xorb].
  set (m := Zpos (p * 8388608000000000)). assert (m = Zpos p * 8388608000000000) as Em by lia.
  destruct (Zdigits2_bounds m) as (Hd0 & Hdl & Hdh); [lia|].
  assert (52 < Zdigits2 m) by (apply (Z.pow_lt_mono_r_iff 2); lia).
  assert (Zdigits2 m - 1 < 107) by (apply (Z.pow_lt_mono_r_iff 2); lia).
  destruct (round_error false m (e + -23) loc_Exact m 1) as (p2 & e2 & -> & Hp2 & He2 & Herr2); [done|cbn [inb]; lia|lia|lia|].
  apply (py_round_near p2 e2 n (s + 23)); [lia..|].
  assert (0 < 2 ^ s) by (apply Z.pow_pos_nonneg; lia). assert (0 < 2 ^ (e + s)) by (apply Z.pow_pos_nonneg; lia).
  replace (e2 + (s + 23)) with (e2 - (e + -23) + (e + s)) by lia.
  rewrite (Z.pow_add_r 2 (e2 - _)), (Z.pow_add_r 2 s 23) by lia.
  set (a := 2 ^ (e2 - (e + -23))) in *. set (b := 2 ^ (e + s)) in *. set (c := 2 ^ s) in *.
  assert (2 ^ 53 * Z.abs (Zpos p2 * (a * b) - m * b) ≤ m * b) as Hprod by nia.
  assert (m * b = Zpos p * b * 10 ^ 9 * 2 ^ 23) as Emb by lia.
  assert (n * c ≤ 2 ^ 50 * c) as Hnc by nia. assert (0 < c) as Hc by done. clearbody a b c.
  generalize dependent (Zpos p2 * (a * b)). intros y Hprod. rewrite Emb in Hprod. rewrite Z.mul_assoc. clear Emb.
  generalize dependent (Zpos p * b * 10 ^ 9). generalize dependent (n * c). clear -Hc.
  intros z Hz x Hx Hy. lia.
Qed.
