(* ===== verification/PyData.v ===== *)
(** * Dynamic values, dictionaries as rows, sets, and the [csv] module

    Rows of runs.csv and phases.csv are dictionaries whose values are ints
    (rows the harness has just built) or strings (rows read back from disk). *)
From S2P Require Import Prelude PyStr PyFloat.
From Stdlib Require Import Ascii.

Inductive pyval := PInt (z : Z) | PStr (s : string) | PNone.
#[export] Instance pyval_eq_dec : EqDecision pyval.
Proof. solve_decision. Defined.

(** [int(v)], [float(v)], [f"{v}"], [repr(v)] *)
Definition py_int (v : pyval) : res Z :=
  match v with
  | PInt z => Ok z
  | PStr s => of_option ValueError (int_of_str s)
  | PNone => Err TypeError
  end.
Definition py_float (v : pyval) : res float :=
  match v with
  | PInt z => Ok (float_of_Z z)
  | PStr s => of_option ValueError (float_of_str s)
  | PNone => Err TypeError
  end.
Definition py_str (v : pyval) : string :=
  match v with PInt z => str_of_Z z | PStr s => s | PNone => "None" end.
Definition py_repr (v : pyval) : string :=
  match v with PInt z => str_of_Z z | PStr s => repr_str s | PNone => "None" end.
Definition py_eqb (a b : pyval) : bool := bool_decide (a = b).
Definition is_str (v : pyval) (s : string) : bool := py_eqb v (PStr s).
(** [bool(v)] *)
Definition truthy (v : pyval) : bool :=
  match v with PInt z => negb (z =? 0) | PStr s => negb (String.eqb s "") | PNone => false end.

Abbreviation row := (odict string pyval).
(** [r[k]], [r.get(k)], [r.get(k, d)], [k in r] *)
Definition get (k : string) (r : row) : res pyval := of_option (KeyError (repr_str k)) (od_get k r).
Definition get_or (k : string) (d : pyval) (r : row) : pyval := default d (od_get k r).
Definition get_int (k : string) (r : row) : res Z := v ← get k r; py_int v.
Definition get_float (k : string) (r : row) : res float := v ← get k r; py_float v.
Definition get_text (k : string) (r : row) : res string := v ← get k r; Ok (py_str v).

(** A set display or comprehension: the distinct values, first seen first. *)
Definition py_set {A} `{!EqDecision A} (l : list A) : list A := foldl (λ s x,
  if bool_decide (x ∈ s) then s else s ++ [x]) [] l.
Definition set_eqb {A} `{!EqDecision A} (a b : list A) : bool :=
  forallb (λ x, bool_decide (x ∈ b)) a && forallb (λ x, bool_decide (x ∈ a)) b.

(** [sorted(values)]: ints or strings; a mixture raises. *)
Definition all_ints (l : list pyval) : bool := forallb (λ v, match v with PInt _ => true | _ => false end) l.
Definition all_strs (l : list pyval) : bool := forallb (λ v, match v with PStr _ => true | _ => false end) l.
Definition pyval_leb (a b : pyval) : bool :=
  match a, b with
  | PInt x, PInt y => x <=? y
  | PStr x, PStr y => str_leb x y
  | _, _ => false
  end.
Definition sorted_vals (l : list pyval) : res (list pyval) :=
  if (length l <=? 1)%nat || all_ints l || all_strs l then Ok (sort_by pyval_leb l) else Err TypeError.
(** [f"{sorted(values)}"] *)
Definition sorted_repr (l : list pyval) : res string :=
  s ← sorted_vals l; Ok (repr_list (py_repr <$> s)).

(** [[r for r in rows if int(r["warmup"]) == 0]] *)
Definition is_recorded (r : row) : res bool := w ← get_int "warmup" r; Ok (w =? 0).
Definition recorded (rows : list row) : res (list row) := filterR is_recorded rows.
(** [(r["batch_id"], r["trial"], r["config"])] *)
Abbreviation trial_key := (pyval * pyval * pyval)%type.
Definition trial_key_of (r : row) : res trial_key :=
  b ← get "batch_id" r; t ← get "trial" r; c ← get "config" r; Ok (b, t, c).
Definition key_in (k : trial_key) (l : list trial_key) : bool := bool_decide (k ∈ l).

(** [{r[k] for r in rows}] *)
Definition distinct (k : string) (rows : list row) : res (list pyval) := vs ← mapR (get k) rows; Ok (py_set vs).

(** ** Lemmas *)
Lemma elem_of_py_set {A} `{!EqDecision A} (l : list A) x : x ∈ py_set l ↔ x ∈ l.
Proof.
  unfold py_set. set (f := λ s x, _).
  assert (∀ acc, x ∈ foldl f acc l ↔ x ∈ acc ∨ x ∈ l) as H.
  { induction l as [|y l IH]; intros acc; cbn [foldl]; [set_solver|].
    rewrite IH. unfold f at 1. case_bool_decide; set_solver. }
  rewrite H. set_solver.
Qed.
Lemma NoDup_py_set {A} `{!EqDecision A} (l : list A) : NoDup (py_set l).
Proof.
  unfold py_set. set (f := λ s x, _).
  assert (∀ acc, NoDup acc → NoDup (foldl f acc l)) as H; [|apply H; constructor].
  induction l as [|y l IH]; intros acc Hacc; cbn [foldl]; [done|].
  apply IH. unfold f. case_bool_decide; [done|].
  apply NoDup_app. split; [done|]. split; [set_solver|apply NoDup_singleton].
Qed.
(** [len(set) == 1]: all the elements agree. *)
Lemma py_set_singleton {A} `{!EqDecision A} (l : list A) :
  length (py_set l) = 1%nat ↔ ∃ x, x ∈ l ∧ ∀ y, y ∈ l → y = x.
Proof.
  split.
  - intros H. destruct (py_set l) as [|x [|]] eqn:E; try done. exists x.
    pose proof (elem_of_py_set l) as Hl. rewrite E in Hl. split.
    + apply Hl. set_solver.
    + intros y Hy. apply Hl in Hy. set_solver.
  - intros (x & Hx & Hall). pose proof (NoDup_py_set l) as Hnd.
    pose proof (elem_of_py_set l) as Hl. destruct (py_set l) as [|y [|z s]] eqn:E; [|done|].
    + apply Hl in Hx. by apply elem_of_nil in Hx.
    + exfalso. assert (y = x ∧ z = x) as [-> ->].
      { split; apply Hall, Hl; set_solver. }
      apply NoDup_cons in Hnd as [Hnd _]. set_solver.
Qed.
Lemma py_set_const {A} `{!EqDecision A} (l : list A) x : l ≠ [] → (∀ y, y ∈ l → y = x) → py_set l = [x].
Proof.
  intros Hne H. assert (length (py_set l) = 1%nat) as Hl.
  { apply py_set_singleton. exists x. split; [|done]. destruct l as [|y l]; [done|]. rewrite <-(H y) by by left. by left. }
  destruct (py_set l) as [|y [|]] eqn:E; try done. f_equal. apply H, elem_of_py_set. rewrite E. by left.
Qed.
Lemma set_eqb_spec {A} `{!EqDecision A} (a b : list A) :
  set_eqb a b = true ↔ ∀ x, x ∈ a ↔ x ∈ b.
Proof.
  unfold set_eqb. rewrite andb_true_iff, !forallb_forall.
  setoid_rewrite <-list_elem_of_In. setoid_rewrite bool_decide_eq_true. naive_solver.
Qed.
Lemma get_Ok k r v : get k r = Ok v ↔ od_get k r = Some v.
Proof. apply of_option_Ok. Qed.
Lemma py_int_str_of_Z z : py_int (PStr (str_of_Z z)) = Ok z.
Proof. cbn. by rewrite int_of_str_of_Z. Qed.
#[export] Hint Rewrite @elem_of_py_set get_Ok py_int_str_of_Z : py.
Lemma Forall2_elem_l {A B} (P : A → B → Prop) l l' x : Forall2 P l l' → x ∈ l → ∃ y, y ∈ l' ∧ P x y.
Proof.
  induction 1 as [|a b l l' Hab _ IH]; [by intros ?%elem_of_nil|].
  intros [->|Hx]%elem_of_cons; [exists b; set_solver|]. destruct (IH Hx) as (y & ? & ?). exists y. set_solver.
Qed.
Lemma Forall2_elem_r {A B} (P : A → B → Prop) l l' y : Forall2 P l l' → y ∈ l' → ∃ x, x ∈ l ∧ P x y.
Proof.
  induction 1 as [|a b l l' Hab _ IH]; [by intros ?%elem_of_nil|].
  intros [->|Hx]%elem_of_cons; [exists a; set_solver|]. destruct (IH Hx) as (x & ? & ?). exists x. set_solver.
Qed.
Lemma distinct_get k rows vs : distinct k rows = Ok vs → ∀ r, r ∈ rows → ∃ v, get k r = Ok v ∧ v ∈ vs.
Proof.
  intros (l & Hl & [= <-])%bind_Ok r Hr. apply mapR_Ok in Hl.
  destruct (Forall2_elem_l _ _ _ _ Hl Hr) as (v & Hv & Hg). exists v. by rewrite elem_of_py_set.
Qed.
Lemma distinct_spec k rows vs : distinct k rows = Ok vs → ∀ v, v ∈ vs ↔ ∃ r, r ∈ rows ∧ get k r = Ok v.
Proof.
  intros Hd v. split.
  - apply bind_Ok in Hd as (l & Hl & [= <-]). rewrite elem_of_py_set. apply mapR_Ok in Hl.
    intros Hv. by destruct (Forall2_elem_r _ _ _ _ Hl Hv) as (r & ? & ?); eauto.
  - intros (r & Hr & Hg). destruct (distinct_get _ _ _ Hd r Hr) as (v' & Hg' & ?). congruence.
Qed.
Lemma distinct_defined k rows : (∀ r, r ∈ rows → ∃ v, get k r = Ok v) → ∃ vs, distinct k rows = Ok vs.
Proof.
  intros H. unfold distinct. rewrite (mapR_total _ (λ r, default PNone (od_get k r))); [cbn; eauto|].
  intros r Hr. destruct (H r Hr) as [v Hg]. rewrite Hg. by apply get_Ok in Hg as ->.
Qed.
(** A set of text sorts. *)
Lemma sorted_repr_texts vals : (∀ v, v ∈ vals → ∃ s, v = PStr s) → ∃ s, sorted_repr vals = Ok s.
Proof.
  intros H. unfold sorted_repr, sorted_vals.
  replace (all_strs vals) with true; [rewrite orb_true_r; cbn; eauto|]. symmetry. apply forallb_forall.
  intros v Hv. destruct (H v) as [s ->]; [by apply list_elem_of_In|done].
Qed.
(** A set of one element: every row has it. *)
Lemma distinct_one k rows v : distinct k rows = Ok [v] → Forall (λ r, get k r = Ok v) rows.
Proof.
  intros Hd. apply Forall_forall. intros r Hr.
  destruct (distinct_get _ _ _ Hd r Hr) as (v' & Hg & Hv). apply list_elem_of_singleton in Hv. by subst.
Qed.
Lemma anyR_false {A} (f : A → res bool) l : anyR f l = Ok false → ∀ x, x ∈ l → f x = Ok false.
Proof.
  induction l as [|y l IH]; cbn [anyR]; [by intros _ x ?%elem_of_nil|].
  intros ([] & Hb & H)%bind_Ok; [done|]. intros x [->|Hx]%elem_of_cons; auto.
Qed.
