(* ===== verification/BenchSerial.v ===== *)
(** * Serial-log parsing and falsifier scans of scripts/bench.py

    The guest's PHASE dump ([parse_phases] and the sum check), the M-mode trap
    and unaligned-probe scans, the canary measurement, and the two commands
    that run them over a file. *)
From S2P Require Import Prelude PyStr Regex PyFloat PyData.
From Stdlib Require Import Ascii.

(** ** Patterns and constants *)
Definition PHASE_HEADER_RE : regex := (RBol ⋅⋅ RLit "PHASE ticks (")%re.
Definition PHASE_UNSET_RE : regex :=
  (RBol ⋅⋅ RLit "PHASE " ⋅⋅ RGrp 1 (RPlus cS) ⋅⋅ RLit " unset" ⋅⋅ RStar cs ⋅⋅ REol)%re.
Definition PHASE_ROW_RE : regex :=
  (RBol ⋅⋅ RLit "PHASE " ⋅⋅ RGrp 1 (RPlus cS) ⋅⋅ RLit " ticks=" ⋅⋅ RGrp 2 (RPlus cd)
   ⋅⋅ RLit " ns=" ⋅⋅ RGrp 3 (RPlus cd) ⋅⋅ RLit " since_start=" ⋅⋅ RGrp 4 (RPlus cd)
   ⋅⋅ RLit " ns=" ⋅⋅ RGrp 5 (RPlus cd) ⋅⋅ RLit " delta=" ⋅⋅ RGrp 6 (RPlus cd)
   ⋅⋅ RLit " ns=" ⋅⋅ RGrp 7 (RPlus cd) ⋅⋅ RStar cs ⋅⋅ REol)%re.
Definition D0081_PROBE_RATIO : string := "Ratio of byte access time".
Definition D0081_INITCALL_USECS_RE : regex :=
  (RLit "initcall check_unaligned_access_all_cpus" ⋅⋅ RStar cS ⋅⋅ RLit " returned " ⋅⋅ RPlus cS
   ⋅⋅ RLit " after " ⋅⋅ RGrp 1 (RPlus cd) ⋅⋅ RLit " usecs")%re.
Definition D0081_INITCALL_TABLE_RE : regex :=
  (RLit "|" ⋅⋅ RStar cs ⋅⋅ RPlus cd ⋅⋅ RStar cs ⋅⋅ RLit "|" ⋅⋅ RStar cs ⋅⋅ RGrp 1 (RPlus cd)
   ⋅⋅ RStar cs ⋅⋅ RLit "|" ⋅⋅ RStar cs ⋅⋅ ROpt (RLit "`")
   ⋅⋅ RLit "check_unaligned_access_all_cpus" ⋅⋅ ROpt (RLit "`"))%re.
Definition TICK_NS : Z := 100.

(** ** PHASE rows *)
Definition stamp_overhead_ns (rows : list row) : res Z :=
  by_ ← foldM (λ d r, n ← get "phase" r; Ok (od_set n r d)) [] rows;
  b ← of_option (KeyError "'stamp_b'") (od_get (PStr "stamp_b") by_);
  d ← get_int "delta_ns" b;
  Ok (Z.max d TICK_NS).

Definition phase_is (name : string) (r : row) : res bool := p ← get "phase" r; Ok (is_str p name).

Definition assert_phases_sum_to_e3g (rows : list row) : res Z :=
  overhead ← stamp_overhead_ns rows;
  e3g ← firstR (phase_is "E3g") rows;
  e2e3g ← get_int "ns_since_e2" e3g;
  upto ← filterR (λ r, n ← get_int "ns_since_e2" r; Ok (n <=? e2e3g)) rows;
  deltas ← mapR (get_int "delta_ns") upto;
  let total := sumZ deltas in
  _ ← raise_when (overhead <? Z.abs (total - e2e3g)) (BenchFail
        ("TEST FAIL: phase deltas sum to " +:+ str_of_Z total +:+ " ns, E2→E3g is "
         +:+ str_of_Z e2e3g +:+ " ns (overhead floor " +:+ str_of_Z overhead +:+ " ns)"));
  Ok overhead.

(** The row the loop body of [parse_phases] appends for a matched line. *)
Definition phase_row (m : rmatch) : res row :=
  let int k := of_option ValueError (int_of_str (grp_of k m)) in
  ticks ← int 2%nat; since_ns ← int 5%nat; delta ← int 6%nat;
  delta_ns ← int 7%nat; since ← int 4%nat;
  Ok [("phase", PStr (grp_of 1 m)); ("ticks", PInt ticks); ("ns_since_e2", PInt since_ns);
      ("delta_ticks", PInt delta); ("delta_ns", PInt delta_ns); ("source", PStr "serial");
      ("_since_ticks", PInt since)].

Definition phase_line (rows : list row) (raw : string) : res (list row) :=
  let line := strip (replace cr "" raw) in
  if negb (startswith line "PHASE") then Ok rows
  else if is_some (re_match PHASE_HEADER_RE line) then Ok rows
  else if is_some (re_match PHASE_UNSET_RE line) then
    Err (BenchFail ("TEST FAIL: malformed PHASE line (unset): " +:+ line))
  else match re_match PHASE_ROW_RE line with
       | None => Err (BenchFail ("TEST FAIL: malformed PHASE line: " +:+ line))
       | Some m => r ← phase_row m; Ok (rows ++ [r])
       end.

Definition parse_phases (serial_text : string) : res (list row) :=
  rows ← foldM phase_line [] (splitlines serial_text);
  _ ← raise_when (match rows with [] => true | _ => false end)
        (BenchFail "TEST FAIL: no PHASE rows in serial");
  names ← mapR (get "phase") rows;
  n0 ← of_option IndexError (head names);
  _ ← raise_when (negb (is_str n0 "_start"))
        (BenchFail ("TEST FAIL: first PHASE row is " +:+ py_repr n0 +:+ ", want _start (E2)"));
  let has n := bool_decide (PStr n ∈ names) in
  _ ← raise_when (negb (has "E3g")) (BenchFail "TEST FAIL: PHASE E3g missing");
  _ ← raise_when (negb (has "stamp_a") || negb (has "stamp_b"))
        (BenchFail "TEST FAIL: stamp_a/stamp_b missing (overhead pair)");
  _ ← assert_phases_sum_to_e3g rows;
  Ok rows.

Definition phases_from_serial (serial_text system : string) : res (list row) :=
  if negb (String.eqb system "whimbrel") then Ok [] else parse_phases serial_text.

(** ** Falsifier scans *)
Definition falsifier3_scan (serial_text : string) : res unit :=
  match find "M!" serial_text with
  | Some i => Err (BenchFail ("TEST FAIL: M-mode trap diagnostic 'M!' in serial (falsifier 3): "
                              +:+ repr_str (take_chars 48 (slice_from i serial_text))))
  | None => Ok tt
  end.

Definition nonzero_group (msg : Z → rmatch → string) (m : rmatch) : res unit :=
  n ← of_option ValueError (int_of_str (grp_of 1 m));
  raise_when (negb (n =? 0)) (BenchFail (msg n m)).

Definition d0081_probe_scan (serial_text : string) : res unit :=
  _ ← match find D0081_PROBE_RATIO serial_text with
      | Some i => Err (BenchFail
          ("TEST FAIL: unaligned-access probe still present in serial (D-0081 falsifier 1): "
           +:+ repr_str (take_chars 64 (slice_from i serial_text))))
      | None => Ok tt
      end;
  _ ← forM_ (nonzero_group (λ usecs m,
        "TEST FAIL: check_unaligned_access_all_cpus ran for " +:+ str_of_Z usecs
        +:+ " usecs (D-0081 falsifier 1): " +:+ repr_str (m_group0 m)))
        (re_finditer D0081_INITCALL_USECS_RE serial_text);
  forM_ (nonzero_group (λ dur m,
        "TEST FAIL: check_unaligned_access_all_cpus listed at duration " +:+ str_of_Z dur
        +:+ " (D-0081 falsifier 1): " +:+ repr_str (m_group0 m)))
        (re_finditer D0081_INITCALL_TABLE_RE serial_text).

(** ** The canary (D-0078) *)
Definition CANARY_PHASES : list string := ["stvec"; "page_verify"].
Definition canary_values (phases : list row) : res (odict string Z) :=
  by_ ← foldM (λ d p, n ← get "phase" p; v ← get_int "delta_ns" p; Ok (od_set n v d)) [] phases;
  let missing := filter (λ n, od_in (PStr n) by_ = false) CANARY_PHASES in
  _ ← raise_when (match missing with [] => false | _ => true end) (BenchFail
        ("TEST FAIL: canary boot produced no PHASE dump for " +:+ repr_strs missing
         +:+ " (D-0078; refusing to start a campaign without the day's serial-cost measurement)"));
  kvs ← mapR (λ n, v ← of_option (KeyError (repr_str n)) (od_get (PStr n) by_);
                   Ok ("canary_" +:+ n +:+ "_ns", v)) CANARY_PHASES;
  Ok (od_of_list kvs).
Definition canary_header_lines (canary : option (odict string Z)) : res (list string) :=
  match canary with
  | None | Some [] => Ok []
  | Some c =>
    sv ← of_option (KeyError "'canary_stvec_ns'") (od_get "canary_stvec_ns" c);
    pv ← of_option (KeyError "'canary_page_verify_ns'") (od_get "canary_page_verify_ns" c);
    Ok ["canary_stvec_ns=" +:+ str_of_Z sv +:+ " canary_page_verify_ns=" +:+ str_of_Z pv +:+
        " (D-0078: one release-default boot before trial 1; that day's serial-byte regime. T4.8 regime ~1.03/11.9 ms, T4.8b ~1.17/16.2 ms. Safe-profile numbers compare across campaigns only when these agree.)"]
  end.

(** ** Commands.  [read_text] reads and decodes a file, [None] if missing. *)
Section commands.
Context (read_text : string → option string).

Definition cmd_scan_mtrap (serial : string) : res outcome :=
  match read_text serial with
  | None => Err (BenchFail ("TEST FAIL: serial log missing: " +:+ serial))
  | Some text =>
    _ ← falsifier3_scan text;
    Ok {| rc := 0; out := ["TEST PASS: no M-mode trap diagnostic in serial"]; err := [] |}
  end.

Definition cmd_check_serial (serial : string) : res outcome :=
  match read_text serial with
  | None => Err (BenchFail ("TEST FAIL: serial log missing: " +:+ serial))
  | Some text =>
    _ ← d0081_probe_scan text;
    rows ← parse_phases text;
    overhead ← stamp_overhead_ns rows;
    e3g ← firstR (phase_is "E3g") rows;
    ns ← get_int "ns_since_e2" e3g;
    Ok {| rc := 0;
          out := ["TEST PASS: phase deltas sum to E2→E3g (" +:+ str_of_Z ns
                  +:+ " ns) within stamp overhead " +:+ str_of_Z overhead +:+ " ns"];
          err := [] |}
  end.
End commands.

(** ** The typed dump

    What the kernel prints for one stamp, and the row the parser makes of it. *)
Record stamp := { st_name : string; st_ticks : N; st_ns : N; st_since : N;
                  st_since_ns : N; st_delta : N; st_delta_ns : N }.
Definition print_stamp (p : stamp) : string :=
  "PHASE " +:+ st_name p +:+ " ticks=" +:+ str_of_N (st_ticks p) +:+ " ns=" +:+ str_of_N (st_ns p)
  +:+ " since_start=" +:+ str_of_N (st_since p) +:+ " ns=" +:+ str_of_N (st_since_ns p)
  +:+ " delta=" +:+ str_of_N (st_delta p) +:+ " ns=" +:+ str_of_N (st_delta_ns p).
Definition row_of_stamp (p : stamp) : row :=
  [("phase", PStr (st_name p)); ("ticks", PInt (Z.of_N (st_ticks p)));
   ("ns_since_e2", PInt (Z.of_N (st_since_ns p)));
   ("delta_ticks", PInt (Z.of_N (st_delta p))); ("delta_ns", PInt (Z.of_N (st_delta_ns p)));
   ("source", PStr "serial"); ("_since_ticks", PInt (Z.of_N (st_since p)))].

(** A dump the parser must accept: it starts at [_start], has E3g and the
    overhead pair, and its deltas up to the first E3g sum to E2→E3g within the
    stamp floor (the last [stamp_b] delta, at least one tick). *)
Definition named (n : string) (p : stamp) : bool := String.eqb (st_name p) n.
Definition delta_of (n : string) (ps : list stamp) : Z :=
  foldl (λ d p, if named n p then Z.of_N (st_delta_ns p) else d) 0 ps.
Definition sum_until (ns : Z) (ps : list stamp) : Z :=
  sumZ ((λ p, Z.of_N (st_delta_ns p)) <$> filter (λ p, (Z.of_N (st_since_ns p) <=? ns) = true) ps).
Definition e2_e3g (ps : list stamp) : Z :=
  match List.find (named "E3g") ps with Some p => Z.of_N (st_since_ns p) | None => 0 end.
Definition floor_of (ps : list stamp) : Z := Z.max (delta_of "stamp_b" ps) TICK_NS.
Definition sums_ok (ps : list stamp) : bool :=
  Z.abs (sum_until (e2_e3g ps) ps - e2_e3g ps) <=? floor_of ps.
Definition valid_dump (ps : list stamp) : bool :=
  match ps with p :: _ => named "_start" p | [] => false end
  && existsb (named "E3g") ps && existsb (named "stamp_a") ps && existsb (named "stamp_b") ps
  && sums_ok ps.

(** ** The parser on typed rows *)
Lemma get_phase_row p : get "phase" (row_of_stamp p) = Ok (PStr (st_name p)).
Proof. done. Qed.
Lemma get_int_delta_row p : get_int "delta_ns" (row_of_stamp p) = Ok (Z.of_N (st_delta_ns p)).
Proof. done. Qed.
Lemma get_int_since_row p : get_int "ns_since_e2" (row_of_stamp p) = Ok (Z.of_N (st_since_ns p)).
Proof. done. Qed.

Lemma is_str_eqb s n : is_str (PStr s) n = String.eqb s n.
Proof.
  unfold is_str, py_eqb. destruct (String.eqb_spec s n) as [->|H].
  - by apply bool_decide_eq_true_2.
  - apply bool_decide_eq_false_2. congruence.
Qed.
Lemma phase_is_stamp n p : phase_is n (row_of_stamp p) = Ok (named n p).
Proof. unfold phase_is. rewrite get_phase_row. cbn [mbind res_bind]. by rewrite is_str_eqb. Qed.
Lemma firstR_stamps n ps :
  firstR (phase_is n) (row_of_stamp <$> ps) =
  of_option StopIteration (row_of_stamp <$> List.find (named n) ps).
Proof.
  induction ps as [|p ps IH]; [done|]. cbn [fmap list_fmap firstR].
  rewrite phase_is_stamp. cbn [mbind res_bind List.find].
  destruct (named n p); [done|exact IH].
Qed.

Lemma find_app {A} (f : A → bool) (l1 l2 : list A) :
  List.find f (l1 ++ l2) = match List.find f l1 with Some x => Some x | None => List.find f l2 end.
Proof. induction l1 as [|x l1 IH]; [done|]. cbn. by destruct (f x). Qed.
Lemma by_phase_stamps ps d :
  foldM (λ d r, n ← get "phase" r; Ok (od_set n r d)) d (row_of_stamp <$> ps) =
  Ok (foldl (λ d p, od_set (PStr (st_name p)) (row_of_stamp p) d) d ps).
Proof. revert d. induction ps as [|p ps IH]; intros d; [done|]. cbn. apply IH. Qed.
Lemma by_phase_lookup n ps d :
  od_get (PStr n) (foldl (λ d p, od_set (PStr (st_name p)) (row_of_stamp p) d) d ps) =
  match List.find (named n) (reverse ps) with
  | Some p => Some (row_of_stamp p)
  | None => od_get (PStr n) d
  end.
Proof.
  revert d. induction ps as [|p ps IH]; intros d; [done|]. cbn [foldl].
  rewrite IH, reverse_cons.
  rewrite find_app. destruct (List.find (named n) (reverse ps)); [done|].
  cbn [List.find]. unfold named. rewrite od_get_set.
  destruct (String.eqb_spec (st_name p) n) as [->|Hn]; [by rewrite decide_True|].
  rewrite decide_False; [done|]. congruence.
Qed.
Lemma delta_of_find n ps :
  delta_of n ps = match List.find (named n) (reverse ps) with
                  | Some p => Z.of_N (st_delta_ns p) | None => 0 end.
Proof.
  unfold delta_of. generalize 0 as z. induction ps as [|p ps IH]; intros z; [done|]. cbn [foldl].
  rewrite IH, reverse_cons, find_app.
  destruct (List.find (named n) (reverse ps)); [done|]. cbn. by destruct (named n p).
Qed.
Lemma existsb_find {A} (f : A → bool) (l : list A) :
  existsb f l = is_some (List.find f l).
Proof. induction l as [|x l IH]; [done|]. cbn. by destruct (f x). Qed.
Lemma existsb_reverse {A} (f : A → bool) (l : list A) : existsb f (reverse l) = existsb f l.
Proof.
  apply eq_true_iff_eq. rewrite !existsb_exists. setoid_rewrite <-list_elem_of_In.
  by setoid_rewrite elem_of_reverse.
Qed.

Lemma stamp_overhead_stamps ps :
  existsb (named "stamp_b") ps = true →
  stamp_overhead_ns (row_of_stamp <$> ps) = Ok (floor_of ps).
Proof.
  intros H. unfold stamp_overhead_ns. rewrite by_phase_stamps. cbn [mbind res_bind].
  rewrite by_phase_lookup. unfold floor_of. rewrite delta_of_find.
  rewrite <-existsb_reverse, existsb_find in H.
  by destruct (List.find (named "stamp_b") (reverse ps)).
Qed.
Lemma deltas_until_stamps ns ps :
  (upto ← filterR (λ r, n ← get_int "ns_since_e2" r; Ok (n <=? ns)) (row_of_stamp <$> ps);
   mapR (get_int "delta_ns") upto) =
  Ok ((λ p, Z.of_N (st_delta_ns p)) <$> filter (λ p, (Z.of_N (st_since_ns p) <=? ns) = true) ps).
Proof.
  induction ps as [|p ps IH]; [done|]. cbn [fmap list_fmap filterR].
  rewrite get_int_since_row. cbn [mbind res_bind]. rewrite filter_cons.
  destruct (filterR _ _) as [us|e] eqn:E; cbn [mbind res_bind] in IH |- *; [|done].
  destruct (Z.of_N (st_since_ns p) <=? ns) eqn:Hle.
  - rewrite decide_True by done. cbn [mapR]. rewrite get_int_delta_row. cbn [mbind res_bind].
    rewrite IH. done.
  - rewrite decide_False by congruence. exact IH.
Qed.

Lemma assert_sums_stamps ps :
  existsb (named "stamp_b") ps = true → existsb (named "E3g") ps = true →
  if sums_ok ps then assert_phases_sum_to_e3g (row_of_stamp <$> ps) = Ok (floor_of ps)
  else ∃ msg, assert_phases_sum_to_e3g (row_of_stamp <$> ps) = Err (BenchFail msg).
Proof.
  intros Hb He. unfold assert_phases_sum_to_e3g.
  rewrite stamp_overhead_stamps by done. cbn [mbind res_bind].
  rewrite firstR_stamps. unfold sums_ok, e2_e3g. rewrite existsb_find in He.
  destruct (List.find (named "E3g") ps) as [p|]; [|done]. cbn [fmap option_fmap option_map of_option mbind res_bind].
  rewrite get_int_since_row. cbn [mbind res_bind].
  pose proof (deltas_until_stamps (Z.of_N (st_since_ns p)) ps) as Hd.
  destruct (filterR _ _) as [us|e]; cbn [mbind res_bind] in Hd |- *; [|done]. rewrite Hd.
  cbn [mbind res_bind]. fold (sum_until (Z.of_N (st_since_ns p)) ps).
  destruct (Z.leb_spec (Z.abs (sum_until (Z.of_N (st_since_ns p)) ps - Z.of_N (st_since_ns p))) (floor_of ps)) as [H|H].
  - rewrite (proj2 (Z.ltb_ge _ _) H). done.
  - rewrite (proj2 (Z.ltb_lt _ _) H). cbn. eauto.
Qed.

Lemma names_stamps ps : mapR (get "phase") (row_of_stamp <$> ps) = Ok ((λ p, PStr (st_name p)) <$> ps).
Proof. induction ps as [|p ps IH]; [done|]. cbn [fmap list_fmap mapR]. rewrite IH. done. Qed.
Lemma elem_named n ps :
  bool_decide (PStr n ∈ (λ p, PStr (st_name p)) <$> ps) = existsb (named n) ps.
Proof.
  apply eq_true_iff_eq. rewrite bool_decide_eq_true, existsb_exists, list_elem_of_fmap.
  unfold named. setoid_rewrite String.eqb_eq. setoid_rewrite <-list_elem_of_In. naive_solver.
Qed.

(** [parse_phases] after its loop has produced the rows of [ps]. *)
Lemma parse_phases_stamps text ps :
  foldM phase_line [] (splitlines text) = Ok (row_of_stamp <$> ps) →
  if valid_dump ps then parse_phases text = Ok (row_of_stamp <$> ps)
  else ∃ msg, parse_phases text = Err (BenchFail msg).
Proof.
  intros H. unfold parse_phases. rewrite H. cbn [mbind res_bind].
  destruct ps as [|p ps']; [by eexists|].
  assert (∃ l, l = p :: ps') as [l Hl] by eauto. rewrite <-Hl.
  assert (match row_of_stamp <$> l with [] => true | _ => false end = false) as -> by (by subst).
  rewrite names_stamps. cbn [raise_when mbind res_bind].
  assert (head ((λ p, PStr (st_name p)) <$> l) = Some (PStr (st_name p))) as -> by (by subst).
  assert (valid_dump l = named "_start" p && existsb (named "E3g") l && existsb (named "stamp_a") l
            && existsb (named "stamp_b") l && sums_ok l) as -> by (by subst).
  cbn [of_option mbind res_bind]. rewrite is_str_eqb.
  change (String.eqb (st_name p) "_start") with (named "_start" p).
  rewrite !(elem_named _ l).
  destruct (named "_start" p); cbn; [|eauto].
  destruct (existsb (named "E3g") l) eqn:He; cbn; [|eauto].
  destruct (existsb (named "stamp_a") l) eqn:Ha; cbn; [|eauto].
  destruct (existsb (named "stamp_b") l) eqn:Hb; cbn; [|eauto].
  pose proof (assert_sums_stamps l Hb He) as Hs. clear Hl.
  destruct (sums_ok l); [by rewrite Hs|]. destruct Hs as [msg Hs]. rewrite Hs. eauto.
Qed.

(** ** One printed line *)
Definition wf_name (n : string) : Prop := n ≠ "" ∧ Forall (λ a, cS a = true) (to_l n).
Lemma wf_name_no_break n : wf_name n → no_break n.
Proof.
  intros [_ H]. eapply Forall_impl; [exact H|]. intros a Ha. apply is_space_linebreak.
  unfold cS in Ha. by destruct (is_space a).
Qed.
Lemma str_of_N_no_break n : no_break (str_of_N n).
Proof.
  unfold no_break. rewrite to_l_str_of_N. eapply Forall_impl; [apply digits_10_digit|].
  intros a. apply is_linebreak_digit.
Qed.
Lemma print_stamp_no_break p : wf_name (st_name p) → no_break (print_stamp p).
Proof.
  intros H. apply wf_name_no_break in H. unfold print_stamp.
  repeat (rewrite no_break_app; split); first [by apply no_break_literal | apply str_of_N_no_break | done].
Qed.
Lemma last_app_ne {A} (l1 l2 : list A) : l2 ≠ [] → last (l1 ++ l2) = last l2.
Proof. intros H. rewrite last_app. by destruct (last l2) eqn:E; [|apply last_None in E]. Qed.
Lemma strip_print_stamp p : strip (print_stamp p) = print_stamp p.
Proof.
  unfold strip. rewrite strip_l_id; [apply of_l_to_l| |].
  - by intros a [= <-].
  - intros a. unfold print_stamp. rewrite !to_l_app, !app_assoc.
    rewrite last_app_ne by (rewrite to_l_str_of_N; by apply digits_nonnil).
    rewrite to_l_str_of_N. intros Ha. apply last_Some_elem_of in Ha. apply is_space_digit.
    pose proof (digits_10_digit (st_delta_ns p)) as H. rewrite Forall_forall in H. by apply H.
Qed.

Lemma phase_row_match p : wf_name (st_name p) →
  ∃ m, re_match PHASE_ROW_RE (print_stamp p) = Some m ∧ phase_row m = Ok (row_of_stamp p).
Proof.
  intros [Hne Hn].
  set (c := [(7%nat, str_of_N (st_delta_ns p)); (6%nat, str_of_N (st_delta p));
             (5%nat, str_of_N (st_since_ns p)); (4%nat, str_of_N (st_since p));
             (3%nat, str_of_N (st_ns p)); (2%nat, str_of_N (st_ticks p)); (1%nat, st_name p)]).
  exists {| m_group0 := print_stamp p; m_caps := c |}. split.
  2: { unfold phase_row, grp_of. cbv zeta. cbn [m_caps].
       change (grp 1 c) with (st_name p). change (grp 2 c) with (str_of_N (st_ticks p)).
       change (grp 4 c) with (str_of_N (st_since p)). change (grp 5 c) with (str_of_N (st_since_ns p)).
       change (grp 6 c) with (str_of_N (st_delta p)). change (grp 7 c) with (str_of_N (st_delta_ns p)).
       rewrite !int_of_str_of_N. reflexivity. }
  assert (∀ n, to_l (str_of_N n) ≠ []) as Hd.
  { intros n. rewrite to_l_str_of_N. by apply digits_nonnil. }
  assert (∀ n, Forall (λ a, cd a = true) (to_l (str_of_N n))) as Hf.
  { intros n. rewrite to_l_str_of_N. apply digits_10_digit. }
  apply re_match_whole. intros R k x Hk. unfold PHASE_ROW_RE.
  unfold print_stamp. rewrite !to_l_app. rewrite rm_seq, rm_bol, rm_seq, rm_lit_app, rm_seq.
  do 6 (apply rm_grp_plus_greedy; [by auto || by destruct (st_name p)|by auto|by intros a [= <-]|];
        rewrite rm_seq, rm_lit_app, rm_seq).
  rewrite <-(app_nil_r (to_l (str_of_N (st_delta_ns p)))).
  apply rm_grp_plus_greedy; [by auto|by auto|done|].
  rewrite rm_seq, rm_star. cbn [m_star]. rewrite rm_eol_end, !of_l_to_l.
  rewrite !last_of_app. unfold print_stamp in Hk. by rewrite !to_l_app in Hk.
Qed.

(** The prefix [PHASE <run of non-spaces>] of a line is determined. *)
Lemma phase_prefix_inv s x u y : wf_name s → Forall (λ a, cS a = true) u →
  to_l s ++ chr 32 :: x = u ++ chr 32 :: y → to_l s = u ∧ x = y.
Proof.
  intros [_ Hs] Hu H. apply (span_unique cS) in H as [-> H]; [by injection H as ->|done..].
Qed.
Lemma phase_header_nomatch p : wf_name (st_name p) → re_match PHASE_HEADER_RE (print_stamp p) = None.
Proof.
  intros Hn. destruct (re_match PHASE_HEADER_RE (print_stamp p)) as [m|] eqn:E; [|done]. exfalso.
  apply re_match_Some in E as (pv & l & H). unfold PHASE_HEADER_RE in H. inv_rm. subst.
  match goal with H : to_l (print_stamp p) = _ |- _ => rename H into Heq end.
  unfold print_stamp in Heq. rewrite !to_l_app in Heq.
  change (to_l "PHASE ticks (") with (to_l "PHASE " ++ to_l "ticks" ++ chr 32 :: chr 40 :: []) in Heq.
  rewrite <-!app_assoc in Heq. apply app_inv_head in Heq.
  change (to_l " ticks=") with (chr 32 :: to_l "ticks=") in Heq.
  rewrite <-app_comm_cons in Heq.
  apply phase_prefix_inv in Heq as [_ Heq]; [done|done|]. by repeat constructor.
Qed.
Lemma phase_unset_nomatch p : wf_name (st_name p) → re_match PHASE_UNSET_RE (print_stamp p) = None.
Proof.
  intros Hn. destruct (re_match PHASE_UNSET_RE (print_stamp p)) as [m|] eqn:E; [|done]. exfalso.
  apply re_match_Some in E as (pv & l & H). unfold PHASE_UNSET_RE in H. inv_rm. subst.
  match goal with H : to_l (print_stamp p) = _ |- _ => rename H into Heq end.
  unfold print_stamp in Heq. rewrite !to_l_app in Heq. apply app_inv_head in Heq.
  change (to_l " unset") with (chr 32 :: to_l "unset") in Heq.
  change (to_l " ticks=") with (chr 32 :: to_l "ticks=") in Heq.
  rewrite <-!app_comm_cons in Heq. apply phase_prefix_inv in Heq as [_ Heq]; done.
Qed.

Lemma phase_line_stamp rows p : wf_name (st_name p) →
  phase_line rows (print_stamp p) = Ok (rows ++ [row_of_stamp p]).
Proof.
  intros Hn. unfold phase_line.
  rewrite replace_cr_id by by apply print_stamp_no_break.
  rewrite strip_print_stamp.
  assert (startswith (print_stamp p) "PHASE" = true) as -> by done.
  rewrite phase_header_nomatch, phase_unset_nomatch by done. cbn [negb is_some].
  destruct (phase_row_match p Hn) as (m & -> & ->). done.
Qed.

(** A serial log: PHASE rows, the dump's header line, and other output. *)
Inductive item := IStamp (p : stamp) | IHeader (rest : string) | IOther (line : string).
Definition print_item (i : item) : string :=
  match i with
  | IStamp p => print_stamp p
  | IHeader rest => "PHASE ticks (" +:+ rest
  | IOther line => line
  end.
Definition wf_item (i : item) : Prop :=
  match i with
  | IStamp p => wf_name (st_name p)
  | IHeader rest => no_break rest ∧ strip ("PHASE ticks (" +:+ rest) = "PHASE ticks (" +:+ rest
  | IOther line => no_break line ∧ startswith (strip line) "PHASE" = false
  end.
Definition item_stamp (i : item) : option stamp := match i with IStamp p => Some p | _ => None end.

Lemma phase_line_item rows i : wf_item i →
  phase_line rows (print_item i) =
  Ok (rows ++ (row_of_stamp <$> match item_stamp i with Some p => [p] | None => [] end)).
Proof.
  destruct i as [p|rest|line]; intros Hi; cbn [print_item item_stamp fmap list_fmap].
  - by apply phase_line_stamp.
  - destruct Hi as [Hnb Hs]. rewrite app_nil_r. unfold phase_line.
    rewrite replace_cr_id by (apply no_break_app; split; [by apply no_break_literal|done]).
    rewrite Hs. assert (re_match PHASE_HEADER_RE ("PHASE ticks (" +:+ rest) ≠ None) as Hm.
    { unfold re_match, match_at, PHASE_HEADER_RE. rewrite to_l_app, rm_seq, rm_bol, rm_lit_app. done. }
    assert (startswith ("PHASE ticks (" +:+ rest) "PHASE" = true) as -> by done.
    by destruct (re_match PHASE_HEADER_RE _).
  - destruct Hi as [Hnb Hs]. rewrite app_nil_r. unfold phase_line.
    rewrite replace_cr_id by done. by rewrite Hs.
Qed.
Lemma phase_lines_items items rows : Forall wf_item items →
  foldM phase_line rows (print_item <$> items) = Ok (rows ++ (row_of_stamp <$> omap item_stamp items)).
Proof.
  intros H. revert rows. induction H as [|i items Hi _ IH]; intros rows; [by rewrite app_nil_r|].
  cbn [fmap list_fmap foldM]. rewrite phase_line_item by done. cbn [mbind res_bind].
  rewrite IH. cbn [omap list_omap]. destruct (item_stamp i); cbn; by rewrite <-app_assoc.
Qed.
Lemma print_item_no_break i : wf_item i → no_break (print_item i).
Proof.
  destruct i; cbn; [apply print_stamp_no_break| |tauto].
  intros [H _]. apply no_break_app. split; [by apply no_break_literal|done].
Qed.

(** ** Properties *)

(** C12. Round trip and acceptance: on a serial log made of printed stamps, the
    dump header and other output, [parse_phases] returns exactly the rows of
    the printed stamps when the dump is valid, and raises [BenchFail] otherwise. *)
Theorem parse_phases_print (items : list item) :
  Forall wf_item items →
  let text := unterminated (print_item <$> items) in
  let ps := omap item_stamp items in
  if valid_dump ps then parse_phases text = Ok (row_of_stamp <$> ps)
  else ∃ msg, parse_phases text = Err (BenchFail msg).
Proof.
  intros Hi. cbn zeta. apply parse_phases_stamps.
  rewrite splitlines_unterminated; [by apply (phase_lines_items items [])|].
  apply Forall_fmap. eapply Forall_impl; [exact Hi|]. apply print_item_no_break.
Qed.

Lemma int_of_group u : u ≠ [] → Forall (λ a, cd a = true) u →
  ∃ n, int_of_str (of_l u) = Some (Z.of_N n).
Proof. apply int_of_digits. Qed.
Lemma phase_row_total line m : re_match PHASE_ROW_RE line = Some m →
  ∃ p, phase_row m = Ok (row_of_stamp p).
Proof.
  intros (pv & l & H)%re_match_Some. unfold PHASE_ROW_RE in H. inv_rm. subst.
  unfold phase_row, grp_of. cbv zeta.
  match goal with H : m_caps m = _ |- _ => rewrite H end.
  repeat match goal with
  | Hne : ?u ≠ [], Hu : Forall (λ a, cd a = true) ?u |- _ =>
      destruct (int_of_group u Hne Hu) as (? & ?); clear Hu
  end.
  repeat (rewrite grp_hit || rewrite grp_miss by done).
  repeat match goal with H : int_of_str _ = Some _ |- _ => rewrite !H; clear H end.
  cbn [of_option mbind res_bind]. 
  eexists {| st_name := _; st_ticks := _; st_ns := 0; st_since := _; st_since_ns := _;
             st_delta := _; st_delta_ns := _ |}. reflexivity.
Qed.
Lemma phase_lines_total lines ps :
  (∃ ps', foldM phase_line (row_of_stamp <$> ps) lines = Ok (row_of_stamp <$> ps')) ∨
  (∃ msg, foldM phase_line (row_of_stamp <$> ps) lines = Err (BenchFail msg)).
Proof.
  revert ps. induction lines as [|raw lines IH]; intros ps; cbn [foldM]; [by left; eexists|].
  unfold phase_line. cbv zeta. set (line := strip (replace cr "" raw)).
  destruct (negb _); cbn [mbind res_bind]; [apply IH|].
  destruct (is_some _); cbn [mbind res_bind]; [apply IH|].
  destruct (is_some _); cbn [mbind res_bind]; [eauto|].
  destruct (re_match PHASE_ROW_RE line) as [m|] eqn:E; cbn [mbind res_bind]; [|eauto].
  destruct (phase_row_total line m E) as [p ->]. cbn [mbind res_bind].
  change [row_of_stamp p] with (row_of_stamp <$> [p]). rewrite <-fmap_app. apply IH.
Qed.

(** Fail closed: on any text at all, [parse_phases] either returns the rows
    of a valid dump or raises [BenchFail]; no other exception escapes it. *)
Theorem parse_phases_fail_closed (text : string) :
  (∃ ps, parse_phases text = Ok (row_of_stamp <$> ps) ∧ valid_dump ps = true) ∨
  (∃ msg, parse_phases text = Err (BenchFail msg)).
Proof.
  destruct (phase_lines_total (splitlines text) []) as [[ps H]|[msg H]].
  - pose proof (parse_phases_stamps text ps H) as Hp. destruct (valid_dump ps) eqn:E; eauto.
  - right. exists msg. unfold parse_phases. cbn in H. by rewrite H.
Qed.

(** The M-mode trap gate: the scan command passes exactly when the file
    exists and its text nowhere contains the diagnostic, and otherwise raises
    [BenchFail]. *)
Theorem cmd_scan_mtrap_iff (read_text : string → option string) (serial : string) :
  (is_ok (cmd_scan_mtrap read_text serial) = true ↔
   ∃ text, read_text serial = Some text ∧ ∀ a b, text ≠ a +:+ "M!" +:+ b) ∧
  (is_ok (cmd_scan_mtrap read_text serial) = false →
   ∃ msg, cmd_scan_mtrap read_text serial = Err (BenchFail msg)).
Proof.
  unfold cmd_scan_mtrap. destruct (read_text serial) as [text|]; [|cbn; naive_solver].
  unfold falsifier3_scan. pose proof (find_None "M!" text) as Hf.
  destruct (find "M!" text) as [i|]; cbn; [|naive_solver].
  split; [|eauto]. split; [done|]. intros (t & [= <-] & H). by apply Hf in H.
Qed.

Lemma nonzero_group_scan msg l :
  Forall (λ m, ∃ n, int_of_str (grp_of 1 m) = Some (Z.of_N n)) l →
  (forM_ (nonzero_group msg) l = Ok tt ∧ Forall (λ m, int_of_str (grp_of 1 m) = Some 0) l) ∨
  (∃ e, forM_ (nonzero_group msg) l = Err (BenchFail e) ∧
        Exists (λ m, int_of_str (grp_of 1 m) ≠ Some 0) l).
Proof.
  unfold forM_. induction 1 as [|m l [n Hn] _ IH]; [left; by split; [|constructor]|].
  cbn [foldM].
  assert (nonzero_group msg m = raise_when (negb (Z.of_N n =? 0)) (BenchFail (msg (Z.of_N n) m))) as ->
    by (unfold nonzero_group; by rewrite Hn).
  destruct (Z.eqb_spec (Z.of_N n) 0) as [Hz|Hz]; cbn.
  - destruct IH as [[-> H]|(e & -> & H)]; [left|right].
    + split; [done|]. constructor; [by rewrite Hn, Hz|done].
    + exists e. split; [done|]. by apply Exists_cons_tl.
  - right. eexists. split; [done|]. apply Exists_cons_hd. rewrite Hn. congruence.
Qed.
Lemma usecs_groups text :
  Forall (λ m, ∃ n, int_of_str (grp_of 1 m) = Some (Z.of_N n)) (re_finditer D0081_INITCALL_USECS_RE text).
Proof.
  apply Forall_forall. intros m (pv1 & l1 & pv2 & l2 & H)%finditer_sound.
  unfold D0081_INITCALL_USECS_RE in H. inv_rm. subst. unfold grp_of.
  match goal with H : m_caps m = _ |- _ => rewrite H end. by apply int_of_group.
Qed.
Lemma table_groups text :
  Forall (λ m, ∃ n, int_of_str (grp_of 1 m) = Some (Z.of_N n)) (re_finditer D0081_INITCALL_TABLE_RE text).
Proof.
  apply Forall_forall. intros m (pv1 & l1 & pv2 & l2 & H)%finditer_sound.
  unfold D0081_INITCALL_TABLE_RE in H. inv_rm.
  repeat match goal with H : rmatches (ROpt _) _ _ _ _ _ _ |- _ =>
    apply rmatches_opt_inv in H as [(? & ?)|?]; inv_rm end; subst; unfold grp_of;
  match goal with H : m_caps m = _ |- _ => rewrite H end; by apply int_of_group.
Qed.

(** The unaligned-probe gate (D-0081 falsifier 1): the scan passes exactly
    when the probe's printk does not occur and every initcall line and table
    row of the probe reports a zero duration; otherwise it raises [BenchFail]. *)
Theorem d0081_probe_scan_iff (text : string) :
  (d0081_probe_scan text = Ok tt ∧
     (∀ a b, text ≠ a +:+ D0081_PROBE_RATIO +:+ b) ∧
     Forall (λ m, int_of_str (grp_of 1 m) = Some 0)
       (re_finditer D0081_INITCALL_USECS_RE text ++ re_finditer D0081_INITCALL_TABLE_RE text)) ∨
  (∃ msg, d0081_probe_scan text = Err (BenchFail msg) ∧
     ((∃ a b, text = a +:+ D0081_PROBE_RATIO +:+ b) ∨
      Exists (λ m, int_of_str (grp_of 1 m) ≠ Some 0)
       (re_finditer D0081_INITCALL_USECS_RE text ++ re_finditer D0081_INITCALL_TABLE_RE text))).
Proof.
  unfold d0081_probe_scan. destruct (find D0081_PROBE_RATIO text) as [i|] eqn:Ef; cbn [mbind res_bind].
  - right. eexists. split; [done|]. left. exact (find_Some _ _ _ Ef).
  - pose proof (proj1 (find_None _ _) Ef) as Hf.
    match goal with |- context [forM_ (nonzero_group ?f) (re_finditer D0081_INITCALL_USECS_RE text)] =>
      destruct (nonzero_group_scan f _ (usecs_groups text)) as [[-> H1]|(e & -> & H1)] end;
      cbn [mbind res_bind]; cycle 1.
    { right. eexists. split; [done|]. right. apply Exists_app. by left. }
    match goal with |- context [forM_ (nonzero_group ?f) (re_finditer D0081_INITCALL_TABLE_RE text)] =>
      destruct (nonzero_group_scan f _ (table_groups text)) as [[-> H2]|(e & -> & H2)] end.
    + left. split_and!; [done|done|]. by apply Forall_app.
    + right. eexists. split; [done|]. right. apply Exists_app. by right.
Qed.

(** The stamps of a release-default boot, a header and other output. *)
Definition demo_stamps : list stamp :=
  [{| st_name := "_start"; st_ticks := 1000; st_ns := 100000; st_since := 0; st_since_ns := 0; st_delta := 0; st_delta_ns := 0 |};
   {| st_name := "stvec"; st_ticks := 1010; st_ns := 101000; st_since := 10; st_since_ns := 1000; st_delta := 10; st_delta_ns := 1000 |};
   {| st_name := "E3g"; st_ticks := 1030; st_ns := 103000; st_since := 30; st_since_ns := 3000; st_delta := 20; st_delta_ns := 2000 |};
   {| st_name := "stamp_a"; st_ticks := 1031; st_ns := 103100; st_since := 31; st_since_ns := 3100; st_delta := 1; st_delta_ns := 100 |};
   {| st_name := "stamp_b"; st_ticks := 1032; st_ns := 103200; st_since := 32; st_since_ns := 3200; st_delta := 1; st_delta_ns := 100 |}]%N.
Lemma parse_phases_print_witness :
  parse_phases (unterminated (print_item <$>
    IOther "[boot] hello" :: IHeader "10 MHz)" :: (IStamp <$> demo_stamps))) = Ok (row_of_stamp <$> demo_stamps).
Proof.
  exact (parse_phases_print (IOther "[boot] hello" :: IHeader "10 MHz)" :: (IStamp <$> demo_stamps))
    ltac:(repeat constructor; vm_compute; first [done | by repeat constructor])).
Defined.
