(* ===== verification/InitcallLabels.v ===== *)
(** * Resolving initcall addresses (scripts/label-linux-initcalls.py)

    The System.map loader and binary search, the serial parser, the labelling
    pass with its fail-closed checks, the table, the selftest and the entry
    point.  Reading a file is a parameter. *)
From S2P Require Import Prelude PyStr Regex PyFloat.
From Stdlib Require Import Ascii.

(** ** Constants and patterns *)
Definition PRINTK_RE : regex :=
  (RBol ⋅⋅ RLit "[" ⋅⋅ RStar cs ⋅⋅ RGrp 1 (RPlus cd) ⋅⋅ RLit "." ⋅⋅ RGrp 2 (RPlus cd)
   ⋅⋅ RLit "]" ⋅⋅ RCls cs ⋅⋅ RGrp 3 (RStar cdot) ⋅⋅ REol)%re.
Definition INITCALL_RET_RE : regex :=
  (RWordB ⋅⋅ RLit "initcall" ⋅⋅ RPlus cs ⋅⋅ ROpt (RLit "0x") ⋅⋅ RGrp 1 (RPlus cHEX)
   ⋅⋅ RPlus cs ⋅⋅ RLit "returned" ⋅⋅ RPlus cs ⋅⋅ RGrp 2 (ROpt (RLit "-") ⋅⋅ RPlus cd)
   ⋅⋅ RPlus cs ⋅⋅ RLit "after" ⋅⋅ RPlus cs ⋅⋅ RGrp 3 (RPlus cd) ⋅⋅ RPlus cs ⋅⋅ RLit "usecs")%re.
Definition HOLE_START_SUB : string := "Key type dns_resolver registered".
Definition HOLE_END_SUB : string := "clk: Disabling unused clocks".
Definition MAX_OFFSET : Z := 64 * 1024.

(** ** Data *)
Abbreviation entry := (Z * string)%type.
Record initcall := { ic_addr : Z; ic_ret : Z; ic_usecs : Z; ic_ns : Z; ic_line : string }.
Record labeled := { lb_call : initcall; lb_name : string; lb_offset : Z;
                    lb_symbol : string; lb_in_hole : bool }.

(** ** Operations *)
Definition printk_ns (sec frac : string) : res Z :=
  s ← of_option ValueError (int_of_str sec);
  f ← of_option ValueError (int_of_str (slice 0 9 (ljust 9 (chr 48) frac)));
  Ok (s * 1000000000 + f).

(** Tuples compare by address, then by name. *)
Definition entry_leb (a b : entry) : bool :=
  (a.1 <? b.1) || ((a.1 =? b.1) && str_leb a.2 b.2).
(** One line: its entry, unless it is too short or its first field not hex. *)
Definition map_entry (raw : string) : option entry :=
  match split_ws raw with
  | p0 :: _ :: p2 :: _ => addr ← int16_of_str p0; Some (addr, p2)
  | _ => None
  end.
Definition load_system_map (text : string) : res (list entry) :=
  let entries := omap map_entry (splitlines text) in
  _ ← raise_when (match entries with [] => true | _ => false end)
        (LabelFail "TEST FAIL: System.map has no symbol rows");
  Ok (sort_by entry_leb entries).

(** The [while lo <= hi] loop; [fuel] bounds its iterations. *)
Fixpoint bsearch (fuel : nat) (addr : Z) (entries : list entry) (lo hi best : Z) : option (res Z) :=
  if lo <=? hi then
    match fuel with
    | O => None
    | S fuel =>
      let mid := (lo + hi) / 2 in
      match entries !! Z.to_nat mid with
      | None => Some (Err IndexError)
      | Some e => if e.1 <=? addr then bsearch fuel addr entries (mid + 1) hi mid
                  else bsearch fuel addr entries lo (mid - 1) best
      end
    end
  else Some (Ok best).
Definition resolve (addr : Z) (entries : list entry) : res (string * Z) :=
  best ← default (Err StopIteration)
           (bsearch (S (length entries)) addr entries 0 (Z.of_nat (length entries) - 1) (-1));
  if best <? 0 then
    first ← of_option IndexError (head entries);
    Err (LabelFail ("TEST FAIL: initcall 0x" +:+ hex_of_Z addr +:+ " is below System.map (first 0x"
                    +:+ hex_of_Z first.1 +:+ ")"))
  else
    e ← of_option IndexError (entries !! Z.to_nat best);
    let off := addr - e.1 in
    _ ← raise_when (MAX_OFFSET <=? off)
          (LabelFail ("TEST FAIL: initcall 0x" +:+ hex_of_Z addr +:+ " resolved to " +:+ e.2
                      +:+ "+0x" +:+ hex_of_Z off
                      +:+ " (offset ≥ 64 KiB; wrong System.map for this Image)"));
    Ok (e.2, off).

Record serial_state := { rows : list initcall; hole_start : option Z; hole_end : option Z }.
Definition serial_init : serial_state := {| rows := []; hole_start := None; hole_end := None |}.
Definition serial_line (s : serial_state) (raw : string) : res serial_state :=
  let line := rstrip_chars (λ a, (ord a =? 13)%N) raw in
  match re_match PRINTK_RE line with
  | None => Ok s
  | Some m =>
    ts ← printk_ns (grp_of 1 m) (grp_of 2 m);
    let msg := grp_of 3 m in
    let hs := if str_in HOLE_START_SUB msg then Some ts else hole_start s in
    let he := if str_in HOLE_END_SUB msg then Some ts else hole_end s in
    match re_search INITCALL_RET_RE msg with
    | None => Ok {| rows := rows s; hole_start := hs; hole_end := he |}
    | Some ret =>
      addr ← of_option ValueError (int16_of_str (grp_of 1 ret));
      rv ← of_option ValueError (int_of_str (grp_of 2 ret));
      us ← of_option ValueError (int_of_str (grp_of 3 ret));
      Ok {| rows := rows s ++ [{| ic_addr := addr; ic_ret := rv; ic_usecs := us;
                                  ic_ns := ts; ic_line := msg |}];
            hole_start := hs; hole_end := he |}
    end
  end.
Definition parse_serial (text : string) : res serial_state :=
  foldM serial_line serial_init (splitlines text).

Definition label_row (entries : list entry) (hs he : Z) (r : initcall) : res labeled :=
  '(name, off) ← resolve (ic_addr r) entries;
  Ok {| lb_call := r; lb_name := name; lb_offset := off;
        lb_symbol := if negb (off =? 0) then name +:+ "+0x" +:+ hex_of_Z off else name;
        lb_in_hole := (hs <? ic_ns r) && (ic_ns r <=? he) |}.
(** [key=usecs, reverse=True]: descending, equal keys in input order. *)
Definition usecs_geb (a b : labeled) : bool := ic_usecs (lb_call b) <=? ic_usecs (lb_call a).
Definition label (serial_text map_text : string) : res (list labeled * list labeled) :=
  entries ← load_system_map map_text;
  s ← parse_serial serial_text;
  _ ← raise_when (match rows s with [] => true | _ => false end)
        (LabelFail "TEST FAIL: zero initcall-returned lines (ignore_loglevel did not take, or this is the T4.8 loglevel=7 log)");
  match hole_start s, hole_end s with
  | Some hs, Some he =>
    _ ← raise_when (he <=? hs) (LabelFail "TEST FAIL: hole window is empty or inverted");
    recs ← mapR (label_row entries hs he) (rows s);
    let all := sort_by usecs_geb recs in
    let hole := filter (λ r, lb_in_hole r = true) all in
    _ ← raise_when (match hole with [] => true | _ => false end)
          (LabelFail "TEST FAIL: no initcall-returned lines inside the dns_resolver → clk-disable window");
    Ok (hole, all)
  | _, _ => Err (LabelFail "TEST FAIL: diagnostic serial missing dns_resolver / clk-disabling-unused-clocks window")
  end.

Definition seconds6 (ns : Z) : res string :=
  x ← fdiv (float_of_Z ns) (float_of_Z 1000000000); Ok (fmt_fixed 6 x).
Definition fmt_row (i : nat) (r : labeled) : res string :=
  s ← seconds6 (ic_ns (lb_call r));
  Ok ("| " +:+ str_of_nat i +:+ " | " +:+ str_of_Z (ic_usecs (lb_call r)) +:+ " | `" +:+ lb_symbol r
      +:+ "` | " +:+ str_of_Z (ic_ret (lb_call r)) +:+ " | " +:+ s +:+ " |").
Definition fmt_table (rs : list labeled) : res (list string) :=
  body ← mapR (λ p, fmt_row p.1 p.2) (imap (λ i r, (S i, r)) rs);
  Ok (["| rank | usecs | symbol | ret | printk_s |"; "|---|---:|---|---:|---:|"] ++ body).

(** ** Selftest *)
Definition st_smap : string := unterminated
  ["0000000000001000 T foo"; "0000000000002000 T bar"; "0000000000003000 T baz"].
Definition st_serial : string := unterminated
  ["[    0.100000] Key type dns_resolver registered";
   "[    0.200000] initcall 0x1000 returned 0 after 5000 usecs";
   "[    0.250000] initcall 1010 returned 0 after 20000 usecs";
   "[    0.300000] clk: Disabling unused clocks";
   "[    0.400000] initcall 0x2000 returned 0 after 90000 usecs"].
(** [try: label(...) except LabelFail as e: ... else: raise] *)
Definition expect_label_fail (sub wrong absent : string) (r : res (list labeled * list labeled)) : res unit :=
  match r with
  | Err (UserExn LabelFailC e) => raise_when (negb (str_in sub e)) (LabelFail (wrong +:+ e))
  | Err e => Err e
  | Ok _ => Err (LabelFail absent)
  end.
Definition selftest_label : res outcome :=
  '(hole, all_rows) ← label st_serial st_smap;
  _ ← raise_when (negb (bool_decide (lb_symbol <$> hole = ["foo+0x10"; "foo"])))
        (LabelFail ("TEST FAIL: hole symbols " +:+ repr_strs (lb_symbol <$> hole)));
  h0 ← of_option IndexError (head hole);
  _ ← raise_when (negb (ic_usecs (lb_call h0) =? 20000)) (LabelFail "TEST FAIL: hole not sorted by usecs");
  _ ← raise_when (negb (existsb (λ r, String.eqb (lb_symbol r) "bar" && negb (lb_in_hole r)) all_rows))
        (LabelFail "TEST FAIL: bar should be outside the hole");
  _ ← expect_label_fail "zero initcall-returned" "TEST FAIL: wrong zero-line error: "
        "TEST FAIL: expected zero-line failure"
        (label (replace "initcall" "xinitcall" st_serial) st_smap);
  _ ← expect_label_fail "64 KiB" "TEST FAIL: wrong offset error: "
        "TEST FAIL: expected 64 KiB offset failure"
        (label (replace "0x1000" "0x20000" st_serial) st_smap);
  Ok {| rc := 0; out := ["TEST PASS: label-linux-initcalls selftest"]; err := [] |}.

(** ** Entry point.  [read_text p] is [None] when [p] is not a file. *)
Definition label_files (read_text : string → option string) (serial_path map_path : string) : res outcome :=
  serial ← of_option (LabelFail ("TEST FAIL: serial missing: " +:+ serial_path)) (read_text serial_path);
  smap ← of_option (LabelFail ("TEST FAIL: System.map missing: " +:+ map_path)) (read_text map_path);
  '(hole, all_rows) ← label serial smap;
  th ← fmt_table hole;
  ta ← fmt_table all_rows;
  Ok {| rc := 0;
        out := ["## Hole window (labels for gap 1), sorted by usecs"; ""] ++ th ++
               [""; "## All initcalls, sorted by usecs (UART-inflated; not a report number)"; ""] ++ ta;
        err := [] |}.
Definition main_label (read_text : string → option string) (argv : list string) : res outcome :=
  match
    if bool_decide (argv = ["selftest"]) then selftest_label
    else match argv with
    | [serial_path; map_path] => label_files read_text serial_path map_path
    | _ => Ok {| rc := 2; out := []; err := ["usage: label-linux-initcalls.py SERIAL System.map"] |}
    end
  with
  | Err (UserExn LabelFailC e) => Ok {| rc := 1; out := []; err := [e] |}
  | r => r
  end.

(** ** The binary search *)
Lemma bsearch_spec addr entries fuel lo hi :
  StronglySorted (λ a b, a.1 <= b.1) entries →
  0 <= lo → hi < Z.of_nat (length entries) → lo <= hi + 1 → hi - lo + 1 < Z.of_nat fuel →
  (∀ i e, entries !! i = Some e → Z.of_nat i < lo → e.1 <= addr) →
  (∀ i e, entries !! i = Some e → hi < Z.of_nat i → addr < e.1) →
  ∃ b, bsearch fuel addr entries lo hi (lo - 1) = Some (Ok b) ∧ -1 <= b < Z.of_nat (length entries) ∧
    (∀ i e, entries !! i = Some e → (e.1 <= addr ↔ Z.of_nat i <= b)).
Proof.
  intros Hs. revert lo hi. induction fuel as [|fuel IH]; intros lo hi Hlo Hhi Hle Hf Hlow Hhigh; [lia|].
  cbn [bsearch]. destruct (Z.leb_spec lo hi) as [Hlh|Hlh].
  - set (mid := (lo + hi) / 2). assert (lo <= mid <= hi) as Hm.
    { unfold mid. pose proof (Z.div_mod (lo + hi) 2). pose proof (Z.mod_pos_bound (lo + hi) 2). lia. }
    destruct (lookup_lt_is_Some_2 entries (Z.to_nat mid)) as [e He]; [lia|]. rewrite He.
    assert (∀ i j a b, entries !! i = Some a → entries !! j = Some b → (i ≤ j)%nat → a.1 <= b.1) as Hmono.
    { intros i j a b Ha Hb Hij. destruct (decide (i = j)) as [->|]; [simplify_eq; lia|].
      eapply (StronglySorted_lookup_lt _ _ _ _ _ _ Hs Ha Hb); lia. }
    destruct (Z.leb_spec e.1 addr).
    + specialize (IH (mid + 1) hi). replace (mid + 1 - 1) with mid in IH by lia.
      apply IH; [lia..| |done].
      intros i e' He' Hi. assert (e'.1 <= e.1); [|lia]. eapply Hmono; [done..|lia].
    + apply IH; [lia..|done|].
      intros i e' He' Hi. assert (e.1 <= e'.1); [|lia]. eapply Hmono; [done..|lia].
  - eexists. split; [done|]. split; [lia|]. intros i e He. split.
    + intros Ha. destruct (decide (Z.of_nat i <= lo - 1)); [done|].
      enough (addr < e.1) by lia. eapply Hhigh; [done|lia].
    + intros Hi. eapply Hlow; [done|lia].
Qed.
Lemma filter_prefix {A} (p : A → bool) (l : list A) n :
  (∀ i a, l !! i = Some a → p a = true ↔ (i < n)%nat) → filter (λ a, p a = true) l = take n l.
Proof.
  revert n. induction l as [|a l IH]; intros n H; [by rewrite take_nil|]. rewrite filter_cons.
  pose proof (H 0%nat a eq_refl) as H0. case_decide as Hp.
  - apply H0 in Hp. destruct n as [|n]; [lia|]. cbn. f_equal. apply IH. intros i b Hb.
    rewrite (H (S i) b) by done. lia.
  - destruct n as [|n]; [|exfalso; apply Hp, H0; lia]. rewrite (IH 0%nat); [by rewrite take_0|].
    intros i b Hb. rewrite (H (S i) b) by done. lia.
Qed.

Lemma load_system_map_sorted text entries : load_system_map text = Ok entries →
  StronglySorted (λ a b : entry, a.1 <= b.1) entries ∧ entries ≠ [].
Proof.
  unfold load_system_map. cbv zeta. intros H. inv_ok. subst. split.
  - apply sort_by_sorted_rel; [intros ???; cbn; lia| |];
      intros [a n] [b k]; unfold entry_leb; cbn; lia.
  - intros Hn%(f_equal length). rewrite length_sort_by in Hn. by destruct (omap _ _).
Qed.
(** The symbol an address belongs to: the last one at or below it. *)
Definition nearest (addr : Z) (entries : list entry) : option entry :=
  last (filter (λ e, (e.1 <=? addr) = true) entries).
Lemma resolve_sorted addr entries :
  StronglySorted (λ a b, a.1 <= b.1) entries → entries ≠ [] →
  match nearest addr entries with
  | Some (base, name) =>
      base <= addr ∧
      (if MAX_OFFSET <=? addr - base then ∃ msg, resolve addr entries = Err (LabelFail msg)
       else resolve addr entries = Ok (name, addr - base))
  | None => ∃ msg, resolve addr entries = Err (LabelFail msg)
  end.
Proof.
  intros Hs Hne. unfold resolve.
  destruct (bsearch_spec addr entries (S (length entries)) 0 (Z.of_nat (length entries) - 1))
    as (b & Hb & Hr & Hi); [done|lia..| |].
  { intros i e He%lookup_lt_Some. lia. }
  replace (0 - 1) with (-1) in Hb by lia. rewrite Hb. cbn [default id mbind res_bind]. unfold nearest.
  rewrite (filter_prefix _ _ (Z.to_nat (b + 1))) by (intros i e He; rewrite Z.leb_le, (Hi i e He); lia).
  destruct (Z.ltb_spec b 0).
  - replace (Z.to_nat (b + 1)) with 0%nat by lia. rewrite take_0. cbn [last].
    destruct entries as [|e0 es]; [done|]. cbn [head of_option mbind res_bind]. eexists. reflexivity.
  - destruct (lookup_lt_is_Some_2 entries (Z.to_nat b)) as [[base name] He]; [lia|].
    replace (Z.to_nat (b + 1)) with (S (Z.to_nat b)) by lia.
    rewrite (take_S_r _ _ _ He), last_snoc, He. cbn [of_option mbind res_bind fst snd].
    split; [apply (Hi _ _ He); lia|].
    destruct (MAX_OFFSET <=? addr - base); cbn; eauto.
Qed.

(** Address resolution: over any System.map the loader accepts, the
    binary search finds the last symbol at or below the address, and fails when
    there is none or when it is 64 KiB or more away. *)
Theorem resolve_nearest (map_text : string) (entries : list entry) (addr : Z)
    (Hload : load_system_map map_text = Ok entries) :
  match nearest addr entries with
  | Some (base, name) =>
      base <= addr ∧
      (if MAX_OFFSET <=? addr - base then ∃ msg, resolve addr entries = Err (LabelFail msg)
       else resolve addr entries = Ok (name, addr - base))
  | None => ∃ msg, resolve addr entries = Err (LabelFail msg)
  end.
Proof. apply resolve_sorted; by eapply load_system_map_sorted. Qed.
Lemma resolve_nearest_witness :
  load_system_map st_smap = Ok [(4096, "foo"); (8192, "bar"); (12288, "baz")] ∧
  nearest 4112 [(4096, "foo"); (8192, "bar"); (12288, "baz")] = Some (4096, "foo") ∧
  (4096 <= 4112 ∧ resolve 4112 [(4096, "foo"); (8192, "bar"); (12288, "baz")] = Ok ("foo", 16)).
Proof.
  split; [by vm_compute|]. split; [by vm_compute|].
  exact (resolve_nearest st_smap [(4096, "foo"); (8192, "bar"); (12288, "baz")] 4112
           ltac:(by vm_compute)).
Defined.

(** ** The serial parser never fails *)
Lemma digit_in_hex a : cHEX a = true → ∃ d, digit_in 16 a = Some d.
Proof. destruct a as [[] [] [] [] [] [] [] []]; vm_compute; try discriminate; eauto. Qed.
Lemma parse_digits_hex acc l : Forall (λ a, cHEX a = true) l → ∃ n, parse_digits 16 acc l = Some n.
Proof.
  intros H. revert acc. induction H as [|a l Ha _ IH]; intros acc; cbn; [eauto|].
  destruct (digit_in_hex a Ha) as [d ->]. apply IH.
Qed.
Lemma cHEX_facts a : cHEX a = true →
  is_space a = false ∧ (ord a =? 45)%N = false ∧ (ord a =? 43)%N = false ∧
  (ord a =? 120)%N = false ∧ (ord a =? 88)%N = false.
Proof. destruct a as [[] [] [] [] [] [] [] []]; vm_compute; try discriminate; done. Qed.
Lemma int16_plain l : Forall (λ a, cHEX a = true) l →
  int16_of_str (of_l l) = signed false <$> parse_nat_l 16 l.
Proof.
  intros Hl. unfold int16_of_str. rewrite to_l_of_l, strip_l_Forall; cycle 1.
  { eapply Forall_impl; [exact Hl|]. intros a Ha. by apply cHEX_facts in Ha as [? _]. }
  destruct Hl as [|a l Ha Hl]; [done|].
  pose proof (cHEX_facts a Ha) as (_ & H1 & H2 & _ & _). cbn [parse_sign]. rewrite H1, H2.
  destruct Hl as [|b l Hb Hl]; [done|].
  pose proof (cHEX_facts b Hb) as (_ & _ & _ & H3 & H4). cbn [strip_0x].
  by rewrite H3, H4, orb_false_r, andb_false_r.
Qed.
Lemma int16_of_hex l : l ≠ [] → Forall (λ a, cHEX a = true) l → ∃ n, int16_of_str (of_l l) = Some n.
Proof.
  intros Hne Hl. rewrite int16_plain by done.
  destruct Hl as [|a l Ha Hl]; [done|]. cbn.
  destruct (digit_in_hex a Ha) as [d ->]. destruct (parse_digits_hex d l Hl) as [n ->]. cbn. eauto.
Qed.
Lemma int_of_minus l : l ≠ [] → Forall (λ a, cd a = true) l →
  ∃ n, int_of_str (of_l (chr 45 :: l)) = Some n.
Proof.
  intros Hne Hl. unfold int_of_str. rewrite to_l_of_l, strip_l_Forall; cycle 1.
  { constructor; [done|]. eapply Forall_impl; [exact Hl|]. apply is_space_digit. }
  cbn [parse_sign]. change (ord (chr 45) =? 45)%N with true. cbn iota.
  destruct l as [|a l]; [done|]. apply Forall_cons in Hl as [Ha Hl]. cbn.
  destruct (digit_in_digit a Ha) as [d ->]. destruct (parse_digits_digit d l Hl) as [n ->]. cbn. eauto.
Qed.
Lemma frac_digits u : u ≠ [] → Forall (λ a, cd a = true) u →
  ∃ n, int_of_str (slice 0 9 (ljust 9 (chr 48) (of_l u))) = Some (Z.of_N n).
Proof.
  intros Hne Hu. unfold slice, ljust. rewrite to_l_app, !to_l_of_l. apply int_of_digits.
  - by destruct u.
  - apply Forall_take, Forall_app. split; [done|]. apply Forall_replicate. done.
Qed.
Lemma printk_ns_total m line : re_match PRINTK_RE line = Some m →
  ∃ ts, printk_ns (grp_of 1 m) (grp_of 2 m) = Ok ts ∧ 0 <= ts.
Proof.
  intros (pv & l & H)%re_match_Some. unfold PRINTK_RE in H. inv_rm.
  match goal with H : rmatches (RGrp 3 _) _ _ _ _ _ _ |- _ =>
    apply rmatches_grp_inv in H as (? & ? & ? & ? & ?) end.
  match goal with H : rmatches (RCls _) _ _ _ _ _ _ |- _ => inversion H end.
  inv_rm. subst. unfold grp_of. match goal with H : m_caps m = _ |- _ => rewrite H end.
  repeat (rewrite grp_hit || rewrite grp_miss by done). unfold printk_ns.
  match goal with |- context [int_of_str (of_l ?u)] => destruct (int_of_digits u) as [n ->]; [done..|] end.
  match goal with |- context [ljust _ _ (of_l ?u)] => destruct (frac_digits u) as [k ->]; [done..|] end.
  cbn [of_option mbind res_bind].
  eexists. split; [done|]. lia.
Qed.

Lemma initcall_groups_total m msg : re_search INITCALL_RET_RE msg = Some m →
  ∃ addr rv us, int16_of_str (grp_of 1 m) = Some addr ∧ int_of_str (grp_of 2 m) = Some rv ∧
    int_of_str (grp_of 3 m) = Some us.
Proof.
  intros (pv1 & l1 & pv & l & H)%re_search_Some. unfold INITCALL_RET_RE in H. inv_rm.
  match goal with H : rmatches RWordB _ _ _ _ _ _ |- _ => inversion H; subst; clear H end.
  match goal with H : rmatches (RGrp 2 _) _ _ _ _ _ _ |- _ =>
    apply rmatches_grp_inv in H as (u2 & ? & ? & ? & ?) end.
  inv_rm. assert (∃ v, (u2 = v ∨ u2 = chr 45 :: v) ∧ v ≠ [] ∧ Forall (λ a, cd a = true) v) as (v & Hv & ? & ?).
  { match goal with H : rmatches (ROpt _) _ _ _ _ _ _ |- _ =>
      apply rmatches_opt_inv in H as [(? & ?)|?]; inv_rm; subst end;
    match goal with
    | H : ?u ++ ?l = ?v ++ ?l |- _ => apply app_inv_tail in H as ->; exists v; auto
    | H : ?u ++ ?l = to_l "-" ++ ?v ++ ?l |- _ =>
        rewrite (app_assoc _ v l) in H; apply app_inv_tail in H as ->; exists v; auto
    end. }
  assert (∃ rv, int_of_str (of_l u2) = Some rv) as [rv Hrv].
  { destruct Hv as [->| ->]; [|by apply int_of_minus].
    destruct (int_of_digits v) as [n ->]; eauto. }
  repeat match goal with H : rmatches (ROpt _) _ _ _ _ _ _ |- _ =>
      apply rmatches_opt_inv in H as [(? & ?)|?]; inv_rm end; subst;
  unfold grp_of; match goal with H : m_caps m = _ |- _ => rewrite H end;
  repeat (rewrite grp_hit || rewrite grp_miss by done); rewrite Hrv;
  match goal with |- context [int16_of_str (of_l ?u)] => destruct (int16_of_hex u) as [a ->]; [done..|] end;
  match goal with |- context [int_of_str (of_l ?u)] => destruct (int_of_digits u) as [b ->]; [done..|] end;
  by eexists _, _, _.
Qed.
Lemma serial_line_total s raw : ∃ s', serial_line s raw = Ok s'.
Proof.
  unfold serial_line. destruct (re_match PRINTK_RE _) as [m|] eqn:E; [|eauto].
  destruct (printk_ns_total _ _ E) as (ts & -> & _). cbn [mbind res_bind].
  destruct (re_search INITCALL_RET_RE _) as [m'|] eqn:E'; [|eauto].
  destruct (initcall_groups_total _ _ E') as (a & b & c & -> & -> & ->). eauto.
Qed.
Lemma parse_serial_total text : ∃ s, parse_serial text = Ok s.
Proof.
  unfold parse_serial. generalize serial_init as s. induction (splitlines text) as [|raw l IH]; intros s; cbn.
  - eauto.
  - destruct (serial_line_total s raw) as [s' ->]. apply IH.
Qed.

(** ** The labelling pass *)
Definition in_hole (hs he ns : Z) : Prop := hs < ns <= he.
(** What [label] must say of one initcall. *)
Definition labelled_ok (entries : list entry) (hs he : Z) (r : labeled) : Prop :=
  ∃ base, nearest (ic_addr (lb_call r)) entries = Some (base, lb_name r) ∧
    lb_offset r = ic_addr (lb_call r) - base ∧ 0 <= lb_offset r < MAX_OFFSET ∧
    (lb_in_hole r = true ↔ in_hole hs he (ic_ns (lb_call r))).
Lemma label_row_ok entries hs he r x :
  StronglySorted (λ a b, a.1 <= b.1) entries → entries ≠ [] →
  label_row entries hs he r = Ok x → lb_call x = r ∧ labelled_ok entries hs he x.
Proof.
  intros Hs Hne. unfold label_row. pose proof (resolve_sorted (ic_addr r) entries Hs Hne) as Hr.
  destruct (nearest _ _) as [[base name]|] eqn:En; [|by destruct Hr as [msg ->]].
  destruct Hr as [Hb Hr]. destruct (Z.leb_spec MAX_OFFSET (ic_addr r - base)).
  - by destruct Hr as [msg ->].
  - rewrite Hr. cbn. intros [= <-]. cbn. split; [done|]. exists base. cbn.
    split_and!; [done..|lia|lia|]. unfold in_hole. rewrite andb_true_iff. lia.
Qed.
Lemma label_row_err entries hs he r e :
  StronglySorted (λ a b, a.1 <= b.1) entries → entries ≠ [] →
  label_row entries hs he r = Err e → ∃ msg, e = LabelFail msg.
Proof.
  intros Hs Hne. unfold label_row. pose proof (resolve_sorted (ic_addr r) entries Hs Hne) as Hr.
  destruct (nearest _ _) as [[base name]|]; [|destruct Hr as [msg ->]; cbn; naive_solver].
  destruct Hr as [Hb Hr]. destruct (MAX_OFFSET <=? _).
  - destruct Hr as [msg ->]. cbn. naive_solver.
  - by rewrite Hr.
Qed.
Lemma mapR_Err {A B} (f : A → res B) l e : mapR f l = Err e → ∃ x, x ∈ l ∧ f x = Err e.
Proof.
  induction l as [|x l IH]; cbn; [done|]. rewrite bind_Err. intros [H|(y & Hy & H)].
  - exists x. set_solver.
  - apply bind_Err in H as [H|(? & ? & ?)]; [|done]. destruct (IH H) as (z & ? & ?). set_solver.
Qed.

Lemma label_err s m e : label s m = Err e → ∃ msg, e = LabelFail msg.
Proof.
  intros E. unfold label in E.
  destruct (load_system_map m) as [entries|e'] eqn:El; cbn in E; cycle 1.
  { unfold load_system_map in El. cbv zeta in El. injection E as <-.
    destruct (omap _ _); cbn in El; [injection El as <-; eauto|done]. }
  destruct (load_system_map_sorted _ _ El) as [Hsort Hne].
  destruct (parse_serial_total s) as [st Hs]. rewrite Hs in E. cbn in E.
  destruct (rows st) as [|r0 rs]; cbn [raise_when mbind res_bind] in E; [injection E as <-; eauto|].
  destruct (hole_start st) as [hs|], (hole_end st) as [he|]; try (injection E as <-; eauto).
  destruct (he <=? hs); cbn [raise_when mbind res_bind] in E; [injection E as <-; eauto|].
  apply bind_Err in E as [E|(recs & _ & E)].
  - apply mapR_Err in E as (r & _ & Hr). by eapply label_row_err in Hr.
  - destruct (filter _ _); cbn in E; [injection E as <-; eauto|done].
Qed.
(** C15. The labelling pass: when it succeeds, its second result is a
    permutation of the parsed initcalls in descending duration, each carrying
    the nearest symbol at or below its address less than 64 KiB away, and its
    first result is the nonempty list of those inside the printk window; when
    it fails it raises [LabelFail] and nothing else. *)
Theorem label_correct (serial_text map_text : string) :
  match label serial_text map_text with
  | Ok (hole, all) => ∃ entries s hs he,
      load_system_map map_text = Ok entries ∧ parse_serial serial_text = Ok s ∧
      hole_start s = Some hs ∧ hole_end s = Some he ∧
      lb_call <$> all ≡ₚ rows s ∧
      StronglySorted (λ a b, ic_usecs (lb_call b) <= ic_usecs (lb_call a)) all ∧
      Forall (labelled_ok entries hs he) all ∧
      hole = filter (λ r, lb_in_hole r = true) all ∧ hole ≠ []
  | Err e => ∃ msg, e = LabelFail msg
  end.
Proof.
  destruct (label serial_text map_text) as [[hole all]|e] eqn:E.
  - unfold label in E. apply bind_Ok in E as (entries & Hl & E). apply bind_Ok in E as (s & Hs & E).
    destruct (load_system_map_sorted _ _ Hl) as [Hsort Hne].
    apply bind_Ok in E as (_ & _ & E).
    destruct (hole_start s) as [hs|] eqn:Ehs, (hole_end s) as [he|] eqn:Ehe; try done.
    cbv zeta in E. inv_ok. subst.
    match goal with H : mapR _ _ = Ok ?y |- _ => apply mapR_Ok in H; rename H into Hm; rename y into recs end.
    exists entries, s, hs, he. split_and!; try done.
    + rewrite sort_by_perm. clear -Hm Hsort Hne. induction Hm as [|r x l l' Hr _ IH]; [done|].
      cbn. apply label_row_ok in Hr as [-> _]; [|done..]. by rewrite IH.
    + apply sort_by_sorted_rel; [intros ???; cbn; lia| |]; intros a b; unfold usecs_geb; lia.
    + apply Forall_forall. intros z Hz. rewrite elem_of_sort_by in Hz.
      clear -Hm Hsort Hne Hz. induction Hm as [|r y l l' Hr _ IH]; [by apply elem_of_nil in Hz|].
      apply elem_of_cons in Hz as [->|Hz]; [|auto]. by eapply label_row_ok in Hr as [_ ?].
    + by destruct (filter _ _).
  - by apply label_err in E.
Qed.

(** ** The entry point *)
Lemma fmt_table_total rs : ∃ ls, fmt_table rs = Ok ls.
Proof.
  unfold fmt_table. generalize (imap (λ i r, (S i, r)) rs) as l. intros l.
  assert (∃ ls, mapR (λ p, fmt_row p.1 p.2) l = Ok ls) as [ls ->]; [|eauto].
  induction l as [|[i r] l [ls IH]]; [by eexists|]. cbn [mapR].
  assert (∃ s, fmt_row i r = Ok s) as [s Hs] by (unfold fmt_row, seconds6, fdiv; cbn; eauto).
  cbn [fst snd]. rewrite Hs, IH. cbn. eauto.
Qed.
Lemma selftest_label_passes : selftest_label =
  Ok {| rc := 0; out := ["TEST PASS: label-linux-initcalls selftest"]; err := [] |}.
Proof. by vm_compute. Qed.
(** A run that labels: both files exist and the pass succeeds. *)
Definition labels (read_text : string → option string) (argv : list string) : Prop :=
  ∃ s m st mt, argv = [s; m] ∧ read_text s = Some st ∧ read_text m = Some mt ∧ is_ok (label st mt) = true.

(** The script's exit status: it always returns one (no exception
    escapes); 2 exactly on a wrong command line, 0 exactly for the selftest or
    for two existing files that label, 1 otherwise. *)
Theorem main_label_status (read_text : string → option string) (argv : list string) :
  ∃ o, main_label read_text argv = Ok o ∧
    (rc o = 2 ↔ argv ≠ ["selftest"] ∧ length argv ≠ 2%nat) ∧
    (rc o = 0 ↔ argv = ["selftest"] ∨ labels read_text argv) ∧
    (rc o = 0 ∨ rc o = 1 ∨ rc o = 2).
Proof.
  unfold main_label. destruct (decide (argv = ["selftest"])) as [->|Hst].
  { rewrite bool_decide_eq_true_2, selftest_label_passes by done.
    eexists. split; [done|]. cbn. naive_solver. }
  rewrite bool_decide_eq_false_2 by done.
  destruct (decide (length argv = 2%nat)) as [Hlen|Hlen]; cycle 1.
  { destruct argv as [|? [|? [|]]]; try done; (eexists; split; [done|]; cbn;
      unfold labels; split; [naive_solver|]; split; [|auto]; naive_solver). }
  destruct argv as [|s [|m [|]]]; try done. unfold label_files, labels.
  assert (∀ msg, ∃ o, Ok {| rc := 1; out := []; err := [msg] |} = Ok o ∧
    (rc o = 2 ↔ [s; m] ≠ ["selftest"] ∧ length [s; m] ≠ 2%nat) ∧
    (rc o = 0 ↔ False) ∧ (rc o = 0 ∨ rc o = 1 ∨ rc o = 2)) as H1.
  { intros msg. eexists. split; [done|]. cbn. naive_solver. }
  destruct (read_text s) as [st|] eqn:Es; cbn [of_option mbind res_bind]; [|naive_solver].
  destruct (read_text m) as [mt|] eqn:Em; cbn [of_option mbind res_bind]; [|naive_solver].
  destruct (label st mt) as [[hole all]|e] eqn:El; cbn [mbind res_bind].
  - destruct (fmt_table_total hole) as [th ->], (fmt_table_total all) as [ta ->].
    eexists. split; [done|]. cbn. split; [naive_solver|]. split; [|auto]. split; [|done].
    intros _. right. exists s, m, st, mt. by rewrite El.
  - destruct (label_err _ _ _ El) as [msg ->]. destruct (H1 msg) as (o & ? & ? & ? & ?). exists o.
    split; [done|]. split; [done|]. split; [|done]. split; [tauto|]. intros [?|(? & ? & ? & ? & [= -> ->] & ? & ? & Hok)]; [done|].
    simplify_eq. by rewrite El in Hok.
Qed.
