(* ===== verification/PyJson.v ===== *)
(** * JSON as Python reads it ([json.loads])

    The whole grammar of the standard library's decoder: objects (a later member
    of the same name wins), arrays, strings with their escapes, integers, floats,
    the three constants and NaN and Infinity.  A syntax error is a
    [JSONDecodeError], which is a [ValueError].  The parser takes fuel, one unit
    per value, member or element; twice the length of the text is enough
    ([json_fuel]).
    Strings are UTF-8; nesting is not bounded. *)
From S2P Require Import Prelude PyStr PyFloat PyData.
From Stdlib Require Import Ascii.

(** ** Values *)
Inductive jval :=
  | JNull | JBool (b : bool) | JInt (z : Z) | JFlt (x : float) | JStr (s : string)
  | JArr (l : list jval) | JObj (d : list (string * jval)).
Abbreviation jobj := (odict string jval).

(** ** Lexical parts *)
Definition is_c (n : N) (a : ascii) : bool := (ord a =? n)%N.
Definition j_space (a : ascii) : bool := is_c 32 a || is_c 9 a || is_c 10 a || is_c 13 a.
Definition j_ws (l : list ascii) : list ascii := drop_while j_space l.
Definition hex_digit (a : ascii) : option N := digit_in 16 a.
Definition hex4 (l : list ascii) : option (N * list ascii) :=
  match l with
  | a :: b :: c :: d :: l =>
    a ← hex_digit a; b ← hex_digit b; c ← hex_digit c; d ← hex_digit d;
    Some (((a * 16 + b) * 16 + c) * 16 + d, l)%N
  | _ => None
  end.
Definition utf8 (n : N) : list ascii :=
  if (n <? 128)%N then [chr n]
  else if (n <? 2048)%N then [chr (192 + n / 64); chr (128 + n mod 64)]
  else if (n <? 65536)%N then [chr (224 + n / 4096); chr (128 + n / 64 mod 64); chr (128 + n mod 64)]
  else [chr (240 + n / 262144); chr (128 + n / 4096 mod 64); chr (128 + n / 64 mod 64); chr (128 + n mod 64)].
(** After [\u]: four digits, and a second escape when they are a high surrogate
    followed by a low one. *)
Definition unicode_escape (l : list ascii) : option (list ascii * list ascii) :=
  '(n, l) ← hex4 l;
  let alone := Some (utf8 n, l) in
  if ((0xD800 <=? n) && (n <=? 0xDBFF))%N then
    match l with
    | a :: b :: l' =>
      if is_c 92 a && is_c 117 b then
        match hex4 l' with
        | Some (m, l'') =>
          if ((0xDC00 <=? m) && (m <=? 0xDFFF))%N
          then Some (utf8 (65536 + (n - 0xD800) * 1024 + (m - 0xDC00)), l'')%N else alone
        | None => None
        end
      else alone
    | _ => alone
    end
  else alone.
Definition simple_escape (a : ascii) : option ascii :=
  if is_c 34 a || is_c 92 a || is_c 47 a then Some a
  else if is_c 98 a then Some (chr 8) else if is_c 102 a then Some (chr 12)
  else if is_c 110 a then Some (chr 10) else if is_c 114 a then Some (chr 13)
  else if is_c 116 a then Some (chr 9) else None.
(** After the opening quote: the text and what follows the closing quote. *)
Fixpoint j_string (fuel : nat) (acc l : list ascii) : option (string * list ascii) :=
  match fuel, l with
  | S fuel, a :: l =>
    if is_c 34 a then Some (of_l acc, l)
    else if is_c 92 a then
      match l with
      | b :: l' =>
        if is_c 117 b then '(u, l'') ← unicode_escape l'; j_string fuel (acc ++ u) l''
        else e ← simple_escape b; j_string fuel (acc ++ [e]) l'
      | [] => None
      end
    else if (ord a <? 32)%N then None
    else j_string fuel (acc ++ [a]) l
  | _, _ => None
  end.
(** A number: sign, integer part without leading zeros, fraction, exponent. *)
Definition sign_part (l : list ascii) : list ascii * list ascii :=
  match l with a :: l' => if is_c 45 a then ([a], l') else ([], l) | [] => ([], []) end.
Definition int_part (l : list ascii) : option (list ascii * list ascii) :=
  match l with
  | a :: l' => if is_c 48 a then Some ([a], l')
               else if is_digit a then Some (take_while is_digit l, drop_while is_digit l) else None
  | [] => None
  end.
Definition frac_part (l : list ascii) : list ascii * list ascii :=
  match l with
  | a :: b :: l' => if is_c 46 a && is_digit b then (a :: take_while is_digit (b :: l'), drop_while is_digit (b :: l'))
                    else ([], l)
  | _ => ([], l)
  end.
Definition exp_part (l : list ascii) : list ascii * list ascii :=
  match l with
  | a :: l' =>
    if is_c 101 a || is_c 69 a then
      let '(sg, ds) := match l' with b :: l'' => if is_c 45 b || is_c 43 b then ([b], l'') else ([], l') | [] => ([], []) end in
      match take_while is_digit ds with
      | [] => ([], l)
      | digits => (a :: sg ++ digits, drop_while is_digit ds)
      end
    else ([], l)
  | [] => ([], [])
  end.
Definition j_number (l : list ascii) : option (jval * list ascii) :=
  let '(sg, l) := sign_part l in
  '(ip, l) ← int_part l;
  let '(fp, l) := frac_part l in
  let '(ep, l) := exp_part l in
  match fp, ep with
  | [], [] => z ← int_of_str (of_l (sg ++ ip)); Some (JInt z, l)
  | _, _ => x ← float_of_str (of_l (sg ++ ip ++ fp ++ ep)); Some (JFlt x, l)
  end.
(** The constants, tried in the decoder's order around the numbers. *)
Definition literal (word : string) (v : jval) (l : list ascii) : option (jval * list ascii) :=
  if prefix_l (to_l word) l then Some (v, drop (String.length word) l) else None.
Definition or_else {A} (a b : option A) : option A := match a with Some _ => a | None => b end.
Definition j_scalar (l : list ascii) : option (jval * list ascii) :=
  or_else (literal "null" JNull l) (or_else (literal "true" (JBool true) l) (or_else (literal "false" (JBool false) l)
    (or_else (j_number l) (or_else (literal "NaN" (JFlt S754_nan) l) (or_else (literal "Infinity" (JFlt (S754_infinity false)) l)
      (literal "-Infinity" (JFlt (S754_infinity true)) l)))))).

(** ** Values, members, elements *)
Definition j_str (l : list ascii) : option (string * list ascii) := j_string (length l) [] l.
Fixpoint j_value (fuel : nat) (l : list ascii) : option (jval * list ascii) :=
  match fuel, l with
  | S fuel, a :: r =>
    if is_c 34 a then '(s, r) ← j_str r; Some (JStr s, r)
    else if is_c 123 a then
      match j_ws r with
      | b :: r' => if is_c 125 b then Some (JObj [], r')
                   else if is_c 34 b then '(d, r) ← j_members fuel [] r'; Some (JObj d, r) else None
      | [] => None
      end
    else if is_c 91 a then
      match j_ws r with
      | b :: r' => if is_c 93 b then Some (JArr [], r') else '(vs, r) ← j_elements fuel [] (b :: r'); Some (JArr vs, r)
      | [] => None
      end
    else j_scalar l
  | _, _ => None
  end
(** After the quote that opens a member's name. *)
with j_members (fuel : nat) (d : jobj) (l : list ascii) : option (jobj * list ascii) :=
  match fuel with
  | S fuel =>
    '(k, r) ← j_str l;
    match j_ws r with
    | c :: r =>
      if negb (is_c 58 c) then None else
      '(v, r) ← j_value fuel (j_ws r);
      let d := od_set k v d in
      match j_ws r with
      | e :: r => if is_c 125 e then Some (d, r)
                  else if negb (is_c 44 e) then None
                  else match j_ws r with
                       | q :: r => if is_c 34 q then j_members fuel d r else None
                       | [] => None
                       end
      | [] => None
      end
    | [] => None
    end
  | O => None
  end
with j_elements (fuel : nat) (vs : list jval) (l : list ascii) : option (list jval * list ascii) :=
  match fuel with
  | S fuel =>
    '(v, r) ← j_value fuel l;
    let vs := vs ++ [v] in
    match j_ws r with
    | e :: r => if is_c 93 e then Some (vs, r) else if is_c 44 e then j_elements fuel vs (j_ws r) else None
    | [] => None
    end
  | O => None
  end.
Definition json_loads (s : string) : res jval :=
  let l := j_ws (to_l s) in
  match j_value (S (2 * length l)) l with
  | Some (v, r) => match j_ws r with [] => Ok v | _ => Err ValueError end
  | None => Err ValueError
  end.

(** ** What the scripts do with a value *)
(** [d.get(k)] and [d[k]] on the decoded value *)
Definition j_obj (e : exn) (v : jval) : res jobj := match v with JObj d => Ok d | _ => Err e end.
Definition j_true (v : jval) : bool :=
  match v with
  | JNull => false | JBool b => b | JInt z => negb (z =? 0) | JFlt x => negb (is_fzero x)
  | JStr s => negb (String.eqb s "") | JArr l => match l with [] => false | _ => true end
  | JObj d => match d with [] => false | _ => true end
  end.
Definition j_get (k : string) (d : jobj) : jval := default JNull (od_get k d).
Definition j_item (k : string) (d : jobj) : res jval := of_option (KeyError (repr_str k)) (od_get k d).
(** [int(v)] and [f"{v}"] *)
Definition j_int (v : jval) : res Z :=
  match v with
  | JInt z => Ok z | JBool b => Ok (if b then 1 else 0) | JFlt x => py_trunc x
  | JStr s => of_option ValueError (int_of_str s) | JNull | JArr _ | JObj _ => Err TypeError
  end.
Definition j_field (k : string) (d : jobj) : res Z := v ← j_item k d; j_int v.
Definition j_null (v : jval) : bool := match v with JNull => true | _ => false end.
Fixpoint j_repr (v : jval) : string :=
  match v with
  | JNull => "None" | JBool b => if b then "True" else "False" | JInt z => str_of_Z z | JFlt x => repr_float x
  | JStr s => repr_str s
  | JArr l => repr_list (j_repr <$> l)
  | JObj d => "{" +:+ join ", " ((λ kv, repr_str kv.1 +:+ ": " +:+ j_repr kv.2) <$> d) +:+ "}"
  end.
Definition j_text (v : jval) : string := match v with JStr s => s | _ => j_repr v end.

(** ** Fuel *)
Lemma j_ws_length l : (length (j_ws l) ≤ length l)%nat.
Proof. induction l as [|a l IH]; [done|]. unfold j_ws in *. cbn [drop_while]. destruct (j_space a); cbn [length]; lia. Qed.
Lemma drop_while_length p l : (length (drop_while p l) ≤ length l)%nat.
Proof. induction l as [|a l IH]; [done|]. cbn [drop_while]. destruct (p a); cbn [length]; lia. Qed.
Lemma hex4_length l n r : hex4 l = Some (n, r) → length l = (4 + length r)%nat.
Proof.
  unfold hex4. destruct l as [|a [|b [|c [|d l]]]]; try done.
  destruct (hex_digit a), (hex_digit b), (hex_digit c), (hex_digit d); cbn; naive_solver.
Qed.
Lemma unicode_escape_length l u r : unicode_escape l = Some (u, r) → (length r < length l)%nat.
Proof.
  unfold unicode_escape. intros H. destruct (hex4 l) as [[n l1]|] eqn:E; [|done]. apply hex4_length in E. cbn in H.
  destruct (_ && _); [|injection H as _ <-; lia].
  destruct l1 as [|a [|b l']]; try (injection H as _ <-; cbn in *; lia).
  destruct (_ && _); [|injection H as _ <-; cbn in *; lia].
  destruct (hex4 l') as [[m l'']|] eqn:E'; [|done]. apply hex4_length in E'.
  destruct (_ && _); injection H as _ <-; cbn in *; lia.
Qed.
Lemma j_string_length fuel acc l s r : j_string fuel acc l = Some (s, r) → (length r < length l)%nat.
Proof.
  revert acc l. induction fuel as [|fuel IH]; intros acc l; cbn [j_string]; [done|]. destruct l as [|a l]; [done|].
  destruct (is_c 34 a); [intros [= _ <-]; cbn; lia|]. destruct (is_c 92 a).
  - destruct l as [|b l']; [done|]. destruct (is_c 117 b).
    + destruct (unicode_escape l') as [[u l'']|] eqn:E; [|done]. apply unicode_escape_length in E.
      cbn [mbind option_bind]. intros H%IH. cbn. lia.
    + destruct (simple_escape b); [|done]. cbn [mbind option_bind]. intros H%IH. cbn. lia.
  - destruct (_ <? _)%N; [done|]. intros H%IH. cbn. lia.
Qed.
Lemma j_str_length l s r : j_str l = Some (s, r) → (length r < length l)%nat.
Proof. apply j_string_length. Qed.
Lemma literal_length w v l v' r : literal w v l = Some (v', r) → w ≠ "" → (length r < length l)%nat.
Proof.
  unfold literal. destruct (prefix_l _ l) eqn:E; [|done]. apply prefix_l_spec in E as [l' ->]. intros [= _ <-] Hw.
  rewrite length_drop, length_app, length_to_l. destruct w; [done|]. cbn. lia.
Qed.
Lemma j_number_length l v r : j_number l = Some (v, r) → (length r < length l)%nat.
Proof.
  unfold j_number. intros H.
  assert (length (sign_part l).2 ≤ length l)%nat as H1 by (destruct l as [|a l]; [done|]; cbn; destruct (is_c 45 a); cbn; lia).
  destruct (sign_part l) as [sg l1]. cbn [snd] in H1.
  destruct (int_part l1) as [[ip l2]|] eqn:E2; [|done]. cbn [mbind option_bind] in H.
  assert (length l2 < length l1)%nat as H2.
  { destruct l1 as [|a l1]; [done|]. cbn in E2. destruct (is_c 48 a); [injection E2 as _ <-; cbn; lia|].
    destruct (is_digit a); [|done]. injection E2 as _ <-. pose proof (drop_while_length is_digit l1). cbn. lia. }
  assert (length (frac_part l2).2 ≤ length l2)%nat as H3.
  { destruct l2 as [|a [|b l']]; try (cbn; lia). cbn [frac_part]. destruct (_ && _); cbn [snd]; [|done].
    pose proof (drop_while_length is_digit (b :: l')). cbn [length] in *. lia. }
  destruct (frac_part l2) as [fp l3]. cbn [snd] in H3.
  assert (length (exp_part l3).2 ≤ length l3)%nat as H4.
  { destruct l3 as [|a l']; [done|]. cbn [exp_part]. destruct (_ || _); [|done].
    destruct l' as [|b l'']; [done|]. destruct (_ || _); destruct (take_while _ _); cbn [snd]; try done.
    - pose proof (drop_while_length is_digit l''). cbn [length]. lia.
    - pose proof (drop_while_length is_digit (b :: l'')). cbn [length] in *. lia. }
  destruct (exp_part l3) as [ep l4]. cbn [snd] in H4.
  assert (r = l4) as -> by (destruct fp, ep; [destruct (int_of_str _)|destruct (float_of_str _)..]; naive_solver). lia.
Qed.
Lemma or_else_Some {A} (a b : option A) x : or_else a b = Some x → a = Some x ∨ b = Some x.
Proof. destruct a; naive_solver. Qed.
Lemma j_scalar_length l v r : j_scalar l = Some (v, r) → (length r < length l)%nat.
Proof.
  unfold j_scalar. intros H. repeat (apply or_else_Some in H as [H|H]);
    first [by apply j_number_length in H | by eapply literal_length].
Qed.
(** Every value, member list and element list consumes a character. *)
Definition consumes (n : nat) {A} (o : option (A * list ascii)) : Prop :=
  ∀ v r, o = Some (v, r) → (length r < n)%nat.
Lemma j_consumes fuel :
  (∀ l, consumes (length l) (j_value fuel l)) ∧ (∀ d l, consumes (length l) (j_members fuel d l)) ∧
  (∀ vs l, consumes (length l) (j_elements fuel vs l)).
Proof.
  induction fuel as [|fuel (IHv & IHm & IHe)]; [done|]. split_and!.
  - intros l v r. cbn [j_value]. destruct l as [|a l]; [done|]. pose proof (j_ws_length l) as Hw.
    destruct (is_c 34 a).
    { destruct (j_str l) as [[s r']|] eqn:E; [|done]. apply j_str_length in E. intros [= _ <-]. cbn. lia. }
    destruct (is_c 123 a).
    { destruct (j_ws l) as [|b l']; [done|]. cbn in Hw. destruct (is_c 125 b); [intros [= _ <-]; cbn; lia|].
      destruct (is_c 34 b); [|done]. destruct (j_members fuel [] l') as [[d r']|] eqn:E; [|done].
      apply IHm in E. intros [= _ <-]. cbn. lia. }
    destruct (is_c 91 a); [|apply j_scalar_length].
    destruct (j_ws l) as [|b l']; [done|]. cbn in Hw. destruct (is_c 93 b); [intros [= _ <-]; cbn; lia|].
    destruct (j_elements fuel [] (b :: l')) as [[d r']|] eqn:E; [|done]. apply IHe in E. intros [= _ <-]. cbn in *. lia.
  - intros d l v r. cbn [j_members]. destruct (j_str l) as [[k r1]|] eqn:E1; [|done]. apply j_str_length in E1.
    cbn [mbind option_bind]. pose proof (j_ws_length r1) as H1. destruct (j_ws r1) as [|c r2]; [done|]. cbn in H1.
    destruct (negb _); [done|]. destruct (j_value fuel (j_ws r2)) as [[x r3]|] eqn:E2; [|done]. apply IHv in E2.
    cbn [mbind option_bind]. pose proof (j_ws_length r2). pose proof (j_ws_length r3) as H3.
    destruct (j_ws r3) as [|e r4]; [done|]. cbn in H3. destruct (is_c 125 e); [intros [= _ <-]; lia|].
    destruct (negb _); [done|]. pose proof (j_ws_length r4) as H4. destruct (j_ws r4) as [|q r5]; [done|]. cbn in H4.
    destruct (is_c 34 q); [|done]. intros Hm%IHm. lia.
  - intros vs l v r. cbn [j_elements]. destruct (j_value fuel l) as [[x r1]|] eqn:E1; [|done]. apply IHv in E1.
    cbn [mbind option_bind]. pose proof (j_ws_length r1) as H1. destruct (j_ws r1) as [|e r2]; [done|]. cbn in H1.
    destruct (is_c 93 e); [intros [= _ <-]; lia|]. destruct (is_c 44 e); [|done].
    intros Hm%IHe. pose proof (j_ws_length r2). lia.
Qed.
(** More fuel than the text needs changes nothing. *)
Lemma j_fuel fuel : ∀ fuel', (fuel ≤ fuel')%nat →
  (∀ l, (2 * length l < fuel)%nat → j_value fuel' l = j_value fuel l) ∧
  (∀ d l, (2 * length l + 1 < fuel)%nat → j_members fuel' d l = j_members fuel d l) ∧
  (∀ vs l, (2 * length l + 1 < fuel)%nat → j_elements fuel' vs l = j_elements fuel vs l).
Proof.
  induction fuel as [|fuel IH]; intros fuel' Hle; [split_and!; intros; lia|].
  destruct fuel' as [|fuel']; [lia|]. destruct (IH fuel' ltac:(lia)) as (IHv & IHm & IHe).
  destruct (j_consumes fuel) as (Cv & _). split_and!.
  - intros l Hl. cbn [j_value]. destruct l as [|a l]; [done|]. cbn [length] in Hl. pose proof (j_ws_length l) as Hw.
    destruct (is_c 34 a); [done|]. destruct (is_c 123 a).
    { destruct (j_ws l) as [|b l']; [done|]. cbn in Hw. by rewrite IHm by lia. }
    destruct (is_c 91 a); [|done]. destruct (j_ws l) as [|b l']; [done|]. cbn in Hw. by rewrite IHe by (cbn; lia).
  - intros d l Hl. cbn [j_members]. destruct (j_str l) as [[k r1]|] eqn:E1; [|done]. apply j_str_length in E1.
    cbn [mbind option_bind]. pose proof (j_ws_length r1) as H1. destruct (j_ws r1) as [|c r2]; [done|]. cbn in H1.
    destruct (negb _); [done|]. pose proof (j_ws_length r2). rewrite IHv by lia.
    destruct (j_value fuel (j_ws r2)) as [[x r3]|] eqn:E2; [|done]. apply Cv in E2. cbn [mbind option_bind].
    pose proof (j_ws_length r3) as H3. destruct (j_ws r3) as [|e r4]; [done|]. cbn in H3.
    destruct (is_c 125 e); [done|]. destruct (negb _); [done|]. pose proof (j_ws_length r4) as H4.
    destruct (j_ws r4) as [|q r5]; [done|]. cbn in H4. by rewrite IHm by lia.
  - intros vs l Hl. cbn [j_elements]. rewrite IHv by lia.
    destruct (j_value fuel l) as [[x r1]|] eqn:E1; [|done]. apply Cv in E1. cbn [mbind option_bind].
    pose proof (j_ws_length r1) as H1. destruct (j_ws r1) as [|e r2]; [done|]. cbn in H1.
    pose proof (j_ws_length r2). by rewrite IHe by lia.
Qed.
Lemma json_fuel fuel l : (2 * length l < fuel)%nat → j_value fuel l = j_value (S (2 * length l)) l.
Proof. intros H. apply (j_fuel (S (2 * length l)) fuel); lia. Qed.

(** ** What [json.dumps] prints of a flat object is read back *)
Definition scalar_text (v : jval) : option string :=
  match v with
  | JNull => Some "null" | JBool b => Some (if b then "true" else "false") | JInt z => Some (str_of_Z z)
  | _ => None
  end.
(** A text without characters that are escaped. *)
Definition plain (s : string) : Prop :=
  Forall (λ a, is_c 34 a = false ∧ is_c 92 a = false ∧ (ord a <? 32)%N = false) (to_l s).
Lemma j_string_plain fuel acc k r :
  Forall (λ a, is_c 34 a = false ∧ is_c 92 a = false ∧ (ord a <? 32)%N = false) k → (length k < fuel)%nat →
  j_string fuel acc (k ++ chr 34 :: r) = Some (of_l (acc ++ k), r).
Proof.
  intros H. revert fuel acc. induction H as [|a k (Ha & Hb & Hc) _ IH]; intros [|fuel] acc Hf; cbn in Hf; try lia.
  - cbn. by rewrite app_nil_r.
  - cbn [j_string app]. rewrite Ha, Hb, Hc, IH by lia. by rewrite <-app_assoc.
Qed.
Lemma digits_go_head fuel b n acc : (2 <= b → 0 < n → n < b ^ N.of_nat fuel →
  ∃ d l, digits_go fuel b n acc = digit_chr d :: l ∧ 0 < d < b)%N.
Proof.
  intros Hb. revert n acc. induction fuel as [|f IH]; intros n acc H0 Hn; [cbn in Hn; lia|].
  cbn [digits_go]. destruct (N.ltb_spec n b); [exists n; rewrite N.mod_small by done; eauto|].
  apply IH.
  - apply N.div_str_pos. lia.
  - apply N.Div0.div_lt_upper_bound. by rewrite Nat2N.inj_succ, N.pow_succ_r' in Hn.
Qed.
Lemma digits_head p : ∃ a l, digits 10 (Npos p) = a :: l ∧ is_c 48 a = false ∧ is_digit a = true ∧
  Forall (λ a, is_digit a = true) l.
Proof.
  destruct (digits_go_head (S (N.to_nat (N.log2 (Npos p)))) 10 (Npos p) []) as (d & l & E & Hd); [done..| |].
  { rewrite Nat2N.inj_succ, N2Nat.id. eapply N.lt_le_trans; [|apply N.pow_le_mono_l; instantiate (1 := 2%N); done].
    by apply N.log2_spec. }
  fold (digits 10 (Npos p)) in E. pose proof (digits_10_digit (Npos p)) as H. rewrite E in H |- *.
  apply Forall_cons in H as [H1 H2]. eexists _, _. split_and!; [done| |done..].
  assert (∀ k, (0 < k < 10)%nat → is_c 48 (digit_chr (N.of_nat k)) = false) as Hk.
  { intros k Hk. do 10 (destruct k as [|k]; [lia || reflexivity|]). lia. }
  specialize (Hk (N.to_nat d)). rewrite N2Nat.id in Hk. apply Hk. lia.
Qed.
(** What may follow a number. *)
Definition stops (r : list ascii) : Prop := ∀ a, head r = Some a → is_c 44 a || is_c 125 a || is_c 93 a = true.
Lemma stop_char a : is_c 44 a || is_c 125 a || is_c 93 a = true →
  is_digit a = false ∧ is_c 46 a = false ∧ is_c 101 a || is_c 69 a = false.
Proof. destruct a as [[] [] [] [] [] [] [] []]; vm_compute; intros; (done || discriminate). Qed.
Lemma take_drop_digits ip r : Forall (λ a, is_digit a = true) ip → stops r →
  take_while is_digit (ip ++ r) = ip ∧ drop_while is_digit (ip ++ r) = r.
Proof.
  intros H Hr. induction H as [|a ip Ha _ IH]; cbn.
  - destruct r as [|b r]; [done|]. cbn. destruct (stop_char b (Hr b eq_refl)) as [-> _]. done.
  - rewrite Ha. by destruct IH as [-> ->].
Qed.
Lemma stop_parts r : stops r → frac_part r = ([], r) ∧ exp_part r = ([], r).
Proof.
  destruct r as [|a r]; [done|]. intros Hr. destruct (stop_char a (Hr a eq_refl)) as (_ & H46 & He).
  split; [|cbn [exp_part]; by rewrite He]. destruct r as [|b r]; [done|]. cbn [frac_part]. by rewrite H46.
Qed.
Lemma int_part_digits n r : stops r → int_part (digits 10 n ++ r) = Some (digits 10 n, r).
Proof.
  intros Hr. destruct n as [|p]; [reflexivity|]. destruct (digits_head p) as (a & l & -> & H0 & Hd & Hl).
  cbn [app int_part]. rewrite H0, Hd. change (a :: l ++ r) with ((a :: l) ++ r).
  destruct (take_drop_digits (a :: l) r) as [-> ->]; [by constructor|done|done].
Qed.
Lemma digit_not_sign n r : sign_part (digits 10 n ++ r) = ([], digits 10 n ++ r).
Proof.
  pose proof (digits_10_digit n) as H. pose proof (digits_nonnil 10 n ltac:(done)) as Hn.
  destruct (digits 10 n) as [|a l]; [done|]. apply Forall_cons in H as [Ha _]. cbn [app sign_part].
  destruct a as [[] [] [] [] [] [] [] []]; vm_compute in Ha; done.
Qed.
Lemma str_of_Z_parts z : ∃ sg n, to_l (str_of_Z z) = sg ++ digits 10 n ∧ (∀ r, sign_part (sg ++ digits 10 n ++ r) = (sg, digits 10 n ++ r)) ∧
  (sg = [] ∨ sg = [chr 45]).
Proof.
  destruct z as [|p|p].
  - exists [], 0%N. split_and!; [done|intros r; apply digit_not_sign|by left].
  - exists [], (Npos p). cbn [str_of_Z]. rewrite to_l_str_of_N. split_and!; [done|intros r; apply digit_not_sign|by left].
  - exists [chr 45], (Npos p). cbn [str_of_Z]. rewrite to_l_app, to_l_str_of_N. split_and!; [done|done|by right].
Qed.
Lemma j_number_int z r : stops r → j_number (to_l (str_of_Z z) ++ r) = Some (JInt z, r).
Proof.
  intros Hr. destruct (str_of_Z_parts z) as (sg & n & E & Hs & _). rewrite E, <-app_assoc. unfold j_number.
  rewrite Hs, int_part_digits by done. cbn [mbind option_bind]. destruct (stop_parts r Hr) as [-> ->].
  rewrite <-E, of_l_to_l, int_of_str_of_Z. done.
Qed.
Lemma scalar_read v t r : scalar_text v = Some t → stops r →
  j_scalar (to_l t ++ r) = Some (v, r) ∧ (∃ a l, to_l t ++ r = a :: l ∧ j_space a = false ∧ is_c 34 a = false ∧
    is_c 123 a = false ∧ is_c 91 a = false).
Proof.
  destruct v as [| |z| | | |]; try done; cbn [scalar_text].
  - intros [= <-] _. split; [done|]. eexists _, _. by split_and!.
  - intros [= <-] _. destruct b; (split; [done|]; eexists _, _; by split_and!).
  - intros [= <-] Hr. unfold j_scalar. rewrite j_number_int by done.
    destruct (str_of_Z_parts z) as (sg & n & E & _ & Hsg). rewrite E.
    pose proof (digits_10_digit n) as H. pose proof (digits_nonnil 10 n ltac:(done)) as Hn.
    destruct (digits 10 n) as [|a l]; [done|]. apply Forall_cons in H as [Ha _].
    destruct Hsg as [->| ->]; cbn [app]; (split; [|eexists _, _; split; [reflexivity|]]); try by vm_compute.
    all: destruct a as [[] [] [] [] [] [] [] []]; vm_compute in Ha; try discriminate Ha; by vm_compute.
Qed.
Definition field_text (kt : string * string) : string := dq +:+ kt.1 +:+ dq +:+ ": " +:+ kt.2.
Definition flat_text (kts : list (string * string)) : string := "{" +:+ join ", " (field_text <$> kts) +:+ "}".
(** The members after the quote that opens the first. *)
Fixpoint body (kt : string * string) (kts : list (string * string)) : list ascii :=
  to_l kt.1 ++ to_l dq ++ to_l ": " ++ to_l kt.2 ++
  match kts with [] => [] | kt' :: kts => to_l ", " ++ to_l dq ++ body kt' kts end.
Lemma join_body kt kts : to_l (join ", " (field_text <$> kt :: kts)) = to_l dq ++ body kt kts.
Proof.
  revert kt. induction kts as [|kt' kts IH]; intros kt; cbn [body fmap list_fmap join].
  - unfold field_text. by rewrite !to_l_app, app_nil_r.
  - cbn [fmap list_fmap join] in IH. rewrite !to_l_app, IH. unfold field_text. by rewrite !to_l_app, <-!app_assoc.
Qed.
Definition reads (kv : string * jval) (kt : string * string) : Prop :=
  kv.1 = kt.1 ∧ plain kt.1 ∧ scalar_text kv.2 = Some kt.2.
Lemma j_member fuel d k v t rest : plain k → scalar_text v = Some t → stops rest →
  j_members (S (S fuel)) d (to_l k ++ to_l dq ++ to_l ": " ++ to_l t ++ rest) =
  match j_ws rest with
  | e :: r => if is_c 125 e then Some (od_set k v d, r)
              else if negb (is_c 44 e) then None
              else match j_ws r with
                   | q :: r => if is_c 34 q then j_members (S fuel) (od_set k v d) r else None
                   | [] => None
                   end
  | [] => None
  end.
Proof.
  intros Hp Ht Hr. remember (S fuel) as f eqn:Ef. cbn [j_members]. unfold j_str. change (to_l dq) with [chr 34]. cbn [app].
  rewrite j_string_plain; [|exact Hp|rewrite length_app; cbn; lia]. cbn [mbind option_bind app]. rewrite of_l_to_l.
  change (j_ws (to_l ": " ++ to_l t ++ rest)) with (chr 58 :: chr 32 :: to_l t ++ rest).
  change (negb (is_c 58 (chr 58))) with false. cbv iota.
  change (j_ws (chr 32 :: to_l t ++ rest)) with (j_ws (to_l t ++ rest)).
  destruct (scalar_read v t rest Ht Hr) as (Hs & a & l & E & Ha & H1 & H2 & H3).
  assert (j_ws (to_l t ++ rest) = to_l t ++ rest) as ->.
  { rewrite E. unfold j_ws. cbn [drop_while]. by rewrite Ha. }
  assert (j_value f (to_l t ++ rest) = Some (v, rest)) as ->; [|done].
  subst f. cbn [j_value]. rewrite <-Hs, E, H1, H2, H3. done.
Qed.
Lemma j_members_body kv kvs kt kts fuel d r : reads kv kt → Forall2 reads kvs kts → (S (length kvs) < fuel)%nat →
  j_members fuel d (body kt kts ++ chr 125 :: r) = Some (od_update d (kv :: kvs), r).
Proof.
  intros Hkt Hall. revert kv kt fuel d Hkt.
  induction Hall as [|kv' kt' kvs kts Hkt' Hall IH]; intros [k v] [k' t] fuel d (Hk & Hp & Ht) Hf;
    cbn [fst snd] in *; subst k'; (destruct fuel as [|[|fuel]]; cbn [length] in Hf; [lia|lia|]);
    cbn [body fst snd]; rewrite <-!app_assoc.
  - rewrite (j_member _ _ _ v) by (done || by intros ? [= <-]). reflexivity.
  - rewrite (j_member _ _ _ v) by (done || by intros ? [= <-]).
    change (od_update d ((k, v) :: kv' :: kvs)) with (od_update (od_set k v d) (kv' :: kvs)).
    rewrite <-(IH kv' kt' (S fuel) (od_set k v d)) by (done || lia). reflexivity.
Qed.
(** [json_loads] inverts the printing of a flat object with plain names, trailing
    space included; a repeated name takes its last value. *)
Lemma json_loads_flat kvs kts ws : Forall2 reads kvs kts → j_ws (to_l ws) = [] →
  json_loads (flat_text kts +:+ ws) = Ok (JObj (od_of_list kvs)).
Proof.
  intros Hall Hws. unfold json_loads, flat_text. rewrite !to_l_app. destruct Hall as [|kv kt kvs kts Hkt Hall].
  { cbn [fmap list_fmap join]. change (j_ws ((to_l "{" ++ to_l "" ++ to_l "}") ++ to_l ws)) with (chr 123 :: chr 125 :: to_l ws).
    cbn [j_value]. change (j_ws (chr 125 :: to_l ws)) with (chr 125 :: to_l ws).
    change (is_c 34 (chr 123)) with false. change (is_c 123 (chr 123)) with true. cbv iota.
    change (is_c 125 (chr 125)) with true. cbv iota. by rewrite Hws. }
  rewrite join_body, <-!app_assoc.
  change (j_ws (to_l "{" ++ ?x)) with (chr 123 :: x). cbn [app].
  set (l := to_l dq ++ body kt kts ++ to_l "}" ++ to_l ws).
  assert (length kvs < length l)%nat as Hl.
  { unfold l. rewrite !length_app. clear -Hall. revert kt. induction Hall as [|? kt' ? ? _ _ IH]; intros kt; [cbn; lia|].
    cbn [body length]. rewrite !length_app. specialize (IH kt'). cbn in *. lia. }
  cbn [j_value]. change (is_c 34 (chr 123)) with false. change (is_c 123 (chr 123)) with true. cbv iota.
  change (j_ws l) with (chr 34 :: body kt kts ++ chr 125 :: to_l ws).
  cbv iota. rewrite (j_members_body kv kvs) by (done || (cbn [length]; lia)). cbn [mbind option_bind].
  change (is_c 125 (chr 34)) with false. change (is_c 34 (chr 34)) with true. cbv beta iota zeta. by rewrite Hws.
Qed.
