(* ===== verification/PyCsv.v ===== *)
(** * The [csv] module as the scripts use it

    [csv.DictWriter] and [csv.DictReader] with the default (excel) dialect:
    comma, double quotes doubled inside a quoted field, rows ended by CR LF,
    minimal quoting.  The reader is the state machine of the C module, fed the
    characters of a line and an end-of-line event after each.  The 128 KiB
    field limit is not modelled, and the cells of a row beyond the header
    (which no script reads) are dropped. *)
From S2P Require Import Prelude PyStr PyFloat PyData.
From Stdlib Require Import Ascii.

Definition is_quote (a : ascii) : bool := (ord a =? 34)%N.
Definition is_comma (a : ascii) : bool := (ord a =? 44)%N.
Definition is_nl (a : ascii) : bool := (ord a =? 10)%N.
Definition is_cr (a : ascii) : bool := (ord a =? 13)%N.

(** ** Writer *)
Definition csv_text (v : pyval) : string := match v with PNone => "" | v => py_str v end.
Definition needs_quote (l : list ascii) : bool :=
  existsb (λ a, is_comma a || is_quote a || is_nl a || is_cr a) l.
Definition quote_body (l : list ascii) : list ascii := mjoin ((λ a, if is_quote a then [a; a] else [a]) <$> l).
(** [force]: an empty field alone in its row is quoted. *)
Definition csv_field (force : bool) (s : string) : list ascii :=
  let l := to_l s in
  if needs_quote l || force then [chr 34] ++ quote_body l ++ [chr 34] else l.
Fixpoint csv_fields (ss : list (list ascii)) : list ascii :=
  match ss with
  | [] => []
  | [s] => s
  | s :: ss => s ++ [chr 44] ++ csv_fields ss
  end.
Definition csv_line (cells : list string) : list ascii :=
  let alone := match cells with [c] => String.eqb c "" | _ => false end in
  csv_fields (csv_field alone <$> cells) ++ [chr 13; chr 10].
(** [w.writeheader()], then [w.writerow({k: row.get(k, '') for k in fields})] *)
Definition csv_row_line (fields : list string) (r : row) : string :=
  of_l (csv_line ((λ k, csv_text (get_or k (PStr "") r)) <$> fields)).
Definition csv_header (fields : list string) : string := of_l (csv_line fields).
Definition csv_write (fields : list string) (rows : list row) : string :=
  csv_header fields +:+ String.concat "" (csv_row_line fields <$> rows).

(** ** Reader *)
Inductive cstate := StartRecord | StartField | InField | InQuoted | QuoteInQuoted | EatCrnl.
Record csv := { c_st : cstate; c_fld : list ascii; c_row : list string }.
Definition csv_init : csv := {| c_st := StartRecord; c_fld := []; c_row := [] |}.
(** The field and the row under construction are reversed. *)
Definition csv_save (st : cstate) (r : csv) : csv :=
  {| c_st := st; c_fld := []; c_row := of_l (reverse (c_fld r)) :: c_row r |}.
Definition csv_add (st : cstate) (a : ascii) (r : csv) : csv :=
  {| c_st := st; c_fld := a :: c_fld r; c_row := c_row r |}.
Definition csv_go (st : cstate) (r : csv) : csv := {| c_st := st; c_fld := c_fld r; c_row := c_row r |}.
Inductive cevent := Chr (a : ascii) | Eol.
Definition csv_start_field (r : csv) (a : ascii) : csv :=
  if is_nl a || is_cr a then csv_save EatCrnl r
  else if is_quote a then csv_go InQuoted r
  else if is_comma a then csv_save StartField r
  else csv_add InField a r.
Definition csv_step (r : csv) (e : cevent) : res csv :=
  match c_st r, e with
  | StartRecord, Eol => Ok r
  | StartRecord, Chr a => if is_nl a || is_cr a then Ok (csv_go EatCrnl r) else Ok (csv_start_field r a)
  | StartField, Eol => Ok (csv_save StartRecord r)
  | StartField, Chr a => Ok (csv_start_field r a)
  | InField, Eol => Ok (csv_save StartRecord r)
  | InField, Chr a => Ok (if is_nl a || is_cr a then csv_save EatCrnl r
                          else if is_comma a then csv_save StartField r else csv_add InField a r)
  | InQuoted, Eol => Ok r
  | InQuoted, Chr a => Ok (if is_quote a then csv_go QuoteInQuoted r else csv_add InQuoted a r)
  | QuoteInQuoted, Eol => Ok (csv_save StartRecord r)
  | QuoteInQuoted, Chr a => Ok (if is_quote a then csv_add InQuoted a r
                                else if is_comma a then csv_save StartField r
                                else if is_nl a || is_cr a then csv_save EatCrnl r
                                else csv_add InField a r)
  | EatCrnl, Eol => Ok (csv_go StartRecord r)
  | EatCrnl, Chr a => if is_nl a || is_cr a then Ok r else Err CsvError
  end.
(** A record is complete when an end of line leaves the machine at the start. *)
Definition csv_feed (s : list (list string) * csv) (e : cevent) : res (list (list string) * csv) :=
  r ← csv_step s.2 e;
  match e, c_st r with
  | Eol, StartRecord => Ok (s.1 ++ [reverse (c_row r)], csv_init)
  | _, _ => Ok (s.1, r)
  end.
(** The lines of the text, an [Eol] after each.  [lone]: a CR on its own also
    ends a line (a file opened with [newline='']), unlike in a [StringIO]. *)
Fixpoint csv_events (lone mid : bool) (l : list ascii) : list cevent :=
  match l with
  | [] => if mid then [Eol] else []
  | a :: l' =>
    let crlf := match l' with b :: _ => is_nl b | [] => false end in
    Chr a :: (if is_nl a || (lone && is_cr a && negb crlf) then Eol :: csv_events lone false l'
              else csv_events lone true l')
  end.
Definition csv_finish (s : list (list string) * csv) : list (list string) :=
  match c_fld s.2, c_st s.2 with
  | [], InQuoted => s.1 ++ [reverse (c_row (csv_save StartRecord s.2))]
  | [], _ => s.1
  | _, _ => s.1 ++ [reverse (c_row (csv_save StartRecord s.2))]
  end.
Definition csv_rows (lone : bool) (text : string) : res (list (list string)) :=
  s ← foldM csv_feed ([], csv_init) (csv_events lone false (to_l text));
  Ok (csv_finish s).
Definition dict_row (fields cells : list string) : row :=
  od_of_list (zip fields (take (length fields)
    ((PStr <$> cells) ++ replicate (length fields - length cells) PNone))).
(** [csv.DictReader]: the first record names the fields, empty records are
    skipped, missing cells are [None]. *)
Definition csv_dicts (lone : bool) (text : string) : res (list row) :=
  recs ← csv_rows lone text;
  match recs with
  | [] => Ok []
  | fields :: recs => Ok (dict_row fields <$> filter (λ r, r ≠ []) recs)
  end.

(** ** Round trip *)
Abbreviation feeds := (foldM csv_feed).
Lemma needs_quote_cons a l : needs_quote (a :: l) = (is_comma a || is_quote a || is_nl a || is_cr a) || needs_quote l.
Proof. done. Qed.

Lemma feeds_cons s e es s' : csv_feed s e = Ok s' → feeds s (e :: es) = feeds s' es.
Proof. intros H. cbn [foldM]. by rewrite H. Qed.
Lemma feeds_chr rows r a es r' : csv_step r (Chr a) = Ok r' →
  feeds (rows, r) (Chr a :: es) = feeds (rows, r') es.
Proof. intros H. apply feeds_cons. unfold csv_feed. cbn [fst snd]. by rewrite H. Qed.
Lemma feeds_eol rows r es r' : csv_step r Eol = Ok r' → c_st r' ≠ StartRecord →
  feeds (rows, r) (Eol :: es) = feeds (rows, r') es.
Proof.
  intros H Hs. apply feeds_cons. unfold csv_feed. cbn [fst snd]. rewrite H. cbn [mbind res_bind].
  by destruct (c_st r').
Qed.
Lemma feeds_emit rows r es r' : csv_step r Eol = Ok r' → c_st r' = StartRecord →
  feeds (rows, r) (Eol :: es) = feeds (rows ++ [reverse (c_row r')], csv_init) es.
Proof.
  intros H Hs. apply feeds_cons. unfold csv_feed. cbn [fst snd]. rewrite H. cbn [mbind res_bind].
  by rewrite Hs.
Qed.
Lemma is_quote_excl a : is_quote a = true → is_nl a = false ∧ is_cr a = false ∧ is_comma a = false.
Proof. unfold is_quote, is_nl, is_cr, is_comma. intros ->%N.eqb_eq. done. Qed.

(** An unquoted field is read up to what follows it. *)
Lemma feed_plain lone rows fld row l u : needs_quote u = false →
  feeds (rows, {| c_st := InField; c_fld := fld; c_row := row |}) (csv_events lone true (u ++ l)) =
  feeds (rows, {| c_st := InField; c_fld := reverse u ++ fld; c_row := row |}) (csv_events lone true l).
Proof.
  intros Hu. revert fld. induction u as [|a u IH]; intros fld; [done|].
  rewrite needs_quote_cons in Hu. apply orb_false_iff in Hu as [Ha Hu].
  apply orb_false_iff in Ha as [Ha Hcr]. apply orb_false_iff in Ha as [Ha Hnl].
  apply orb_false_iff in Ha as [Hc Hq].
  cbn [app csv_events]. rewrite Hnl, Hcr, andb_false_r. cbn [orb andb].
  erewrite feeds_chr; [|unfold csv_step; cbn [c_st]; rewrite Hnl, Hcr, Hc; reflexivity].
  unfold csv_add. cbn [orb c_fld c_row]. rewrite IH by done. by rewrite reverse_cons, <-app_assoc.
Qed.
Lemma feed_quoted lone mid rows fld row l u :
  ∃ mid', feeds (rows, {| c_st := InQuoted; c_fld := fld; c_row := row |}) (csv_events lone mid (quote_body u ++ l)) =
  feeds (rows, {| c_st := InQuoted; c_fld := reverse u ++ fld; c_row := row |}) (csv_events lone mid' l).
Proof.
  revert fld mid. induction u as [|a u IH]; intros fld mid; [by exists mid|].
  change (quote_body (a :: u)) with ((if is_quote a then [a; a] else [a]) ++ quote_body u).
  assert (reverse (a :: u) ++ fld = reverse u ++ a :: fld) as -> by (by rewrite reverse_cons, <-app_assoc).
  destruct (is_quote a) eqn:Hq.
  - destruct (is_quote_excl a Hq) as (Hnl & Hcr & _).
    cbn [app csv_events]. rewrite Hnl, Hcr, !andb_false_r. cbn [orb andb].
    erewrite feeds_chr; [|unfold csv_step; cbn [c_st]; rewrite Hq; reflexivity].
    erewrite feeds_chr; [|unfold csv_step; cbn [c_st csv_go]; rewrite Hq; reflexivity].
    apply (IH (a :: fld) true).
  - cbn [app csv_events].
    erewrite feeds_chr; [|unfold csv_step; cbn [c_st]; rewrite Hq; reflexivity].
    destruct (is_nl a || _); [|apply (IH (a :: fld) true)].
    erewrite feeds_eol; [apply (IH (a :: fld) false)|reflexivity|done].
Qed.

(** One field, up to the comma or the CR after it. *)
Definition stop (l : list ascii) : Prop := match l with a :: _ => is_comma a = true ∨ is_cr a = true | [] => False end.
Definition field_end (r : csv) : Prop :=
  c_st r = StartField ∨ c_st r = StartRecord ∨ c_st r = InField ∨ c_st r = QuoteInQuoted.
Lemma feed_field lone mid rows row st force s l :
  (st = StartField ∨ st = StartRecord ∧ (s ≠ "" ∨ force = true ∨ match l with a :: _ => is_comma a = true | [] => False end)) →
  stop l →
  ∃ mid' st', feeds (rows, {| c_st := st; c_fld := []; c_row := row |}) (csv_events lone mid (csv_field force s ++ l)) =
    feeds (rows, {| c_st := st'; c_fld := reverse (to_l s); c_row := row |}) (csv_events lone mid' l) ∧
    (st' = InField ∨ st' = QuoteInQuoted ∨ (st' = st ∧ s = "" ∧ force = false)).
Proof.
  intros Hst Hl. unfold csv_field. destruct (needs_quote (to_l s) || force) eqn:Hq.
  - assert (∀ mid l', feeds (rows, {| c_st := st; c_fld := []; c_row := row |}) (csv_events lone mid (chr 34 :: l')) =
      feeds (rows, {| c_st := InQuoted; c_fld := []; c_row := row |}) (csv_events lone true l')) as Hopen.
    { intros m l'. cbn [csv_events]. change (is_nl (chr 34)) with false. change (is_cr (chr 34)) with false.
      rewrite andb_false_r. cbn [orb andb]. destruct Hst as [->|[-> _]]; by erewrite feeds_chr by reflexivity. }
    rewrite <-app_assoc. cbn [app]. rewrite Hopen, <-app_assoc. cbn [app].
    destruct (feed_quoted lone true rows [] row (chr 34 :: l) (to_l s)) as [mid' ->]. rewrite app_nil_r.
    exists true, QuoteInQuoted. split; [|auto]. cbn [csv_events].
    change (is_nl (chr 34)) with false. change (is_cr (chr 34)) with false.
    rewrite andb_false_r. cbn [orb andb]. by erewrite feeds_chr by reflexivity.
  - apply orb_false_iff in Hq as [Hq ->]. destruct (to_l s) as [|a u] eqn:Es.
    { exists mid, st. split; [done|]. right. right. split_and!; [done| |done]. by apply (inj to_l). }
    rewrite needs_quote_cons in Hq. apply orb_false_iff in Hq as [Ha Hu].
    apply orb_false_iff in Ha as [Ha Hcr]. apply orb_false_iff in Ha as [Ha Hnl].
    apply orb_false_iff in Ha as [Hc Hqa].
    exists true, InField. split; [|auto]. cbn [app csv_events].
    rewrite Hnl, Hcr, andb_false_r. cbn [orb andb].
    assert (csv_step {| c_st := st; c_fld := []; c_row := row |} (Chr a) =
            Ok {| c_st := InField; c_fld := [a]; c_row := row |}) as Hstep.
    { destruct Hst as [->|[-> _]]; unfold csv_step, csv_start_field; cbn [c_st];
        rewrite ?Hnl, ?Hcr, ?Hqa, ?Hc; reflexivity. }
    rewrite (feeds_chr _ _ _ _ _ Hstep), feed_plain by done. by rewrite reverse_cons.
Qed.

(** The separator after a field, and the CR LF that ends a row. *)
Lemma feed_comma lone mid rows row st fld l :
  st = InField ∨ st = QuoteInQuoted ∨ ((st = StartField ∨ st = StartRecord) ∧ fld = []) →
  feeds (rows, {| c_st := st; c_fld := fld; c_row := row |}) (csv_events lone mid (chr 44 :: l)) =
  feeds (rows, {| c_st := StartField; c_fld := []; c_row := of_l (reverse fld) :: row |}) (csv_events lone true l).
Proof.
  intros Hst. cbn [csv_events]. change (is_nl (chr 44)) with false. change (is_cr (chr 44)) with false.
  rewrite andb_false_r. cbn [orb andb].
  destruct Hst as [->|[->|[[->| ->] ->]]]; by erewrite feeds_chr by reflexivity.
Qed.
Lemma feed_crlf lone mid rows row st fld l :
  st = InField ∨ st = QuoteInQuoted ∨ (st = StartField ∧ fld = []) →
  feeds (rows, {| c_st := st; c_fld := fld; c_row := row |}) (csv_events lone mid (chr 13 :: chr 10 :: l)) =
  feeds (rows ++ [reverse (of_l (reverse fld) :: row)], csv_init) (csv_events lone false l).
Proof.
  intros Hst. cbn [csv_events]. change (is_nl (chr 13)) with false. change (is_cr (chr 13)) with true.
  change (is_nl (chr 10)) with true. rewrite !andb_false_r. cbn [orb andb].
  destruct Hst as [->|[->|[-> ->]]];
    (erewrite feeds_chr by reflexivity; erewrite feeds_chr by reflexivity;
     by erewrite feeds_emit by reflexivity).
Qed.
Lemma feed_fields lone mid rows row st force cells l :
  cells ≠ [] →
  (st = StartField ∨ st = StartRecord ∧ (1 < length cells)%nat ∨
   st = StartRecord ∧ (force = true ∨ cells ≠ [""])) →
  feeds (rows, {| c_st := st; c_fld := []; c_row := row |})
    (csv_events lone mid (csv_fields (csv_field force <$> cells) ++ chr 13 :: chr 10 :: l)) =
  feeds (rows ++ [reverse row ++ cells], csv_init) (csv_events lone false l).
Proof.
  revert mid row st. induction cells as [|s cells IH]; intros mid row st Hne Hst; [done|].
  destruct cells as [|s' cells].
  - cbn [fmap list_fmap csv_fields].
    destruct (feed_field lone mid rows row st force s (chr 13 :: chr 10 :: l)) as (mid' & st' & -> & Hst').
    + cbn in Hst. destruct Hst as [->|[[_ ?]|[-> H]]]; [by left|lia|]. right. split; [done|].
      destruct (decide (s = "")) as [->|]; [|by left]. right. left. naive_solver.
    + cbn. by right.
    + rewrite feed_crlf; [by rewrite reverse_involutive, of_l_to_l, reverse_cons|].
      destruct Hst' as [->|[->|(-> & -> & ->)]]; [by left|by right; left|].
      right. right. split; [|done]. cbn in Hst.
      destruct Hst as [->|[[_ ?]|[-> H]]]; [done|lia|naive_solver].
  - change (csv_fields (csv_field force <$> s :: s' :: cells))
      with (csv_field force s ++ chr 44 :: csv_fields (csv_field force <$> s' :: cells)).
    rewrite <-app_assoc. cbn [app].
    destruct (feed_field lone mid rows row st force s
      (chr 44 :: csv_fields (csv_field force <$> s' :: cells) ++ chr 13 :: chr 10 :: l))
      as (mid' & st' & Heq & Hst').
    + destruct Hst as [->|[[-> _]|[-> _]]]; [by left|right; auto..].
    + by left.
    + rewrite Heq, feed_comma; cycle 1.
      { destruct Hst' as [->|[->|(-> & -> & _)]]; [by left|by right; left|]. right. right.
        split; [|done]. destruct Hst as [->|[[-> _]|[-> _]]]; auto. }
      rewrite IH by auto. rewrite reverse_involutive, of_l_to_l, reverse_cons.
      by rewrite <-app_assoc.
Qed.

Lemma feed_line lone rows cells l : cells ≠ [] →
  feeds (rows, csv_init) (csv_events lone false (csv_line cells ++ l)) =
  feeds (rows ++ [cells], csv_init) (csv_events lone false l).
Proof.
  intros Hne. unfold csv_line. cbv zeta. rewrite <-app_assoc. cbn [app]. unfold csv_init at 1.
  rewrite feed_fields; [done..|]. destruct cells as [|c [|c' cells]]; [done| |].
  - right. right. split; [done|]. destruct (String.eqb_spec c ""); [by left|]. right. congruence.
  - right. left. split; [done|]. cbn. lia.
Qed.
Lemma concat_cons x l : String.concat "" (x :: l) = x +:+ String.concat "" l.
Proof.
  destruct l; [|done]. cbn. apply (inj to_l). by rewrite to_l_app, app_nil_r.
Qed.
Definition row_cells (fields : list string) (r : row) : list string :=
  (λ k, csv_text (get_or k (PStr "") r)) <$> fields.
Lemma csv_rows_write lone fields rows : fields ≠ [] →
  csv_rows lone (csv_write fields rows) = Ok (fields :: (row_cells fields <$> rows)).
Proof.
  intros Hne. unfold csv_rows, csv_write, csv_header. rewrite to_l_app, to_l_of_l, feed_line by done.
  assert (∀ acc, feeds (acc, csv_init) (csv_events lone false (to_l (String.concat "" (csv_row_line fields <$> rows)))) =
    Ok (acc ++ (row_cells fields <$> rows), csv_init)) as ->.
  { induction rows as [|r rows IH]; intros acc; [by rewrite app_nil_r|].
    assert (String.concat "" (csv_row_line fields <$> r :: rows) =
            csv_row_line fields r +:+ String.concat "" (csv_row_line fields <$> rows)) as ->.
    { apply concat_cons. }
    rewrite to_l_app. unfold csv_row_line at 1. rewrite to_l_of_l.
    rewrite feed_line by (by destruct fields). rewrite IH. rewrite <-app_assoc. done. }
  done.
Qed.

(** The row a written one reads back as: its cells as text, field by field. *)
Definition text_row (fields : list string) (r : row) : row :=
  (λ k, (k, PStr (csv_text (get_or k (PStr "") r)))) <$> fields.
Lemma text_row_keys fields r : od_keys (text_row fields r) = fields.
Proof. unfold od_keys, text_row. induction fields as [|f fs IH]; [done|]. cbn. by f_equal. Qed.
Lemma dict_row_cells fields r : NoDup fields → dict_row fields (row_cells fields r) = text_row fields r.
Proof.
  intros Hnd. unfold dict_row, row_cells. rewrite !length_fmap, Nat.sub_diag, app_nil_r.
  rewrite <-list_fmap_compose. rewrite firstn_all2 by (by rewrite length_fmap).
  assert (zip fields ((PStr ∘ (λ k, csv_text (get_or k (PStr "") r))) <$> fields) = text_row fields r) as ->.
  { clear. unfold text_row. induction fields as [|f fs IH]; [done|]. cbn. by f_equal. }
  apply od_of_list_NoDup. rewrite text_row_keys. done.
Qed.

Lemma filter_all_id {A} (P : A → Prop) `{!∀ x, Decision (P x)} (l : list A) :
  Forall P l → filter P l = l.
Proof.
  induction 1 as [|x l Hx _ IH]; [done|]. rewrite filter_cons, decide_True by done. by rewrite IH.
Qed.

(** CSV round trip: what [csv.DictWriter] writes for rows over distinct
    fields, whatever characters the cells hold, [csv.DictReader] reads back as
    those rows with every value turned to text and missing keys to the empty
    string. *)
Lemma csv_dicts_write (lone : bool) (fields : list string) (rows : list row)
    (Hnd : NoDup fields) (Hne : fields ≠ []) :
  csv_dicts lone (csv_write fields rows) = Ok (text_row fields <$> rows).
Proof.
  unfold csv_dicts. rewrite csv_rows_write by done. cbn [mbind res_bind]. f_equal.
  rewrite filter_all_id; cycle 1.
  { apply Forall_fmap, Forall_forall. intros r _. unfold row_cells. by destruct fields. }
  rewrite <-list_fmap_compose. apply list_fmap_ext. intros _ r _. by apply dict_row_cells.
Qed.
Lemma concat_app l1 l2 : String.concat "" (l1 ++ l2) = String.concat "" l1 +:+ String.concat "" l2.
Proof.
  induction l1 as [|x l1 IH]; [done|]. cbn [app]. rewrite !concat_cons, IH.
  apply (inj to_l). rewrite !to_l_app. by rewrite app_assoc.
Qed.
(** Appending a row's line is writing one row more. *)
Lemma csv_write_snoc fields rows r :
  csv_write fields (rows ++ [r]) = csv_write fields rows +:+ csv_row_line fields r.
Proof.
  unfold csv_write. rewrite fmap_app, concat_app. cbn [fmap list_fmap].
  rewrite concat_cons. apply (inj to_l). rewrite !to_l_app, app_nil_r. by rewrite app_assoc.
Qed.
