(* ===== verification/PcapHttp.v ===== *)
(** * The pcap extract and the Linux confound gates (scripts/pcap_http.py)

    W, D_ack and D_fin on one pcap clock, the RST and SYN-grid gates and the
    syn-grid command.  tshark is a subprocess: what it answers to a command
    line is the parameter [run]; the size of a file, the search path and the
    environment are parameters too. *)
From S2P Require Import Prelude PyStr PyFloat FloatFacts.
From Stdlib Require Import Ascii.

(** ** Filters and limits *)
Definition ARP_FILTER : string :=
  "arp.opcode==1 && arp.src.proto_ipv4==10.0.2.2 && arp.dst.proto_ipv4==10.0.2.15".
Definition SYNACK_FILTER : string := "tcp.srcport==80 && tcp.flags==0x012".
Definition HTTP_FILTER : string :=
  "tcp && ip.src == 10.0.2.15 && tcp.srcport == 80 && tcp.len > 0 && tcp.flags.syn == 0 && frame contains "
  +:+ dq +:+ "HTTP/1.0 200 OK" +:+ dq.
Definition RST_FILTER : string := "tcp.flags.reset == 1".
Definition SYN_IN_FILTER : string :=
  "tcp && ip.dst == 10.0.2.15 && tcp.dstport == 80 && tcp.flags.syn == 1 && tcp.flags.ack == 0".
Definition SLIRP_MAC : string := "52:55:0a:00:02:02".
Definition GUEST_TX_FILTER : string := "(arp || ip) && eth.src != " +:+ SLIRP_MAC.
Definition GUEST_ARP_REQ_FILTER : string := "arp.opcode==1 && eth.src != " +:+ SLIRP_MAC.
Definition SYN_GRID_LIMIT_S : float := Eval vm_compute in float_lit "0.001".
Definition HTTP_LEN : Z := 92.
Definition ack_filter (nxt fn_http : Z) : string :=
  "tcp && ip.src == 10.0.2.2 && ip.dst == 10.0.2.15 && tcp.dstport == 80 && tcp.flags.syn == 0 && tcp.flags.fin == 0 && tcp.flags.reset == 0 && tcp.flags.ack == 1 && tcp.len == 0 && tcp.ack == "
  +:+ str_of_Z nxt +:+ " && frame.number > " +:+ str_of_Z fn_http.
Definition fin_filter (fn_http : Z) : string :=
  "tcp && ip.dst == 10.0.2.15 && tcp.dstport == 80 && tcp.flags.fin == 1 && frame.number > "
  +:+ str_of_Z fn_http.

(** ** Rows of a tshark table *)
Abbreviation frow := (odict string string).
Definition fget (k : string) (r : frow) : res string := of_option (KeyError (repr_str k)) (od_get k r).
Definition _time_ns (r : frow) : res Z :=
  s ← fget "frame.time_relative" r;
  x ← of_option ValueError (float_of_str s);
  py_round (fmul x (float_of_Z 1000000000)).
Definition _time_s (r : frow) : res float :=
  s ← fget "frame.time_relative" r; of_option ValueError (float_of_str s).
Definition _frame_no (r : frow) : res Z :=
  s ← fget "frame.number" r; of_option ValueError (int_of_str s).

(** What [extract_pcap] returns; the first-TX interval is [None] for the
    empty string it holds when the guest sent nothing. *)
Record extract := { w_ns : Z; d_ack_ns : Z; d_fin_ns : Z; synack_to_http_ns : Z;
                    http_len : Z; guest_ftx_ns : option Z; guest_arp_req_n : Z }.

Record proc := { returncode : Z; stdout : string; stderr : string }.

(** A line of the table: missing columns are empty, extra ones dropped. *)
Definition table_row (fields : list string) (line : string) : frow :=
  let parts := split_on (chr 9) line in
  od_of_list (zip fields (take (length fields)
    (parts ++ replicate (length fields - length parts) ""))).
Definition table_rows (fields : list string) (out : string) : list frow :=
  table_row fields <$> filter (λ l, String.eqb (strip l) "" = false) (splitlines out).
Definition table_fields (extra : list string) : list string :=
  ["frame.time_relative"; "frame.number"] ++ extra.

Section pcap.
Context (run : list string → proc) (file_size : string → option N).

Definition tshark_table (pcap tshark display_filter : string) (extra : list string) : res (list frow) :=
  let fields := table_fields extra in
  let cmd := [tshark; "-r"; pcap; "-o"; "tcp.relative_sequence_numbers:FALSE"; "-Y"; display_filter;
              "-T"; "fields"] ++ mjoin ((λ f, ["-e"; f]) <$> fields) in
  let p := run cmd in
  if negb (returncode p =? 0) then
    let err := let e := strip (stderr p) in
               if String.eqb e "" then "status=" +:+ str_of_Z (returncode p) else e in
    if str_in "permission" (lower err) then
      Err (PcapExtractError ("TEST FAIL: tshark could not read " +:+ pcap +:+ ": " +:+ err
                             +:+ " (AppArmor override: docs/SETUP.md §7)"))
    else Err (PcapExtractError ("TEST FAIL: tshark could not read " +:+ pcap +:+ ": " +:+ err))
  else Ok (table_rows fields (stdout p)).

Definition require_pcap (pcap : string) : res unit :=
  raise_when (match file_size pcap with Some n => (n =? 0)%N | None => true end)
    (PcapExtractError ("TEST FAIL: pcap missing or empty: " +:+ pcap)).
Definition first_row (rows : list frow) (msg : string) : res frow :=
  of_option (PcapExtractError msg) (head rows).

Definition extract_pcap (pcap tshark : string) : res extract :=
  _ ← require_pcap pcap;
  arp_rows ← tshark_table pcap tshark ARP_FILTER [];
  arp ← first_row arp_rows ("TEST FAIL: no slirp ARP request for 10.0.2.15 in " +:+ pcap);
  syn_rows ← tshark_table pcap tshark SYNACK_FILTER [];
  syn ← first_row syn_rows ("TEST FAIL: no guest SYN/ACK (tcp.flags==0x012) in " +:+ pcap);
  http_rows ← tshark_table pcap tshark HTTP_FILTER ["tcp.nxtseq"; "tcp.len"; "tcp.flags.fin"];
  http ← first_row http_rows ("TEST FAIL: no HTTP 200 data frame in " +:+ pcap);
  t_arp ← _time_ns arp;
  t_syn ← _time_ns syn;
  t_http ← _time_ns http;
  fn_http ← _frame_no http;
  _ ← raise_when (t_syn <? t_arp) (PcapExtractError
        ("TEST FAIL: SYN/ACK before slirp ARP in " +:+ pcap +:+ " (arp_ns=" +:+ str_of_Z t_arp
         +:+ " synack_ns=" +:+ str_of_Z t_syn +:+ ")"));
  _ ← raise_when (t_http <? t_syn) (PcapExtractError
        ("TEST FAIL: HTTP frame before SYN/ACK in " +:+ pcap +:+ " (synack_ns=" +:+ str_of_Z t_syn
         +:+ " http_ns=" +:+ str_of_Z t_http +:+ ")"));
  nxt0 ← fget "tcp.nxtseq" http;
  let nxt := strip nxt0 in
  _ ← raise_when (negb (isdigit nxt)) (PcapExtractError
        ("TEST FAIL: HTTP tcp.nxtseq not an integer in " +:+ pcap +:+ ": " +:+ repr_str nxt));
  seq ← of_option ValueError (int_of_str nxt);
  ack_rows ← tshark_table pcap tshark (ack_filter seq fn_http) ["tcp.ack"];
  ack ← first_row ack_rows
        ("TEST FAIL: no pure ACK of HTTP payload+FIN (tcp.ack=" +:+ nxt +:+ ") after frame "
         +:+ str_of_Z fn_http +:+ " in " +:+ pcap);
  fin_rows ← tshark_table pcap tshark (fin_filter fn_http) [];
  fin ← first_row fin_rows
        ("TEST FAIL: no client FIN toward :80 after HTTP frame " +:+ str_of_Z fn_http +:+ " in " +:+ pcap);
  t_ack ← _time_ns ack;
  t_fin ← _time_ns fin;
  _ ← raise_when (t_ack <? t_http) (PcapExtractError ("TEST FAIL: ACK-of-response before HTTP in " +:+ pcap));
  _ ← raise_when (t_fin <? t_http) (PcapExtractError ("TEST FAIL: client FIN before HTTP in " +:+ pcap));
  ftx_rows ← tshark_table pcap tshark GUEST_TX_FILTER [];
  arp_req_rows ← tshark_table pcap tshark GUEST_ARP_REQ_FILTER [];
  len0 ← fget "tcp.len" http;
  len ← of_option ValueError (int_of_str len0);
  ftx ← match ftx_rows with
        | [] => Ok None
        | r :: _ => t ← _time_ns r; Ok (Some (t - t_arp))
        end;
  Ok {| w_ns := t_syn - t_arp; d_ack_ns := t_ack - t_http; d_fin_ns := t_fin - t_http;
        synack_to_http_ns := t_http - t_syn; http_len := len; guest_ftx_ns := ftx;
        guest_arp_req_n := Z.of_nat (length arp_req_rows) |}.

Definition assert_no_rst (pcap tshark : string) : res unit :=
  _ ← require_pcap pcap;
  rows ← tshark_table pcap tshark RST_FILTER [];
  match rows with
  | [] => Ok tt
  | _ => frames ← mapR (fget "frame.number") rows;
         Err (PcapExtractError ("TEST FAIL: RST present in " +:+ pcap
              +:+ " (wanted none on the happy path); frames " +:+ join "," frames))
  end.

(** [limit_s] is always its default. *)
Definition at_or_after (t_tx : float) (r : frow) : res bool :=
  t ← _time_s r; Ok (num_geb (NFlt (fadd t (float_lit "1e-12"))) (NFlt t_tx)).
Definition in_grid (dt : float) : bool :=
  num_leb (NFlt (float_of_Z 0)) (NFlt dt) && num_ltb (NFlt dt) (NFlt SYN_GRID_LIMIT_S).
Definition assert_syn_grid (pcap tshark : string) : res float :=
  _ ← require_pcap pcap;
  tx_rows ← tshark_table pcap tshark GUEST_TX_FILTER [];
  tx ← first_row tx_rows
       ("TEST FAIL: SYN-grid: no guest first TX (eth.src != " +:+ SLIRP_MAC +:+ ") in " +:+ pcap);
  syn_rows ← tshark_table pcap tshark SYN_IN_FILTER [];
  _ ← raise_when (match syn_rows with [] => true | _ => false end)
        (PcapExtractError ("TEST FAIL: SYN-grid: no TCP SYN to 10.0.2.15:80 in " +:+ pcap));
  t_tx ← _time_s tx;
  flushed ← filterR (at_or_after t_tx) syn_rows;
  syn ← first_row flushed
        ("TEST FAIL: SYN-grid: no SYN into guest after first TX (t_tx=" +:+ fmt_fixed 6 t_tx
         +:+ "s) in " +:+ pcap);
  t_syn ← _time_s syn;
  let dt := fsub t_syn t_tx in
  _ ← raise_when (negb (in_grid dt)) (PcapExtractError
        ("TEST FAIL: SYN-grid: t(SYN)-t(guest first TX)=" +:+ fmt_fixed 6 dt
         +:+ "s (want 0 ≤ dt < 0.001s) in " +:+ pcap
         +:+ " — trial is measuring slirp's RTO, not guest listen"));
  Ok dt.

(** ** Finding tshark, and the command.  [which] searches the path,
    [executable p] is an executable regular file. *)
Context (environ which : string → option string) (executable : string → bool).
Definition tshark_bin : string := default "tshark" (environ "BENCH_TSHARK").
Definition require_tshark : res string :=
  let name := tshark_bin in
  let path := if str_in "/" name then Some name else which name in
  match path with
  | Some p => if negb (String.eqb p "") && executable p then Ok p
              else Err (PcapExtractError ("TEST FAIL: tshark not installed (" +:+ name +:+ "); see docs/SETUP.md"))
  | None => Err (PcapExtractError ("TEST FAIL: tshark not installed (" +:+ name +:+ "); see docs/SETUP.md"))
  end.
Definition cmd_syn_grid (pcap : string) : res outcome :=
  tshark ← require_tshark;
  match assert_syn_grid pcap tshark with
  | Err (UserExn PcapExtractErrorC e) => Ok {| rc := 1; out := []; err := [e] |}
  | Err e => Err e
  | Ok dt => Ok {| rc := 0;
                   out := ["TEST PASS: SYN-grid dt=" +:+ fmt_fixed 1 (fmul dt (float_lit "1e6"))
                           +:+ " µs (< 1 ms) in " +:+ pcap];
                   err := [] |}
  end.
End pcap.

(** ** Lemmas *)
Lemma first_row_Ok rows msg r : first_row rows msg = Ok r ↔ ∃ rs, rows = r :: rs.
Proof. unfold first_row. rewrite of_option_Ok. destruct rows; naive_solver. Qed.

(** A line of tab-separated cells, one per field. *)
Definition print_table_row (cells : list string) : string := join tab cells.
Definition wf_cells (fields cells : list string) : Prop :=
  length cells = length fields ∧ Forall (λ c, no_break c ∧ no_char (chr 9) c) cells ∧
  strip (print_table_row cells) ≠ "".
Lemma join_no_break sep l : no_break sep → Forall no_break l → no_break (join sep l).
Proof.
  intros Hs. induction 1 as [|x l Hx Hl IH]; [by apply no_break_literal|].
  destruct l as [|y l]; [done|]. change (join sep (x :: y :: l)) with (x +:+ sep +:+ join sep (y :: l)).
  rewrite !no_break_app. done.
Qed.
Lemma table_row_print fields cells : NoDup fields → fields ≠ [] → wf_cells fields cells →
  table_row fields (print_table_row cells) = zip fields cells.
Proof.
  intros Hnd Hne (Hlen & Hc & _). unfold table_row, print_table_row. cbv zeta.
  rewrite split_on_join; [|by destruct cells, fields|eapply Forall_impl; [exact Hc|naive_solver]].
  rewrite Hlen, Nat.sub_diag, app_nil_r, <-Hlen, firstn_all. apply od_of_list_NoDup.
  unfold od_keys. by rewrite fst_zip by lia.
Qed.

(** Round trip of the tshark table: lines of tab-separated cells, one
    per requested field, parse back to the rows of those cells. *)
Theorem table_rows_print (fields : list string) (rows : list (list string))
    (Hf : NoDup fields) (Hne : fields ≠ []) (Hrows : Forall (wf_cells fields) rows) :
  table_rows fields (unterminated (print_table_row <$> rows)) = zip fields <$> rows.
Proof.
  unfold table_rows. rewrite splitlines_unterminated; cycle 1.
  { apply Forall_fmap. eapply Forall_impl; [exact Hrows|]. intros cells (_ & Hc & _).
    apply join_no_break; [by apply no_break_literal|]. eapply Forall_impl; [exact Hc|]. naive_solver. }
  induction Hrows as [|cells rows Hc _ IH]; [done|].
  cbn [fmap list_fmap]. rewrite filter_cons, decide_True; cycle 1.
  { destruct Hc as (_ & _ & Hb). by apply String.eqb_neq. }
  cbn [fmap list_fmap]. rewrite table_row_print by done. by f_equal.
Qed.
Lemma table_rows_print_witness :
  table_rows (table_fields []) (unterminated (print_table_row <$> [["0.000000000"; "1"]; ["0.031036000"; "5"]])) =
  [[("frame.time_relative", "0.000000000"); ("frame.number", "1")];
   [("frame.time_relative", "0.031036000"); ("frame.number", "5")]].
Proof.
  exact (table_rows_print (table_fields []) [["0.000000000"; "1"]; ["0.031036000"; "5"]]
    ltac:(repeat constructor; set_solver) ltac:(done)
    ltac:(repeat constructor; vm_compute; (congruence || by repeat constructor))).
Defined.

Section pcap_theorems.
Context (run : list string → proc) (file_size : string → option N).
Abbreviation table := (tshark_table run).

(** A filter's first row. *)
Definition first_of (pcap tshark display_filter : string) (extra : list string) (row : frow) : Prop :=
  ∃ rest, table pcap tshark display_filter extra = Ok (row :: rest).
(** The five frames an extract is taken from, with their times: the ACK and the
    FIN are looked for by the HTTP frame's number and next sequence number. *)
Record five_frames (pcap tshark : string) (arp syn http ack fin : frow) (t_arp t_syn t_http t_ack t_fin : Z) : Prop := {
  ff_arp : first_of pcap tshark ARP_FILTER [] arp ∧ _time_ns arp = Ok t_arp;
  ff_syn : first_of pcap tshark SYNACK_FILTER [] syn ∧ _time_ns syn = Ok t_syn;
  ff_http : first_of pcap tshark HTTP_FILTER ["tcp.nxtseq"; "tcp.len"; "tcp.flags.fin"] http ∧ _time_ns http = Ok t_http;
  ff_tail : ∃ nxt seq fn, fget "tcp.nxtseq" http = Ok nxt ∧ isdigit (strip nxt) = true ∧ int_of_str (strip nxt) = Some seq ∧
    _frame_no http = Ok fn ∧
    first_of pcap tshark (ack_filter seq fn) ["tcp.ack"] ack ∧ first_of pcap tshark (fin_filter fn) [] fin;
  ff_ack : _time_ns ack = Ok t_ack;
  ff_fin : _time_ns fin = Ok t_fin }.
(** The differences of five times. *)
Definition extract_intervals (r : extract) (t_arp t_syn t_http t_ack t_fin : Z) : Prop :=
  w_ns r = t_syn - t_arp ∧ synack_to_http_ns r = t_http - t_syn ∧
  d_ack_ns r = t_ack - t_http ∧ d_fin_ns r = t_fin - t_http.
(** The guest's first transmission and its ARP requests: neither can fail a trial
    by being absent. *)
Definition passively_seen (pcap tshark : string) (t_arp : Z) (ftx_ns : option Z) (arp_req_n : Z) : Prop :=
  ∃ ftx reqs, table pcap tshark GUEST_TX_FILTER [] = Ok ftx ∧ table pcap tshark GUEST_ARP_REQ_FILTER [] = Ok reqs ∧
    arp_req_n = Z.of_nat (length reqs) ∧
    match ftx with
    | [] => ftx_ns = None
    | row :: _ => ∃ t, _time_ns row = Ok t ∧ ftx_ns = Some (t - t_arp)
    end.
Lemma require_pcap_Ok pcap u : require_pcap file_size pcap = Ok u ↔ ∃ n, file_size pcap = Some n ∧ n ≠ 0%N.
Proof.
  unfold require_pcap. rewrite raise_when_Ok. destruct (file_size pcap) as [n|]; [|naive_solver].
  rewrite N.eqb_neq. naive_solver.
Qed.
(** What makes an extract: a nonempty pcap, the five frames in order, the
    response's length and the passive observations. *)
Definition extracted (pcap tshark : string) (r : extract) (arp syn http ack fin : frow) (t_arp t_syn t_http t_ack t_fin : Z) : Prop :=
  (∃ n, file_size pcap = Some n ∧ n ≠ 0%N) ∧
  five_frames pcap tshark arp syn http ack fin t_arp t_syn t_http t_ack t_fin ∧
  extract_intervals r t_arp t_syn t_http t_ack t_fin ∧
  0 <= w_ns r ∧ 0 <= synack_to_http_ns r ∧ 0 <= d_ack_ns r ∧ 0 <= d_fin_ns r ∧
  (∃ len, fget "tcp.len" http = Ok len ∧ int_of_str len = Some (http_len r)) ∧
  passively_seen pcap tshark t_arp (guest_ftx_ns r) (guest_arp_req_n r).
Lemma extracted_complete pcap tshark r arp syn http ack fin t_arp t_syn t_http t_ack t_fin :
  extracted pcap tshark r arp syn http ack fin t_arp t_syn t_http t_ack t_fin → extract_pcap run file_size pcap tshark = Ok r.
Proof.
  intros (Hsize & [[[? Ha] Ta] [[? Hs] Ts] [[? Hh] Th] (nxt & seq & fn & Hn & Hd & Hq & Hf & [? Hk] & [? Hi]) Tk Ti] &
    (Ew & Es & Ek & Ei) & Hw & Hsy & Hda & Hdf & (len & Hl & Hz) & (ftx & reqs & Hftx & Hreqs & Er & Hg)).
  unfold extract_pcap. rewrite (proj2 (require_pcap_Ok pcap tt) Hsize). cbn [mbind res_bind].
  repeat (first [rewrite Ha|rewrite Hs|rewrite Hh|rewrite Ta|rewrite Ts|rewrite Th|rewrite Hf]; cbn [first_row head of_option mbind res_bind]).
  rewrite (proj2 (Z.ltb_ge t_syn t_arp)), (proj2 (Z.ltb_ge t_http t_syn)) by lia. cbn [raise_when mbind res_bind].
  rewrite Hn. cbn [mbind res_bind]. cbv zeta. rewrite Hd, Hq. cbn [negb raise_when of_option mbind res_bind].
  rewrite Hk. cbn [first_row head of_option mbind res_bind]. rewrite Hi. cbn [first_row head of_option mbind res_bind].
  rewrite Tk, Ti. cbn [mbind res_bind].
  rewrite (proj2 (Z.ltb_ge t_ack t_http)), (proj2 (Z.ltb_ge t_fin t_http)) by lia. cbn [raise_when mbind res_bind].
  rewrite Hftx, Hreqs. cbn [mbind res_bind]. rewrite Hl. cbn [mbind res_bind]. rewrite Hz. cbn [of_option mbind res_bind].
  destruct r as [w dk df sy hl gf gn]; cbn in *. subst w sy dk df gn.
  destruct ftx as [|row ftx]; [by rewrite Hg|]. destruct Hg as (t & Ht & ->). by rewrite Ht.
Qed.
Lemma extract_pcap_frames pcap tshark r : extract_pcap run file_size pcap tshark = Ok r →
  ∃ arp syn http ack fin t_arp t_syn t_http t_ack t_fin,
    extracted pcap tshark r arp syn http ack fin t_arp t_syn t_http t_ack t_fin.
Proof.
  intros Hok. unfold extract_pcap in Hok. cbv zeta in Hok. inv_ok. subst.
  repeat match goal with H : first_row _ _ = Ok _ |- _ => apply first_row_Ok in H as [? ->] end.
  repeat match goal with H : (_ <? _) = false |- _ => apply Z.ltb_ge in H end.
  repeat match goal with H : of_option _ _ = Ok _ |- _ => apply of_option_Ok in H end.
  repeat match goal with H : negb _ = false |- _ => apply negb_false_iff in H end.
  do 10 eexists. split; [by eapply require_pcap_Ok|].
  split; [split; [split; [eexists|]; eassumption..|do 3 eexists; do 4 (split; [eassumption|]); split; eexists; eassumption|eassumption|eassumption]|].
  split; [by split_and!|]. cbn [w_ns synack_to_http_ns d_ack_ns d_fin_ns http_len guest_ftx_ns guest_arp_req_n].
  do 4 (split; [lia|]). split; [eauto|]. eexists _, _. split; [eassumption|]. split; [eassumption|]. split; [done|].
  case_match; [congruence|]. inv_ok. subst. eauto.
Qed.

(** C28. The extract is exact: it is made if and only if the pcap is a nonempty
    file with the five frames, each the first of its filter, on one clock and in
    order (SYN/ACK not before the ARP, HTTP not before the SYN/ACK, ACK and FIN not
    before HTTP), and what it returns are the differences of their times, the
    response's length, and the guest's first transmission and ARP requests if any. *)
Theorem extract_pcap_iff (pcap tshark : string) (r : extract) :
  extract_pcap run file_size pcap tshark = Ok r ↔
  ∃ arp syn http ack fin t_arp t_syn t_http t_ack t_fin,
    extracted pcap tshark r arp syn http ack fin t_arp t_syn t_http t_ack t_fin.
Proof.
  split; [apply extract_pcap_frames|]. intros (arp & syn & http & ack & fin & t1 & t2 & t3 & t4 & t5 & H).
  by eapply extracted_complete.
Qed.

(** A row's time is a count of nanoseconds, printed in seconds at nine
    decimals as tshark does; below 2^50, thirteen days. *)
Definition prints_ns (n : Z) (row : frow) : Prop :=
  0 <= n < 2 ^ 50 ∧ od_get "frame.time_relative" row = Some (fixed_digits n 9).
Lemma time_ns_printed n row : prints_ns n row → _time_ns row = Ok n.
Proof.
  intros [Hn Hr]. unfold _time_ns, fget. rewrite Hr. cbn [of_option mbind res_bind].
  rewrite (float_of_fixed_digits n 8) by lia. cbn [of_option mbind res_bind]. by apply ns_of_quotient.
Qed.

(** C9. The nanoseconds are exact: although every time goes through a binary
    float, when tshark prints the counts a, s, h, k and f of the five frames at
    nine decimals, the intervals are exactly s - a, h - s, k - h and f - h. *)
Theorem extract_pcap_exact (pcap tshark : string) (r : extract)
    (Hok : extract_pcap run file_size pcap tshark = Ok r) :
  ∃ arp syn http ack fin t_arp t_syn t_http t_ack t_fin,
    five_frames pcap tshark arp syn http ack fin t_arp t_syn t_http t_ack t_fin ∧
    ∀ a s h k f, prints_ns a arp → prints_ns s syn → prints_ns h http → prints_ns k ack → prints_ns f fin →
      extract_intervals r a s h k f.
Proof.
  destruct (extract_pcap_frames pcap tshark r Hok)
    as (arp & syn & http & ack & fin & t1 & t2 & t3 & t4 & t5 & _ & Hf & Hi & _).
  exists arp, syn, http, ack, fin, t1, t2, t3, t4, t5. split; [done|].
  intros a s h k f Ha Hs Hh Hk Hfi. destruct Hf as [[_ E1] [_ E2] [_ E3] _ E4 E5].
  rewrite (time_ns_printed _ _ Ha) in E1. rewrite (time_ns_printed _ _ Hs) in E2. rewrite (time_ns_printed _ _ Hh) in E3.
  rewrite (time_ns_printed _ _ Hk) in E4. rewrite (time_ns_printed _ _ Hfi) in E5. by simplify_eq.
Qed.

(** The SYN-grid gate is sound: a passing pcap is nonempty, has a guest
    first TX, and its SYN is the first one not before that TX, less than
    1 ms after it; every earlier SYN precedes the TX. *)
Theorem assert_syn_grid_sound (pcap tshark : string) (dt : float)
    (Hok : assert_syn_grid run file_size pcap tshark = Ok dt) :
  (∃ n, file_size pcap = Some n ∧ n ≠ 0%N) ∧
  ∃ tx txs pre syn post t_tx t_syn,
    table pcap tshark GUEST_TX_FILTER [] = Ok (tx :: txs) ∧ _time_s tx = Ok t_tx ∧
    table pcap tshark SYN_IN_FILTER [] = Ok (pre ++ syn :: post) ∧ _time_s syn = Ok t_syn ∧
    Forall (λ r, at_or_after t_tx r = Ok false) pre ∧ at_or_after t_tx syn = Ok true ∧
    dt = fsub t_syn t_tx ∧ in_grid dt = true.
Proof.
  unfold assert_syn_grid in Hok. cbv zeta in Hok. unfold require_pcap in Hok. inv_ok.
  split.
  { destruct (file_size pcap) as [n|]; [|done]. exists n. split; [done|]. by apply N.eqb_neq. }
  repeat match goal with H : first_row _ _ = Ok _ |- _ => apply first_row_Ok in H as [? ->] end.
  match goal with H : filterR _ ?l = Ok (?y :: ?ys) |- _ =>
    assert (∃ pre post, l = pre ++ y :: post ∧ Forall (λ r, at_or_after _ r = Ok false) pre ∧
      at_or_after _ y = Ok true) as (pre & post & -> & Hpre & Hy) by (by eapply filterR_first in H) end.
  match goal with H : negb _ = false |- _ => apply negb_false_iff in H end. subst.
  do 7 eexists. split_and!; first [eassumption|done].
Qed.

(** The RST gate passes exactly on a nonempty pcap in which tshark, run
    without error, lists no reset. *)
Theorem assert_no_rst_iff (pcap tshark : string) :
  assert_no_rst run file_size pcap tshark = Ok tt ↔
  (∃ n, file_size pcap = Some n ∧ n ≠ 0%N) ∧ table pcap tshark RST_FILTER [] = Ok [].
Proof.
  unfold assert_no_rst, require_pcap. rewrite bind_Ok. setoid_rewrite raise_when_Ok. split.
  - intros ([] & Hf & H). split.
    + destruct (file_size pcap) as [n|]; [|done]. exists n. split; [done|]. by apply N.eqb_neq.
    + apply bind_Ok in H as ([|x l] & -> & H); [done|]. apply bind_Ok in H as (? & ? & ?). done.
  - intros [(n & -> & Hn) H]. exists tt. split; [by apply N.eqb_neq|]. by rewrite H.
Qed.
End pcap_theorems.

(** ** A concrete pcap

    tshark's answers on the six frames of the D-0070 selftest, with a SYN into
    the guest right after its first frame. *)
Definition answer (cells : list (list string)) : proc :=
  {| returncode := 0; stdout := unterminated (print_table_row <$> cells); stderr := "" |}.
Definition demo_run (cmd : list string) : proc :=
  let f := default "" (cmd !! 6%nat) in
  if String.eqb f ARP_FILTER then answer [["0.000000000"; "1"]]
  else if String.eqb f SYNACK_FILTER then answer [["0.030000000"; "3"]]
  else if String.eqb f HTTP_FILTER then answer [["0.031000000"; "4"; "2094"; "92"; "True"]]
  else if String.eqb f (ack_filter 2094 4) then answer [["0.031036000"; "5"; "2094"]]
  else if String.eqb f (fin_filter 4) then answer [["0.031212000"; "6"]]
  else if String.eqb f GUEST_TX_FILTER then answer [["0.020000000"; "2"]; ["0.030000000"; "3"]]
  else if String.eqb f GUEST_ARP_REQ_FILTER then answer [["0.020000000"; "2"]]
  else if String.eqb f SYN_IN_FILTER then answer [["0.019000000"; "2"]; ["0.020500000"; "3"]]
  else answer [].
Definition demo_size (p : string) : option N := if String.eqb p "a.pcap" then Some 500%N else None.
Definition demo_extract : extract :=
  {| w_ns := 30000000; d_ack_ns := 36000; d_fin_ns := 212000; synack_to_http_ns := 1000000;
     http_len := 92; guest_ftx_ns := Some 20000000; guest_arp_req_n := 1 |}.
Lemma extract_pcap_iff_witness :
  extract_pcap demo_run demo_size "a.pcap" "tshark" = Ok demo_extract ∧
  0 <= w_ns demo_extract ∧ ∃ n, demo_size "a.pcap" = Some n.
Proof.
  split; [by vm_compute|].
  destruct (proj1 (extract_pcap_iff demo_run demo_size "a.pcap" "tshark" demo_extract) ltac:(by vm_compute))
    as (? & ? & ? & ? & ? & ? & ? & ? & ? & ? & (n & Hn & _) & _ & _ & Hw & _).
  split; [exact Hw|]. by exists n.
Defined.
(** The frames of the demonstration pcap print 0, 30000000, 31000000, 31036000
    and 31212000 ns. *)
Lemma extract_pcap_exact_witness :
  extract_pcap demo_run demo_size "a.pcap" "tshark" = Ok demo_extract ∧
  extract_intervals demo_extract 0 30000000 31000000 31036000 31212000.
Proof.
  split; [by vm_compute|].
  destruct (extract_pcap_exact demo_run demo_size "a.pcap" "tshark" demo_extract ltac:(by vm_compute))
    as (arp & syn & http & ack & fin & t1 & t2 & t3 & t4 & t5 & [[[? H1] _] [[? H2] _] [[? H3] _] Ht _ _] & H).
  destruct Ht as (nxt & seq & fn & Hnxt & _ & Hseq & Hfn & [? H4] & [? H5]).
  vm_compute in H1, H2, H3. injection H1 as <- _. injection H2 as <- _. injection H3 as <- _.
  vm_compute in Hnxt. injection Hnxt as <-. vm_compute in Hseq. injection Hseq as <-.
  vm_compute in Hfn. injection Hfn as <-. vm_compute in H4, H5. injection H4 as <- _. injection H5 as <- _.
  apply H; (split; [lia|by vm_compute]).
Defined.
Definition demo_dt : float := Eval vm_compute in fsub (float_lit "0.0205") (float_lit "0.02").
Lemma assert_syn_grid_sound_witness :
  assert_syn_grid demo_run demo_size "a.pcap" "tshark" = Ok demo_dt ∧
  in_grid demo_dt = true ∧ ∃ n, demo_size "a.pcap" = Some n.
Proof.
  split; [by vm_compute|].
  destruct (assert_syn_grid_sound demo_run demo_size "a.pcap" "tshark" demo_dt ltac:(by vm_compute))
    as [(n & Hn & _) (? & ? & ? & ? & ? & ? & ? & H)].
  split; [tauto|]. by exists n.
Defined.
