(* ===== verification/UdpEcho.v ===== *)
(** * The UDP echo probe (scripts/provoke-udp-echo.py)

    One datagram to the guest's echo port and its reply, which must be the
    payload verbatim; a silent guest is a failure, not a hang.  What the socket
    does is a parameter. *)
From stdpp Require Import gmap.
From S2P Require Import Prelude PyStr.
From Stdlib Require Import Ascii.

Definition PAYLOAD : string := "whimbrel-udp-echo".
Definition OUT (argv : list string) : string := default "udp-echo.got" (argv !! 1%nat).

(** What sending the payload and waiting two seconds for a datagram comes to:
    nothing arrives, the system refuses, or a datagram does. *)
Inductive exchange := Timeout | OsError (msg : string) | Datagram (d : string).
(** [recvfrom(256)]: the rest of a longer datagram is lost. *)
Definition received (d : string) : string := of_l (take 256 (to_l d)).

(** [repr] of bytes *)
Definition repr_byte (q a : ascii) : string :=
  if (127 <? ord a)%N then bslash +:+ "x" +:+ of_l (digits 16 (ord a)) else repr_chr q a.
Definition repr_bytes (s : string) : string :=
  let l := to_l s in
  let has c := existsb (λ a, (ord a =? c)%N) l in
  let q := if has 39%N && negb (has 34%N) then chr 34 else chr 39 in
  "b" +:+ String q "" +:+ String.concat "" (repr_byte q <$> l) +:+ String q "".

(** The whole program: the reply is written before it is compared. *)
Definition provoke (argv : list string) (x : exchange) (fs : gmap string string) : gmap string string * outcome :=
  match x with
  | Timeout => (fs, {| rc := 1; out := []; err := ["TEST FAIL: no UDP echo (recv timeout 2s)"] |})
  | OsError e => (fs, {| rc := 1; out := []; err := ["TEST FAIL: UDP socket: " +:+ e] |})
  | Datagram d =>
    let data := received d in
    let fs := <[OUT argv := data]> fs in
    (fs, if negb (String.eqb data PAYLOAD) then
           {| rc := 1; out := [];
              err := ["TEST FAIL: UDP echo mismatch got=" +:+ repr_bytes data +:+ " want=" +:+ repr_bytes PAYLOAD] |}
         else {| rc := 0; out := ["TEST PASS: UDP echo verbatim"]; err := [] |})
  end.

(** ** Lemmas *)
Lemma received_payload d : received d = PAYLOAD → d = PAYLOAD.
Proof.
  unfold received. intros H. apply (f_equal to_l) in H. rewrite to_l_of_l in H.
  rewrite <-(of_l_to_l d). pose proof (f_equal length H) as Hl. rewrite length_take in Hl.
  rewrite take_ge in H by (change (length (to_l PAYLOAD)) with 17%nat in Hl; lia). by rewrite H, of_l_to_l.
Qed.
(** Exit status 0 means the guest sent back the payload, whole and verbatim,
    and the file holds it; every other exchange is a failure that says so, and
    only a datagram touches the file. *)
Theorem provoke_verbatim argv x fs :
  (rc (provoke argv x fs).2 = 0 ↔ x = Datagram PAYLOAD) ∧
  (rc (provoke argv x fs).2 = 0 → (provoke argv x fs).1 = <[OUT argv := PAYLOAD]> fs) ∧
  (rc (provoke argv x fs).2 ≠ 0 → err (provoke argv x fs).2 ≠ [] ∧ out (provoke argv x fs).2 = []) ∧
  ((∀ d, x ≠ Datagram d) → (provoke argv x fs).1 = fs).
Proof.
  destruct x as [|e|d]; cbn [provoke fst snd rc err out]; [naive_solver..|].
  destruct (String.eqb_spec (received d) PAYLOAD) as [E|E]; cbn [negb rc err out].
  - rewrite E. apply received_payload in E as ->. naive_solver.
  - split_and!; [|done|done|naive_solver]. split; [done|]. intros [= ->]. by destruct E.
Qed.
Lemma provoke_demo :
  (provoke ["provoke-udp-echo.py"] (Datagram ("whimbrel" +:+ nl)) ∅).2 =
    {| rc := 1; out := [];
       err := ["TEST FAIL: UDP echo mismatch got=b'whimbrel\n' want=b'whimbrel-udp-echo'"] |}.
Proof. by vm_compute. Qed.
