(* ===== verification/PinGates.v ===== *)
(** * The gates a pinned campaign passes

    d0070-pcap-pass.py and report-exhibits.py validate the campaigns they read
    with the same checks over runs.csv rows, each with its own exception class.
    The checks are stated here once, over the class [fail], each with the
    condition under which it passes. *)
From S2P Require Import Prelude PyStr PyFloat PyData.

(** [v.startswith(p)] *)
Definition v_startswith (v : pyval) (p : string) : res bool :=
  match v with PStr s => Ok (startswith s p) | _ => Err AttributeError end.
(** [r[k] == s] *)
Definition field_is (k s : string) (r : row) : res bool := v ← get k r; Ok (is_str v s).
Definition has_config (cfg : string) (r : row) : res bool := field_is "config" cfg r.
Definition HOST_FIELDS : list (string * string) :=
  [("virt", "none"); ("governor", "performance"); ("smt_control", "off"); ("cpufreq_boost", "0")].

Section gates.
Context (fail : string → exn).

(** [vals = {r[k] for r in rows}; if vals != want: raise]; the message quotes
    [sorted(vals)]. *)
Definition check_values (k : string) (rows : list row) (want : list string) (msg : string → string) : res unit :=
  vals ← distinct k rows;
  if set_eqb vals (PStr <$> want) then Ok tt else s ← sorted_repr vals; Err (fail (msg s)).
(** The one value of [k]. *)
Definition the_value (k : string) (rows : list row) (msg : string → string) : res pyval :=
  vals ← distinct k rows;
  match vals with
  | [v] => Ok v
  | _ => s ← sorted_repr vals; Err (fail (msg s))
  end.
Definition check_batches (label : string) (rows : list row) (want : list string) : res unit :=
  check_values "batch_id" rows want (λ s, "TEST FAIL: " +:+ label +:+ " batch_id set " +:+ s +:+ " want "
    +:+ repr_strs (sorted_strs want)).
Definition check_sha (label : string) (rec : list row) (prefix : string) : res unit :=
  sha ← the_value "git_sha" rec (λ s, "TEST FAIL: " +:+ label +:+ " mixed git_sha " +:+ s);
  b ← v_startswith sha prefix;
  raise_when (negb b) (fail ("TEST FAIL: " +:+ label +:+ " git_sha " +:+ py_str sha +:+ " does not start with "
    +:+ prefix)).
Definition check_clean (label : string) (rec : list row) : res unit :=
  d ← anyR (λ r, n ← get_int "dirty" r; Ok (negb (n =? 0))) rec;
  raise_when d (fail ("TEST FAIL: dirty-tree row in " +:+ label)).
Definition check_count (label : string) (rec : list row) (n : nat) (cfg : string) : res unit :=
  l ← filterR (has_config cfg) rec;
  raise_when (negb (length l =? n)%nat) (fail ("TEST FAIL: " +:+ label +:+ " " +:+ cfg +:+ " has "
    +:+ str_of_nat (length l) +:+ " recorded trials, want " +:+ str_of_nat n)).
Definition check_total (label : string) (rec : list row) (n : nat) : res unit :=
  raise_when (negb (length rec =? n)%nat) (fail ("TEST FAIL: " +:+ label +:+ " has " +:+ str_of_nat (length rec)
    +:+ " recorded trials, want " +:+ str_of_nat n)).
Definition check_steal (rec : list row) (msg : list Z → string) : res unit :=
  steal ← mapR (get_int "steal_ticks") rec;
  raise_when (existsb (λ s, negb (s =? 0)) steal) (fail (msg steal)).
Definition check_host_value (label : string) (rec : list row) (fw : string * string) : res unit :=
  check_values fw.1 rec [fw.2] (λ s, "TEST FAIL: " +:+ label +:+ " " +:+ fw.1 +:+ " values " +:+ s
    +:+ " want {" +:+ repr_str fw.2 +:+ "}").
(** With the column's presence in the first row checked first. *)
Definition check_host (label : string) (rec : list row) (fw : string * string) : res unit :=
  r0 ← of_option IndexError (head rec);
  _ ← raise_when (negb (od_in fw.1 r0)) (fail ("TEST FAIL: " +:+ label +:+ " runs.csv missing " +:+ fw.1));
  check_host_value label rec fw.

(** A phase row of a recorded trial: [int(p["warmup"]) == 0 and p["phase"] == ph
    and <on its config> and <its key> in rec_keys]. *)
Definition recorded_phase (ph : string) (on_config : row → res bool) (rec_keys : list trial_key) (p : row) : res bool :=
  w ← get_int "warmup" p;
  if negb (w =? 0) then Ok false else
  b ← field_is "phase" ph p;
  if negb b then Ok false else
  c ← on_config p;
  if negb c then Ok false else
  k ← trial_key_of p; Ok (key_in k rec_keys).
Definition recorded_e3g : list trial_key → row → res bool := recorded_phase "E3g" (λ _, Ok true).
Definition check_e3g (label what : string) (rec phases : list row) (n : nat) : res unit :=
  rec_keys ← mapR trial_key_of rec;
  e3g ← filterR (recorded_e3g rec_keys) phases;
  raise_when (negb (length e3g =? n)%nat) (fail ("TEST FAIL: " +:+ label +:+ " has "
    +:+ str_of_nat (length e3g) +:+ " recorded " +:+ what +:+ " rows, want " +:+ str_of_nat n)).

(** ** When they pass *)
Definition has_values (k : string) (rows : list row) (want : list string) : Prop :=
  (∀ r, r ∈ rows → ∃ s, s ∈ want ∧ get k r = Ok (PStr s)) ∧
  (∀ s, s ∈ want → ∃ r, r ∈ rows ∧ get k r = Ok (PStr s)).
Lemma check_values_Ok k rows want msg u : check_values k rows want msg = Ok u ↔ has_values k rows want.
Proof.
  destruct u. unfold check_values, has_values. rewrite bind_Ok. split.
  - intros (vals & Hd & H). destruct (set_eqb vals (PStr <$> want)) eqn:E; [|by apply bind_Ok in H as (? & ? & ?)].
    rewrite set_eqb_spec in E. split.
    + intros r Hr. destruct (distinct_get _ _ _ Hd r Hr) as (v & Hg & Hv).
      apply E, list_elem_of_fmap in Hv as (s & -> & Hs). eauto.
    + intros s Hs. apply (distinct_spec _ _ _ Hd). apply E, list_elem_of_fmap. eauto.
  - intros [H1 H2]. assert (∃ vals, distinct k rows = Ok vals) as (vals & Hd).
    { apply distinct_defined. intros r Hr. destruct (H1 r Hr) as (s & _ & Hg). eauto. }
    exists vals. split; [done|]. replace (set_eqb vals (PStr <$> want)) with true; [done|]. symmetry.
    apply set_eqb_spec. intros v. rewrite (distinct_spec _ _ _ Hd v), list_elem_of_fmap. split.
    + intros (r & Hr & Hg). destruct (H1 r Hr) as (s & Hs & Hg'). exists s. split; [congruence|done].
    + intros (s & -> & Hs). destruct (H2 s Hs) as (r & Hr & Hg). eauto.
Qed.
Definition one_sha (rec : list row) (prefix : string) : Prop :=
  rec ≠ [] ∧ ∃ sha, startswith sha prefix = true ∧ ∀ r, r ∈ rec → get "git_sha" r = Ok (PStr sha).
Lemma distinct_const k rows v : rows ≠ [] → (∀ r, r ∈ rows → get k r = Ok v) → distinct k rows = Ok [v].
Proof.
  intros Hne H. unfold distinct. rewrite (mapR_total _ (λ _, v)) by done. cbn. f_equal.
  apply py_set_const; [by destruct rows|]. by intros y (r' & -> & _)%list_elem_of_fmap.
Qed.
Lemma check_sha_Ok label rec prefix u : check_sha label rec prefix = Ok u ↔ one_sha rec prefix.
Proof.
  destruct u. unfold check_sha, the_value, one_sha. split.
  - intros (sha & (vals & Hd & Hv)%bind_Ok & (b & Hb & H)%bind_Ok)%bind_Ok.
    destruct vals as [|v [|]]; [by apply bind_Ok in Hv as (? & ? & ?)| |by apply bind_Ok in Hv as (? & ? & ?)].
    injection Hv as ->. destruct sha as [|sha|]; try done. injection Hb as <-.
    apply raise_when_Ok, negb_false_iff in H. split.
    + intros ->. discriminate Hd.
    + exists sha. split; [done|]. intros r Hr. apply distinct_one in Hd. rewrite Forall_forall in Hd. auto.
  - intros [Hne (sha & Hs & H)]. rewrite (distinct_const _ _ (PStr sha)) by done. cbn. by rewrite Hs.
Qed.
Definition all_int (k : string) (z : Z) (rec : list row) : Prop := ∀ r, r ∈ rec → get_int k r = Ok z.
Lemma check_clean_Ok label rec u : check_clean label rec = Ok u ↔ all_int "dirty" 0 rec.
Proof.
  destruct u. unfold check_clean, all_int. rewrite bind_Ok. split.
  - intros (d & Hd & ->%raise_when_Ok) r Hr. pose proof (anyR_false _ _ Hd r Hr) as H.
    apply bind_Ok in H as (n & -> & [= H%negb_false_iff%Z.eqb_eq]). by subst.
  - intros H. exists false. split; [|done].
    rewrite (anyR_total _ (λ _, false)); [clear H; by induction rec|]. intros r Hr. by rewrite (H r Hr).
Qed.
Lemma check_steal_Ok rec msg u : check_steal rec msg = Ok u ↔ all_int "steal_ticks" 0 rec.
Proof.
  destruct u. unfold check_steal, all_int. rewrite bind_Ok. split.
  - intros (l & Hl & He%raise_when_Ok) r Hr. apply mapR_Ok in Hl.
    destruct (Forall2_elem_l _ _ _ _ Hl Hr) as (n & Hn & ->). f_equal.
    apply dec_stable. intros Hne. apply not_true_iff_false in He. apply He.
    apply existsb_exists. exists n. split; [by apply list_elem_of_In|]. by apply negb_true_iff, Z.eqb_neq.
  - intros H. exists ((λ _, 0) <$> rec). rewrite (mapR_total _ (λ _, 0)) by done. split; [done|].
    apply raise_when_Ok, not_true_iff_false. intros (z & Hz & Hn)%existsb_exists.
    apply list_elem_of_In, list_elem_of_fmap in Hz as (r & -> & _). done.
Qed.
Definition count_config (rec : list row) (cfg : string) (n : nat) : Prop :=
  ∃ l, filterR (has_config cfg) rec = Ok l ∧ length l = n.
Lemma check_count_Ok label rec n cfg u : check_count label rec n cfg = Ok u ↔ count_config rec cfg n.
Proof.
  destruct u. unfold check_count, count_config. rewrite bind_Ok. setoid_rewrite raise_when_Ok.
  setoid_rewrite negb_false_iff. by setoid_rewrite Nat.eqb_eq.
Qed.
Lemma check_total_Ok label rec n u : check_total label rec n = Ok u ↔ length rec = n.
Proof. unfold check_total. by rewrite raise_when_Ok, negb_false_iff, Nat.eqb_eq. Qed.
Definition e3g_rows (rec phases : list row) (n : nat) : Prop :=
  ∃ keys e3g, mapR trial_key_of rec = Ok keys ∧ filterR (recorded_e3g keys) phases = Ok e3g ∧ length e3g = n.
Lemma check_e3g_Ok label what rec phases n u : check_e3g label what rec phases n = Ok u ↔ e3g_rows rec phases n.
Proof.
  destruct u. unfold check_e3g, e3g_rows. rewrite bind_Ok. setoid_rewrite bind_Ok. setoid_rewrite raise_when_Ok.
  setoid_rewrite negb_false_iff. setoid_rewrite Nat.eqb_eq. naive_solver.
Qed.
Lemma check_host_value_Ok label rec fw u : check_host_value label rec fw = Ok u ↔ has_values fw.1 rec [fw.2].
Proof. apply check_values_Ok. Qed.
Lemma has_values_in k rec want r : has_values k rec want → r ∈ rec → od_in k r = true.
Proof. intros [H _] Hr. destruct (H r Hr) as (s & _ & Hg%get_Ok). unfold od_in. by rewrite Hg. Qed.
Lemma check_host_Ok label rec fw u : check_host label rec fw = Ok u ↔ has_values fw.1 rec [fw.2].
Proof.
  unfold check_host. split.
  - intros (r0 & _ & (? & _ & H)%bind_Ok)%bind_Ok. by apply check_host_value_Ok in H.
  - intros H. destruct rec as [|r0 rec].
    { destruct H as [_ H]. destruct (H fw.2) as (r & Hr & _); [set_solver|]. by apply elem_of_nil in Hr. }
    change (head (r0 :: rec)) with (Some r0). cbn [of_option mbind res_bind].
    rewrite (has_values_in _ _ _ r0 H) by by left. cbn [negb raise_when mbind res_bind].
    by apply check_host_value_Ok.
Qed.
Lemma check_batches_Ok label rows want u : check_batches label rows want = Ok u ↔ has_values "batch_id" rows want.
Proof. apply check_values_Ok. Qed.
Lemma check_counts_Ok label rec n arms u :
  forM_ (check_count label rec n) arms = Ok u ↔ ∀ cfg, cfg ∈ arms → count_config rec cfg n.
Proof. rewrite forM_Ok. by setoid_rewrite check_count_Ok. Qed.
Lemma check_hosts_Ok label rec fws u :
  forM_ (check_host label rec) fws = Ok u ↔ ∀ fw, fw ∈ fws → has_values fw.1 rec [fw.2].
Proof. rewrite forM_Ok. by setoid_rewrite check_host_Ok. Qed.
Lemma check_host_values_Ok label rec fws u :
  forM_ (check_host_value label rec) fws = Ok u ↔ ∀ fw, fw ∈ fws → has_values fw.1 rec [fw.2].
Proof. rewrite forM_Ok. by setoid_rewrite check_host_value_Ok. Qed.
End gates.
(** What every validator promises of the recorded rows [rec] of a campaign:
    the wanted batches and arms, [n] trials per arm, one clean commit with the
    wanted prefix, no steal, the host controls in force. *)
Record admitted (batches : list string) (prefix : string) (arms : list string) (n : nat) (runs rec : list row) : Prop := {
  ad_rec : recorded runs = Ok rec;
  ad_batches : has_values "batch_id" runs batches;
  ad_sha : one_sha rec prefix;
  ad_clean : all_int "dirty" 0 rec;
  ad_arms : has_values "config" rec arms;
  ad_count : ∀ cfg, cfg ∈ arms → count_config rec cfg n;
  ad_steal : all_int "steal_ticks" 0 rec;
  ad_host : ∀ fw, fw ∈ HOST_FIELDS → has_values fw.1 rec [fw.2] }.

(** ** Counting by configuration *)
Lemma filter_ext_in {A} (P Q : A → Prop) `{!∀ x, Decision (P x), !∀ x, Decision (Q x)} (l : list A) :
  (∀ x, x ∈ l → P x ↔ Q x) → filter P l = filter Q l.
Proof.
  induction l as [|x l IH]; intros HPQ; [done|]. rewrite !filter_cons, IH by (intros; apply HPQ; by right).
  pose proof (HPQ x ltac:(by left)) as Hx. repeat case_decide; naive_solver.
Qed.
Lemma filterR_count (f : row → res bool) rows l : filterR f rows = Ok l → l = filter (λ r, f r = Ok true) rows.
Proof.
  revert l. induction rows as [|r rows IH]; intros l; cbn [filterR]; [by intros [= <-]|].
  intros (b & Hb & (ys & Hys & [= <-])%bind_Ok)%bind_Ok. rewrite filter_cons.
  destruct b; [rewrite decide_True by done|rewrite decide_False by congruence]; by rewrite (IH _ Hys).
Qed.
Lemma recorded_in rows rec r : recorded rows = Ok rec → r ∈ rec ↔ r ∈ rows ∧ is_recorded r = Ok true.
Proof. intros ->%filterR_count. rewrite list_elem_of_filter. naive_solver. Qed.
Lemma field_is_Ok k s r b : field_is k s r = Ok b ↔ ∃ v, get k r = Ok v ∧ b = bool_decide (v = PStr s).
Proof. unfold field_is. rewrite bind_Ok. unfold is_str, py_eqb. naive_solver. Qed.
Lemma has_config_str r s cfg : get "config" r = Ok (PStr s) → has_config cfg r = Ok (bool_decide (s = cfg)).
Proof.
  intros H. unfold has_config, field_is. rewrite H. cbn. f_equal. unfold is_str, py_eqb.
  apply bool_decide_ext. split; congruence.
Qed.
Lemma count_config_len rec cfg n arms : has_values "config" rec arms →
  count_config rec cfg n ↔ length (filter (λ r, has_config cfg r = Ok true) rec) = n.
Proof.
  intros [H _]. unfold count_config. split.
  - intros (l & Hl & <-). by rewrite (filterR_count _ _ _ Hl).
  - intros Hn. eexists. split; [|exact Hn].
    rewrite (filterR_total _ (λ r, bool_decide (has_config cfg r = Ok true))).
    + f_equal. apply list_filter_iff. intros r. apply bool_decide_eq_true.
    + intros r Hr. destruct (H r Hr) as (s & _ & Hg). rewrite (has_config_str _ _ _ Hg). f_equal.
      destruct (bool_decide (s = cfg)); symmetry; [by apply bool_decide_eq_true_2|by apply bool_decide_eq_false_2].
Qed.
(** The recorded rows partition by configuration: per-arm counts give the total. *)
Lemma count_config_total rec arms n : has_values "config" rec arms → NoDup arms →
  (∀ cfg, cfg ∈ arms → count_config rec cfg n) → length rec = (n * length arms)%nat.
Proof.
  intros Hv. pose proof Hv as [Hall _]. intros Hnd Hc.
  assert (∀ cfg, cfg ∈ arms → length (filter (λ r, has_config cfg r = Ok true) rec) = n) as Hn.
  { intros cfg Hcfg. by apply (count_config_len _ _ _ arms Hv), Hc. }
  clear Hv Hc. revert rec Hall Hn. induction Hnd as [|a arms Ha Hnd IH]; intros rec Hall Hn.
  - destruct rec as [|r rec]; [cbn; lia|]. destruct (Hall r) as (s & Hs & _); [by left|]. by apply elem_of_nil in Hs.
  - pose proof (Hn a ltac:(by left)) as Hna.
    assert (length rec = length (filter (λ r, has_config a r = Ok true) rec)
                         + length (filter (λ r, ¬ has_config a r = Ok true) rec))%nat as ->.
    { rewrite <-length_app. apply Permutation_length. symmetry. apply filter_app_complement. }
    rewrite Hna. rewrite (IH (filter (λ r, ¬ has_config a r = Ok true) rec)); [cbn; lia| |].
    + intros r [Hr1 Hr2]%list_elem_of_filter. destruct (Hall r Hr2) as (s & Hs & Hg). exists s. split; [|done].
      apply elem_of_cons in Hs as [->|Hs]; [|done]. destruct Hr1. rewrite (has_config_str _ _ _ Hg).
      by rewrite bool_decide_eq_true_2.
    + intros cfg Hcfg. rewrite <-(Hn cfg) by by right. rewrite list_filter_filter. f_equal.
      apply filter_ext_in. intros r Hr. destruct (Hall r Hr) as (s & _ & Hg).
      rewrite !(has_config_str _ _ _ Hg). split; [naive_solver|]. intros H. split; [done|].
      intros H'. injection H as H%bool_decide_eq_true. injection H' as H'%bool_decide_eq_true. apply Ha. by rewrite <-H', H.
Qed.
(** The validators' last count ("unreachable if the per-config counts and
    config-set checks hold") is implied by the others. *)
Lemma admitted_total batches prefix arms n runs rec : NoDup arms → admitted batches prefix arms n runs rec →
  length rec = (n * length arms)%nat.
Proof. intros Hnd H. by eapply count_config_total, H; [apply H|]. Qed.
Create HintDb gates.
#[export] Hint Rewrite check_values_Ok check_batches_Ok check_sha_Ok check_clean_Ok check_count_Ok check_counts_Ok
  check_total_Ok check_steal_Ok check_host_Ok check_hosts_Ok check_host_value_Ok check_host_values_Ok check_e3g_Ok : gates.
(** Turns the equation of a validator's passing run into the conditions of its gates. *)
Ltac gates_in H :=
  repeat lazymatch type of H with
  | (_ ≫= _) = Ok _ => let Hs := fresh H in apply bind_Ok in H as (? & Hs & H)
  end; autorewrite with gates in *.
(** A decidable proposition without variables, by evaluation. *)
Ltac by_eval := match goal with |- ?P => apply (bool_decide_eq_true_1 P); vm_compute; reflexivity end.
