(* ===== verification/D0070Pass.v ===== *)
(** * The D-0070 pcap pass (scripts/d0070-pcap-pass.py)

    Validation of the pinned campaigns, the per-trial analysis, the statistics
    and the rendered table with its verdict, the pass over a thread pool, and
    the synthetic pcap of the selftest.  git, tshark, the file system and the
    order in which the pool completes are parameters. *)
From S2P Require Import Prelude PyStr PyFloat PyData PyCsv PcapHttp PinGates.
From Stdlib Require Import Ascii.

(** ** Pins *)
Definition SAFE : string := "release-default".
Definition FAST : string := "release-fast-boot".
Record campaign := { c_label : string; c_rev : string; c_sha_prefix : string; c_batches : list string }.
Definition CAMPAIGNS : list campaign :=
  [{| c_label := "T4.6"; c_rev := "c40945cdb71b5aef68c5e72e292a718b66ec651e"; c_sha_prefix := "76830e13";
      c_batches := ["20260817T061753Z-1"; "20260817T061753Z-2"] |};
   {| c_label := "D-0068 run 1"; c_rev := "59e070321ab5ec30ff97830ac3f9f78577511db4"; c_sha_prefix := "c40945cd";
      c_batches := ["20260818T013740Z-1"; "20260818T013740Z-2"] |};
   {| c_label := "D-0068 run 2"; c_rev := "4755fa3fe2cf98ded4dd333fa81ca66a2b811cfe"; c_sha_prefix := "59e07032";
      c_batches := ["20260818T014549Z-1"; "20260818T014549Z-2"] |}].
Definition PRED_DFIN_MAX_NS : num := NInt 5000000.
Definition FALSIFY_DFIN_NS : num := NInt 10000000.
Definition PRED_RATIO_MAX : num := NFlt (float_of_Z 2).
Definition PRED_RECON_NS : num := NInt 1000000.
Definition CROSSCHECK_NS : num := NInt 300000.
Definition PRED_W_DIFF_NS : num := NInt 61500000.

(** ** Statistics and cells *)
Definition percentile (sorted_vals : list num) (p : float) : res num :=
  let n := Z.of_nat (length sorted_vals) in
  _ ← raise_when (n =? 0) (PassFail "TEST FAIL: percentile of empty list");
  let k := fmul (float_of_Z (n - 1)) p in
  f ← py_trunc k;
  percentile_at sorted_vals k f (Z.min (f + 1) (n - 1)).
Definition iqr (vals : list num) : res num :=
  a ← percentile (num_sorted vals) (float_lit "0.75");
  b ← percentile (num_sorted vals) (float_lit "0.25");
  Ok (num_sub a b).
Definition fmt_ns (ns : num) : res string :=
  let mag := num_abs ns in
  if num_geb mag (NInt 1000000) then
    v ← num_truediv ns (NFlt (float_lit "1e6")); Ok (num_fixed 2 v +:+ " ms")
  else if num_geb mag (NInt 1000) then
    v ← num_truediv ns (NFlt (float_lit "1e3")); Ok (num_fixed 1 v +:+ " µs")
  else Ok (num_fixed 0 ns +:+ " ns").
Definition fmt_cell (median spread : num) : res string :=
  a ← fmt_ns median; b ← fmt_ns spread; Ok (a +:+ " (" +:+ b +:+ ")").
Definition stat_pair (vals : list num) : res (num * num) :=
  match vals with
  | [] => Err (PassFail "TEST FAIL: empty metric")
  | _ => m ← median vals; q ← iqr vals; Ok (num_float m, q)
  end.

(** ** Validation of a campaign *)
Definition read_csv_text (text label : string) : res (list row) :=
  rows ← csv_dicts false text;
  _ ← raise_when (match rows with [] => true | _ => false end)
        (PassFail ("TEST FAIL: empty CSV (" +:+ label +:+ ")"));
  Ok rows.
Definition validate_campaign (runs phases : list row) (want_batches : list string)
    (want_sha_prefix label : string) : res unit :=
  rec ← recorded runs;
  _ ← check_batches PassFail label runs want_batches;
  _ ← check_sha PassFail label rec want_sha_prefix;
  _ ← check_clean PassFail label rec;
  _ ← check_values PassFail "config" rec [SAFE; FAST] (λ s, "TEST FAIL: " +:+ label +:+ " configs " +:+ s
        +:+ " want " +:+ SAFE +:+ ", " +:+ FAST);
  _ ← forM_ (check_count PassFail label rec 60) [SAFE; FAST];
  _ ← check_steal PassFail rec (λ _, "TEST FAIL: nonzero steal_ticks in recorded " +:+ label);
  _ ← check_total PassFail label rec 120;
  _ ← forM_ (check_host PassFail label rec) HOST_FIELDS;
  check_e3g PassFail label "E3g" rec phases 120.

(** ** Per-trial analysis *)
Abbreviation phase_key := (trial_key * pyval)%type.
Definition phase_index_step (out : odict phase_key Z) (r : row) : res (odict phase_key Z) :=
  w ← get_int "warmup" r;
  if negb (w =? 0) then Ok out else
  k ← trial_key_of r; ph ← get "phase" r; n ← get_int "ns_since_e2" r;
  Ok (od_set (k, ph) n out).
Definition phase_index (phases : list row) : res (odict phase_key Z) := foldM phase_index_step [] phases.
Definition repr_phase_key (k : phase_key) : string :=
  let '(b, t, c, p) := k in repr_tuple (py_repr <$> [b; t; c; p]).

(** A result row; [r_campaign] is filled in by the pass. *)
Record result := { r_campaign : string; r_config : pyval; r_w : Z; r_d_ack : Z; r_d_fin : Z; r_gap : Z;
                   r_recon : Z; r_residual : Z; r_synack_to_http : Z; r_guest : Z; r_cross : Z }.
(** [ROOT / p] *)
Definition path_join (root : string) (v : pyval) : res string :=
  match v with
  | PStr p => Ok (if startswith p "/" then p else root +:+ "/" +:+ p)
  | _ => Err TypeError
  end.

Section pass.
Context (run : list string → proc) (file_size : string → option N).
Context (environ which : string → option string) (executable : string → bool).
Context (root : string).

Definition extract_pcap_pass (pcap tshark : string) : res extract :=
  rewrap PcapExtractErrorC PassFailC (extract_pcap run file_size pcap tshark).
Definition require_tshark_pass : res string :=
  rewrap PcapExtractErrorC PassFailC (require_tshark environ which executable).

Definition analyze_row (label : string) (r : row) (phases : odict phase_key Z) (tshark : string) : res result :=
  pp ← get "pcap_path" r;
  pcap ← path_join root pp;
  ex ← extract_pcap_pass pcap tshark;
  _ ← raise_when (negb (http_len ex =? 92)) (PassFail ("TEST FAIL: HTTP tcp.len=" +:+ str_of_Z (http_len ex)
        +:+ " want 92 in " +:+ pcap));
  e4 ← get_int "e0_to_e4_ns" r;
  e3w ← get_int "e0_to_e3w_ns" r;
  key ← trial_key_of r;
  let missing k := PassFail ("TEST FAIL: missing phase " +:+ repr_phase_key k +:+ " for "
        +:+ py_str key.1.1 +:+ " " +:+ py_str key.2 +:+ " trial " +:+ py_str key.1.2) in
  e3g ← of_option (missing (key, PStr "E3g")) (od_get (key, PStr "E3g") phases);
  established ← of_option (missing (key, PStr "established")) (od_get (key, PStr "established") phases);
  let guest := e3g - established in
  let gap := e4 - e3w in
  let recon := w_ns ex + d_fin_ns ex in
  Ok {| r_campaign := label; r_config := key.2; r_w := w_ns ex; r_d_ack := d_ack_ns ex;
        r_d_fin := d_fin_ns ex; r_gap := gap; r_recon := recon; r_residual := recon - gap;
        r_synack_to_http := synack_to_http_ns ex; r_guest := guest;
        r_cross := synack_to_http_ns ex - guest |}.
End pass.

(** ** The table *)
Record medians := { m_w : num; m_d_fin : num; m_residual : num; m_cross_abs : num }.
Definition column (f : result → Z) (rs : list result) : res (num * num) :=
  stat_pair ((λ r, NInt (f r)) <$> rs).
Definition of_config (camp cfg : string) (rs : list result) : list result :=
  filter (λ r, is_str (r_config r) cfg = true) (filter (λ r, r_campaign r = camp) rs).
(** One line of the table, and the medians the verdict reads. *)
Definition config_line (camp cfg : string) (results : list result) : res (string * medians) :=
  let rows := of_config camp cfg results in
  _ ← raise_when (negb (length rows =? 60)%nat) (PassFail ("TEST FAIL: " +:+ camp +:+ " " +:+ cfg +:+ " has "
        +:+ str_of_nat (length rows) +:+ " analysed trials, want 60"));
  w ← column r_w rows; a ← column r_d_ack rows; f ← column r_d_fin rows;
  g ← column r_gap rows; r ← column r_recon rows; e ← column r_residual rows;
  x ← column (λ r, Z.abs (r_cross r)) rows;
  cw ← fmt_cell w.1 w.2; ca ← fmt_cell a.1 a.2; cf ← fmt_cell f.1 f.2;
  cg ← fmt_cell g.1 g.2; cr ← fmt_cell r.1 r.2; ce ← fmt_cell e.1 e.2;
  Ok ("| " +:+ join " | " [camp; cfg; cw; ca; cf; cg; cr; ce] +:+ " |",
      {| m_w := w.1; m_d_fin := f.1; m_residual := e.1; m_cross_abs := x.1 |}).
(** What one campaign adds to the table. *)
Record camp_part := { p_lines : list string; p_ratio : string; p_falsify : list string;
                      p_predict : bool; p_bit : string }.
Definition lower_bool (b : bool) : string := if b then "true" else "false".
Definition camp_part_of (camp : campaign) (results : list result) : res camp_part :=
  let label := c_label camp in
  '(line_f, fast) ← config_line label FAST results;
  '(line_s, safe) ← config_line label SAFE results;
  let d_fast := m_d_fin fast in
  let d_safe := m_d_fin safe in
  _ ← raise_when (num_leb d_fast (NInt 0)) (PassFail ("TEST FAIL: " +:+ label +:+ " fast D_fin median "
        +:+ num_repr d_fast +:+ " ns"));
  ratio ← num_truediv d_safe d_fast;
  let w_diff := num_sub (m_w safe) (m_w fast) in
  let res_f := m_residual fast in
  let res_s := m_residual safe in
  s_ratio ← Ok (num_fixed 3 ratio);
  s_wdiff ← fmt_ns w_diff; s_rf ← fmt_ns res_f; s_rs ← fmt_ns res_s;
  s_xf ← fmt_ns (m_cross_abs fast); s_xs ← fmt_ns (m_cross_abs safe); s_dfast ← fmt_ns d_fast;
  let fals1 := if num_geb d_fast FALSIFY_DFIN_NS
               then [label +:+ " fast D_fin median " +:+ s_dfast +:+ " ≥ 10 ms"] else [] in
  let fals2 := if num_geb ratio PRED_RATIO_MAX
               then [label +:+ " D_fin safe/fast " +:+ s_ratio +:+ "× ≥ 2"] else [] in
  let dfin_pred := num_leb d_fast PRED_DFIN_MAX_NS && num_ltb ratio PRED_RATIO_MAX in
  let recon_lit := num_leb (num_abs res_f) PRED_RECON_NS && num_leb (num_abs res_s) PRED_RECON_NS in
  let recon_const := num_leb (num_abs (num_sub res_f res_s)) PRED_RECON_NS in
  Ok {| p_lines := [line_f; line_s];
        p_ratio := "| " +:+ join " | " [label; s_ratio +:+ "×"; s_wdiff; s_rf; s_rs; s_xf; s_xs] +:+ " |";
        p_falsify := fals1 ++ fals2;
        p_predict := dfin_pred && (recon_lit || recon_const);
        p_bit := label +:+ ": D_fin fast " +:+ s_dfast +:+ " (≤5 ms pred "
                 +:+ lower_bool (num_leb d_fast PRED_DFIN_MAX_NS) +:+ "); ratio " +:+ s_ratio
                 +:+ "×; residual fast " +:+ s_rf +:+ " safe " +:+ s_rs
                 +:+ " (S := −residual, D-0071); W_safe−W_fast " +:+ s_wdiff +:+ " (pred ≈ 61.5 ms)." |}.
Definition verdict_of (falsify : list string) (predicted : nat) : string :=
  match falsify with
  | _ :: _ => "FALSIFIED — " +:+ join "; " falsify
  | [] =>
    if (predicted =? length CAMPAIGNS)%nat then
      "CONFIRMED — D_fin ≤ 5 ms with safe/fast ratio < 2 in every campaign. The literal pre-registered W + D_fin ≈ E3w→E4 line under-reconstructs by a profile-independent constant: the pre-ARP QEMU-startup slice S between hostfwd listener-up (where first-connect stamps) and main-loop-live (where slirp emits the ARP). W + D_fin + S closes the gap (D-0071)."
    else
      "INTERMEDIATE — not falsified on the ≥10 ms / ≥2× lines, but the residual is neither ≤ 1 ms nor a profile-independent constant. Partition W vs D_fin per the table."
  end.
Definition table_intro : list string :=
  ["<!-- generated by scripts/d0070-pcap-pass.py — do not edit -->"; "";
   "D-0070 pcap pass: W / D_ack / D_fin on one pcap clock per recorded trial. Warmup excluded, n=60 per config per campaign. W = guest SYN/ACK − first slirp ARP for 10.0.2.15; D_ack = ACK-of-response − HTTP frame; D_fin = client FIN − HTTP frame. E3w→E4 is `e0_to_e4_ns − e0_to_e3w_ns` from the same CSV row. Cells are median (IQR). Residual is per-trial `(W + D_fin) − (E3w→E4)`, then median (IQR).";
   "";
   "CSV pins: T4.6 `git show c40945cdb71b`; D-0068 run 1 `git show 59e070321ab5`; D-0068 run 2 `git show 4755fa3fe2cf`. Zero new boots; `scripts/bench.py` unchanged.";
   "";
   "| campaign | config | W | D_ack | D_fin | E3w→E4 | W+D_fin | residual |";
   "|---|---|---:|---:|---:|---:|---:|---:|"].
Definition ratio_intro : list string :=
  ["";
   "| campaign | D_fin safe/fast | W_safe − W_fast | median residual fast | median residual safe | crosscheck fast | crosscheck safe |";
   "|---|---:|---:|---:|---:|---:|---:|"].
Definition table_outro : string :=
  "Pre-registered: D_fin ≤ 5 ms and safe/fast ratio < 2; W ≈ E3w→E4 − D_fin within ~1 ms; W_safe − W_fast ≈ 61.5 ms. Falsify if D_fin ≥ 10 ms in fast or D_fin scales ≥ 2× with profile. The reconstruction line failed as written (residual ≈ −6.8 ms, constant) and is explained by D-0071; the falsify lines and the D_fin/W predictions are unaffected. Crosscheck columns are median |pcap(SYN/ACK→HTTP) − guest(E3g − established)| per config (pred within ~0.3 ms; fast met it, safe runs ~0.6 ms over a ~10.9 ms interval; stated, not a falsifier).".
Definition render_table (results : list result) : res string :=
  parts ← mapR (λ c, camp_part_of c results) CAMPAIGNS;
  let falsify := mjoin (p_falsify <$> parts) in
  let predicted := length (filter (λ p, p_predict p = true) parts) in
  Ok (lines_ (table_intro ++ mjoin (p_lines <$> parts) ++ ratio_intro ++ (p_ratio <$> parts) ++
    ["**Verdict:** " +:+ verdict_of falsify predicted; ""] ++ ((λ p, "- " +:+ p_bit p) <$> parts) ++
    [""; table_outro; ""])).

(** ** The missing-pcap report.  [dirs] are the directories of results/trials,
    [None] if there is no such directory. *)
Fixpoint strs_leb (a b : list string) : bool :=
  match a, b with
  | [], _ => true
  | _ :: _, [] => false
  | x :: a, y :: b => if String.eqb x y then strs_leb a b else str_leb x y
  end.
(** Paths compare by their components. *)
Definition sorted_paths (l : list string) : list string :=
  sort_by (λ a b, strs_leb (split_on (chr 47) a) (split_on (chr 47) b)) l.
Definition leftover_batch_ids (dirs : option (list string)) : list string :=
  match dirs with Some l => sorted_strs l | None => [] end.
Definition missing_pcap_report (dirs : option (list string)) (missing : list string) (expected : nat) : string :=
  let present := leftover_batch_ids dirs in
  let campaign_batches := sorted_strs (mjoin (c_batches <$> CAMPAIGNS)) in
  let leftover_note := match present with
    | [] => ""
    | _ => nl +:+ "This tree has results/trials/ batches " +:+ repr_strs present
           +:+ ". Those are not T4.6 or D-0068; they must not be substituted (D-0055: this cloud pod is not the bench host)."
    end in
  let sample := join nl ((λ p, "  " +:+ p) <$> take 8 missing) in
  let more := if (8 <? length missing)%nat
              then nl +:+ "  … " +:+ str_of_nat (length missing - 8) +:+ " more" else "" in
  "TEST FAIL: D-0070 pcap pass: " +:+ str_of_nat (length missing) +:+ "/" +:+ str_of_nat expected
  +:+ " recorded per-trial pcaps missing or empty." +:+ nl
  +:+ "Required batches: " +:+ repr_strs campaign_batches +:+ nl
  +:+ "Pcaps are gitignored under results/trials/ and live on the dedicated host (docs/SETUP.md §7; clone path /home/victor/src/Whimbrel). Zero new boots. Copy those six batch directories here, or run `just d0070-pcap-pass` on the bench host." +:+ nl
  +:+ "First missing:" +:+ nl +:+ sample +:+ more +:+ leftover_note.

(** ** The pass *)
Record loaded := { l_camp : campaign; l_rec : list row; l_idx : odict phase_key Z; l_paths : list string }.
Definition is_missing (file_size : string → option N) (p : string) : bool :=
  match file_size p with Some n => (n =? 0)%N | None => true end.

Section run_pass.
Context (run : list string → proc) (file_size : string → option N).
Context (environ which : string → option string) (executable : string → bool).
Context (root : string) (dirs : option (list string)).
(** [git args]: what git answers.  [completion]: the order in which the pool's
    jobs finish, as positions in the job list. *)
Context (git : list string → proc) (completion : nat → list nat).

Definition git_show (rev path : string) : res string :=
  let p := git ["show"; rev +:+ ":" +:+ path] in
  if negb (returncode p =? 0) then
    let e := strip (stderr p) in let o := strip (stdout p) in
    let err := if negb (String.eqb e "") then e else if negb (String.eqb o "") then o else "git show failed" in
    Err (PassFail ("TEST FAIL: git show " +:+ rev +:+ ":" +:+ path +:+ ": " +:+ err))
  else if String.eqb (stdout p) "" then
    Err (PassFail ("TEST FAIL: git show " +:+ rev +:+ ":" +:+ path +:+ " was empty"))
  else Ok (stdout p).
Definition load_campaign (camp : campaign) : res loaded :=
  tr ← git_show (c_rev camp) "results/runs.csv";
  runs ← read_csv_text tr (c_label camp +:+ " runs.csv");
  tp ← git_show (c_rev camp) "results/phases.csv";
  phases ← read_csv_text tp (c_label camp +:+ " phases.csv");
  _ ← validate_campaign runs phases (c_batches camp) (c_sha_prefix camp) (c_label camp);
  rec ← recorded runs;
  idx ← phase_index phases;
  paths ← mapR (λ r, pp ← get "pcap_path" r; path_join root pp) rec;
  Ok {| l_camp := camp; l_rec := rec; l_idx := idx; l_paths := paths |}.

Abbreviation job := (campaign * row * odict phase_key Z)%type.
Definition jobs_of (l : list loaded) : list job :=
  mjoin ((λ x, (λ r, (l_camp x, r, l_idx x)) <$> l_rec x) <$> l).
Definition run_job (tshark : string) (j : job) : res result :=
  let '(camp, r, idx) := j in analyze_row run file_size root (c_label camp) r idx tshark.
(** Futures as they complete: a [PassFail] is collected, any other exception
    escapes. *)
Definition collect (s : list result * list string) (fut : res result) : res (list result * list string) :=
  match fut with
  | Ok r => Ok (s.1 ++ [r], s.2)
  | Err (UserExn PassFailC e) => Ok (s.1, s.2 ++ [e])
  | Err e => Err e
  end.
Definition progress (n : nat) : list string :=
  (λ i, "d0070-pcap-pass: " +:+ str_of_nat i +:+ "/" +:+ str_of_nat n +:+ " trials")
  <$> filter (λ i, (i mod 60 = 0)%nat) (seq 1 n).
Definition run_pool (tshark : string) (jobs : list job) : res string :=
  let futs := run_job tshark <$> jobs in
  '(results, errors) ← foldM collect ([], []) (omap (λ i, futs !! i) (completion (length jobs)));
  _ ← match errors with
      | [] => Ok tt
      | e :: _ => Err (PassFail (e +:+ (if (1 <? length errors)%nat
                    then nl +:+ "(" +:+ str_of_nat (length errors) +:+ " trials failed)" else "")))
      end;
  _ ← raise_when (negb (length results =? length jobs)%nat) (PassFail ("TEST FAIL: analysed "
        +:+ str_of_nat (length results) +:+ " trials, want " +:+ str_of_nat (length jobs)));
  render_table results.
(** The stderr progress lines (when no foreign exception cuts the loop short)
    and the rendered table. *)
Definition run_pass : list string * res string :=
  match
    tshark ← require_tshark_pass environ which executable;
    loaded ← mapR load_campaign CAMPAIGNS;
    let expected := mjoin (l_paths <$> loaded) in
    let missing := sorted_paths (filter (λ p, is_missing file_size p = true) expected) in
    _ ← raise_when (match missing with [] => false | _ => true end)
          (PassFail (missing_pcap_report dirs missing (length expected)));
    Ok (tshark, jobs_of loaded)
  with
  | Err e => ([], Err e)
  | Ok (tshark, jobs) => (progress (length jobs), run_pool tshark jobs)
  end.
End run_pass.

(** ** The synthetic pcap of the selftest: bytes are integers below 256 *)
Fixpoint le_bytes (n : nat) (v : Z) : list Z :=
  match n with O => [] | S n => v mod 256 :: le_bytes n (v / 256) end.
(** [v.to_bytes(n, 'big')] *)
Definition to_bytes (n : nat) (v : Z) : res (list Z) :=
  if (0 <=? v) && (v <? 256 ^ Z.of_nat n) then Ok (reverse (le_bytes n v)) else Err OverflowError.
(** [struct.pack] with little-endian unsigned fields of the given widths. *)
Definition pack_le (fields : list (nat * Z)) : res (list Z) :=
  bs ← (mapR (λ f : nat * Z, if (0 <=? f.2) && (f.2 <? 256 ^ Z.of_nat f.1) then Ok (le_bytes f.1 f.2)
                  else Err StructError) fields : res (list (list Z)));
  Ok (List.concat bs).
(** [h[i:j] = v] on a bytearray *)
Definition set_slice (i j : nat) (v h : list Z) : list Z := take i h ++ v ++ drop j h.
Definition zeros (n : nat) : list Z := replicate n 0.
Definition bytes_of (s : string) : list Z := (λ a, Z.of_N (ord a)) <$> to_l s.

Definition write_pcap (frames : list (list Z * Z)) : res (list Z) :=
  hdr ← pack_le [(4%nat, 0xA1B2C3D4); (2%nat, 2); (2%nat, 4); (4%nat, 0); (4%nat, 0); (4%nat, 65535); (4%nat, 1)];
  body ← mapR (λ fu : list Z * Z, h ← pack_le [(4%nat, fu.2 / 1000000); (4%nat, fu.2 mod 1000000);
                                  (4%nat, Z.of_nat (length fu.1)); (4%nat, Z.of_nat (length fu.1))];
                     Ok (h ++ fu.1)) frames;
  Ok (hdr ++ List.concat body).

(** The big-endian 16-bit words, the last byte padded with a zero. *)
Fixpoint words (data : list Z) : list Z :=
  match data with
  | a :: b :: data => (a * 256 + b) :: words data
  | [a] => [a * 256]
  | [] => []
  end.
(** [while s >> 16: s = (s & 0xFFFF) + (s >> 16)], [fuel] bounding it. *)
Fixpoint fold16 (fuel : nat) (s : Z) : option Z :=
  if Z.shiftr s 16 =? 0 then Some s
  else match fuel with
       | O => None
       | S fuel => fold16 fuel (Z.land s 0xFFFF + Z.shiftr s 16)
       end.
Definition fold_fuel (s : Z) : nat := S (Z.to_nat (Z.log2 s)).
Definition inet_checksum (data : list Z) : Z :=
  let s := sumZ (words data) in
  match fold16 (fold_fuel s) s with
  | Some s => Z.land (Z.lnot s) 0xFFFF
  | None => 0
  end.
Definition ipv4_hdr (total proto : Z) (src dst : list Z) : res (list Z) :=
  t ← to_bytes 2 total;
  f ← to_bytes 2 0x4000;
  _ ← raise_when (negb ((0 <=? proto) && (proto <? 256))) ValueError;
  let h := set_slice 2 4 t (set_slice 0 1 [0x45] (zeros 20)) in
  let h := set_slice 9 10 [proto] (set_slice 8 9 [64] (set_slice 6 8 f h)) in
  let h := set_slice 16 20 dst (set_slice 12 16 src h) in
  c ← to_bytes 2 (inet_checksum h);
  Ok (set_slice 10 12 c h).
Definition tcp_hdr (sport dport seq ack flags : Z) (src dst payload : list Z) : res (list Z) :=
  sp ← to_bytes 2 sport; dp ← to_bytes 2 dport; sq ← to_bytes 4 seq; ak ← to_bytes 4 ack;
  _ ← raise_when (negb ((0 <=? flags) && (flags <? 256))) ValueError;
  win ← to_bytes 2 8192;
  let h := set_slice 4 8 sq (set_slice 2 4 dp (set_slice 0 2 sp (zeros 20))) in
  let h := set_slice 12 13 [Z.shiftl 5 4] (set_slice 8 12 ak h) in
  let h := set_slice 14 16 win (set_slice 13 14 [flags] h) in
  tot ← to_bytes 2 (20 + Z.of_nat (length payload));
  let pseudo := src ++ dst ++ [0; 6] ++ tot in
  c ← to_bytes 2 (inet_checksum (pseudo ++ h ++ payload));
  Ok (set_slice 16 18 c h ++ payload).
Definition tcp_frame (eth_dst eth_src ip_src ip_dst tcp : list Z) : res (list Z) :=
  ip ← ipv4_hdr (20 + Z.of_nat (length tcp)) 6 ip_src ip_dst;
  let frame := eth_dst ++ eth_src ++ [0x08; 0x00] ++ ip ++ tcp in
  Ok (frame ++ zeros (60 - length frame)).

Definition slirp_mac : list Z := [0x52; 0x55; 0x0a; 0x00; 0x02; 0x02].
Definition guest_mac : list Z := [0x52; 0x54; 0x00; 0x12; 0x34; 0x56].
Definition bcast : list Z := replicate 6 0xff.
Definition ip_guest : list Z := [0x0a; 0x00; 0x02; 0x0f].
Definition ip_gw : list Z := [0x0a; 0x00; 0x02; 0x02].
Definition arp_frame (sha spa tpa : list Z) : list Z :=
  let f := bcast ++ sha ++ [0x08; 0x06] ++ [0x00; 0x01; 0x08; 0x00; 0x06; 0x04; 0x00; 0x01] ++ sha ++ spa
           ++ zeros 6 ++ tpa in
  f ++ zeros (60 - length f).
Definition http_body : list Z := bytes_of ("HTTP/1.0 200 OK" +:+ cr +:+ nl +:+ "Content-Type: text/plain" +:+ cr +:+ nl
  +:+ "Connection: close" +:+ cr +:+ nl +:+ "Content-Length: 9" +:+ cr +:+ nl +:+ cr +:+ nl +:+ "whimbrel" +:+ nl).
Definition selftest_frames : res (list (list Z * Z)) :=
  let '(syn, ack, fin, psh) := (0x02, 0x10, 0x01, 0x08) in
  let arp := arp_frame slirp_mac ip_gw ip_guest in
  let guest_arp_req := arp_frame guest_mac ip_guest ip_gw in
  t1 ← tcp_hdr 80 12345 2000 1001 (Z.lor syn ack) ip_guest ip_gw [];
  synack ← tcp_frame slirp_mac guest_mac ip_guest ip_gw t1;
  _ ← raise_when (negb (length http_body =? 92)%nat)
        (PassFail ("TEST FAIL: selftest HTTP body " +:+ str_of_nat (length http_body) +:+ " != 92"));
  t2 ← tcp_hdr 80 12345 2001 1001 (Z.lor (Z.lor ack psh) fin) ip_guest ip_gw http_body;
  http ← tcp_frame slirp_mac guest_mac ip_guest ip_gw t2;
  t3 ← tcp_hdr 12345 80 1001 2094 ack ip_gw ip_guest [];
  pure_ack ← tcp_frame guest_mac slirp_mac ip_gw ip_guest t3;
  t4 ← tcp_hdr 12345 80 1001 2094 (Z.lor ack fin) ip_gw ip_guest [];
  client_fin ← tcp_frame guest_mac slirp_mac ip_gw ip_guest t4;
  Ok [(arp, 0); (guest_arp_req, 20000); (synack, 30000); (http, 31000); (pure_ack, 31036); (client_fin, 31212)].

(** ** Commands *)
#[export] Instance extract_eq_dec : EqDecision extract.
Proof. solve_decision. Defined.
Section commands.
(** [run_on bytes] is tshark on a pcap of those bytes; [show] prints a
    mismatching extract. *)
Context (run_on : list Z → list string → proc) (tmp : string) (show : extract → string).
Context (environ which : string → option string) (executable : string → bool).
Definition cmd_selftest_pass : res outcome :=
  tshark ← require_tshark_pass environ which executable;
  frames ← selftest_frames;
  bytes ← write_pcap frames;
  let pcap := tmp +:+ "/d0070-selftest.pcap" in
  got ← extract_pcap_pass (run_on bytes)
          (λ p, if String.eqb p pcap then Some (N.of_nat (length bytes)) else None) pcap tshark;
  let want := {| w_ns := 30000000; d_ack_ns := 36000; d_fin_ns := 212000; synack_to_http_ns := 1000000;
                 http_len := 92; guest_ftx_ns := Some 20000000; guest_arp_req_n := 1 |} in
  _ ← raise_when (bool_decide (got ≠ want))
        (PassFail ("TEST FAIL: selftest extract " +:+ show got +:+ " want " +:+ show want));
  Ok {| rc := 0; out := ["TEST PASS: D-0070 tshark extract (W, D_ack, D_fin) on synthetic pcap"]; err := [] |}.
(** [command] is ["run"] or ["selftest"].  A run also writes its table to
    report/exhibits/d0070-pcap.md: the second component. *)
Definition main_pass (pass : list string * res string) (command : string) : res (outcome * option string) :=
  let die e prog := Ok ({| rc := 1; out := []; err := prog ++ [e] |}, None) in
  if String.eqb command "selftest" then
    match cmd_selftest_pass with
    | Ok o => Ok (o, None)
    | Err (UserExn PassFailC e) => die e []
    | Err e => Err e
    end
  else
    match pass.2 with
    | Ok md => Ok ({| rc := 0; out := [md]; err := pass.1 |}, Some md)
    | Err (UserExn PassFailC e) => die e pass.1
    | Err e => Err e
    end.
End commands.

(** ** The statistics do not depend on the order of the rows *)
Lemma iqr_perm (l l' : list Z) : l ≡ₚ l' → iqr (NInt <$> l) = iqr (NInt <$> l').
Proof. intros H. unfold iqr. by rewrite (num_sorted_perm l l' H). Qed.
Lemma column_perm f rs rs' : rs ≡ₚ rs' → column f rs = column f rs'.
Proof.
  intros H. unfold column, stat_pair. rewrite !list_fmap_compose with (g := NInt) (f := f).
  assert (f <$> rs ≡ₚ f <$> rs') as Hf by by rewrite H.
  rewrite (median_perm _ _ Hf), (iqr_perm _ _ Hf).
  destruct rs, rs'; try done; apply Permutation_length in H; done.
Qed.
Lemma config_line_perm camp cfg rs rs' : rs ≡ₚ rs' → config_line camp cfg rs = config_line camp cfg rs'.
Proof.
  intros H. unfold config_line.
  assert (of_config camp cfg rs ≡ₚ of_config camp cfg rs') as Hp by (unfold of_config; by rewrite H).
  by rewrite (Permutation_length Hp), !(column_perm _ _ _ Hp).
Qed.
Lemma render_table_perm rs rs' : rs ≡ₚ rs' → render_table rs = render_table rs'.
Proof.
  intros H. unfold render_table.
  assert (mapR (λ c, camp_part_of c rs) CAMPAIGNS = mapR (λ c, camp_part_of c rs') CAMPAIGNS) as ->; [|done].
  induction CAMPAIGNS as [|c cs IH]; [done|]. cbn [mapR]. rewrite IH.
  unfold camp_part_of. by rewrite !(config_line_perm _ _ _ _ H).
Qed.
Lemma lookup_seq_all {A} (l : list A) : omap (λ i, l !! i) (seq 0 (length l)) = l.
Proof.
  induction l as [|x l IH]; [done|]. cbn [length]. rewrite <-cons_seq, <-fmap_S_seq.
  cbn [omap list_omap lookup list_lookup]. f_equal. rewrite <-IH at 2.
  generalize (seq 0 (length l)) as is_. intros is_. induction is_ as [|i is_ IHi]; [done|].
  cbn [fmap list_fmap omap list_omap lookup list_lookup]. destruct (l !! i); [by f_equal|done].
Qed.
Lemma collect_inv s fut s' : collect s fut = Ok s' →
  (∃ r, fut = Ok r ∧ s' = (s.1 ++ [r], s.2)) ∨ (∃ e, s' = (s.1, s.2 ++ [e])).
Proof.
  unfold collect. destruct fut as [r|e]; [intros [= <-]; eauto|].
  destruct e; try done. destruct c; try done. intros [= <-]; eauto.
Qed.
Lemma collect_errors futs s s' : foldM collect s futs = Ok s' → ∃ es, s'.2 = s.2 ++ es.
Proof.
  revert s. induction futs as [|f futs IH]; intros s; cbn [foldM].
  - intros [= ->]. exists []. by rewrite app_nil_r.
  - intros (s1 & Hc & (es & ->)%IH)%bind_Ok. apply collect_inv in Hc as [(r & _ & ->)|(e & ->)]; cbn; [eauto|].
    exists (e :: es). by rewrite <-app_assoc.
Qed.
Lemma collect_all futs rs0 rs : foldM collect (rs0, []) futs = Ok (rs, []) →
  ∃ rs1, rs = rs0 ++ rs1 ∧ futs = Ok <$> rs1.
Proof.
  revert rs0. induction futs as [|f futs IH]; intros rs0 H; cbn [foldM] in H.
  - injection H as ->. exists []. by rewrite app_nil_r.
  - apply bind_Ok in H as (s1 & Hc & H). apply collect_inv in Hc as [(r & -> & ->)|(e & ->)]; cbn in H.
    + apply IH in H as (rs1 & -> & ->). exists (r :: rs1). by rewrite <-app_assoc.
    + by apply collect_errors in H as [es ?].
Qed.
Lemma collect_Ok rs0 rs : foldM collect (rs0, []) (Ok <$> rs) = Ok (rs0 ++ rs, []).
Proof.
  revert rs0. induction rs as [|r rs IH]; intros rs0; [by rewrite app_nil_r|]. cbn.
  rewrite IH. by rewrite <-app_assoc.
Qed.

(** C19. The rendered table does not depend on scheduling: if the thread
    pool completing its jobs in one order yields a table, completing them in
    any other order yields the same table. *)
Theorem run_pool_schedule_independent run file_size root tshark (jobs : list (campaign * row * odict phase_key Z))
    (c1 c2 : nat → list nat) (md : string)
    (H1 : c1 (length jobs) ≡ₚ seq 0 (length jobs)) (H2 : c2 (length jobs) ≡ₚ seq 0 (length jobs))
    (Hok : run_pool run file_size root c1 tshark jobs = Ok md) :
  run_pool run file_size root c2 tshark jobs = Ok md.
Proof.
  unfold run_pool in *. set (futs := run_job run file_size root tshark <$> jobs) in *. cbv zeta in Hok.
  assert (∀ c, c (length jobs) ≡ₚ seq 0 (length jobs) → omap (λ i, futs !! i) (c (length jobs)) ≡ₚ futs) as Hp.
  { intros c ->. replace (length jobs) with (length futs) by apply length_fmap. by rewrite lookup_seq_all. }
  apply bind_Ok in Hok as ([rs errs] & Hc & Hok). apply bind_Ok in Hok as (u & He & Hok).
  destruct errs as [|e0 errs]; [|done].
  destruct (collect_all _ _ _ Hc) as (rs1 & -> & Hf1). cbn [app] in Hok.
  assert (∃ rs2, omap (λ i, futs !! i) (c2 (length jobs)) = Ok <$> rs2 ∧ rs1 ≡ₚ rs2) as (rs2 & Hf2 & Hrs).
  { assert (Ok <$> rs1 ≡ₚ omap (λ i, futs !! i) (c2 (length jobs))) as Hpp by by rewrite <-Hf1, !Hp.
    symmetry in Hpp. apply Permutation_map_inv in Hpp as (rs2 & -> & ?). by exists rs2. }
  rewrite Hf2, collect_Ok. cbn [app mbind res_bind].
  by rewrite <-(Permutation_length Hrs), <-(render_table_perm _ _ Hrs).
Qed.
(** 60 trials per config and campaign, all reading the demo pcap. *)
Definition demo_row (cfg : string) (t : nat) : row :=
  [("batch_id", PStr "b"); ("trial", PStr (str_of_nat t)); ("config", PStr cfg); ("pcap_path", PStr "a.pcap");
   ("e0_to_e4_ns", PStr "90000000"); ("e0_to_e3w_ns", PStr "59000000")].
Definition demo_idx : odict phase_key Z :=
  mjoin ((λ t, mjoin ((λ cfg, [((PStr "b", PStr (str_of_nat t), PStr cfg, PStr "E3g"), 5000000);
                          ((PStr "b", PStr (str_of_nat t), PStr cfg, PStr "established"), 4000000)])
             <$> [SAFE; FAST])) <$> seq 1 60).
Definition demo_jobs : list (campaign * row * odict phase_key Z) :=
  mjoin ((λ c, mjoin ((λ cfg, (λ t, (c, demo_row cfg t, demo_idx)) <$> seq 1 60) <$> [SAFE; FAST])) <$> CAMPAIGNS).
Definition text_of (r : res string) : string := match r with Ok md => md | Err _ => "" end.
Definition demo_md : string := text_of (run_pool demo_run (λ _, Some 500%N) "r" (seq 0) "tshark" demo_jobs).
Lemma run_pool_schedule_independent_witness :
  run_pool demo_run (λ _, Some 500%N) "r" (λ n, reverse (seq 0 n)) "tshark" demo_jobs = Ok demo_md.
Proof.
  exact (run_pool_schedule_independent demo_run (λ _, Some 500%N) "r" "tshark" demo_jobs
    (seq 0) (λ n, reverse (seq 0 n)) demo_md (Permutation_refl _) (reverse_Permutation _)
    ltac:(vm_compute; reflexivity)).
Defined.

(** ** What validation guarantees *)
(** A recorded row of a clean trial on the dedicated host. *)
Definition clean_row (sha : string) (r : row) : Prop :=
  get "git_sha" r = Ok (PStr sha) ∧ get_int "dirty" r = Ok 0 ∧ get_int "steal_ticks" r = Ok 0 ∧
  Forall (λ fw, get fw.1 r = Ok (PStr fw.2)) HOST_FIELDS.

(** The validator accepts exactly the admitted campaigns. *)
Lemma validate_campaign_admitted runs phases batches prefix label :
  validate_campaign runs phases batches prefix label = Ok tt →
  ∃ rec, admitted batches prefix [SAFE; FAST] 60 runs rec ∧ e3g_rows rec phases 120.
Proof.
  unfold validate_campaign. intros H. gates_in H.
  eexists. split; [by constructor|done].
Qed.

(** Validation is sound: a campaign it accepts has exactly the wanted
    batches, 120 recorded trials, 60 of each of the two configurations, all of
    one commit with the wanted prefix, clean, without steal, with the four host
    controls in force, and 120 recorded E3g rows among its phases. *)
Theorem validate_campaign_sound (runs phases : list row) (batches : list string) (prefix label : string)
    (Hok : validate_campaign runs phases batches prefix label = Ok tt) :
  (∀ b, (∃ r, r ∈ runs ∧ get "batch_id" r = Ok b) ↔ b ∈ PStr <$> batches) ∧
  ∃ rec sha keys,
    recorded runs = Ok rec ∧ length rec = 120%nat ∧ startswith sha prefix = true ∧
    Forall (clean_row sha) rec ∧
    (∀ cfg, cfg ∈ [SAFE; FAST] → length (filter (λ r, has_config cfg r = Ok true) rec) = 60%nat) ∧
    mapR trial_key_of rec = Ok keys ∧
    length (filter (λ p, recorded_e3g keys p = Ok true) phases) = 120%nat.
Proof.
  apply validate_campaign_admitted in Hok as (rec & Had & keys & e3g & Hk & He & Hlen).
  pose proof (admitted_total _ _ [SAFE; FAST] _ _ _ ltac:(by_eval) Had) as Htot.
  destruct Had as [Hrec Hb (Hne & sha & Hs & Hsha) Hd Harms Hn Hst Hh].
  split.
  { intros b. destruct Hb as [H1 H2]. rewrite list_elem_of_fmap. split.
    - intros (r & Hr & Hg). destruct (H1 r Hr) as (s & ? & ?). exists s. split; [congruence|done].
    - intros (s & -> & H). destruct (H2 s H) as (r & ? & ?). eauto. }
  exists rec, sha, keys. split_and!; try done.
  - apply Forall_forall. intros r Hr. split_and!; [by apply Hsha|by apply Hd|by apply Hst|].
    apply Forall_forall. intros fw Hfw. destruct (Hh fw Hfw) as [H _].
    destruct (H r Hr) as (s & ->%list_elem_of_singleton & ?). done.
  - intros cfg Hcfg. by apply (count_config_len _ _ _ _ Harms), Hn.
  - by rewrite <-(filterR_count _ _ _ He).
Qed.

Definition demo_runs : list row :=
  mjoin ((λ cfg, (λ t, [("batch_id", PStr "b"); ("trial", PStr (str_of_nat t)); ("warmup", PStr "0");
    ("config", PStr cfg); ("git_sha", PStr "76830e13aa"); ("dirty", PStr "0"); ("steal_ticks", PStr "0")]
    ++ ((λ fw, (fw.1, PStr fw.2)) <$> HOST_FIELDS) : row) <$> seq 1 60) <$> [SAFE; FAST]).
Definition demo_phases : list row :=
  mjoin ((λ cfg, (λ t, [("batch_id", PStr "b"); ("trial", PStr (str_of_nat t)); ("warmup", PStr "0");
    ("config", PStr cfg); ("phase", PStr "E3g")] : row) <$> seq 1 60) <$> [SAFE; FAST]).
Lemma validate_campaign_sound_witness :
  validate_campaign demo_runs demo_phases ["b"] "76830e13" "demo" = Ok tt ∧
  ∃ rec, recorded demo_runs = Ok rec ∧ length rec = 120%nat.
Proof.
  split; [by vm_compute|].
  destruct (validate_campaign_sound demo_runs demo_phases ["b"] "76830e13" "demo" ltac:(by vm_compute))
    as [_ (rec & sha & keys & H & Hl & _)].
  by exists rec.
Defined.

(** ** The Internet checksum *)
Lemma fold16_step s : 0 <= s →
  (Z.shiftr s 16 =? 0) = (s <? 65536) ∧
  Z.land s 0xFFFF + Z.shiftr s 16 = s mod 65536 + s / 65536.
Proof.
  intros Hs. rewrite Z.shiftr_div_pow2 by lia. change (2 ^ 16) with 65536.
  change 0xFFFF with (Z.ones 16). rewrite Z.land_ones by lia. change (2 ^ 16) with 65536. split; [|done].
  destruct (Z.ltb_spec s 65536) as [H|H]; [by rewrite Z.div_small by lia|].
  apply Z.eqb_neq. pose proof (Z.div_le_mono 65536 s 65536 ltac:(lia) H) as Hd.
  change (65536 / 65536) with 1 in Hd. lia.
Qed.
Lemma fold16_spec n : ∀ s fuel, 0 <= s < 65536 * 2 ^ Z.of_nat n → (n + 1 <= fuel)%nat →
  ∃ f, fold16 fuel s = Some f ∧ 0 <= f < 65536 ∧ f mod 65535 = s mod 65535 ∧ (0 < s → 0 < f).
Proof.
  assert (∀ s fuel, 0 <= s < 65536 →
    ∃ f, fold16 fuel s = Some f ∧ 0 <= f < 65536 ∧ f mod 65535 = s mod 65535 ∧ (0 < s → 0 < f)) as Hbase.
  { intros s fuel Hs. destruct (fold16_step s) as [Hb _]; [lia|]. exists s. destruct fuel; cbn;
      rewrite Hb; destruct (Z.ltb_spec s 65536); (split; [done|lia]) || lia. }
  assert (∀ s, 65536 <= s → let s' := s mod 65536 + s / 65536 in
    0 < s' ∧ s' < s ∧ s' mod 65535 = s mod 65535 ∧ s' <= 65535 + s / 65536) as Hstep.
  { intros s Hs s'. pose proof (Z.div_mod s 65536 ltac:(lia)) as Hd.
    pose proof (Z.mod_pos_bound s 65536 ltac:(lia)) as Hm. unfold s'.
    assert (1 <= s / 65536) by (pose proof (Z.div_le_mono 65536 s 65536 ltac:(lia) Hs); lia).
    split_and!; [lia|lia| |lia].
    rewrite Hd at 3. replace (65536 * (s / 65536) + s mod 65536)
      with (s mod 65536 + s / 65536 + (s / 65536) * 65535) by lia. by rewrite Z.mod_add by lia. }
  induction n as [|n IH]; intros s fuel Hs Hf; [apply Hbase; cbn in Hs; lia|].
  destruct (decide (s < 65536)); [apply Hbase; lia|].
  destruct fuel as [|fuel]; [lia|]. destruct (fold16_step s) as [Hb Hl]; [lia|].
  destruct (Hstep s ltac:(lia)) as (Hp & Hlt & Hmod & Hle). cbn [fold16].
  rewrite Hb, Hl. destruct (Z.ltb_spec s 65536); [lia|].
  set (s' := s mod 65536 + s / 65536) in *.
  assert (s / 65536 < 2 ^ Z.of_nat (S n)) as Hq by (apply Z.div_lt_upper_bound; lia).
  destruct n as [|n].
  - change (2 ^ Z.of_nat 1) with 2 in Hq. destruct (decide (s' < 65536)).
    + destruct (Hbase s' fuel ltac:(lia)) as (f & H1 & H2 & H3 & H4).
      exists f. rewrite H1, H3, Hmod. split_and!; try done; lia.
    + assert (s' = 65536) as -> by lia.
      destruct fuel as [|fuel]; [lia|]. change (fold16 (S fuel) 65536) with (fold16 fuel 1).
      destruct (Hbase 1 fuel ltac:(lia)) as (f & H1 & H2 & H3 & H4).
      exists f. rewrite H1, H3, <-Hmod. split_and!; try done; lia.
  - destruct (IH s' fuel) as (f & H1 & H2 & H3 & H4); [|lia|].
    + split; [lia|]. rewrite !Nat2Z.inj_succ, !Z.pow_succ_r in * by lia.
      assert (1 <= 2 ^ Z.of_nat n) by (change 1 with (2 ^ 0); apply Z.pow_le_mono_r; lia). lia.
    + exists f. rewrite H1, H3, Hmod. split_and!; try done; lia.
Qed.
Lemma fold_ok s : 0 <= s →
  ∃ f, fold16 (fold_fuel s) s = Some f ∧ 0 <= f < 65536 ∧ f mod 65535 = s mod 65535 ∧ (0 < s → 0 < f).
Proof.
  intros Hs. apply (fold16_spec (Z.to_nat (Z.log2 s))); [|unfold fold_fuel; lia].
  destruct (decide (s = 0)) as [->|]; [cbn; lia|].
  pose proof (Z.log2_spec s ltac:(lia)) as [_ H]. pose proof (Z.log2_nonneg s).
  rewrite Z2Nat.id by lia. rewrite Z.pow_succ_r in H by lia.
  assert (0 < 2 ^ Z.log2 s) by (apply Z.pow_pos_nonneg; lia). lia.
Qed.
Lemma land_lnot f : 0 <= f < 65536 → Z.land (Z.lnot f) 0xFFFF = 65535 - f.
Proof.
  intros H. change (Z.land (Z.lnot f) 0xFFFF) with (Z.land (Z.lnot f) (Z.ones 16)).
  rewrite Z.land_ones by lia. unfold Z.lnot.
  change (2 ^ 16) with 65536. symmetry. apply (Z.mod_unique_pos _ _ (-1)); lia.
Qed.
(** The checksum of words summing to [s], and that it cancels them. *)
Definition checksum_of (s : Z) : Z :=
  match fold16 (fold_fuel s) s with Some s => Z.land (Z.lnot s) 0xFFFF | None => 0 end.
Lemma checksum_of_spec s : 0 <= s → 0 <= checksum_of s < 65536 ∧ checksum_of (s + checksum_of s) = 0.
Proof.
  intros Hs. destruct (decide (s = 0)) as [->|Hs0]; [by split; vm_compute|].
  assert (∃ f, checksum_of s = 65535 - f ∧ 0 <= f < 65536 ∧ f mod 65535 = s mod 65535 ∧ (0 < s → 0 < f))
    as (f & Hc & Hf & Hm & Hpos).
  { unfold checksum_of. destruct (fold_ok s Hs) as (f & -> & H). exists f. split; [|done]. apply land_lnot. tauto. }
  rewrite Hc. split; [lia|]. unfold checksum_of.
  destruct (fold_ok (s + (65535 - f))) as (g & -> & Hg & Hgm & Hgpos); [lia|].
  rewrite land_lnot by done. enough (g = 65535) by lia.
  assert (0 < g) by (apply Hgpos; lia). assert (g mod 65535 = 0) as Hz.
  { rewrite Hgm, Zplus_mod, <-Hm, <-Zplus_mod. replace (f + (65535 - f)) with 65535 by lia. done. }
  destruct (decide (g = 65535)); [done|]. rewrite Z.mod_small in Hz; lia.
Qed.

Lemma inet_checksum_sum data : inet_checksum data = checksum_of (sumZ (words data)).
Proof. done. Qed.
Definition is_byte (b : Z) : Prop := 0 <= b < 256.
Lemma sum_words_nonneg l : Forall is_byte l → 0 <= sumZ (words l).
Proof.
  revert l. fix IH 1. intros [|a [|b l]] H; [done| |].
  - apply Forall_cons in H as [Ha _]. cbn [words]. rewrite sumZ_cons. unfold is_byte in Ha. cbn. lia.
  - apply Forall_cons in H as [Ha H]. apply Forall_cons in H as [Hb H]. cbn [words].
    rewrite sumZ_cons. specialize (IH l H). unfold is_byte in *. lia.
Qed.
(** Writing the checksum [c] into a zero word at an even offset adds it. *)
Lemma sum_words_insert u v c1 c2 : Nat.even (length u) = true →
  sumZ (words (u ++ c1 :: c2 :: v)) = sumZ (words (u ++ 0 :: 0 :: v)) + (c1 * 256 + c2).
Proof.
  revert u. fix IH 1. intros [|a [|b u]] H; [|done|].
  - cbn [app words]. rewrite !sumZ_cons. lia.
  - cbn [app words]. rewrite !sumZ_cons, (IH u) by done. lia.
Qed.
Lemma to_bytes_2 v bs : to_bytes 2 v = Ok bs → ∃ a b, bs = [a; b] ∧ v = a * 256 + b ∧ is_byte a ∧ is_byte b.
Proof.
  unfold to_bytes. destruct (Z.leb_spec 0 v), (Z.ltb_spec v (256 ^ Z.of_nat 2)); try done. cbn.
  intros [= <-]. eexists _, _. split; [done|]. change (256 ^ Z.of_nat 2) with 65536 in *.
  unfold is_byte. pose proof (Z.div_mod v 256 ltac:(lia)). pose proof (Z.mod_pos_bound v 256 ltac:(lia)).
  assert (v / 256 < 256) by (apply Z.div_lt_upper_bound; lia).
  assert (0 <= v / 256) by (apply Z.div_pos; lia).
  rewrite (Z.mod_small (v / 256)) by lia. lia.
Qed.
Lemma to_bytes_ok v : 0 <= v < 65536 → ∃ bs, to_bytes 2 v = Ok bs.
Proof.
  intros H. unfold to_bytes. change (256 ^ Z.of_nat 2) with 65536.
  destruct (Z.leb_spec 0 v), (Z.ltb_spec v 65536); try lia. eauto.
Qed.
Lemma checksum_inserted u v c1 c2 : Nat.even (length u) = true → Forall is_byte (u ++ 0 :: 0 :: v) →
  to_bytes 2 (inet_checksum (u ++ 0 :: 0 :: v)) = Ok [c1; c2] →
  inet_checksum (u ++ c1 :: c2 :: v) = 0.
Proof.
  intros He Hb (a & b & [= <- <-] & Hc & _)%to_bytes_2.
  rewrite !inet_checksum_sum, (sum_words_insert u v c1 c2 He) in *. rewrite <-Hc.
  apply checksum_of_spec. by apply sum_words_nonneg.
Qed.

Lemma le_bytes_byte n v : Forall is_byte (le_bytes n v).
Proof.
  revert v. induction n as [|n IH]; intros v; cbn; [constructor|]. constructor; [|done].
  apply Z.mod_pos_bound. lia.
Qed.
Lemma to_bytes_4 v bs : to_bytes 4 v = Ok bs → ∃ a b c d, bs = [a; b; c; d] ∧ Forall is_byte bs.
Proof.
  unfold to_bytes. destruct (_ && _); [|done]. intros [= <-]. cbn. eexists _, _, _, _. split; [done|].
  apply Forall_reverse. apply (le_bytes_byte 4).
Qed.
Lemma ipv4_hdr_verifies total proto s1 s2 s3 s4 d1 d2 d3 d4 ip :
  Forall is_byte [s1; s2; s3; s4; d1; d2; d3; d4] →
  ipv4_hdr total proto [s1; s2; s3; s4] [d1; d2; d3; d4] = Ok ip → inet_checksum ip = 0.
Proof.
  intros Hb H. unfold ipv4_hdr in H.
  apply bind_Ok in H as (t & Ht & H). destruct (to_bytes_2 _ _ Ht) as (t1 & t2 & -> & _ & ? & ?).
  apply bind_Ok in H as (f & Hf & H). injection Hf as <-.
  apply bind_Ok in H as (u & Hu & H). apply raise_when_Ok in Hu. cbv zeta in H.
  apply bind_Ok in H as (c & Hc & H). destruct (to_bytes_2 _ _ Hc) as (c1 & c2 & -> & _).
  injection H as <-.
  apply (checksum_inserted [0x45; 0; t1; t2; 0; 0; 0x40; 0; 64; proto] [s1; s2; s3; s4; d1; d2; d3; d4]);
    [done| |exact Hc].
  apply negb_false_iff, andb_prop in Hu as [Hu1 Hu2].
  repeat (apply Forall_cons; split; [done || (unfold is_byte; lia)|]). exact Hb.
Qed.
Lemma tcp_hdr_verifies sport dport seq ack flags s1 s2 s3 s4 d1 d2 d3 d4 payload seg :
  Forall is_byte ([s1; s2; s3; s4; d1; d2; d3; d4] ++ payload) →
  tcp_hdr sport dport seq ack flags [s1; s2; s3; s4] [d1; d2; d3; d4] payload = Ok seg →
  ∃ tot, to_bytes 2 (20 + Z.of_nat (length payload)) = Ok tot ∧
    inet_checksum ([s1; s2; s3; s4; d1; d2; d3; d4; 0; 6] ++ tot ++ seg) = 0.
Proof.
  intros Hb H. unfold tcp_hdr in H.
  apply bind_Ok in H as (sp & Hsp & H). destruct (to_bytes_2 _ _ Hsp) as (a1 & a2 & -> & _ & ? & ?).
  apply bind_Ok in H as (dp & Hdp & H). destruct (to_bytes_2 _ _ Hdp) as (b1 & b2 & -> & _ & ? & ?).
  apply bind_Ok in H as (sq & Hsq & H). destruct (to_bytes_4 _ _ Hsq) as (q1 & q2 & q3 & q4 & -> & Hq).
  apply bind_Ok in H as (ak & Hak & H). destruct (to_bytes_4 _ _ Hak) as (k1 & k2 & k3 & k4 & -> & Hk).
  apply bind_Ok in H as (u & Hu & H). apply raise_when_Ok in Hu.
  apply bind_Ok in H as (win & Hw & H). injection Hw as <-. cbv zeta in H.
  apply bind_Ok in H as (tot & Ht & H). destruct (to_bytes_2 _ _ Ht) as (t1 & t2 & -> & _ & ? & ?).
  apply bind_Ok in H as (c & Hc & H). destruct (to_bytes_2 _ _ Hc) as (c1 & c2 & -> & _).
  injection H as <-. exists [t1; t2]. split; [done|].
  apply (checksum_inserted [s1; s2; s3; s4; d1; d2; d3; d4; 0; 6; t1; t2; a1; a2; b1; b2; q1; q2; q3; q4;
      k1; k2; k3; k4; 80; flags; 32; 0] (0 :: 0 :: payload)); [done| |exact Hc].
  apply negb_false_iff, andb_prop in Hu as [Hu1 Hu2].
  rewrite Forall_app in Hb. destruct Hb as [Hb Hp].
  repeat (apply Forall_cons in Hb as [? Hb]). repeat (apply Forall_cons in Hq as [? Hq]).
  repeat (apply Forall_cons in Hk as [? Hk]).
  repeat (apply Forall_cons; split; [done || (unfold is_byte; lia)|]). exact Hp.
Qed.

(** C37. The checksums of the synthetic frames verify: recomputed over the
    finished IPv4 header, and over the TCP pseudo-header and segment with any
    payload of bytes, the Internet checksum is zero. *)
Theorem frame_checksums_verify (total proto sport dport seq ack flags : Z) (s1 s2 s3 s4 d1 d2 d3 d4 : Z)
    (payload ip seg : list Z)
    (Hb : Forall is_byte ([s1; s2; s3; s4; d1; d2; d3; d4] ++ payload))
    (Hip : ipv4_hdr total proto [s1; s2; s3; s4] [d1; d2; d3; d4] = Ok ip)
    (Hseg : tcp_hdr sport dport seq ack flags [s1; s2; s3; s4] [d1; d2; d3; d4] payload = Ok seg) :
  inet_checksum ip = 0 ∧
  ∃ tot, to_bytes 2 (20 + Z.of_nat (length payload)) = Ok tot ∧
    inet_checksum ([s1; s2; s3; s4; d1; d2; d3; d4; 0; 6] ++ tot ++ seg) = 0.
Proof.
  split; [|by eapply tcp_hdr_verifies]. eapply ipv4_hdr_verifies; [|done].
  by apply Forall_app in Hb as [Hb _].
Qed.
Definition demo_ip : list Z := Eval vm_compute in
  match ipv4_hdr 41 6 ip_guest ip_gw with Ok h => h | Err _ => [] end.
Definition demo_seg : list Z := Eval vm_compute in
  match tcp_hdr 80 12345 2000 1001 18 ip_guest ip_gw [65] with Ok h => h | Err _ => [] end.
Lemma frame_checksums_verify_witness :
  ipv4_hdr 41 6 ip_guest ip_gw = Ok demo_ip ∧ inet_checksum demo_ip = 0.
Proof.
  split; [by vm_compute|].
  exact (proj1 (frame_checksums_verify 41 6 80 12345 2000 1001 18 10 0 2 15 10 0 2 2 [65] demo_ip demo_seg
    ltac:(repeat constructor; done) ltac:(by vm_compute) ltac:(by vm_compute))).
Defined.
