(* ===== verification/FixtureTshark.v ===== *)
(** * A tshark for the synthetic pcaps

    tshark is not part of the program: the scripts' theorems hold for any answer
    it gives.  This is one that reads the pcap's bytes and answers the display
    filters of pcap_http.py on Ethernet frames with ARP or TCP over IPv4; the
    witnesses of the self-tests run on it. *)
From S2P Require Import Prelude PyStr PcapHttp D0070Pass.

(** ** Packets *)
Record packet := { pk_number : Z; pk_us : Z; pk_data : list Z }.
Definition le_val (l : list Z) : Z := foldr (λ b v, b + 256 * v) 0 l.
Definition be_val (l : list Z) : Z := foldl (λ v b, 256 * v + b) 0 l.
Definition bytes_at (i n : nat) (l : list Z) : list Z := take n (drop i l).
(** The records after the file header; a record header gives a time and a length. *)
Fixpoint records (fuel : nat) (number : Z) (l : list Z) : list packet :=
  match fuel, l with
  | S fuel, _ :: _ =>
    let len := Z.to_nat (le_val (bytes_at 8 4 l)) in
    {| pk_number := number; pk_us := le_val (bytes_at 0 4 l) * 1000000 + le_val (bytes_at 4 4 l);
       pk_data := bytes_at 16 len l |} :: records fuel (number + 1) (drop (16 + len) l)
  | _, _ => []
  end.
Definition packets (pcap : list Z) : list packet := records (length pcap) 1 (drop 24 pcap).

(** ** Fields *)
Definition field (i n : nat) (p : packet) : Z := be_val (bytes_at i n (pk_data p)).
Definition bytes_are (i : nat) (want : list Z) (p : packet) : bool :=
  bool_decide (bytes_at i (length want) (pk_data p) = want).
Definition is_arp (p : packet) : bool := field 12 2 p =? 0x0806.
Definition is_ip (p : packet) : bool := field 12 2 p =? 0x0800.
Definition is_tcp (p : packet) : bool := is_ip p && (field 23 1 p =? 6).
Definition arp_request (p : packet) : bool := is_arp p && (field 20 2 p =? 1).
Definition from_slirp (p : packet) : bool := bytes_are 6 slirp_mac p.
Definition flags (p : packet) : Z := field 47 1 p.
Definition has_flag (f : Z) (p : packet) : bool := negb (Z.land (flags p) f =? 0).
Definition tcp_len (p : packet) : Z := field 16 2 p - 20 - 4 * Z.shiftr (field 46 1 p) 4.
Definition tcp_ack (p : packet) : Z := field 42 4 p.
Definition tcp_nxtseq (p : packet) : Z :=
  field 38 4 p + tcp_len p + (if has_flag 0x02 p || has_flag 0x01 p then 1 else 0).
Definition from_guest (p : packet) : bool := is_tcp p && bytes_are 26 ip_guest p && (field 34 2 p =? 80).
Definition to_guest (p : packet) : bool := is_tcp p && bytes_are 30 ip_guest p && (field 36 2 p =? 80).
Definition has_prefix (want l : list Z) : bool := bool_decide (take (length want) l = want).
Fixpoint contains (want l : list Z) : bool :=
  has_prefix want l || match l with [] => false | _ :: l => contains want l end.

(** ** Filters *)
(** A frame before [p] whose number makes [flt] the given filter. *)
Definition after_frame (flt : Z → string) (ps : list packet) (p : packet) (s : string) : bool :=
  existsb (λ q, (pk_number q <? pk_number p) && String.eqb s (flt (pk_number q))) ps.
Definition matches (ps : list packet) (s : string) (p : packet) : bool :=
  if String.eqb s ARP_FILTER then arp_request p && bytes_are 28 ip_gw p && bytes_are 38 ip_guest p
  else if String.eqb s SYNACK_FILTER then is_tcp p && (field 34 2 p =? 80) && (flags p =? 0x12)
  else if String.eqb s HTTP_FILTER then
    from_guest p && (0 <? tcp_len p) && negb (has_flag 0x02 p) && contains (bytes_of "HTTP/1.0 200 OK") (pk_data p)
  else if String.eqb s RST_FILTER then is_tcp p && has_flag 0x04 p
  else if String.eqb s SYN_IN_FILTER then to_guest p && has_flag 0x02 p && negb (has_flag 0x10 p)
  else if String.eqb s GUEST_TX_FILTER then (is_arp p || is_ip p) && negb (from_slirp p)
  else if String.eqb s GUEST_ARP_REQ_FILTER then arp_request p && negb (from_slirp p)
  else if String.eqb s ("eth.src != " +:+ SLIRP_MAC) then negb (from_slirp p)
  else (to_guest p && bytes_are 26 ip_gw p && (flags p =? 0x10) && (tcp_len p =? 0) &&
        after_frame (ack_filter (tcp_ack p)) ps p s)
    || (to_guest p && has_flag 0x01 p && after_frame fin_filter ps p s).
Definition cell (t0 : Z) (p : packet) (name : string) : string :=
  let us := pk_us p - t0 in
  if String.eqb name "frame.time_relative"
  then str_of_Z (us / 1000000) +:+ "." +:+ rjust 6 (chr 48) (str_of_Z (us mod 1000000)) +:+ "000"
  else if String.eqb name "frame.number" then str_of_Z (pk_number p)
  else if String.eqb name "tcp.nxtseq" then str_of_Z (tcp_nxtseq p)
  else if String.eqb name "tcp.len" then str_of_Z (tcp_len p)
  else if String.eqb name "tcp.flags.fin" then (if has_flag 0x01 p then "True" else "False")
  else if String.eqb name "tcp.ack" then str_of_Z (tcp_ack p)
  else "".
(** [tshark -r pcap -o pref -Y filter -T fields -e ...] *)
Definition fixture_tshark (pcap : list Z) (cmd : list string) : proc :=
  match cmd with
  | _ :: _ :: _ :: _ :: _ :: _ :: flt :: _ :: _ :: es =>
    let ps := packets pcap in
    let t0 := match ps with p :: _ => pk_us p | [] => 0 end in
    let names := List.filter (λ e, negb (String.eqb e "-e")) es in
    {| returncode := 0; stderr := "";
       stdout := unterminated ((λ p, join tab (cell t0 p <$> names)) <$> List.filter (matches ps flt) ps) |}
  | _ => {| returncode := 2; stdout := ""; stderr := "tshark: bad command line" |}
  end.

(** It gives the D-0070 self-test the extract it wants. *)
Lemma fixture_tshark_extract : ∃ o,
  cmd_selftest_pass fixture_tshark "/tmp/t" (λ _, "") (λ _, None) (λ _, Some "/usr/bin/tshark") (λ _, true) = Ok o.
Proof. apply is_ok_Ok. by vm_compute. Qed.
