(* ===== verification/BenchHost.v ===== *)
(** * Host controls, pins and arms of scripts/bench.py

    What a campaign checks before and around its trials: the Linux MANIFEST and
    its artifacts, the dedicated-host controls, steal, CPU pinning, the origin
    sync and the registered counts, and the arms of each campaign kind.  The
    machine (environment, files, subprocesses, sysconf) is the record [host]. *)
From S2P Require Import Prelude PyStr Regex PyFloat PyData PcapHttp.
From Stdlib Require Import Ascii.

(** ** The machine *)
Record host := {
  h_env : string → option string;      (* os.environ.get *)
  h_read : string → option string;     (* text of a regular file *)
  h_unreadable : string → bool;        (* reading the regular file raises OSError *)
  h_size : string → option N;          (* size of a regular file *)
  h_sha256 : string → string;          (* hex digest of a file *)
  h_which : string → option string;    (* shutil.which *)
  h_executable : string → bool;        (* regular file with X_OK *)
  h_run : list string → proc;          (* subprocess.run; NAME=value words before the program set its environment *)
  h_cpu_count : option Z;
  h_clk_tck : Z;                       (* sysconf(SC_CLK_TCK) *)
  h_release : string;                  (* os.uname().release *)
  h_bind : Z → option string           (* why binding the port fails *)
}.

(** ** Constants *)
Definition LINUX_APPEND_QUIET : string := "console=ttyS0 quiet loglevel=0 rdinit=/init unaligned_scalar_speed=fast".
Definition LINUX_APPEND_INSTRUMENTED : string :=
  "console=ttyS0 loglevel=7 printk.time=1 initcall_debug rdinit=/init unaligned_scalar_speed=fast".
Definition WHIMBREL_QEMU_FLOOR_S : num := NFlt (float_of_Z 12).
Definition LINUX_QEMU_FLOOR_S : num := NFlt (float_of_Z 60).
Definition ARTIFACT_RE : regex :=
  (RBol ⋅⋅ RLit "artifact " ⋅⋅ RGrp 1 (RPlus cS) ⋅⋅ RLit " " ⋅⋅ RGrp 2 (RTimes 64 chex) ⋅⋅ REol)%re.
Definition APPEND_RE : regex :=
  (RBol ⋅⋅ RLit "append " ⋅⋅ RGrp 1 (RAlt (RLit "quiet") (RLit "instrumented")) ⋅⋅ RLit " "
   ⋅⋅ RGrp 2 (RPlus cdot) ⋅⋅ REol)%re.
Definition HOST_CONTROL_WANT : list (string * pyval) :=
  [("governor", PStr "performance"); ("smt_control", PStr "off"); ("cpufreq_boost", PStr "0");
   ("virt", PStr "none"); ("steal_start_ticks", PInt 0)].
Definition REGISTERED_N : Z := 30.
Definition REGISTERED_WARMUP : Z := 3.
Definition REGISTERED_BATCHES : Z := 2.
Definition CAMPAIGN_KINDS : list string := ["whimbrel"; "t48"; "t47"].

(** ** The MANIFEST *)
Record manifest := { artifacts : odict string string; appends : odict string string }.
Definition manifest_line (m : manifest) (raw : string) : res manifest :=
  let line := strip raw in
  if String.eqb line "" || startswith line "#" then Ok m else
  match re_match ARTIFACT_RE line with
  | Some g => Ok {| artifacts := od_set (grp_of 1 g) (grp_of 2 g) (artifacts m); appends := appends m |}
  | None =>
    match re_match APPEND_RE line with
    | Some g => Ok {| artifacts := artifacts m; appends := od_set (grp_of 1 g) (strip (grp_of 2 g)) (appends m) |}
    | None => Err (BenchFail ("TEST FAIL: malformed MANIFEST line: " +:+ line))
    end
  end.
Definition want_art : list string := ["Image-stock"; "Image-trimmed"; "rootfs.cpio"; "init"].
Definition repr_opt (o : option string) : string := match o with Some s => repr_str s | None => "None" end.
Definition append_is (m : manifest) (kind want : string) : res unit :=
  let got := od_get kind (appends m) in
  raise_when (bool_decide (got ≠ Some want)) (BenchFail
    ("TEST FAIL: MANIFEST append " +:+ kind +:+ " " +:+ repr_opt got +:+ " want " +:+ repr_str want)).
Definition parse_linux_manifest (text : string) : res manifest :=
  m ← foldM manifest_line {| artifacts := []; appends := [] |} (splitlines text);
  let missing := filter (λ n, od_in n (artifacts m) = false) want_art in
  _ ← raise_when (match missing with [] => false | _ => true end)
        (BenchFail ("TEST FAIL: MANIFEST missing artifact lines: " +:+ repr_strs missing));
  _ ← append_is m "quiet" LINUX_APPEND_QUIET;
  _ ← append_is m "instrumented" LINUX_APPEND_INSTRUMENTED;
  Ok m.

(** ** Arms *)
Record Arm := { config : string; system : string; features : list string;
                env_extra : list (string * string); cargo_extra : list string;
                linux_image : option string; linux_append : option string; qemu_bios : option string }.
Definition whimbrel_arm (config : string) (features : list string) (bios : option string) : Arm :=
  {| config := config; system := "whimbrel"; features := features; env_extra := []; cargo_extra := [];
     linux_image := None; linux_append := None; qemu_bios := bios |}.
Definition linux_arm (config image append : string) : Arm :=
  {| config := config; system := "linux"; features := []; env_extra := []; cargo_extra := [];
     linux_image := Some image; linux_append := Some append; qemu_bios := None |}.
Definition fp_yes : list string :=
  ["--config"; "target.riscv64gc-unknown-none-elf.rustflags=[" +:+ dq +:+ "-C" +:+ dq +:+ "," +:+ dq
               +:+ "force-frame-pointers=yes" +:+ dq +:+ "]"].
Definition whimbrel_safe : Arm := whimbrel_arm "release-default" [] None.
Definition whimbrel_fast : Arm := whimbrel_arm "release-fast-boot" ["fast-boot"] None.
Definition configs_for (root kind : string) : res (list Arm) :=
  if String.eqb kind "whimbrel" then Ok [whimbrel_safe; whimbrel_fast]
  else if String.eqb kind "fp-ab" then
    Ok [{| config := "release-fast-boot-fp"; system := "whimbrel"; features := ["fast-boot"];
           env_extra := [("CARGO_TARGET_DIR", root +:+ "/target-fp")]; cargo_extra := fp_yes;
           linux_image := None; linux_append := None; qemu_bios := None |}; whimbrel_fast]
  else if String.eqb kind "t47" then
    Ok [whimbrel_fast; whimbrel_safe;
        whimbrel_arm "m-release-fast-boot" ["bios-none"; "fast-boot"] (Some "mshim");
        whimbrel_arm "m-release-default" ["bios-none"] (Some "mshim")]
  else if String.eqb kind "t48" then
    Ok [whimbrel_fast; whimbrel_safe; linux_arm "trimmed" "Image-trimmed" "quiet";
        linux_arm "stock" "Image-stock" "quiet";
        linux_arm "trimmed-instrumented" "Image-trimmed" "instrumented"]
  else Err (BenchFail ("TEST FAIL: unknown bench kind " +:+ kind)).
Definition guest_qemu_extra (arm : Arm) (kernel : string) (cpio append : option string) : res (list string) :=
  if String.eqb (system arm) "whimbrel" then Ok ["-kernel"; kernel]
  else if String.eqb (system arm) "linux" then
    match cpio, append with
    | Some cpio, Some append => Ok ["-kernel"; kernel; "-initrd"; cpio; "-append"; append]
    | _, _ => Err (BenchFail "TEST FAIL: Linux argv requires -initrd and -append")
    end
  else Err (BenchFail ("TEST FAIL: unknown system " +:+ system arm)).
Definition linux_append_for (arm : Arm) : res (option string) :=
  if negb (String.eqb (system arm) "linux") then Ok None
  else if bool_decide (linux_append arm = Some "quiet") then Ok (Some LINUX_APPEND_QUIET)
  else if bool_decide (linux_append arm = Some "instrumented") then Ok (Some LINUX_APPEND_INSTRUMENTED)
  else Err (BenchFail ("TEST FAIL: linux arm " +:+ config arm +:+ " has no append kind")).
Definition require_registered_counts (kind : string) (n warmup batches : Z) : res unit :=
  raise_when (bool_decide (kind ∈ CAMPAIGN_KINDS) &&
              negb ((n =? REGISTERED_N) && (warmup =? REGISTERED_WARMUP) && (batches =? REGISTERED_BATCHES)))
    (BenchFail ("TEST FAIL: kind=" +:+ kind +:+ " launched with n=" +:+ str_of_Z n +:+ " warmup="
      +:+ str_of_Z warmup +:+ " batches=" +:+ str_of_Z batches
      +:+ "; the D-0055 registration is n=30 warmup=3 batches=2. A stray BENCH_N/BENCH_WARMUP/BENCH_BATCHES env var is the usual cause; there is no override.")).

(** ** CPU lists, governors, steal *)
Definition empty_cpus : exn := BenchFail "TEST FAIL: online CPU list is empty".
(** One comma-separated field; [None] is the [ValueError] the loop catches. *)
Definition cpu_field (part : string) : option (list Z) :=
  let part := strip part in
  if String.eqb part "" then None
  else match split_once (chr 45) part with
       | Some (a, b) =>
         lo ← int_of_str a; hi ← int_of_str b;
         if hi <? lo then None else Some (seqZ lo (hi - lo + 1))
       | None => (λ z, [z]) <$> int_of_str part
       end.
Definition sorted_ints (l : list Z) : list Z := sort_by Z.leb (py_set l).
Definition parse_cpu_list (text : string) : res (list Z) :=
  let raw := strip text in
  _ ← raise_when (String.eqb raw "") empty_cpus;
  match mapM cpu_field (split_on (chr 44) raw) with
  | None => Err (BenchFail ("TEST FAIL: malformed CPU list " +:+ repr_str raw))
  | Some fields =>
    let cpus := List.concat fields in
    _ ← raise_when (match cpus with [] => true | _ => false end) empty_cpus;
    Ok (sorted_ints cpus)
  end.
Definition summarize_governors (govs : odict Z string) : res string :=
  match govs with
  | [] => Err (BenchFail "TEST FAIL: no online CPUs to read governors")
  | _ =>
    match py_set (govs.*2) with
    | [v] => Ok v
    | _ =>
      parts ← mapR (λ c, g ← of_option (KeyError (str_of_Z c)) (od_get c govs);
                         Ok ("cpu" +:+ str_of_Z c +:+ "=" +:+ g)) (sort_by Z.leb (od_keys govs));
      Ok ("mixed:" +:+ join "," parts)
    end
  end.
Definition steal_ticks_from_stat (text : string) : res Z :=
  match List.find (λ line, startswith line "cpu ") (splitlines text) with
  | None => Err (BenchFail "TEST FAIL: /proc/stat has no cpu line")
  | Some line =>
    match split_ws line !! 8%nat with
    | None => Err (BenchFail "TEST FAIL: /proc/stat cpu line has no steal column")
    | Some f => of_option ValueError (int_of_str f)
    end
  end.

Section machine.
Context (h : host) (root : string).

Definition check_output_env (env cmd : list string) : res string :=
  let p := h_run h (env ++ cmd) in if returncode p =? 0 then Ok (stdout p) else Err (CalledProcessError cmd).
Definition check_output (cmd : list string) : res string := check_output_env [] cmd.

(** ** MANIFEST files *)
Definition linux_art_dir : string := root +:+ "/bench/linux/artifacts".
Definition linux_manifest_path : string := root +:+ "/bench/linux/MANIFEST".
Definition present (p : string) : bool := match h_size h p with Some n => negb (n =? 0)%N | None => false end.
Definition verify_artifact (m : manifest) (name : string) : res unit :=
  want ← of_option (BenchFail ("TEST FAIL: linux artifact missing: MANIFEST has no " +:+ name))
           (od_get name (artifacts m));
  let path := linux_art_dir +:+ "/" +:+ name in
  _ ← raise_when (negb (present path)) (BenchFail ("TEST FAIL: linux artifact missing: " +:+ path));
  let got := h_sha256 h path in
  raise_when (negb (String.eqb got want)) (BenchFail ("TEST FAIL: linux artifact mismatch: " +:+ path +:+ nl
    +:+ "  sha256=" +:+ got +:+ " want " +:+ want)).
(** [names] empty or absent: every artifact of the MANIFEST. *)
Definition verify_linux_artifacts (names : list string) : res manifest :=
  _ ← raise_when (negb (present linux_manifest_path))
        (BenchFail ("TEST FAIL: linux artifact missing: " +:+ linux_manifest_path));
  text ← of_option FileNotFoundError (h_read h linux_manifest_path);
  parsed ← parse_linux_manifest text;
  let check := match names with [] => od_keys (artifacts parsed) | _ => names end in
  _ ← forM_ (verify_artifact parsed) check;
  Ok parsed.
Definition cmd_check_linux_artifacts (names : list string) : res outcome :=
  _ ← verify_linux_artifacts names;
  Ok {| rc := 0; out := ["TEST PASS: linux artifacts match MANIFEST"]; err := [] |}.

(** ** Timeouts and argv *)
Definition require_tshark_bench : res string :=
  rewrap PcapExtractErrorC BenchFailC (require_tshark (h_env h) (h_which h) (h_executable h)).
Definition qemu_argv (pcap : string) (port : Z) (bios : option string) : res (string * list string) :=
  let env := match bios with Some b => ["QEMU_BIOS=" +:+ b] | None => [] end in
  line ← check_output_env env ["bash"; root +:+ "/scripts/qemu-args.sh"; pcap; str_of_Z port];
  Ok (default "qemu-system-riscv64" (h_env h "QEMU"), split_ws (strip line)).
Definition campaign_timeout_s (kind : string) : res num :=
  match h_env h "BENCH_TIMEOUT_S" with
  | Some e => if negb (String.eqb e "") then NFlt <$> of_option ValueError (float_of_str e)
              else Ok (if String.eqb kind "t48" then NFlt (float_of_Z 60) else NFlt (float_of_Z 12))
  | None => Ok (if String.eqb kind "t48" then NFlt (float_of_Z 60) else NFlt (float_of_Z 12))
  end.
Definition qemu_timeout_s (system : string) (client_timeout_s : num) : num :=
  let floor := if String.eqb system "linux" then LINUX_QEMU_FLOOR_S else WHIMBREL_QEMU_FLOOR_S in
  num_add (if num_gtb floor client_timeout_s then floor else client_timeout_s) (NFlt (float_of_Z 2)).

(** ** Identity *)
Definition git_identity : res (string * Z) :=
  sha ← check_output ["git"; "rev-parse"; "HEAD"];
  porcelain ← check_output ["git"; "status"; "--porcelain"];
  Ok (strip sha, if String.eqb (strip porcelain) "" then 0 else 1).
(** [Path(path).read_text()] *)
Definition file_text (path : string) : res string :=
  text ← of_option FileNotFoundError (h_read h path);
  if h_unreadable h path then Err OSError else Ok text.
Definition cpu_model : res string :=
  match h_read h "/proc/cpuinfo" with
  | None => Ok "unknown"
  | Some _ =>
    text ← file_text "/proc/cpuinfo";
    match List.find (λ l, startswith (lower l) "model name") (splitlines text) with
    | None => Ok "unknown"
    | Some line => p ← of_option IndexError (split_once (chr 58) line); Ok (strip p.2)
    end
  end.
Record host_meta_t := { hm_kernel : string; hm_cpu : string; hm_loadavg : string;
                        hm_qemu_version : string; hm_qemu_hash : string; hm_qemu_path : string }.
Definition host_meta : res host_meta_t :=
  cpu ← cpu_model;
  la ← file_text "/proc/loadavg";
  loadavg ← of_option IndexError (head (split_ws la));
  let qemu := default "qemu-system-riscv64" (h_env h "QEMU") in
  qpath ← of_option (BenchFail ("TEST FAIL: " +:+ qemu +:+ " not on PATH")) (h_which h qemu);
  v ← check_output [qpath; "--version"];
  ver ← of_option IndexError (head (splitlines v));
  Ok {| hm_kernel := h_release h; hm_cpu := cpu; hm_loadavg := loadavg; hm_qemu_version := ver;
        hm_qemu_hash := h_sha256 h qpath; hm_qemu_path := qpath |}.
Definition require_port_free (port : Z) : res unit :=
  match h_bind h port with
  | None => Ok tt
  | Some e => Err (BenchFail ("TEST FAIL: port " +:+ str_of_Z port +:+ " is busy (" +:+ e +:+ ")"))
  end.
Definition env_int (name : string) (dflt : Z) : res Z :=
  match h_env h name with Some s => of_option ValueError (int_of_str s) | None => Ok dflt end.
Definition pin_cpus : res (Z * Z) :=
  let n := match h_cpu_count h with Some n => if n =? 0 then 1 else n | None => 1 end in
  _ ← raise_when (n <? 2) (BenchFail ("TEST FAIL: need ≥2 CPUs to pin QEMU and client, have " +:+ str_of_Z n));
  qemu_cpu ← env_int "BENCH_QEMU_CPU" (n - 2);
  client_cpu ← env_int "BENCH_CLIENT_CPU" (n - 1);
  _ ← raise_when (qemu_cpu =? client_cpu) (BenchFail "TEST FAIL: QEMU and client must pin to separate cores");
  Ok (qemu_cpu, client_cpu).

(** ** Steal and the host controls *)
Definition read_steal_ticks : res Z :=
  match h_read h "/proc/stat" with
  | None => Err (BenchFail "TEST FAIL: /proc/stat missing (cannot record steal)")
  | Some _ => text ← file_text "/proc/stat"; steal_ticks_from_stat text
  end.
Definition steal_ticks_to_ns (ticks : Z) : res Z :=
  _ ← raise_when (h_clk_tck h <=? 0) (BenchFail "TEST FAIL: SC_CLK_TCK is not positive");
  Ok (ticks * 1000000000 / h_clk_tck h).
Definition require_steal_delta_zero (steal_delta : Z) : res unit :=
  _ ← raise_when (steal_delta <? 0) (BenchFail "TEST FAIL: /proc/stat steal went backwards");
  if steal_delta =? 0 then Ok tt else
    tick_ns ← steal_ticks_to_ns 1;
    Err (BenchFail ("TEST FAIL: steal_ticks=" +:+ str_of_Z steal_delta
      +:+ " on this trial (D-0055: steal 0 on every trial, warmup included; 1 tick = " +:+ str_of_Z tick_ns +:+ " ns)")).
Definition read_sysfs (path : string) : string :=
  match h_read h path with
  | None => "unavailable"
  | Some t => if h_unreadable h path then "unavailable"
              else if String.eqb (strip t) "" then "unavailable" else strip t
  end.
Definition detect_virt : string :=
  match h_which h "systemd-detect-virt" with
  | None => "unavailable"
  | Some exe => let t := strip (stdout (h_run h [exe])) in if String.eqb t "" then "unavailable" else t
  end.
Definition governor_path (cpu : Z) : string :=
  "/sys/devices/system/cpu/cpu" +:+ str_of_Z cpu +:+ "/cpufreq/scaling_governor".
Definition read_governor_control : res string :=
  match h_read h "/sys/devices/system/cpu/online" with
  | None => Ok "unavailable"
  | Some _ =>
    text ← file_text "/sys/devices/system/cpu/online";
    cpus ← parse_cpu_list text;
    summarize_governors (od_of_list ((λ c, (c, read_sysfs (governor_path c))) <$> cpus))
  end.
Definition host_controls : res (odict string pyval) :=
  gov ← read_governor_control;
  let smt := read_sysfs "/sys/devices/system/cpu/smt/control" in
  let boost := read_sysfs "/sys/devices/system/cpu/cpufreq/boost" in
  steal ← read_steal_ticks;
  Ok [("governor", PStr gov); ("smt_control", PStr smt); ("cpufreq_boost", PStr boost);
      ("virt", PStr detect_virt); ("steal_start_ticks", PInt steal)].
Definition require_control (ctrl : odict string pyval) (kw : string * pyval) : res unit :=
  got ← get kw.1 ctrl;
  raise_when (negb (py_eqb got kw.2)) (BenchFail ("TEST FAIL: host control " +:+ kw.1 +:+ "=" +:+ py_repr got
    +:+ " (want " +:+ py_repr kw.2 +:+ ")")).
Definition require_host_controls (ctrl : option (odict string pyval)) : res (odict string pyval) :=
  ctrl ← match ctrl with Some c => Ok c | None => host_controls end;
  _ ← forM_ (require_control ctrl) HOST_CONTROL_WANT;
  Ok ctrl.

(** ** Origin sync *)
Definition git_current_branch : res string :=
  b ← check_output ["git"; "rev-parse"; "--abbrev-ref"; "HEAD"];
  let branch := strip b in
  _ ← raise_when (String.eqb branch "" || String.eqb branch "HEAD")
        (BenchFail "TEST FAIL: detached HEAD (no current branch to compare to origin)");
  Ok branch.
Definition fetch_origin : res unit :=
  let p := h_run h ["git"; "fetch"; "origin"] in
  if returncode p =? 0 then Ok tt else
    let text := if negb (String.eqb (stderr p) "") then stderr p else stdout p in
    let err := if String.eqb (strip text) "" then "exit " +:+ str_of_Z (returncode p) else strip text in
    Err (BenchFail ("TEST FAIL: git fetch origin failed: " +:+ err)).
Definition origin_ref_sha (branch : string) : res string :=
  let ref := "origin/" +:+ branch in
  let p := h_run h ["git"; "rev-parse"; "--verify"; ref] in
  if returncode p =? 0 then Ok (strip (stdout p))
  else Err (BenchFail ("TEST FAIL: " +:+ ref +:+ " does not exist after fetch")).
Record sync_state := { s_branch : string; s_head : string; s_origin : string }.
Definition require_origin_sync (state : option sync_state) : res sync_state :=
  st ← match state with
       | Some s => Ok s
       | None =>
         _ ← fetch_origin;
         branch ← git_current_branch;
         head ← check_output ["git"; "rev-parse"; "HEAD"];
         origin ← origin_ref_sha branch;
         Ok {| s_branch := branch; s_head := strip head; s_origin := origin |}
       end;
  _ ← raise_when (negb (String.eqb (s_head st) (s_origin st)))
        (BenchFail ("TEST FAIL: HEAD " +:+ s_head st +:+ " != origin/" +:+ s_branch st +:+ " " +:+ s_origin st));
  Ok st.
End machine.

(** The replay of the steal gate over a CSV: the column is looked for in the
    first row only. *)
Definition require_zero_steal (runs : list row) : res unit :=
  match runs with
  | [] => Ok tt
  | r0 :: _ =>
    if negb (od_in "steal_ticks" r0) then Ok tt else
    bad ← filterR (λ r, n ← get_int "steal_ticks" r; Ok (negb (n =? 0))) runs;
    match bad with
    | [] => Ok tt
    | r :: _ =>
      st ← get_text "steal_ticks" r;
      Err (BenchFail ("TEST FAIL: steal_ticks=" +:+ st +:+ " on batch=" +:+ py_str (get_or "batch_id" (PStr "?") r)
        +:+ " trial=" +:+ py_str (get_or "trial" (PStr "?") r) +:+ " warmup=" +:+ py_str (get_or "warmup" (PStr "?") r)
        +:+ " (" +:+ str_of_nat (length bad) +:+ " nonzero / " +:+ str_of_nat (length runs)
        +:+ "; D-0055: steal 0 on every trial, warmup included)"))
    end
  end.

(** ** CPU lists *)
Lemma sorted_ints_NoDup l : NoDup (sorted_ints l).
Proof. unfold sorted_ints. rewrite sort_by_perm. apply NoDup_py_set. Qed.
Lemma elem_of_sorted_ints l x : x ∈ sorted_ints l ↔ x ∈ l.
Proof. unfold sorted_ints. by rewrite elem_of_sort_by, elem_of_py_set. Qed.
Lemma sorted_ints_lt l : StronglySorted Z.lt (sorted_ints l).
Proof.
  assert (StronglySorted Z.le (sorted_ints l)) as Hs by (apply sort_by_sorted_rel; intros ??; lia).
  pose proof (sorted_ints_NoDup l) as Hnd. induction Hs as [|x l' Hs IH Hx]; constructor.
  - apply IH. by apply NoDup_cons in Hnd as [_ ?].
  - apply NoDup_cons in Hnd as [Hnx _]. rewrite Forall_forall in Hx |- *.
    intros y Hy. specialize (Hx y Hy). assert (x ≠ y) by (intros ->; done). lia.
Qed.
Lemma parse_cpu_list_NoDup text cpus : parse_cpu_list text = Ok cpus → NoDup cpus.
Proof.
  unfold parse_cpu_list. cbv zeta. intros (u & _ & H)%bind_Ok.
  destruct (mapM _ _) as [fields|]; [|done]. apply bind_Ok in H as (u' & _ & [= <-]). apply sorted_ints_NoDup.
Qed.
(** What the kernel prints: ranges [lo-hi], or [lo] alone. *)
Definition print_range (r : N * N) : string :=
  if (r.1 =? r.2)%N then str_of_N r.1 else str_of_N r.1 +:+ "-" +:+ str_of_N r.2.
Lemma digit_not c a : is_digit a = true → is_digit c = false → Ascii.eqb a c = false.
Proof. intros Ha Hc. destruct (Ascii.eqb_spec a c); congruence. Qed.
Lemma str_of_N_no_char c n : is_digit c = false → no_char c (str_of_N n).
Proof.
  intros Hc. unfold no_char. rewrite to_l_str_of_N. eapply Forall_impl; [apply digits_10_digit|].
  intros a Ha. by apply digit_not.
Qed.
Lemma print_range_no_char c r : is_digit c = false → Ascii.eqb (chr 45) c = false → no_char c (print_range r).
Proof.
  intros Hc Hd. unfold print_range. destruct (_ =? _)%N; [by apply str_of_N_no_char|].
  unfold no_char. rewrite !to_l_app, !Forall_app. split; [by apply str_of_N_no_char|].
  split; [by repeat constructor|by apply str_of_N_no_char].
Qed.
Lemma split_once_l_none c acc l : Forall (λ a, Ascii.eqb a c = false) l → split_once_l c acc l = None.
Proof. intros H. revert acc. induction H as [|a l Ha _ IH]; intros acc; cbn; [done|]. by rewrite Ha. Qed.
Lemma split_once_l_app c acc u l : Forall (λ a, Ascii.eqb a c = false) u →
  split_once_l c acc (u ++ c :: l) = Some (reverse acc ++ u, l).
Proof.
  intros H. revert acc. induction H as [|a u Ha _ IH]; intros acc; cbn.
  - by rewrite Ascii.eqb_refl, app_nil_r.
  - by rewrite Ha, IH, reverse_cons, <-app_assoc.
Qed.
Lemma print_range_chars r : Forall (λ a, is_space a = false) (to_l (print_range r)).
Proof.
  assert (∀ n, Forall (λ a, is_space a = false) (to_l (str_of_N n))) as Hn.
  { intros n. rewrite to_l_str_of_N. eapply Forall_impl; [apply digits_10_digit|]. apply is_space_digit. }
  unfold print_range. destruct (_ =? _)%N; [done|]. rewrite !to_l_app, !Forall_app.
  split; [done|]. split; [by repeat constructor|done].
Qed.
Lemma print_range_ne r : print_range r ≠ "".
Proof.
  intros H%(f_equal to_l). unfold print_range in H. pose proof (digits_nonnil 10 r.1 ltac:(done)) as Hd.
  destruct (_ =? _)%N; [|rewrite !to_l_app in H]; rewrite ?to_l_str_of_N in H;
    destruct (digits 10 r.1); naive_solver.
Qed.
Lemma strip_id s : Forall (λ a, is_space a = false) (to_l s) → strip s = s.
Proof. intros H. unfold strip. by rewrite strip_l_Forall, of_l_to_l. Qed.
Lemma cpu_field_range r : (r.1 <= r.2)%N →
  cpu_field (print_range r) = Some (seqZ (Z.of_N r.1) (Z.of_N r.2 - Z.of_N r.1 + 1)).
Proof.
  intros Hr. unfold cpu_field. rewrite strip_id by apply print_range_chars.
  cbv zeta. pose proof (print_range_ne r) as Hne. apply String.eqb_neq in Hne. rewrite Hne.
  unfold print_range, split_once. destruct (N.eqb_spec r.1 r.2) as [->|Hd].
  - rewrite split_once_l_none by by apply str_of_N_no_char.
    rewrite int_of_str_of_N. cbn. replace (Z.of_N r.2 - Z.of_N r.2 + 1) with 1 by lia. done.
  - rewrite !to_l_app. change (to_l "-") with [chr 45]. cbn [app].
    rewrite split_once_l_app by by apply str_of_N_no_char. cbn [reverse rev_append app].
    rewrite !of_l_to_l, !int_of_str_of_N. cbn [mbind option_bind].
    destruct (Z.ltb_spec (Z.of_N r.2) (Z.of_N r.1)); [lia|done].
Qed.

(** CPU lists round trip: a printed list of nonempty ranges parses to
    the strictly increasing list of exactly the CPUs in some range. *)
Theorem parse_cpu_list_print (rs : list (N * N)) (Hne : rs ≠ []) (Hrs : Forall (λ r, (r.1 <= r.2)%N) rs) :
  ∃ cpus, parse_cpu_list (join "," (print_range <$> rs)) = Ok cpus ∧ StronglySorted Z.lt cpus ∧
    ∀ x, x ∈ cpus ↔ ∃ r, r ∈ rs ∧ Z.of_N r.1 <= x <= Z.of_N r.2.
Proof.
  set (text := join "," (print_range <$> rs)).
  assert (Forall (λ a, is_space a = false) (to_l text)) as Hsp.
  { subst text. clear. induction rs as [|r [|r' rs] IH]; [constructor|apply print_range_chars|].
    change (join "," (print_range <$> r :: r' :: rs))
      with (print_range r +:+ "," +:+ join "," (print_range <$> r' :: rs)).
    rewrite !to_l_app, !Forall_app. split; [apply print_range_chars|]. split; [by repeat constructor|done]. }
  assert (text ≠ "") as Htext.
  { subst text. destruct rs as [|r [|r' rs]]; [done|apply print_range_ne|].
    change (join "," (print_range <$> r :: r' :: rs))
      with (print_range r +:+ "," +:+ join "," (print_range <$> r' :: rs)).
    intros H%(f_equal to_l). rewrite !to_l_app in H. by destruct (to_l (print_range r)). }
  unfold parse_cpu_list. rewrite strip_id by done. cbv zeta.
  apply String.eqb_neq in Htext. rewrite Htext. cbn [raise_when mbind res_bind].
  subst text. rewrite (split_on_join (chr 44)); [|by destruct rs|].
  2: { apply Forall_fmap, Forall_forall. intros r _. by apply print_range_no_char. }
  assert (mapM cpu_field (print_range <$> rs) =
    Some ((λ r, seqZ (Z.of_N r.1) (Z.of_N r.2 - Z.of_N r.1 + 1)) <$> rs)) as ->.
  { apply mapM_Some. clear Hne Hsp Htext. induction Hrs as [|r rs Hr _ IH]; constructor; [|done].
    by apply cpu_field_range. }
  destruct rs as [|r0 rs]; [done|]. apply Forall_cons in Hrs as Hr0. destruct Hr0 as [Hr0 _].
  set (fields := _ <$> r0 :: rs). assert (List.concat fields ≠ []) as Hc.
  { intros Hnil. assert (Z.of_N r0.1 ∈ List.concat fields) as Hin; [|rewrite Hnil in Hin; by apply elem_of_nil in Hin].
    subst fields. cbn. apply elem_of_app. left. apply elem_of_seqZ. lia. }
  destruct (List.concat fields) as [|x0 l0] eqn:El; [done|]. rewrite <-El. cbn [raise_when mbind res_bind].
  eexists. split; [done|]. split; [apply sorted_ints_lt|]. intros x. rewrite elem_of_sorted_ints.
  rewrite list_elem_of_In, in_concat. subst fields. split.
  - intros (f & Hf & Hx). apply list_elem_of_In, list_elem_of_fmap in Hf as (r & -> & Hr).
    apply list_elem_of_In, elem_of_seqZ in Hx. exists r. split; [done|lia].
  - intros (r & Hr & Hx). exists (seqZ (Z.of_N r.1) (Z.of_N r.2 - Z.of_N r.1 + 1)).
    split; apply list_elem_of_In; [apply list_elem_of_fmap; by exists r|]. apply elem_of_seqZ. lia.
Qed.
Lemma parse_cpu_list_print_witness :
  join "," (print_range <$> [(2, 3); (0, 0); (3, 7)])%N = "2-3,0,3-7" ∧
  ∃ cpus, parse_cpu_list "2-3,0,3-7" = Ok cpus ∧ StronglySorted Z.lt cpus.
Proof.
  split; [by vm_compute|].
  destruct (parse_cpu_list_print [(2, 3); (0, 0); (3, 7)]%N ltac:(done) ltac:(repeat constructor; done))
    as (cpus & H & Hs & _).
  by exists cpus.
Defined.

(** ** The host-control gate *)
Lemma py_eqb_true a b : py_eqb a b = true ↔ a = b.
Proof. apply bool_decide_eq_true. Qed.
Lemma require_control_Ok ctrl k want u : require_control ctrl (k, want) = Ok u ↔ od_get k ctrl = Some want.
Proof.
  unfold require_control. rewrite bind_Ok. setoid_rewrite raise_when_Ok. setoid_rewrite negb_false_iff.
  setoid_rewrite py_eqb_true. setoid_rewrite get_Ok. cbn. naive_solver.
Qed.
Lemma summarize_performance govs : summarize_governors govs = Ok "performance" ↔
  govs ≠ [] ∧ ∀ c g, (c, g) ∈ govs → g = "performance".
Proof.
  unfold summarize_governors. destruct govs as [|cg govs]; [naive_solver|]. split.
  - intros H. split; [done|]. destruct (py_set ((cg :: govs).*2)) as [|v [|w l]] eqn:E.
    + by apply bind_Ok in H as (? & ? & ?).
    + injection H as ->. intros c g Hin.
      assert (g ∈ ["performance"]) as ->%list_elem_of_singleton; [|done].
      rewrite <-E, elem_of_py_set. apply list_elem_of_fmap. by exists (c, g).
    + apply bind_Ok in H as (parts & _ & H). done.
  - intros [_ H]. rewrite (py_set_const _ "performance"); [done..|].
    intros y ([c g] & -> & Hin)%list_elem_of_fmap. by eapply H.
Qed.
Lemma sorted_ints_ne l : l ≠ [] → sorted_ints l ≠ [].
Proof.
  destruct l as [|x l]; [done|]. intros _ H. assert (x ∈ sorted_ints (x :: l)) as Hx by (apply elem_of_sorted_ints; by left).
  rewrite H in Hx. by apply elem_of_nil in Hx.
Qed.
Lemma parse_cpu_list_ne text cpus : parse_cpu_list text = Ok cpus → cpus ≠ [].
Proof.
  unfold parse_cpu_list. cbv zeta. intros (u & _ & H)%bind_Ok.
  destruct (mapM _ _) as [fields|]; [|done]. apply bind_Ok in H as (u' & Hne%raise_when_Ok & [= <-]).
  apply sorted_ints_ne. by destruct (List.concat fields).
Qed.
(** Every online CPU's governor file reads [performance]. *)
Definition all_performance (h : host) : Prop :=
  ∃ text cpus, file_text h "/sys/devices/system/cpu/online" = Ok text ∧ parse_cpu_list text = Ok cpus ∧
    ∀ c, c ∈ cpus → read_sysfs h (governor_path c) = "performance".
Lemma read_governor_performance h : read_governor_control h = Ok "performance" ↔ all_performance h.
Proof.
  unfold read_governor_control, all_performance.
  assert (is_Some (h_read h "/sys/devices/system/cpu/online") ∨ file_text h "/sys/devices/system/cpu/online" = Err FileNotFoundError)
    as [[? ->]| ->]; [unfold file_text; destruct (h_read h _); eauto| |destruct (h_read h _); naive_solver].
  destruct (file_text h _) as [text|]; cbn [mbind res_bind]; [|naive_solver].
  rewrite bind_Ok. assert (∀ cpus, parse_cpu_list text = Ok cpus →
    summarize_governors (od_of_list ((λ c, (c, read_sysfs h (governor_path c))) <$> cpus)) = Ok "performance" ↔
    ∀ c, c ∈ cpus → read_sysfs h (governor_path c) = "performance") as Hs.
  { intros cpus Hcpus. rewrite summarize_performance, od_of_list_NoDup; cycle 1.
    { unfold od_keys. rewrite <-list_fmap_compose. cbn. rewrite list_fmap_id. by eapply parse_cpu_list_NoDup. }
    pose proof (parse_cpu_list_ne _ _ Hcpus) as Hne. split.
    - intros [_ H] c Hc. apply (H c). apply list_elem_of_fmap. by exists c.
    - intros H. split; [by destruct cpus|]. intros c g (c' & [= -> ->] & Hc)%list_elem_of_fmap. auto. }
  split.
  - intros (cpus & Hp & H). exists text, cpus. split_and!; [done..|]. by apply Hs.
  - intros (text' & cpus & [= <-] & Hp & H). exists cpus. split; [done|]. by apply Hs.
Qed.

(** C30. The dedicated-host gate is exact: the live controls pass if and only if
    every online CPU's governor file reads [performance], SMT is off, boost is
    0, no virtualisation is detected and the steal counter starts at zero; what is
    recorded is then those five values. *)
Theorem require_host_controls_iff (h : host) (ctrl : odict string pyval) :
  require_host_controls h None = Ok ctrl ↔
  all_performance h ∧
  read_sysfs h "/sys/devices/system/cpu/smt/control" = "off" ∧
  read_sysfs h "/sys/devices/system/cpu/cpufreq/boost" = "0" ∧
  detect_virt h = "none" ∧ read_steal_ticks h = Ok 0 ∧ ctrl = HOST_CONTROL_WANT.
Proof.
  rewrite <-read_governor_performance. unfold require_host_controls, host_controls. split.
  - intros (c & (gov & Hg & (steal & Hs & [= <-])%bind_Ok)%bind_Ok & (u & Hall & [= <-])%bind_Ok)%bind_Ok.
    assert (∀ kw, kw ∈ HOST_CONTROL_WANT → od_get kw.1 [("governor", PStr gov);
      ("smt_control", PStr (read_sysfs h "/sys/devices/system/cpu/smt/control"));
      ("cpufreq_boost", PStr (read_sysfs h "/sys/devices/system/cpu/cpufreq/boost"));
      ("virt", PStr (detect_virt h)); ("steal_start_ticks", PInt steal)] = Some kw.2) as Hw.
    { intros [k w] Hin. eapply (require_control_Ok _ k w). by eapply forM_Ok. }
    pose proof (Hw ("governor", PStr "performance") ltac:(set_solver)) as [= ->].
    pose proof (Hw ("smt_control", PStr "off") ltac:(set_solver)) as [= Hsmt].
    pose proof (Hw ("cpufreq_boost", PStr "0") ltac:(set_solver)) as [= Hboost].
    pose proof (Hw ("virt", PStr "none") ltac:(set_solver)) as [= Hvirt].
    pose proof (Hw ("steal_start_ticks", PInt 0) ltac:(set_solver)) as [= ->].
    split_and!; try done. by rewrite Hsmt, Hboost, Hvirt.
  - intros (Hg & Hsmt & Hboost & Hvirt & Hs & ->). rewrite Hg. cbn [mbind res_bind]. cbv zeta.
    rewrite Hs. cbn [mbind res_bind]. by rewrite Hsmt, Hboost, Hvirt.
Qed.
(** A host that passes. *)
Definition demo_manifest : string := unterminated
  ["# pins"; "artifact Image-stock " +:+ str_repeat 64 "a"; "artifact Image-trimmed " +:+ str_repeat 64 "b";
   "artifact rootfs.cpio " +:+ str_repeat 64 "c"; "artifact init " +:+ str_repeat 64 "d"; "";
   "append quiet " +:+ LINUX_APPEND_QUIET; "append instrumented " +:+ LINUX_APPEND_INSTRUMENTED].
Definition demo_files : odict string string :=
  [("/sys/devices/system/cpu/online", "0-1" +:+ nl);
   ("/sys/devices/system/cpu/cpu0/cpufreq/scaling_governor", "performance" +:+ nl);
   ("/sys/devices/system/cpu/cpu1/cpufreq/scaling_governor", "performance" +:+ nl);
   ("/sys/devices/system/cpu/smt/control", "off" +:+ nl); ("/sys/devices/system/cpu/cpufreq/boost", "0" +:+ nl);
   ("/proc/stat", "cpu  1 2 3 4 5 6 7 0 0 0" +:+ nl); ("r/bench/linux/MANIFEST", demo_manifest)].
Definition demo_host : host :=
  {| h_env := λ _, None; h_read := λ p, od_get p demo_files; h_unreadable := λ _, false; h_size := λ _, Some 9%N;
     h_sha256 := λ p, if String.eqb p "r/bench/linux/artifacts/init" then str_repeat 64 "d" else str_repeat 64 "a";
     h_which := λ n, if String.eqb n "systemd-detect-virt" then Some "v" else None; h_executable := λ _, true;
     h_run := λ _, {| returncode := 1; stdout := "none" +:+ nl; stderr := "" |};
     h_cpu_count := Some 4; h_clk_tck := 100; h_release := "6.12"; h_bind := λ _, None |}.
Definition demo_ctrl : odict string pyval :=
  [("governor", PStr "performance"); ("smt_control", PStr "off"); ("cpufreq_boost", PStr "0");
   ("virt", PStr "none"); ("steal_start_ticks", PInt 0)].
Lemma require_host_controls_iff_witness :
  require_host_controls demo_host None = Ok demo_ctrl ∧ detect_virt demo_host = "none".
Proof.
  split; [by vm_compute|].
  destruct (proj1 (require_host_controls_iff demo_host demo_ctrl) ltac:(by vm_compute)) as (_ & _ & _ & H & _).
  exact H.
Defined.

(** ** Artifacts *)
(** An artifact that is there with the hash the MANIFEST gives it. *)
Definition artifact_matches (h : host) (root : string) (m : manifest) (name : string) : Prop :=
  present h (linux_art_dir root +:+ "/" +:+ name) = true ∧
  od_get name (artifacts m) = Some (h_sha256 h (linux_art_dir root +:+ "/" +:+ name)).
Lemma verify_artifact_Ok h root m name u : verify_artifact h root m name = Ok u ↔ artifact_matches h root m name.
Proof.
  unfold verify_artifact, artifact_matches. cbv zeta. rewrite bind_Ok. setoid_rewrite of_option_Ok. split.
  - intros (want & Hw & (u' & Hp%raise_when_Ok%negb_false_iff & H%raise_when_Ok%negb_false_iff%String.eqb_eq)%bind_Ok).
    by subst.
  - intros [Hp Hw]. eexists. split; [exact Hw|]. rewrite Hp. cbn [negb raise_when mbind res_bind].
    by rewrite raise_when_Ok, negb_false_iff, String.eqb_eq.
Qed.
(** The MANIFEST names the four artifacts and pins the two kernel command lines
    the harness boots. *)
Definition pinned (m : manifest) : Prop :=
  od_get "quiet" (appends m) = Some LINUX_APPEND_QUIET ∧
  od_get "instrumented" (appends m) = Some LINUX_APPEND_INSTRUMENTED ∧
  ∀ n, n ∈ want_art → ∃ hash, od_get n (artifacts m) = Some hash.
Lemma append_is_Ok m kind want u : append_is m kind want = Ok u ↔ od_get kind (appends m) = Some want.
Proof.
  unfold append_is. rewrite raise_when_Ok, bool_decide_eq_false. split; [apply dec_stable|by intros -> []].
Qed.
Lemma parse_linux_manifest_Ok text m : parse_linux_manifest text = Ok m ↔
  foldM manifest_line {| artifacts := []; appends := [] |} (splitlines text) = Ok m ∧ pinned m.
Proof.
  assert (∀ m, filter (λ n, od_in n (artifacts m) = false) want_art = [] ↔
    ∀ n, n ∈ want_art → ∃ hash, od_get n (artifacts m) = Some hash) as Hart.
  { clear. intros m. split.
    - intros H n Hn. destruct (od_get n (artifacts m)) as [hash|] eqn:E; [eauto|].
      destruct (filter_nil_not_elem_of _ _ n H); [by unfold od_in; rewrite E|done].
    - intros H. destruct (filter _ want_art) as [|n l] eqn:E; [done|].
      assert (n ∈ n :: l) as Hn by by left. rewrite <-E in Hn. apply list_elem_of_filter in Hn as [Hno Hn].
      destruct (H n Hn) as [hash Eh]. unfold od_in in Hno. by rewrite Eh in Hno. }
  unfold parse_linux_manifest, pinned. split.
  - intros (m' & Hf & H)%bind_Ok. cbv zeta in H. apply bind_Ok in H as (u & Hm%raise_when_Ok & H).
    apply bind_Ok in H as (u1 & H1%append_is_Ok & H). apply bind_Ok in H as (u2 & H2%append_is_Ok & [= ->]).
    split; [done|]. split; [done|]. split; [done|]. apply Hart. by destruct (filter _ _).
  - intros (Hf & H1 & H2 & H3%Hart). rewrite Hf. cbn [mbind res_bind]. cbv zeta. rewrite H3. cbn [raise_when mbind res_bind].
    by rewrite (proj2 (append_is_Ok _ _ _ tt) H1), (proj2 (append_is_Ok _ _ _ tt) H2).
Qed.

(** C29. The artifact gate is exact: it accepts if and only if the MANIFEST is a
    nonempty file of well-formed lines that names the four artifacts and pins
    exactly the two kernel command lines the harness boots, and every artifact
    asked for (all of them when none is named) is a nonempty file with the hash
    the MANIFEST gives it. *)
Theorem verify_linux_artifacts_iff (h : host) (root : string) (names : list string) (m : manifest) :
  verify_linux_artifacts h root names = Ok m ↔
  present h (linux_manifest_path root) = true ∧
  ∃ text, h_read h (linux_manifest_path root) = Some text ∧
    foldM manifest_line {| artifacts := []; appends := [] |} (splitlines text) = Ok m ∧ pinned m ∧
    ∀ n, n ∈ names ∨ (names = [] ∧ n ∈ od_keys (artifacts m)) → artifact_matches h root m n.
Proof.
  assert (∀ n, n ∈ match names with [] => od_keys (artifacts m) | _ => names end ↔
    n ∈ names ∨ (names = [] ∧ n ∈ od_keys (artifacts m))) as Hin.
  { intros n. destruct names; [|naive_solver]. rewrite elem_of_nil. naive_solver. }
  unfold verify_linux_artifacts. setoid_rewrite <-Hin. split.
  - intros (u & Hp%raise_when_Ok%negb_false_iff & (text & Ht%of_option_Ok & (p & Hm & H)%bind_Ok)%bind_Ok)%bind_Ok.
    cbv zeta in H. apply bind_Ok in H as (u' & Hall & [= ->]). apply parse_linux_manifest_Ok in Hm as [Hf Hpin].
    split; [done|]. exists text. split_and!; [done..|]. intros n Hn. eapply verify_artifact_Ok, (proj1 (forM_Ok _ _ _) Hall), Hn.
  - intros (Hp & text & Ht & Hf & Hpin & Hall). rewrite Hp, Ht. cbn [negb raise_when of_option mbind res_bind].
    rewrite (proj2 (parse_linux_manifest_Ok text m)) by done. cbn [mbind res_bind]. cbv zeta.
    rewrite (proj2 (forM_Ok _ _ tt)); [done|]. intros n Hn. by apply verify_artifact_Ok, Hall.
Qed.
Definition demo_manifest_parsed : manifest :=
  {| artifacts := [("Image-stock", str_repeat 64 "a"); ("Image-trimmed", str_repeat 64 "b");
                   ("rootfs.cpio", str_repeat 64 "c"); ("init", str_repeat 64 "d")];
     appends := [("quiet", LINUX_APPEND_QUIET); ("instrumented", LINUX_APPEND_INSTRUMENTED)] |}.
Lemma verify_linux_artifacts_iff_witness :
  verify_linux_artifacts demo_host "r" ["init"; "Image-stock"] = Ok demo_manifest_parsed ∧
  present demo_host "r/bench/linux/artifacts/init" = true.
Proof.
  split; [by vm_compute|].
  destruct (proj1 (verify_linux_artifacts_iff demo_host "r" ["init"; "Image-stock"] demo_manifest_parsed)
              ltac:(by vm_compute)) as (_ & text & _ & _ & _ & H).
  exact (proj1 (H "init" ltac:(left; set_solver))).
Defined.

(** ** Steal and counts *)
(** A CSV without steal: no rows, no steal column in the first row, or zero on
    every row. *)
Definition no_steal (runs : list row) : Prop :=
  match runs with
  | [] => True
  | r0 :: _ => od_in "steal_ticks" r0 = false ∨ ∀ r, r ∈ runs → get_int "steal_ticks" r = Ok 0
  end.

(** The CSV replay of the steal gate passes exactly when no row has
    steal (warmup included); when every row's steal parses it can only fail
    with [BenchFail]. *)
Theorem require_zero_steal_iff (runs : list row) :
  (require_zero_steal runs = Ok tt ↔ no_steal runs) ∧
  (Forall (λ r, ∃ n, get_int "steal_ticks" r = Ok n) runs → ¬ no_steal runs →
   ∃ msg, require_zero_steal runs = Err (BenchFail msg)).
Proof.
  unfold require_zero_steal, no_steal. destruct runs as [|r0 runs]; [naive_solver|].
  destruct (od_in "steal_ticks" r0) eqn:E0; cbn [negb]; [|naive_solver].
  set (f := λ r, _ ≫= _). set (l := r0 :: runs).
  assert (∀ r, f r = Ok false ↔ get_int "steal_ticks" r = Ok 0) as Hf.
  { intros r. unfold f. destruct (get_int "steal_ticks" r) as [n|e]; cbn; [|naive_solver].
    destruct (Z.eqb_spec n 0) as [->|]; cbn; naive_solver. }
  split.
  - split.
    + intros (bad & Hbad & H)%bind_Ok. right. destruct bad as [|r bad]; [|by apply bind_Ok in H as (? & ? & ?)].
      intros r Hr. apply Hf. clear -Hbad Hr. induction l as [|x l IH]; [by apply elem_of_nil in Hr|].
      cbn [filterR] in Hbad. apply bind_Ok in Hbad as (b & Hb & Hbad). apply bind_Ok in Hbad as (ys & Hys & [= Hb']).
      destruct b; [done|]. subst ys. apply elem_of_cons in Hr as [->|Hr]; auto.
    + intros [?|H]; [done|].
      assert (filterR f l = Ok []) as ->; [|done].
      clear -Hf H. induction l as [|x l IH]; [done|]. cbn [filterR].
      rewrite (proj2 (Hf x)) by (apply H; set_solver). cbn [mbind res_bind].
      rewrite IH; [done|]. intros r Hr. apply H. set_solver.
  - intros Hall Hno.
    assert (∃ bad, filterR f l = Ok bad ∧ Forall (λ r, r ∈ l) bad ∧ (bad = [] → ∀ r, r ∈ l → get_int "steal_ticks" r = Ok 0))
      as (bad & -> & Hin & Hbad).
    { clear -Hall. induction l as [|x l IH]; [by exists []; split_and!; [| |set_solver]|].
      apply Forall_cons in Hall as [[n Hn] Hall]. destruct (IH Hall) as (bad & Hb & Hin & Hnil).
      cbn [filterR]. assert (f x = Ok (negb (n =? 0))) as -> by (unfold f; by rewrite Hn).
      rewrite Hb. cbn [mbind res_bind]. eexists. split; [done|].
      assert (Forall (λ r, r ∈ x :: l) bad) by (eapply Forall_impl; [exact Hin|]; set_solver).
      destruct (Z.eqb_spec n 0) as [->|]; cbn [negb].
      - split; [done|]. intros Hb0 r [->|Hr]%elem_of_cons; auto.
      - split; [|done]. constructor; [set_solver|done]. }
    destruct bad as [|r bad]; [exfalso; auto|]. cbn [mbind res_bind].
    apply Forall_cons in Hin as [Hr _]. rewrite Forall_forall in Hall.
    destruct (Hall r Hr) as [n Hn]. unfold get_int in Hn. apply bind_Ok in Hn as (v & Hv & _).
    unfold get_text. rewrite Hv. cbn [mbind res_bind]. eauto.
Qed.
Lemma require_zero_steal_iff_witness :
  require_zero_steal [[("steal_ticks", PStr "0")]] = Ok tt ∧
  ∃ msg, require_zero_steal [[("steal_ticks", PStr "0")]; [("steal_ticks", PStr "2")]] = Err (BenchFail msg).
Proof.
  split.
  - apply (require_zero_steal_iff [[("steal_ticks", PStr "0")]]). right.
    intros r Hr. apply list_elem_of_singleton in Hr. by subst.
  - apply (require_zero_steal_iff [[("steal_ticks", PStr "0")]; [("steal_ticks", PStr "2")]]).
    + repeat constructor; [by exists 0|by exists 2].
    + intros [H|H]; [done|]. by specialize (H [("steal_ticks", PStr "2")] ltac:(set_solver)).
Defined.
