(* ===== verification/BenchTables.v ===== *)
(** * Tables and gates over a batch (scripts/bench.py)

    The CSV files, the schema and aggregation gates, the per-group metrics and
    their stability comparison, the first-connect and S-slice controls, the
    Linux publication gates, the ARP-loss signature and the gate-failure
    record.  Files are a finite map from path to text. *)
From stdpp Require Import gmap.
From S2P Require Import Prelude PyStr Regex PyFloat PyData PyCsv BenchSerial PcapHttp PinGates D0070Pass BenchHost.
From Stdlib Require Import Ascii.

(** ** Constants *)
Definition SAFE_CONFIG : string := "release-default".
Definition FAST_CONFIG : string := "release-fast-boot".
Definition CONTROL_TOL_NS : num := NInt 1000000.
Definition WHIMBREL_DFIN_FAIL_NS : Z := 10000000.
Definition HTTP_LEN_PIN : Z := 92.
Definition NEW_RUN_METRICS : list string :=
  ["e0_to_first_connect_ns"; "e0_to_e4_ns"; "w_ns"; "d_ack_ns"; "d_fin_ns"].
Definition OLD_RUN_METRICS : list string := ["e0_to_first_connect_ns"; "e0_to_e3w_ns"; "e0_to_e4_ns"].
Definition RUNS_FIELDS : list string :=
  ["batch_id"; "trial"; "warmup"; "system"; "config"; "git_sha"; "dirty"; "kernel_sha256"; "bios_sha256";
   "qemu_version"; "qemu_hash"; "host_kernel"; "cpu_model"; "governor"; "smt_control"; "cpufreq_boost"; "virt";
   "steal_start_ticks"; "loadavg_1m"; "canary_stvec_ns"; "canary_page_verify_ns"; "qemu_cpu"; "client_cpu";
   "client_granularity_ns"; "shuffle_seed"; "run_order"; "steal_ticks"; "steal_ns"; "e0_mono_ns"; "e0_wall_ns";
   "e0_to_first_connect_ns"; "e0_to_e4_ns"; "w_ns"; "d_ack_ns"; "d_fin_ns"; "synack_to_http_ns"; "guest_ftx_ns";
   "guest_arp_req_n"; "attempts"; "pcap_path"].
Definition GATE_FAILURE_FIELDS : list string :=
  ["batch_id"; "trial"; "warmup"; "system"; "config"; "run_order"; "guest_ftx_ns"; "guest_arp_req_n";
   "syn_grid_dt_ns"; "pcap_path"; "gate"].
Definition PHASES_FIELDS : list string :=
  ["batch_id"; "trial"; "warmup"; "system"; "config"; "phase"; "ticks"; "ns_since_e2"; "delta_ticks"; "delta_ns";
   "source"].
Definition T48B_LINUX_E0_E4_NS : odict string num :=
  [("trimmed", NFlt (float_lit "284684221.5")); ("stock", NFlt (float_lit "948101400.0"))].
Definition D0081_DELTA_LO_NS : num := NInt (-27000000).
Definition D0081_DELTA_HI_NS : num := NInt (-16000000).
Definition ARP_LOSS_MARGIN_NS : Z := 20000000.

(** ** Keys of grouped rows *)
(** Tuples of values compare at their first difference. *)
Fixpoint key_leb (a b : list pyval) : bool :=
  match a, b with
  | [], _ => true
  | _, [] => false
  | x :: a, y :: b => if py_eqb x y then key_leb a b else pyval_leb x y
  end.
Fixpoint key_comparable (a b : list pyval) : bool :=
  match a, b with
  | x :: a, y :: b => if py_eqb x y then key_comparable a b
                      else match x, y with PInt _, PInt _ | PStr _, PStr _ => true | _, _ => false end
  | _, _ => true
  end.
(** [sorted(d.items())] by key; keys of mixed types do not compare. *)
Definition sorted_items {V} (d : odict (list pyval) V) : res (list (list pyval * V)) :=
  if forallb (λ a, forallb (key_comparable a.1) (od_keys d)) d
  then Ok (sort_by (λ a b, key_leb a.1 b.1) d) else Err TypeError.
(** [d.setdefault(k, []).append(x)] *)
Definition od_push {K V} `{!EqDecision K} (k : K) (x : V) (d : odict K (list V)) : odict K (list V) :=
  od_upd k [] (λ l, l ++ [x]) d.
Definition group_by (ks : list string) (rows : list row) : res (odict (list pyval) (list row)) :=
  foldM (λ d r, key ← mapR (λ k, get k r) ks; Ok (od_push key r d)) [] rows.

(** ** CSV files *)
Abbreviation files := (gmap string string).
Definition write_csv (path : string) (fields : list string) (rows : list row) (fs : files) : files :=
  <[path := csv_write fields rows]> fs.
Definition append_csv (path : string) (fields : list string) (r : row) (fs : files) : files :=
  match fs !! path with
  | None => <[path := csv_header fields +:+ csv_row_line fields r]> fs
  | Some text => <[path := text +:+ csv_row_line fields r]> fs
  end.
Definition read_csv (path : string) (fs : files) : res (list row) :=
  match fs !! path with
  | None => Err (BenchFail ("TEST FAIL: " +:+ path +:+ " missing"))
  | Some text => csv_dicts true text
  end.

(** ** Statistics *)
Definition percentile (sorted_vals : list num) (p : float) : res num :=
  match sorted_vals with
  | [] => Err (BenchFail "TEST FAIL: percentile of empty metric")
  | [v] => Ok (num_float v)
  | _ =>
    let k := fmul (float_of_Z (Z.of_nat (length sorted_vals) - 1)) p in
    f ← py_floor k; c ← py_ceil k; percentile_at sorted_vals k f c
  end.
Definition iqr (vals : list num) : res num :=
  let s := num_sorted vals in
  a ← percentile s (float_lit "0.75"); b ← percentile s (float_lit "0.25"); Ok (num_sub a b).

(** ** Schema and aggregation gates *)
Inductive schema := Old | New.
Definition new_cols : list string := ["w_ns"; "d_ack_ns"; "d_fin_ns"].
Definition runs_schema (fields : list string) : res schema :=
  let has c := bool_decide (c ∈ fields) in
  let has_e3w := has "e0_to_e3w_ns" in
  let has_new := forallb has new_cols in
  _ ← raise_when (has_e3w && has_new) (BenchFail
        "TEST FAIL: mixed runs.csv schema (e0_to_e3w_ns and w_ns/d_ack_ns/d_fin_ns both present)");
  if has_e3w then
    match filter (λ c, has c = true) new_cols with
    | [] => Ok Old
    | extra => Err (BenchFail ("TEST FAIL: mixed runs.csv schema (e0_to_e3w_ns with partial new columns "
                               +:+ repr_strs (sorted_strs extra) +:+ ")"))
    end
  else if has_new then Ok New
  else Err (BenchFail "TEST FAIL: incomplete runs.csv schema (need e0_to_e3w_ns without w_ns/d_ack_ns/d_fin_ns, or w_ns/d_ack_ns/d_fin_ns without e0_to_e3w_ns)").
Definition refuse_dirty (allow_dirty : bool) (r : row) : res unit :=
  d ← get_int "dirty" r;
  if negb (d =? 0) && negb allow_dirty then
    b ← get_text "batch_id" r; t ← get_text "trial" r;
    Err (BenchFail ("TEST FAIL: refusing to aggregate dirty-tree row batch=" +:+ b +:+ " trial=" +:+ t))
  else Ok tt.
(** All the rows agree on [k]. *)
Definition agree (k what : string) (rows : list row) : res unit :=
  vals ← distinct k rows;
  match vals with
  | [_] => Ok tt
  | _ => s ← sorted_repr vals; Err (BenchFail ("TEST FAIL: " +:+ what +:+ " mismatch in batch: " +:+ s))
  end.
Definition HOST_COLUMNS : list string :=
  ["governor"; "smt_control"; "cpufreq_boost"; "virt"; "steal_start_ticks"].
Definition assert_aggregatable (runs : list row) (allow_dirty : bool) : res unit :=
  r0 ← of_option (BenchFail "TEST FAIL: zero-trial CSV (nothing to aggregate)") (head runs);
  _ ← runs_schema (od_keys r0);
  rec ← recorded runs;
  c0 ← of_option (BenchFail "TEST FAIL: zero-trial CSV (all warmup or empty recorded)") (head rec);
  _ ← forM_ (refuse_dirty allow_dirty) rec;
  _ ← agree "qemu_version" "QEMU version" rec;
  _ ← agree "git_sha" "git SHA" rec;
  forM_ (λ field, if od_in field c0 then agree field field rec else Ok tt) HOST_COLUMNS.

(** ** Metrics *)
Abbreviation metrics := (odict string (list num)).
Definition add_run (ks : list string) (m : metrics) (r : row) : res metrics :=
  foldM (λ m k, x ← get_float k r; Ok (od_push k (NFlt x) m)) m ks.
Record phase_acc := { by_phase : metrics; e2_to_e3g : list num }.
Definition add_phase (rec_keys : list trial_key) (a : phase_acc) (p : row) : res phase_acc :=
  w ← get_int "warmup" p;
  if negb (w =? 0) then Ok a else
  key ← trial_key_of p;
  if negb (key_in key rec_keys) then Ok a else
  name ← get "phase" p;
  d ← get_float "delta_ns" p;
  let bp := od_push ("phase_" +:+ py_str name +:+ "_delta_ns") (NFlt d) (by_phase a) in
  s ← get_float "ns_since_e2" p;
  let bp := od_push ("phase_" +:+ py_str name +:+ "_since_e2_ns") (NFlt s) bp in
  Ok {| by_phase := bp; e2_to_e3g := if is_str name "E3g" then e2_to_e3g a ++ [NFlt s] else e2_to_e3g a |}.
Definition metric_table (runs phases : list row) (sch : option schema) : res metrics :=
  rec ← recorded runs;
  sch ← match sch with
        | Some s => Ok s
        | None => r0 ← of_option IndexError (head (match rec with [] => runs | _ => rec end));
                  runs_schema (od_keys r0)
        end;
  let ks := match sch with New => NEW_RUN_METRICS | Old => OLD_RUN_METRICS end in
  m ← foldM (add_run ks) ((λ k, (k, [])) <$> ks) rec;
  rec_keys ← mapR trial_key_of rec;
  a ← foldM (add_phase rec_keys) {| by_phase := []; e2_to_e3g := [] |} phases;
  let m := od_update m (by_phase a) in
  Ok (match e2_to_e3g a with [] => m | vals => od_set "e2_to_e3g_ns" vals m end).
Definition pad14 (a : num) : string := rjust 14 (chr 32) (num_fixed 0 a).
Definition sorted_metrics (m : metrics) : metrics := sort_by (λ a b, str_leb a.1 b.1) m.
Definition metric_line (mv : string * list num) : res (list string) :=
  match mv.2 with
  | [] => Ok []
  | vals =>
    med ← median vals; q ← iqr vals; lo ← num_min vals; hi ← num_max vals;
    Ok [ljust 36 (chr 32) mv.1 +:+ " " +:+ rjust 4 (chr 32) (str_of_nat (length vals)) +:+ " " +:+ pad14 med
        +:+ " " +:+ pad14 q +:+ " " +:+ pad14 lo +:+ " " +:+ pad14 hi]
  end.
Definition summarize_group (name : string) (m : metrics) : res (list string) :=
  lines ← mapR metric_line (sorted_metrics m);
  Ok (["## " +:+ name;
       ljust 36 (chr 32) "metric" +:+ " " +:+ rjust 4 (chr 32) "n" +:+ " " +:+ rjust 14 (chr 32) "median" +:+ " "
       +:+ rjust 14 (chr 32) "IQR" +:+ " " +:+ rjust 14 (chr 32) "min" +:+ " " +:+ rjust 14 (chr 32) "max"]
      ++ List.concat lines).

(** ** Stability *)
Definition num_max2 (a b : num) : num := if num_gtb b a then b else a.
Definition stability_tol_ns (median_ns : num) : num :=
  num_max2 (num_mul (NFlt (float_lit "0.02")) (num_abs median_ns)) (NFlt (float_lit "200000.0")).
(** The verdict on one metric: nothing, or the line that fails it. *)
Definition compare_metric (a b : metrics) (name : string) : res (list string) :=
  let va := default [] (od_get name a) in
  let vb := default [] (od_get name b) in
  match va, vb with
  | [], _ | _, [] => Ok [name +:+ ": missing in one batch"]
  | _, _ =>
    ma ← median va; mb ← median vb;
    if num_ltb (num_max2 ma mb) (NInt 1000000) then Ok [] else
    let tol := stability_tol_ns (num_max2 ma mb) in
    let delta := num_abs (num_sub ma mb) in
    if num_gtb delta tol then
      Ok [name +:+ ": median " +:+ num_fixed 0 ma +:+ " vs " +:+ num_fixed 0 mb +:+ " ns (Δ=" +:+ num_fixed 0 delta
          +:+ ", tol=" +:+ num_fixed 0 tol +:+ ")"]
    else Ok []
  end.
Definition compare_stability (a b : metrics) : res (list string) :=
  ls ← mapR (compare_metric a b) (sorted_strs (py_set (od_keys a ++ od_keys b)));
  Ok (List.concat ls).

(** ** Gates over the recorded trials *)
Definition batch_of (r : row) : pyval :=
  let b := get_or "batch_id" PNone r in if truthy b then b else PStr "_".
(** [by_batch]: batch, then config, then the recorded first-connect times. *)
Definition first_connects (rec : list row) : res (odict (list pyval) (odict pyval (list Z))) :=
  foldM (λ d r, cfg ← get "config" r; n ← get_int "e0_to_first_connect_ns" r;
                Ok (od_upd [batch_of r] [] (od_push cfg n) d)) [] rec.
(** The first minimal and maximal entry, as [min(d, key=d.get)]. *)
Definition min_key (d : list (pyval * num)) : res (pyval * num) :=
  match d with
  | [] => Err ValueError
  | x :: d => Ok (foldl (λ m y, if num_ltb y.2 m.2 then y else m) x d)
  end.
Definition max_key (d : list (pyval * num)) : res (pyval * num) :=
  match d with
  | [] => Err ValueError
  | x :: d => Ok (foldl (λ m y, if num_gtb y.2 m.2 then y else m) x d)
  end.
Definition medians_by (by_cfg : odict pyval (list Z)) : res (list (pyval * num)) :=
  mapR (λ cv, m ← median (NInt <$> cv.2); Ok (cv.1, m)) by_cfg.
Definition check_first_connect (bc : list pyval * odict pyval (list Z)) : res unit :=
  let '(batch, by_cfg) := bc in
  if (length by_cfg <? 2)%nat then Ok tt else
  meds ← medians_by by_cfg;
  lo ← min_key meds;
  hi ← max_key meds;
  let span := num_sub hi.2 lo.2 in
  if num_gtb span CONTROL_TOL_NS then
    cfgs ← sorted_vals (meds.*1);
    listing ← mapR (λ c, m ← of_option (KeyError (py_repr c)) (od_get c meds);
                         Ok (py_str c +:+ "=" +:+ num_fixed 0 m)) cfgs;
    Err (BenchFail ("TEST FAIL: first-connect control span = " +:+ num_fixed 0 span +:+ " ns (batch="
      +:+ join "" (py_str <$> batch) +:+ " " +:+ py_str lo.1 +:+ "=" +:+ num_fixed 0 lo.2 +:+ " " +:+ py_str hi.1
      +:+ "=" +:+ num_fixed 0 hi.2 +:+ "; " +:+ join " " listing +:+ ") > 1 ms"))
  else Ok tt.
Definition require_first_connect_control (runs : list row) : res unit :=
  rec ← recorded runs;
  match rec with
  | [] => Ok tt
  | _ => d ← first_connects rec; items ← sorted_items d; forM_ check_first_connect items
  end.

Section over_host.
Context (h : host) (root : string).

(** [_D0070.extract_pcap] is looked up at each call: the self-test replaces it. *)
Definition require_pcap_intervals_by (extract_pcap : string → string → res extract) (pcap tshark system : string) : res extract :=
  ex ← rewrap PassFailC BenchFailC (extract_pcap pcap tshark);
  _ ← raise_when (negb (http_len ex =? HTTP_LEN_PIN)) (BenchFail ("TEST FAIL: HTTP tcp.len=" +:+ str_of_Z (http_len ex)
        +:+ " want 92 in " +:+ pcap));
  _ ← forM_ (λ kv, raise_when (kv.2 <? 0) (BenchFail ("TEST FAIL: " +:+ kv.1 +:+ " is negative ("
        +:+ str_of_Z kv.2 +:+ ") in " +:+ pcap)))
        [("w_ns", w_ns ex); ("d_ack_ns", d_ack_ns ex); ("d_fin_ns", d_fin_ns ex)];
  _ ← raise_when (String.eqb system "whimbrel" && (WHIMBREL_DFIN_FAIL_NS <=? d_fin_ns ex))
        (BenchFail ("TEST FAIL: d_fin_ns=" +:+ str_of_Z (d_fin_ns ex) +:+ " ≥ 10 ms (D-0070 falsify line) in " +:+ pcap));
  _ ← rewrap PcapExtractErrorC BenchFailC (assert_no_rst (h_run h) (h_size h) pcap tshark);
  Ok ex.
Definition require_pcap_intervals : string → string → string → res extract :=
  require_pcap_intervals_by (extract_pcap_pass (h_run h) (h_size h)).
Definition s_trial_ns (r : row) : res Z :=
  let syn := get_or "synack_to_http_ns" (PStr "") r in
  '(syn_ns, w, d_fin) ←
    (if bool_decide (syn = PNone) || is_str syn "" then
       pp ← get "pcap_path" r; pcap ← path_join root pp;
       tshark ← require_tshark_bench h;
       ex ← require_pcap_intervals pcap tshark (py_str (get_or "system" (PStr "whimbrel") r));
       Ok (synack_to_http_ns ex, w_ns ex, d_fin_ns ex)
     else
       s ← py_int syn; w ← get_int "w_ns" r; f ← get_int "d_fin_ns" r; Ok (s, w, f));
  e4 ← get_int "e0_to_e4_ns" r;
  fc ← get_int "e0_to_first_connect_ns" r;
  Ok ((e4 - fc) - (w + syn_ns + d_fin)).
Definition m_lane (r : row) : res bool := c ← get "config" r; v_startswith c "m-".
Definition median_text (vals : list num) : res string :=
  match vals with [] => Ok "absent" | _ => m ← median vals; Ok (num_fixed 0 m) end.
Definition s_header_lines (runs : list row) : res (list string) :=
  rec ← recorded runs;
  _ ← raise_when (match rec with [] => true | _ => false end)
        (BenchFail "TEST FAIL: no recorded trials for s_ns header");
  all_vals ← mapR (λ r, s ← s_trial_ns r; Ok (r, NInt s)) rec;
  vals ← filterR (λ rs, b ← m_lane rs.1; Ok (negb b)) all_vals;
  m_vals ← filterR (λ rs, m_lane rs.1) all_vals;
  by_cfg ← foldM (λ d rs, c ← get "config" rs.1; Ok (od_push c rs.2 d)) [] all_vals;
  let vals := vals.*2 in let m_vals := m_vals.*2 in
  med ← median vals;
  q ← iqr (num_float <$> vals);
  let l1 := "s_ns=" +:+ num_fixed 0 med +:+ " iqr=" +:+ num_fixed 0 q +:+ " n=" +:+ str_of_nat (length vals) in
  l2 ← match m_vals with
       | [] => Ok []
       | _ => mm ← median m_vals; mq ← iqr (num_float <$> m_vals);
              Ok ["s_ns_mshim=" +:+ num_fixed 0 mm +:+ " iqr=" +:+ num_fixed 0 mq +:+ " n=" +:+ str_of_nat (length m_vals)
                  +:+ " (D-0079: shim lane, never pooled with the line above)"]
       end;
  let of_cfg c := default [] (od_get (PStr c) by_cfg) in
  let fast_vals := of_cfg FAST_CONFIG in let safe_vals := of_cfg SAFE_CONFIG in
  fast_s ← median_text fast_vals;
  safe_s ← median_text safe_vals;
  let l3 := "s_ns_fast=" +:+ fast_s +:+ " s_ns_safe=" +:+ safe_s in
  let m_fast := of_cfg ("m-" +:+ FAST_CONFIG) in let m_safe := of_cfg ("m-" +:+ SAFE_CONFIG) in
  l4 ← match m_fast, m_safe with
       | _ :: _, _ :: _ =>
         mf ← median m_fast; ms ← median m_safe;
         let flag := if num_gtb (num_abs (num_sub mf ms)) CONTROL_TOL_NS
                     then " (PROFILE-DEPENDENT: D-0079 open item, no consumer)" else "" in
         Ok ["s_ns_m_fast=" +:+ num_fixed 0 mf +:+ " s_ns_m_safe=" +:+ num_fixed 0 ms +:+ flag]
       | _, _ => Ok []
       end;
  _ ← match fast_vals, safe_vals with
      | _ :: _, _ :: _ =>
        mf ← median fast_vals; ms ← median safe_vals;
        let delta := num_abs (num_sub mf ms) in
        raise_when (num_gtb delta CONTROL_TOL_NS) (BenchFail ("TEST FAIL: |s_ns_fast − s_ns_safe| = "
          +:+ num_fixed 0 delta +:+ " ns (fast=" +:+ num_fixed 0 mf +:+ " safe=" +:+ num_fixed 0 ms +:+ ") > 1 ms"))
      | _, _ => Ok tt
      end;
  Ok ([l1] ++ l2 ++ [l3] ++ l4).

(** ** Linux publication gates, over the metrics of the groups *)
Definition want_image (cfg : pyval) : string := if is_str cfg "stock" then "Image-stock" else "Image-trimmed".
Definition kernel_hash_failure (m : manifest) (r : row) : res (list string) :=
  cfg ← get "config" r;
  let image := want_image cfg in
  match od_get image (artifacts m) with
  | None => Ok ["MANIFEST has no " +:+ image +:+ " for " +:+ py_str cfg]
  | Some want =>
    k ← get "kernel_sha256" r;
    if is_str k want then Ok [] else
      t ← get_text "trial" r;
      Ok ["kernel_sha256=" +:+ py_str k +:+ " want " +:+ want +:+ " (" +:+ image +:+ " " +:+ py_str cfg +:+ " trial "
          +:+ t +:+ ")"]
  end.
Definition linux_kernel_hash_failures (runs : list row) : res (list string) :=
  rec ← filterR (λ r, b ← is_recorded r; Ok (b && is_str (get_or "system" PNone r) "linux")) runs;
  match rec with
  | [] => Ok []
  | _ =>
    match h_read h (linux_manifest_path root) with
    | None => Ok ["linux rows present but MANIFEST missing: " +:+ linux_manifest_path root]
    | Some text => parsed ← parse_linux_manifest text;
                   ls ← mapR (kernel_hash_failure parsed) rec; Ok (List.concat ls)
    end
  end.
End over_host.

Abbreviation groups := (odict (list pyval) metrics).
Definition group_fields (k : list pyval) : pyval * pyval * pyval :=
  match k with [b; s; c] => (b, s, c) | _ => (PNone, PNone, PNone) end.
Definition quiet_samples (m : groups) : odict string (list num) :=
  foldl (λ d km, let '(_, sys, cfg) := group_fields km.1 in
    match cfg with
    | PStr c => if is_str sys "linux" && od_in c T48B_LINUX_E0_E4_NS then
                  match default [] (od_get "e0_to_e4_ns" km.2) with
                  | [] => d
                  | vals => od_upd c [] (λ l, l ++ vals) d
                  end
                else d
    | _ => d
    end) [] m.
Definition d0081_failure (by_cfg : odict string (list num)) (cp : string * num) : res (list string) :=
  match od_get cp.1 by_cfg with
  | None => Ok []
  | Some vals =>
    med ← median vals;
    let delta := num_sub med cp.2 in
    if num_ltb delta D0081_DELTA_LO_NS || num_gtb delta D0081_DELTA_HI_NS then
      ms ← num_truediv delta (NFlt (float_lit "1e6"));
      Ok ["D-0081 falsifier 2: linux " +:+ cp.1 +:+ " E0→E4 median " +:+ num_fixed 0 med +:+ " ns vs t48b "
          +:+ num_fixed 0 cp.2 +:+ " ns (Δ=" +:+ num_fixed 2 ms +:+ " ms); want Δ in [-27, -16] ms"]
    else Ok []
  end.
Definition d0081_delta_failures (m : groups) : res (list string) :=
  ls ← mapR (d0081_failure (quiet_samples m)) T48B_LINUX_E0_E4_NS; Ok (List.concat ls).
Definition linux_medians (m : groups) : res (odict pyval (odict pyval num)) :=
  foldM (λ d km, let '(batch, sys, cfg) := group_fields km.1 in
    if negb (is_str sys "linux") then Ok d else
    match default [] (od_get "e0_to_e4_ns" km.2) with
    | [] => Ok d
    | vals => med ← median vals; Ok (od_upd batch [] (od_set cfg med) d)
    end) [] m.
Definition trimmed_vs_stock_failures (m : groups) : res (list string) :=
  by_batch ← linux_medians m;
  Ok (mjoin ((λ bc, match od_get (PStr "trimmed") bc.2, od_get (PStr "stock") bc.2 with
                    | Some t, Some s =>
                      if num_geb t s then ["trimmed E0→E4 median " +:+ num_fixed 0 t +:+ " ns >= stock "
                        +:+ num_fixed 0 s +:+ " ns in " +:+ py_str bc.1 +:+ "; trimmed row is not published"] else []
                    | _, _ => []
                    end) <$> by_batch)).
Record linux_meta_t := { lm_cpio : string; lm_cpio_sha256 : string }.
Definition linux_header_lines (client_timeout_s : option num) (linux_meta : option linux_meta_t) : list string :=
  match client_timeout_s with Some t => ["client_timeout_s=" +:+ fmt_g (num_f t)] | None => [] end ++
  match linux_meta with
  | Some m => ["cpio=" +:+ lm_cpio m; "cpio_sha256=" +:+ lm_cpio_sha256 m;
               "linux_append_quiet=" +:+ LINUX_APPEND_QUIET;
               "linux_append_instrumented=" +:+ LINUX_APPEND_INSTRUMENTED]
  | None => []
  end.

(** ** The ARP-loss signature *)
Record arp_event := { ae_system : pyval; ae_config : pyval; ae_batch : pyval; ae_trial : pyval; ae_warmup : pyval;
                      ae_ftx : Z; ae_median : Z; ae_arp_req : pyval }.
Definition has_ftx (r : row) : res bool := v ← get "guest_ftx_ns" r; Ok (negb (is_str v "")).
Definition arm_events (k : list pyval) (med : Z) (r : row) : res (list arp_event) :=
  b ← has_ftx r;
  if negb b then Ok [] else
  ftx ← get_int "guest_ftx_ns" r;
  if ARP_LOSS_MARGIN_NS <? ftx - med then
    batch ← get "batch_id" r; t ← get "trial" r; w ← get "warmup" r;
    Ok [{| ae_system := default PNone (k !! 0%nat); ae_config := default PNone (k !! 1%nat); ae_batch := batch;
           ae_trial := t; ae_warmup := w; ae_ftx := ftx; ae_median := med;
           ae_arp_req := get_or "guest_arp_req_n" (PStr "") r |}]
  else Ok [].
Definition arm_signature (kr : list pyval * list row) : res (list arp_event) :=
  with_ftx ← filterR has_ftx kr.2;
  vals ← mapR (get_int "guest_ftx_ns") with_ftx;
  match sort_by Z.leb vals !! (length vals / 2)%nat with
  | None => Ok []
  | Some med => ls ← mapR (arm_events kr.1 med) kr.2; Ok (List.concat ls)
  end.
Definition arp_signature (runs : list row) : res (list arp_event) :=
  _ ← raise_when (match runs with r0 :: _ => negb (od_in "guest_ftx_ns" r0) | [] => true end)
        (BenchFail "TEST FAIL: runs.csv has no guest_ftx_ns column (pre-D-0075 batch; the loss signature was not recorded)");
  by_arm ← group_by ["system"; "config"] runs;
  items ← sorted_items by_arm;
  ls ← mapR arm_signature items;
  Ok (List.concat ls).
Definition ms1 (ns : Z) : res string :=
  x ← num_truediv (NInt ns) (NFlt (float_lit "1e6")); Ok (num_fixed 1 x).
Definition arp_line (e : arp_event) : res string :=
  x ← ms1 (ae_ftx e - ae_median e); f ← ms1 (ae_ftx e); m ← ms1 (ae_median e);
  Ok ("  " +:+ py_str (ae_system e) +:+ "/" +:+ py_str (ae_config e) +:+ " batch=" +:+ py_str (ae_batch e)
      +:+ " trial=" +:+ py_str (ae_trial e) +:+ " warmup=" +:+ py_str (ae_warmup e) +:+ " excess=" +:+ x
      +:+ " ms (ftx " +:+ f +:+ " ms vs arm median " +:+ m +:+ " ms) arp_req=" +:+ py_str (ae_arp_req e)).
Definition cmd_arp_signature (path : string) (fs : files) : res outcome :=
  runs ← read_csv path fs;
  events ← arp_signature runs;
  ls ← mapR arp_line events;
  Ok {| rc := 0; out := ("trials " +:+ str_of_nat (length runs) +:+ "   loss-signature events "
                         +:+ str_of_nat (length events)) :: ls; err := [] |}.

(** ** The gate-failure record *)
(** Each stage's result is kept when a later one raises. *)
Definition gate_failure_signature (h : host) (pcap : string) : row :=
  let table tshark flt := tshark_table (h_run h) pcap tshark flt [] in
  match tshark ← require_tshark_bench h;
        rows ← table tshark GUEST_TX_FILTER; arp ← table tshark GUEST_ARP_REQ_FILTER;
        slirp_arp ← table tshark ARP_FILTER; Ok (tshark, rows, arp, slirp_arp) with
  | Err _ => []
  | Ok (tshark, rows, arp, slirp_arp) =>
    let o1 := [("guest_arp_req_n", PInt (Z.of_nat (length arp)))] in
    match rows, slirp_arp with
    | tx :: _, sa :: _ =>
      match t_tx ← _time_ns tx; t_sa ← _time_ns sa; Ok (t_tx, t_sa) with
      | Err _ => o1
      | Ok (t_tx, t_sa) =>
        let o2 := o1 ++ [("guest_ftx_ns", PInt (t_tx - t_sa))] in
        match syn ← table tshark SYN_IN_FILTER;
              flushed ← filterR (λ r, t ← _time_ns r; Ok (t_tx <=? t)) syn;
              match flushed with [] => Ok None | f :: _ => Some <$> _time_ns f end with
        | Ok (Some t) => o2 ++ [("syn_grid_dt_ns", PInt (t - t_tx))]
        | _ => o2
        end
      end
    | _, _ => o1
    end
  end.
Record trial_id := { t_batch : string; t_trial : Z; t_warmup : Z; t_system : string; t_config : string; t_order : Z }.
Section gate.
(** [relpath] is [os.path.relpath(_, ROOT)]. *)
Context (h : host) (root : string) (relpath : string → string).
Definition gate_failures_path : string := root +:+ "/results/gate-failures.csv".
Definition gate_failure_row (id : trial_id) (pcap gate : string) : row :=
  od_update
    [("batch_id", PStr (t_batch id)); ("trial", PInt (t_trial id)); ("warmup", PInt (t_warmup id));
     ("system", PStr (t_system id)); ("config", PStr (t_config id)); ("run_order", PInt (t_order id));
     ("pcap_path", PStr (match h_size h pcap with Some _ => relpath pcap | None => "" end));
     ("gate", PStr (take_chars 240 (join " " (split_ws gate))))]
    (gate_failure_signature h pcap).
(** The file with the row appended, and the line printed. *)
Definition record_gate_failure (id : trial_id) (pcap gate : string) (out_path : option string) (fs : files) :
    files * string :=
  let r := gate_failure_row id pcap gate in
  let dest := default gate_failures_path out_path in
  (append_csv dest GATE_FAILURE_FIELDS r fs,
   "bench: GATE FAILURE recorded to " +:+ relpath dest +:+ " (" +:+ t_system id +:+ "/" +:+ t_config id +:+ " trial="
   +:+ str_of_Z (t_trial id) +:+ "): " +:+ take_chars 100 (take_chars 240 (join " " (split_ws gate)))).
End gate.

(** ** The journal of appended rows *)
Lemma append_csv_eq path fields r fs :
  append_csv path fields r fs !! path = Some (default (csv_header fields) (fs !! path) +:+ csv_row_line fields r).
Proof. unfold append_csv. destruct (fs !! path); by rewrite lookup_insert_eq. Qed.
Lemma append_csv_ne path path' fields r fs : path ≠ path' → append_csv path fields r fs !! path' = fs !! path'.
Proof. intros H. unfold append_csv. destruct (fs !! path); by rewrite lookup_insert_ne. Qed.
Lemma append_csv_fold path fields rows fs :
  fs !! path = None → rows ≠ [] →
  foldl (λ fs r, append_csv path fields r fs) fs rows = <[path := csv_write fields rows]> fs.
Proof.
  intros Hfs. induction rows as [|r rows IH] using rev_ind; [done|]. intros _.
  rewrite foldl_snoc. destruct (decide (rows = [])) as [->|Hne].
  - cbn. unfold append_csv. rewrite Hfs. done.
  - rewrite IH by done. unfold append_csv. rewrite lookup_insert_eq, insert_insert_eq.
    by rewrite csv_write_snoc.
Qed.

(** C38. The journal round trip: rows appended one at a time to a file that
    did not exist read back in order, each with its fields as text, and the
    file is the one writing them at once would give; other files are untouched. *)
Theorem append_csv_journal (path : string) (fields : list string) (rows : list row) (fs : files)
    (Hnd : NoDup fields) (Hf : fields ≠ []) (Hnew : fs !! path = None) (Hne : rows ≠ []) :
  let fs' := foldl (λ fs r, append_csv path fields r fs) fs rows in
  read_csv path fs' = Ok (text_row fields <$> rows) ∧
  fs' = write_csv path fields rows fs ∧ (∀ p, p ≠ path → fs' !! p = fs !! p).
Proof.
  cbn zeta. rewrite append_csv_fold by done. split; [|split; [done|]].
  - unfold read_csv. rewrite lookup_insert_eq. by apply csv_dicts_write.
  - intros p Hp. by rewrite lookup_insert_ne.
Qed.
Lemma gate_fields_NoDup : NoDup GATE_FAILURE_FIELDS.
Proof. apply (bool_decide_eq_true_1 (NoDup GATE_FAILURE_FIELDS)). by vm_compute. Qed.
Lemma append_csv_journal_witness :
  read_csv "g.csv" (foldl (λ fs r, append_csv "g.csv" GATE_FAILURE_FIELDS r fs) ∅
    [[("batch_id", PStr "b-1"); ("gate", PStr "TEST FAIL: a, b")]; [("trial", PInt 2)]]) =
  Ok (text_row GATE_FAILURE_FIELDS <$> [[("batch_id", PStr "b-1"); ("gate", PStr "TEST FAIL: a, b")]; [("trial", PInt 2)]]).
Proof.
  exact (proj1 (append_csv_journal "g.csv" GATE_FAILURE_FIELDS
    [[("batch_id", PStr "b-1"); ("gate", PStr "TEST FAIL: a, b")]; [("trial", PInt 2)]] ∅
    gate_fields_NoDup ltac:(done) ltac:(done) ltac:(done))).
Defined.

(** ** Schema and aggregation *)
(** The schema of a runs.csv is decided by its columns: old when
    e0_to_e3w_ns is there without any of the three pcap intervals, new when the
    three are there without it; every other header raises [BenchFail]. *)
Theorem runs_schema_spec (fields : list string) :
  match runs_schema fields with
  | Ok Old => "e0_to_e3w_ns" ∈ fields ∧ ∀ c, c ∈ new_cols → c ∉ fields
  | Ok New => "e0_to_e3w_ns" ∉ fields ∧ ∀ c, c ∈ new_cols → c ∈ fields
  | Err e => (∃ msg, e = BenchFail msg) ∧
      ¬ ("e0_to_e3w_ns" ∈ fields ∧ ∀ c, c ∈ new_cols → c ∉ fields) ∧
      ¬ ("e0_to_e3w_ns" ∉ fields ∧ ∀ c, c ∈ new_cols → c ∈ fields)
  end.
Proof.
  unfold runs_schema. cbv zeta. set (has := λ c, bool_decide (c ∈ fields)).
  assert (∀ c, has c = true ↔ c ∈ fields) as Hh by (intros c; apply bool_decide_eq_true).
  assert (forallb has new_cols = true ↔ ∀ c, c ∈ new_cols → c ∈ fields) as Hall.
  { rewrite forallb_forall. setoid_rewrite <-list_elem_of_In. by setoid_rewrite Hh. }
  assert ((∃ x l, filter (λ c, has c = true) new_cols = x :: l ∧ x ∈ new_cols ∧ x ∈ fields) ∨
          (filter (λ c, has c = true) new_cols = [] ∧ ∀ c, c ∈ new_cols → c ∉ fields)) as Hx.
  { destruct (filter _ _) as [|x l] eqn:E.
    - right. split; [done|]. intros c Hc Hcf.
      assert (c ∈ filter (λ c, has c = true) new_cols) as Hin by (apply list_elem_of_filter; by rewrite Hh).
      rewrite E in Hin. by apply elem_of_nil in Hin.
    - left. exists x, l. split; [done|].
      assert (x ∈ filter (λ c, has c = true) new_cols) as Hin by (rewrite E; set_solver).
      apply list_elem_of_filter in Hin as [Hin ?]. by rewrite Hh in Hin. }
  pose proof (Hh "e0_to_e3w_ns") as H3.
  change (bool_decide ("e0_to_e3w_ns" ∈ fields)) with (has "e0_to_e3w_ns").
  change (filter (λ c, bool_decide (c ∈ fields) = true) new_cols) with (filter (λ c, has c = true) new_cols).
  assert ("w_ns" ∈ new_cols) as Hw by (unfold new_cols; set_solver).
  destruct (has "e0_to_e3w_ns") eqn:E3, (forallb has new_cols) eqn:En; cbn [andb raise_when mbind res_bind].
  - split; [eauto|]. naive_solver.
  - destruct Hx as [(x & l & -> & Hx1 & Hx2)|[-> Hx]]; [|naive_solver]. split; [eauto|]. naive_solver.
  - naive_solver.
  - split; [eauto|]. naive_solver.
Qed.

Lemma agree_Ok k what rows : agree k what rows = Ok tt ↔ rows ≠ [] ∧ ∃ v, Forall (λ r, get k r = Ok v) rows.
Proof.
  unfold agree. split.
  - intros (vals & Hd & H)%bind_Ok.
    destruct vals as [|v [|]]; [by apply bind_Ok in H as (? & ? & ?)| |by apply bind_Ok in H as (? & ? & ?)].
    split; [|exists v; by apply distinct_one]. intros ->. done.
  - intros [Hne [v Hv]].
    assert (distinct k rows = Ok [v]) as ->; [|done].
    unfold distinct. rewrite (mapR_total _ (λ _, v)); cycle 1.
    { rewrite Forall_forall in Hv. auto. }
    cbn. f_equal. destruct rows as [|r rows]; [done|].
    assert (length (py_set ((λ _ : row, v) <$> r :: rows)) = 1%nat) as Hl.
    { apply py_set_singleton. exists v. split; [set_solver|].
      intros y (? & -> & ?)%list_elem_of_fmap. done. }
    destruct (py_set _) as [|x [|]] eqn:E; try done.
    assert (x ∈ py_set ((λ _ : row, v) <$> r :: rows)) as Hx by (rewrite E; set_solver).
    rewrite elem_of_py_set in Hx. apply list_elem_of_fmap in Hx as (? & -> & ?). done.
Qed.
Lemma refuse_dirty_Ok ad r : refuse_dirty ad r = Ok tt ↔ ∃ d, get_int "dirty" r = Ok d ∧ (d = 0 ∨ ad = true).
Proof.
  unfold refuse_dirty. rewrite bind_Ok. split.
  - intros (d & Hd & H). exists d. split; [done|].
    destruct (Z.eqb_spec d 0); [by left|]. destruct ad; [by right|]. cbn in H.
    by apply bind_Ok in H as (? & ? & (? & ? & ?)%bind_Ok).
  - intros (d & Hd & H). exists d. split; [done|].
    destruct H as [->| ->]; cbn; [done|]. by rewrite andb_false_r.
Qed.
(** What may be aggregated. *)
Definition aggregatable (runs : list row) (allow_dirty : bool) : Prop :=
  ∃ r0 rest s c0 crest, runs = r0 :: rest ∧ runs_schema (od_keys r0) = Ok s ∧
    recorded runs = Ok (c0 :: crest) ∧
    (∀ r, r ∈ c0 :: crest → ∃ d, get_int "dirty" r = Ok d ∧ (d = 0 ∨ allow_dirty = true)) ∧
    (∀ k, k ∈ ["qemu_version"; "git_sha"] ++ filter (λ f, od_in f c0 = true) HOST_COLUMNS →
       ∃ v, Forall (λ r, get k r = Ok v) (c0 :: crest)).

(** C32. Aggregation is admitted exactly when the batch is nonempty with a
    consistent schema, has a recorded trial, no dirty recorded row (unless
    allowed), and its recorded rows agree on QEMU version, git SHA and every
    host-control column present. *)
Theorem assert_aggregatable_iff (runs : list row) (allow_dirty : bool) :
  assert_aggregatable runs allow_dirty = Ok tt ↔ aggregatable runs allow_dirty.
Proof.
  unfold assert_aggregatable, aggregatable. split.
  - intros (r0 & Hr0 & H)%bind_Ok. apply of_option_Ok in Hr0.
    destruct runs as [|r0' rest]; [done|]. injection Hr0 as ->.
    apply bind_Ok in H as (s & Hs & H). apply bind_Ok in H as (rec & Hrec & H).
    apply bind_Ok in H as (c0 & Hc0 & H). apply of_option_Ok in Hc0.
    destruct rec as [|c0' crest]; [done|]. injection Hc0 as ->.
    apply bind_Ok in H as (u1 & Hd & H). apply bind_Ok in H as ([] & Hq & H).
    apply bind_Ok in H as ([] & Hg & H).
    exists r0, rest, s, c0, crest. split_and!; try done.
    + intros r Hr. apply refuse_dirty_Ok. by eapply forM_Ok.
    + intros k [Hk|Hk]%elem_of_app.
      * assert (k = "qemu_version" ∨ k = "git_sha") as [->| ->] by set_solver.
        -- by apply agree_Ok in Hq as [_ ?].
        -- by apply agree_Ok in Hg as [_ ?].
      * apply list_elem_of_filter in Hk as [Hin Hk]. apply forM_Ok with (x := k) in H; [|done].
        rewrite Hin in H. by apply agree_Ok in H as [_ ?].
  - intros (r0 & rest & s & c0 & crest & -> & Hs & Hrec & Hd & Ha). cbn [head of_option mbind res_bind].
    rewrite Hs. cbn [mbind res_bind]. rewrite Hrec. cbn [mbind res_bind head of_option].
    rewrite (proj2 (forM_Ok (refuse_dirty allow_dirty) (c0 :: crest) tt)); cycle 1.
    { intros r Hr. apply refuse_dirty_Ok. auto. }
    cbn [mbind res_bind].
    rewrite (proj2 (agree_Ok "qemu_version" _ _)); [|split; [done|]; apply Ha; set_solver].
    rewrite (proj2 (agree_Ok "git_sha" _ _)); [|split; [done|]; apply Ha; set_solver].
    cbn [mbind res_bind]. apply forM_Ok. intros k Hk. destruct (od_in k c0) eqn:E; [|done].
    apply agree_Ok. split; [done|]. apply Ha. apply elem_of_app. right. by apply list_elem_of_filter.
Qed.

(** C31. The stability comparison passes exactly when every metric of either
    batch has samples in both and its two medians are both below 1 ms or differ
    by at most max(2 %, 200 µs) of the larger one. *)
Theorem compare_stability_nil_iff (a b : metrics) :
  compare_stability a b = Ok [] ↔
  ∀ name, name ∈ od_keys a ++ od_keys b →
    ∃ va vb ma mb, od_get name a = Some va ∧ od_get name b = Some vb ∧ median va = Ok ma ∧ median vb = Ok mb ∧
      (num_ltb (num_max2 ma mb) (NInt 1000000) = true ∨
       num_gtb (num_abs (num_sub ma mb)) (stability_tol_ns (num_max2 ma mb)) = false).
Proof.
  assert (∀ name, compare_metric a b name = Ok [] ↔
    ∃ va vb ma mb, od_get name a = Some va ∧ od_get name b = Some vb ∧ median va = Ok ma ∧ median vb = Ok mb ∧
      (num_ltb (num_max2 ma mb) (NInt 1000000) = true ∨
       num_gtb (num_abs (num_sub ma mb)) (stability_tol_ns (num_max2 ma mb)) = false)) as Hm.
  { intros name. unfold compare_metric. cbv zeta. split.
    - destruct (od_get name a) as [[|x va]|] eqn:Ea; cbn [default id]; try done.
      destruct (od_get name b) as [[|y vb]|] eqn:Eb; cbn [default id]; try done.
      intros (ma & Hma & (mb & Hmb & H)%bind_Ok)%bind_Ok. exists (x :: va), (y :: vb), ma, mb.
      split_and!; try done. destruct (num_ltb _ _); [by left|]. right. by destruct (num_gtb _ _).
    - intros (va & vb & ma & mb & Ha & Hb & Hma & Hmb & H). rewrite Ha, Hb. cbn [default id].
      destruct va as [|x va]; [done|]. destruct vb as [|y vb]; [done|].
      rewrite Hma, Hmb. cbn [mbind res_bind]. destruct H as [->| ->]; [done|]. by destruct (num_ltb _ _). }
  setoid_rewrite <-Hm. unfold compare_stability. set (l := sorted_strs _).
  assert (∀ n, n ∈ l ↔ n ∈ od_keys a ++ od_keys b) as Hl.
  { intros n. unfold l, sorted_strs. by rewrite elem_of_sort_by, elem_of_py_set. }
  setoid_rewrite <-Hl. clear. split.
  - intros (ls & Hls & [= Hc])%bind_Ok. apply mapR_Ok in Hls.
    induction Hls as [|n x l ls Hx _ IH]; [intros n ?%elem_of_nil; done|].
    cbn in Hc. apply app_eq_nil in Hc as [-> Hc]. intros m [->|Hmm]%elem_of_cons; [done|]. by apply IH.
  - intros H. rewrite (mapR_total _ (λ _, [])) by done. cbn [mbind res_bind]. f_equal. clear H.
    by induction l.
Qed.

(** ** Groups *)
Definition key_of (ks : list string) (r : row) : res (list pyval) := mapR (λ k, get k r) ks.
Definition in_group (ks : list string) (key : list pyval) (rows : list row) : list row :=
  filter (λ r, key_of ks r = Ok key) rows.
Lemma group_by_spec ks rows d : group_by ks rows = Ok d →
  NoDup (od_keys d) ∧ (∀ r, r ∈ rows → ∃ key, key_of ks r = Ok key) ∧
  ∀ key, od_get key d = match in_group ks key rows with [] => None | l => Some l end.
Proof.
  revert d. induction rows as [|r rows IH] using rev_ind; intros d H.
  - injection H as <-. split; [constructor|]. split; [by intros r ?%elem_of_nil|done].
  - unfold group_by in H. rewrite foldM_app in H. apply bind_Ok in H as (d0 & H0 & H).
    destruct (IH d0 H0) as (Hnd & Hk & Hg). cbn [foldM] in H.
    apply bind_Ok in H as (d1 & H1 & [= <-]). apply bind_Ok in H1 as (key & Hkey & [= <-]).
    split; [by apply od_set_NoDup|]. split.
    { intros r' [Hr'| ->%list_elem_of_singleton]%elem_of_app; [auto|by exists key]. }
    intros key'. unfold od_push, od_upd. rewrite od_get_set, Hg.
    unfold in_group. rewrite filter_app. change (key_of ks r = Ok key) in Hkey.
    rewrite filter_cons, filter_nil. destruct (decide (key = key')) as [->|Hne].
    + rewrite (decide_True (P := key_of ks r = Ok key')) by done. by destruct (filter _ rows).
    + rewrite (decide_False (P := key_of ks r = Ok key')) by congruence. rewrite app_nil_r. apply Hg.
Qed.
Lemma group_by_elem ks rows d key l : group_by ks rows = Ok d →
  (key, l) ∈ d ↔ l = in_group ks key rows ∧ l ≠ [].
Proof.
  intros Hd. destruct (group_by_spec _ _ _ Hd) as (Hnd & _ & Hg). split.
  - intros Hin. apply (od_get_NoDup _ _ _ Hnd) in Hin. rewrite Hg in Hin.
    destruct (in_group ks key rows); [done|]. injection Hin as <-. done.
  - intros [-> Hne]. apply od_get_Some_elem. rewrite Hg. by destruct (in_group ks key rows).
Qed.

(** ** The ARP-loss signature is exact *)
Definition arm_of : row → res (list pyval) := key_of ["system"; "config"].
Definition ftx_of (r : row) : option Z :=
  match get "guest_ftx_ns" r with
  | Ok v => if is_str v "" then None else match py_int v with Ok z => Some z | Err _ => None end
  | Err _ => None
  end.
(** The upper median of the arm's recorded first-TX times. *)
Definition arm_median (key : list pyval) (runs : list row) : option Z :=
  let vals := omap ftx_of (in_group ["system"; "config"] key runs) in
  sort_by Z.leb vals !! (length vals / 2)%nat.
(** Row [r] of the batch is a loss event [e]. *)
Definition lost (runs : list row) (r : row) (e : arp_event) : Prop :=
  arm_of r = Ok [ae_system e; ae_config e] ∧ arm_median [ae_system e; ae_config e] runs = Some (ae_median e) ∧
  ftx_of r = Some (ae_ftx e) ∧ ARP_LOSS_MARGIN_NS < ae_ftx e - ae_median e ∧
  get "batch_id" r = Ok (ae_batch e) ∧ get "trial" r = Ok (ae_trial e) ∧ get "warmup" r = Ok (ae_warmup e) ∧
  ae_arp_req e = get_or "guest_arp_req_n" (PStr "") r.
Lemma ftx_filter rows l vals : filterR has_ftx rows = Ok l → mapR (get_int "guest_ftx_ns") l = Ok vals →
  vals = omap ftx_of rows.
Proof.
  revert l vals. induction rows as [|r rows IH]; intros l vals; cbn [filterR].
  - intros [= <-] [= <-]. done.
  - unfold has_ftx at 1. intros (b & (v & Hv & [= <-])%bind_Ok & (ys & Hys & [= <-])%bind_Ok)%bind_Ok.
    cbn [omap list_omap]. unfold ftx_of at 1. rewrite Hv. destruct (is_str v ""); cbn [negb].
    + intros Hm. by apply (IH ys).
    + cbn [mapR]. assert (get_int "guest_ftx_ns" r = py_int v) as -> by (unfold get_int; by rewrite Hv).
      intros (z & Hz & (zs & Hzs & [= <-])%bind_Ok)%bind_Ok. rewrite Hz. f_equal. by apply (IH ys).
Qed.
Lemma arm_events_spec key med r es : arm_events key med r = Ok es →
  ∀ e, e ∈ es ↔ ftx_of r = Some (ae_ftx e) ∧ ARP_LOSS_MARGIN_NS < ae_ftx e - ae_median e ∧ ae_median e = med ∧
    ae_system e = default PNone (key !! 0%nat) ∧ ae_config e = default PNone (key !! 1%nat) ∧
    get "batch_id" r = Ok (ae_batch e) ∧ get "trial" r = Ok (ae_trial e) ∧ get "warmup" r = Ok (ae_warmup e) ∧
    ae_arp_req e = get_or "guest_arp_req_n" (PStr "") r.
Proof.
  unfold arm_events, has_ftx, ftx_of. intros (b & (v & Hv & [= <-])%bind_Ok & H)%bind_Ok e. rewrite Hv.
  destruct (is_str v ""); cbn [negb] in H.
  { injection H as <-. rewrite elem_of_nil. naive_solver. }
  apply bind_Ok in H as (z & Hz & H). unfold get_int in Hz. rewrite Hv in Hz. cbn [mbind res_bind] in Hz. rewrite Hz.
  destruct (Z.ltb_spec ARP_LOSS_MARGIN_NS (z - med)) as [Hm|Hm].
  - apply bind_Ok in H as (bt & Hb & H). apply bind_Ok in H as (t & Ht & H). apply bind_Ok in H as (w & Hw & [= <-]).
    rewrite list_elem_of_singleton. rewrite Hb, Ht, Hw. split.
    + intros ->. cbn. split_and!; done.
    + destruct e; cbn. intros ([= <-] & _ & -> & -> & -> & [= <-] & [= <-] & [= <-] & ->). done.
  - injection H as <-. rewrite elem_of_nil. split; [done|]. intros (Hf & Hlt & Hmd & _).
    injection Hf as Hf. lia.
Qed.
Lemma concat_elem {A} (ls : list (list A)) x : x ∈ List.concat ls ↔ ∃ l, l ∈ ls ∧ x ∈ l.
Proof. rewrite list_elem_of_In, in_concat. setoid_rewrite <-list_elem_of_In. done. Qed.

(** The events of an arm are those of its rows, against its median. *)
Lemma arm_signature_elem runs key es : arm_signature (key, in_group ["system"; "config"] key runs) = Ok es → ∀ e, e ∈ es ↔
  ∃ r med, r ∈ in_group ["system"; "config"] key runs ∧ arm_median key runs = Some med ∧
    ∃ es', arm_events key med r = Ok es' ∧ e ∈ es'.
Proof.
  intros H e. unfold arm_signature in H. cbn [fst snd] in H.
  apply bind_Ok in H as (l & Hl & H). apply bind_Ok in H as (vals & Hv & H).
  pose proof (ftx_filter _ _ _ Hl Hv) as ->. unfold arm_median. cbv zeta.
  destruct (sort_by Z.leb _ !! _) as [med|].
  - apply bind_Ok in H as (ess & Hess & [= <-]). apply mapR_Ok in Hess. rewrite concat_elem. split.
    + intros (es' & Hin & He). destruct (Forall2_elem_r _ _ _ _ Hess Hin) as (r & Hr & Hes). naive_solver.
    + intros (r & med' & Hr & [= <-] & es' & Hes & He). destruct (Forall2_elem_l _ _ _ _ Hess Hr) as (es2 & Hin & Hes2).
      exists es2. split; [done|]. congruence.
  - injection H as <-. rewrite elem_of_nil. naive_solver.
Qed.

(** C27. The loss signature is exact: the events are those of the rows whose
    first-TX time exceeds their arm's upper median by more than 20 ms, each
    carrying its row's identity; none is invented and none is dropped. *)
Theorem arp_signature_exact (runs : list row) (events : list arp_event)
    (Hok : arp_signature runs = Ok events) :
  ∀ e, e ∈ events ↔ ∃ r, r ∈ runs ∧ lost runs r e.
Proof.
  unfold arp_signature in Hok. apply bind_Ok in Hok as (u & _ & Hok).
  apply bind_Ok in Hok as (d & Hd & Hok). apply bind_Ok in Hok as (items & Hi & Hok).
  apply bind_Ok in Hok as (ls & Hls & [= <-]).
  assert (∀ kl, kl ∈ items ↔ kl ∈ d) as Hitems.
  { unfold sorted_items in Hi. destruct (forallb _ _); [|done]. injection Hi as <-. intros kl. apply elem_of_sort_by. }
  pose proof (arm_signature_elem runs) as Harm.
  apply mapR_Ok in Hls. intros e. rewrite concat_elem. split.
  - intros (es & Hes & He). destruct (Forall2_elem_r _ _ _ _ Hls Hes) as ([key l] & Hin & Hsig).
    rewrite Hitems, (group_by_elem _ _ _ _ _ Hd) in Hin. destruct Hin as [-> Hne].
    destruct (proj1 (Harm key es Hsig e) He) as (r & med & Hr & Hmed & es' & Hes' & He').
    apply list_elem_of_filter in Hr as [Hkey Hr]. exists r. split; [done|].
    apply (arm_events_spec _ _ _ _ Hes') in He' as (Hf & Hlt & Hmed' & Hs & Hc & Hrest). subst med.
    assert (key = [ae_system e; ae_config e]) as Hke.
    { unfold key_of in Hkey. cbn [mapR] in Hkey. apply bind_Ok in Hkey as (s & _ & Hkey).
      apply bind_Ok in Hkey as (ks & Hkey & [= <-]). apply bind_Ok in Hkey as (c & _ & [= <-]).
      cbn in Hs, Hc. by subst. }
    subst key. unfold lost. tauto.
  - intros (r & Hr & (Harmr & Hmed & Hf & Hlt & Hb & Ht & Hw & Hreq)).
    set (key := [ae_system e; ae_config e]) in *.
    assert (r ∈ in_group ["system"; "config"] key runs) as Hin by (by apply list_elem_of_filter).
    assert ((key, in_group ["system"; "config"] key runs) ∈ items) as Hki.
    { rewrite Hitems, (group_by_elem _ _ _ _ _ Hd). split; [done|]. intros Hnil. rewrite Hnil in Hin.
      by apply elem_of_nil in Hin. }
    destruct (Forall2_elem_l _ _ _ _ Hls Hki) as (es & Hes & Hsig). exists es. split; [done|].
    apply (Harm key es Hsig). exists r, (ae_median e). split; [done|]. split; [done|].
    assert (∃ es', arm_events key (ae_median e) r = Ok es') as [es' Hes'].
    { unfold arm_events, has_ftx. unfold ftx_of in Hf. destruct (get "guest_ftx_ns" r) as [v|] eqn:Ev; [|done].
      cbn [mbind res_bind]. destruct (is_str v ""); [done|]. cbn [negb]. unfold get_int. rewrite Ev.
      cbn [mbind res_bind]. destruct (py_int v) as [z|]; [|done]. cbn [mbind res_bind].
      destruct (_ <? _); [|eauto]. rewrite Hb, Ht, Hw. cbn. eauto. }
    exists es'. split; [done|]. apply (arm_events_spec _ _ _ _ Hes'). cbn. tauto.
Qed.
Definition demo_arm : list row :=
  (λ v, [("batch_id", PStr "b"); ("trial", PStr "1"); ("warmup", PStr "0"); ("system", PStr "linux");
         ("config", PStr "stock"); ("guest_ftx_ns", PStr v); ("guest_arp_req_n", PStr "1")])
  <$> ["12300000"; "12400000"; "64700000"; ""].
Definition demo_event : arp_event :=
  {| ae_system := PStr "linux"; ae_config := PStr "stock"; ae_batch := PStr "b"; ae_trial := PStr "1";
     ae_warmup := PStr "0"; ae_ftx := 64700000; ae_median := 12400000; ae_arp_req := PStr "1" |}.
Lemma arp_signature_exact_witness :
  arp_signature demo_arm = Ok [demo_event] ∧ ∃ r, r ∈ demo_arm ∧ lost demo_arm r demo_event.
Proof.
  split; [by vm_compute|].
  apply (arp_signature_exact demo_arm [demo_event] ltac:(by vm_compute)). set_solver.
Defined.
