(* ===== verification/BenchRun.v ===== *)
(** * Trials and campaigns (scripts/bench.py)

    One trial from its observations to its row, the shuffled schedule, the
    campaign loop with its gate-failure journal.  What the
    outside does during a trial (the client, QEMU, the serial log, tshark on
    the pcap, the steal counter before and after) is a [world]; waiting loops
    are represented by how they ended. *)
From stdpp Require Import gmap.
From S2P Require Import Prelude PyStr Regex PyFloat PyData PyJson PyCsv BenchSerial PcapHttp D0070Pass BenchHost BenchTables.
From Stdlib Require Import Ascii.

(** ** One trial *)
Inductive ready := ClientReady | ClientExited (status : Z) | ClientLate.
Record obs := {
  o_ready : ready;
  o_e0_mono : Z; o_e0_wall : Z;
  o_qemu : option Z;                (* exit status, None when it timed out *)
  o_client_done : bool;             (* the client ended within the grace *)
  o_client : option string;         (* the text of the result JSON, None when missing *)
  o_serial : string;
  o_host : host                     (* tshark on the recorded pcap *)
}.
Record trial_result := { tr_e0_mono : Z; tr_e0_wall : Z; tr_connect : Z; tr_e4 : Z; tr_ex : extract;
                         tr_attempts : Z; tr_phases : list row; tr_qemu_status : Z }.
Record trial_args := { ta_arm : Arm; ta_extra : list string; ta_dir : string; ta_qemu_cpu : Z; ta_client_cpu : Z;
                       ta_port : Z; ta_client_timeout : num; ta_qemu_wait : num; ta_bios : option string }.
Definition pcap_of (dir : string) : string := dir +:+ "/qemu.pcap".

Section trial.
Context (h : host) (root python : string) (launch : list string → list string → obs).
Definition client_cmd (a : trial_args) : list string :=
  ["taskset"; "-c"; str_of_Z (ta_client_cpu a); python; root +:+ "/scripts/bench-client.py"; "--port";
   str_of_Z (ta_port a); "--timeout-s"; num_repr (ta_client_timeout a); "--ready"; ta_dir a +:+ "/client.ready";
   "--out"; ta_dir a +:+ "/client.json"].
Definition qemu_cmd (a : trial_args) (qemu : string) (args : list string) : list string :=
  ["taskset"; "-c"; str_of_Z (ta_qemu_cpu a)] ++ (if is_some (h_which h "stdbuf") then ["stdbuf"; "-oL"] else [])
  ++ [qemu] ++ args ++ ta_extra a.
(** What must hold of the serial log, per system. *)
Definition check_serial_text (sys text : string) : res unit :=
  _ ← raise_when (str_in "PANIC" text || str_in "Kernel panic" text) (BenchFail "TEST FAIL: guest panic");
  _ ← falsifier3_scan text;
  _ ← d0081_probe_scan text;
  if String.eqb sys "linux" then
    _ ← raise_when (str_in "INIT FAIL:" text) (BenchFail "TEST FAIL: Linux /init INIT FAIL");
    _ ← raise_when (negb (str_in "READY" text)) (BenchFail "TEST FAIL: Linux READY missing");
    raise_when (negb (str_in "LINUX INIT OK" text)) (BenchFail "TEST FAIL: LINUX INIT OK missing")
  else Ok tt.
Definition check_processes (a : trial_args) (o : obs) : res Z :=
  _ ← match o_ready o with
      | ClientReady => Ok tt
      | ClientLate => Err (BenchFail "TEST FAIL: measurement client never became ready")
      | ClientExited s => Err (BenchFail ("TEST FAIL: measurement client exited before ready (" +:+ str_of_Z s +:+ ")"))
      end;
  status ← of_option (BenchFail ("TEST FAIL: QEMU timed out after " +:+ num_repr (ta_qemu_wait a) +:+ "s")) (o_qemu o);
  _ ← raise_when (negb (o_client_done o))
        (BenchFail "TEST FAIL: measurement client did not finish after QEMU exit");
  Ok status.
(** The client's result, an object with the reply and both stamps. *)
Definition check_client (o : obs) : res jobj :=
  text ← of_option (BenchFail "TEST FAIL: client result JSON missing") (o_client o);
  data ← json_loads text;
  d ← j_obj AttributeError data;
  _ ← raise_when (negb (j_true (j_get "body_ok" d))) (BenchFail "TEST FAIL: client did not receive the 92-byte RESP");
  _ ← raise_when (j_null (j_get "first_connect_mono_ns" d)) (BenchFail "TEST FAIL: no first-connect stamp");
  _ ← raise_when (j_null (j_get "first_byte_mono_ns" d)) (BenchFail "TEST FAIL: no first-byte stamp (E4)");
  Ok d.
Definition run_trial (a : trial_args) : res trial_result :=
  tshark ← require_tshark_bench h;
  let pcap := pcap_of (ta_dir a) in
  '(qemu, args) ← qemu_argv h root pcap (ta_port a) (ta_bios a);
  let o := launch (client_cmd a) (qemu_cmd a qemu args) in
  status ← check_processes a o;
  d ← check_client o;
  _ ← check_serial_text (system (ta_arm a)) (o_serial o);
  phases ← phases_from_serial (o_serial o) (system (ta_arm a));
  fc ← j_field "first_connect_mono_ns" d;
  fb ← j_field "first_byte_mono_ns" d;
  ex ← require_pcap_intervals (o_host o) pcap tshark (system (ta_arm a));
  _ ← (if String.eqb (system (ta_arm a)) "linux"
       then _ ← rewrap PcapExtractErrorC BenchFailC (assert_syn_grid (h_run (o_host o)) (h_size (o_host o)) pcap tshark);
            Ok tt
       else Ok tt);
  attempts ← j_field "attempts" d;
  Ok {| tr_e0_mono := o_e0_mono o; tr_e0_wall := o_e0_wall o; tr_connect := fc - o_e0_mono o;
        tr_e4 := fb - o_e0_mono o; tr_ex := ex; tr_attempts := attempts; tr_phases := phases;
        tr_qemu_status := status |}.
End trial.

(** ** The schedule *)
(** [rng seed k m]: the [k]-th draw of [random.Random(seed)._randbelow(m)]. *)
Definition swap {A} (i j : nat) (l : list A) : list A :=
  match l !! i, l !! j with Some x, Some y => <[i := y]> (<[j := x]> l) | _, _ => l end.
(** [random.shuffle]: for [i] from the last index down to 1, swap with a draw
    below [i + 1]; [k] counts the draws. *)
Fixpoint shuffle_from {A} (rng : nat → nat → nat) (k i : nat) (l : list A) : list A :=
  match i with
  | O => l
  | S i' => shuffle_from rng (S k) i' (swap i (rng k (S i)) l)
  end.
Definition shuffle {A} (rng : nat → nat → nat) (l : list A) : list A := shuffle_from rng 0 (length l - 1) l.
Definition trials_from (first n : Z) : list Z := seqZ first n.
Definition recorded_schedule (rng : Z → nat → nat → nat) (configs : list string) (n warmup seed batch_i : Z) :
    list (string * Z) :=
  shuffle (rng (seed + batch_i))
    (mjoin ((λ cfg, (λ t, (cfg, t)) <$> trials_from (warmup + 1) n) <$> configs)).

Record trial := { t_config : string; t_number : Z; t_is_warmup : Z; t_batch_id : string }.
Definition warmup_trials (batch_id : string) (configs : list string) (warmup : Z) : list trial :=
  mjoin ((λ w, (λ c, {| t_config := c; t_number := w; t_is_warmup := 1; t_batch_id := batch_id |}) <$> configs)
         <$> trials_from 1 warmup).
Definition batch_trials (rng : Z → nat → nat → nat) (stamp : string) (configs : list string)
    (n warmup seed batch_i : Z) : list trial :=
  let batch_id := stamp +:+ "-" +:+ str_of_Z batch_i in
  warmup_trials batch_id configs warmup ++
  ((λ ct, {| t_config := ct.1; t_number := ct.2; t_is_warmup := 0; t_batch_id := batch_id |})
   <$> recorded_schedule rng configs n warmup seed batch_i).
Definition campaign_trials (rng : Z → nat → nat → nat) (stamp : string) (configs : list string)
    (n warmup batches seed : Z) : list trial :=
  mjoin ((λ b, batch_trials rng stamp configs n warmup seed b) <$> trials_from 1 batches).

(** ** The campaign loop *)
(** What a trial sees: its observations and the counter before and after. *)
Record world := { w_launch : list string → list string → obs; w_before : host; w_after : host }.
Record bench_state := { b_order : Z; b_runs : list row; b_phases : list row; b_fs : files; b_out : list string }.
Record kernel_t := { k_path : string; k_hash : string; k_arm : Arm }.
(** What every row of the campaign repeats. *)
Record campaign_env := {
  ce_git_sha : string; ce_dirty : Z; ce_meta : host_meta_t; ce_ctrl : odict string pyval;
  ce_qemu_cpu : Z; ce_client_cpu : Z; ce_port : Z; ce_gran : Z; ce_seed : Z; ce_timeout : num;
  ce_canary : odict string Z; ce_kernels : odict string kernel_t;
  ce_bios_blob : option string; ce_bios_sha : string; ce_out_dir : string
}.

Section campaign.
Context (h : host) (root python : string) (relpath : string → string).
Context (env : campaign_env) (worlds : Z → world).

Definition ctrl (k : string) : pyval := get_or k PNone (ce_ctrl env).
Definition canary_of (k : string) : pyval :=
  match od_get k (ce_canary env) with Some z => PInt z | None => PNone end.
Definition run_row (t : trial) (k : kernel_t) (order steal_delta steal_ns : Z) (r : trial_result) (pcap : string) : row :=
  let ex := tr_ex r in
  [("batch_id", PStr (t_batch_id t)); ("trial", PInt (t_number t)); ("warmup", PInt (t_is_warmup t));
   ("system", PStr (system (k_arm k))); ("config", PStr (t_config t)); ("git_sha", PStr (ce_git_sha env));
   ("dirty", PInt (ce_dirty env)); ("kernel_sha256", PStr (k_hash k));
   ("bios_sha256", PStr (if bool_decide (qemu_bios (k_arm k) = Some "mshim") then ce_bios_sha env else ""));
   ("qemu_version", PStr (hm_qemu_version (ce_meta env))); ("qemu_hash", PStr (hm_qemu_hash (ce_meta env)));
   ("host_kernel", PStr (hm_kernel (ce_meta env))); ("cpu_model", PStr (hm_cpu (ce_meta env)));
   ("governor", ctrl "governor"); ("smt_control", ctrl "smt_control"); ("cpufreq_boost", ctrl "cpufreq_boost");
   ("virt", ctrl "virt"); ("steal_start_ticks", ctrl "steal_start_ticks");
   ("loadavg_1m", PStr (hm_loadavg (ce_meta env)));
   ("canary_stvec_ns", canary_of "canary_stvec_ns"); ("canary_page_verify_ns", canary_of "canary_page_verify_ns");
   ("qemu_cpu", PInt (ce_qemu_cpu env)); ("client_cpu", PInt (ce_client_cpu env));
   ("client_granularity_ns", PInt (ce_gran env)); ("shuffle_seed", PInt (ce_seed env)); ("run_order", PInt order);
   ("steal_ticks", PInt steal_delta); ("steal_ns", PInt steal_ns); ("e0_mono_ns", PInt (tr_e0_mono r));
   ("e0_wall_ns", PInt (tr_e0_wall r)); ("e0_to_first_connect_ns", PInt (tr_connect r));
   ("e0_to_e4_ns", PInt (tr_e4 r)); ("w_ns", PInt (w_ns ex)); ("d_ack_ns", PInt (d_ack_ns ex));
   ("d_fin_ns", PInt (d_fin_ns ex)); ("synack_to_http_ns", PInt (synack_to_http_ns ex));
   ("guest_ftx_ns", match guest_ftx_ns ex with Some z => PInt z | None => PStr "" end);
   ("guest_arp_req_n", PInt (guest_arp_req_n ex)); ("attempts", PInt (tr_attempts r)); ("pcap_path", PStr pcap)].
Definition phase_out_row (t : trial) (k : kernel_t) (ph : row) : res row :=
  vs ← mapR (λ f, v ← get f ph; Ok (f, v)) ["phase"; "ticks"; "ns_since_e2"; "delta_ticks"; "delta_ns"; "source"];
  Ok ([("batch_id", PStr (t_batch_id t)); ("trial", PInt (t_number t)); ("warmup", PInt (t_is_warmup t));
       ("system", PStr (system (k_arm k))); ("config", PStr (t_config t))] ++ vs).
Definition trial_dir (t : trial) : string :=
  ce_out_dir env +:+ "/trials/" +:+ t_batch_id t +:+ "/" +:+ t_config t +:+ "/" +:+ rjust 2 (chr 48) (str_of_Z (t_number t)).
Definition trial_args_of (t : trial) (k : kernel_t) : res trial_args :=
  append ← linux_append_for (k_arm k);
  let cpio := if String.eqb (system (k_arm k)) "linux" then Some (linux_art_dir root +:+ "/rootfs.cpio") else None in
  extra ← guest_qemu_extra (k_arm k) (k_path k) cpio append;
  Ok {| ta_arm := k_arm k; ta_extra := extra; ta_dir := trial_dir t; ta_qemu_cpu := ce_qemu_cpu env;
        ta_client_cpu := ce_client_cpu env; ta_port := ce_port env; ta_client_timeout := ce_timeout env;
        ta_qemu_wait := qemu_timeout_s (system (k_arm k)) (ce_timeout env);
        ta_bios := if bool_decide (qemu_bios (k_arm k) = Some "mshim")
                   then Some (default "None" (ce_bios_blob env)) else None |}.
Definition signature_line (r : trial_result) : res string :=
  match guest_ftx_ns (tr_ex r) with
  | Some ftx => f ← ms1 ftx; e ← ms1 (tr_e4 r);
      Ok ("bench:   guest_ftx=" +:+ f +:+ " ms arp_req=" +:+ str_of_Z (guest_arp_req_n (tr_ex r)) +:+ " e0_to_e4="
          +:+ e +:+ " ms")
  | None => Ok ("bench:   guest_ftx=- arp_req=" +:+ str_of_Z (guest_arp_req_n (tr_ex r)))
  end.
Definition runs_csv : string := ce_out_dir env +:+ "/runs.csv".
Definition phases_csv : string := ce_out_dir env +:+ "/phases.csv".
(** A trial's outcome: the new state, and the exception that aborts, if any. *)
Abbreviation step := (bench_state * option exn)%type.
Definition say (line : string) (s : bench_state) : bench_state :=
  {| b_order := b_order s; b_runs := b_runs s; b_phases := b_phases s; b_fs := b_fs s; b_out := b_out s ++ [line] |}.
Definition with_fs (fs : files) (s : bench_state) : bench_state :=
  {| b_order := b_order s; b_runs := b_runs s; b_phases := b_phases s; b_fs := fs; b_out := b_out s |}.
Definition start_trial (s : bench_state) : bench_state :=
  {| b_order := b_order s + 1; b_runs := b_runs s; b_phases := b_phases s; b_fs := b_fs s; b_out := b_out s |}.
Definition add_rows (r : row) (ps : list row) (s : bench_state) : bench_state :=
  {| b_order := b_order s; b_runs := b_runs s ++ [r]; b_phases := b_phases s ++ ps; b_fs := b_fs s; b_out := b_out s |}.
(** Before the guest starts: the kernel, its arguments and the steal counter. *)
Definition prepare (t : trial) (w : world) : res (kernel_t * trial_args * Z) :=
  k ← of_option (KeyError (repr_str (t_config t))) (od_get (t_config t) (ce_kernels env));
  a ← trial_args_of t k;
  steal0 ← read_steal_ticks (w_before w);
  Ok (k, a, steal0).
(** After it: the steal gate and the rows. *)
Definition finish (t : trial) (k : kernel_t) (a : trial_args) (w : world) (order steal0 : Z) (r : trial_result) :
    res (row * list row * string) :=
  steal1 ← read_steal_ticks (w_after w);
  let steal_delta := steal1 - steal0 in
  _ ← require_steal_delta_zero (w_after w) steal_delta;
  steal_ns ← steal_ticks_to_ns (w_after w) steal_delta;
  line ← signature_line r;
  ps ← mapR (phase_out_row t k) (tr_phases r);
  Ok (run_row t k order steal_delta steal_ns r (relpath (pcap_of (ta_dir a))), ps, line).
Definition trial_line (t : trial) (k : kernel_t) (order : Z) : string :=
  "bench: batch=" +:+ t_batch_id t +:+ " system=" +:+ system (k_arm k) +:+ " config=" +:+ t_config t +:+ " trial="
  +:+ str_of_Z (t_number t) +:+ " warmup=" +:+ str_of_Z (t_is_warmup t) +:+ " run_order=" +:+ str_of_Z order.
Definition id_of (t : trial) (k : kernel_t) (order : Z) : trial_id :=
  {| t_batch := t_batch_id t; t_trial := t_number t; t_warmup := t_is_warmup t; t_system := system (k_arm k);
     BenchTables.t_config := t_config t; t_order := order |}.
Definition one_trial (t : trial) (s : bench_state) : step :=
  let s := start_trial s in
  let w := worlds (b_order s) in
  match prepare t w with
  | Err e => (s, Some e)
  | Ok (k, a, steal0) =>
    let s := say (trial_line t k (b_order s)) s in
    match run_trial h root python (w_launch w) a with
    | Err (UserExn BenchFailC msg) =>
      let '(fs, line) := record_gate_failure (w_after w) root relpath (id_of t k (b_order s)) (pcap_of (ta_dir a)) msg None (b_fs s) in
      (say line (with_fs fs s), Some (BenchFail msg))
    | Err e => (s, Some e)
    | Ok r =>
      match finish t k a w (b_order s) steal0 r with
      | Err e => (s, Some e)
      | Ok (rw, ps, line) =>
        let s := say line (add_rows rw ps s) in
        (with_fs (write_csv phases_csv PHASES_FIELDS (b_phases s) (write_csv runs_csv RUNS_FIELDS (b_runs s) (b_fs s))) s,
         None)
      end
    end
  end.
(** The trials in order, up to the first exception. *)
Fixpoint run_trials (ts : list trial) (s : bench_state) : step :=
  match ts with
  | [] => (s, None)
  | t :: ts => match one_trial t s with
               | (s', None) => run_trials ts s'
               | (s', Some e) => (s', Some e)
               end
  end.
End campaign.

(** ** The schedule: lemmas *)
Lemma swap_perm {A} i j (l : list A) : swap i j l ≡ₚ l.
Proof.
  unfold swap. destruct (l !! i) as [x|] eqn:Ei; [|done]. destruct (l !! j) as [y|] eqn:Ej; [|done].
  destruct (decide (i = j)) as [->|Hne].
  { assert (x = y) as -> by congruence. by rewrite !(list_insert_id _ _ _ Ej). }
  apply Permutation_inj. split; [by rewrite !length_insert|].
  exists (λ k, if decide (k = i) then j else if decide (k = j) then i else k). split.
  - intros a b. repeat case_decide; naive_solver.
  - intros k. destruct (decide (k = i)) as [->|Hi].
    + rewrite list_lookup_insert_eq by (rewrite length_insert; by eapply lookup_lt_Some). done.
    + rewrite list_lookup_insert_ne by done. destruct (decide (k = j)) as [->|Hj].
      * rewrite list_lookup_insert_eq by (by eapply lookup_lt_Some). done.
      * by rewrite list_lookup_insert_ne by done.
Qed.
Lemma shuffle_perm {A} rng (l : list A) : shuffle rng l ≡ₚ l.
Proof.
  unfold shuffle. generalize (length l - 1)%nat as i. intros i. generalize 0%nat as k. revert l.
  induction i as [|i IH]; intros l k; cbn [shuffle_from]; [done|]. by rewrite IH, swap_perm.
Qed.
Lemma NoDup_pairs {A} (configs : list A) (ts : list Z) : NoDup configs → NoDup ts →
  NoDup (mjoin ((λ cfg, (λ t, (cfg, t)) <$> ts) <$> configs)).
Proof.
  intros Hc Ht. induction Hc as [|c configs Hin _ IH]; cbn; [constructor|].
  apply NoDup_app. split_and!; [|clear IH|done].
  - apply NoDup_fmap; [|done]. by intros ?? [= ->].
  - intros [c' t] (t' & [= -> ->] & _)%list_elem_of_fmap (l & Hl & (c2 & -> & Hc2)%list_elem_of_fmap)%list_elem_of_join.
    apply list_elem_of_fmap in Hl as (? & [= ->] & _). done.
Qed.
Lemma elem_pairs {A} (configs : list A) (ts : list Z) c t :
  (c, t) ∈ mjoin ((λ cfg, (λ t, (cfg, t)) <$> ts) <$> configs) ↔ c ∈ configs ∧ t ∈ ts.
Proof.
  rewrite list_elem_of_join. setoid_rewrite list_elem_of_fmap. split.
  - intros (l & Hl & c' & -> & Hc). apply list_elem_of_fmap in Hl as (t' & [= -> ->] & Ht). done.
  - intros [Hc Ht]. eexists. split; [|by eexists]. apply list_elem_of_fmap. eauto.
Qed.
Lemma length_pairs {A} (configs : list A) (ts : list Z) :
  length (mjoin ((λ cfg, (λ t, (cfg, t)) <$> ts) <$> configs)) = (length configs * length ts)%nat.
Proof. 
  induction configs as [|c configs IH]; [done|]. etransitivity; [apply length_app|].
  cbn [length Nat.mul]. f_equal; [apply length_fmap|exact IH].
Qed.
Lemma elem_trials_from a n t : t ∈ trials_from a n ↔ a <= t < a + n.
Proof. apply elem_of_seqZ. Qed.
Lemma NoDup_trials_from a n : NoDup (trials_from a n).
Proof. apply NoDup_seqZ. Qed.

(** C34. The recorded schedule of a batch is fair whatever the generator
    draws: every arm runs each trial number [warmup+1 .. warmup+n] exactly
    once, and nothing else is scheduled. *)
Theorem recorded_schedule_fair (rng : Z → nat → nat → nat) (configs : list string) (n warmup seed batch : Z)
    (Hnd : NoDup configs) :
  let s := recorded_schedule rng configs n warmup seed batch in
  NoDup s ∧ (∀ c t, (c, t) ∈ s ↔ c ∈ configs ∧ warmup < t <= warmup + n) ∧
  length s = (length configs * Z.to_nat n)%nat.
Proof.
  cbn zeta. unfold recorded_schedule.
  set (pairs := mjoin _). assert (shuffle (rng (seed + batch)) pairs ≡ₚ pairs) as Hp by apply shuffle_perm.
  rewrite Hp. split_and!.
  - apply NoDup_pairs; [done|]. apply NoDup_trials_from.
  - intros c t. rewrite Hp. unfold pairs. rewrite elem_pairs, elem_trials_from. split; intros [? ?]; (split; [done|lia]).
  - unfold pairs. rewrite length_pairs. f_equal. apply length_seqZ.
Qed.
Lemma recorded_schedule_fair_witness :
  NoDup (recorded_schedule (λ s k m, (Z.to_nat s * 7 + k * 3) mod m)%nat ["trimmed"; "stock"] 30 3 11 1).
Proof.
  apply (recorded_schedule_fair (λ s k m, (Z.to_nat s * 7 + k * 3) mod m)%nat ["trimmed"; "stock"] 30 3 11 1).
  apply (bool_decide_eq_true_1 (NoDup ["trimmed"; "stock"])). by vm_compute.
Defined.

(** The trials of an arm in a batch. *)
Definition arm_trials (c : string) (ts : list trial) : list trial := filter (λ t, t_config t = c) ts.
Lemma batch_trial_elem rng stamp configs n warmup seed b t : t ∈ batch_trials rng stamp configs n warmup seed b ↔
  t_batch_id t = stamp +:+ "-" +:+ str_of_Z b ∧ t_config t ∈ configs ∧
  ((t_is_warmup t = 1 ∧ 1 <= t_number t <= warmup) ∨ (t_is_warmup t = 0 ∧ warmup < t_number t <= warmup + n)).
Proof.
  unfold batch_trials, warmup_trials. rewrite elem_of_app, list_elem_of_join, list_elem_of_fmap.
  setoid_rewrite list_elem_of_fmap. unfold recorded_schedule. setoid_rewrite shuffle_perm. split.
  - intros [(l & Hl & w & -> & Hw)|([c k] & -> & Hck)].
    + apply list_elem_of_fmap in Hl as (c & -> & Hc). cbn. apply elem_trials_from in Hw.
      split_and!; [done|done|]. left. lia.
    + apply elem_pairs in Hck as [Hc Hk]. apply elem_trials_from in Hk. cbn. split_and!; [done|done|]. right. lia.
  - destruct t as [c k w b']. cbn. intros (-> & Hc & [[-> Hk]|[-> Hk]]).
    + left. eexists. split; [|exists k; split; [done|apply elem_trials_from; lia]].
      apply list_elem_of_fmap. by exists c.
    + right. exists (c, k). split; [done|]. apply elem_pairs. split; [done|]. apply elem_trials_from. lia.
Qed.

Lemma length_join_const {A B} (f : A → list B) (n : nat) (l : list A) :
  (∀ x, x ∈ l → length (f x) = n) → length (mjoin (f <$> l)) = (length l * n)%nat.
Proof.
  induction l as [|x l IH]; intros H; [done|]. etransitivity; [apply length_app|].
  rewrite (H x) by set_solver. cbn [length Nat.mul]. f_equal. apply IH. intros y Hy. apply H. set_solver.
Qed.
Lemma length_campaign rng stamp configs n warmup batches seed :
  length (campaign_trials rng stamp configs n warmup batches seed) =
  (Z.to_nat batches * (length configs * (Z.to_nat warmup + Z.to_nat n)))%nat.
Proof.
  unfold campaign_trials. rewrite (length_join_const _ (length configs * (Z.to_nat warmup + Z.to_nat n))).
  - unfold trials_from. by rewrite length_seqZ.
  - intros b _. unfold batch_trials, warmup_trials, recorded_schedule. rewrite length_app, length_fmap, shuffle_perm.
    rewrite (length_join_const _ (length configs)) by (intros w _; apply length_fmap).
    rewrite length_pairs. unfold trials_from. rewrite !length_seqZ. lia.
Qed.

(** ** The campaign loop: lemmas *)
(** [r] is the accepted row of trial [t], run as number [order]. *)
Definition row_of (t : trial) (order : Z) (r : row) : Prop :=
  get "batch_id" r = Ok (PStr (t_batch_id t)) ∧ get "trial" r = Ok (PInt (t_number t)) ∧
  get "warmup" r = Ok (PInt (t_is_warmup t)) ∧ get "config" r = Ok (PStr (t_config t)) ∧
  get "run_order" r = Ok (PInt order) ∧ get "steal_ticks" r = Ok (PInt 0).
(** [r] is the gate-failure record of trial [t], run as number [order]. *)
Definition gate_row_of (t : trial) (order : Z) (msg : string) (r : row) : Prop :=
  get "batch_id" r = Ok (PStr (t_batch_id t)) ∧ get "trial" r = Ok (PInt (t_number t)) ∧
  get "warmup" r = Ok (PInt (t_is_warmup t)) ∧ get "config" r = Ok (PStr (t_config t)) ∧
  get "run_order" r = Ok (PInt order) ∧ get "gate" r = Ok (PStr (take_chars 240 (join " " (split_ws msg)))).
Lemma gate_signature_keys h pcap k : k ∈ od_keys (gate_failure_signature h pcap) →
  k ∈ ["guest_arp_req_n"; "guest_ftx_ns"; "syn_grid_dt_ns"].
Proof.
  unfold gate_failure_signature. cbv zeta.
  destruct (_ ≫= _) as [[[[tshark rows] arp] sa]|e]; [|by intros ?%elem_of_nil].
  destruct rows as [|tx rows], sa as [|a sa]; cbn [od_keys fmap list_fmap app fst]; try set_solver.
  destruct (_ ≫= _) as [[t_tx t_sa]|e]; [|cbn; set_solver].
  destruct (_ ≫= _) as [[tm|]|e]; cbn; set_solver.
Qed.
Lemma od_get_update {K V} `{!EqDecision K} (d u : odict K V) k : k ∉ od_keys u → od_get k (od_update d u) = od_get k d.
Proof.
  unfold od_update. revert d. induction u as [|[k' v] u IH]; intros d; [done|].
  rewrite od_keys_cons, not_elem_of_cons. intros [Hne Hu]. cbn [foldl]. rewrite IH by done.
  by rewrite od_get_set_ne.
Qed.
Lemma append_inj_r (a b x y : string) : a +:+ x = b +:+ y → String.length x = String.length y → x = y.
Proof.
  intros H Hl. apply (f_equal to_l) in H. rewrite !to_l_app in H.
  rewrite <-(of_l_to_l x), <-(of_l_to_l y). f_equal.
  eapply app_inj_2; [|exact H]. by rewrite !length_to_l.
Qed.
(** The three files of a campaign are different files. *)
Lemma campaign_paths root env :
  runs_csv env ≠ phases_csv env ∧ gate_failures_path root ≠ runs_csv env ∧ gate_failures_path root ≠ phases_csv env.
Proof.
  unfold runs_csv, phases_csv, gate_failures_path.
  assert (∀ o, o +:+ "/phases.csv" = (o +:+ "/p") +:+ "hases.csv") as ->.
  { intros o. rewrite <-(of_l_to_l (o +:+ _)), <-(of_l_to_l ((_ +:+ _) +:+ _)). f_equal.
    rewrite !to_l_app, <-app_assoc. done. }
  assert (∀ o, o +:+ "/results/gate-failures.csv" = (o +:+ "/results/gate-fai") +:+ "lures.csv") as ->.
  { intros o. rewrite <-(of_l_to_l (o +:+ _)), <-(of_l_to_l ((_ +:+ _) +:+ _)). f_equal.
    rewrite !to_l_app, <-app_assoc. done. }
  split_and!; intros H%append_inj_r; done.
Qed.

Section campaign_lemmas.
Context (h : host) (root python : string) (relpath : string → string) (env : campaign_env) (worlds : Z → world).
Abbreviation one := (one_trial h root python relpath env worlds).
Abbreviation run := (run_trials h root python relpath env worlds).

Lemma finish_row t k a w order steal0 r rw ps line : finish relpath env t k a w order steal0 r = Ok (rw, ps, line) →
  row_of t order rw.
Proof.
  unfold finish. intros H. apply bind_Ok in H as (steal1 & _ & H). cbv zeta in H.
  apply bind_Ok in H as (u & Hz & H). apply bind_Ok in H as (ns & _ & H). apply bind_Ok in H as (l & _ & H).
  apply bind_Ok in H as (ps' & _ & [= <- _ _]).
  assert (steal1 - steal0 = 0) as ->.
  { unfold require_steal_delta_zero in Hz. apply bind_Ok in Hz as (u' & _ & Hz).
    destruct (Z.eqb_spec (steal1 - steal0) 0); [done|]. by apply bind_Ok in Hz as (? & _ & ?). }
  by split_and!.
Qed.
Lemma gate_row t k order h' pcap msg :
  gate_row_of t order msg (gate_failure_row h' relpath (id_of t k order) pcap msg).
Proof.
  unfold gate_failure_row.
  assert (∀ f d, f ∉ ["guest_arp_req_n"; "guest_ftx_ns"; "syn_grid_dt_ns"] →
    get f (od_update d (gate_failure_signature h' pcap)) = get f d) as Hf.
  { intros f d Hk. unfold get. rewrite od_get_update; [done|]. intros Hin. apply Hk. by eapply gate_signature_keys. }
  unfold gate_row_of. rewrite !Hf by set_solver. done.
Qed.

(** What one trial does to the state. *)
Definition accepted (t : trial) (s s' : bench_state) : Prop :=
  ∃ r ps, row_of t (b_order s + 1) r ∧ b_runs s' = b_runs s ++ [r] ∧ b_phases s' = b_phases s ++ ps ∧
    b_fs s' = write_csv (phases_csv env) PHASES_FIELDS (b_phases s') (write_csv (runs_csv env) RUNS_FIELDS (b_runs s') (b_fs s)).
Definition journaled (t : trial) (s s' : bench_state) (e : exn) : Prop :=
  ∃ msg r, e = BenchFail msg ∧ gate_row_of t (b_order s + 1) msg r ∧
    b_fs s' = append_csv (gate_failures_path root) GATE_FAILURE_FIELDS r (b_fs s).
Lemma one_trial_order t s s' o : one t s = (s', o) → b_order s' = b_order s + 1.
Proof.
  unfold one_trial. cbv zeta. destruct (prepare _ _ _ _) as [[[k a] steal0]|e]; [|by intros [= <- <-]].
  destruct (run_trial _ _ _ _ _) as [r|e].
  - destruct (finish _ _ _ _ _ _ _ _ _) as [[[rw ps] line]|e]; by intros [= <- <-].
  - destruct e as [[] msg| | | | | | | | | | | | | | |]; try by intros [= <- <-].
Qed.
Lemma one_trial_spec t s s' o : one t s = (s', o) →
  match o with
  | None => accepted t s s'
  | Some e => b_runs s' = b_runs s ∧ b_phases s' = b_phases s ∧ (b_fs s' = b_fs s ∨ journaled t s s' e)
  end.
Proof.
  unfold one_trial. cbv zeta. destruct (prepare _ _ _ _) as [[[k a] steal0]|e] eqn:Ep; [|intros [= <- <-]; auto].
  destruct (run_trial _ _ _ _ _) as [r|e].
  - destruct (finish _ _ _ _ _ _ _ _ _) as [[[rw ps] line]|e] eqn:Ef; intros [= <- <-]; [|auto].
    exists rw, ps. apply finish_row in Ef. done.
  - destruct e as [[] msg| | | | | | | | | | | | | | |]; try (intros [= <- <-]; by auto).
    unfold record_gate_failure. cbv zeta. intros [= <- <-]. split_and!; [done|done|]. right.
    eexists msg, _. split; [done|]. split; [apply gate_row|]. done.
Qed.
(** What the gate-failure file holds after a campaign that ended with [o]. *)
Definition gate_file_after (ts : list trial) (k : nat) (order : Z) (o : option exn) (old new : option string) : Prop :=
  match o with
  | None => k = length ts ∧ new = old
  | Some e => ∃ t, ts !! k = Some t ∧
      (new = old ∨ ∃ msg r, e = BenchFail msg ∧ gate_row_of t order msg r ∧
                   new = Some (default (csv_header GATE_FAILURE_FIELDS) old +:+ csv_row_line GATE_FAILURE_FIELDS r))
  end.
Lemma run_trials_spec ts : ∀ s s' o, run ts s = (s', o) → ∃ rows,
  b_runs s' = b_runs s ++ rows ∧
  (∀ i r, rows !! i = Some r → ∃ t, ts !! i = Some t ∧ row_of t (b_order s + Z.of_nat i + 1) r) ∧
  b_fs s' !! runs_csv env = (if decide (rows = []) then b_fs s !! runs_csv env
                             else Some (csv_write RUNS_FIELDS (b_runs s'))) ∧
  gate_file_after ts (length rows) (b_order s + Z.of_nat (length rows) + 1) o
    (b_fs s !! gate_failures_path root) (b_fs s' !! gate_failures_path root).
Proof.
  destruct (campaign_paths root env) as (Hrp & Hgr & Hgp).
  induction ts as [|t ts IH]; intros s s' o; cbn [run_trials].
  { intros [= <- <-]. exists []. rewrite app_nil_r. split_and!; [done| |done|done]. intros i r Hi. by rewrite lookup_nil in Hi. }
  destruct (one t s) as [s1 [e|]] eqn:E1.
  - intros [= <- <-]. destruct (one_trial_spec _ _ _ _ E1) as (Hr & _ & Hfs). exists []. rewrite app_nil_r, Hr.
    split_and!; [done|intros i r Hi; by rewrite lookup_nil in Hi| |].
    + rewrite decide_True by done. destruct Hfs as [->|(msg & r & -> & _ & ->)]; [done|]. by apply append_csv_ne.
    + exists t. split; [done|]. destruct Hfs as [->|(msg & r & -> & Hg & ->)]; [by left|]. right. exists msg, r.
      rewrite append_csv_eq. cbn [length]. rewrite Z.add_0_r. done.
  - intros Hrun. pose proof (one_trial_order _ _ _ _ E1) as Ho.
    destruct (one_trial_spec _ _ _ _ E1) as (r & ps & Hrow & Hr & _ & Hfs).
    destruct (IH _ _ _ Hrun) as (rows & Hr' & Hrows & Hcsv & Hg). exists (r :: rows). split_and!.
    + rewrite Hr', Hr, <-app_assoc. done.
    + intros [|i] r'; cbn [lookup list_lookup].
      * intros [= <-]. exists t. split; [done|]. by rewrite Z.add_0_r.
      * intros (t' & Ht & Hrow')%Hrows. exists t'. split; [done|]. rewrite Ho in Hrow'.
        by replace (b_order s + Z.of_nat (S i) + 1) with (b_order s + 1 + Z.of_nat i + 1) by lia.
    + rewrite (decide_False (P := r :: rows = [])) by done. rewrite Hcsv. case_decide as Hn; [|done]. subst rows.
      rewrite Hr', app_nil_r, Hfs. unfold write_csv. rewrite lookup_insert_ne by done. by rewrite lookup_insert_eq.
    + rewrite Ho, Hfs in Hg. unfold write_csv in Hg. rewrite !lookup_insert_ne in Hg by done. cbn [length].
      replace (b_order s + Z.of_nat (S (length rows)) + 1) with (b_order s + 1 + Z.of_nat (length rows) + 1) by lia.
      unfold gate_file_after in *. destruct o; cbn [length lookup list_lookup]; [done|]. destruct Hg as [-> ->]. done.
Qed.

(** No other file is touched. *)
Lemma run_trials_frame ts p : p ≠ runs_csv env → p ≠ phases_csv env → p ≠ gate_failures_path root →
  ∀ s s' o, run ts s = (s', o) → b_fs s' !! p = b_fs s !! p.
Proof.
  intros H1 H2 H3. induction ts as [|t ts IH]; intros s s' o; cbn [run_trials]; [by intros [= <- <-]|].
  destruct (one t s) as [s1 [e|]] eqn:E1.
  - intros [= <- <-]. destruct (one_trial_spec _ _ _ _ E1) as (_ & _ & [->|(msg & r & _ & _ & ->)]); [done|].
    by apply append_csv_ne.
  - intros Hrun. rewrite (IH _ _ _ Hrun). destruct (one_trial_spec _ _ _ _ E1) as (r & ps & _ & _ & _ & ->).
    unfold write_csv. by rewrite !lookup_insert_ne.
Qed.

(** C4. The campaign's ledger is complete and truthful, however it ends.  The
    accepted rows are those of the first trials in order, the [i]-th with its
    identity, [run_order] [i+1] and no steal.  Once a trial is accepted, runs.csv
    holds exactly the accepted rows; when none is, it is left as the campaign
    found it, an earlier campaign's rows included.  A
    campaign that ends normally ran every trial and left the gate-failure file
    alone; one that aborts stopped at the first trial without a row, and the
    file gained at most that trial's record. *)
Theorem campaign_ledger (ts : list trial) (fs : files) (out : list string) :
  let s0 := {| b_order := 0; b_runs := []; b_phases := []; b_fs := fs; b_out := out |} in
  let s := (run ts s0).1 in
  let k := length (b_runs s) in
  (∀ i r, b_runs s !! i = Some r → ∃ t, ts !! i = Some t ∧ row_of t (Z.of_nat i + 1) r) ∧
  b_fs s !! runs_csv env = (if decide (b_runs s = []) then fs !! runs_csv env
                            else Some (csv_write RUNS_FIELDS (b_runs s))) ∧
  gate_file_after ts k (Z.of_nat k + 1) (run ts s0).2
    (fs !! gate_failures_path root) (b_fs s !! gate_failures_path root).
Proof.
  cbn zeta. destruct (run ts _) as [s o] eqn:Hrun.
  destruct (run_trials_spec _ _ _ _ Hrun) as (rows & Hr & Hrest). cbn in Hr, Hrest. cbn [fst snd]. rewrite Hr in *.
  exact Hrest.
Qed.


End campaign_lemmas.

(** ** One accepted trial *)
Lemma rewrap_Ok {A} c d (m : res A) x : rewrap c d m = Ok x ↔ m = Ok x.
Proof. destruct m as [y|[]]; cbn; try done. by case_decide. Qed.
(** The serial log of an accepted trial. *)
Definition serial_ok (sys text : string) : Prop :=
  str_in "PANIC" text = false ∧ str_in "Kernel panic" text = false ∧ str_in "M!" text = false ∧
  d0081_probe_scan text = Ok tt ∧
  (sys = "linux" → str_in "INIT FAIL:" text = false ∧ str_in "READY" text = true ∧ str_in "LINUX INIT OK" text = true).
Lemma check_serial_text_iff sys text : check_serial_text sys text = Ok tt ↔ serial_ok sys text.
Proof.
  unfold check_serial_text, serial_ok.
  assert (falsifier3_scan text = Ok tt ↔ str_in "M!" text = false) as Hm.
  { unfold falsifier3_scan, str_in. by destruct (find "M!" text). }
  destruct (str_in "PANIC" text), (str_in "Kernel panic" text); cbn [orb raise_when mbind res_bind];
    try (split; [done|naive_solver]).
  destruct (falsifier3_scan text) as [[]|e]; cbn [mbind res_bind]; [|split; [done|naive_solver]].
  destruct (d0081_probe_scan text) as [[]|e]; cbn [mbind res_bind]; [|split; [done|naive_solver]].
  destruct (String.eqb_spec sys "linux") as [->|Hs]; [|naive_solver].
  destruct (str_in "INIT FAIL:" text), (str_in "READY" text), (str_in "LINUX INIT OK" text);
    cbn [negb raise_when mbind res_bind]; naive_solver.
Qed.
(** The processes of an accepted trial, and the client's result. *)
Lemma check_processes_Ok a o status : check_processes a o = Ok status ↔
  o_ready o = ClientReady ∧ o_qemu o = Some status ∧ o_client_done o = true.
Proof.
  unfold check_processes.
  destruct (o_ready o), (o_qemu o), (o_client_done o); cbn; naive_solver.
Qed.
(** The text of a client result that reports the reply at these instants. *)
Definition client_says (text : string) (connect byte attempts : Z) : Prop :=
  ∃ d, json_loads text = Ok (JObj d) ∧ j_true (j_get "body_ok" d) = true ∧
    j_field "first_connect_mono_ns" d = Ok connect ∧ j_field "first_byte_mono_ns" d = Ok byte ∧
    j_field "attempts" d = Ok attempts.
Lemma check_client_Ok o d : check_client o = Ok d ↔ ∃ text, o_client o = Some text ∧
  json_loads text = Ok (JObj d) ∧ j_true (j_get "body_ok" d) = true ∧
  j_null (j_get "first_connect_mono_ns" d) = false ∧ j_null (j_get "first_byte_mono_ns" d) = false.
Proof.
  unfold check_client. split.
  - intros (text & Ht & H)%bind_Ok. apply of_option_Ok in Ht. apply bind_Ok in H as (v & Hv & H).
    apply bind_Ok in H as (d' & Hd & H). apply bind_Ok in H as (u1 & H1%raise_when_Ok%negb_false_iff & H).
    apply bind_Ok in H as (u2 & H2%raise_when_Ok & H). apply bind_Ok in H as (u3 & H3%raise_when_Ok & [= ->]).
    destruct v; try done. injection Hd as ->. by exists text.
  - intros (text & -> & Hd & H1 & H2 & H3). cbn [of_option mbind res_bind]. rewrite Hd. cbn [j_obj mbind res_bind].
    by rewrite H1, H2, H3.
Qed.
Lemma j_field_not_null k d z : j_field k d = Ok z → j_null (j_get k d) = false.
Proof. unfold j_field, j_item, j_get. destruct (od_get k d) as [[]|]; done. Qed.
(** The pcap of an accepted trial, and what is extracted from it. *)
Definition pcap_ok (h : host) (pcap tshark sys : string) (ex : extract) : Prop :=
  extract_pcap (h_run h) (h_size h) pcap tshark = Ok ex ∧ http_len ex = 92 ∧
  0 <= w_ns ex ∧ 0 <= d_ack_ns ex ∧ 0 <= d_fin_ns ex ∧ (sys = "whimbrel" → d_fin_ns ex < 10000000) ∧
  assert_no_rst (h_run h) (h_size h) pcap tshark = Ok tt.
Lemma require_pcap_intervals_Ok h pcap tshark sys ex :
  require_pcap_intervals h pcap tshark sys = Ok ex ↔ pcap_ok h pcap tshark sys ex.
Proof.
  unfold require_pcap_intervals, require_pcap_intervals_by, extract_pcap_pass, pcap_ok. rewrite bind_Ok.
  setoid_rewrite rewrap_Ok. setoid_rewrite rewrap_Ok.
  assert (∀ ex e, raise_when (String.eqb sys "whimbrel" && (WHIMBREL_DFIN_FAIL_NS <=? d_fin_ns ex)) e = Ok tt ↔
    (sys = "whimbrel" → d_fin_ns ex < 10000000)) as Hw.
  { intros ex' e. rewrite raise_when_Ok. unfold WHIMBREL_DFIN_FAIL_NS. destruct (String.eqb_spec sys "whimbrel"); cbn [andb].
    - rewrite Z.leb_gt. naive_solver.
    - naive_solver. }
  assert (∀ ex, forM_ (λ kv, raise_when (kv.2 <? 0) (BenchFail ("TEST FAIL: " +:+ kv.1 +:+ " is negative ("
        +:+ str_of_Z kv.2 +:+ ") in " +:+ pcap))) [("w_ns", w_ns ex); ("d_ack_ns", d_ack_ns ex); ("d_fin_ns", d_fin_ns ex)] = Ok tt ↔
    0 <= w_ns ex ∧ 0 <= d_ack_ns ex ∧ 0 <= d_fin_ns ex) as Hn.
  { intros ex'. rewrite forM_Ok. setoid_rewrite raise_when_Ok. setoid_rewrite Z.ltb_ge. rewrite <-Forall_forall, !Forall_cons.
    cbn [snd]. rewrite Forall_nil. tauto. }
  split.
  - intros (ex' & Hex & H). apply bind_Ok in H as (u1 & H1%raise_when_Ok%negb_false_iff%Z.eqb_eq & H).
    apply bind_Ok in H as ([] & H2%Hn & H). apply bind_Ok in H as ([] & H3 & H).
    pose proof (proj1 (Hw _ _) H3). apply bind_Ok in H as ([] & H4%rewrap_Ok & [= ->]). by destruct H2 as (? & ? & ?).
  - intros (Hex & Hl & H1 & H2 & H3 & H4 & H5). exists ex. split; [done|].
    rewrite Hl. cbn [Z.eqb negb raise_when mbind res_bind]. change (92 =? HTTP_LEN_PIN) with true. cbn [negb raise_when mbind res_bind].
    rewrite (proj2 (Hn ex)) by done. cbn [mbind res_bind]. rewrite (proj2 (Hw ex _) H4). cbn [mbind res_bind].
    by rewrite (proj2 (rewrap_Ok _ _ _ tt) H5).
Qed.
(** What a trial's outside must show for the trial to be accepted with the
    result [r]. *)
Record trial_passes (o : obs) (sys pcap tshark : string) (r : trial_result) : Prop := {
  tp_start : tr_e0_mono r = o_e0_mono o ∧ tr_e0_wall r = o_e0_wall o;
  tp_ready : o_ready o = ClientReady;
  tp_exit : o_qemu o = Some (tr_qemu_status r);
  tp_done : o_client_done o = true;
  tp_client : ∃ text, o_client o = Some text ∧
    client_says text (o_e0_mono o + tr_connect r) (o_e0_mono o + tr_e4 r) (tr_attempts r);
  tp_serial : serial_ok sys (o_serial o);
  tp_phases : phases_from_serial (o_serial o) sys = Ok (tr_phases r);
  tp_pcap : pcap_ok (o_host o) pcap tshark sys (tr_ex r);
  tp_grid : sys = "linux" → ∃ dt, assert_syn_grid (h_run (o_host o)) (h_size (o_host o)) pcap tshark = Ok dt }.

Lemma run_trial_exact h root python launch a r :
  run_trial h root python launch a = Ok r ↔
  ∃ tshark qemu args, require_tshark_bench h = Ok tshark ∧
    qemu_argv h root (pcap_of (ta_dir a)) (ta_port a) (ta_bios a) = Ok (qemu, args) ∧
    trial_passes (launch (client_cmd root python a) (qemu_cmd h a qemu args)) (system (ta_arm a)) (pcap_of (ta_dir a)) tshark r.
Proof.
  unfold run_trial. split.
  - intros Hok. apply bind_Ok in Hok as (tshark & Hts & Hok). cbv zeta in Hok.
    apply bind_Ok in Hok as ([qemu args] & Hq & Hok). apply bind_Ok in Hok as (status & Hp & Hok).
    apply bind_Ok in Hok as (d & Hc & Hok). apply bind_Ok in Hok as ([] & Hs & Hok).
    apply bind_Ok in Hok as (phases & Hph & Hok). apply bind_Ok in Hok as (fc & Hfc & Hok).
    apply bind_Ok in Hok as (fb & Hfb & Hok). apply bind_Ok in Hok as (ex & Hex & Hok).
    apply bind_Ok in Hok as (u & Hg & Hok). apply bind_Ok in Hok as (n & Hn & [= <-]). exists tshark, qemu, args.
    split; [done|]. split; [done|].
    apply check_processes_Ok in Hp as (? & ? & ?). apply check_client_Ok in Hc as (text & Ht & Hd & Hb & _).
    constructor; cbn [tr_e0_mono tr_e0_wall tr_qemu_status tr_connect tr_e4 tr_attempts tr_phases tr_ex]; rewrite ?Zplus_minus; try done.
    + exists text. split; [done|]. by exists d.
    + by apply check_serial_text_iff.
    + by apply require_pcap_intervals_Ok.
    + intros Hl%String.eqb_eq. rewrite Hl in Hg. apply bind_Ok in Hg as (dt & Hg%rewrap_Ok & _). eauto.
  - intros (tshark & qemu & args & Hts & Hq & [[Hm Hw] Hr He Hdone (text & Ht & d & Hd & Hb & Hc & Hby & Hat) Hs Hph Hpc Hg]).
    rewrite Hts. cbn [mbind res_bind]. cbv zeta. rewrite Hq. cbn [mbind res_bind].
    set (o := launch _ _) in *. clearbody o.
    apply bind_Ok. exists (tr_qemu_status r). split; [by apply check_processes_Ok|].
    apply bind_Ok. exists d. split; [apply check_client_Ok; exists text; split_and!; try done; by eapply j_field_not_null|].
    apply bind_Ok. exists tt. split; [by apply check_serial_text_iff|]. rewrite Hph. cbn [mbind res_bind].
    rewrite Hc. cbn [mbind res_bind]. rewrite Hby. cbn [mbind res_bind].
    apply bind_Ok. exists (tr_ex r). split; [by apply require_pcap_intervals_Ok|].
    apply bind_Ok. exists tt. split.
    + destruct (String.eqb_spec (system (ta_arm a)) "linux") as [Hl|]; [|done]. destruct (Hg Hl) as [dt Hdt].
      by rewrite (proj2 (rewrap_Ok _ _ _ dt) Hdt).
    + rewrite Hat. cbn [mbind res_bind]. rewrite <-Hm, <-Hw, !Z.add_simpl_l. by destruct r.
Qed.

(** C7. A trial is accepted exactly when it passes every gate, and with exactly
    what was observed: tshark and QEMU's command line are found, the client was
    ready, QEMU exited, the client ended and got the 92-byte reply with both
    stamps, the serial log is free of panics and M-mode traps (and shows READY and
    LINUX INIT OK on Linux), the phases are those of its dump, the pcap shows the
    92-byte response and no reset with nonnegative intervals, D_fin under 10 ms on
    Whimbrel and the SYN on the grid on Linux. *)
Theorem run_trial_iff (h : host) (root python : string) (launch : list string → list string → obs)
    (a : trial_args) (r : trial_result) :
  run_trial h root python launch a = Ok r ↔
  ∃ tshark qemu args, require_tshark_bench h = Ok tshark ∧
    qemu_argv h root (pcap_of (ta_dir a)) (ta_port a) (ta_bios a) = Ok (qemu, args) ∧
    trial_passes (launch (client_cmd root python a) (qemu_cmd h a qemu args)) (system (ta_arm a)) (pcap_of (ta_dir a)) tshark r.
Proof. apply run_trial_exact. Qed.

(** ** A concrete campaign *)
Definition run_of (cmd : list string) : proc :=
  if bool_decide ("bash" ∈ cmd) then {| returncode := 0; stdout := "-machine virt -nographic" +:+ nl; stderr := "" |}
  else demo_run cmd.
(** The demo host with tshark and a recorded pcap; [stat] is /proc/stat. *)
Definition trial_host (stat : string) : host :=
  {| h_env := λ _, None; h_read := λ p, if String.eqb p "/proc/stat" then Some stat else h_read demo_host p;
     h_unreadable := h_unreadable demo_host; h_size := λ _, Some 500%N; h_sha256 := h_sha256 demo_host;
     h_which := λ n, if String.eqb n "tshark" then Some "/usr/bin/tshark" else None; h_executable := λ _, true;
     h_run := run_of; h_cpu_count := Some 4; h_clk_tck := 100; h_release := "6.12"; h_bind := λ _, None |}.
Definition steal_free : string := "cpu  1 2 3 4 5 6 7 0 0 0" +:+ nl.
Definition demo_client : string := flat_text
  [("attempts", "1"); ("body_ok", "true"); ("first_byte_mono_ns", "90001000"); ("first_connect_mono_ns", "2001000")] +:+ nl.
Definition linux_obs (serial : string) : obs :=
  {| o_ready := ClientReady; o_e0_mono := 1000; o_e0_wall := 5000; o_qemu := Some 0; o_client_done := true;
     o_client := Some demo_client;
     o_serial := serial; o_host := trial_host steal_free |}.
Definition good_serial : string := "LINUX INIT OK" +:+ nl +:+ "READY" +:+ nl.
Definition demo_world (serial stat : string) : world :=
  {| w_launch := λ _ _, linux_obs serial; w_before := trial_host steal_free; w_after := trial_host stat |}.
Definition demo_env : campaign_env :=
  {| ce_git_sha := "abc"; ce_dirty := 0;
     ce_meta := {| hm_cpu := "cpu"; hm_kernel := "6.12"; hm_loadavg := "0.0"; hm_qemu_version := "QEMU 9"; hm_qemu_hash := "f"; hm_qemu_path := "q" |};
     ce_ctrl := demo_ctrl; ce_qemu_cpu := 2; ce_client_cpu := 3; ce_port := 8080; ce_gran := 40; ce_seed := 7;
     ce_timeout := NInt 60; ce_canary := [("canary_stvec_ns", 5); ("canary_page_verify_ns", 6)];
     ce_kernels := [("trimmed", {| k_path := "art/Image-trimmed"; k_hash := "h"; k_arm := linux_arm "trimmed" "Image-trimmed" "quiet" |})];
     ce_bios_blob := None; ce_bios_sha := ""; ce_out_dir := "out" |}.
Definition demo_trials : list trial := campaign_trials (λ s k m, 0%nat) "T" ["trimmed"] 2 1 1 7.
Definition demo_start : bench_state := {| b_order := 0; b_runs := []; b_phases := []; b_fs := ∅; b_out := [] |}.
Definition demo_campaign (worlds : Z → world) : bench_state * option exn :=
  run_trials (trial_host steal_free) "r" "python3" id demo_env worlds demo_trials demo_start.
(** All the trials pass, and three rows are written. *)
Example campaign_completes :
  let '(s, o) := demo_campaign (λ _, demo_world good_serial steal_free) in
  o = None ∧ length (b_runs s) = 3%nat ∧ read_csv "out/runs.csv" (b_fs s) = Ok (text_row RUNS_FIELDS <$> b_runs s).
Proof. vm_compute. split_and!; reflexivity. Qed.
(** The second trial's guest panics: one row, one gate-failure record. *)
Example campaign_aborts :
  let '(s, o) := demo_campaign (λ i, demo_world (if i =? 2 then "Kernel panic" else good_serial) steal_free) in
  o = Some (BenchFail "TEST FAIL: guest panic") ∧ length (b_runs s) = 1%nat ∧
  is_some (b_fs s !! "r/results/gate-failures.csv") = true.
Proof. vm_compute. split_and!; reflexivity. Qed.
(** Steal during a trial aborts without a record (the gate is outside the
    [try] of the trial). *)
Example campaign_steal :
  let '(s, o) := demo_campaign (λ i, demo_world good_serial ("cpu  1 2 3 4 5 6 7 1 0 0" +:+ nl)) in
  is_some o = true ∧ b_runs s = [] ∧ b_fs s !! "r/results/gate-failures.csv" = None.
Proof. vm_compute. split_and!; reflexivity. Qed.
Definition demo_kernel : kernel_t :=
  {| k_path := "art/Image-trimmed"; k_hash := "h"; k_arm := linux_arm "trimmed" "Image-trimmed" "quiet" |}.
Definition demo_args : trial_args :=
  {| ta_arm := k_arm demo_kernel;
     ta_extra := ["-kernel"; "art/Image-trimmed"; "-initrd"; "r/bench/linux/artifacts/rootfs.cpio"; "-append"; LINUX_APPEND_QUIET];
     ta_dir := "out/trials/T-1/trimmed/01"; ta_qemu_cpu := 2; ta_client_cpu := 3; ta_port := 8080;
     ta_client_timeout := NInt 60; ta_qemu_wait := qemu_timeout_s "linux" (NInt 60); ta_bios := None |}.
Definition demo_result : trial_result := Eval vm_compute in
  match run_trial (trial_host steal_free) "r" "python3" (λ _ _, linux_obs good_serial) demo_args with
  | Ok r => r
  | Err _ => {| tr_e0_mono := 0; tr_e0_wall := 0; tr_connect := 0; tr_e4 := 0; tr_ex := demo_extract;
                tr_attempts := 0; tr_phases := []; tr_qemu_status := 0 |}
  end.
Lemma run_trial_iff_witness :
  run_trial (trial_host steal_free) "r" "python3" (λ _ _, linux_obs good_serial) demo_args = Ok demo_result ∧
  http_len (tr_ex demo_result) = 92.
Proof.
  split; [by vm_compute|].
  destruct (proj1 (run_trial_iff (trial_host steal_free) "r" "python3" (λ _ _, linux_obs good_serial) demo_args demo_result)
    ltac:(by vm_compute)) as (tshark & qemu & args & _ & _ & [_ _ _ _ _ _ _ (_ & H & _) _]). exact H.
Defined.
