(* ===== verification/BenchSummary.v ===== *)
(** * The batch summary (scripts/bench.py)

    Rank correlation, the steal diagnosis, [cmd_summarize] with all its gates
    and its summary.txt, and the frame-pointer comparison. *)
From stdpp Require Import gmap.
From S2P Require Import Prelude PyStr Regex PyFloat PyData PyCsv BenchSerial PcapHttp D0070Pass BenchHost BenchTables BenchRun.
From Stdlib Require Import Ascii.

(** ** Correlation *)
Definition py_sum_f (l : list float) : float := num_f (py_sum l).
Definition fmean (l : list float) : res float := fdiv (py_sum_f l) (float_of_Z (Z.of_nat (length l))).
Definition centered (xs : list float) : res (list float) := m ← fmean xs; Ok ((λ x, fsub x m) <$> xs).
(** [x ** 2] is the correctly rounded square. *)
Definition norm (cs : list float) : res float := py_sqrt (py_sum_f ((λ c, fmul c c) <$> cs)).
Definition pearson (xs ys : list float) : res (option float) :=
  if (length xs <? 3)%nat || negb (length xs =? length ys)%nat then Ok None else
  cx ← centered xs; cy ← centered ys;
  let n := py_sum_f (zip_with fmul cx cy) in
  dx ← norm cx; dy ← norm cy;
  if is_fzero dx || is_fzero dy then Ok None else r ← fdiv n (fmul dx dy); Ok (Some r).
(** The last position of the run of values equal to that at [i], from [j]. *)
Fixpoint run_end {A} (eqb : A → A → bool) (sorted : list A) (i j fuel : nat) : nat :=
  match fuel with
  | O => j
  | S fuel => match sorted !! i, sorted !! S j with
              | Some x, Some y => if eqb y x then run_end eqb sorted i (S j) fuel else j
              | _, _ => j
              end
  end.
Fixpoint rank_loop {A} (eqb : A → A → bool) (sorted : list A) (order : list nat) (i : nat) (ranks : list float)
    (fuel : nat) : res (list float) :=
  match fuel with
  | O => Ok ranks
  | S fuel =>
    if (length sorted <=? i)%nat then Ok ranks else
    let j := run_end eqb sorted i i (length sorted) in
    half ← fdiv (float_of_Z (Z.of_nat (i + j))) (float_of_Z 2);
    let avg := fadd half (float_of_Z 1) in
    rank_loop eqb sorted order (S j) (foldl (λ rs k, <[k := avg]> rs) ranks (take (S j - i) (drop i order))) fuel
  end.
(** [sorted(range(n), key=lambda i: vals[i])] *)
Definition sorted_indices {A} (leb : A → A → bool) (vals : list A) : list nat :=
  (sort_by (λ a b, leb a.1 b.1) (zip vals (seq 0 (length vals)))).*2.
Definition average_ranks {A} (leb eqb : A → A → bool) (vals : list A) : res (list float) :=
  let order := sorted_indices leb vals in
  rank_loop eqb (omap (λ i, vals !! i) order) order 0 (replicate (length vals) (S754_zero false)) (length vals).
Definition flt_leb (a b : float) : bool := negb (SFltb b a).
Definition _average_ranks : list float → res (list float) := average_ranks flt_leb float_eqb.
Definition spearman (xs ys : list float) : res (option float) :=
  if (length xs <? 3)%nat || negb (length xs =? length ys)%nat then Ok None else
  rx ← _average_ranks xs; ry ← _average_ranks ys; pearson rx ry.
Definition _fmt_corr (label : string) (rho : option float) : string :=
  match rho with
  | None => label +:+ ": undefined (constant or n<3)"
  | Some r => label +:+ ": " +:+ fmt_fixed 3 r
  end.

(** ** Steal against latency *)
Definition add_e3g (rec_keys : list trial_key) (d : odict trial_key float) (p : row) : res (odict trial_key float) :=
  w ← get_int "warmup" p;
  if negb (w =? 0) then Ok d else
  name ← get "phase" p;
  if negb (is_str name "E3g") then Ok d else
  key ← trial_key_of p;
  if negb (key_in key rec_keys) then Ok d else
  v ← get_float "ns_since_e2" p; Ok (od_set key v d).
Definition mean3 (l : list float) : res string :=
  m ← num_truediv (py_sum l) (NInt (Z.of_nat (length l))); Ok (num_fixed 3 m).
(** The indices of the slow quartile and of the rest, by latency. *)
Definition quartile_split (e4 : list float) : list nat * list nat :=
  let order := sorted_indices flt_leb e4 in
  let q := Nat.max 1 (length e4 / 4) in
  (drop (length order - q) order, take (length order - q) order).
Definition steal_diagnosis (h : host) (runs phases : list row) : res (list string) :=
  match runs with
  | [] => Ok ["## steal (not recorded in this CSV)"; ""]
  | r0 :: _ =>
    if negb (od_in "steal_ticks" r0) then Ok ["## steal (not recorded in this CSV)"; ""] else
    rec ← recorded runs;
    match rec with
    | [] => Ok ["## steal (no recorded trials)"; ""]
    | _ =>
      steal ← mapR (get_float "steal_ticks") rec;
      e4 ← mapR (get_float "e0_to_e4_ns") rec;
      conn ← mapR (get_float "e0_to_first_connect_ns") rec;
      keys ← mapR trial_key_of rec;
      e3g_by ← foldM (add_e3g keys) [] phases;
      let pairs := omap (λ sk : float * trial_key, g ← od_get sk.2 e3g_by; Some (sk.1, g)) (zip steal keys) in
      tick_ns ← steal_ticks_to_ns h 1;
      let nonzero := length (filter (λ s, SFltb (S754_zero false) s = true) steal) in
      med ← median (NFlt <$> steal);
      mx ← num_max (NFlt <$> steal);
      c1 ← spearman steal e4;
      c2 ← spearman steal conn;
      l3 ← match pairs with
           | [] => Ok []
           | _ => c3 ← spearman pairs.*1 pairs.*2; Ok [_fmt_corr "spearman(steal_ticks, e2_to_e3g_ns)" c3]
           end;
      let '(slow_i, rest_i) := quartile_split e4 in
      let slow := omap (λ i, steal !! i) slow_i in
      let rest := omap (λ i, steal !! i) rest_i in
      sm ← mean3 slow; rm ← mean3 rest;
      tick_ms ← num_truediv (NInt tick_ns) (NFlt (float_lit "1e6"));
      Ok (["## steal vs latency (recorded trials; not a stability metric)";
           "SC_CLK_TCK=" +:+ str_of_Z (h_clk_tck h) +:+ " steal_tick=" +:+ str_of_Z tick_ns +:+ " ns n="
           +:+ str_of_nat (length steal) +:+ " nonzero=" +:+ str_of_nat nonzero +:+ " median_steal_ticks="
           +:+ num_fixed 0 med +:+ " max_steal_ticks=" +:+ num_fixed 0 mx;
           _fmt_corr "spearman(steal_ticks, e0_to_e4_ns)" c1;
           _fmt_corr "spearman(steal_ticks, e0_to_first_connect_ns)" c2] ++ l3 ++
          ["slow-quartile e0_to_e4 n=" +:+ str_of_nat (length slow) +:+ " mean_steal_ticks=" +:+ sm +:+ "; rest n="
           +:+ str_of_nat (length rest) +:+ " mean_steal_ticks=" +:+ rm] ++
          (if (nonzero =? 0)%nat then
             ["steal was 0 on every recorded trial. USER_HZ=" +:+ str_of_Z (h_clk_tck h)
              +:+ " cannot resolve host interference below " +:+ num_fixed 1 tick_ms
              +:+ " ms/tick, so a sub-tick median shift cannot be confirmed or denied by this column."]
           else []) ++ [""])
    end
  end.

(** ** The summary *)
(** A computation that reads and writes files: what it wrote stays when it raises. *)
Definition filing (A : Type) : Type := files → files * res A.
#[export] Instance filing_ret : MRet filing := λ A x fs, (fs, Ok x).
#[export] Instance filing_bind : MBind filing := λ A B f m fs,
  match m fs with (fs, Ok x) => f x fs | (fs, Err e) => (fs, Err e) end.
Definition from_res {A} (r : res A) : filing A := λ fs, (fs, r).
Definition reading {A} (f : files → res A) : filing A := λ fs, (fs, f fs).
Definition put_text (path text : string) : filing unit := λ fs, (<[path := text]> fs, Ok tt).
Lemma filing_Ok {A B} (m : filing A) (f : A → filing B) fs fs' y :
  (x ← m; f x) fs = (fs', Ok y) → ∃ x fs1, m fs = (fs1, Ok x) ∧ f x fs1 = (fs', Ok y).
Proof. unfold mbind, filing_bind. destruct (m fs) as [fs1 [x|e]]; [eauto|done]. Qed.
Lemma filing_Err {A B} (m : filing A) (f : A → filing B) fs fs' e : (x ← m; f x) fs = (fs', Err e) →
  m fs = (fs', Err e) ∨ ∃ x fs1, m fs = (fs1, Ok x) ∧ f x fs1 = (fs', Err e).
Proof. unfold mbind, filing_bind. destruct (m fs) as [fs1 [x|e']]; [eauto|]. intros [= -> ->]. by left. Qed.
Record sum_args := {
  sa_out_dir : string; sa_stability : bool; sa_allow_dirty : bool; sa_expect_n : option Z; sa_expect_warmup : option Z;
  sa_f3_scanned : option Z; sa_runs : list row; sa_phases : list row; sa_timeout : option num;
  sa_linux_meta : option linux_meta_t; sa_canary : option (odict string Z)
}.
(** [getattr(args, name, None) or read_csv(path)] *)
Definition given_or_read (given : list row) (path : string) (fs : files) : res (list row) :=
  match given with [] => read_csv path fs | _ => Ok given end.
Definition host_lines (r0 : row) : res (list string) :=
  let opt k := py_str (get_or k (PStr "absent") r0) in
  sha ← get_text "git_sha" r0; d ← get_text "dirty" r0; hk ← get_text "host_kernel" r0; cm ← get_text "cpu_model" r0;
  gov ← get_text "governor" r0; la ← get_text "loadavg_1m" r0; gran ← get_text "client_granularity_ns" r0;
  Ok ["git_sha=" +:+ sha +:+ " dirty=" +:+ d; "host_kernel=" +:+ hk; "cpu_model=" +:+ cm;
      "governor=" +:+ gov +:+ " smt_control=" +:+ opt "smt_control" +:+ " cpufreq_boost=" +:+ opt "cpufreq_boost"
      +:+ " virt=" +:+ opt "virt" +:+ " steal_start_ticks=" +:+ opt "steal_start_ticks" +:+ " loadavg_1m=" +:+ la;
      "client_granularity_ns=" +:+ gran].
Definition overhead_sample (p : row) : res (list num) :=
  if negb (is_str (get_or "phase" PNone p) "stamp_b") then Ok [] else
  w ← py_int (get_or "warmup" (PStr "0") p);
  if negb (w =? 0) then Ok [] else v ← get_float "delta_ns" p; Ok [NFlt v].
Definition overhead_lines (phases : list row) : res (list string) :=
  vals ← mapR overhead_sample phases;
  match List.concat vals with
  | [] => Ok []
  | vs => m ← median vs; Ok ["stamp_overhead_ns=" +:+ num_fixed 0 m +:+ " (floor max(that, " +:+ str_of_Z TICK_NS
                              +:+ " ns); not a stability metric)"]
  end.
Definition GROUP_KEY : list string := ["batch_id"; "system"; "config"].
Definition repr_key (k : list pyval) : string := repr_tuple (py_repr <$> k).
(** One group: its count gates, its metrics and its table. *)
Definition summarize_one (a : sum_args) (sch : schema) (phase_groups : odict (list pyval) (list row))
    (kr : list pyval * list row) : res ((list pyval * metrics) * list string) :=
  rec ← recorded kr.2;
  let n := Z.of_nat (length rec) in
  let w := Z.of_nat (length kr.2) - n in
  _ ← raise_when (match sa_expect_n a with Some e => negb (n =? e) | None => false end)
        (BenchFail ("TEST FAIL: " +:+ repr_key kr.1 +:+ " has " +:+ str_of_Z n +:+ " recorded trials, want "
                    +:+ str_of_Z (default 0 (sa_expect_n a))));
  _ ← raise_when (match sa_expect_warmup a with Some e => negb (w =? e) | None => false end)
        (BenchFail ("TEST FAIL: " +:+ repr_key kr.1 +:+ " has " +:+ str_of_Z w +:+ " warmup rows, want "
                    +:+ str_of_Z (default 0 (sa_expect_warmup a))));
  m ← metric_table kr.2 (default [] (od_get kr.1 phase_groups)) (Some sch);
  let '(b, s, c) := group_fields kr.1 in
  ls ← summarize_group (py_str s +:+ " " +:+ py_str c +:+ " batch=" +:+ py_str b +:+ " n_recorded=" +:+ str_of_Z n) m;
  Ok ((kr.1, m), ls ++ [""]).
(** The metrics of a config, batch by batch. *)
Definition by_config (m : groups) : odict (list pyval) (list (pyval * metrics)) :=
  foldl (λ d km, let '(b, _, c) := group_fields km.1 in od_push [c] (b, km.2) d) [] m.
(** [d1 == d2] of two metric tables, as dictionaries of lists of numbers. *)
Definition nums_eqb (a b : list num) : bool := (length a =? length b)%nat && forallb (λ p, num_eqb p.1 p.2) (zip a b).
Definition metrics_eqb (a b : metrics) : bool :=
  (length a =? length b)%nat &&
  forallb (λ kv, match od_get kv.1 b with Some v => nums_eqb kv.2 v | None => false end) a.
(** The batches of a config in order.  Two tuples of the same batch are compared by
    their tables, and dictionaries that differ have no order. *)
Fixpoint tables_clash (items : list (pyval * metrics)) : bool :=
  match items with
  | [] => false
  | x :: items => existsb (λ y, bool_decide (x.1 = y.1) && negb (metrics_eqb x.2 y.2)) items || tables_clash items
  end.
Definition sort_batches (items : list (pyval * metrics)) : res (list (pyval * metrics)) :=
  _ ← raise_when (tables_clash items) TypeError;
  _ ← sorted_vals (items.*1);
  Ok (sort_by (λ a b, pyval_leb a.1 b.1) items).
(** The stability verdict of a config: its line, its failures, and whether it passes. *)
Definition stability_of (ci : list pyval * list (pyval * metrics)) : res (string * list string * bool) :=
  let cfg := py_str (default PNone (head ci.1)) in
  items ← sort_batches ci.2;
  match reverse items with
  | b :: a :: _ =>
    bad ← compare_stability a.2 b.2;
    let pair := py_str a.1 +:+ " vs " +:+ py_str b.1 in
    match bad with
    | [] => Ok (cfg +:+ ": " +:+ pair +:+ " PASS", [], true)
    | _ => Ok (cfg +:+ ": " +:+ pair +:+ " FAIL (" +:+ str_of_nat (length bad) +:+ " metrics; detail in TEST FAIL below)",
               (cfg +:+ " " +:+ pair +:+ ":") :: ((λ x, "  " +:+ x) <$> bad), false)
    end
  | _ => Ok (cfg +:+ ": FAIL (need ≥2 batches)",
             [cfg +:+ ": need ≥2 batches, have " +:+ str_of_nat (length ci.2)], false)
  end.
Definition stability_section (m : groups) : res (list string * list string) :=
  items ← sorted_items (by_config m);
  vs ← mapR stability_of items;
  let n_pass := length (filter (λ v : string * list string * bool, v.2 = true) vs) in
  Ok (["## stability (two interleaved batches, metrics ≥ 1 ms; not within-batch arm comparison)"]
      ++ ((λ v : string * list string * bool, v.1.1) <$> vs)
      ++ ["stability: " +:+ str_of_nat n_pass +:+ "/" +:+ str_of_nat (length vs) +:+ " arms PASS"; ""],
      List.concat ((λ v : string * list string * bool, v.1.2) <$> vs)).

Section summarize.
Context (h : host) (root : string).

Definition header_lines (a : sum_args) (sch : schema) (runs phases : list row) : res (list string) :=
  r0 ← of_option IndexError (head runs);
  qv ← get_text "qemu_version" r0; qh ← get_text "qemu_hash" r0;
  s_lines ← match sch with
            | New => _ ← require_first_connect_control runs; s_header_lines h root runs
            | Old => Ok []
            end;
  c_lines ← canary_header_lines (sa_canary a);
  h_lines ← host_lines r0;
  seed ← (if od_in "shuffle_seed" r0 then s ← get_text "shuffle_seed" r0; Ok ["shuffle_seed=" +:+ s] else Ok []);
  oh ← overhead_lines phases;
  Ok (["# bench summary (D-0055): n / median / IQR / min / max; warmup excluded"; "qemu_version=" +:+ qv;
       "qemu_hash=" +:+ qh] ++ s_lines ++ c_lines ++ linux_header_lines (sa_timeout a) (sa_linux_meta a) ++ h_lines
      ++ seed
      ++ match sa_f3_scanned a with
         | Some n => ["falsifier3_mtrap: 0 hits in " +:+ str_of_Z n
                      +:+ " trial serials + canary (computed per boot, fail-closed at first hit)"]
         | None => []
         end ++ oh ++ [""]).
(** The gates that only mark the summary as failed. *)
Definition publication_failures (m : groups) (runs : list row) : res (list string) :=
  f1 ← trimmed_vs_stock_failures m;
  f2 ← d0081_delta_failures m;
  f3 ← linux_kernel_hash_failures h root runs;
  Ok (f1 ++ f2 ++ f3).
Definition summary_path (a : sum_args) : string := sa_out_dir a +:+ "/summary.txt".
Definition verdict (lines failed : list string) : outcome :=
  match failed with
  | [] => {| rc := 0; out := lines ++ ["TEST PASS: bench summary"]; err := [] |}
  | _ => {| rc := 1; out := lines;
            err := "TEST FAIL: summarize gates not met" :: failed
              ++ ["Not widening the criterion (D-0055). Varying metrics listed above."] |}
  end.
Definition cmd_summarize (a : sum_args) : filing outcome :=
  runs ← reading (given_or_read (sa_runs a) (sa_out_dir a +:+ "/runs.csv"));
  phases ← reading (given_or_read (sa_phases a) (sa_out_dir a +:+ "/phases.csv"));
  sch ← from_res (runs_schema (match runs with r0 :: _ => od_keys r0 | [] => RUNS_FIELDS end));
  _ ← from_res (assert_aggregatable runs (sa_allow_dirty a));
  _ ← from_res (require_zero_steal runs);
  head ← from_res (header_lines a sch runs phases);
  gs ← from_res (group_by GROUP_KEY runs);
  pgs ← from_res (group_by GROUP_KEY phases);
  items ← from_res (sorted_items gs);
  ms ← from_res (mapR (summarize_one a sch pgs) items);
  steal ← from_res (steal_diagnosis h runs phases);
  failed ← from_res (publication_failures ms.*1 runs);
  '(slines, sfailed) ← from_res (if sa_stability a then stability_section ms.*1 else Ok ([], []));
  let lines := head ++ List.concat ms.*2 ++ steal ++ slines in
  _ ← put_text (summary_path a) (join nl lines +:+ nl);
  mret (verdict lines (failed ++ sfailed)).
End summarize.

(** ** Frame pointers, with and without *)
Record fp_samples := { fp_e4 : list num; fp_e3g : list num }.
Definition no_samples : fp_samples := {| fp_e4 := []; fp_e3g := [] |}.
Definition fp_run (d : odict pyval fp_samples) (r : row) : res (odict pyval fp_samples) :=
  b ← is_recorded r;
  if negb b then Ok d else
  c ← get "config" r; v ← get_float "e0_to_e4_ns" r;
  Ok (od_upd c no_samples (λ s, {| fp_e4 := fp_e4 s ++ [NFlt v]; fp_e3g := fp_e3g s |}) d).
Definition fp_phase (keys : list trial_key) (d : odict pyval fp_samples) (p : row) : res (odict pyval fp_samples) :=
  b ← is_recorded p;
  if negb b then Ok d else
  name ← get "phase" p;
  if negb (is_str name "E3g") then Ok d else
  key ← trial_key_of p;
  if negb (key_in key keys) then Ok d else
  v ← get_float "ns_since_e2" p;
  Ok (od_upd key.2 no_samples (λ s, {| fp_e4 := fp_e4 s; fp_e3g := fp_e3g s ++ [NFlt v] |}) d).
Definition fp_metric_line (metric : string) (a b : list num) : res string :=
  match a, b with
  | [], _ | _, [] => Ok (metric +:+ ": missing samples with_fp=" +:+ str_of_nat (length a) +:+ " no_fp=" +:+ str_of_nat (length b))
  | _, _ =>
    ma ← median a; mb ← median b;
    let delta := num_sub ma mb in
    let floor := stability_tol_ns (num_max2 (num_abs ma) (num_abs mb)) in
    let vs := if num_leb (num_abs delta) floor then "inside stability floor" else "above stability floor" in
    Ok (metric +:+ ": with_fp median=" +:+ num_fixed 0 ma +:+ " ns  no_fp median=" +:+ num_fixed 0 mb
        +:+ " ns  Δ(with-without)=" +:+ num_fixed 0 delta +:+ " ns  floor=" +:+ num_fixed 0 floor +:+ " ns  (" +:+ vs +:+ ")")
  end.
Definition print_fp_ab_delta (out_dir : string) (fs : files) : res (list string) :=
  runs ← read_csv (out_dir +:+ "/runs.csv") fs;
  phases ← read_csv (out_dir +:+ "/phases.csv") fs;
  _ ← assert_aggregatable runs true;
  d ← foldM fp_run [] runs;
  rec ← recorded runs;
  keys ← mapR trial_key_of rec;
  d ← foldM (fp_phase keys) d phases;
  let w := default no_samples (od_get (PStr "release-fast-boot-fp") d) in
  let n := default no_samples (od_get (PStr "release-fast-boot") d) in
  l1 ← fp_metric_line "e2_to_e3g_ns" (fp_e3g w) (fp_e3g n);
  l2 ← fp_metric_line "e0_to_e4_ns" (fp_e4 w) (fp_e4 n);
  Ok ["## finding 14: -C force-frame-pointers=yes A/B (release+fast-boot)"; l1; l2;
      "release measured builds omit the flag (D-0055); debug re-adds it via scripts/cargo-debug.sh."].

(** ** The fixture the self-test builds *)
Definition fixture_base : row :=
  [("batch_id", PStr "fix-1"); ("trial", PInt 1); ("warmup", PInt 0); ("system", PStr "whimbrel");
   ("config", PStr "release-fast-boot"); ("git_sha", PStr "abc"); ("dirty", PInt 0); ("kernel_sha256", PStr "k");
   ("bios_sha256", PStr ""); ("qemu_version", PStr "QEMU emulator version 8.2.2"); ("qemu_hash", PStr "h");
   ("host_kernel", PStr "6.12"); ("cpu_model", PStr "test"); ("governor", PStr "performance");
   ("smt_control", PStr "off"); ("cpufreq_boost", PStr "0"); ("virt", PStr "none"); ("steal_start_ticks", PInt 0);
   ("loadavg_1m", PStr "0.00"); ("canary_stvec_ns", PInt 1030000); ("canary_page_verify_ns", PInt 11900000);
   ("qemu_cpu", PInt 2); ("client_cpu", PInt 3); ("client_granularity_ns", PInt 1000000); ("shuffle_seed", PInt 1);
   ("run_order", PInt 1); ("steal_ticks", PInt 0); ("steal_ns", PInt 0); ("e0_mono_ns", PInt 0); ("e0_wall_ns", PInt 0);
   ("e0_to_first_connect_ns", PInt 10000000); ("e0_to_e4_ns", PInt 50000000); ("w_ns", PInt 25000000);
   ("d_ack_ns", PInt 40000); ("d_fin_ns", PInt 150000); ("synack_to_http_ns", PInt 1000000);
   ("guest_ftx_ns", PInt 237000000); ("guest_arp_req_n", PInt 1); ("attempts", PInt 12); ("pcap_path", PStr "x.pcap")].
Definition fixture_rows (rows : list row) : list row := (λ r, od_update fixture_base r) <$> rows.
Definition _write_fixture_runs (path : string) (rows : list row) (fs : files) : files :=
  write_csv path RUNS_FIELDS (fixture_rows rows) fs.

(** A run that returns has passed every gate, in order, and written the summary
    last; a run that raises has written nothing. *)
Lemma read_Ok {A} (f : files → res A) fs fs' x : reading f fs = (fs', Ok x) → fs' = fs ∧ f fs = Ok x.
Proof. by intros [= <- ->]. Qed.
Lemma from_Ok {A} (r : res A) fs fs' x : from_res r fs = (fs', Ok x) → fs' = fs ∧ r = Ok x.
Proof. by intros [= <- ->]. Qed.
Ltac filed H x :=
  apply filing_Ok in H; let fs1 := fresh "fs1" in let E := fresh "E" in destruct H as (x & fs1 & E & H);
  first [apply read_Ok in E | apply from_Ok in E]; let E' := fresh "E" in destruct E as [-> E'].
Lemma cmd_summarize_steps h root a fs fs' o : cmd_summarize h root a fs = (fs', Ok o) →
  ∃ runs phases sch head gs pgs items ms steal failed slines sfailed,
    given_or_read (sa_runs a) (sa_out_dir a +:+ "/runs.csv") fs = Ok runs ∧
    given_or_read (sa_phases a) (sa_out_dir a +:+ "/phases.csv") fs = Ok phases ∧
    runs_schema (match runs with r0 :: _ => od_keys r0 | [] => RUNS_FIELDS end) = Ok sch ∧
    assert_aggregatable runs (sa_allow_dirty a) = Ok tt ∧ require_zero_steal runs = Ok tt ∧
    header_lines h root a sch runs phases = Ok head ∧
    group_by GROUP_KEY runs = Ok gs ∧ group_by GROUP_KEY phases = Ok pgs ∧ sorted_items gs = Ok items ∧
    mapR (summarize_one a sch pgs) items = Ok ms ∧ steal_diagnosis h runs phases = Ok steal ∧
    publication_failures h root ms.*1 runs = Ok failed ∧
    (if sa_stability a then stability_section ms.*1 else Ok ([], [])) = Ok (slines, sfailed) ∧
    let lines := head ++ List.concat ms.*2 ++ steal ++ slines in
    fs' = <[summary_path a := join nl lines +:+ nl]> fs ∧ o = verdict lines (failed ++ sfailed).
Proof.
  unfold cmd_summarize. intros H. filed H runs. filed H phases. filed H sch. filed H u. filed H u'. destruct u, u'.
  filed H hdr. filed H gs. filed H pgs. filed H items. filed H ms. filed H steal. filed H failed. filed H sec.
  destruct sec as [slines sfailed]. cbv zeta in H. apply filing_Ok in H as (u & ? & [= <- _] & [= <- <-]).
  exists runs, phases, sch, hdr, gs, pgs, items, ms, steal, failed, slines, sfailed. by split_and!.
Qed.
Lemma cmd_summarize_raises h root a fs fs' e : cmd_summarize h root a fs = (fs', Err e) → fs' = fs.
Proof.
  unfold cmd_summarize. intros H.
  repeat (apply filing_Err in H; destruct H as [H|(? & ? & H' & H)]; [by injection H|injection H' as <- _]).
  match type of H with (let '(_, _) := ?x in _) _ = _ => destruct x as [slines sfailed] end.
  cbv zeta in H. by apply filing_Err in H as [?|(? & ? & ? & ?)].
Qed.
(** The summary writes summary.txt and nothing else. *)
Lemma cmd_summarize_files h root a fs fs' r p : cmd_summarize h root a fs = (fs', r) →
  sa_out_dir a +:+ "/summary.txt" ≠ p → fs' !! p = fs !! p.
Proof.
  destruct r as [o|e]; [|by intros ->%cmd_summarize_raises].
  intros (? & ? & ? & ? & ? & ? & ? & ? & ? & ? & ? & ? & _ & _ & _ & _ & _ & _ & _ & _ & _ & _ & _ & _ & _ & -> & _)%cmd_summarize_steps Hp.
  by rewrite lookup_insert_ne.
Qed.
