(* ===== verification/BenchPublish.v ===== *)
(** * What a published summary means (scripts/bench.py)

    [cmd_summarize] writes summary.txt whatever its publication gates say and
    ends with status 0 exactly when they all hold: the trimmed kernel faster than
    the stock one, the D-0081 window, the pinned kernel images, and the two last
    batches of every configuration stable against each other. *)
From stdpp Require Import gmap.
From S2P Require Import Prelude PyStr Regex PyFloat PyData PyCsv BenchSerial PcapHttp PinGates D0070Pass BenchHost BenchTables BenchRun BenchSummary.

(** ** The gates over the metrics of the groups *)
(** [m] is the E0→E4 median of a Linux group. *)
Definition linux_median (ms : groups) (batch cfg : pyval) (med : num) : Prop :=
  ∃ mm vals, ([batch; PStr "linux"; cfg], mm) ∈ ms ∧ default [] (od_get "e0_to_e4_ns" mm) = vals ∧ vals ≠ [] ∧
    median vals = Ok med.
Lemma group_fields_linux k b c : group_fields k = (b, PStr "linux", c) → k = [b; PStr "linux"; c].
Proof. destruct k as [|? [|? [|? [|]]]]; cbn; congruence. Qed.
Lemma linux_median_snoc ms k mm b c med : linux_median (ms ++ [(k, mm)]) b c med ↔
  linux_median ms b c med ∨ (k = [b; PStr "linux"; c] ∧ default [] (od_get "e0_to_e4_ns" mm) ≠ [] ∧
    median (default [] (od_get "e0_to_e4_ns" mm)) = Ok med).
Proof. unfold linux_median. setoid_rewrite elem_of_app. setoid_rewrite list_elem_of_singleton. naive_solver. Qed.
Lemma linux_median_key ms b c med : linux_median ms b c med → [b; PStr "linux"; c] ∈ ms.*1.
Proof. intros (mm & ? & Hin & _). apply list_elem_of_fmap. by exists ([b; PStr "linux"; c], mm). Qed.
(** [linux_medians] holds the median of every Linux group with samples. *)
Lemma linux_medians_spec ms d : NoDup ms.*1 → linux_medians ms = Ok d → NoDup (od_keys d) ∧
  ∀ b c med, od_get c (default [] (od_get b d)) = Some med ↔ linux_median ms b c med.
Proof.
  revert d. induction ms as [|[k mm] ms IH] using rev_ind; intros d Hnd H.
  { injection H as <-. split; [constructor|]. intros b c med. split; [done|]. by intros (? & ? & ?%elem_of_nil & _). }
  rewrite fmap_app in Hnd. apply NoDup_app in Hnd as (Hnd & Hk & _).
  unfold linux_medians in H. rewrite foldM_app in H. apply bind_Ok in H as (d0 & H0 & H).
  destruct (IH d0 Hnd H0) as [Hd0 Hm]. cbn [foldM] in H. apply bind_Ok in H as (d1 & H & [= <-]). cbn [fst snd] in H.
  destruct (group_fields k) as [[b0 s0] c0] eqn:Ek. setoid_rewrite linux_median_snoc.
  destruct (is_str s0 "linux") eqn:Es; cbn [negb] in H.
  2: { injection H as <-. split; [done|]. intros b c med. rewrite Hm. split; [by left|]. intros [?|(-> & _)]; [done|].
       cbn in Ek. injection Ek as _ <- _. done. }
  apply py_eqb_true in Es. subst s0. apply group_fields_linux in Ek as ->.
  destruct (default [] (od_get "e0_to_e4_ns" mm)) as [|v vals] eqn:Ev.
  { injection H as <-. split; [done|]. intros b c med. rewrite Hm. split; [by left|]. by intros [?|(_ & ? & _)]. }
  apply bind_Ok in H as (med0 & Hmed & [= <-]). split; [by apply od_set_NoDup|]. intros b c med. unfold od_upd.
  assert (∀ med', ¬ linux_median ms b0 c0 med') as Hno.
  { intros med' Hl%linux_median_key. apply (Hk _ Hl). by left. }
  rewrite od_get_set. destruct (decide (b0 = b)) as [->|Hb].
  2: { rewrite Hm. split; [by left|]. intros [?|([= ->] & _)]; done. }
  cbn [default]. unfold id. rewrite od_get_set. destruct (decide (c0 = c)) as [->|Hc].
  2: { rewrite Hm. split; [by left|]. intros [?|([= ->] & _)]; done. }
  split; [intros [= <-]; by right|]. intros [Hl|(_ & _ & Hmed')]; [by destruct (Hno med)|]. congruence.
Qed.
Lemma trimmed_vs_stock_nil ms fl : NoDup ms.*1 → trimmed_vs_stock_failures ms = Ok fl →
  (fl = [] ↔ ∀ b t s, linux_median ms b (PStr "trimmed") t → linux_median ms b (PStr "stock") s → num_geb t s = false).
Proof.
  intros Hnd (d & Hd & [= <-])%bind_Ok. destruct (linux_medians_spec _ _ Hnd Hd) as [Hdn Hm]. setoid_rewrite <-Hm. split.
  - intros Hnil b t s Ht Hs. destruct (od_get b d) as [cfgs|] eqn:Eb; [|done]. cbn [default] in Ht, Hs. unfold id in *.
    apply od_get_Some_elem in Eb. destruct (num_geb t s) eqn:E; [|done]. exfalso.
    eapply elem_of_nil. rewrite <-Hnil. apply list_elem_of_join. eexists. split; [|apply list_elem_of_fmap; eexists; split; [reflexivity|exact Eb]].
    cbn [fst snd]. rewrite Ht, Hs, E. by left.
  - intros H. apply elem_of_nil_inv. intros x Hx. apply list_elem_of_join in Hx as (l & Hx & Hl).
    apply list_elem_of_fmap in Hl as ([b cfgs] & -> & Hin). cbn [fst snd] in Hx. apply (od_get_NoDup _ _ _ Hdn) in Hin.
    destruct (od_get (PStr "trimmed") cfgs) as [t|] eqn:Et; [|by apply elem_of_nil in Hx].
    destruct (od_get (PStr "stock") cfgs) as [s|] eqn:Es; [|by apply elem_of_nil in Hx].
    rewrite (H b t s) in Hx; [by apply elem_of_nil in Hx|by rewrite Hin..].
Qed.

(** The samples of a quiet Linux row, pooled over the batches. *)
Definition quiet_group (cfg : string) (km : list pyval * metrics) : list num :=
  let '(_, sys, c) := group_fields km.1 in
  if is_str sys "linux" && is_str c cfg then default [] (od_get "e0_to_e4_ns" km.2) else [].
Definition quiet_values (ms : groups) (cfg : string) : list num := List.concat (quiet_group cfg <$> ms).
Lemma quiet_samples_spec ms cfg : od_in cfg T48B_LINUX_E0_E4_NS = true →
  od_get cfg (quiet_samples ms) = match quiet_values ms cfg with [] => None | l => Some l end.
Proof.
  intros Hin. induction ms as [|[k mm] ms IH] using rev_ind; [done|].
  unfold quiet_values. rewrite fmap_app, List.concat_app. cbn [fmap list_fmap List.concat]. rewrite app_nil_r. fold (quiet_values ms cfg).
  unfold quiet_samples. rewrite foldl_snoc. fold (quiet_samples ms). unfold quiet_group. cbn [fst snd].
  destruct (group_fields k) as [[b s] c]. destruct (is_str s "linux"); cbn [andb].
  2: { rewrite app_nil_r. by destruct c. }
  destruct c as [z|c|]; try (rewrite app_nil_r; exact IH). rewrite is_str_eqb.
  destruct (String.eqb_spec c cfg) as [->|Hne].
  - rewrite Hin. destruct (default [] (od_get "e0_to_e4_ns" mm)) as [|v vs]; [by rewrite app_nil_r|].
    unfold od_upd. rewrite od_get_set_eq, IH. by destruct (quiet_values ms cfg).
  - rewrite app_nil_r. destruct (od_in c _); [|exact IH].
    destruct (default [] (od_get "e0_to_e4_ns" mm)); [exact IH|]. unfold od_upd. by rewrite od_get_set_ne.
Qed.
(** The pooled median is inside the D-0081 window around its pin. *)
Definition in_window (ms : groups) (cfg : string) (pin : num) : Prop :=
  ∃ med, median (quiet_values ms cfg) = Ok med ∧ num_ltb (num_sub med pin) D0081_DELTA_LO_NS = false ∧
    num_gtb (num_sub med pin) D0081_DELTA_HI_NS = false.
Lemma d0081_failure_nil ms cfg pin fl : od_in cfg T48B_LINUX_E0_E4_NS = true →
  d0081_failure (quiet_samples ms) (cfg, pin) = Ok fl → (fl = [] ↔ quiet_values ms cfg = [] ∨ in_window ms cfg pin).
Proof.
  intros Hin. unfold d0081_failure. cbn [fst snd]. rewrite (quiet_samples_spec _ _ Hin). unfold in_window.
  destruct (quiet_values ms cfg) as [|v vs]; [intros [= <-]; split; [by left|done]|].
  intros (med & -> & H)%bind_Ok. destruct (num_ltb _ _ || num_gtb _ _) eqn:E.
  - apply bind_Ok in H as (x & _ & [= <-]). split; [done|]. intros [?|(med' & [= <-] & H1 & H2)]; [done|].
    by rewrite H1, H2 in E.
  - injection H as <-. apply orb_false_iff in E as [H1 H2]. split; [|done]. intros _. right. by exists med.
Qed.
Lemma concat_nil {A} (ls : list (list A)) : List.concat ls = [] ↔ ∀ l, l ∈ ls → l = [].
Proof.
  split.
  - intros H l Hl. apply elem_of_nil_inv. intros x Hx. eapply elem_of_nil. rewrite <-H. apply concat_elem. eauto.
  - intros H. apply elem_of_nil_inv. intros x (l & Hl & Hx)%concat_elem. rewrite (H l Hl) in Hx. by apply elem_of_nil in Hx.
Qed.
(** A gate that lists failures row by row lists none iff no row has one. *)
Lemma mapR_concat_nil {A B} (f : A → res (list B)) (P : A → Prop) l ls :
  (∀ x fl, x ∈ l → f x = Ok fl → fl = [] ↔ P x) → mapR f l = Ok ls → (List.concat ls = [] ↔ ∀ x, x ∈ l → P x).
Proof.
  intros Hf Hm%mapR_Ok. rewrite concat_nil. split.
  - intros Hn x Hx. destruct (Forall2_elem_l _ _ _ _ Hm Hx) as (fl & Hfl & Ho). apply (Hf x fl Hx Ho). auto.
  - intros HP fl Hfl. destruct (Forall2_elem_r _ _ _ _ Hm Hfl) as (x & Hx & Ho). apply (Hf x fl Hx Ho). auto.
Qed.
Lemma d0081_nil ms fl : d0081_delta_failures ms = Ok fl →
  (fl = [] ↔ ∀ cfg pin, (cfg, pin) ∈ T48B_LINUX_E0_E4_NS → quiet_values ms cfg = [] ∨ in_window ms cfg pin).
Proof.
  intros (ls & Hls & [= <-])%bind_Ok.
  assert (List.concat ls = [] ↔ ∀ cp : string * num, cp ∈ T48B_LINUX_E0_E4_NS → quiet_values ms cp.1 = [] ∨ in_window ms cp.1 cp.2) as ->.
  { refine (mapR_concat_nil _ _ _ _ _ Hls). intros [cfg pin] fl Hcp. apply d0081_failure_nil.
    apply od_in_spec, list_elem_of_fmap. by exists (cfg, pin). }
  split; [intros H cfg pin Hin; exact (H (cfg, pin) Hin)|]. intros H [cfg pin] Hin. by apply H.
Qed.

(** ** The pinned images *)
(** Row [r] booted the image its configuration is pinned to. *)
Definition boots_pinned (m : manifest) (r : row) : Prop :=
  ∃ cfg want, get "config" r = Ok cfg ∧ od_get (want_image cfg) (artifacts m) = Some want ∧
    get "kernel_sha256" r = Ok (PStr want).
Lemma kernel_hash_nil m r fl : kernel_hash_failure m r = Ok fl → (fl = [] ↔ boots_pinned m r).
Proof.
  unfold kernel_hash_failure, boots_pinned. intros (cfg & -> & H)%bind_Ok. cbv zeta in H.
  destruct (od_get (want_image cfg) (artifacts m)) as [want|] eqn:Ew.
  2: { injection H as <-. split; [done|]. by intros (? & ? & [= <-] & ? & _); congruence. }
  apply bind_Ok in H as (k & -> & H). destruct (is_str k want) eqn:Ek.
  - injection H as <-. apply py_eqb_true in Ek. subst k. split; [|done]. intros _. by exists cfg, want.
  - apply bind_Ok in H as (t & _ & [= <-]). split; [done|]. intros (cfg' & want' & [= <-] & Hw & [= ->]).
    rewrite Ew in Hw. injection Hw as <-. by rewrite is_str_eqb, String.eqb_refl in Ek.
Qed.
(** The recorded rows of the Linux guest. *)
Definition linux_row (r : row) : Prop := is_recorded r = Ok true ∧ get_or "system" PNone r = PStr "linux".
Lemma kernel_hashes_nil h root runs fl : linux_kernel_hash_failures h root runs = Ok fl →
  (fl = [] ↔ ∀ r, r ∈ runs → linux_row r → ∃ text m, h_read h (linux_manifest_path root) = Some text ∧
     parse_linux_manifest text = Ok m ∧ boots_pinned m r).
Proof.
  unfold linux_kernel_hash_failures. intros (rec & Hrec & H)%bind_Ok.
  assert (∀ r, r ∈ rec ↔ r ∈ runs ∧ linux_row r) as Hin.
  { intros r. rewrite (filterR_count _ _ _ Hrec), list_elem_of_filter, bind_Ok. unfold linux_row.
    setoid_rewrite <-(py_eqb_true _ (PStr "linux")). fold (is_str (get_or "system" PNone r) "linux").
    split; [intros [(b & Hb & [= Ha]) ?]|intros (? & ? & ?)]; [apply andb_true_iff in Ha as [-> ?]; done|].
    split; [exists true; split; [done|by f_equal]|done]. }
  assert (∀ Q : row → Prop, (∀ r, r ∈ runs → linux_row r → Q r) ↔ ∀ r, r ∈ rec → Q r) as Hq.
  { intros Q. split; intros HQ r; [intros [? ?]%Hin; auto|intros; apply HQ, Hin; auto]. }
  rewrite Hq. destruct rec as [|r0 rec'] eqn:Er.
  { injection H as <-. split; [|done]. by intros _ r ?%elem_of_nil. }
  destruct (h_read _ _) as [text|].
  2: { injection H as <-. split; [done|]. intros Ha. destruct (Ha r0) as (? & ? & [=] & _). by left. }
  apply bind_Ok in H as (m & Hm & (ls & Hls & [= <-])%bind_Ok).
  rewrite (mapR_concat_nil _ (boots_pinned m) _ _ (λ r fl _, kernel_hash_nil m r fl) Hls).
  split; intros Ha r Hr; [exists text, m; auto|].
  destruct (Ha r Hr) as (? & m' & [= <-] & Hm' & Hb). rewrite Hm in Hm'. by injection Hm' as <-.
Qed.

Lemma sorted_items_elem {V} (d items : odict (list pyval) V) kv : sorted_items d = Ok items → kv ∈ items ↔ kv ∈ d.
Proof. unfold sorted_items. destruct (forallb _ _); [|done]. intros [= <-]. apply elem_of_sort_by. Qed.
(** ** The stability of a configuration *)
(** The metrics of a configuration, batch by batch. *)
Definition config_batches (ms : groups) (c : pyval) : list (pyval * metrics) :=
  omap (λ km : list pyval * metrics, let '(b, _, c') := group_fields km.1 in
          if decide (c' = c) then Some (b, km.2) else None) ms.
Lemma by_config_snoc m km : by_config (m ++ [km]) =
  let '(b, _, c) := group_fields km.1 in od_push [c] (b, km.2) (by_config m).
Proof. unfold by_config. by rewrite foldl_snoc. Qed.
Lemma by_config_spec ms c :
  default [] (od_get [c] (by_config ms)) = config_batches ms c ∧ NoDup (od_keys (by_config ms)) ∧
  ∀ k, k ∈ od_keys (by_config ms) ↔ ∃ km, km ∈ ms ∧ k = [(group_fields km.1).2].
Proof.
  induction ms as [|km ms (IH & Hnd & Hk)] using rev_ind.
  { split_and!; [done|constructor|]. intros k. split; [by intros ?%elem_of_nil|]. by intros (? & ?%elem_of_nil & _). }
  rewrite by_config_snoc. unfold config_batches. rewrite omap_app. fold (config_batches ms c). cbn [omap list_omap].
  destruct (group_fields km.1) as [[b s] c'] eqn:E. cbn zeta beta iota. unfold od_push, od_upd. split_and!.
  - rewrite od_get_set, <-IH. destruct (decide (c' = c)) as [->|Hne]; [by rewrite decide_True|].
    rewrite decide_False by congruence. by rewrite app_nil_r.
  - by apply od_set_NoDup.
  - intros k. setoid_rewrite elem_of_app. setoid_rewrite list_elem_of_singleton.
    assert ((∃ km', (km' ∈ ms ∨ km' = km) ∧ k = [(group_fields km'.1).2]) ↔ k ∈ od_keys (by_config ms) ∨ k = [c']) as ->.
    { rewrite Hk. split; [intros (km' & [?| ->] & ->); [eauto|rewrite E; by right]|].
      intros [(km' & ? & ->)| ->]; [eauto|]. exists km. by rewrite E; auto. }
    rewrite od_keys_set. destruct (decide _); [|by rewrite elem_of_app, list_elem_of_singleton].
    split; [by left|]. by intros [?| ->].
Qed.
(** The two last batches of [c] are stable against each other. *)
Definition steady (ms : groups) (c : pyval) : Prop :=
  ∃ earlier x y, sort_batches (config_batches ms c) = Ok (earlier ++ [x; y]) ∧ compare_stability x.2 y.2 = Ok [].
Lemma stability_of_nil ms c v : stability_of ([c], config_batches ms c) = Ok v → (v.1.2 = [] ↔ steady ms c).
Proof.
  unfold stability_of, steady. cbv zeta. cbn [fst snd]. intros (items & -> & H)%bind_Ok.
  assert (∀ e (x y : pyval * metrics), Ok items = Ok (e ++ [x; y]) ↔ reverse items = y :: x :: reverse e) as Hrev.
  { intros e x y. assert (reverse (e ++ [x; y]) = y :: x :: reverse e) as <- by (by rewrite reverse_app).
    split; [by intros [= ->]|]. by intros ->%(inj reverse). }
  setoid_rewrite Hrev. destruct (reverse items) as [|y [|x rest]].
  { injection H as <-. split; [done|]. by intros (? & ? & ? & ? & _). }
  { injection H as <-. split; [done|]. by intros (? & ? & ? & ? & _). }
  apply bind_Ok in H as (bad & Hc & H). destruct bad as [|b bad]; injection H as <-; cbn [fst snd].
  - split; [|done]. intros _. exists (reverse rest), x, y. by rewrite reverse_involutive.
  - split; [done|]. intros (e & x' & y' & [= -> -> ->] & ?). congruence.
Qed.
Lemma stability_section_nil ms lines fl : stability_section ms = Ok (lines, fl) →
  (fl = [] ↔ ∀ km, km ∈ ms → steady ms (group_fields km.1).2).
Proof.
  unfold stability_section. intros (items & Hi & H)%bind_Ok. apply bind_Ok in H as (vs & Hvs & [= _ <-]).
  apply mapR_Ok in Hvs.
  assert (∀ c its, ([c], its) ∈ items → its = config_batches ms c) as Hits.
  { intros c its Hin. apply (sorted_items_elem _ _ _ Hi) in Hin. destruct (by_config_spec ms c) as (Hg & Hnd & _).
    apply (od_get_NoDup _ _ _ Hnd) in Hin. by rewrite Hin in Hg. }
  assert (∀ k, k ∈ items.*1 ↔ ∃ km, km ∈ ms ∧ k = [(group_fields km.1).2]) as Hkeys.
  { intros k. rewrite <-(proj2 (proj2 (by_config_spec ms PNone)) k). unfold od_keys. rewrite !list_elem_of_fmap.
    by setoid_rewrite (sorted_items_elem _ _ _ Hi). }
  rewrite concat_nil. split.
  - intros Hn km Hkm. assert ([(group_fields km.1).2] ∈ items.*1) as Hk by (apply Hkeys; eauto).
    apply list_elem_of_fmap in Hk as ([k its] & Hk & Hin). cbn [fst] in Hk. subst k.
    destruct (Forall2_elem_l _ _ _ _ Hvs Hin) as (v & Hv & Ho). rewrite (Hits _ _ Hin) in Ho.
    apply (stability_of_nil _ _ _ Ho), Hn, list_elem_of_fmap. by exists v.
  - intros Hs l (v & -> & Hv)%list_elem_of_fmap. destruct (Forall2_elem_r _ _ _ _ Hvs Hv) as ([k its] & Hin & Ho).
    assert (k ∈ items.*1) as Hk by (apply list_elem_of_fmap; by exists (k, its)).
    apply Hkeys in Hk as (km & Hkm & ->). rewrite (Hits _ _ Hin) in Ho. apply (stability_of_nil _ _ _ Ho). auto.
Qed.

(** ** The groups of a batch *)
(** The metrics of the group of [key]. *)
Definition group_metrics (sch : schema) (runs phases : list row) (key : list pyval) : res metrics :=
  metric_table (in_group GROUP_KEY key runs) (in_group GROUP_KEY key phases) (Some sch).
(** A group has the registered numbers of recorded and of warm-up rows. *)
Definition expected_counts (a : sum_args) (rows : list row) : Prop :=
  ∃ rec, recorded rows = Ok rec ∧ (∀ n, sa_expect_n a = Some n → Z.of_nat (length rec) = n) ∧
    (∀ w, sa_expect_warmup a = Some w → Z.of_nat (length rows) - Z.of_nat (length rec) = w).
(** [ms] is the table of the batch: its groups are those of the rows, each once,
    with its own metrics and the registered counts. *)
Record grouped (a : sum_args) (sch : schema) (runs phases : list row) (ms : groups) : Prop := {
  gr_once : NoDup ms.*1;
  gr_elem : ∀ k m, (k, m) ∈ ms ↔ in_group GROUP_KEY k runs ≠ [] ∧ group_metrics sch runs phases k = Ok m;
  gr_counts : ∀ k m, (k, m) ∈ ms → expected_counts a (in_group GROUP_KEY k runs);
  gr_whole : ∀ r, r ∈ runs → ∃ b s c m, key_of GROUP_KEY r = Ok [b; s; c] ∧ ([b; s; c], m) ∈ ms }.

Lemma od_get_group ks rows d key : group_by ks rows = Ok d → default [] (od_get key d) = in_group ks key rows.
Proof. intros Hd. destruct (group_by_spec _ _ _ Hd) as (_ & _ & ->). by destruct (in_group ks key rows). Qed.
Lemma group_key_fields r k : key_of GROUP_KEY r = Ok k → ∃ b s c, k = [b; s; c].
Proof.
  unfold key_of, GROUP_KEY. cbn [mapR]. intros (b & _ & H)%bind_Ok. apply bind_Ok in H as (k1 & H & [= <-]).
  apply bind_Ok in H as (s & _ & H). apply bind_Ok in H as (k2 & H & [= <-]).
  apply bind_Ok in H as (c & _ & [= <-]). by exists b, s, c.
Qed.
Lemma summarize_one_Ok a sch pgs kr km ls : summarize_one a sch pgs kr = Ok (km, ls) →
  km.1 = kr.1 ∧ metric_table kr.2 (default [] (od_get kr.1 pgs)) (Some sch) = Ok km.2 ∧ expected_counts a kr.2.
Proof.
  unfold summarize_one. intros (rec & Hr & H)%bind_Ok. cbv zeta in H.
  apply bind_Ok in H as (u & H1 & H). apply raise_when_Ok in H1.
  apply bind_Ok in H as (u' & H2 & H). apply raise_when_Ok in H2.
  apply bind_Ok in H as (m & Hm & H). destruct (group_fields kr.1) as [[b s] c].
  apply bind_Ok in H as (ls' & _ & [= <- _]). split_and!; [done|done|]. exists rec. split_and!; [done| |].
  - intros n En. rewrite En in H1. by apply negb_false_iff, Z.eqb_eq in H1.
  - intros w Ew. rewrite Ew in H2. by apply negb_false_iff, Z.eqb_eq in H2.
Qed.
Lemma summarized_once a sch pgs gs (items : list (list pyval * list row)) ms : NoDup (od_keys gs) → sorted_items gs = Ok items →
  Forall2 (λ kr o, summarize_one a sch pgs kr = Ok o) items ms → NoDup (ms.*1).*1.
Proof.
  intros Hnd Hit Hms. assert ((ms.*1).*1 = items.*1) as ->.
  { clear Hit. induction Hms as [|kr [km ls] items ms Ho _ IH]; [done|].
    rewrite !fmap_cons, IH. cbn [fst]. destruct (summarize_one_Ok _ _ _ _ _ _ Ho) as (Hk & _). by rewrite Hk. }
  unfold sorted_items in Hit. destruct (forallb _ _); [|done]. injection Hit as <-. by rewrite sort_by_perm.
Qed.
Lemma summarize_groups a sch runs phases gs pgs items ms :
  group_by GROUP_KEY runs = Ok gs → group_by GROUP_KEY phases = Ok pgs → sorted_items gs = Ok items →
  mapR (summarize_one a sch pgs) items = Ok ms → grouped a sch runs phases ms.*1.
Proof.
  intros Hgs Hpgs Hit Hms%mapR_Ok.
  assert (∀ k l, (k, l) ∈ items ↔ l = in_group GROUP_KEY k runs ∧ l ≠ []) as Hin.
  { intros k l. rewrite (sorted_items_elem _ _ _ Hit). by apply group_by_elem. }
  assert (∀ k m, (k, m) ∈ ms.*1 ↔ ∃ l ls, (k, l) ∈ items ∧ summarize_one a sch pgs (k, l) = Ok ((k, m), ls)) as Hm.
  { intros k m. rewrite list_elem_of_fmap. split.
    - intros ([km ls] & Heq & Hkm). cbn [fst] in Heq. subst km.
      destruct (Forall2_elem_r _ _ _ _ Hms Hkm) as ([k' l] & Hkl & Ho).
      pose proof (summarize_one_Ok _ _ _ _ _ _ Ho) as (Hk & _). cbn [fst] in Hk. subst k'. by exists l, ls.
    - intros (l & ls & Hkl & Ho). destruct (Forall2_elem_l _ _ _ _ Hms Hkl) as (kmls & Hkm & Ho').
      rewrite Ho in Ho'. injection Ho' as <-. by exists ((k, m), ls). }
  assert (∀ k, in_group GROUP_KEY k runs ≠ [] → ∃ m, (k, m) ∈ ms.*1) as Hall.
  { intros k Hne. assert ((k, in_group GROUP_KEY k runs) ∈ items) as Hkl by by apply Hin.
    destruct (Forall2_elem_l _ _ _ _ Hms Hkl) as ([[k' m] ls] & Hkm & Ho).
    pose proof (summarize_one_Ok _ _ _ _ _ _ Ho) as (Hk & _). cbn [fst] in Hk. subst k'. exists m. apply Hm. eauto. }
  assert (∀ k m, (k, m) ∈ ms.*1 → in_group GROUP_KEY k runs ≠ [] ∧ group_metrics sch runs phases k = Ok m ∧
            expected_counts a (in_group GROUP_KEY k runs)) as Hone.
  { intros k m (l & ls & Hkl & Ho)%Hm. apply Hin in Hkl as [-> Hne].
    destruct (summarize_one_Ok _ _ _ _ _ _ Ho) as (_ & Hmt & He). cbn [fst snd] in *.
    rewrite (od_get_group _ _ _ _ Hpgs) in Hmt. done. }
  split.
  - eapply summarized_once; [|done|done]. by apply (group_by_spec _ _ _ Hgs).
  - intros k m. split; [intros H%Hone; tauto|]. intros [Hne Hg]. destruct (Hall k Hne) as [m' Hm'].
    destruct (Hone _ _ Hm') as (_ & Hg' & _). rewrite Hg in Hg'. by injection Hg' as ->.
  - intros k m H%Hone. tauto.
  - intros r Hr. destruct (group_by_spec _ _ _ Hgs) as (_ & Hkeys & _). destruct (Hkeys r Hr) as (k & Hk).
    destruct (group_key_fields r k Hk) as (b & s & c & ->). destruct (Hall [b; s; c]) as [m Hm']; [|by exists b, s, c, m].
    intros Hnil. apply (elem_of_nil r). rewrite <-Hnil. by apply list_elem_of_filter.
Qed.

(** ** The verdict *)
(** What the publication gates ask of the groups [ms] of [runs]: in every batch
    the trimmed kernel's median is below the stock one's; both quiet Linux rows
    are in the D-0081 window, where they have samples; every recorded Linux row
    booted its configuration's pinned image; and, when stability is asked for,
    every configuration's two last batches are stable. *)
Record publishable (h : host) (root : string) (a : sum_args) (runs : list row) (ms : groups) : Prop := {
  pb_trimmed : ∀ b t s, linux_median ms b (PStr "trimmed") t → linux_median ms b (PStr "stock") s → num_geb t s = false;
  pb_window : ∀ cfg pin, (cfg, pin) ∈ T48B_LINUX_E0_E4_NS → quiet_values ms cfg = [] ∨ in_window ms cfg pin;
  pb_images : ∀ r, r ∈ runs → linux_row r → ∃ text m, h_read h (linux_manifest_path root) = Some text ∧
     parse_linux_manifest text = Ok m ∧ boots_pinned m r;
  pb_steady : sa_stability a = true → ∀ b s c m, ([b; s; c], m) ∈ ms → steady ms c }.
Lemma publication_failures_iff h root ms runs fl : NoDup ms.*1 → publication_failures h root ms runs = Ok fl →
  (fl = [] ↔
   (∀ b t s, linux_median ms b (PStr "trimmed") t → linux_median ms b (PStr "stock") s → num_geb t s = false) ∧
   (∀ cfg pin, (cfg, pin) ∈ T48B_LINUX_E0_E4_NS → quiet_values ms cfg = [] ∨ in_window ms cfg pin) ∧
   (∀ r, r ∈ runs → linux_row r → ∃ text m, h_read h (linux_manifest_path root) = Some text ∧
     parse_linux_manifest text = Ok m ∧ boots_pinned m r)).
Proof.
  unfold publication_failures. intros Hnd (f1 & H1 & H)%bind_Ok. apply bind_Ok in H as (f2 & H2 & H).
  apply bind_Ok in H as (f3 & H3 & [= <-]).
  rewrite <-(trimmed_vs_stock_nil _ _ Hnd H1), <-(d0081_nil _ _ H2), <-(kernel_hashes_nil _ _ _ _ H3).
  by rewrite !app_nil.
Qed.
Lemma verdict_exact lines failed :
  match failed with
  | [] => verdict lines failed = {| rc := 0; out := lines ++ ["TEST PASS: bench summary"]; err := [] |}
  | _ => rc (verdict lines failed) = 1 ∧ out (verdict lines failed) = lines ∧ err (verdict lines failed) ≠ []
  end.
Proof. by destruct failed. Qed.
Lemma sections_iff a sch runs phases ms sl sf : grouped a sch runs phases ms →
  (if sa_stability a then stability_section ms else Ok ([], [])) = Ok (sl, sf) →
  (sf = [] ↔ (sa_stability a = true → ∀ b s c m, ([b; s; c], m) ∈ ms → steady ms c)).
Proof.
  intros Hg. destruct (sa_stability a); [|by intros [= _ <-]]. intros H%stability_section_nil. rewrite H. split.
  - intros Hs _ b s c m Hin. exact (Hs _ Hin).
  - intros Hs [k m] Hin. pose proof (proj1 (gr_elem _ _ _ _ _ Hg k m) Hin) as [Hne _].
    destruct (in_group GROUP_KEY k runs) as [|r rows] eqn:Er; [done|].
    assert (r ∈ in_group GROUP_KEY k runs) as Hr by (rewrite Er; by left).
    apply list_elem_of_filter in Hr as [Hr _]. destruct (group_key_fields _ _ Hr) as (b & s & c & ->).
    exact (Hs eq_refl b s c m Hin).
Qed.

(** What [cmd_summarize] read, and what it made of it. *)
Definition summarised (h : host) (root : string) (a : sum_args) (fs fs' : files) (o : outcome)
    (runs phases : list row) (sch : schema) (ms : groups) : Prop :=
  given_or_read (sa_runs a) (sa_out_dir a +:+ "/runs.csv") fs = Ok runs ∧
  given_or_read (sa_phases a) (sa_out_dir a +:+ "/phases.csv") fs = Ok phases ∧
  runs_schema (od_keys (hd [] runs)) = Ok sch ∧
  assert_aggregatable runs (sa_allow_dirty a) = Ok tt ∧ require_zero_steal runs = Ok tt ∧
  grouped a sch runs phases ms ∧ ∃ lines, fs' = <[summary_path a := join nl lines +:+ nl]> fs ∧
  (publishable h root a runs ms ∧ o = {| rc := 0; out := lines ++ ["TEST PASS: bench summary"]; err := [] |} ∨
   ¬ publishable h root a runs ms ∧ rc o = 1 ∧ out o = lines ∧ err o ≠ []).
Lemma cmd_summarize_verdict h root a fs fs' o : cmd_summarize h root a fs = (fs', Ok o) →
  ∃ runs phases sch ms, summarised h root a fs fs' o runs phases sch ms.
Proof.
  intros Hok. destruct (cmd_summarize_steps _ _ _ _ _ _ Hok) as (runs & phases & sch & hdr & gs & pgs & items & ms & steal &
    failed & sl & sf & Hruns & Hphases & Hsch & Hagg & Hz & _ & Hgs & Hpgs & Hit & Hms & _ & Hpub & Hsec & Hfs & ->).
  pose proof (summarize_groups _ _ _ _ _ _ _ _ Hgs Hpgs Hit Hms) as Hg.
  exists runs, phases, sch, ms.*1. do 2 (split; [done|]). split.
  { destruct runs; [|done]. by apply bind_Ok in Hagg as (? & ? & ?). }
  do 3 (split; [done|]). eexists. split; [exact Hfs|]. match goal with |- context [verdict ?l _] => pose proof (verdict_exact l (failed ++ sf)) as Hv end.
  assert (failed ++ sf = [] ↔ publishable h root a runs ms.*1) as Hiff.
  { rewrite app_nil, (publication_failures_iff _ _ _ _ _ (gr_once _ _ _ _ _ Hg) Hpub), (sections_iff _ _ _ _ _ _ _ Hg Hsec).
    split; [by intros [(? & ? & ?) ?]; split|]. by intros []. }
  destruct (failed ++ sf); [left|right]; (split; [|done]); [by apply Hiff|]. intros Hp%Hiff. done.
Qed.

(** C3. The summary is exact.  Whenever [cmd_summarize] returns, the batch was
    admitted (schema, clean, one QEMU, one commit, one host), free of steal, and
    grouped into its batches, systems and configurations with the registered
    counts; summary.txt is written and nothing else; and the status is 0 if and
    only if the batch is publishable: trimmed below stock in every batch, the
    D-0081 window, the pinned images, and two stable last batches of every
    configuration.  Otherwise the status is 1 with the reasons on standard error. *)
Theorem cmd_summarize_exact (h : host) (root : string) (a : sum_args) (fs fs' : files) (o : outcome)
    (Hok : cmd_summarize h root a fs = (fs', Ok o)) :
  ∃ runs phases sch ms, summarised h root a fs fs' o runs phases sch ms.
Proof. by apply cmd_summarize_verdict. Qed.
Definition demo_batch : list row := fixture_rows (mjoin ((λ b,
  (λ tw : Z * Z, [("batch_id", PStr b); ("trial", PInt tw.1); ("warmup", PInt tw.2)]) <$> [(1, 1); (2, 0); (3, 0)])
  <$> ["T-1"; "T-2"])).
Definition demo_dump : list row := [[("batch_id", PStr "T-1"); ("trial", PInt 2); ("warmup", PInt 0);
  ("system", PStr "whimbrel"); ("config", PStr "other"); ("phase", PStr "E3g"); ("ns_since_e2", PInt 9); ("delta_ns", PInt 9)]].
Definition demo_sum : sum_args :=
  {| sa_out_dir := "out"; sa_stability := true; sa_allow_dirty := false; sa_expect_n := Some 2;
     sa_expect_warmup := Some 1; sa_f3_scanned := Some 6; sa_runs := demo_batch; sa_phases := demo_dump;
     sa_timeout := Some (NFlt (float_of_Z 12)); sa_linux_meta := None; sa_canary := None |}.
Definition outcome_of (r : files * res outcome) : outcome :=
  match r.2 with Ok o => o | Err _ => {| rc := 2; out := []; err := [] |} end.
(** The verdict on the demonstration batch: status 0, so it is publishable. *)
Lemma cmd_summarize_exact_witness :
  rc (outcome_of (cmd_summarize demo_host "r" demo_sum ∅)) = 0 ∧
  ∃ sch ms, grouped demo_sum sch demo_batch demo_dump ms ∧ publishable demo_host "r" demo_sum demo_batch ms.
Proof.
  destruct (cmd_summarize_exact demo_host "r" demo_sum ∅ (cmd_summarize demo_host "r" demo_sum ∅).1
    (outcome_of (cmd_summarize demo_host "r" demo_sum ∅)) ltac:(by vm_compute))
    as (runs & phases & sch & ms & Hr & Hp & _ & _ & _ & Hg & lines & _ & H).
  injection Hr as <-. injection Hp as <-. split; [by vm_compute|]. exists sch, ms. split; [exact Hg|].
  destruct H as [[H _]|(_ & H & _)]; [exact H|]. exfalso. revert H. by vm_compute.
Defined.
(** One batch alone cannot pass: the summary is written and fails. *)
Example one_batch_fails :
  let a := {| sa_out_dir := "out"; sa_stability := true; sa_allow_dirty := false; sa_expect_n := Some 2;
     sa_expect_warmup := Some 1; sa_f3_scanned := None; sa_runs := take 3 demo_batch; sa_phases := demo_dump;
     sa_timeout := None; sa_linux_meta := None; sa_canary := None |} in
  err (outcome_of (cmd_summarize demo_host "r" a ∅)) =
    ["TEST FAIL: summarize gates not met"; "release-fast-boot: need ≥2 batches, have 1";
     "Not widening the criterion (D-0055). Varying metrics listed above."].
Proof. vm_compute. reflexivity. Qed.
(** A CSV with one recorded trial has no rest to take the mean steal of. *)
Example one_trial_diagnosis : steal_diagnosis demo_host (fixture_rows [[]]) [] = Err ZeroDivisionError.
Proof. vm_compute. reflexivity. Qed.
