(* ===== verification/BenchSelftest.v ===== *)
(** * The harness's self-test (scripts/bench.py, [cmd_selftest])

    Every check and planted fault of the command, in its order.  The steps are
    those of SelfTest; a step reads back the fixture file it has just written,
    so the files of different steps do not meet.  The host answers for git-free
    subprocesses, /proc and the search of tshark; [run_on] is tshark on a pcap
    with the given bytes, [td] the temporary directory of the pcaps. *)
From stdpp Require Import gmap.
From S2P Require Import Prelude PyStr SelfTest Regex PyFloat PyData PyCsv BenchSerial PcapHttp D0070Pass BenchHost BenchTables BenchRun BenchSummary.
From Stdlib Require Import Ascii.

(** ** Steps *)
(** [try: run(); raise BenchFail(unfired) ... fired.append(f"{label}: {e}")] *)
Definition planted {A} (r : res A) (unfired : string) (needles : list string) (label : string) : step :=
  Plant {| pl_run := void r; pl_unfired := unfired; pl_needles := needles; pl_label := label |}.
(** A call that is only made: its exceptions end the test. *)
Definition runs_ok {A} (r : res A) : step := Accept (_ ← r; Ok []).
Definition check (b : bool) (msg : string) : res unit := raise_when (negb b) (BenchFail msg).
Definition test_fail (b : bool) (msg : string) : res unit := check b ("TEST FAIL: " +:+ msg).

(** ** What the messages print *)
Definition repr_dict (kvs : list (string * string)) : string :=
  "{" +:+ join ", " ((λ kv : string * string, repr_str kv.1 +:+ ": " +:+ kv.2) <$> kvs) +:+ "}".
Definition repr_row (r : row) : string := repr_dict ((λ kv, (kv.1, py_repr kv.2)) <$> r).
Definition repr_rows (rows : list row) : string := repr_list (repr_row <$> rows).
Definition repr_schedule (s : list (string * Z)) : string :=
  repr_list ((λ ct, repr_tuple [repr_str ct.1; str_of_Z ct.2]) <$> s).
Definition repr_extract (e : extract) : string :=
  repr_dict [("w_ns", str_of_Z (w_ns e)); ("d_ack_ns", str_of_Z (d_ack_ns e)); ("d_fin_ns", str_of_Z (d_fin_ns e));
             ("synack_to_http_ns", str_of_Z (synack_to_http_ns e)); ("http_len", str_of_Z (http_len e));
             ("guest_ftx_ns", match guest_ftx_ns e with Some t => str_of_Z t | None => "''" end);
             ("guest_arp_req_n", str_of_Z (guest_arp_req_n e))].
Definition repr_event (e : arp_event) : string :=
  repr_dict [("system", py_repr (ae_system e)); ("config", py_repr (ae_config e)); ("batch_id", py_repr (ae_batch e));
             ("trial", py_repr (ae_trial e)); ("warmup", py_repr (ae_warmup e)); ("guest_ftx_ns", str_of_Z (ae_ftx e));
             ("arm_median_ns", str_of_Z (ae_median e)); ("excess_ns", str_of_Z (ae_ftx e - ae_median e));
             ("guest_arp_req_n", py_repr (ae_arp_req e))].

(** ** Inputs *)
Definition ratio_log : string := unterminated
  ["[    0.062690] cpu0: Ratio of byte access time to unaligned word access is 7.36, unaligned accesses are fast"].
Definition good_serial_to (last : string) : string := unterminated
  ["PHASE ticks (10 MHz, 100 ns/tick); ns = ticks * 100";
   "PHASE _start ticks=100 ns=10000 since_start=0 ns=0 delta=0 ns=0";
   "PHASE stamp_a ticks=110 ns=11000 since_start=10 ns=1000 delta=10 ns=1000";
   "PHASE stamp_b ticks=111 ns=11100 since_start=11 ns=1100 delta=1 ns=100"; last].
Definition good_serial : string :=
  good_serial_to "PHASE E3g ticks=200 ns=20000 since_start=100 ns=10000 delta=89 ns=8900".
Definition bad_sum : string :=
  good_serial_to "PHASE E3g ticks=200 ns=20000 since_start=100 ns=10000 delta=50 ns=5000".
Definition good_ctrl : odict string pyval :=
  [("governor", PStr "performance"); ("smt_control", PStr "off"); ("cpufreq_boost", PStr "0"); ("virt", PStr "none");
   ("steal_start_ticks", PInt 0)].
Definition bad_ctrls : list (string * pyval) :=
  [("governor", PStr "powersave"); ("smt_control", PStr "on"); ("cpufreq_boost", PStr "1"); ("virt", PStr "kvm");
   ("steal_start_ticks", PInt 1); ("governor", PStr "unavailable")].
Definition steal_row (ticks trial warmup : string) : row :=
  [("steal_ticks", PStr ticks); ("batch_id", PStr "b1"); ("trial", PStr trial); ("warmup", PStr warmup)].
(** [zip]ped: [(pkt, t) for (pkt, _), t in zip(frames, times)] *)
Abbreviation frame := (list Z * Z)%type.
Definition retimed (frames : list frame) (times : list Z) : list frame := zip_with (λ f t, (f.1, t)) frames times.
(** [bytes.fromhex("3333ff123456") + guest_mac + bytes.fromhex("86dd") + bytes(46)] *)
Definition v6_frame : list Z := [0x33; 0x33; 0xff; 0x12; 0x34; 0x56] ++ guest_mac ++ [0x86; 0xdd] ++ zeros 46.
Definition syn_in (ack_f : frame) : list Z := set_slice 47 48 [0x02] ack_f.1.
Definition fake_extract (w d_ack d_fin len : Z) (_ _ : string) : res extract :=
  Ok {| w_ns := w; d_ack_ns := d_ack; d_fin_ns := d_fin; synack_to_http_ns := 1; http_len := len;
        guest_ftx_ns := None; guest_arp_req_n := 0 |}.
Definition connect_row (batch : option string) (system cfg : string) (ns : Z) : row :=
  [("warmup", PInt 0)] ++ match batch with Some b => [("batch_id", PStr b)] | None => [] end ++
  [("system", PStr system); ("config", PStr cfg); ("e0_to_first_connect_ns", PInt ns)].
Definition t47_connect_rows (m_fast_ns : Z) (batch : string) : list row :=
  let row := connect_row (Some batch) "whimbrel" in
  [row SAFE_CONFIG 18500000; row FAST_CONFIG 18600000; row "m-release-default" 18550000;
   row "m-release-fast-boot" m_fast_ns].
Definition s_pair (safe_e4 fast_e4 : Z) : list row :=
  let common := [("warmup", PInt 0); ("system", PStr "whimbrel"); ("w_ns", PInt 25000000); ("d_fin_ns", PInt 150000);
                 ("synack_to_http_ns", PInt 1000000); ("e0_to_first_connect_ns", PInt 18500000)] in
  [common ++ [("config", PStr SAFE_CONFIG); ("e0_to_e4_ns", PInt safe_e4); ("trial", PInt 1)];
   common ++ [("config", PStr FAST_CONFIG); ("e0_to_e4_ns", PInt fast_e4); ("trial", PInt 2)]].
Definition sig_row (trial ftx : Z) : row :=
  [("system", PStr "linux"); ("config", PStr "trimmed"); ("batch_id", PStr "b"); ("trial", PInt trial);
   ("warmup", PInt 0); ("guest_ftx_ns", PInt ftx); ("guest_arp_req_n", PInt 1)].
Definition sig_rows : list row := (λ i, sig_row i (237000000 + i * 200000)) <$> seqZ 0 9.
Definition group (sys cfg : string) (e4 : num) : list pyval * metrics :=
  ([PStr "b1"; PStr sys; PStr cfg], [("e0_to_e4_ns", [e4])]).
Definition manifest_text (quiet : string) : string := unterminated
  ["artifact Image-stock " +:+ str_repeat 64 "a"; "artifact Image-trimmed " +:+ str_repeat 64 "b";
   "artifact rootfs.cpio " +:+ str_repeat 64 "c"; "artifact init " +:+ str_repeat 64 "d"; "append quiet " +:+ quiet;
   "append instrumented " +:+ LINUX_APPEND_INSTRUMENTED].

(** ** The host during the test *)
Definition with_env (env : string → option string) (h : host) : host :=
  {| h_env := env; h_read := h_read h; h_unreadable := h_unreadable h; h_size := h_size h; h_sha256 := h_sha256 h;
     h_which := h_which h; h_executable := h_executable h; h_run := h_run h; h_cpu_count := h_cpu_count h;
     h_clk_tck := h_clk_tck h; h_release := h_release h; h_bind := h_bind h |}.
(** [os.environ[k] = v], [os.environ.pop(k, None)] *)
Definition setenv (k v : string) (h : host) : host :=
  with_env (λ n, if String.eqb n k then Some v else h_env h n) h.
Definition popenv (k : string) (h : host) : host := with_env (λ n, if String.eqb n k then None else h_env h n) h.
(** The host where tshark answers [run] and the only pcap is of that size. *)
Definition with_pcap (run : list string → proc) (size : string → option N) (h : host) : host :=
  {| h_env := h_env h; h_read := h_read h; h_unreadable := h_unreadable h; h_size := size; h_sha256 := h_sha256 h;
     h_which := h_which h; h_executable := h_executable h; h_run := run; h_cpu_count := h_cpu_count h;
     h_clk_tck := h_clk_tck h; h_release := h_release h; h_bind := h_bind h |}.

Section selftest.
Context (h : host) (root td : string) (run_on : list Z → list string → proc).
Context (rng : Z → nat → nat → nat) (relpath : string → string) (fs : files).

Definition tmp : string := root +:+ "/results/selftest".
(** After the first step BENCH_TSHARK is gone. *)
Definition h1 : host := popenv "BENCH_TSHARK" h.
Definition text_of (fs : files) (p : string) : option string := fs !! p.

(** ** Serial logs and counts *)
Definition serial_steps : list step :=
  [planted (require_tshark_bench (setenv "BENCH_TSHARK" "/no/such/tshark" h)) "missing tshark did not fire"
     ["tshark not installed"] "missing tshark";
   planted (parse_phases (unterminated ["PHASE E3g ticks=notanumber ns=0 since_start=0 ns=0 delta=0 ns=0"]))
     "malformed PHASE did not fire" ["malformed PHASE line"] "malformed PHASE";
   planted (parse_phases (unterminated ["PHASE E3g unset"])) "unset PHASE did not fire" ["unset"] "unset PHASE";
   planted (falsifier3_scan (unterminated ["Z P D C T V M"; "M! 0000000000000002 ffffffff80200000"]))
     "M! diagnostic did not fire" ["falsifier 3"] "falsifier 3 M!";
   runs_ok (falsifier3_scan (unterminated ["PHASE E3g ok"; "HTTP OK"]));
   planted (d0081_probe_scan ratio_log) "D-0081 ratio line did not fire" ["falsifier 1"; D0081_PROBE_RATIO]
     "D-0081 falsifier 1 ratio";
   planted (d0081_probe_scan (unterminated ["| 4 | 24000 | `check_unaligned_access_all_cpus` | 0 | 0.063108 |"]))
     "D-0081 initcall table did not fire" ["falsifier 1"; "duration 24000"] "D-0081 falsifier 1 initcall table";
   planted (d0081_probe_scan (unterminated
       ["initcall check_unaligned_access_all_cpus+0x0/0xabc returned 0 after 24000 usecs"]))
     "D-0081 initcall usecs did not fire" ["falsifier 1"; "24000 usecs"] "D-0081 falsifier 1 initcall usecs";
   runs_ok (d0081_probe_scan (unterminated ["READY"; "LINUX INIT OK"]));
   runs_ok (d0081_probe_scan (unterminated ["| 4 | 0 | `check_unaligned_access_all_cpus` | 0 | 0.063108 |";
       "initcall check_unaligned_access_all_cpus+0x0/0xabc returned 0 after 0 usecs"]));
   runs_ok (d0081_probe_scan (unterminated
       ["| 393 | 0 | `lock_and_set_unaligned_access_static_branch` | 0 | 0.064718 |"]));
   planted (require_registered_counts "t47" 5 3 2) "nonconforming n did not fire" ["BENCH_N"] "nonconforming counts";
   planted (require_registered_counts "t47" 30 3 1) "nonconforming batches did not fire" ["BENCH_BATCHES"]
     "nonconforming batches";
   runs_ok (require_registered_counts "t47" 30 3 2);
   runs_ok (require_registered_counts "fp-ab" 5 1 1)].
Definition probe_log : string := tmp +:+ "/d0081-probe.serial".
Definition mtrap_log : string := tmp +:+ "/mtrap.serial".
Definition mtrap_clean : string := tmp +:+ "/mtrap-clean.serial".
Definition mtrap_missing : string := tmp +:+ "/no-such-mtrap.serial".
Definition scan_clean : res outcome :=
  cmd_scan_mtrap (text_of (<[mtrap_clean := unterminated ["PHASE E3g ok"; "HTTP OK"]]> fs)) mtrap_clean.
Definition log_steps : list step :=
  [planted (cmd_check_serial (text_of (<[probe_log := ratio_log]> fs)) probe_log)
     "check-serial D-0081 plant did not fire" ["falsifier 1"] "check-serial D-0081 plant";
   planted (cmd_scan_mtrap (text_of (<[mtrap_log :=
       unterminated ["ZPDCTVM"; "M! 0000000000000009 ffffffff80208bba 0000000000000000"]]> fs)) mtrap_log)
     "scan-mtrap plant did not fire" ["falsifier 3"] "scan-mtrap plant";
   accepts scan_clean "scan-mtrap clean serial passes";
   planted (cmd_scan_mtrap (text_of (delete mtrap_missing fs)) mtrap_missing) "scan-mtrap missing file did not fire"
     ["serial log missing"] "scan-mtrap missing file"].

(** ** Tables *)
(** [_write_fixture_runs(path, rows); assert_aggregatable(read_csv(path))] *)
Definition in_tmp (name : string) : string := tmp +:+ "/" +:+ name.
Definition aggregate (name : string) (rows : list row) : res unit :=
  runs ← read_csv (in_tmp name) (_write_fixture_runs (in_tmp name) rows fs); assert_aggregatable runs false.
Definition good_phases : res (list string) :=
  rows ← parse_phases good_serial;
  names ← mapR (get "phase") rows;
  _ ← check (bool_decide (names = PStr <$> ["_start"; "stamp_a"; "stamp_b"; "E3g"]))
        ("good PHASE parse unexpected: " +:+ repr_rows rows);
  overhead ← stamp_overhead_ns rows;
  _ ← check (overhead =? 100) "stamp overhead parse unexpected";
  Ok [].
Definition batch_steps : list step :=
  [planted (runs ← read_csv (in_tmp "zero-runs.csv") (write_csv (in_tmp "zero-runs.csv") RUNS_FIELDS [] fs);
            assert_aggregatable runs false) "zero-trial CSV did not fire" ["zero-trial CSV"] "zero-trial CSV";
   planted (aggregate "mismatch-runs.csv"
       [[("trial", PInt 1); ("qemu_version", PStr "QEMU emulator version 8.2.2")];
        [("trial", PInt 2); ("qemu_version", PStr "QEMU emulator version 9.0.0")]])
     "version mismatch did not fire" ["QEMU version mismatch"] "version mismatch";
   planted (aggregate "dirty-runs.csv" [[("trial", PInt 1); ("dirty", PInt 1)]]) "dirty tree did not fire"
     ["dirty-tree"] "dirty tree";
   planted (aggregate "sha-runs.csv" [[("trial", PInt 1); ("git_sha", PStr "aaa")]; [("trial", PInt 2); ("git_sha", PStr "bbb")]])
     "git SHA mismatch did not fire" ["git SHA mismatch"] "git SHA mismatch";
   Accept good_phases;
   planted (parse_phases bad_sum) "phase-sum mismatch did not fire" ["phase deltas sum"] "phase-sum mismatch"].

(** ** Host controls *)
Definition steal_parse : res (list string) :=
  n ← steal_ticks_from_stat (unterminated ["cpu  1 0 2 3 4 5 6 7 8 9"; "cpu0 0 0 0 0 0 0 0 0 0 0"]);
  _ ← check (n =? 7) "steal column parse unexpected";
  Ok [].
Definition live_steal : res (list string) :=
  live ← read_steal_ticks h1;
  _ ← check (negb (live <? 0)) "live steal ticks negative";
  Ok ["live /proc/stat steal ticks=" +:+ str_of_Z live].
Definition bad_ctrl (kb : string * pyval) : step :=
  let what := "host control " +:+ kb.1 +:+ "=" +:+ py_repr kb.2 in
  planted (require_host_controls h1 (Some (od_set kb.1 kb.2 good_ctrl))) (what +:+ " did not fire")
    ["host control " +:+ kb.1 +:+ "="] what.
Definition cpus_are (text : string) (want : list Z) (msg : string) : step :=
  runs_ok (cpus ← parse_cpu_list text; check (bool_decide (cpus = want)) msg).
Definition unanimous : res (list string) :=
  g ← summarize_governors [(0, "performance"); (7, "performance")];
  _ ← check (String.eqb g "performance") "unanimous governors did not collapse to performance";
  Ok ["unanimous governors collapse to performance"].
Definition mixed : res string := summarize_governors [(0, "performance"); (1, "schedutil")].
Definition control_steps : list step :=
  [Accept steal_parse;
   planted (steal_ticks_from_stat (unterminated ["cpu  1 2 3"])) "short /proc/stat cpu line did not fire"
     ["no steal column"] "short steal column";
   Accept live_steal;
   accepts (require_host_controls h1 (Some good_ctrl)) "host controls accept a dedicated-host snapshot"]
  ++ (bad_ctrl <$> bad_ctrls) ++
  [cpus_are "0-3" [0; 1; 2; 3] "CPU range 0-3 parse unexpected";
   cpus_are "0,2-3,7" [0; 2; 3; 7] "CPU list 0,2-3,7 parse unexpected";
   planted (parse_cpu_list "") "empty CPU list did not fire" ["online CPU list is empty"] "empty CPU list";
   planted (parse_cpu_list "3-1") "inverted CPU range did not fire" ["malformed CPU list"] "inverted CPU range";
   Accept unanimous;
   runs_ok mixed;
   planted (m ← mixed; require_host_controls h1 (Some (od_set "governor" (PStr m) good_ctrl)))
     "mixed governors did not fire" ["schedutil"; "mixed:"] "mixed governors (cpu0-only would pass)"].
Definition steal_steps : list step :=
  [accepts (require_steal_delta_zero h1 0) "steal delta 0 accepted";
   planted (require_steal_delta_zero h1 1) "nonzero steal delta did not fire" ["steal_ticks=1 on this trial"]
     "nonzero steal delta";
   planted (require_steal_delta_zero h1 (-1)) "negative steal delta did not fire" ["steal went backwards"]
     "negative steal delta";
   accepts (require_zero_steal [steal_row "0" "1" "1"]) "zero steal CSV accepted (warmup included)";
   planted (require_zero_steal [steal_row "0" "1" "0"; steal_row "1" "2" "1"]) "warmup steal_ticks=1 did not fire"
     ["warmup=1"; "steal_ticks=1"] "warmup steal (exhibit validators skip)";
   planted (aggregate "ctrl-runs.csv" [[("trial", PInt 1); ("virt", PStr "none")]; [("trial", PInt 2); ("virt", PStr "kvm")]])
     "virt mismatch did not fire" ["virt mismatch"] "virt mismatch";
   accepts (require_origin_sync h1 (Some {| s_branch := "m4-evaluation"; s_head := "abc"; s_origin := "abc" |}))
     "origin sync accepts HEAD == origin/<branch>";
   planted (require_origin_sync h1 (Some {| s_branch := "m4-evaluation"; s_head := "aaa111"; s_origin := "bbb222" |}))
     "origin mismatch did not fire" ["HEAD aaa111"; "origin/m4-evaluation bbb222"] "origin mismatch"].

(** ** The schedule *)
Definition schedule_42 : list (string * Z) := recorded_schedule rng ["a"; "b"] 5 3 42 1.
Definition sequential : list (string * Z) := mjoin ((λ c, (λ t, (c, t)) <$> seqZ 4 5) <$> ["a"; "b"]).
Definition schedule_check : res (list string) :=
  let sched_a := schedule_42 in let sched_b := schedule_42 in
  _ ← check (bool_decide (sched_a = sched_b)) "recorded_schedule is not deterministic";
  _ ← check (set_eqb (py_set sched_a) sequential) ("recorded_schedule lost pairs: " +:+ repr_schedule sched_a);
  _ ← check (negb (bool_decide (sched_a = sequential))) "recorded_schedule did not shuffle (seed 42)";
  Ok ["recorded_schedule shuffled: " +:+ repr_schedule sched_a].

(** ** Schemas *)
Definition new_csv : string := in_tmp "new-schema.csv".
Definition first_of {A} (l : list A) : res A := of_option IndexError (head l).
Definition new_row : res row :=
  rows ← read_csv new_csv (_write_fixture_runs new_csv [[("trial", PInt 1)]] fs); first_of rows.
Definition fields_check : res (list string) :=
  let has c := bool_decide (c ∈ RUNS_FIELDS) in
  _ ← test_fail (negb (has "e0_to_e3w_ns")) "RUNS_FIELDS still has e0_to_e3w_ns";
  _ ← forM_ (λ col, test_fail (has col) ("RUNS_FIELDS missing " +:+ col)) new_cols;
  r0 ← new_row;
  _ ← test_fail (negb (od_in "e0_to_e3w_ns" r0)) "selftest row still has e0_to_e3w_ns";
  sch ← runs_schema (od_keys r0);
  _ ← test_fail (match sch with New => true | Old => false end) "fixture schema is not new";
  Ok ["new-schema fixture has w_ns/d_ack_ns/d_fin_ns, no e0_to_e3w_ns"].
Definition without_fields (drop : list string) : list string :=
  filter (λ f, negb (bool_decide (f ∈ drop)) = true) RUNS_FIELDS.
Definition with_e3w (r : row) : row := od_set "e0_to_e3w_ns" (PInt 11000000) r.
(** [{k: new_rows[0][k] for k in fields}] *)
Definition restricted (fields : list string) : res row :=
  r ← new_row; mapR (λ k, v ← get k r; Ok (k, v)) fields.
(** [write_csv(path, fields, [row]); read_csv(path)] *)
Definition reread (name : string) (fields : list string) (r : row) : res (list row) :=
  read_csv (in_tmp name) (write_csv (in_tmp name) fields [r] fs).
Definition header_schema (name : string) (fields : list string) (r : row) : res schema :=
  rows ← reread name fields r; r0 ← first_of rows; runs_schema (od_keys r0).
Definition mixed_fields : list string := RUNS_FIELDS ++ ["e0_to_e3w_ns"].
Definition neither_fields : list string := without_fields new_cols.
Definition partial_fields : list string := without_fields ["d_ack_ns"; "d_fin_ns"].
Definition old_check : res (list string) :=
  r ← restricted neither_fields;
  sch ← header_schema "old-schema.csv" (neither_fields ++ ["e0_to_e3w_ns"]) (with_e3w r);
  _ ← test_fail (match sch with Old => true | New => false end) "historical e0_to_e3w_ns-only header is not old schema";
  Ok ["old-schema header (e0_to_e3w_ns, no W/D_*) still detects as old"].
Definition schema_steps : list step :=
  [Accept fields_check;
   refuses (r ← new_row; header_schema "mixed-schema.csv" mixed_fields (with_e3w r)) "mixed runs.csv schema" "mixed schema";
   refuses (r ← new_row; rows ← reread "mixed-schema.csv" mixed_fields (with_e3w r); assert_aggregatable rows false)
     "mixed runs.csv schema" "mixed schema via aggregate";
   runs_ok (restricted neither_fields);
   refuses (r ← restricted neither_fields; header_schema "neither-schema.csv" neither_fields r)
     "incomplete runs.csv schema" "neither schema";
   Accept old_check;
   runs_ok (restricted partial_fields);
   refuses (r ← restricted partial_fields;
            header_schema "partial-schema.csv" (partial_fields ++ ["e0_to_e3w_ns"]) (with_e3w r))
     "mixed runs.csv schema" "partial new columns with e0_to_e3w_ns"].

(** ** Pcaps *)
Definition in_td (name : string) : string := td +:+ "/" +:+ name.
(** The host when the pcap [path] holds [bytes], or when there is no pcap. *)
Definition on_pcap (path : string) (bytes : list Z) : host :=
  with_pcap (run_on bytes) (λ p, if String.eqb p path then Some (N.of_nat (length bytes)) else None) h1.
Definition no_pcap : host := with_pcap (h_run h) (λ _, None) h1.
Section pcaps.
Context (tshark : string).
(** [write_frames(path, chosen); require_pcap_intervals(path, tshark, system)] *)
Definition intervals (name : string) (chosen : list frame) (system : string) : res extract :=
  bytes ← write_pcap chosen; require_pcap_intervals (on_pcap (in_td name) bytes) (in_td name) tshark system.
Definition imported (frames : list frame) : res (list string) :=
  got ← intervals "ok.pcap" frames "whimbrel";
  let want := {| w_ns := 30000000; d_ack_ns := 36000; d_fin_ns := 212000; synack_to_http_ns := 1000000;
                 http_len := 92; guest_ftx_ns := Some 20000000; guest_arp_req_n := 1 |} in
  _ ← test_fail (bool_decide (got = want)) ("imported extract " +:+ repr_extract got +:+ " want " +:+ repr_extract want);
  Ok ["imported D-0070 extract on synthetic pcap"].
Definition dropped (frames : list frame) : list (string * list frame) :=
  [("no slirp ARP", drop 1 frames); ("no guest SYN/ACK", take 2 frames ++ drop 3 frames);
   ("no HTTP 200", take 3 frames ++ drop 4 frames); ("no pure ACK", take 4 frames ++ drop 5 frames);
   ("no client FIN", take 5 frames)].
(** [for i, (needle, chosen) in enumerate(cases)]: the file of the [i]-th case. *)
Definition cases (prefix label : string) (l : list (string * list frame)) : list step :=
  imap (λ i nc, refuses (intervals (prefix +:+ str_of_nat i +:+ ".pcap") nc.2 "whimbrel") nc.1 (label +:+ nc.1)) l.
Definition extract_steps (frames : list frame) : list step :=
  [Accept (imported frames);
   refuses (require_pcap_intervals (on_pcap (in_td "empty.pcap") []) (in_td "empty.pcap") tshark "whimbrel")
     "pcap missing or empty" "empty pcap";
   refuses (require_pcap_intervals no_pcap (in_td "no-such.pcap") tshark "whimbrel") "pcap missing or empty" "missing pcap"]
  ++ cases "drop-" "missing " (dropped frames).

(** The loss signature never fails a trial. *)
Definition passive (frames : list frame) : res (list string) :=
  got ← intervals "no-guest-arp.pcap" (take 1 frames ++ drop 2 frames) "whimbrel";
  _ ← test_fail (guest_arp_req_n got =? 0) ("guest_arp_req_n " +:+ str_of_Z (guest_arp_req_n got)
        +:+ " want 0 without a guest ARP");
  _ ← test_fail (bool_decide (guest_ftx_ns got = Some 30000000)) ("guest_ftx_ns "
        +:+ match guest_ftx_ns got with Some t => str_of_Z t | None => "" end +:+ " want 30000000 (the SYN/ACK)");
  Ok ["guest ARP-loss signature is passive (absent → 0, no fail)"].

(** The SYN-grid anchor (D-0077), and the record of a failed gate *)
Definition v6_name : string := in_td "ipv6-first.pcap".
Definition v6_frames (arp_f garp_f syn_f ack_f : frame) : list frame :=
  [(arp_f.1, 0); (v6_frame, 12000); (garp_f.1, 20000); (syn_in ack_f, 20500); (syn_f.1, 31000)].
Definition far_from (x : float) (want : string) : bool :=
  num_gtb (num_abs (NFlt (fsub x (float_lit want)))) (NFlt (float_lit "1e-6")).
Definition syn_grid_anchor (bytes : list Z) : res (list string) :=
  let hp := on_pcap v6_name bytes in
  dt ← assert_syn_grid (h_run hp) (h_size hp) v6_name tshark;
  _ ← test_fail (negb (far_from dt "0.0005")) ("SYN-grid anchored on the IPv6 frame (dt=" +:+ fmt_fixed 6 dt
        +:+ "s, want 0.000500 from the guest ARP)");
  old_rows ← tshark_table (h_run hp) v6_name tshark ("eth.src != " +:+ SLIRP_MAC) [];
  r0 ← first_of old_rows;
  t ← _time_s r0;
  let old_dt := fsub (float_lit "0.0205") t in
  _ ← test_fail (num_ltb (num_abs (NFlt (fsub old_dt (float_lit "0.0085")))) (NFlt (float_lit "1e-6")))
        ("fixture does not reproduce the D-0077 shape (old-anchor dt=" +:+ fmt_fixed 6 old_dt +:+ "s, want 0.008500)");
  Ok ["SYN-grid anchor ignores a non-IPv4 guest frame: 0.5 ms new vs 8.5 ms old on the same pcap (D-0077)"].
Definition gf : string := in_td "gate-failures.csv".
Definition failed_trial (t order : Z) : trial_id :=
  {| t_batch := "b"; t_trial := t; t_warmup := 0; BenchTables.t_system := "linux"; BenchTables.t_config := "stock"; t_order := order |}.
(** The two records, and what they print. *)
Definition record_29 (bytes : list Z) : files * string :=
  record_gate_failure (on_pcap v6_name bytes) root relpath (failed_trial 29 125) v6_name
    "TEST FAIL: SYN-grid: t(SYN)-t(guest first TX)=0.006454s" (Some gf) ∅.
Definition record_30 (fs : files) : files * string :=
  record_gate_failure no_pcap root relpath (failed_trial 30 126) (in_td "no-such.pcap") "TEST FAIL: pcap missing" (Some gf) fs.
Definition recorded_gates (bytes : list Z) : res (list string) :=
  let fs1 := (record_29 bytes).1 in
  gf_rows ← read_csv gf fs1;
  let lost := "gate failure not recorded: " +:+ repr_rows gf_rows in
  _ ← test_fail (length gf_rows =? 1)%nat lost;
  r0 ← first_of gf_rows;
  t ← get "trial" r0;
  _ ← test_fail (is_str t "29") lost;
  n ← get "guest_arp_req_n" r0;
  _ ← test_fail (is_str n "1") ("gate-failure row lost the passive signature: " +:+ repr_row r0);
  gf_rows ← read_csv gf (record_30 fs1).1;
  _ ← test_fail (length gf_rows =? 2)%nat
        "recorder dropped a row when the pcap was absent; diagnostics must not need a gate to pass";
  Ok ["gate-failing trial is recorded before the raise, pcap or not"].
Definition order_cases (arp_f syn_f http_f ack_f fin_f : frame) : list (string * list frame) :=
  [("SYN/ACK before slirp ARP",
    [(syn_f.1, 0); (arp_f.1, 30000); (http_f.1, 31000); (ack_f.1, 31036); (fin_f.1, 31212)]);
   ("HTTP frame before SYN/ACK",
    [(arp_f.1, 0); (http_f.1, 30000); (syn_f.1, 31000); (ack_f.1, 31036); (fin_f.1, 31212)]);
   ("ACK-of-response before HTTP",
    [(arp_f.1, 0); (syn_f.1, 30000); (http_f.1, 31036); (ack_f.1, 31000); (fin_f.1, 31212)]);
   ("client FIN before HTTP",
    [(arp_f.1, 0); (syn_f.1, 30000); (http_f.1, 31000); (ack_f.1, 31036); (fin_f.1, 30900)])].
Definition long_fin (frames : list frame) : list frame := retimed frames [0; 20000; 30000; 31000; 31036; 41000].
Definition linux_long (frames : list frame) : res (list string) :=
  got ← intervals "long-fin.pcap" (long_fin frames) "linux";
  _ ← test_fail (d_fin_ns got =? 10000000) ("long-fin d_fin_ns=" +:+ str_of_Z (d_fin_ns got) +:+ " want 10000000");
  Ok ["linux d_fin_ns ≥ 10 ms is recorded, not a tripwire"].
(** [arp_f, garp_f, syn_f, http_f, ack_f, fin_f = frames] *)
Definition frame_steps (frames : list frame) : list step :=
  match frames with
  | [arp_f; garp_f; syn_f; http_f; ack_f; fin_f] =>
    let v6 := write_pcap (v6_frames arp_f garp_f syn_f ack_f) in
    [Accept (passive frames); Accept (bytes ← v6; syn_grid_anchor bytes); Accept (bytes ← v6; recorded_gates bytes)]
    ++ cases "order-" "" (order_cases arp_f syn_f http_f ack_f fin_f) ++
    [Accept (linux_long frames);
     refuses (intervals "long-fin.pcap" (long_fin frames) "whimbrel") "d_fin_ns=" "whimbrel d_fin_ns ≥ 10 ms"]
  | _ => [Accept (Err ValueError)]
  end.
End pcaps.
(** The extract replaced by one that returns the given values. *)
Definition faked (w d_ack d_fin len : Z) (needle label : string) : step :=
  refuses (require_pcap_intervals_by h1 (fake_extract w d_ack d_fin len) "/dev/null" "tshark" "whimbrel") needle label.
Definition fake_steps : list step :=
  [faked 1 1 1 91 "HTTP tcp.len=91 want 92" "HTTP tcp.len ≠ 92";
   faked (-1) 1 1 92 "w_ns is negative" "negative w_ns";
   faked 1 (-2) 1 92 "d_ack_ns is negative" "negative d_ack_ns";
   faked 1 1 (-3) 92 "d_fin_ns is negative" "negative d_fin_ns"].

(** ** First connect and S *)
Definition span_refused (rows : list row) (label : string) : step :=
  refuses (require_first_connect_control rows) "first-connect control span" label.
Definition s_header : res (list string) :=
  s_ok ← s_header_lines h1 root (s_pair 51450000 51450000);
  l0 ← first_of s_ok;
  _ ← test_fail (startswith l0 "s_ns=6800000 " && str_in "n=2" l0) ("unexpected s_ns header " +:+ repr_strs s_ok);
  l1 ← of_option IndexError (s_ok !! 1%nat);
  _ ← test_fail (String.eqb l1 "s_ns_fast=6800000 s_ns_safe=6800000") ("unexpected s_ns_fast/safe header " +:+ l1);
  Ok ["s_ns header pools both configs; |fast − safe| ≤ 1 ms"].
Definition connect_steps : list step :=
  let pair safe fast := [connect_row None "whimbrel" SAFE_CONFIG safe; connect_row None "whimbrel" FAST_CONFIG fast] in
  [accepts (require_first_connect_control (pair 18500000 18600000)) "first-connect control accepts |safe − fast| ≤ 1 ms";
   span_refused (pair 18500000 20000000) "first-connect |safe − fast| > 1 ms";
   span_refused [connect_row None "whimbrel" FAST_CONFIG 18500000; connect_row None "linux" "linux-trimmed" 20000000]
     "first-connect cross-system > 1 ms";
   accepts (require_first_connect_control (t47_connect_rows 18580000 "b1"))
     "first-connect control spans all four t47 arms in a batch";
   span_refused (t47_connect_rows 20000000 "b1") "t47-kind m-lane first-connect span > 1 ms";
   span_refused (t47_connect_rows 18580000 "b1" ++ t47_connect_rows 20000000 "b2")
     "per-batch first-connect span > 1 ms (pooled would pass)";
   Accept s_header;
   refuses (s_header_lines h1 root (s_pair 51450000 52650000)) "|s_ns_fast − s_ns_safe|" "|s_ns_fast − s_ns_safe| > 1 ms"].

(** ** Phases, argv, timeouts and arms *)
Definition linux_skip : res (list string) :=
  rows ← phases_from_serial (unterminated ["READY"; "LINUX INIT OK"]) "linux";
  _ ← check (match rows with [] => true | _ => false end) ("linux PHASE skip unexpected: " +:+ repr_rows rows);
  Ok ["linux serial skips PHASE-presence"].
Definition argv_check : res (list string) :=
  w_extra ← guest_qemu_extra (whimbrel_arm "release-fast-boot" [] None) "/k" None None;
  _ ← check (bool_decide (w_extra = ["-kernel"; "/k"])) ("Whimbrel argv unexpected: " +:+ repr_strs w_extra);
  _ ← check (negb (bool_decide ("-initrd" ∈ w_extra) || bool_decide ("-append" ∈ w_extra)))
        "Whimbrel argv took -initrd or -append";
  l_extra ← guest_qemu_extra (linux_arm "trimmed" "Image-trimmed" "quiet") "/Image" (Some "/rootfs.cpio")
              (Some LINUX_APPEND_QUIET);
  _ ← check (bool_decide (l_extra = ["-kernel"; "/Image"; "-initrd"; "/rootfs.cpio"; "-append"; LINUX_APPEND_QUIET]))
        ("Linux argv unexpected: " +:+ repr_strs l_extra);
  Ok ["per-system argv: Whimbrel -kernel only; Linux +initrd +append"].
Definition num_is (n : num) (z : Z) : bool := num_eqb n (NFlt (float_of_Z z)).
Definition no_timeout : host := popenv "BENCH_TIMEOUT_S" h1.
Definition timeout_check : res (list string) :=
  w ← campaign_timeout_s no_timeout "whimbrel";
  _ ← check (num_is w 12) "whimbrel default timeout is not 12";
  t ← campaign_timeout_s no_timeout "t48";
  _ ← check (num_is t 60) "t48 default timeout is not 60";
  let h45 := setenv "BENCH_TIMEOUT_S" "45" no_timeout in
  w ← campaign_timeout_s h45 "whimbrel";
  bad ← py_or (negb (num_is w 45)) (t ← campaign_timeout_s h45 "t48"; Ok (negb (num_is t 45)));
  _ ← check (negb bad) "BENCH_TIMEOUT_S is not uniform across kinds";
  Ok ["uniform campaign timeout (not a per-system recv knob)"].
Definition qemu_wait_check : res (list string) :=
  let wait sys t := qemu_timeout_s sys (NFlt (float_of_Z t)) in
  _ ← check (num_is (wait "whimbrel" 12) 14) "Whimbrel qemu wait is not floor 12 + 2";
  _ ← check (num_is (wait "linux" 12) 62) "Linux qemu wait is not floor 60 + 2";
  _ ← check (num_is (wait "whimbrel" 60) 62) "uniform 60s recv must lengthen Whimbrel qemu wait too";
  Ok ["per-system QEMU hang watchdog; recv stays uniform"].
Definition t48_check : res (list string) :=
  arms ← configs_for root "t48";
  let t48_names := config <$> arms in
  _ ← check (bool_decide (t48_names = ["release-fast-boot"; "release-default"; "trimmed"; "stock"; "trimmed-instrumented"]))
        ("t48 arms unexpected: " +:+ repr_strs t48_names);
  Ok ["t48 five-arm configs_for"].
Definition t47_check : res (list string) :=
  t47 ← configs_for root "t47";
  let names := config <$> t47 in
  _ ← test_fail (bool_decide (names = ["release-fast-boot"; "release-default"; "m-release-fast-boot"; "m-release-default"]))
        ("t47 arms " +:+ repr_strs names);
  _ ← test_fail (bool_decide ((qemu_bios <$> t47) = [None; None; Some "mshim"; Some "mshim"])) "t47 bios markers wrong";
  _ ← test_fail (forallb (λ a, String.eqb (system a) "whimbrel") t47) "t47 must be whimbrel-only";
  Ok ["t47 four-arm configs_for (D-0079 pair, whimbrel-only)"].
Definition offload_check : res (list string) :=
  '(_, qargs) ← qemu_argv h1 root "/tmp/whimbrel.pcap" 8080 None;
  let qjoined := join " " qargs in
  _ ← check (str_in "csum=off" qjoined && str_in "guest_tso4=off" qjoined)
        ("shared qemu args missing offload-off: " +:+ qjoined);
  _ ← check (str_in "host_uso=off" qjoined) ("shared qemu args missing host_uso=off: " +:+ qjoined);
  Ok ["shared virtio-net-device has csum=off / TSO-family off"].
Definition arm_steps : list step :=
  [Accept linux_skip;
   planted (phases_from_serial (unterminated ["READY"]) "whimbrel") "whimbrel empty PHASE did not fire" ["no PHASE rows"]
     "whimbrel PHASE-presence";
   Accept argv_check; Accept timeout_check; Accept qemu_wait_check; Accept t48_check; Accept t47_check].

(** ** Publication gates *)
Definition some_in (needles failures : list string) : bool :=
  existsb (λ x, forallb (in_message x) needles) failures.
Definition is_nil {A} (l : list A) : bool := match l with [] => true | _ => false end.
Definition flt (s : string) : num := NFlt (float_lit s).
Definition trim_check : res (list string) :=
  trim_bad ← trimmed_vs_stock_failures [group "linux" "trimmed" (flt "5000000000.0"); group "linux" "stock" (flt "1000000000.0")];
  _ ← check (some_in ["not published"] trim_bad) ("trimmed-vs-stock tripwire did not fire: " +:+ repr_strs trim_bad);
  t0 ← first_of trim_bad;
  trim_ok ← trimmed_vs_stock_failures [group "linux" "trimmed" (flt "1000000000.0"); group "linux" "stock" (flt "5000000000.0")];
  _ ← check (is_nil trim_ok) ("trimmed-vs-stock fired on a healthy pair: " +:+ repr_strs trim_ok);
  Ok ["trimmed-vs-stock: " +:+ t0].
(** [d0081_delta_failures] on the two pins, each off by the given amount *)
Definition pin (cfg : string) : res num := of_option (KeyError (repr_str cfg)) (od_get cfg T48B_LINUX_E0_E4_NS).
Definition d0081_pair (dt ds : Z) : res (list string) :=
  pin_t ← pin "trimmed"; pin_s ← pin "stock";
  d0081_delta_failures [group "linux" "trimmed" (num_sub pin_t (NInt dt)); group "linux" "stock" (num_sub pin_s (NInt ds))].
Definition d0081_check : res (list string) :=
  small ← d0081_pair 0 20000000;
  _ ← check (some_in ["falsifier 2"; "trimmed"] small) ("D-0081 Δ=0 did not fire on trimmed: " +:+ repr_strs small);
  _ ← check (negb (some_in ["stock"] small))
        ("D-0081 in-range stock fired with out-of-range trimmed: " +:+ repr_strs small);
  s0 ← first_of small;
  large ← d0081_pair 40000000 20000000;
  _ ← check (some_in ["falsifier 2"; "trimmed"] large) ("D-0081 Δ=-40 ms did not fire on trimmed: " +:+ repr_strs large);
  l0 ← first_of large;
  good ← d0081_pair 20000000 20000000;
  _ ← check (is_nil good) ("D-0081 in-range pair fired: " +:+ repr_strs good);
  none ← d0081_delta_failures [];
  _ ← check (is_nil none) "D-0081 delta gate fired with no linux rows";
  other ← d0081_delta_failures [group "whimbrel" "release-fast-boot" (flt "51000000.0")];
  _ ← check (is_nil other) "D-0081 delta gate fired on a Whimbrel-only summary";
  Ok ["D-0081 falsifier 2 too-small: " +:+ s0; "D-0081 falsifier 2 too-large: " +:+ l0;
      "D-0081 falsifier 2 in-range pair and non-linux skip pass"].
Definition header_check : res (list string) :=
  let c64 := str_repeat 64 "c" in
  let hdr := linux_header_lines (Some (NFlt (float_of_Z 60)))
               (Some {| lm_cpio := "bench/linux/artifacts/rootfs.cpio"; lm_cpio_sha256 := c64 |}) in
  _ ← check (bool_decide (hdr = ["client_timeout_s=60"; "cpio=bench/linux/artifacts/rootfs.cpio"; "cpio_sha256=" +:+ c64;
        "linux_append_quiet=" +:+ LINUX_APPEND_QUIET; "linux_append_instrumented=" +:+ LINUX_APPEND_INSTRUMENTED]))
        ("batch header unexpected: " +:+ repr_strs hdr);
  Ok ["batch header: cpio hash, -append pins, uniform client_timeout_s"].
Definition manifest_check : res unit :=
  man ← parse_linux_manifest (manifest_text LINUX_APPEND_QUIET);
  cpio ← of_option (KeyError "'rootfs.cpio'") (od_get "rootfs.cpio" (artifacts man));
  check (String.eqb cpio (str_repeat 64 "c")) "MANIFEST parse unexpected".
Definition publication_steps : list step :=
  [Accept trim_check; Accept d0081_check; Accept header_check; runs_ok manifest_check;
   planted (parse_linux_manifest (manifest_text "console=ttyS0")) "MANIFEST append mismatch did not fire" ["append quiet"]
     "MANIFEST append pin"].
(** linux-boot-test.sh passes exactly where the Linux artifacts are. *)
Definition boot_check : res (list string) :=
  let boot := h_run h1 ["bash"; root +:+ "/scripts/linux-boot-test.sh"] in
  let boot_out := stdout boot +:+ stderr boot in
  if is_some (h_size h1 (linux_manifest_path root)) then
    _ ← check (returncode boot =? 0) ("linux-boot-test failed with artifacts present: " +:+ boot_out);
    Ok ["linux-boot-test green with artifacts present"]
  else
    _ ← check (negb (returncode boot =? 0)) "linux-boot-test passed without artifacts";
    _ ← check (str_in "linux artifact missing" boot_out)
          ("linux-boot-test missing-artifact shape unexpected: " +:+ boot_out);
    Ok ["linux-boot-test fail-closed without artifacts"].

(** ** The loss signature and the canary *)
Definition jitter_check : res unit :=
  events ← arp_signature sig_rows;
  test_fail (is_nil events) "arp_signature flagged ordinary jitter".
Definition planted_loss : res unit :=
  hits ← arp_signature (sig_rows ++ [sig_row 9 (237000000 + 52000000)]);
  let missed := "arp_signature missed the planted event: " +:+ repr_list (repr_event <$> hits) in
  _ ← test_fail (length hits =? 1)%nat missed;
  e ← first_of hits;
  n ← py_int (ae_trial e);
  test_fail (n =? 9) missed.
Definition old_signature : res (list arp_event) :=
  r ← first_of sig_rows; arp_signature [filter (λ kv : string * pyval, kv.1 ≠ "guest_ftx_ns") r].
Definition canary_check : res unit :=
  let phase name ns := [("phase", PStr name); ("delta_ns", PInt ns)] in
  c ← canary_values [phase "stvec" 1030000; phase "page_verify" 11900000];
  _ ← test_fail (bool_decide (c = [("canary_stvec_ns", 1030000); ("canary_page_verify_ns", 11900000)]))
        ("canary_values wrong: " +:+ repr_dict ((λ kv : string * Z, (kv.1, str_of_Z kv.2)) <$> c));
  hdr ← canary_header_lines (Some c);
  let wrong := "canary header line wrong: " +:+ repr_strs hdr in
  _ ← test_fail (length hdr =? 1)%nat wrong;
  l ← first_of hdr;
  _ ← test_fail (str_in "canary_stvec_ns=1030000" l && str_in "canary_page_verify_ns=11900000" l) wrong;
  none ← canary_header_lines None;
  test_fail (is_nil none) "absent canary must add no header line".
Definition signature_steps : list step :=
  [runs_ok jitter_check; runs_ok planted_loss;
   planted old_signature "pre-D-0075 runs.csv did not fire" ["no guest_ftx_ns column"] "arp signature schema";
   accepts (Ok tt) "arp signature: planted +52 ms event found, jitter ignored";
   runs_ok canary_check;
   planted (canary_values [[("phase", PStr "stvec"); ("delta_ns", PInt 1)]]) "canary without page_verify did not fire"
     ["canary boot produced no PHASE dump"] "canary fail-closed";
   accepts (Ok tt) "canary header line renders from a complete measurement"].

(** ** The command *)
Definition early_steps : list step :=
  serial_steps ++ log_steps ++ batch_steps ++ control_steps ++ steal_steps ++ [Accept schedule_check] ++ schema_steps.
Definition late_steps (tshark : string) (frames : list frame) : list step :=
  extract_steps tshark frames ++ frame_steps tshark frames ++ fake_steps ++ connect_steps ++ arm_steps ++
  [Accept offload_check] ++ publication_steps ++ [Accept boot_check] ++ signature_steps.
Definition selftest_steps (tshark : string) (frames : list frame) : list step :=
  early_steps ++ late_steps tshark frames.
(** What the gates print by themselves: the clean scan and the two records. *)
Definition printed (frames : list frame) : res (list string) :=
  o ← scan_clean;
  match frames with
  | [arp_f; garp_f; syn_f; _; ack_f; _] =>
    bytes ← write_pcap (v6_frames arp_f garp_f syn_f ack_f);
    let '(fs1, l1) := record_29 bytes in
    Ok (out o ++ [l1; (record_30 fs1).2])
  | _ => Err ValueError
  end.
Definition cmd_selftest : res outcome :=
  early ← run_steps BenchFailC early_steps;
  tshark ← require_tshark_bench h1;
  frames ← selftest_frames;
  late ← run_steps BenchFailC (late_steps tshark frames);
  lines ← printed frames;
  Ok {| rc := 0; err := [];
        out := lines ++ "TEST PASS: bench fail-closed selftest" :: ((λ line, "  fired: " +:+ line) <$> early ++ late) |}.
End selftest.
