(* ===== verification/BenchSelftestFacts.v ===== *)
(** * What the harness's self-test decides

    Its verdict depends on the machine alone ([selftest_ready]), given a tshark that
    reads the synthetic pcaps ([reads_pcaps]): every step is evaluated here, for any
    root, temporary directory and files.  A passing self-test has refused every planted fault,
    but for the vacuous ones ([harness_evidence]). *)
From stdpp Require Import gmap.
From S2P Require Import Prelude PyStr SelfTest PyFloat PyData PyCsv BenchSerial PcapHttp D0070Pass FixtureTshark BenchHost BenchTables BenchRun BenchSummary BenchSelftest.

(** ** Steps one by one *)
Definition passes (s : step) : bool := is_ok (step_lines BenchFailC s).
Definition pass_all (steps : list step) : bool := forallb passes steps.
Lemma is_ok_bind {A B} (r : res A) (f : A → res B) :
  is_ok (x ← r; f x) = match r with Ok x => is_ok (f x) | Err _ => false end.
Proof. by destruct r. Qed.
Lemma foldM_pass_all fired steps : is_ok (foldM (run_step BenchFailC) fired steps) = pass_all steps.
Proof.
  revert fired. induction steps as [|s steps IH]; intros fired; [done|]. cbn [foldM]. rewrite is_ok_bind.
  change (pass_all (s :: steps)) with (passes s && pass_all steps). unfold passes.
  destruct s as [p|r]; cbn [run_step step_lines].
  - destruct (fires BenchFailC p); [apply IH|done].
  - destruct r; [apply IH|done].
Qed.
Lemma run_pass_all steps : is_ok (run_steps BenchFailC steps) = pass_all steps.
Proof. apply foldM_pass_all. Qed.
Lemma pass_all_app s1 s2 : pass_all (s1 ++ s2) = pass_all s1 && pass_all s2.
Proof. apply forallb_app. Qed.
Lemma pass_all_cons s steps : pass_all (s :: steps) = passes s && pass_all steps.
Proof. done. Qed.
Lemma pass_accept r : pass_all [Accept r] = is_ok r.
Proof. apply andb_true_r. Qed.
(** The plants whose expected words are in their own did-not-fire message. *)
Definition VACUOUS_BENCH : list string :=
  ["unset PHASE"; "zero-trial CSV"; "git SHA mismatch"; "host control governor='powersave'"; "host control smt_control='on'";
   "host control cpufreq_boost='1'"; "host control virt='kvm'"; "host control steal_start_ticks=1";
   "host control governor='unavailable'"; "virt mismatch"; "missing no slirp ARP"; "missing no guest SYN/ACK";
   "missing no HTTP 200"; "missing no pure ACK"; "missing no client FIN"; "SYN/ACK before slirp ARP";
   "HTTP frame before SYN/ACK"; "ACK-of-response before HTTP"; "client FIN before HTTP"; "|s_ns_fast − s_ns_safe| > 1 ms"].

(** ** What tshark answers *)
(** The queries the gates make. *)
Definition asked (flt : string) (extra : list string) : Prop :=
  (extra = [] ∧ flt ∈ [ARP_FILTER; SYNACK_FILTER; RST_FILTER; SYN_IN_FILTER; GUEST_TX_FILTER; GUEST_ARP_REQ_FILTER;
                        "eth.src != " +:+ SLIRP_MAC]) ∨
  (extra = ["tcp.nxtseq"; "tcp.len"; "tcp.flags.fin"] ∧ flt = HTTP_FILTER) ∨
  (extra = ["tcp.ack"] ∧ ∃ seq fn, flt = ack_filter seq fn) ∨ (extra = [] ∧ ∃ fn, flt = fin_filter fn).
Lemma asked_old : asked ("eth.src != " +:+ SLIRP_MAC) [].
Proof. left. split; [done|]. apply list_elem_of_In. do 6 right. by left. Qed.
(** The gates see a pcap only through its size and the answers to these. *)
Section answers.
Context (run run' : list string → proc) (size size' : string → option N) (pcap tshark : string).
Context (Hsize : size pcap = size' pcap).
Context (Htable : ∀ flt extra, asked flt extra → tshark_table run pcap tshark flt extra = tshark_table run' pcap tshark flt extra).
Lemma res_bind_ext {A B} (r : res A) (f g : A → res B) : (∀ x, f x = g x) → (x ← r; f x) = (x ← r; g x).
Proof. destruct r; cbn; auto. Qed.
Lemma table_const flt : flt ∈ [ARP_FILTER; SYNACK_FILTER; RST_FILTER; SYN_IN_FILTER; GUEST_TX_FILTER; GUEST_ARP_REQ_FILTER;
  "eth.src != " +:+ SLIRP_MAC] → tshark_table run pcap tshark flt [] = tshark_table run' pcap tshark flt [].
Proof. intros H. apply Htable. by left. Qed.
Lemma table_http : tshark_table run pcap tshark HTTP_FILTER ["tcp.nxtseq"; "tcp.len"; "tcp.flags.fin"] =
  tshark_table run' pcap tshark HTTP_FILTER ["tcp.nxtseq"; "tcp.len"; "tcp.flags.fin"].
Proof. apply Htable. right. by left. Qed.
Lemma table_ack seq fn : tshark_table run pcap tshark (ack_filter seq fn) ["tcp.ack"] =
  tshark_table run' pcap tshark (ack_filter seq fn) ["tcp.ack"].
Proof. apply Htable. right. right. left. eauto. Qed.
Lemma table_fin fn : tshark_table run pcap tshark (fin_filter fn) [] = tshark_table run' pcap tshark (fin_filter fn) [].
Proof. apply Htable. right. right. right. eauto. Qed.
Ltac same_tables :=
  repeat (first [rewrite table_http | rewrite table_ack | rewrite table_fin
                | rewrite table_const by (set_solver) | apply res_bind_ext; intros ?]); try reflexivity.
Lemma extract_same : extract_pcap run size pcap tshark = extract_pcap run' size' pcap tshark.
Proof using Hsize Htable. unfold extract_pcap, require_pcap. rewrite Hsize. same_tables. Qed.
Lemma no_rst_same : assert_no_rst run size pcap tshark = assert_no_rst run' size' pcap tshark.
Proof using Hsize Htable. unfold assert_no_rst, require_pcap. rewrite Hsize. same_tables. Qed.
Lemma syn_grid_same : assert_syn_grid run size pcap tshark = assert_syn_grid run' size' pcap tshark.
Proof using Hsize Htable. unfold assert_syn_grid, require_pcap. rewrite Hsize. same_tables. Qed.
Lemma intervals_same hh sys : require_pcap_intervals (with_pcap run size hh) pcap tshark sys =
  require_pcap_intervals (with_pcap run' size' hh) pcap tshark sys.
Proof using Hsize Htable.
  unfold require_pcap_intervals, require_pcap_intervals_by, extract_pcap_pass. cbn [with_pcap h_run h_size].
  by rewrite extract_same, no_rst_same.
Qed.
Lemma signature_same hh : require_tshark_bench hh = Ok tshark →
  gate_failure_signature (with_pcap run size hh) pcap = gate_failure_signature (with_pcap run' size' hh) pcap.
Proof using Hsize Htable.
  intros Ht. unfold gate_failure_signature.
  assert (∀ r z, require_tshark_bench (with_pcap r z hh) = Ok tshark) as Ht' by done. rewrite !Ht'. clear Ht'. cbn [with_pcap h_run mbind res_bind]. cbv zeta.
  rewrite (table_const GUEST_TX_FILTER), (table_const GUEST_ARP_REQ_FILTER), (table_const ARP_FILTER) by set_solver.
  destruct (tshark_table run' pcap tshark GUEST_TX_FILTER []) as [[|tx rows]|],
    (tshark_table run' pcap tshark GUEST_ARP_REQ_FILTER []) as [arp|], (tshark_table run' pcap tshark ARP_FILTER []) as [[|sa slirp]|];
    try done. cbn [mbind res_bind]. by rewrite (table_const SYN_IN_FILTER) by set_solver.
Qed.
End answers.

Section facts.
Context (h : host) (root td : string) (run_on : list Z → list string → proc).
Context (rng : Z → nat → nat → nat) (relpath : string → string) (fs : files).

(** A fixture file holds what was just written. *)
Lemma aggregate_eq name rows : aggregate root fs name rows =
  (runs ← csv_dicts true (csv_write RUNS_FIELDS (fixture_rows rows)); assert_aggregatable runs false).
Proof. unfold aggregate, _write_fixture_runs, read_csv, write_csv. by rewrite lookup_insert_eq. Qed.
Lemma reread_eq name fields r : reread root fs name fields r = csv_dicts true (csv_write fields [r]).
Proof. unfold reread, read_csv, write_csv. by rewrite lookup_insert_eq. Qed.
Lemma new_row_eq : new_row root fs =
  (rows ← csv_dicts true (csv_write RUNS_FIELDS (fixture_rows [[("trial", PInt 1)]])); first_of rows).
Proof. unfold new_row, _write_fixture_runs, read_csv, write_csv. by rewrite lookup_insert_eq. Qed.
Definition new_fixture : row :=
  match rows ← csv_dicts true (csv_write RUNS_FIELDS (fixture_rows [[("trial", PInt 1)]])); first_of rows with
  | Ok r => r
  | Err _ => []
  end.
Lemma new_row_val : new_row root fs = Ok new_fixture.
Proof. rewrite new_row_eq. by vm_compute. Qed.
Lemma text_of_eq p t : text_of (<[p := t]> fs) p = Some t.
Proof. apply lookup_insert_eq. Qed.
Lemma scan_clean_eq : scan_clean root fs =
  Ok {| rc := 0; out := ["TEST PASS: no M-mode trap diagnostic in serial"]; err := [] |}.
Proof. unfold scan_clean, cmd_scan_mtrap. rewrite text_of_eq. by vm_compute. Qed.

Lemma no_such_tshark : require_tshark_bench (setenv "BENCH_TSHARK" "/no/such/tshark" h) =
  rewrap PcapExtractErrorC BenchFailC
    (if h_executable h "/no/such/tshark" then Ok "/no/such/tshark"
     else Err (PcapExtractError "TEST FAIL: tshark not installed (/no/such/tshark); see docs/SETUP.md")).
Proof. reflexivity. Qed.
Lemma serial_pass : pass_all (serial_steps h) = negb (h_executable h "/no/such/tshark").
Proof.
  unfold serial_steps. rewrite pass_all_cons, no_such_tshark.
  match goal with |- _ && ?b = _ => replace b with true by (by vm_compute) end. rewrite andb_true_r.
  destruct (h_executable h _); by vm_compute.
Qed.
Lemma log_pass : pass_all (log_steps root fs) = true.
Proof.
  unfold log_steps. rewrite scan_clean_eq. unfold cmd_check_serial, cmd_scan_mtrap. rewrite !text_of_eq.
  unfold text_of. rewrite lookup_delete_eq. generalize (mtrap_missing root). intros path. by vm_compute.
Qed.
Lemma batch_pass : pass_all (batch_steps root fs) = true.
Proof.
  unfold batch_steps. rewrite !aggregate_eq. unfold read_csv, write_csv. rewrite lookup_insert_eq. by vm_compute.
Qed.
Lemma control_pass : pass_all (control_steps h) = is_ok (live_steal h).
Proof.
  unfold control_steps. cbn [app]. do 3 rewrite pass_all_cons.
  match goal with |- ?a && (?b && (_ && ?c)) = _ =>
    replace a with true by (by vm_compute); replace b with true by (by vm_compute); replace c with true by (by vm_compute) end.
  rewrite andb_true_r. unfold passes. cbn [step_lines andb]. done.
Qed.
Lemma steal_pass : pass_all (steal_steps h root fs) = (0 <? h_clk_tck h).
Proof.
  unfold steal_steps. rewrite aggregate_eq, !pass_all_cons.
  match goal with |- ?a && (_ && ?c) = _ => replace a with true by (by vm_compute); replace c with true by (by vm_compute) end.
  rewrite andb_true_r. cbn [andb]. unfold require_steal_delta_zero, steal_ticks_to_ns.
  change (h_clk_tck (h1 h)) with (h_clk_tck h). destruct (Z.leb_spec (h_clk_tck h) 0).
  - replace (0 <? h_clk_tck h) with false by lia. by vm_compute.
  - replace (0 <? h_clk_tck h) with true by lia. cbn [raise_when mbind res_bind].
    generalize (str_of_Z (1 * 1000000000 / h_clk_tck h)). intros ns. by vm_compute.
Qed.
Lemma schema_pass : pass_all (schema_steps root fs) = true.
Proof.
  assert (∀ fields, restricted root fs fields = mapR (λ k, v ← get k new_fixture; Ok (k, v)) fields) as Hr.
  { intros fields. unfold restricted. by rewrite new_row_val. }
  unfold schema_steps, fields_check, old_check. rewrite !new_row_val, !Hr. clear Hr.
  cbn [mbind res_bind]. unfold header_schema. 
  repeat match goal with |- context [mapR ?f ?l] => let v := eval vm_compute in (mapR f l) in change (mapR f l) with v end.
  cbn [mbind res_bind]. rewrite !reread_eq. by vm_compute.
Qed.
Lemma fake_pass : pass_all (fake_steps h) = true.
Proof. by vm_compute. Qed.
Lemma connect_pass : pass_all (connect_steps h root) = true.
Proof. by vm_compute. Qed.
Lemma arm_pass : pass_all (arm_steps h root) = true.
Proof. by vm_compute. Qed.
Lemma publication_pass : pass_all publication_steps = true.
Proof. by vm_compute. Qed.
Lemma signature_pass : pass_all signature_steps = true.
Proof. by vm_compute. Qed.

(** ** The six frames *)
Definition fixture_frames : list frame := match selftest_frames with Ok f => f | Err _ => [] end.
Lemma selftest_frames_val : selftest_frames = Ok fixture_frames.
Proof. by vm_compute. Qed.
Definition six_frames (frames : list frame) : bool :=
  match frames with
  | [arp_f; garp_f; syn_f; _; ack_f; _] => is_ok (write_pcap (v6_frames arp_f garp_f syn_f ack_f))
  | _ => false
  end.
Lemma fixture_six : six_frames fixture_frames = true.
Proof. by vm_compute. Qed.
Lemma printed_of frames : six_frames frames = true → is_ok (printed h root td run_on relpath fs frames) = true.
Proof.
  destruct frames as [|a [|g [|s [|ht [|ak [|fn [|? ?]]]]]]]; try done. cbn [six_frames]. intros Hb. unfold printed.
  rewrite scan_clean_eq. cbn [mbind res_bind]. destruct (write_pcap _) as [bytes|e]; [|done]. cbn [mbind res_bind].
  by destruct (record_29 _ _ _ _ _ _).
Qed.
(** The whole verdict, step group by step group. *)
Lemma cmd_selftest_passes : is_ok (cmd_selftest h root td run_on rng relpath fs) =
  negb (h_executable h "/no/such/tshark") && (is_ok (live_steal h) && ((0 <? h_clk_tck h) && is_ok (schedule_check rng))) &&
  match require_tshark_bench (h1 h) with
  | Err _ => false
  | Ok tshark => pass_all (extract_steps h td run_on tshark fixture_frames) &&
                 pass_all (frame_steps h root td run_on relpath tshark fixture_frames) &&
                 (is_ok (offload_check h root) && is_ok (boot_check h root))
  end.
Proof.
  unfold cmd_selftest. rewrite is_ok_bind.
  assert (is_ok (run_steps BenchFailC (early_steps h root rng fs)) =
    negb (h_executable h "/no/such/tshark") && (is_ok (live_steal h) && ((0 <? h_clk_tck h) && is_ok (schedule_check rng)))) as He.
  { rewrite run_pass_all. unfold early_steps. rewrite !pass_all_app, serial_pass, log_pass, batch_pass, control_pass,
      steal_pass, schema_pass, pass_accept. by rewrite !andb_true_l, !andb_true_r. }
  rewrite <-He. destruct (run_steps BenchFailC (early_steps h root rng fs)) as [early|e]; [|done]. cbn [is_ok andb].
  rewrite is_ok_bind. destruct (require_tshark_bench (h1 h)) as [tshark|e]; [|done].
  rewrite is_ok_bind, selftest_frames_val, is_ok_bind.
  assert (is_ok (run_steps BenchFailC (late_steps h root td run_on relpath tshark fixture_frames)) =
    pass_all (extract_steps h td run_on tshark fixture_frames) &&
    pass_all (frame_steps h root td run_on relpath tshark fixture_frames) &&
    (is_ok (offload_check h root) && is_ok (boot_check h root))) as Hl.
  { rewrite run_pass_all. unfold late_steps. rewrite !pass_all_app, fake_pass, connect_pass, arm_pass, publication_pass,
      signature_pass, !pass_accept. by rewrite !andb_true_l, !andb_true_r, andb_assoc. }
  rewrite <-Hl. destruct (run_steps BenchFailC (late_steps _ _ _ _ _ _ _)) as [late|e]; [|done].
  pose proof (printed_of _ fixture_six) as Hp. destruct (printed _ _ _ _ _ _ _) as [lines|e]; [done|discriminate Hp].
Qed.

(** The pcaps the self-test writes, and that the machine's tshark reads them as
    the frames were written ([FixtureTshark] decodes the bytes). *)
Definition synthetic_pcaps : list (string * list frame) :=
  match fixture_frames with
  | [arp_f; garp_f; syn_f; http_f; ack_f; fin_f] =>
    [("ok.pcap", fixture_frames)] ++ imap (λ i nc, ("drop-" +:+ str_of_nat i +:+ ".pcap", nc.2)) (dropped fixture_frames)
    ++ [("no-guest-arp.pcap", take 1 fixture_frames ++ drop 2 fixture_frames); ("ipv6-first.pcap", v6_frames arp_f garp_f syn_f ack_f)]
    ++ imap (λ i nc, ("order-" +:+ str_of_nat i +:+ ".pcap", nc.2)) (order_cases arp_f syn_f http_f ack_f fin_f)
    ++ [("long-fin.pcap", long_fin fixture_frames)]
  | _ => []
  end.
Definition reads_pcaps (tshark : string) : Prop := ∀ name chosen bytes flt extra,
  (name, chosen) ∈ synthetic_pcaps → write_pcap chosen = Ok bytes → asked flt extra →
  tshark_table (run_on bytes) (in_td td name) tshark flt extra = tshark_table (fixture_tshark bytes) (in_td td name) tshark flt extra.

Section reading.
Context (tshark : string) (Hreads : reads_pcaps tshark) (Htshark : require_tshark_bench (h1 h) = Ok tshark).
Definition as_written (bytes : list Z) : host := with_pcap (fixture_tshark bytes) (λ _, Some (N.of_nat (length bytes))) (h1 h).
Definition intervals_of (name : string) (chosen : list frame) (system : string) : res extract :=
  bytes ← write_pcap chosen; require_pcap_intervals (as_written bytes) (in_td td name) tshark system.
Lemma intervals_read name chosen system : (name, chosen) ∈ synthetic_pcaps →
  intervals h td run_on tshark name chosen system = intervals_of name chosen system.
Proof using Hreads.
  intros Hin. unfold intervals, intervals_of. destruct (write_pcap chosen) as [bytes|e] eqn:Eb; [|done]. cbn [mbind res_bind].
  apply intervals_same; [by rewrite String.eqb_refl|]. intros flt extra. by apply Hreads with (chosen := chosen).
Qed.
Lemma in_synthetic name chosen : existsb (λ nc, String.eqb name nc.1 && bool_decide (chosen = nc.2)) synthetic_pcaps = true →
  (name, chosen) ∈ synthetic_pcaps.
Proof.
  intros ([n c] & Hin & [->%String.eqb_eq ->%bool_decide_eq_true]%andb_true_iff)%existsb_exists. by apply list_elem_of_In.
Qed.
Definition cases_of (prefix label : string) (l : list (string * list frame)) : list step :=
  imap (λ i nc, refuses (intervals_of (prefix +:+ str_of_nat i +:+ ".pcap") nc.2 "whimbrel") nc.1 (label +:+ nc.1)) l.
Lemma cases_read prefix label l :
  forallb (λ nc, existsb (λ sc, String.eqb nc.1 sc.1 && bool_decide (nc.2 = sc.2)) synthetic_pcaps)
    (imap (λ i nc, (prefix +:+ str_of_nat i +:+ ".pcap", nc.2)) l) = true →
  cases h td run_on tshark prefix label l = cases_of prefix label l.
Proof using Hreads.
  intros H. apply imap_ext. intros i [n c] Hi. rewrite intervals_read; [done|]. apply in_synthetic.
  rewrite forallb_forall in H. apply (H (prefix +:+ str_of_nat i +:+ ".pcap", c)), list_elem_of_In.
  apply elem_of_lookup_imap. by exists i, (n, c).
Qed.
Lemma no_bytes_refused p : require_pcap_intervals (on_pcap h run_on p []) p tshark "whimbrel" =
  Err (BenchFail ("TEST FAIL: pcap missing or empty: " +:+ p)).
Proof.
  unfold require_pcap_intervals, require_pcap_intervals_by, extract_pcap_pass, extract_pcap, require_pcap.
  cbn [on_pcap with_pcap h_size]. by rewrite (String.eqb_refl p).
Qed.
Lemma extract_pass : pass_all (extract_steps h td run_on tshark fixture_frames) = true.
Proof using Hreads.
  unfold extract_steps, imported. rewrite intervals_read by (apply in_synthetic; by vm_compute).
  rewrite cases_read by (by vm_compute). rewrite no_bytes_refused. by vm_compute.
Qed.
Lemma passive_pass : is_ok (passive h td run_on tshark fixture_frames) = true.
Proof using Hreads.
  unfold passive. rewrite intervals_read by (apply in_synthetic; by vm_compute). by vm_compute.
Qed.
Lemma linux_long_pass : is_ok (linux_long h td run_on tshark fixture_frames) = true.
Proof using Hreads.
  unfold linux_long. rewrite intervals_read by (apply in_synthetic; by vm_compute). by vm_compute.
Qed.
(** *** The pcap whose first guest frame is not IPv4, and the two records *)
Definition frame_at (i : nat) : frame := nth i fixture_frames ([], 0).
Lemma fixture_frames_at : fixture_frames = [frame_at 0; frame_at 1; frame_at 2; frame_at 3; frame_at 4; frame_at 5].
Proof. by vm_compute. Qed.
Definition v6_bytes : res (list Z) := write_pcap (v6_frames (frame_at 0) (frame_at 1) (frame_at 2) (frame_at 4)).
Definition v6_fixture : list Z := match v6_bytes with Ok bytes => bytes | Err _ => [] end.
Lemma v6_bytes_val : v6_bytes = Ok v6_fixture.
Proof. by vm_compute. Qed.
Abbreviation v6_host := (on_pcap h run_on (v6_name td) v6_fixture).
Lemma v6_asked flt extra : asked flt extra →
  tshark_table (run_on v6_fixture) (v6_name td) tshark flt extra = tshark_table (fixture_tshark v6_fixture) (v6_name td) tshark flt extra.
Proof using Hreads.
  apply Hreads with (chosen := v6_frames (frame_at 0) (frame_at 1) (frame_at 2) (frame_at 4)); [|exact v6_bytes_val].
  apply in_synthetic. by vm_compute.
Qed.
Lemma v6_size : h_size v6_host (v6_name td) = Some (N.of_nat (length v6_fixture)).
Proof. cbn [on_pcap with_pcap h_size]. by rewrite (String.eqb_refl (v6_name td)). Qed.
Lemma anchor_pass : is_ok (bytes ← v6_bytes; syn_grid_anchor h td run_on tshark bytes) = true.
Proof using Hreads.
  rewrite v6_bytes_val. cbn [mbind res_bind]. unfold syn_grid_anchor.
  rewrite (syn_grid_same _ (fixture_tshark v6_fixture) _ (λ _, Some (N.of_nat (length v6_fixture))) (v6_name td) tshark);
    [|by apply v6_size|by intros; apply v6_asked].
  cbn [on_pcap with_pcap h_run]. rewrite (v6_asked _ _ asked_old). by vm_compute.
Qed.
Definition row_29 : row := gate_failure_row v6_host relpath (failed_trial 29 125) (v6_name td)
  "TEST FAIL: SYN-grid: t(SYN)-t(guest first TX)=0.006454s".
Definition row_30 : row := gate_failure_row (no_pcap h) relpath (failed_trial 30 126) (in_td td "no-such.pcap") "TEST FAIL: pcap missing".
Lemma row_29_fields : ∃ r, text_row GATE_FAILURE_FIELDS row_29 = r ∧
  get "trial" r = Ok (PStr "29") ∧ get "guest_arp_req_n" r = Ok (PStr "1").
Proof using Hreads Htshark.
  eexists. split; [reflexivity|]. unfold row_29, gate_failure_row, on_pcap.
  rewrite (signature_same _ (fixture_tshark v6_fixture) _ (λ _, Some (N.of_nat (length v6_fixture))) (v6_name td) tshark);
    [|by apply v6_size|by intros; apply v6_asked|exact Htshark].
  unfold gate_failure_signature.
  assert (∀ r z, require_tshark_bench (with_pcap r z (h1 h)) = Ok tshark) as Ht by done. rewrite Ht. clear Ht.
  split; by vm_compute.
Qed.
Lemma journal_read p rows : rows ≠ [] →
  read_csv p (foldl (λ fs r, append_csv p GATE_FAILURE_FIELDS r fs) ∅ rows) = Ok (text_row GATE_FAILURE_FIELDS <$> rows).
Proof.
  intros H. rewrite append_csv_fold by done. unfold read_csv. rewrite lookup_insert_eq.
  apply csv_dicts_write; [apply gate_fields_NoDup|done].
Qed.
Lemma recorded_pass : is_ok (bytes ← v6_bytes; recorded_gates h root td run_on relpath bytes) = true.
Proof using Hreads Htshark.
  rewrite v6_bytes_val. cbn [mbind res_bind]. unfold recorded_gates, record_30, record_29, record_gate_failure.
  cbv zeta. cbn [fst default id]. fold row_29 row_30.
  pose proof (journal_read (gf td) [row_29] ltac:(done)) as H1. cbn [foldl] in H1. rewrite H1.
  pose proof (journal_read (gf td) [row_29; row_30] ltac:(done)) as H2. cbn [foldl] in H2. rewrite H2.
  destruct row_29_fields as (r & Hr & Ht & Hn). cbn [fmap list_fmap mbind res_bind first_of head of_option length].
  rewrite Hr. generalize (text_row GATE_FAILURE_FIELDS row_30) as r2. intros r2. unfold test_fail, check.
  cbn [Nat.eqb negb raise_when mbind res_bind]. rewrite Ht, Hn. by vm_compute.
Qed.
Lemma frame_pass : pass_all (frame_steps h root td run_on relpath tshark fixture_frames) = true.
Proof using Hreads Htshark.
  unfold frame_steps. rewrite fixture_frames_at at 1. cbv zeta. fold v6_bytes.
  rewrite !pass_all_app, cases_read by (by vm_compute).
  change (pass_all [Accept ?a; Accept ?b; Accept ?c]) with (is_ok a && (is_ok b && (is_ok c && true))).
  rewrite passive_pass, anchor_pass, recorded_pass.
  change (pass_all [Accept ?a; ?b]) with (is_ok a && (passes b && true)). rewrite linux_long_pass.
  rewrite intervals_read by (apply in_synthetic; by vm_compute). by vm_compute.
Qed.
End reading.

(** ** What the machine has to offer *)
Definition OFFLOADS : list string := ["csum=off"; "guest_tso4=off"; "host_uso=off"].
Definition boot_test : proc := h_run h ["bash"; root +:+ "/scripts/linux-boot-test.sh"].
Record selftest_ready (tshark : string) : Prop := {
  sr_absent : h_executable h "/no/such/tshark" = false;
  sr_steal : ∃ n, read_steal_ticks h = Ok n ∧ 0 <= n;
  sr_tick : 0 < h_clk_tck h;
  sr_shuffle : schedule_42 rng ≠ sequential;
  sr_tshark : require_tshark_bench (h1 h) = Ok tshark;
  sr_offload : ∃ qemu args, qemu_argv (h1 h) root "/tmp/whimbrel.pcap" 8080 None = Ok (qemu, args) ∧
                            ∀ o, o ∈ OFFLOADS → str_in o (join " " args) = true;
  sr_boot : match h_size h (linux_manifest_path root) with
            | Some _ => returncode boot_test = 0
            | None => returncode boot_test ≠ 0 ∧ str_in "linux artifact missing" (stdout boot_test +:+ stderr boot_test) = true
            end
}.
Lemma is_ok_check b msg {A} (r : res A) : is_ok (_ ← check b msg; r) = b && is_ok r.
Proof. unfold check, raise_when. by destruct b. Qed.
Lemma live_steal_ok : is_ok (live_steal h) = true ↔ ∃ n, read_steal_ticks h = Ok n ∧ 0 <= n.
Proof.
  unfold live_steal. rewrite is_ok_bind. change (read_steal_ticks (h1 h)) with (read_steal_ticks h).
  destruct (read_steal_ticks h) as [n|e]; [|naive_solver]. rewrite is_ok_check, andb_true_r, negb_true_iff, Z.ltb_ge.
  naive_solver.
Qed.
Lemma schedule_ok : is_ok (schedule_check rng) = true ↔ schedule_42 rng ≠ sequential.
Proof.
  unfold schedule_check. rewrite !is_ok_check, andb_true_r, bool_decide_eq_true_2 by done. rewrite andb_true_l.
  assert (schedule_42 rng ≡ₚ sequential) as Hp by apply shuffle_perm.
  assert (set_eqb (py_set (schedule_42 rng)) sequential = true) as ->.
  { unfold set_eqb. apply andb_true_iff. rewrite !forallb_forall.
    split; intros x Hx%list_elem_of_In; apply bool_decide_eq_true_2; revert Hx; rewrite elem_of_py_set, Hp; done. }
  rewrite andb_true_l, negb_true_iff, bool_decide_eq_false. done.
Qed.
Lemma offload_ok : is_ok (offload_check h root) = true ↔
  ∃ qemu args, qemu_argv (h1 h) root "/tmp/whimbrel.pcap" 8080 None = Ok (qemu, args) ∧
               ∀ o, o ∈ OFFLOADS → str_in o (join " " args) = true.
Proof.
  unfold offload_check. rewrite is_ok_bind. destruct (qemu_argv _ _ _ _ _) as [[q args]|e]; [|naive_solver].
  rewrite !is_ok_check, andb_true_r, !andb_true_iff. unfold OFFLOADS. split.
  - intros [[H1 H2] H3]. exists q, args. split; [done|]. set_solver.
  - intros (q' & args' & [= -> ->] & H). repeat split; apply H; set_solver.
Qed.
Lemma boot_ok : is_ok (boot_check h root) = true ↔
  match h_size h (linux_manifest_path root) with
  | Some _ => returncode boot_test = 0
  | None => returncode boot_test ≠ 0 ∧ str_in "linux artifact missing" (stdout boot_test +:+ stderr boot_test) = true
  end.
Proof.
  unfold boot_check. change (h_run (h1 h)) with (h_run h). change (h_size (h1 h)) with (h_size h). fold boot_test.
  destruct (h_size h _); cbn [is_some]; rewrite !is_ok_check, andb_true_r, ?andb_true_iff, ?negb_true_iff,
    ?Z.eqb_neq, ?Z.eqb_eq; done.
Qed.
(** C26. The harness's self-test is decided by the machine alone.  With a tshark that
    answers the gates' queries on the synthetic pcaps as the frames were written, it
    passes exactly when that tshark is found and nothing is executable at
    /no/such/tshark, /proc/stat gives a nonnegative steal
    counter and the clock a tick, the generator's shuffle moves a pair, QEMU's
    arguments switch the offloads off, and the Linux boot test passes if the
    artifacts are there and says they are missing if not.  Every extraction, every
    other check and every planted fault then comes out as the self-test wants, for
    any checkout, directory and files. *)
Theorem harness_selftest_decided
    (Hreads : ∀ tshark, require_tshark_bench (h1 h) = Ok tshark → reads_pcaps tshark) :
  (∃ o, cmd_selftest h root td run_on rng relpath fs = Ok o) ↔ ∃ tshark, selftest_ready tshark.
Proof.
  rewrite <-is_ok_Ok.
  rewrite cmd_selftest_passes, !andb_true_iff, negb_true_iff, live_steal_ok, schedule_ok, Z.ltb_lt. split.
  - intros [(Ha & Hs & Ht & Hr) H]. destruct (require_tshark_bench (h1 h)) as [tshark|e] eqn:E; [|done].
    rewrite !andb_true_iff, offload_ok, boot_ok in H. destruct H as [_ [H3 H4]]. exists tshark.
    exact (Build_selftest_ready tshark Ha Hs Ht Hr E H3 H4).
  - intros (tshark & [Ha Hs Ht Hr E Ho Hb]). specialize (Hreads tshark E). rewrite E.
    rewrite (extract_pass tshark Hreads), (frame_pass tshark Hreads E), (proj2 offload_ok Ho), (proj2 boot_ok Hb).
    exact (conj (conj Ha (conj Hs (conj Ht Hr))) eq_refl).
Qed.

(** ** Evidence *)
Abbreviation steps tshark := (selftest_steps h root td run_on rng relpath fs tshark fixture_frames).
Lemma steps_vacuous tshark : vacuous_labels (steps tshark) = VACUOUS_BENCH.
Proof. by vm_compute. Qed.
Lemma steps_marks tshark : forallb (marks_vacuous VACUOUS_BENCH) (plants (steps tshark)) = true.
Proof. by vm_compute. Qed.
Lemma harness_selftest_run o : cmd_selftest h root td run_on rng relpath fs = Ok o →
  ∃ tshark fired, require_tshark_bench (h1 h) = Ok tshark ∧ run_steps BenchFailC (steps tshark) = Ok fired ∧ rc o = 0.
Proof.
  unfold cmd_selftest. rewrite selftest_frames_val. unfold selftest_steps.
  generalize (early_steps h root rng fs), (printed h root td run_on relpath fs fixture_frames).
  intros early lines H. apply bind_Ok in H as (l1 & H1 & H). apply bind_Ok in H as (tshark & Ht & H). exists tshark.
  cbn [mbind res_bind] in H. revert H. generalize (late_steps h root td run_on relpath tshark fixture_frames). intros late H.
  apply bind_Ok in H as (l2 & H2 & H). apply bind_Ok in H as (ls & _ & [= <-]).
  exists (l1 ++ l2). split_and!; [done| |done]. apply run_steps_app. by exists l1, l2.
Qed.

(** C25. What a passing run of the harness's self-test shows, and twenty of its
    plants that show nothing.  Every planted fault was refused with BenchFail and
    the expected words, except possibly under the twenty labels whose expected words
    occur in their own did-not-fire message: that message is raised inside the same
    try, so those plants fire whether the gate refuses the fault or lets it through. *)
Theorem harness_evidence (o : outcome) (Hok : cmd_selftest h root td run_on rng relpath fs = Ok o) :
  ∃ tshark, require_tshark_bench (h1 h) = Ok tshark ∧
    (∀ p, Plant p ∈ steps tshark → pl_label p ∉ VACUOUS_BENCH → ∃ msg, refused BenchFailC p msg) ∧
    vacuous_labels (steps tshark) = VACUOUS_BENCH ∧
    (∀ p, Plant p ∈ steps tshark → pl_label p ∈ VACUOUS_BENCH → is_ok (fires BenchFailC (let_through p)) = true).
Proof.
  destruct (harness_selftest_run o Hok) as (tshark & fired & Ht & Hrun & _). exists tshark. split; [exact Ht|]. split_and!.
  - exact (λ p Hp Hl, run_steps_evidence _ _ _ _ p Hrun (steps_vacuous tshark) Hp Hl).
  - exact (steps_vacuous tshark).
  - exact (λ p Hp Hl, marked_fires _ _ _ p (steps_marks tshark) Hp Hl).
Qed.
End facts.

(** ** A machine on which it passes *)
Definition fixture_answers (cmd : list string) : proc :=
  if bool_decide (cmd !! 1%nat = Some "/w/scripts/qemu-args.sh")
  then {| returncode := 0; stderr := "";
          stdout := "-device virtio-net-device,netdev=n0,csum=off,guest_tso4=off,host_uso=off" |}
  else {| returncode := 1; stdout := ""; stderr := "TEST FAIL: linux artifact missing: /w/bench/linux/MANIFEST" |}.
Definition fixture_host : host :=
  {| h_env := λ _, None; h_unreadable := λ _, false; h_size := λ _, None; h_sha256 := λ _, "";
     h_read := λ p, if String.eqb p "/proc/stat" then Some (unterminated ["cpu  9 0 4 800 2 0 1 0 0 0"]) else None;
     h_which := λ _, Some "/usr/bin/tshark"; h_executable := String.eqb "/usr/bin/tshark"; h_run := fixture_answers;
     h_cpu_count := Some 4; h_clk_tck := 100; h_release := "6.12"; h_bind := λ _, None |}.
Definition fixture_rng (seed : Z) (k m : nat) : nat := ((Z.to_nat seed * 7 + k * 3) mod m)%nat.
Definition fixture_selftest : res outcome :=
  cmd_selftest fixture_host "/w" "/tmp/t" fixture_tshark fixture_rng (λ p, p) ∅.
Lemma fixture_selftest_passes : ∃ o, fixture_selftest = Ok o.
Proof. apply is_ok_Ok. by vm_compute. Qed.
Definition negative_w : plant :=
  expected (require_pcap_intervals_by (h1 fixture_host) (fake_extract (-1) 1 1 92) "/dev/null" "tshark" "whimbrel")
    "w_ns is negative" "negative w_ns".
Lemma harness_evidence_witness : ∃ o, fixture_selftest = Ok o ∧ ∃ msg, refused BenchFailC negative_w msg.
Proof.
  destruct fixture_selftest_passes as [o Ho]. exists o. split; [exact Ho|].
  destruct (harness_evidence _ _ _ _ _ _ _ o Ho) as (tshark & _ & H & _).
  apply H; [|by apply (bool_decide_eq_true_1 _); vm_compute].
  do 3 (apply elem_of_app; right). apply elem_of_app; left. apply elem_of_cons; right. apply elem_of_cons; left. reflexivity.
Defined.
Lemma fixture_ready : ∃ tshark, selftest_ready fixture_host "/w" fixture_rng tshark.
Proof.
  exists "/usr/bin/tshark". constructor; try (by vm_compute).
  - exists 0. by vm_compute.
  - do 2 eexists. split; [by vm_compute|]. intros o Ho. apply list_elem_of_In in Ho.
    repeat (destruct Ho as [<-|Ho]; [by vm_compute|]). done.
Qed.
Lemma harness_selftest_decided_witness :
  ∃ o, cmd_selftest fixture_host "/w" "/tmp/t" fixture_tshark fixture_rng (λ p, p) ∅ = Ok o.
Proof.
  apply (harness_selftest_decided fixture_host "/w" "/tmp/t" fixture_tshark fixture_rng (λ p, p) ∅).
  - intros tshark _ name chosen bytes flt extra _ _ _. reflexivity.
  - exact fixture_ready.
Defined.
