(* ===== verification/BenchMain.v ===== *)
(** * The campaign and the command line (scripts/bench.py)

    Building the kernels, [cmd_run] from its gates through the canary boot and
    the trials to the summary, and [main].  The set-up and the builds are
    [printing] computations: their lines come out even when they fail. *)
From stdpp Require Import gmap.
From S2P Require Import Prelude PyStr Regex PyFloat PyData PyJson PyCsv BenchSerial PcapHttp D0070Pass BenchHost BenchTables BenchRun BenchSummary BenchPublish BenchSelftest.
From Stdlib Require Import Ascii.

Record run_args := { ra_kind : string; ra_n : Z; ra_warmup : Z; ra_batches : Z; ra_out_dir : string; ra_port : Z;
                     ra_allow_dirty : bool; ra_seed : option Z }.
(** What the set-up leaves for the campaign. *)
Record setup_t := {
  su_sha : string; su_dirty : Z; su_meta : host_meta_t; su_ctrl : odict string pyval; su_qemu_cpu : Z; su_client_cpu : Z;
  su_gran : Z; su_timeout : num; su_arms : list Arm; su_linux : option linux_meta_t; su_kernels : odict string kernel_t;
  su_bios : option string; su_bios_sha : string; su_canary_kernel : string; su_canary_arm : Arm
}.

Section cmd_run.
Context (h : host) (root python stamp : string) (relpath : string → string).
Context (time_ns : Z).

(** ** The set-up *)
Definition calibrate_client (client_cpu port : Z) : printing Z :=
  n ← quiet (env_int h "BENCH_CALIBRATE_N" 200);
  text ← quiet (check_output h ["taskset"; "-c"; str_of_Z client_cpu; python; root +:+ "/scripts/bench-client.py";
                                "--calibrate"; str_of_Z n; "--port"; str_of_Z port]);
  '(gran, lo, hi) ← quiet (
    data ← json_loads text;
    d ← j_obj TypeError data;
    gran ← j_field "granularity_ns" d;
    lo ← j_item "granularity_min_ns" d;
    hi ← j_item "granularity_max_ns" d;
    Ok (gran, lo, hi));
  _ ← say_line ("bench: client granularity median=" +:+ str_of_Z gran +:+ " ns (target 1000000, min=" +:+ j_text lo
                +:+ " max=" +:+ j_text hi +:+ ")");
  mret gran.
Definition cargo_cmd (features extra : list string) : list string :=
  ["cargo"; "build"; "--release"; "--manifest-path"; root +:+ "/Cargo.toml"]
  ++ match features with [] => [] | _ => ["--features"; join "," features] end ++ extra.
Definition target_dir (env_extra : list (string * string)) : string :=
  match od_get "CARGO_TARGET_DIR" (od_of_list env_extra) with
  | Some d => d
  | None => default (root +:+ "/target") (h_env h "CARGO_TARGET_DIR")
  end.
Definition cargo_build (features extra : list string) (env_extra : list (string * string)) : printing string :=
  let env := (λ kv, kv.1 +:+ "=" +:+ kv.2) <$> env_extra in
  let cmd := cargo_cmd features extra in
  _ ← say_line ("bench: " +:+ join " " cmd);
  _ ← match env with [] => mret tt | _ => say_line ("bench: env " +:+ join " " env) end;
  _ ← quiet (check_output_env h env cmd);
  let kernel := target_dir env_extra +:+ "/riscv64gc-unknown-none-elf/release/whimbrel" in
  _ ← quiet (raise_when (negb (is_some (h_size h kernel)))
        (BenchFail ("TEST FAIL: cargo build produced no kernel at " +:+ kernel)));
  mret kernel.
Definition linux_images (arms : list Arm) : list string :=
  omap (λ a, if String.eqb (system a) "linux" then
               match linux_image a with Some i => if String.eqb i "" then None else Some i | None => None end
             else None) arms.
Definition linux_setup (arms : list Arm) : res (option linux_meta_t) :=
  if existsb (λ a, String.eqb (system a) "linux") arms then
    let names := sorted_strs (py_set (linux_images arms ++ ["rootfs.cpio"; "init"])) in
    m ← verify_linux_artifacts h root names;
    sha ← of_option (KeyError "'rootfs.cpio'") (od_get "rootfs.cpio" (artifacts m));
    Ok (Some {| lm_cpio := "bench/linux/artifacts/rootfs.cpio"; lm_cpio_sha256 := sha |})
  else Ok None.
Definition add_kernel (kdir : string) (d : odict string kernel_t) (arm : Arm) : printing (odict string kernel_t) :=
  let put k := od_set (config arm) {| k_path := k; k_hash := h_sha256 h k; k_arm := arm |} d in
  if String.eqb (system arm) "whimbrel" then
    _ ← cargo_build (features arm) (cargo_extra arm) (env_extra arm);
    mret (put (kdir +:+ "/" +:+ config arm))
  else if String.eqb (system arm) "linux" then
    image ← quiet (of_option (BenchFail ("TEST FAIL: linux arm " +:+ config arm +:+ " has no Image")) (linux_image arm));
    mret (put (linux_art_dir root +:+ "/" +:+ image))
  else quiet (Err (BenchFail ("TEST FAIL: unknown system " +:+ system arm))).
Definition bios_setup (kdir : string) (arms : list Arm) : printing (option string * string) :=
  if existsb (λ a, bool_decide (qemu_bios a = Some "mshim")) arms then
    donor ← cargo_build ["mshim"] [] [];
    let blob := kdir +:+ "/mshim.bin" in
    _ ← quiet (check_output h ["bash"; root +:+ "/scripts/mshim-blob.sh"; donor; blob]);
    _ ← say_line ("bench: mshim blob sha256=" +:+ h_sha256 h blob);
    mret (Some blob, h_sha256 h blob)
  else mret (None, "").
Definition canary_setup (kdir : string) (kernels : odict string kernel_t) : printing (string * Arm) :=
  match od_get SAFE_CONFIG kernels with
  | Some k => mret (k_path k, k_arm k)
  | None => _ ← cargo_build [] [] []; mret (kdir +:+ "/" +:+ SAFE_CONFIG, whimbrel_arm SAFE_CONFIG [] None)
  end.
(** The gates before anything is built or measured. *)
Record admitted := { ad_sha : string; ad_dirty : Z; ad_meta : host_meta_t; ad_ctrl : odict string pyval; ad_qemu_cpu : Z;
                     ad_client_cpu : Z }.
Definition admission (a : run_args) : res admitted :=
  _ ← require_tshark_bench h;
  _ ← raise_when (negb (is_some (h_which h "taskset"))) (BenchFail "TEST FAIL: taskset not installed");
  '(sha, dirty) ← git_identity h;
  _ ← raise_when (negb (dirty =? 0) && negb (ra_allow_dirty a)) (BenchFail
        "TEST FAIL: dirty working tree (refusing to produce a batch the summarizer would reject). Commit or pass --allow-dirty.");
  _ ← require_origin_sync h None;
  meta ← host_meta h;
  ctrl ← require_host_controls h None;
  '(qemu_cpu, client_cpu) ← pin_cpus h;
  _ ← require_registered_counts (ra_kind a) (ra_n a) (ra_warmup a) (ra_batches a);
  _ ← require_port_free h (ra_port a);
  Ok {| ad_sha := sha; ad_dirty := dirty; ad_meta := meta; ad_ctrl := ctrl; ad_qemu_cpu := qemu_cpu;
        ad_client_cpu := client_cpu |}.
Definition setup (a : run_args) : printing setup_t :=
  ad ← quiet (admission a);
  gran ← calibrate_client (ad_client_cpu ad) (ra_port a);
  timeout ← quiet (campaign_timeout_s h (ra_kind a));
  _ ← say_line ("bench: client_timeout_s=" +:+ fmt_g (num_f timeout) +:+ " (uniform recv; not per-system)");
  arms ← quiet (configs_for root (ra_kind a));
  linux_meta ← quiet (linux_setup arms);
  let kdir := ra_out_dir a +:+ "/bin" in
  kernels ← foldP (add_kernel kdir) [] arms;
  '(blob, blob_sha) ← bios_setup kdir arms;
  '(ck, carm) ← canary_setup kdir kernels;
  mret {| su_sha := ad_sha ad; su_dirty := ad_dirty ad; su_meta := ad_meta ad; su_ctrl := ad_ctrl ad;
          su_qemu_cpu := ad_qemu_cpu ad; su_client_cpu := ad_client_cpu ad; su_gran := gran; su_timeout := timeout;
          su_arms := arms; su_linux := linux_meta; su_kernels := kernels; su_bios := blob; su_bios_sha := blob_sha;
          su_canary_kernel := ck; su_canary_arm := carm |}.

(** ** The canary boot *)
Definition canary_dir (a : run_args) : string :=
  ra_out_dir a +:+ "/trials/" +:+ stamp +:+ "-canary/" +:+ SAFE_CONFIG +:+ "/01".
Definition canary_args (a : run_args) (s : setup_t) (extra : list string) : trial_args :=
  {| ta_arm := su_canary_arm s; ta_extra := extra; ta_dir := canary_dir a; ta_qemu_cpu := su_qemu_cpu s;
     ta_client_cpu := su_client_cpu s; ta_port := ra_port a; ta_client_timeout := su_timeout s;
     ta_qemu_wait := qemu_timeout_s "whimbrel" (su_timeout s); ta_bios := None |}.
Definition canary_id : trial_id :=
  {| t_batch := stamp +:+ "-canary"; t_trial := 1; t_warmup := 1; t_system := "whimbrel";
     BenchTables.t_config := SAFE_CONFIG; t_order := 0 |}.
Definition canary_boot (a : run_args) (s : setup_t) (w : world) (fs : files) : files * list string * res (odict string Z) :=
  let out := ["bench: canary boot (D-0078, release-default, not a trial)"] in
  match extra ← guest_qemu_extra (su_canary_arm s) (su_canary_kernel s) None None;
        run_trial h root python (w_launch w) (canary_args a s extra) with
  | Err (UserExn BenchFailC msg) =>
    let '(fs, line) := record_gate_failure (w_after w) root relpath canary_id (pcap_of (canary_dir a)) msg None fs in
    (fs, out ++ [line], Err (BenchFail msg))
  | Err e => (fs, out, Err e)
  | Ok r =>
    match c ← canary_values (tr_phases r);
          st ← of_option (KeyError "'canary_stvec_ns'") (od_get "canary_stvec_ns" c);
          pv ← of_option (KeyError "'canary_page_verify_ns'") (od_get "canary_page_verify_ns" c);
          stm ← num_truediv (NInt st) (NFlt (float_lit "1e6")); pvm ← num_truediv (NInt pv) (NFlt (float_lit "1e6"));
          Ok (c, "bench: canary stvec=" +:+ num_fixed 3 stm +:+ " ms page_verify=" +:+ num_fixed 3 pvm
                 +:+ " ms (D-0078 serial-byte regime)") with
    | Err e => (fs, out, Err e)
    | Ok (c, line) => (fs, out ++ [line], Ok c)
    end
  end.

(** ** The campaign *)
Definition shuffle_seed (a : run_args) : res Z :=
  match ra_seed a with
  | Some s => Ok s
  | None => match h_env h "BENCH_SHUFFLE_SEED" with
            | Some e => if String.eqb e "" then Ok (time_ns mod 2 ^ 63) else of_option ValueError (int_of_str e)
            | None => Ok (time_ns mod 2 ^ 63)
            end
  end.
Definition env_of (a : run_args) (s : setup_t) (canary : odict string Z) (seed : Z) : campaign_env :=
  {| ce_git_sha := su_sha s; ce_dirty := su_dirty s; ce_meta := su_meta s; ce_ctrl := su_ctrl s;
     ce_qemu_cpu := su_qemu_cpu s; ce_client_cpu := su_client_cpu s; ce_port := ra_port a; ce_gran := su_gran s;
     ce_seed := seed; ce_timeout := su_timeout s; ce_canary := canary; ce_kernels := su_kernels s;
     ce_bios_blob := su_bios s; ce_bios_sha := su_bios_sha s; ce_out_dir := ra_out_dir a |}.
Definition sum_args_of (a : run_args) (s : setup_t) (canary : odict string Z) (st : bench_state) : sum_args :=
  {| sa_out_dir := ra_out_dir a;
     sa_stability := bool_decide (ra_kind a ∈ CAMPAIGN_KINDS) || (2 <=? ra_batches a);
     sa_allow_dirty := ra_allow_dirty a; sa_expect_n := Some (ra_n a); sa_expect_warmup := Some (ra_warmup a);
     sa_f3_scanned := Some (Z.of_nat (length (b_runs st))); sa_runs := b_runs st; sa_phases := b_phases st;
     sa_timeout := Some (su_timeout s); sa_linux_meta := su_linux s; sa_canary := Some canary |}.
(** The summary and, for fp-ab, the comparison. *)
Definition conclude (a : run_args) (s : setup_t) (canary : odict string Z) (st : bench_state) : files * res outcome :=
  match cmd_summarize h root (sum_args_of a s canary st) (b_fs st) with
  | (fs, Err e) => (fs, Err e)
  | (fs, Ok o) =>
    (fs, if String.eqb (ra_kind a) "fp-ab" && (rc o =? 0) then
           ls ← print_fp_ab_delta (ra_out_dir a) fs; Ok {| rc := rc o; out := out o ++ ls; err := err o |}
         else Ok o)
  end.
Section trials.
Context (rng : Z → nat → nat → nat) (canary_world : world) (worlds : Z → world).
Definition trials_of (a : run_args) (s : setup_t) (seed : Z) : list trial :=
  campaign_trials rng stamp (config <$> su_arms s) (ra_n a) (ra_warmup a) (ra_batches a) seed.
Definition cmd_run (a : run_args) (fs : files) : files * list string * res outcome :=
  match setup a with
  | (out, Err e) => (fs, out, Err e)
  | (out, Ok s) =>
    match canary_boot a s canary_world fs with
    | (fs, ls, Err e) => (fs, out ++ ls, Err e)
    | (fs, ls, Ok canary) =>
      match shuffle_seed a with
      | Err e => (fs, out ++ ls, Err e)
      | Ok seed =>
        let out := out ++ ls ++ ["bench: shuffle_seed=" +:+ str_of_Z seed] in
        match run_trials h root python relpath (env_of a s canary seed) worlds (trials_of a s seed)
                {| b_order := 0; b_runs := []; b_phases := []; b_fs := fs; b_out := out |} with
        | (st, Some e) => (b_fs st, b_out st, Err e)
        | (st, None) => let '(fs, o) := conclude a s canary st in (fs, b_out st, o)
        end
      end
    end
  end.

(** ** The command line *)
Record cli := { cl_n : option Z; cl_warmup : option Z; cl_batches : option Z; cl_out_dir : option string;
                cl_port : option Z; cl_allow_dirty : bool; cl_seed : option Z }.
Inductive command :=
  | Run (kind : string) (c : cli)
  | Summarize (out_dir : option string) (stability allow_dirty : bool)
  | Selftest
  | ArpSignature (runs : string)
  | ScanMtrap (serial : string)
  | CheckSerial (serial : string)
  | CheckLinuxArtifacts (names : list string).
(** The defaults the parser computes from the environment, whatever the
    sub-command. *)
Record defaults := { df_n : Z; df_warmup : Z; df_batches : Z; df_port : Z; df_out : string }.
Definition parser_defaults : res defaults :=
  n ← env_int h "BENCH_N" 30; w ← env_int h "BENCH_WARMUP" 3; b ← env_int h "BENCH_BATCHES" 2;
  p ← env_int h "BENCH_PORT" 8080;
  Ok {| df_n := n; df_warmup := w; df_batches := b; df_port := p; df_out := default "results" (h_env h "BENCH_OUT") |}.
Definition run_args_of (d : defaults) (kind : string) (c : cli) : run_args :=
  let fp := String.eqb kind "fp-ab" in
  {| ra_kind := kind; ra_n := default (df_n d) (cl_n c); ra_warmup := default (df_warmup d) (cl_warmup c);
     ra_batches := default (if fp then 1 else df_batches d) (cl_batches c);
     ra_out_dir := default (if fp then "results/fp-ab" else df_out d) (cl_out_dir c);
     ra_port := default (df_port d) (cl_port c); ra_allow_dirty := cl_allow_dirty c;
     ra_seed := if fp then None else cl_seed c |}.
Definition default_sum_args (out_dir : string) (stability allow_dirty : bool) : sum_args :=
  {| sa_out_dir := out_dir; sa_stability := stability; sa_allow_dirty := allow_dirty; sa_expect_n := None;
     sa_expect_warmup := None; sa_f3_scanned := None; sa_runs := []; sa_phases := []; sa_timeout := None;
     sa_linux_meta := None; sa_canary := None |}.
Definition say_all (ls : list string) (o : outcome) : outcome := {| rc := rc o; out := ls ++ out o; err := err o |}.
(** The self-test's pcaps are in the temporary directory [td], read by tshark as
    [run_on]; the fixtures it leaves under results/selftest are not tracked. *)
Context (td : string) (run_on : list Z → list string → proc).
Definition dispatch (d : defaults) (c : command) (fs : files) : files * list string * res outcome :=
  match c with
  | Run kind c => cmd_run (run_args_of d kind c) fs
  | Summarize out_dir stability allow_dirty =>
    let '(fs, o) := cmd_summarize h root (default_sum_args (default "results" out_dir) stability allow_dirty) fs in
    (fs, [], o)
  | Selftest => (fs, [], cmd_selftest h root td run_on rng relpath fs)
  | ArpSignature runs => (fs, [], cmd_arp_signature runs fs)
  | ScanMtrap serial => (fs, [], cmd_scan_mtrap (h_read h) serial)
  | CheckSerial serial => (fs, [], cmd_check_serial (h_read h) serial)
  | CheckLinuxArtifacts names => (fs, [], cmd_check_linux_artifacts h root names)
  end.
(** Exceptions other than these two end in a traceback. *)
Definition main_bench (c : command) (fs : files) : files * res outcome :=
  match parser_defaults with
  | Err e => (fs, Err e)
  | Ok d =>
    let '(fs, ls, r) := dispatch d c fs in
    (fs, match r with
         | Ok o => Ok (say_all ls o)
         | Err (UserExn BenchFailC msg) => Ok {| rc := 1; out := ls; err := [msg] |}
         | Err (CalledProcessError cmd) => Ok {| rc := 1; out := ls; err := ["TEST FAIL: command failed: " +:+ repr_strs cmd] |}
         | Err e => Err e
         end)
  end.
End trials.
End cmd_run.

(** ** Lemmas *)
Lemma app_str_inj_l (a x y : string) : a +:+ x = a +:+ y → x = y.
Proof.
  intros H. apply (f_equal to_l) in H. rewrite !to_l_app in H. apply app_inv_head in H.
  by rewrite <-(of_l_to_l x), <-(of_l_to_l y), H.
Qed.
(** summary.txt is none of the campaign's other files. *)
Lemma summary_path_fresh root dir :
  dir +:+ "/summary.txt" ≠ dir +:+ "/runs.csv" ∧ dir +:+ "/summary.txt" ≠ dir +:+ "/phases.csv" ∧
  dir +:+ "/summary.txt" ≠ gate_failures_path root.
Proof.
  split_and!; try (intros H%app_str_inj_l; done).
  unfold gate_failures_path. change "/summary.txt" with ("/summary." +:+ "txt").
  change "/results/gate-failures.csv" with ("/results/gate-failures." +:+ "csv"). rewrite !app_str_assoc.
  intros H%append_inj_r; done.
Qed.
Lemma require_registered_Ok kind n w b u : kind ∈ CAMPAIGN_KINDS → require_registered_counts kind n w b = Ok u →
  n = 30 ∧ w = 3 ∧ b = 2.
Proof.
  intros Hk. unfold require_registered_counts. intros H%raise_when_Ok. rewrite bool_decide_true in H by done.
  cbn [andb] in H. apply negb_false_iff, andb_prop in H as [H Hb]. apply andb_prop in H as [Hn Hw].
  unfold REGISTERED_N, REGISTERED_WARMUP, REGISTERED_BATCHES in *. lia.
Qed.

Section cmd_run_lemmas.
Context (h : host) (root python stamp : string) (relpath : string → string).
Context (time_ns : Z).
Context (rng : Z → nat → nat → nat) (canary_world : world) (worlds : Z → world).
Abbreviation run := (cmd_run h root python stamp relpath time_ns rng canary_world worlds).
Abbreviation setup_ok a s := ((setup h root python a).2 = Ok s).

(** What a set-up that succeeds has checked. *)
Lemma admission_Ok a ad : admission h a = Ok ad →
  (ad_dirty ad = 0 ∨ ra_allow_dirty a = true) ∧ is_ok (require_origin_sync h None) = true ∧
  require_host_controls h None = Ok (ad_ctrl ad) ∧
  is_ok (require_registered_counts (ra_kind a) (ra_n a) (ra_warmup a) (ra_batches a)) = true.
Proof.
  unfold admission. intros H. apply bind_Ok in H as (ts & _ & H). apply bind_Ok in H as (u & _ & H).
  apply bind_Ok in H as ([sha dirty] & _ & H). apply bind_Ok in H as (u1 & Hd & H). apply raise_when_Ok in Hd.
  apply bind_Ok in H as (st & Hs & H). apply bind_Ok in H as (meta & _ & H). apply bind_Ok in H as (ctrl & Hc & H).
  apply bind_Ok in H as ([qc cc] & _ & H). apply bind_Ok in H as (u2 & Hr & H). apply bind_Ok in H as (u3 & _ & [= <-]).
  cbn [ad_dirty ad_ctrl]. rewrite Hs, Hr. split_and!; try done.
  destruct (Z.eqb_spec dirty 0); [by left|]. right. by destruct (ra_allow_dirty a).
Qed.
Lemma setup_Ok a s : setup_ok a s →
  (su_dirty s = 0 ∨ ra_allow_dirty a = true) ∧ is_ok (require_origin_sync h None) = true ∧
  require_host_controls h None = Ok (su_ctrl s) ∧
  is_ok (require_registered_counts (ra_kind a) (ra_n a) (ra_warmup a) (ra_batches a)) = true ∧
  configs_for root (ra_kind a) = Ok (su_arms s).
Proof.
  unfold setup. intros H. apply printing_Ok in H as (ad & Had & H). cbn [quiet snd] in Had.
  apply printing_Ok in H as (gran & _ & H). apply printing_Ok in H as (tm & _ & H). apply printing_Ok in H as (u & _ & H).
  apply printing_Ok in H as (arms & Ha & H). cbn [quiet snd] in Ha. apply printing_Ok in H as (lm & _ & H).
  cbv zeta in H. apply printing_Ok in H as (ks & _ & H). apply printing_Ok in H as ([blob bsha] & _ & H).
  apply printing_Ok in H as ([ck carm] & _ & H). injection H as <-. cbn [su_dirty su_ctrl su_arms].
  destruct (admission_Ok a ad Had) as (? & ? & ? & ?). done.
Qed.
Lemma canary_boot_frame a s w fs fs' ls r p : canary_boot h root python stamp relpath a s w fs = (fs', ls, r) →
  p ≠ gate_failures_path root → fs' !! p = fs !! p.
Proof.
  unfold canary_boot. intros H Hp. destruct (_ ≫= _) as [tr|e].
  - destruct (_ ≫= _) as [[c line]|e]; injection H as <- _ _; done.
  - destruct e as [[] msg| | | | | | | | | | | | | | |]; try (injection H as <- _ _; done).
    unfold record_gate_failure in H. cbv zeta in H. injection H as <- _ _. by apply append_csv_ne.
Qed.
(** The campaign that [cmd_run] ran when it reached the summary. *)
Definition campaign_of (a : run_args) (fs : files) (s : setup_t) (canary : odict string Z) (seed : Z) (st : bench_state) :
    Prop :=
  setup_ok a s ∧ ∃ out ls fs1, canary_boot h root python stamp relpath a s canary_world fs = (fs1, ls, Ok canary) ∧
    shuffle_seed h time_ns a = Ok seed ∧
    run_trials h root python relpath (env_of a s canary seed) worlds (trials_of stamp rng a s seed)
      {| b_order := 0; b_runs := []; b_phases := []; b_fs := fs1; b_out := out |} = (st, None).
Lemma cmd_run_reached a fs fs' ls r : run a fs = (fs', ls, r) →
  (∃ s canary seed st, campaign_of a fs s canary seed st ∧ conclude h root a s canary st = (fs', r)) ∨
  (is_ok r = false ∧ ∀ p, p ≠ ra_out_dir a +:+ "/runs.csv" → p ≠ ra_out_dir a +:+ "/phases.csv" →
                          p ≠ gate_failures_path root → fs' !! p = fs !! p).
Proof.
  unfold cmd_run. destruct (setup _ _ _ a) as [out0 [s|e]] eqn:Es; [|intros [= <- <- <-]; by right].
  destruct (canary_boot _ _ _ _ _ _ _ _ _) as [[fs1 ls1] [canary|e]] eqn:Ec; cycle 1.
  { intros [= <- <- <-]. right. split; [done|]. intros p _ _ Hp. by eapply canary_boot_frame. }
  destruct (shuffle_seed h time_ns a) as [seed|e] eqn:Esd; cycle 1.
  { intros [= <- <- <-]. right. split; [done|]. intros p _ _ Hp. by eapply canary_boot_frame. }
  destruct (run_trials _ _ _ _ _ _ _ _) as [st [e|]] eqn:Er.
  - intros [= <- <- <-]. right. split; [done|]. intros p H1 H2 H3.
    rewrite (run_trials_frame _ _ _ _ (env_of a s canary seed) _ _ p H1 H2 H3 _ _ _ Er). by eapply canary_boot_frame.
  - destruct (conclude _ _ _ _ _ _) as [fs2 o] eqn:Eco. intros [= <- <- <-]. left. exists s, canary, seed, st.
    split; [|done]. split; [by rewrite Es|]. by eexists _, ls1, fs1.
Qed.

(** C2. Exit status 0 of a campaign means the whole campaign, from a clean (or
    explicitly allowed) tree in sync with its origin under the pinned host
    controls: every trial of every batch was accepted, the [i]-th row being the
    [i]-th trial's, with no steal; runs.csv on disk is exactly these rows; and
    the summary over them passed: every group of the table has the expected
    counts, and the table is publishable (the kernel, window, image and stability
    gates).  A registered kind had 30 recorded and 3 warm-up trials per arm in each
    of 2 batches, with the two-batch comparison switched on. *)
Theorem cmd_run_complete (a : run_args) (fs fs' : files) (ls : list string) (o : outcome)
    (Hrun : run a fs = (fs', ls, Ok o)) (Hrc : rc o = 0) :
  ∃ s canary seed st arms o', configs_for root (ra_kind a) = Ok arms ∧
    (su_dirty s = 0 ∨ ra_allow_dirty a = true) ∧ is_ok (require_origin_sync h None) = true ∧
    require_host_controls h None = Ok (su_ctrl s) ∧
    length (b_runs st) = (Z.to_nat (ra_batches a) * (length arms * (Z.to_nat (ra_warmup a) + Z.to_nat (ra_n a))))%nat ∧
    (∀ i r, b_runs st !! i = Some r → ∃ t, trials_of stamp rng a s seed !! i = Some t ∧ row_of t (Z.of_nat i + 1) r) ∧
    (b_runs st ≠ [] → fs' !! (ra_out_dir a +:+ "/runs.csv") = Some (csv_write RUNS_FIELDS (b_runs st))) ∧
    let sa := sum_args_of a s canary st in
    cmd_summarize h root sa (b_fs st) = (fs', Ok o') ∧ rc o' = 0 ∧ sa_runs sa = b_runs st ∧
    sa_expect_n sa = Some (ra_n a) ∧ sa_expect_warmup sa = Some (ra_warmup a) ∧
    (ra_kind a ∈ CAMPAIGN_KINDS → ra_n a = 30 ∧ ra_warmup a = 3 ∧ ra_batches a = 2 ∧ sa_stability sa = true) ∧
    ∃ runs phases sch ms, (b_runs st ≠ [] → runs = b_runs st) ∧ require_zero_steal runs = Ok tt ∧
      grouped sa sch runs phases ms ∧ publishable h root sa runs ms.
Proof.
  destruct (cmd_run_reached _ _ _ _ _ Hrun) as [(s & canary & seed & st & Hc & Hco)|[? _]]; [|done].
  destruct Hc as (Hs & out0 & ls1 & fs1 & _ & _ & Htr). destruct (setup_Ok a s Hs) as (Hd & Hsync & Hctrl & Hreg & Harms).
  destruct (require_registered_counts _ _ _ _) as [u|] eqn:Ereg; [|done].
  destruct (run_trials_spec _ _ _ _ _ _ _ _ _ _ Htr) as (rows & Hrows & Hledger & Hcsv & Hgate).
  cbn [b_runs b_order b_fs app] in *. subst rows.
  unfold conclude in Hco. destruct (cmd_summarize _ _ _ _) as [fs2 [o2|e]] eqn:Esum; [|done].
  injection Hco as -> Ho.
  assert (rc o2 = 0) as Hrc2.
  { destruct (_ && _); [|by injection Ho as ->]. apply bind_Ok in Ho as (dl & _ & [= <-]). exact Hrc. }
  exists s, canary, seed, st, (su_arms s), o2. split_and!; try done.
  - destruct Hgate as [-> _]. unfold trials_of. by rewrite length_campaign, length_fmap.
  - intros Hne. destruct (summary_path_fresh root (ra_out_dir a)) as (Hp & _ & _).
    rewrite (cmd_summarize_files _ _ _ _ _ _ _ Esum) by done.
    change (runs_csv (env_of a s canary seed)) with (ra_out_dir a +:+ "/runs.csv") in Hcsv. rewrite Hcsv.
    by rewrite decide_False.
  - intros Hk. destruct (require_registered_Ok _ _ _ _ _ Hk Ereg) as (Hn & Hw & Hb). split_and!; try done.
    cbn. by rewrite bool_decide_true.
  - destruct (cmd_summarize_verdict _ _ _ _ _ _ Esum)
      as (runs & phases & sch & ms & Hr & _ & _ & _ & Hz & Hg & lines & _ & [[Hp _]|(_ & H1 & _)]); [|congruence].
    exists runs, phases, sch, ms. split_and!; try done. intros Hne. cbn [sum_args_of sa_runs] in Hr.
    destruct (b_runs st); [done|]. by injection Hr.
Qed.

(** C33. An aborted campaign publishes nothing.  When [cmd_run] raises, on any kind,
    summary.txt is what it was before; but for one case: an fp-ab campaign whose
    summary had already passed every gate and been written, and whose comparison of
    frame pointers, which only prints, then raised. *)
Theorem cmd_run_abort_unpublished (a : run_args) (fs fs' : files) (ls : list string) (e : exn)
    (Hrun : run a fs = (fs', ls, Err e)) :
  fs' !! (ra_out_dir a +:+ "/summary.txt") = fs !! (ra_out_dir a +:+ "/summary.txt") ∨
  (ra_kind a = "fp-ab" ∧ ∃ s canary seed st o, campaign_of a fs s canary seed st ∧
     cmd_summarize h root (sum_args_of a s canary st) (b_fs st) = (fs', Ok o) ∧ rc o = 0 ∧
     print_fp_ab_delta (ra_out_dir a) fs' = Err e).
Proof.
  destruct (summary_path_fresh root (ra_out_dir a)) as (H1 & H2 & H3).
  destruct (cmd_run_reached _ _ _ _ _ Hrun) as [(s & canary & seed & st & Hc & Hco)|[_ Hf]]; [|left; by apply Hf].
  pose proof Hc as (_ & out0 & ls1 & fs1 & Hcan & _ & Htr). unfold conclude in Hco.
  destruct (cmd_summarize _ _ _ _) as [fs2 [o2|e2]] eqn:Esum.
  - right. injection Hco as -> Ho. destruct (String.eqb_spec (ra_kind a) "fp-ab") as [Hk|]; [|done]. cbn [andb] in Ho.
    destruct (Z.eqb_spec (rc o2) 0) as [Hz|]; [|done]. split; [done|]. exists s, canary, seed, st, o2. split_and!; try done.
    by destruct (print_fp_ab_delta _ _); [|injection Ho as ->].
  - left. injection Hco as <- _. apply cmd_summarize_raises in Esum as ->.
    rewrite (run_trials_frame _ _ _ _ (env_of a s canary seed) _ _ _ H1 H2 H3 _ _ _ Htr). by eapply canary_boot_frame.
Qed.
End cmd_run_lemmas.

(** ** A concrete campaign: fp-ab with one trial per arm *)
Definition boot_stamps : list stamp := (take 2 demo_stamps ++
  [{| st_name := "page_verify"; st_ticks := 1010; st_ns := 101000; st_since := 10; st_since_ns := 1000; st_delta := 0; st_delta_ns := 0 |}]
  ++ drop 2 demo_stamps)%N.
Definition boot_serial : string := join nl (print_stamp <$> boot_stamps) +:+ nl.
Definition starts_with (p cmd : list string) : bool := bool_decide (take (length p) cmd = p).
Definition granularity : string := flat_text
  [("granularity_max_ns", "1000100"); ("granularity_min_ns", "1000000"); ("granularity_ns", "1000050")].
Definition answers : list (list string * string) :=
  [(["git"; "rev-parse"; "--abbrev-ref"; "HEAD"], "main"); (["git"; "rev-parse"], "abc"); (["git"; "status"], "");
   (["git"; "fetch"], ""); (["qemu"], "QEMU emulator version 8.2.2"); (["taskset"], granularity); (["cargo"], "");
   (["CARGO_TARGET_DIR=r/target-fp"], ""); (["bash"], "-machine virt")].
Definition campaign_run (cmd : list string) : proc :=
  match List.find (λ a, starts_with a.1 cmd) answers with
  | Some a => {| returncode := 0; stdout := a.2 +:+ nl; stderr := "" |}
  | None => if starts_with ["systemd-detect-virt"] cmd then {| returncode := 1; stdout := "none" +:+ nl; stderr := "" |}
            else demo_run cmd
  end.
Definition campaign_host : host :=
  {| h_env := λ _, None; h_read := λ p, if String.eqb p "/proc/loadavg" then Some "0.00 0.01" else h_read demo_host p;
     h_unreadable := λ _, false; h_size := λ _, Some 500%N; h_sha256 := λ _, "f";
     h_which := λ n, if String.eqb n "stdbuf" then None else if String.eqb n "qemu-system-riscv64" then Some "qemu" else Some n;
     h_executable := λ _, true; h_run := campaign_run; h_cpu_count := Some 4; h_clk_tck := 100; h_release := "6.12";
     h_bind := λ _, None |}.
Definition campaign_world : world :=
  {| w_launch := λ _ _, {| o_ready := ClientReady; o_e0_mono := 1000; o_e0_wall := 5000; o_qemu := Some 0; o_client_done := true;
       o_client := Some demo_client;
       o_serial := boot_serial; o_host := campaign_host |};
     w_before := campaign_host; w_after := campaign_host |}.
Definition fp_ab_args : run_args :=
  {| ra_kind := "fp-ab"; ra_n := 1; ra_warmup := 0; ra_batches := 1; ra_out_dir := "out"; ra_port := 8080;
     ra_allow_dirty := false; ra_seed := None |}.
Definition first_draw (s : Z) (k m : nat) : nat := k.
Definition same_world (i : Z) : world := campaign_world.
Abbreviation fp_ab_run :=
  (cmd_run campaign_host "r" "python3" "T" id 7 first_draw campaign_world same_world fp_ab_args ∅).
Definition passed (r : files * list string * res outcome) : bool := match r.2 with Ok o => rc o =? 0 | Err _ => false end.
Definition result_of (r : files * list string * res outcome) : outcome :=
  match r.2 with Ok o => o | Err _ => {| rc := 1; out := []; err := [] |} end.
Lemma passed_spec r : passed r = true → r = (r.1.1, r.1.2, Ok (result_of r)) ∧ rc (result_of r) = 0.
Proof. unfold passed, result_of. destruct r as [[fs ls] [o|e]]; cbn; [|done]. by intros ?%Z.eqb_eq. Qed.
Definition demo_fs : files := fp_ab_run.1.1.
Lemma fp_ab_passes : passed fp_ab_run = true.
Proof. vm_compute. reflexivity. Qed.
Lemma cmd_run_complete_witness : ∃ st : bench_state, length (b_runs st) = 2%nat ∧
  (b_runs st ≠ [] → demo_fs !! "out/runs.csv" = Some (csv_write RUNS_FIELDS (b_runs st))).
Proof.
  destruct (passed_spec fp_ab_run fp_ab_passes) as [Hrun Hrc].
  destruct (cmd_run_complete campaign_host "r" "python3" "T" id 7 first_draw campaign_world
    same_world fp_ab_args ∅ fp_ab_run.1.1 fp_ab_run.1.2 (result_of fp_ab_run) Hrun Hrc) as (s & c & seed & st & arms & o' & Ha & _ & _ & _ & Hl & _ & Hcsv & _).
  exists st. cbn in Ha. injection Ha as <-. split; [exact Hl|exact Hcsv].
Defined.
(** Without taskset nothing runs. *)
Definition no_taskset : host :=
  {| h_env := h_env campaign_host; h_read := h_read campaign_host; h_unreadable := λ _, false; h_size := λ _, Some 500%N;
     h_sha256 := λ _, "f"; h_which := λ n, if String.eqb n "taskset" then None else Some n; h_executable := λ _, true;
     h_run := campaign_run; h_cpu_count := Some 4; h_clk_tck := 100; h_release := "6.12"; h_bind := λ _, None |}.
Definition old_summary : files := {["out/summary.txt" := "old"]}.
Definition t48_args : run_args :=
  {| ra_kind := "t48"; ra_n := 30; ra_warmup := 3; ra_batches := 2; ra_out_dir := "out"; ra_port := 8080;
     ra_allow_dirty := false; ra_seed := Some 1 |}.
Lemma cmd_run_abort_unpublished_witness : old_summary !! "out/summary.txt" = Some "old".
Proof.
  destruct (cmd_run_abort_unpublished no_taskset "r" "python3" "T" id 7 first_draw campaign_world
    same_world t48_args old_summary old_summary [] (BenchFail "TEST FAIL: taskset not installed")
    ltac:(by vm_compute)) as [H|[H _]]; [exact H|discriminate H].
Defined.
