(* ===== verification/BenchClient.v ===== *)
(** * The measurement client (scripts/bench-client.py)

    One process that connects at a 1 ms cadence until the guest answers.  The
    monotonic clock is the sequence of its readings, [clock k] the [k]-th; the
    [i]-th connection attempt behaves as [sock i] says.  What a connection's
    [recv] calls give is an unbounded sequence, because nothing but each call's own
    timeout limits them.  The loops take fuel: those that wait for the clock end
    whenever the clock advances, the receive loop when the peer lets it. *)
From stdpp Require Import gmap.
From S2P Require Import Prelude PyStr PyFloat.
From Stdlib Require Import Ascii.

Definition crlf : string := cr +:+ nl.
Definition GET : string := "GET / HTTP/1.0" +:+ crlf +:+ "Host: 127.0.0.1" +:+ crlf +:+ crlf.
Definition RESP : string :=
  "HTTP/1.0 200 OK" +:+ crlf +:+ "Content-Type: text/plain" +:+ crlf +:+ "Connection: close" +:+ crlf
  +:+ "Content-Length: 9" +:+ crlf +:+ crlf +:+ "whimbrel" +:+ nl.
Example RESP_length : String.length RESP = 92%nat.
Proof. reflexivity. Qed.
Definition CADENCE_NS : Z := 1000000.
Definition CONNECT_WAIT_NS : Z := 800000.
Definition EAGAIN : Z := 11.
Definition EWOULDBLOCK : Z := 11.
Definition EINPROGRESS : Z := 115.

(** What a socket does: whether [socket.socket()] makes it, [connect_ex]'s
    status, whether [select] finds it writable, its pending error, whether
    [sendall] succeeds, and what its [i]-th [recv] gives.  [None] where the call
    raises [OSError], a timeout among them. *)
Inductive recv_event := Chunk (bytes : string) | RecvError.
Record socket := { sk_open : bool; sk_connect : option Z; sk_writable : option bool; sk_error : option Z; sk_send : bool;
                   sk_recv : nat → recv_event }.

Section client.
Context (clock : nat → Z) (sock : nat → socket).

(** [while True]: the readings until one reaches the deadline. *)
Fixpoint wait_until (fuel : nat) (deadline : Z) (k : nat) : option nat :=
  match fuel with
  | O => None
  | S fuel => if deadline <=? clock k then Some (S k) else wait_until fuel deadline (S k)
  end.
(** Whether the socket connects, and the next reading.  [socket.socket()] is
    outside the [try], so that its [OSError] leaves the function.  The remaining
    time is compared in nanoseconds, which has the sign of the float in seconds. *)
Definition attempt_connect (s : socket) (wait_ns : Z) (k : nat) : res (bool * nat) :=
  if negb (sk_open s) then Err OSError else
  match sk_connect s with
  | None => Ok (false, k)
  | Some c =>
    if c =? 0 then Ok (true, k)
    else if negb (bool_decide (c ∈ [EINPROGRESS; EWOULDBLOCK; EAGAIN])) then Ok (false, k)
    else
      let deadline := clock k + wait_ns in
      if deadline - clock (S k) <=? 0 then Ok (false, S (S k))
      else match sk_writable s, sk_error s with
           | Some true, Some e => Ok (e =? 0, S (S k))
           | _, _ => Ok (false, S (S k))
           end
  end.
(** [while True: chunk = s.recv(4096)], from the [i]-th call: the first-byte
    reading, the bytes received, and the next reading. *)
Fixpoint recv_from (fuel : nat) (es : nat → recv_event) (i : nat) (first : option Z) (buf : string) (k : nat) :
    option (option Z * string * nat) :=
  match fuel with
  | O => None
  | S fuel =>
    match es i with
    | RecvError => Some (first, buf, k)
    | Chunk b =>
      if String.eqb b "" then Some (first, buf, k) else
      let '(first, k) := match first with None => (Some (clock k), S k) | Some f => (Some f, k) end in
      if str_in RESP (buf +:+ b) then Some (first, buf +:+ b, k) else recv_from fuel es (S i) first (buf +:+ b) k
    end
  end.
Definition recv_response (fuel : nat) (s : socket) (k : nat) : option (option Z * string * nat) :=
  recv_from fuel (sk_recv s) 0 None "" k.

(** [[l[i + 1] - l[i] for i in range(len(l) - 1)]] *)
Fixpoint deltas (l : list Z) : list Z :=
  match l with
  | x :: ((y :: _) as l') => (y - x) :: deltas l'
  | _ => []
  end.
Definition sorted_deltas (l : list Z) : list Z := sort_by Z.leb (deltas l).

Record calibration := { ca_n : Z; ca_mid : Z; ca_min : Z; ca_max : Z; ca_p25 : Z; ca_p75 : Z }.
Fixpoint calibrate_loop (fuel n i : nat) (next_t : Z) (times : list Z) (k : nat) : option (res (list Z)) :=
  match n with
  | O => Some (Ok times)
  | S n =>
    k ← wait_until fuel next_t k;
    let t := clock k in
    match attempt_connect (sock i) CONNECT_WAIT_NS (S k) with
    | Err e => Some (Err e)
    | Ok (_, k) => calibrate_loop fuel n (S i) (t + CADENCE_NS) (times ++ [t]) k
    end
  end.
Definition calibrate (fuel : nat) (n : Z) : option (res calibration) :=
  times ← calibrate_loop fuel (Z.to_nat n) 0 (clock 0) [] 1;
  Some (times ← times;
        let ds := sorted_deltas times in
        let at_ i := of_option IndexError (ds !! i) in
        let m := length ds in
        mid ← at_ (m / 2)%nat; lo ← at_ 0%nat; hi ← at_ (m - 1)%nat; p25 ← at_ (m / 4)%nat; p75 ← at_ (3 * m / 4)%nat;
        Ok {| ca_n := n; ca_mid := mid; ca_min := lo; ca_max := hi; ca_p25 := p25; ca_p75 := p75 |}).

Record loop_end := { le_times : list Z; le_connect : option Z; le_byte : option Z; le_buf : string }.
(** The attempts, up to the first connection or the deadline. *)
Fixpoint attempts_loop (fuel n : nat) (deadline next_t : Z) (times : list Z) (k : nat) : option (res loop_end) :=
  let done_ := Some (Ok {| le_times := times; le_connect := None; le_byte := None; le_buf := "" |}) in
  match n with
  | O => None
  | S n =>
    if negb (clock k <? deadline) then done_ else
    k ← wait_until fuel next_t (S k);
    let t := clock k in
    if deadline <=? t then done_ else
    let s := sock (length times) in
    let times := times ++ [t] in
    match attempt_connect s CONNECT_WAIT_NS (S k) with
    | Err e => Some (Err e)
    | Ok (false, k) => attempts_loop fuel n deadline (t + CADENCE_NS) times k
    | Ok (true, k) =>
      let first_connect := clock k in
      if negb (sk_send s) then Some (Err OSError) else
      '(first_byte, buf, _) ← recv_response fuel s (S k);
      Some (Ok {| le_times := times; le_connect := Some first_connect; le_byte := first_byte; le_buf := buf |})
    end
  end.
Record result := { r_attempts : Z; r_connect : option Z; r_byte : option Z; r_body_ok : bool; r_period : option Z;
                   r_timeout : bool }.
Definition result_of (e : loop_end) : result :=
  let ds := sorted_deltas (le_times e) in
  {| r_attempts := Z.of_nat (length (le_times e)); r_connect := le_connect e; r_byte := le_byte e;
     r_body_ok := str_in RESP (le_buf e); r_period := ds !! (length ds / 2)%nat;
     r_timeout := negb (is_some (le_byte e)) |}.
(** Past its deadline's computation; the ready file is written in between. *)
Definition run_loop (fuel : nat) (timeout_ns : Z) : option (res result) :=
  r ← attempts_loop fuel fuel (clock 0 + timeout_ns) (clock 1) [] 2; Some (e ← r; Ok (result_of e)).
End client.

(** ** The command line *)
Definition dquote : string := String (chr 34) EmptyString.
Definition json_opt (o : option Z) : string := match o with Some z => str_of_Z z | None => "null" end.
Definition json_bool (b : bool) : string := if b then "true" else "false".
Definition json_field (kv : string * string) : string := dquote +:+ kv.1 +:+ dquote +:+ ": " +:+ kv.2.
(** [json.dumps(d, sort_keys=True)] of a flat object, its keys sorted. *)
Definition json_dumps (kvs : list (string * string)) : string := "{" +:+ join ", " (json_field <$> kvs) +:+ "}".
Definition calibration_json (c : calibration) : string := json_dumps
  [("cadence_target_ns", str_of_Z CADENCE_NS); ("granularity_max_ns", str_of_Z (ca_max c));
   ("granularity_min_ns", str_of_Z (ca_min c)); ("granularity_ns", str_of_Z (ca_mid c));
   ("granularity_p25_ns", str_of_Z (ca_p25 c)); ("granularity_p75_ns", str_of_Z (ca_p75 c)); ("n", str_of_Z (ca_n c))].
Definition result_json (r : result) : string := json_dumps
  [("attempt_period_median_ns", json_opt (r_period r)); ("attempts", str_of_Z (r_attempts r));
   ("body_ok", json_bool (r_body_ok r)); ("first_byte_mono_ns", json_opt (r_byte r));
   ("first_connect_mono_ns", json_opt (r_connect r)); ("timeout", json_bool (r_timeout r))].
Record client_args := { cl_timeout : float; cl_ready : string; cl_out : string; cl_calibrate : Z }.
(** The files written, and the outcome.  The result replaces the output file in
    one step: its temporary is renamed over it. *)
Definition main_client (clock : nat → Z) (sock : nat → socket) (fuel : nat) (a : client_args) (fs : gmap string string) :
    option (gmap string string * res outcome) :=
  let finish text fs :=
    if String.eqb (cl_out a) "" then (fs, Ok {| rc := 0; out := [text]; err := [] |})
    else (<[cl_out a := text +:+ nl]> fs, Ok {| rc := 0; out := []; err := [] |}) in
  if negb (cl_calibrate a =? 0) then
    r ← calibrate clock sock fuel (cl_calibrate a);
    Some (match r with Ok c => finish (calibration_json c) fs | Err e => (fs, Err e) end)
  else if String.eqb (cl_ready a) "" || String.eqb (cl_out a) "" then
    Some (fs, Ok {| rc := 1; out := []; err := ["TEST FAIL: --ready and --out required unless --calibrate"] |})
  else
    match py_trunc (fmul (cl_timeout a) (float_lit "1e9")) with
    | Err e => Some (fs, Err e)
    | Ok ns =>
      r ← run_loop clock sock fuel ns;
      let fs := <[cl_ready a := "ready" +:+ nl]> fs in
      Some (match r with Ok r => finish (result_json r) fs | Err e => (fs, Err e) end)
    end.

(** ** The cadence *)
Section cadence.
Context (clock : nat → Z) (sock : nat → socket).
Context (Hmono : ∀ j k, (j ≤ k)%nat → clock j <= clock k).

Lemma wait_until_ge fuel d k k' : wait_until clock fuel d k = Some k' → (k < k')%nat ∧ d <= clock k'.
Proof using Hmono.
  revert k. induction fuel as [|fuel IH]; intros k; cbn [wait_until]; [done|].
  destruct (Z.leb_spec d (clock k)) as [Hd|Hd].
  - intros [= <-]. split; [lia|]. specialize (Hmono k (S k)). lia.
  - intros [? ?]%IH. split; [lia|done].
Qed.
Lemma wait_until_some d j fuel : d <= clock j → ∀ k, (j < k + fuel)%nat → (0 < fuel)%nat →
  ∃ k', wait_until clock fuel d k = Some k'.
Proof using Hmono.
  intros Hj. induction fuel as [|fuel IH]; intros k Hk Hf; [lia|]. cbn [wait_until].
  destruct (Z.leb_spec d (clock k)) as [Hd|Hd]; [by eexists|].
  assert (k < j)%nat. { destruct (decide (j ≤ k)%nat) as [Hle|]; [|lia]. specialize (Hmono j k Hle). lia. }
  apply IH; lia.
Qed.
Lemma attempt_connect_mono s w k b k' : attempt_connect clock s w k = Ok (b, k') → (k ≤ k')%nat.
Proof.
  unfold attempt_connect. intros H. repeat (case_match; simplify_eq; try lia).
Qed.
(** The attempts are a cadence apart, and before the deadline. *)
Definition spaced (lo deadline next_t : Z) (times : list Z) : Prop := lo <= next_t ∧
  StronglySorted (λ a b, a + CADENCE_NS <= b) times ∧
  Forall (λ t, lo <= t ∧ t < deadline ∧ t + CADENCE_NS <= next_t) times.
Lemma spaced_snoc lo deadline next_t times t : spaced lo deadline next_t times → next_t <= t → t < deadline →
  spaced lo deadline (t + CADENCE_NS) (times ++ [t]).
Proof.
  intros (Hlo & Hs & Hf) Hn Hd. split; [unfold CADENCE_NS; lia|]. split.
  - apply StronglySorted_app_2; [|done|repeat constructor].
    intros x y Hx ->%list_elem_of_singleton. rewrite Forall_forall in Hf. specialize (Hf x Hx). lia.
  - apply Forall_app. split; [|repeat constructor; lia].
    eapply Forall_impl; [exact Hf|]. cbn. unfold CADENCE_NS in *. lia.
Qed.
(** ** The receive loop *)
Definition chunk_of (e : recv_event) : string := match e with Chunk b => b | RecvError => "" end.
(** The bytes of the first [n] calls; that all of them gave bytes; that the loop
    has no reason to go past call [i]; that there is such a call. *)
Fixpoint received (es : nat → recv_event) (n : nat) : string :=
  match n with O => "" | S n => received es n +:+ chunk_of (es n) end.
Definition alive (es : nat → recv_event) (n : nat) : Prop := ∀ j, (j < n)%nat → chunk_of (es j) ≠ "".
Definition stops (es : nat → recv_event) (i : nat) : Prop := chunk_of (es i) = "" ∨ str_in RESP (received es (S i)) = true.
Definition ends (es : nat → recv_event) : Prop := ∃ i, stops es i.
(** The peer sent the 92 bytes, before it closed or fell silent. *)
Definition replied (es : nat → recv_event) : Prop := ∃ n, alive es n ∧ str_in RESP (received es n) = true.

Lemma alive_S es n : alive es n → chunk_of (es n) ≠ "" → alive es (S n).
Proof. intros H Hn j Hj. destruct (decide (j = n)) as [->|]; [done|]. apply H. lia. Qed.
Lemma received_le es m n : (m ≤ n)%nat → ∃ t, received es n = received es m +:+ t.
Proof.
  induction 1 as [|n _ [t IH]]; [exists ""; by rewrite app_str_nil_r|]. exists (t +:+ chunk_of (es n)). cbn [received].
  by rewrite IH, <-app_str_assoc.
Qed.
Lemma str_in_received es m n : (m ≤ n)%nat → str_in RESP (received es m) = true → str_in RESP (received es n) = true.
Proof. intros [t ->]%(received_le es). apply str_in_prefix. Qed.
Lemma str_in_empty : str_in RESP "" = false.
Proof. by vm_compute. Qed.
(** What the loop returns, from any of its iterations. *)
Lemma recv_from_spec fuel es : ∀ i first k f b k', recv_from clock fuel es i first (received es i) k = Some (f, b, k') →
  alive es i → (first = None ↔ i = 0%nat) →
  ends es ∧ (f = None ↔ chunk_of (es 0%nat) = "") ∧ (str_in RESP b = true ↔ replied es) ∧
  ((first = f) ∨ (first = None ∧ ∃ j, (k ≤ j)%nat ∧ f = Some (clock j))).
Proof.
  induction fuel as [|fuel IH]; intros i first k f b k'; cbn [recv_from]; [done|]. intros H Ha Hi.
  assert (chunk_of (es i) = "" → (f, b) = (first, received es i) → ends es ∧ (f = None ↔ chunk_of (es 0%nat) = "") ∧
    (str_in RESP b = true ↔ replied es) ∧ ((first = f) ∨ (first = None ∧ ∃ j, (k ≤ j)%nat ∧ f = Some (clock j)))) as Hend.
  { intros He [= -> ->]. split_and!; [exists i; by left| | |by left].
    - rewrite Hi. split; [by intros ->|]. intros H0. destruct i as [|i]; [done|]. by destruct (Ha 0%nat ltac:(lia)).
    - split; [by exists i|]. intros (n & Hn & Hr). apply (str_in_received es n); [|done].
      destruct (decide (n ≤ i)%nat); [done|]. by destruct (Hn i ltac:(lia)). }
  destruct (es i) as [c|] eqn:Ei; [|injection H as <- <- <-; by apply Hend]. cbn [chunk_of] in Hend.
  destruct (String.eqb_spec c "") as [Hc|Hc]; [injection H as <- <- <-; by apply Hend|]. clear Hend.
  assert (chunk_of (es i) = c) as Hci by (by rewrite Ei).
  assert (received es i +:+ c = received es (S i)) as Hrec by (cbn [received]; by rewrite Hci). rewrite Hrec in H.
  assert (alive es (S i)) as Ha' by (apply alive_S; [done|by rewrite Hci]).
  assert (chunk_of (es 0%nat) ≠ "") as H0 by (apply Ha'; lia).
  destruct (match first with None => (Some (clock k), S k) | Some x => (Some x, k) end) as [first' k1] eqn:Ef.
  assert (first' ≠ None ∧ ((first = first') ∨ (first = None ∧ ∃ j, (k ≤ j)%nat ∧ first' = Some (clock j)))) as [Hne Hf].
  { destruct first; injection Ef as <- <-; split; auto. right. split; [done|]. by exists k. }
  destruct (str_in RESP (received es (S i))) eqn:Er.
  - injection H as <- <- <-. split_and!; [exists i; by right|naive_solver| |done]. split; [by exists (S i)|done].
  - destruct (IH _ _ _ _ _ _ H Ha' ltac:(naive_solver)) as (He & Hf' & Hb & [<-|[? _]]); by split_and!.
Qed.
Lemma recv_response_spec fuel s k f b k' : recv_response clock fuel s k = Some (f, b, k') →
  ends (sk_recv s) ∧ (f = None ↔ chunk_of (sk_recv s 0%nat) = "") ∧ (str_in RESP b = true ↔ replied (sk_recv s)) ∧
  (∀ t, f = Some t → ∃ j, (k ≤ j)%nat ∧ t = clock j).
Proof.
  intros H. destruct (recv_from_spec fuel (sk_recv s) 0 None k f b k' H) as (He & Hf & Hb & Ht);
    [by intros ? ?%Nat.nlt_0_r|done|]. split_and!; try done.
  destruct Ht as [<-|(_ & j & Hj & ->)]; [done|]. intros t [= <-]. by exists j.
Qed.
(** It ends when some call stops it. *)
Lemma recv_from_some es j : stops es j → ∀ fuel i first k, (i ≤ j)%nat → (j < i + fuel)%nat →
  is_Some (recv_from clock fuel es i first (received es i) k).
Proof.
  intros Hj. induction fuel as [|fuel IH]; intros i first k Hi Hf; [lia|]. cbn [recv_from].
  destruct (es i) as [c|] eqn:Ei; [|by eexists]. destruct (String.eqb_spec c "") as [Hc|Hc]; [by eexists|].
  assert (received es i +:+ c = received es (S i)) as Hrec by (cbn [received]; by rewrite Ei). rewrite Hrec.
  destruct (match first with None => _ | Some x => _ end) as [first' k1].
  destruct (str_in RESP (received es (S i))) eqn:Er; [by eexists|]. apply IH; [|lia].
  destruct (decide (i = j)) as [->|]; [|lia]. destruct Hj as [Hj|Hj]; [by rewrite Ei in Hj|congruence].
Qed.
(** Finitely many connections that end do so within one bound. *)
Lemma ends_bounded n : (∀ i, ends (sk_recv (sock i))) →
  ∃ N, ∀ i fuel k, (i < n)%nat → (N < fuel)%nat → is_Some (recv_response clock fuel (sock i) k).
Proof.
  intros H. induction n as [|n [N IH]]; [exists 0%nat; lia|]. destruct (H n) as [j Hj]. exists (Nat.max N j).
  intros i fuel k Hi Hf. destruct (decide (i = n)) as [->|]; [|apply IH; lia].
  unfold recv_response. by apply (recv_from_some (sk_recv (sock n)) j); [|lia|lia].
Qed.

(** ** The measuring loop *)
(** The socket of the last of [n] attempts. *)
Definition last_sock (n : nat) : socket := sock (n - 1).
(** How the loop ends. *)
Definition ended (lo deadline : Z) (e : loop_end) : Prop :=
  (∃ next_t, spaced lo deadline next_t (le_times e)) ∧
  let s := last_sock (length (le_times e)) in
  match le_connect e with
  | None => le_byte e = None ∧ le_buf e = ""
  | Some c => (∃ t, last (le_times e) = Some t ∧ t <= c) ∧ (∀ b, le_byte e = Some b → c <= b) ∧
      ends (sk_recv s) ∧ (le_byte e = None ↔ chunk_of (sk_recv s 0%nat) = "") ∧
      (str_in RESP (le_buf e) = true ↔ replied (sk_recv s))
  end.
Lemma attempts_loop_ended lo fuel deadline n : ∀ next_t times k e, spaced lo deadline next_t times →
  attempts_loop clock sock fuel n deadline next_t times k = Some (Ok e) → ended lo deadline e.
Proof using Hmono.
  induction n as [|n IH]; intros next_t times k e Hs; cbn [attempts_loop]; [done|].
  destruct (negb _); [intros [= <-]; by split; [exists next_t|]|].
  destruct (wait_until clock fuel next_t (S k)) as [k1|] eqn:Ew; [|done]. cbn [mbind option_bind].
  destruct (wait_until_ge _ _ _ _ Ew) as [_ Hn].
  destruct (Z.leb_spec deadline (clock k1)) as [Hd|Hd]; [intros [= <-]; by split; [exists next_t|]|].
  pose proof (spaced_snoc _ _ _ _ _ Hs Hn Hd) as Hs'.
  destruct (attempt_connect _ _ _ _) as [[[] k2]|] eqn:Ea; [|by apply IH|done].
  destruct (sk_send _); cbn [negb]; [|done].
  destruct (recv_response _ _ _ _) as [[[fb buf] k3]|] eqn:Er; [|done]. cbn [mbind option_bind]. intros [= <-].
  apply attempt_connect_mono in Ea. apply recv_response_spec in Er as (He & Hf & Hb & Ht).
  split; [by eexists|]. cbn [le_connect le_byte le_buf le_times].
  replace (last_sock (length (times ++ [clock k1]))) with (sock (length times))
    by (unfold last_sock; rewrite length_app; cbn [length]; f_equal; lia). split_and!; try done.
  - exists (clock k1). split; [apply last_snoc|]. apply Hmono. lia.
  - intros b ->. destruct (Ht b eq_refl) as (j & Hj & ->). apply Hmono. lia.
Qed.
Lemma attempts_loop_some fuel deadline K n : deadline <= clock K → (K < fuel)%nat →
  (∀ i k, (i < K)%nat → is_Some (recv_response clock fuel (sock i) k)) → ∀ next_t times k,
  (∃ j, next_t <= clock j ∧ (j ≤ K)%nat) → (∀ t, t < deadline → ∃ j, t + CADENCE_NS <= clock j ∧ (j ≤ K)%nat) →
  (K < k + n)%nat → (0 < n)%nat → (length times < k)%nat →
  is_Some (attempts_loop clock sock fuel n deadline next_t times k).
Proof using Hmono.
  intros HK Hfuel Hrecv. induction n as [|n IH]; intros next_t times k (j & Hj & HjK) Hnext Hk Hn Hlen; [lia|].
  cbn [attempts_loop].
  destruct (Z.ltb_spec (clock k) deadline) as [Hlt|]; cbn [negb]; [|by eexists].
  assert (k < K)%nat. { destruct (decide (K ≤ k)%nat) as [Hle|]; [|lia]. specialize (Hmono K k Hle). lia. }
  destruct (wait_until_some next_t j fuel Hj (S k) ltac:(lia) ltac:(lia)) as [k1 Ew]. rewrite Ew. cbn [mbind option_bind].
  destruct (wait_until_ge _ _ _ _ Ew) as [Hk1 _].
  destruct (Z.leb_spec deadline (clock k1)) as [Hd|Hd]; [by eexists|].
  destruct (attempt_connect _ _ _ _) as [[[] k2]|] eqn:Ea; [| |by eexists]; apply attempt_connect_mono in Ea.
  - destruct (negb _); [by eexists|]. destruct (Hrecv (length times) (S k2) ltac:(lia)) as [[[fb buf] k3] ->]. by eexists.
  - apply IH; [by apply Hnext|done|lia|lia|]. rewrite length_app. cbn [length]. lia.
Qed.
Lemma spaced_deltas lo deadline next_t times : spaced lo deadline next_t times →
  Forall (λ d, CADENCE_NS <= d) (deltas times) ∧
  (times ≠ [] → (Z.of_nat (length times) - 1) * CADENCE_NS < deadline - lo).
Proof.
  intros (_ & Hs & Hf). assert (∀ x l, StronglySorted (λ a b, a + CADENCE_NS <= b) (x :: l) →
    Forall (λ d, CADENCE_NS <= d) (deltas (x :: l)) ∧
    x + Z.of_nat (length l) * CADENCE_NS <= List.last (x :: l) x) as H.
  { intros x l. revert x. induction l as [|y l IH]; intros x Hx; [split; [constructor|cbn; lia]|].
    apply StronglySorted_inv in Hx as [Hy Hall]. destruct (IH y Hy) as [H1 H2]. apply Forall_cons in Hall as [Hxy _].
    split; [constructor; [lia|done]|].
    assert (List.last (x :: y :: l) x = List.last (y :: l) y) as ->; [|cbn [length]; lia].
    cbn [List.last]. clear. revert y. induction l as [|z l IH]; intros y; [done|]. cbn [List.last]. destruct l; [done|apply IH]. }
  destruct times as [|x l]; [split; [constructor|done]|]. destruct (H x l Hs) as [H1 H2]. split; [done|]. intros _.
  assert (List.last (x :: l) x ∈ x :: l) as Hin.
  { apply list_elem_of_In. destruct (exists_last (l := x :: l) ltac:(done)) as (l' & z & ->).
    rewrite List.last_last. apply in_app_iff. right. by left. }
  rewrite Forall_forall in Hf. pose proof (Hf _ Hin). pose proof (Hf x ltac:(set_solver)). cbn [length]. lia.
Qed.

(** A loop that ended: the attempts kept the cadence, and what it says of the
    connection. *)
Lemma run_loop_ended fuel timeout_ns r : run_loop clock sock fuel timeout_ns = Some (Ok r) → ∃ e next_t,
  r = result_of e ∧ spaced (clock 1) (clock 0 + timeout_ns) next_t (le_times e) ∧
  ended (clock 1) (clock 0 + timeout_ns) e.
Proof using Hmono.
  unfold run_loop. intros Hok. destruct (attempts_loop _ _ _ _ _ _ _ _) as [[e|]|] eqn:El; [|done|done].
  injection Hok as <-.
  pose proof (attempts_loop_ended (clock 1) fuel _ fuel _ [] _ _ ltac:(by repeat constructor) El) as Hend.
  destruct Hend as [(next_t & Hs) Hc] eqn:Hd. exists e, next_t. by split_and!.
Qed.
Lemma run_loop_attempts fuel timeout_ns r : run_loop clock sock fuel timeout_ns = Some (Ok r) →
  0 <= r_attempts r ∧ (r_attempts r = 0 ∨ (r_attempts r - 1) * CADENCE_NS < timeout_ns) ∧
  (r_connect r ≠ None → 0 < r_attempts r).
Proof using Hmono.
  intros (e & next_t & -> & Hs & _ & Hc)%run_loop_ended. destruct (spaced_deltas _ _ _ _ Hs) as [_ Hn].
  unfold result_of. cbn [r_attempts r_connect]. pose proof (Hmono 0 1 ltac:(lia)) as H01. split_and!; [lia| |].
  - destruct (le_times e) as [|t l]; [by left|]. right. specialize (Hn ltac:(done)). lia.
  - intros Hne. destruct (le_connect e) as [c|]; [|done]. destruct Hc as ((t & Ht & _) & _).
    destruct (le_times e); [done|cbn [length]; lia].
Qed.
(** What the result says of the last attempt's connection. *)
Definition answered (r : result) : Prop :=
  r_connect r ≠ None ∧ replied (sk_recv (last_sock (Z.to_nat (r_attempts r)))).
Lemma run_loop_reply fuel timeout_ns r : run_loop clock sock fuel timeout_ns = Some (Ok r) →
  (r_body_ok r = true ↔ answered r) ∧
  (r_body_ok r = true → ∃ c b, r_connect r = Some c ∧ r_byte r = Some b ∧ c <= b).
Proof using Hmono.
  intros (e & next_t & -> & _ & _ & Hc)%run_loop_ended. unfold answered, result_of. cbn [r_attempts r_body_ok r_connect r_byte].
  rewrite Nat2Z.id. destruct (le_connect e) as [c|].
  - destruct Hc as (_ & Hcb & _ & H0 & Hr). split; [rewrite Hr; naive_solver|]. intros (n & Ha & Hin)%Hr.
    destruct (le_byte e) as [b|]; [exists c, b; auto|]. destruct n as [|n]; [cbn [received] in Hin; by rewrite str_in_empty in Hin|].
    by destruct (Ha 0%nat ltac:(lia)); apply H0.
  - destruct Hc as [_ Hbuf]. rewrite Hbuf, str_in_empty. naive_solver.
Qed.
Lemma run_loop_byte fuel timeout_ns r : run_loop clock sock fuel timeout_ns = Some (Ok r) →
  (r_byte r = None ↔ r_connect r = None ∨ chunk_of (sk_recv (last_sock (Z.to_nat (r_attempts r))) 0) = "") ∧
  (r_connect r ≠ None → ends (sk_recv (last_sock (Z.to_nat (r_attempts r))))).
Proof using Hmono.
  intros (e & next_t & -> & _ & _ & Hc)%run_loop_ended. unfold result_of. cbn [r_attempts r_connect r_byte].
  rewrite Nat2Z.id. destruct (le_connect e) as [c|].
  - destruct Hc as (_ & _ & He & H0 & _). rewrite H0. naive_solver.
  - destruct Hc as [-> _]. naive_solver.
Qed.

(** C21. The client measures what it says: on a clock that does not go back it
    never attempts faster than its 1 ms cadence (so at most one more attempt than
    milliseconds to its deadline); it reports a reply exactly when its last
    attempt connected and the peer sent the 92 bytes on that connection before it
    closed or fell silent, and then the connection was made before the first byte;
    it reports no first byte, which is what [timeout] means, exactly when no attempt
    connected or the connection's first [recv] gave nothing. *)
Theorem run_loop_sound (fuel : nat) (timeout_ns : Z) (r : result)
    (Hok : run_loop clock sock fuel timeout_ns = Some (Ok r)) :
  let peer := sk_recv (last_sock (Z.to_nat (r_attempts r))) in
  0 <= r_attempts r ∧ (r_attempts r = 0 ∨ (r_attempts r - 1) * CADENCE_NS < timeout_ns) ∧
  (∀ p, r_period r = Some p → CADENCE_NS <= p) ∧
  (r_connect r ≠ None → 0 < r_attempts r) ∧
  (r_body_ok r = true ↔ r_connect r ≠ None ∧ ∃ n, alive peer n ∧ str_in RESP (received peer n) = true) ∧
  (r_body_ok r = true → ∃ c b, r_connect r = Some c ∧ r_byte r = Some b ∧ c <= b) ∧
  (r_timeout r = true ↔ r_byte r = None) ∧
  (r_byte r = None ↔ r_connect r = None ∨ chunk_of (peer 0%nat) = "").
Proof using Hmono.
  destruct (run_loop_attempts _ _ _ Hok) as (H0 & Hn & Hc), (run_loop_reply _ _ _ Hok) as [Hr Hcb].
  cbv zeta. split_and!; try done.
  - destruct (run_loop_ended _ _ _ Hok) as (e & next_t & -> & Hs & _). destruct (spaced_deltas _ _ _ _ Hs) as [Hd _].
    intros p Hp. rewrite Forall_forall in Hd. apply Hd. apply list_elem_of_lookup_2 in Hp. by apply elem_of_sort_by in Hp.
  - destruct (run_loop_ended _ _ _ Hok) as (e & next_t & -> & _). unfold result_of. cbn [r_timeout r_byte]. by destruct (le_byte e).
  - by apply (run_loop_byte _ _ _ Hok).
Qed.

(** C36. The client's loop ends when its clock and its peers let it: on a clock
    that does not go back and passes every instant, with every peer that answers
    closing, falling silent for the timeout of one [recv] or completing the 92 bytes
    at some point, some amount of fuel is enough and more changes nothing about that.
    The condition on the peer is needed: a loop that returned after it connected
    was on a connection that ended, because no deadline covers the receive loop, so
    that a peer dripping bytes for ever keeps the client running for ever. *)
Theorem run_loop_terminates (timeout_ns : Z) :
  ((∀ T, ∃ k, T <= clock k) → (∀ i, ends (sk_recv (sock i))) →
   ∃ K, ∀ fuel, (K < fuel)%nat → is_Some (run_loop clock sock fuel timeout_ns)) ∧
  (∀ fuel r, run_loop clock sock fuel timeout_ns = Some (Ok r) → r_connect r ≠ None →
   ends (sk_recv (last_sock (Z.to_nat (r_attempts r))))).
Proof using Hmono.
  split; [|intros fuel r Hok; by apply (run_loop_byte _ _ _ Hok)]. intros Hprogress Hends.
  set (deadline := clock 0 + timeout_ns).
  destruct (Hprogress (deadline + CADENCE_NS)) as [K0 HK0].
  set (K := Nat.max K0 1). destruct (ends_bounded K Hends) as [N HN]. exists (Nat.max K N). intros fuel Hf.
  unfold run_loop. fold deadline.
  assert (clock K0 <= clock K) as HK by (apply Hmono; lia). unfold CADENCE_NS in *.
  destruct (attempts_loop_some fuel deadline K fuel ltac:(lia) ltac:(lia)) with (next_t := clock 1) (times := @nil Z) (k := 2%nat)
    as [x ->]; try lia.
  - intros i k Hi. apply HN; lia.
  - exists 1%nat. split; [lia|lia].
  - intros t Ht. exists K. unfold CADENCE_NS. split; [lia|done].
  - cbn [length]. lia.
  - by eexists.
Qed.
End cadence.
Definition tick (k : nat) : Z := Z.of_nat k * 100000.
Lemma tick_mono j k : (j ≤ k)%nat → tick j <= tick k.
Proof. unfold tick. lia. Qed.
(** Refused, then in progress and answering in two pieces. *)
Definition demo_recv (i : nat) : recv_event :=
  match i with O => Chunk (take_chars 40 RESP) | 1%nat => Chunk (slice_from 40 RESP) | _ => RecvError end.
Definition demo_sock (i : nat) : socket :=
  {| sk_open := true; sk_connect := Some (if (i =? 0)%nat then 111 else 115); sk_writable := Some true; sk_error := Some 0;
     sk_send := true; sk_recv := demo_recv |}.
Definition demo_loop : result := Eval vm_compute in
  match run_loop tick demo_sock 200 12000000 with
  | Some (Ok r) => r
  | _ => {| r_attempts := 0; r_connect := None; r_byte := None; r_body_ok := false; r_period := None; r_timeout := true |}
  end.
Lemma run_loop_sound_witness : run_loop tick demo_sock 200 12000000 = Some (Ok demo_loop) ∧ r_body_ok demo_loop = true ∧
  ∃ n, alive demo_recv n ∧ str_in RESP (received demo_recv n) = true.
Proof.
  split; [by vm_compute|]. split; [done|].
  destruct (run_loop_sound tick demo_sock tick_mono 200 12000000 demo_loop ltac:(by vm_compute)) as (_ & _ & _ & _ & H & _).
  by apply H.
Defined.
Lemma run_loop_terminates_witness : ∃ K, ∀ fuel, (K < fuel)%nat → is_Some (run_loop tick demo_sock fuel 12000000).
Proof.
  apply (run_loop_terminates tick demo_sock tick_mono 12000000).
  - intros T. exists (Z.to_nat T). unfold tick. lia.
  - intros i. exists 2%nat. by left.
Defined.
(** A peer that sends a byte at a time and never the reply: no fuel is enough. *)
Definition drip_sock (i : nat) : socket :=
  {| sk_open := true; sk_connect := Some 0; sk_writable := Some true; sk_error := Some 0; sk_send := true;
     sk_recv := λ _, Chunk "x" |}.
Lemma drip_received n : str_in RESP (received (λ _, Chunk "x") n) = false.
Proof.
  destruct (str_in RESP _) eqn:E; [|done]. apply str_in_spec in E as (a & b & E). exfalso.
  assert (Forall (λ c, c = "x"%char) (to_l (received (λ _, Chunk "x") n))) as H.
  { clear. induction n as [|n IH]; [constructor|]. cbn [received chunk_of]. rewrite to_l_app.
    apply Forall_app. split; [exact IH|by repeat constructor]. }
  rewrite E, !to_l_app in H. apply Forall_app in H as [_ [H _]%Forall_app]. by apply Forall_cons in H as [H _].
Qed.
Lemma drip_never_ends : ¬ ends (λ _, Chunk "x").
Proof. intros (i & [H|H]); [done|]. by rewrite drip_received in H. Qed.
Lemma drip_runs_on fuel : run_loop tick drip_sock fuel 12000000 = None.
Proof.
  destruct (decide (fuel < 4)%nat) as [Hf|Hf]; [do 4 (destruct fuel as [|fuel]; [by vm_compute|]); lia|].
  do 4 (destruct fuel as [|fuel]; [lia|]). unfold run_loop. cbn -[recv_response].
  change (negb _) with false. change (tick 1 <=? tick 3) with true. cbn -[recv_response tick].
  change (tick 0 + 12000000 <=? tick 4) with false. cbn -[recv_response tick].
  destruct (recv_response tick _ _ _) as [[[f b] k']|] eqn:E; [|done].
  apply (recv_response_spec tick drip_sock) in E as [E _]. by apply drip_never_ends in E.
Qed.
