(* ===== verification/ClientHarness.v ===== *)
(** * The client and the harness

    bench-client.py prints its measurement as JSON; bench.py reads it back.  The
    two scripts agree on the format, and an accepted trial of the harness reports
    what the client measured. *)
From stdpp Require Import gmap.
From S2P Require Import Prelude PyStr PyFloat PyData PyJson PcapHttp BenchSerial BenchHost BenchTables BenchRun BenchMain.
From S2P Require BenchClient.
From Stdlib Require Import Ascii.
Import BenchClient (run_loop_attempts, run_loop_reply, answered, last_sock, alive, received, RESP, sk_recv, CADENCE_NS, calibration_json, result_json, main_client, run_loop, r_attempts, r_connect, r_byte, r_body_ok,
  ca_mid, ca_min, ca_max, cl_out, cl_ready, cl_timeout, cl_calibrate).

(** ** The two JSON texts *)
Definition opt_json (o : option Z) : jval := match o with Some z => JInt z | None => JNull end.
Definition result_obj (r : BenchClient.result) : jobj :=
  [("attempt_period_median_ns", opt_json (BenchClient.r_period r)); ("attempts", JInt (r_attempts r));
   ("body_ok", JBool (r_body_ok r)); ("first_byte_mono_ns", opt_json (r_byte r));
   ("first_connect_mono_ns", opt_json (r_connect r)); ("timeout", JBool (BenchClient.r_timeout r))].
Lemma opt_json_text o : scalar_text (opt_json o) = Some (BenchClient.json_opt o).
Proof. by destruct o. Qed.
Lemma plain_check s : forallb (λ a, negb (is_c 34 a) && negb (is_c 92 a) && negb (ord a <? 32)%N) (to_l s) = true → plain s.
Proof.
  unfold plain. rewrite forallb_forall, Forall_forall. intros H a Ha%list_elem_of_In. specialize (H a Ha).
  apply andb_true_iff in H as [[?%negb_true_iff ?%negb_true_iff]%andb_true_iff ?%negb_true_iff]. done.
Qed.
Lemma reads_field k v t : forallb (λ a, negb (is_c 34 a) && negb (is_c 92 a) && negb (ord a <? 32)%N) (to_l k) = true →
  scalar_text v = Some t → reads (k, v) (k, t).
Proof. intros Hk Hv. split; [done|]. split; [by apply plain_check|done]. Qed.
Lemma result_read r : json_loads (result_json r +:+ nl) = Ok (JObj (result_obj r)).
Proof.
  unfold result_json. change (BenchClient.json_dumps ?l) with (flat_text l). apply (json_loads_flat (result_obj r)); [|done].
  repeat constructor; try (by apply plain_check); apply opt_json_text.
Qed.
Definition calibration_obj (c : BenchClient.calibration) : jobj :=
  [("cadence_target_ns", JInt CADENCE_NS); ("granularity_max_ns", JInt (ca_max c)); ("granularity_min_ns", JInt (ca_min c));
   ("granularity_ns", JInt (ca_mid c)); ("granularity_p25_ns", JInt (BenchClient.ca_p25 c));
   ("granularity_p75_ns", JInt (BenchClient.ca_p75 c)); ("n", JInt (BenchClient.ca_n c))].
Lemma calibration_read c : json_loads (calibration_json c +:+ nl) = Ok (JObj (calibration_obj c)).
Proof.
  unfold calibration_json. change (BenchClient.json_dumps ?l) with (flat_text l).
  apply (json_loads_flat (calibration_obj c)); [|done]. repeat constructor; by apply plain_check.
Qed.

(** The client's result file round-trips: the harness finds in it a reply
    with these instants and this count exactly when the client received the reply
    and measured them. *)
Lemma client_result_read (r : BenchClient.result) (connect byte attempts : Z) :
  client_says (result_json r +:+ nl) connect byte attempts ↔
  r_body_ok r = true ∧ r_connect r = Some connect ∧ r_byte r = Some byte ∧ r_attempts r = attempts.
Proof.
  unfold client_says. rewrite result_read. split.
  - intros (d & [= <-] & Hb & Hc & Hf & Ha). unfold j_field, j_item, result_obj in *. cbn in *.
    destruct (r_connect r), (r_byte r); try done. by injection Hc as ->; injection Hf as ->; injection Ha as ->.
  - intros (Hb & Hc & Hf & Ha). exists (result_obj r). unfold result_obj. rewrite Hb, Hc, Hf, Ha. done.
Qed.

(** ** Calibration *)
(** The granularity the campaign records is the median the client printed. *)
Lemma calibrate_client_read (h : host) (root python : string) (cpu port n : Z) (c : BenchClient.calibration) :
  env_int h "BENCH_CALIBRATE_N" 200 = Ok n →
  check_output h ["taskset"; "-c"; str_of_Z cpu; python; root +:+ "/scripts/bench-client.py"; "--calibrate"; str_of_Z n;
                  "--port"; str_of_Z port] = Ok (calibration_json c +:+ nl) →
  calibrate_client h root python cpu port =
    (["bench: client granularity median=" +:+ str_of_Z (ca_mid c) +:+ " ns (target 1000000, min=" +:+ str_of_Z (ca_min c)
      +:+ " max=" +:+ str_of_Z (ca_max c) +:+ ")"], Ok (ca_mid c)).
Proof.
  intros Hn Hc. unfold calibrate_client. rewrite Hn. unfold mbind, printing_bind, quiet. cbn [fst snd].
  unfold check_output in *. rewrite Hc. cbn [app mbind res_bind]. rewrite calibration_read. reflexivity.
Qed.

(** ** A trial with its client *)
(** What a trial's one launch observed. *)
Definition observed (h : host) (root python : string) (launch : list string → list string → obs) (a : trial_args) (o : obs) : Prop :=
  ∃ qemu args, qemu_argv h root (pcap_of (ta_dir a)) (ta_port a) (ta_bios a) = Ok (qemu, args) ∧
    o = launch (client_cmd root python a) (qemu_cmd h a qemu args).
Lemma run_trial_client h root python launch a r : run_trial h root python launch a = Ok r →
  ∃ o text, observed h root python launch a o ∧ o_client o = Some text ∧
    client_says text (o_e0_mono o + tr_connect r) (o_e0_mono o + tr_e4 r) (tr_attempts r) ∧ tr_e0_mono r = o_e0_mono o.
Proof.
  intros (tshark & qemu & args & _ & Hq & H)%run_trial_exact. destruct (tp_client _ _ _ _ _ H) as (text & Ht & Hs).
  eexists _, text. split; [by exists qemu, args|]. split_and!; [done..|]. apply (tp_start _ _ _ _ _ H).
Qed.
Lemma observed_unique h root python launch a o o' :
  observed h root python launch a o → observed h root python launch a o' → o = o'.
Proof. intros (q & l & Hq & ->) (q2 & l2 & Hq2 & ->). rewrite Hq in Hq2. by injection Hq2 as <- <-. Qed.
Lemma not_ready_json : ∀ d, json_loads ("ready" +:+ nl) ≠ Ok (JObj d).
Proof. intros d. by vm_compute. Qed.
(** What the client leaves in its result file, when it is not calibrating. *)
Lemma main_client_file clock sock fuel ca fs fs' res text :
  main_client clock sock fuel ca fs = Some (fs', res) → cl_calibrate ca = 0 → fs !! cl_out ca = None →
  fs' !! cl_out ca = Some text →
  text = "ready" +:+ nl ∨ ∃ ns r, py_trunc (fmul (cl_timeout ca) (float_lit "1e9")) = Ok ns ∧
    run_loop clock sock fuel ns = Some (Ok r) ∧ text = result_json r +:+ nl.
Proof.
  unfold main_client. intros H Hc Hno Ht. rewrite Hc in H. cbn [Z.eqb negb] in H.
  destruct (String.eqb (cl_ready ca) "" || String.eqb (cl_out ca) "") eqn:Eo; [injection H as <- _; congruence|].
  destruct (py_trunc _) as [ns|e]; [|injection H as <- _; congruence].
  destruct (run_loop clock sock fuel ns) as [[r|e]|] eqn:El; [| |done]; cbn [mbind option_bind] in H.
  - apply orb_false_iff in Eo as [_ Eo]. rewrite Eo in H. injection H as <- _. rewrite lookup_insert_eq in Ht.
    injection Ht as <-. right. by exists ns, r.
  - injection H as <- _. left. destruct (decide (cl_ready ca = cl_out ca)) as [He|Hne].
    + rewrite He, lookup_insert_eq in Ht. by injection Ht as <-.
    + rewrite lookup_insert_ne in Ht by done. congruence.
Qed.

Section measured.
Context (clock : nat → Z) (sock : nat → BenchClient.socket).
(** The client's clock is monotonic; the harness removed the old result first. *)
Context (Hmono : ∀ j k, (j ≤ k)%nat → clock j <= clock k).

(** C8. An accepted trial reports what the client measured.  When the result file
    of a trial is the one its client left, and the trial is accepted, then the
    client's loop ended with a reply, the 92 bytes having come on the connection its
    last attempt made; the trial's two latencies are the client's two instants less
    the monotonic reading the harness took when it started QEMU, first connect not
    after first byte; and its count is the client's, at least one attempt and at most
    one per cadence. *)
Theorem accepted_trial_measured (fuel : nat) (ca : BenchClient.client_args) (fs fs' : files) (res : res outcome)
    (h : host) (root python : string) (launch : list string → list string → obs) (a : trial_args) (r : trial_result)
    (Hclient : main_client clock sock fuel ca fs = Some (fs', res)) (Hcal : cl_calibrate ca = 0)
    (o : obs) (Ho : observed h root python launch a o)
    (Hgone : fs !! cl_out ca = None) (Hfile : o_client o = fs' !! cl_out ca)
    (Hok : run_trial h root python launch a = Ok r) :
  ∃ ns cr, py_trunc (fmul (cl_timeout ca) (float_lit "1e9")) = Ok ns ∧ run_loop clock sock fuel ns = Some (Ok cr) ∧
    (∃ n, let peer := sk_recv (last_sock sock (Z.to_nat (tr_attempts r))) in
       alive peer n ∧ str_in RESP (received peer n) = true) ∧
    r_connect cr = Some (o_e0_mono o + tr_connect r) ∧ r_byte cr = Some (o_e0_mono o + tr_e4 r) ∧
    tr_e0_mono r = o_e0_mono o ∧ tr_connect r <= tr_e4 r ∧
    tr_attempts r = r_attempts cr ∧ 0 < tr_attempts r ∧ (tr_attempts r - 1) * CADENCE_NS < ns.
Proof using Hmono.
  destruct (run_trial_client _ _ _ _ _ _ Hok) as (o' & text & Ho' & Ht & Hs & He0).
  rewrite (observed_unique _ _ _ _ _ _ _ Ho' Ho) in *. clear o' Ho'. rewrite Hfile in Ht.
  destruct (main_client_file _ _ _ _ _ _ _ _ Hclient Hcal Hgone Ht) as [->|(ns & cr & Hns & Hl & ->)].
  { destruct Hs as (d & Hd & _). by apply not_ready_json in Hd. }
  exists ns, cr. apply client_result_read in Hs as (Hb & Hc & Hf & Ha).
  destruct (run_loop_attempts clock sock Hmono _ _ _ Hl) as (_ & Hn & Hpos).
  destruct (run_loop_reply clock sock Hmono _ _ _ Hl) as [Hr Hcb]. apply Hr in Hb as Hp.
  destruct (Hcb Hb) as (c & b & Hc' & Hf' & Hle). destruct Hp as (_ & n & Hp). rewrite Ha in Hp. rewrite Hc in *. rewrite Hf in *.
  injection Hc' as <-. injection Hf' as <-. specialize (Hpos ltac:(done)). split_and!; try done; try lia. by exists n.
Qed.
End measured.

(** ** A trial measured by a client that is refused once and then answered *)
Definition demo_ca : BenchClient.client_args :=
  {| cl_timeout := float_lit "0.012"; cl_ready := "client.ready"; cl_out := "client.json"; cl_calibrate := 0 |}.
Definition demo_client_run : option (files * res outcome) := main_client BenchClient.tick BenchClient.demo_sock 200 demo_ca ∅.
Definition client_files : files := match demo_client_run with Some (fs, _) => fs | None => ∅ end.
Definition measured_obs (_ _ : list string) : obs :=
  {| o_ready := ClientReady; o_e0_mono := 1000; o_e0_wall := 5000; o_qemu := Some 0; o_client_done := true;
     o_client := client_files !! "client.json"; o_serial := good_serial; o_host := trial_host steal_free |}.
Definition measured_trial : res trial_result := run_trial (trial_host steal_free) "r" "python3" measured_obs demo_args.
Definition demo_client_end : res outcome := match demo_client_run with Some (_, r) => r | None => Err OSError end.
Lemma demo_client_ran : main_client BenchClient.tick BenchClient.demo_sock 200 demo_ca ∅ = Some (client_files, demo_client_end).
Proof. by vm_compute. Qed.
Lemma measured_trial_ok : ∃ r, measured_trial = Ok r.
Proof. apply is_ok_Ok. by vm_compute. Qed.
Lemma measured_observed : observed (trial_host steal_free) "r" "python3" measured_obs demo_args (measured_obs [] []).
Proof. by eexists _, _. Qed.
Lemma accepted_trial_measured_witness : ∃ r, measured_trial = Ok r ∧ tr_connect r <= tr_e4 r ∧ 0 < tr_attempts r.
Proof.
  destruct measured_trial_ok as [r Hr]. exists r. split; [exact Hr|].
  destruct (accepted_trial_measured BenchClient.tick BenchClient.demo_sock BenchClient.tick_mono 200 demo_ca ∅ client_files
    demo_client_end (trial_host steal_free) "r" "python3" measured_obs demo_args r demo_client_ran eq_refl
    (measured_obs [] []) measured_observed eq_refl eq_refl Hr) as (ns & cr & _ & _ & _ & _ & _ & _ & Hle & _ & Hpos & _).
  split; [exact Hle|exact Hpos].
Defined.
