(* ===== verification/RegimeWitness.v ===== *)
(** * The regime witness (scripts/regime-witness.py)

    The safe arm's [page_verify] witness of each pinned campaign, the join of its
    warm-ups by batch and position, and the exhibit written from them.  What git
    shows of a pin is a parameter. *)
From stdpp Require Import gmap.
From S2P Require Import Prelude PyStr SelfTest PyFloat PyData PyCsv PcapHttp PinGates D0070Pass.
From Stdlib Require Import Ascii.

Definition PINS : list (string * string * string) :=
  [("T4.3 baseline", "baseline-t4.3", "");
   ("T4.6 after-ladder", "c40945cdb71b5aef68c5e72e292a718b66ec651e", "");
   ("D-0068 run 1", "59e070321ab5ec30ff97830ac3f9f78577511db4", "");
   ("D-0068 run 2", "4755fa3fe2cf98ded4dd333fa81ca66a2b811cfe", "");
   ("T4.8", "ffb7ac71234e953ae51339a3e1f5e17ba8c3f1b3", "");
   ("T4.8b", "t48b", "published flagship");
   ("t47", "94bad3b8a118412639c3f2f49582141033f7b867",
    "recorded-not-published; canary ran but predates the CSV columns (console record in D-0079)");
   ("t47b", "793680bcd4fe4174ede1ddd3ec80d9e1135b4b2b",
    "aborted, recorded-not-published; the amendment's trigger");
   ("t47c", "c2759e245bf7cbcf23dcf43ac228b73f06bb0960",
    "passed T4.7 confirmation; second canary disagreement")].
Definition DIVIDE_MS : num := NFlt (float_lit "14.0").
Definition DIP_BELOW_MEDIAN_MS : num := NFlt (float_lit "1.0").
Definition SAFE_ARM : string := "release-default".
Definition SHIM_ARM : string := "m-release-default".

(** [int(r[k]) / 1e6] *)
Definition ms_of (ns : Z) : res num := num_truediv (NInt ns) (NFlt (float_lit "1e6")).
Definition get_ms (k : string) (r : row) : res num := z ← get_int k r; ms_of z.
(** [l[i]] with a possibly negative index. *)
Definition py_index {A} (l : list A) (i : Z) : res A :=
  let n := Z.of_nat (length l) in
  let j := if i <? 0 then i + n else i in
  if j <? 0 then Err IndexError else of_option IndexError (l !! Z.to_nat j).

(** ** The warm-ups, joined by batch and trial *)
Record wjoin := { wj_batches : list pyval; wj_safe : list (list num); wj_m : option (list (list num));
                  wj_gaps : list (nat * Z * num * num) }.
Definition pv_key : Type := pyval * Z.
Definition pv_step (config : string) (out : odict pv_key num) (p : row) : res (odict pv_key num) :=
  keep ← (b ← field_is "warmup" "1" p; py_and b (b ← field_is "config" config p; py_and b (field_is "phase" "page_verify" p)));
  if negb keep then Ok out else
  b ← get "batch_id" p; t ← get_int "trial" p; v ← get_ms "delta_ns" p; Ok (od_set (b, t) v out).
Definition _pv_map (phases : list row) (config : string) : res (odict pv_key num) := foldM (pv_step config) [] phases.
Definition batch_trials_of (b : pyval) (pv : odict pv_key num) : list Z :=
  sort_by Z.leb (omap (λ k : pv_key, if decide (k.1 = b) then Some k.2 else None) (od_keys pv)).
Definition batch_warmups (pv : odict pv_key num) (b : pyval) : res (list num) :=
  let trials := batch_trials_of b pv in
  _ ← raise_when (negb (bool_decide (trials = [1; 2; 3])))
        (RegimeFail ("TEST FAIL: warmup page_verify trials for batch " +:+ py_str b +:+ " are "
                     +:+ repr_list (str_of_Z <$> trials) +:+ ", want [1, 2, 3]"));
  mapR (λ t, of_option (KeyError (repr_tuple [py_repr b; str_of_Z t])) (od_get (b, t) pv)) trials.
Definition _arm_warmups (batches : list pyval) (pv : odict pv_key num) : res (option (list (list num))) :=
  match pv with
  | [] => Ok None
  | _ => rows ← mapR (batch_warmups pv) batches; Ok (Some rows)
  end.
Definition is_wu (r : row) : res bool := b ← field_is "warmup" "1" r; py_and b (field_is "config" SAFE_ARM r).
(** The gaps of a batch: a safe warm-up and the row run before it. *)
Definition gap_of (bi : nat) (safe : list (list num)) (pr : row * row) : res (list (nat * Z * num * num)) :=
  let '(prev, r) := pr in
  b ← is_wu r;
  if negb b then Ok [] else
  e0 ← get_int "e0_mono_ns" r; pe0 ← get_int "e0_mono_ns" prev; pe4 ← get_int "e0_to_e4_ns" prev;
  gap ← num_truediv (NInt (e0 - (pe0 + pe4))) (NFlt (float_lit "1e9"));
  trial ← get_int "trial" r;
  wu ← of_option IndexError (safe !! bi);
  pv ← py_index wu (trial - 1);
  Ok [(bi, trial, pv, gap)].
Definition batch_gaps (by_batch : odict pyval (list row)) (safe : list (list num)) (ib : nat * pyval) :
    res (list (nat * Z * num * num)) :=
  rs ← of_option (KeyError (py_repr ib.2)) (od_get ib.2 by_batch);
  keyed ← mapR (λ r, k ← get_int "run_order" r; Ok (k, r)) rs;
  let rs := (sort_by (λ a b, a.1 <=? b.1) keyed).*2 in
  (* the first row's own test has no effect beyond what it may raise *)
  _ ← match rs with r :: _ => is_wu r | [] => Ok false end;
  gs ← mapR (gap_of ib.1 safe) (zip rs (tail rs)); Ok (List.concat gs).
Definition warmup_join (rev : string) (runs phases : list row) : res (option wjoin) :=
  wu_runs ← filterR is_wu runs;
  match wu_runs with
  | [] => Ok None
  | _ =>
    bs ← distinct "batch_id" wu_runs;
    batches ← sorted_vals bs;
    safe_pv ← _pv_map phases SAFE_ARM;
    safe ← _arm_warmups batches safe_pv;
    safe ← of_option (RegimeFail ("TEST FAIL: " +:+ rev +:+ " has warmup runs but no page_verify")) safe;
    m_pv ← _pv_map phases SHIM_ARM;
    m_wu ← _arm_warmups batches m_pv;
    by_batch ← foldM (λ d r, b ← get "batch_id" r; Ok (od_upd b [] (λ l, l ++ [r]) d)) [] runs;
    gaps ← mapR (batch_gaps by_batch safe) (zip (seq 0 (length batches)) batches);
    Ok (Some {| wj_batches := batches; wj_safe := safe; wj_m := m_wu; wj_gaps := List.concat gaps |})
  end.

(** ** A campaign *)
Record camp := { c_label : string; c_note : string; c_kernel : pyval; c_n : nat; c_med : num; c_lo : num; c_hi : num;
                 c_canary : string; c_canary_pv : option num; c_batches : list pyval; c_warmup : option wjoin }.
Definition is_safe_recorded (r : row) : res bool := b ← field_is "warmup" "0" r; py_and b (field_is "config" SAFE_ARM r).
Definition is_witness (p : row) : res bool :=
  b ← field_is "config" SAFE_ARM p; py_and b (b ← field_is "phase" "page_verify" p; py_and b (field_is "warmup" "0" p)).
Definition canary_cell (r0 : row) : res string :=
  if truthy (get_or "canary_page_verify_ns" PNone r0) then
    sv ← get_ms "canary_stvec_ns" r0; pv ← get_ms "canary_page_verify_ns" r0;
    Ok (num_fixed 3 sv +:+ "/" +:+ num_fixed 3 pv)
  else Ok "".
Definition canary_ms (r0 : row) : res (option num) :=
  if truthy (get_or "canary_page_verify_ns" PNone r0) then Some <$> get_ms "canary_page_verify_ns" r0 else Ok None.
Definition campaign_of (label rev note : string) (runs phases : list row) : res camp :=
  rec ← filterR is_safe_recorded runs;
  r0 ← of_option (RegimeFail ("TEST FAIL: " +:+ rev +:+ " has no recorded release-default rows")) (head rec);
  kern ← distinct "kernel_sha256" rec;
  k ← match kern with
      | [k] => Ok k
      | _ => s ← sorted_repr kern; Err (RegimeFail ("TEST FAIL: " +:+ rev +:+ " mixed safe-arm kernel_sha256 " +:+ s))
      end;
  ws ← filterR is_witness phases;
  pv ← mapR (get_int "delta_ns") ws;
  _ ← raise_when (match pv with [] => true | _ => false end)
        (RegimeFail ("TEST FAIL: " +:+ rev +:+ " has no safe-arm page_verify rows"));
  canary ← canary_cell r0;
  bs ← distinct "batch_id" rec;
  batches ← sorted_vals bs;
  med ← median (NInt <$> pv); med ← num_truediv med (NFlt (float_lit "1e6"));
  lo ← num_min (NInt <$> pv); lo ← num_truediv lo (NFlt (float_lit "1e6"));
  hi ← num_max (NInt <$> pv); hi ← num_truediv hi (NFlt (float_lit "1e6"));
  canary_pv ← canary_ms r0;
  wu ← warmup_join rev runs phases;
  Ok {| c_label := label; c_note := note; c_kernel := k; c_n := length pv; c_med := med; c_lo := lo; c_hi := hi;
        c_canary := canary; c_canary_pv := canary_pv; c_batches := batches; c_warmup := wu |}.

(** ** Regimes *)
Definition regime_side (ms : num) : string := if num_ltb ms DIVIDE_MS then "deflated" else "inflated".
(** [float(c["canary"].split("/")[1])] *)
Definition canary_text_pv (c : camp) : res num :=
  s ← of_option IndexError (split_on (chr 47) (c_canary c) !! 1%nat); NFlt <$> of_option ValueError (float_of_str s).
Definition canary_crosses (c : camp) : res bool :=
  if String.eqb (c_canary c) "" then Ok false else
  pv ← canary_text_pv c; Ok (negb (Bool.eqb (num_ltb pv DIVIDE_MS) (num_ltb (c_med c) DIVIDE_MS))).
Definition family_corroborated (fam : list camp) : res bool :=
  lo ← num_min (c_med <$> fam); hi ← num_max (c_med <$> fam);
  py_or (num_ltb lo DIVIDE_MS && num_ltb DIVIDE_MS hi) (anyR canary_crosses fam).
Definition classify_row (c : camp) (corroborated : bool) : res (string * string * string) :=
  let '(side, uni) :=
    if corroborated then
      let above v := num_geb v DIVIDE_MS in
      (if above (c_med c) then "inflated" else "deflated",
       if forallb (λ v, Bool.eqb (above v) (above (c_med c))) [c_lo c; c_hi c] then "yes" else "**MIXED**")
    else ("—", "span " +:+ num_fixed 2 (num_sub (c_hi c) (c_lo c))) in
  if negb (String.eqb (c_canary c) "") then
    pv ← canary_text_pv c;
    let c_side := if num_geb pv DIVIDE_MS then "inflated" else "deflated" in
    Ok (side, uni, if negb corroborated || String.eqb c_side side then "AGREE" else "**DISAGREE**")
  else Ok (side, uni, if negb (str_in "canary" (c_note c)) then "n/a (pre-canary)" else "n/a").
Definition is_dip (val : num) (siblings : list num) : res bool :=
  match siblings with
  | [] => Ok false
  | _ => m ← median siblings; Ok (num_geb (num_sub m val) DIP_BELOW_MEDIAN_MS)
  end.
(** The values of a table of warm-ups with the cell at [(i, j)] left out. *)
Definition indexed {A} (l : list A) : list (nat * A) := zip (seq 0 (length l)) l.
Definition others (wus : list (list num)) (i : nat) (j : Z) : list num :=
  mjoin ((λ iw : nat * list num, omap (λ jv : nat * num,
    if ((iw.1 =? i)%nat && (Z.of_nat jv.1 =? j)) then None else Some jv.2) (indexed iw.2)) <$> indexed wus).
Definition fmt_wu (vals : list num) (wus : list (list num)) (batch_idx : nat) : res string :=
  parts ← mapR (λ tv : nat * num, d ← is_dip tv.2 (others wus batch_idx (Z.of_nat tv.1));
                   Ok (if d : bool then "**" +:+ num_fixed 2 tv.2 +:+ "**" else num_fixed 2 tv.2)) (indexed vals);
  Ok (join " " parts).

(** ** The closing finding *)
(** The campaigns with a join, each with it. *)
Definition joined_of (rows : list camp) : list (camp * wjoin) :=
  omap (λ c, w ← c_warmup c; Some (c, w)) rows.
(** Position 1 of each batch that dips: its index, its value, its siblings. *)
Definition first_dip (wus : list (list num)) (iw : nat * list num) : res (list (nat * num * list num)) :=
  v ← of_option IndexError (head iw.2);
  d ← is_dip v (others wus iw.1 0);
  Ok (if d : bool then [(iw.1, v, others wus iw.1 0)] else []).
Definition first_dips (wus : list (list num)) : res (list (nat * num * list num)) :=
  ds ← mapR (first_dip wus) (indexed wus); Ok (List.concat ds).
Definition canary_disagrees (c : camp) (witness : num) : bool :=
  match c_canary_pv c with Some pv => negb (String.eqb (regime_side pv) (regime_side witness)) | None => false end.
Definition cluster_of (cw : camp * wjoin) : res (list num) :=
  let '(c, w) := cw in
  ds ← first_dips (wj_safe w);
  Ok ((if canary_disagrees c (c_med c) then match c_canary_pv c with Some pv => [pv] | None => [] end else [])
      ++ ((λ d : nat * num * list num, d.1.2) <$> ds)).
(** [safe[i][0]] *)
Definition first_of (w : wjoin) (i : nat) : res num :=
  wu ← of_option IndexError (wj_safe w !! i); of_option IndexError (head wu).
Definition inflated (c : camp) : bool := num_geb (c_med c) DIVIDE_MS.
Definition b2_first (cw : camp * wjoin) : res (list (string * num)) :=
  if (2 <=? length (wj_safe cw.2))%nat && inflated cw.1
  then v ← first_of cw.2 1; Ok [(c_label cw.1, v)] else Ok [].
Definition in_cluster (clo chi v : num) : bool :=
  let eps := NFlt (float_lit "1e-9") in num_leb (num_sub clo eps) v && num_leb v (num_add chi eps).
Definition disagreement (c : camp) : bool := negb (String.eqb (c_canary c) "") && canary_disagrees c (c_med c).
Definition not_first (cw : camp * wjoin) : res (list (camp * wjoin * num * num)) :=
  match c_canary_pv cw.1 with
  | None => Ok []
  | Some pv => b1 ← first_of cw.2 0;
               Ok (if negb (String.eqb (regime_side pv) (regime_side b1)) then [(cw, pv, b1)] else [])
  end.
Definition m_dips_of (cw : camp * wjoin) : res (list (string * nat * num * num)) :=
  match wj_m cw.2 with
  | None | Some [] => Ok []
  | Some m => ds ← first_dips m;
              mapR (λ d : nat * num * list num, med ← median d.2; Ok (c_label cw.1, S d.1.1, d.1.2, med)) ds
  end.
Definition gap_dip (w : wjoin) (g : nat * Z * num * num) : res (bool * num) :=
  let '(bi, trial, pv, gap) := g in
  d ← is_dip pv (others (wj_safe w) bi (trial - 1)); Ok (d, gap).
Definition gap_dips (cw : camp * wjoin) : res (list (bool * num)) :=
  if num_ltb (c_med cw.1) DIVIDE_MS then Ok [] else mapR (gap_dip cw.2) (wj_gaps cw.2).
Definition flip_bit (x : camp * wjoin * num * num) : res string :=
  let '(c, w, pv, b1) := x in
  b2 ← first_of w 1;
  Ok (c_label c +:+ ": canary " +:+ num_fixed 3 pv +:+ " ms (" +:+ regime_side pv +:+ ") vs batch-1 position-1 "
      +:+ num_fixed 2 b1 +:+ " ms (" +:+ regime_side b1 +:+ "); the deflated warmup is batch-2 position-1 "
      +:+ num_fixed 2 b2 +:+ " ms, not the first trial-conditions boot").
Definition m_bit (d : string * nat * num * num) : string :=
  let '(lab, bi, v, med) := d in
  lab +:+ " batch-" +:+ str_of_nat bi +:+ " position-1 " +:+ num_fixed 2 v +:+ " ms vs sibling median " +:+ num_fixed 2 med
  +:+ " ms".
Definition disagreement_line (disagrees : list camp) : string :=
  let n := length disagrees in
  "Canary vs recorded witness: " +:+ str_of_nat n +:+ " disagreement" +:+ (if (n =? 1)%nat then "" else "s") +:+ " ("
  +:+ (match disagrees with [] => "none" | _ => join ", " (c_label <$> disagrees) end)
  +:+ "). The recorded witness is the campaign's regime; a disagreement is the canary failing as a certificate, not a mid-run flip unless the warmup-position join says so.".
Definition cluster_line (clo chi : num) (n : nat) (outside : list (string * num)) : string :=
  "Structural cluster, derived from disagreeing canaries and every batch-boundary first safe warmup that dips ≥ "
  +:+ num_fixed 0 DIP_BELOW_MEDIAN_MS +:+ " ms below its campaign's other warmups: [" +:+ num_fixed 2 clo +:+ ", "
  +:+ num_fixed 2 chi +:+ "] ms (" +:+ str_of_nat n +:+ " boots). "
  +:+ (match outside with
       | [] => "Every batch-2 position-1 safe warmup of an inflated recorded campaign falls in that cluster."
       | _ => "Batch-2 position-1 outside the cluster: "
              +:+ join ", " ((λ lv : string * num, lv.1 +:+ " " +:+ num_fixed 2 lv.2) <$> outside) +:+ "."
       end)
  +:+ " Lone e0drift witness boots are not in these pins and are not asserted here.".
Definition gap_line (dips other : list num) : res (list string) :=
  match dips, other with
  | [], _ | _, [] => Ok []
  | _, _ =>
    a ← num_min dips; b ← num_max dips; c ← num_min other; d ← num_max other;
    Ok ["Idle gap before the spawn (e0_mono − previous trial's e0+E4, same batch): dipped boots " +:+ num_fixed 2 a +:+ "–"
        +:+ num_fixed 2 b +:+ " s, inflated neighbors " +:+ num_fixed 2 c +:+ "–" +:+ num_fixed 2 d
        +:+ " s — ranges overlap, so wall-clock spacing is not the driver."]
  end.
Definition structural_finding (rows : list camp) : res (list string) :=
  let joined := joined_of rows in
  _ ← raise_when (match joined with [] => true | _ => false end)
        (RegimeFail "TEST FAIL: no pinned campaign has warmup rows to join");
  cls ← mapR cluster_of joined;
  let cluster := List.concat cls in
  _ ← raise_when (match cluster with [] => true | _ => false end)
        (RegimeFail "TEST FAIL: warmup join found no canary or position-1 dip");
  clo ← num_min cluster; chi ← num_max cluster;
  b2s ← mapR b2_first joined;
  let outside := filter (λ lv : string * num, in_cluster clo chi lv.2 = false) (List.concat b2s) in
  let disagrees := filter (λ c, disagreement c = true) rows in
  nf ← mapR not_first joined;
  ms ← mapR m_dips_of joined;
  gs ← mapR gap_dips joined;
  bits ← mapR flip_bit (List.concat nf);
  gl ← gap_line (omap (λ g : bool * num, if g.1 then Some g.2 else None) (List.concat gs))
                (omap (λ g : bool * num, if g.1 then None else Some g.2) (List.concat gs));
  Ok ([disagreement_line disagrees]
      ++ (match bits with
          | [] => []
          | _ => ["Join by (batch, position) — not campaign-flat warmup order — refutes a first-two-warmups flip: "
                  +:+ join "; " bits +:+ "."]
          end)
      ++ [cluster_line clo chi (length cluster) outside]
      ++ (match List.concat ms with
          | [] => []
          | l => ["The same position dips on the m-lane (no OpenSBI, no DBCN): " +:+ join "; " (m_bit <$> l)
                  +:+ " — lane-independent, host-side of the polled UART."]
          end)
      ++ gl).

(** ** The exhibit *)
Section exhibit.
(** [git args]: what git answers; [root]: the repository. *)
Context (git : list string → proc) (root : string).
Definition show (rev path : string) : res string :=
  let p := git ["show"; rev +:+ ":" +:+ path] in
  if returncode p =? 0 then Ok (stdout p)
  else Err (RegimeFail ("TEST FAIL: git show " +:+ rev +:+ ":" +:+ path +:+ ": " +:+ strip (stderr p))).
Definition load_csv (rev path : string) : res (list row) := text ← show rev path; csv_dicts false text.
Definition campaign (pin : string * string * string) : res camp :=
  let '(label, rev, note) := pin in
  runs ← load_csv rev "results/runs.csv"; phases ← load_csv rev "results/phases.csv";
  campaign_of label rev note runs phases.
Definition families_of (rows : list camp) : odict pyval (list camp) :=
  foldl (λ d c, od_upd (c_kernel c) [] (λ l, l ++ [c]) d) [] rows.
Definition first_label (fam : list camp) : string := hd "" (sorted_strs (c_label <$> fam)).
Definition sorted_families (rows : list camp) : list (pyval * list camp) :=
  sort_by (λ a b, str_leb (first_label a.2) (first_label b.2)) (families_of rows).
Definition kernel12 (k : pyval) : res string :=
  match k with PStr s => Ok (take_chars 12 s) | _ => Err TypeError end.
Definition campaign_line (corroborated : bool) (c : camp) : res string :=
  '(side, uni, verdict) ← classify_row c corroborated;
  Ok ("| " +:+ c_label c +:+ (if String.eqb (c_note c) "" then "" else " (" +:+ c_note c +:+ ")") +:+ " | "
      +:+ str_of_nat (c_n c) +:+ " | " +:+ num_fixed 2 (c_med c) +:+ " [" +:+ num_fixed 2 (c_lo c) +:+ "–"
      +:+ num_fixed 2 (c_hi c) +:+ "] | " +:+ uni +:+ " | " +:+ side +:+ " | "
      +:+ (if String.eqb (c_canary c) "" then "—" else c_canary c) +:+ " | " +:+ verdict +:+ " |").
Definition family_lines (kf : pyval * list camp) : res (list string) :=
  corroborated ← family_corroborated kf.2;
  k ← kernel12 kf.1;
  ls ← mapR (campaign_line corroborated) kf.2;
  Ok (["### kernel family `" +:+ k +:+ "…`"; "";
       (if corroborated : bool then "Both clusters observed in this family; divide at ~" +:+ num_fixed 0 DIVIDE_MS +:+ " ms."
        else "Single cluster observed in this family — **no regime classification**; absolutes here must not be read against other families' rows.");
       ""; "| campaign | n | witness med [min–max] ms | uniform | regime | canary sv/pv ms | canary vs witness |";
       "|---|---:|---|---|---|---|---|"] ++ ls ++ [""]).
Definition join_line (c : camp) : res (list string) :=
  match c_warmup c with
  | None => Ok []
  | Some w =>
    match wj_safe w with
    | w1 :: w2 :: _ =>
      f1 ← fmt_wu w1 (wj_safe w) 0; f2 ← fmt_wu w2 (wj_safe w) 1;
      Ok ["| " +:+ c_label c +:+ " | " +:+ (match c_canary_pv c with Some v => num_fixed 3 v | None => "—" end) +:+ " | "
          +:+ f1 +:+ " | " +:+ f2 +:+ " | " +:+ num_fixed 2 (c_med c) +:+ " |"]
    | _ => Ok []
    end
  end.
Definition exhibit_intro : list string :=
  ["<!-- generated by scripts/regime-witness.py — do not edit -->"; "";
   "Regime witness reconciliation (D-0078 amendment evidence). The";
   "witness is the safe arm's recorded per-trial `page_verify`";
   "delta, read from each campaign's **pinned** CSVs; the canary";
   "columns appear where the pinned `runs.csv` carries them.";
   "Witness absolutes compare only **within one kernel family**";
   "(the safe arm's `kernel_sha256`), so rows are grouped by";
   "family; the regime divide is applied only inside a family";
   "that exhibits both clusters or a corroborating in-family boot";
   "record. Warmup `page_verify` is joined by batch and trial";
   "position; the closing finding is computed from that join.";
   "Regeneration: `python3 scripts/regime-witness.py`. Failing-input selftest: `python3 scripts/regime-witness.py selftest`.";
   ""].
Definition join_intro : list string :=
  ["### warmup-position join (safe-arm `page_verify`, ms)"; "";
   "Warmup rows (`warmup=1`), ordered by batch then trial. A value is bold iff it dips ≥ 1 ms below the median of the other five safe warmups in that campaign. This is the join the closing finding is computed from — not campaign-flat warmup order, which is what produced the refuted flip reading.";
   ""; "| campaign | canary pv | batch-1 warmups | batch-2 warmups | recorded med |"; "|---|---|---|---|---|"].
Definition exhibit (rows : list camp) : res (list string) :=
  fams ← mapR family_lines (sorted_families rows);
  js ← mapR join_line rows;
  paras ← structural_finding rows;
  Ok (exhibit_intro ++ List.concat fams ++ join_intro ++ List.concat js ++ [""] ++ mjoin ((λ p, [p; ""]) <$> paras)).
(** The exhibit's text and the outcome. *)
Definition main_exhibit : res (string * outcome) :=
  rows ← mapR campaign PINS;
  lines ← exhibit rows;
  let text := join nl lines in
  Ok (text, {| rc := 0; out := ["TEST PASS: regime-witness → " +:+ root +:+ "/report/exhibits/regime-witness.md"; text];
               err := [] |}).
End exhibit.

(** ** The self-test's planted inputs *)
Definition f_ms (s : string) : num := NFlt (float_lit s).
Definition plant_wj (safe m : list (list string)) : wjoin :=
  {| wj_batches := [PStr "b-1"; PStr "b-2"]; wj_safe := (λ wu : list string, f_ms <$> wu) <$> safe; wj_m := Some ((λ wu : list string, f_ms <$> wu) <$> m); wj_gaps := [] |}.
Definition plant_safe : list (list string) := [["16.3"; "16.2"; "16.1"]; ["16.2"; "16.3"; "16.0"]].
Definition plant_m : list (list string) := [["10.8"; "10.9"; "10.7"]; ["10.7"; "10.8"; "10.9"]].
Definition plant (label canary : string) (pv : option num) (lo hi : string) (w : wjoin) : camp :=
  {| c_label := label; c_note := ""; c_kernel := PStr "k"; c_n := 60; c_med := f_ms "16.2"; c_lo := f_ms lo; c_hi := f_ms hi;
     c_canary := canary; c_canary_pv := pv; c_batches := []; c_warmup := Some w |}.
Definition st_agree : camp := plant "agree-camp" "1.000/16.100" (Some (f_ms "16.1")) "16.0" "16.4" (plant_wj plant_safe plant_m).
Definition st_disagree_with (label : string) (w : wjoin) : camp :=
  plant label "1.000/12.000" (Some (f_ms "12.0")) "16.0" "16.4" w.
Definition st_disagree : camp := st_disagree_with "disagree-camp" (plant_wj plant_safe plant_m).
Definition st_mixed : camp := plant "mixed-camp" "1.000/12.000" (Some (f_ms "12.0")) "12.0" "16.5" (plant_wj plant_safe plant_m).
Definition with_dip (v : string) : list (list string) := [[v; "16.2"; "16.1"]; ["16.2"; "16.3"; "16.0"]].
Definition st_dipped : camp := st_disagree_with "dip-camp" (plant_wj (with_dip "11.00") plant_m).
Definition st_m_dipped : camp :=
  st_disagree_with "disagree-camp" (plant_wj plant_safe [["7.18"; "10.9"; "10.8"]; ["10.7"; "10.8"; "10.9"]]).
Definition st_canary_is_b1 : camp :=
  let w := plant_wj (with_dip "12.00") plant_m in
  st_disagree_with "canary-is-b1" {| wj_batches := wj_batches w; wj_safe := wj_safe w; wj_m := None; wj_gaps := [] |}.
Definition st_no_cluster : camp := plant "agree-camp" "" None "16.0" "16.4" (plant_wj plant_safe plant_m).
Definition st_rec : row :=
  [("warmup", PStr "0"); ("config", PStr "release-default"); ("kernel_sha256", PStr (str_repeat 64 "k"));
   ("canary_stvec_ns", PStr "1000000"); ("canary_page_verify_ns", PStr "16100000"); ("batch_id", PStr "b-1");
   ("trial", PStr "4"); ("run_order", PStr "10"); ("e0_mono_ns", PStr "0"); ("e0_to_e4_ns", PStr "50000000")].
Definition st_pv : row :=
  [("batch_id", PStr "b-1"); ("trial", PStr "4"); ("warmup", PStr "0"); ("config", PStr "release-default");
   ("phase", PStr "page_verify"); ("delta_ns", PStr "16200000")].
Definition st_wu_runs : list row := (λ t, od_update st_rec
  [("warmup", PStr "1"); ("trial", PStr t); ("batch_id", PStr "b-1"); ("run_order", PStr t)]) <$> ["1"; "2"].
Definition st_wu_phases : list row := (λ t,
  [("batch_id", PStr "b-1"); ("trial", PStr t); ("warmup", PStr "1"); ("config", PStr "release-default");
   ("phase", PStr "page_verify"); ("delta_ns", PStr "16000000")]) <$> ["1"; "2"].
(** The names between the last parentheses of the first paragraph's count. *)
Fixpoint names_in (parts : list string) : option string :=
  match parts with
  | [] => None
  | p :: ps => if endswith p ")." || str_in "). " p then head (split_on (chr 41) p) else names_in ps
  end.
Definition expect_fail {A} (r : res A) (needle label : string) : res string := fires FailC (expected r needle label).
Definition must (b : bool) (msg : string) : res unit := raise_when (negb b) (RegimeFail msg).
Definition blob (rows : list camp) : res string := ps ← structural_finding rows; Ok (join nl ps).
Definition trio (t : string * string * string) : string := t.1.1 +:+ "/" +:+ t.1.2 +:+ "/" +:+ t.2.
Definition selftest_rows : res (list string) :=
  _ ← must (String.eqb (regime_side (f_ms "12.0")) "deflated" && String.eqb (regime_side (f_ms "14.0")) "inflated")
        "regime_side divide unexpected";
  d1 ← is_dip (f_ms "11.0") (f_ms <$> ["16.0"; "16.1"; "16.2"]);
  _ ← must d1 "is_dip missed a 5 ms gap";
  d2 ← is_dip (f_ms "16.0") (f_ms <$> ["16.0"; "16.1"; "16.2"]);
  _ ← must (negb d2) "is_dip fired on a non-dip";
  c1 ← family_corroborated [st_agree; st_disagree];
  _ ← must c1 "two-cluster family was not corroborated";
  v1 ← classify_row st_agree true;
  _ ← must (bool_decide (v1 = ("inflated", "yes", "AGREE"))) ("agreeing canary classified " +:+ trio v1);
  v2 ← classify_row st_disagree true;
  _ ← must (String.eqb v2.2 "**DISAGREE**") ("disagreeing canary classified " +:+ v2.2);
  v3 ← classify_row st_mixed true;
  _ ← must (String.eqb v3.1.2 "**MIXED**") ("non-uniform witness classified " +:+ v3.1.2 +:+ ", not MIXED");
  c2 ← family_corroborated [st_agree];
  _ ← must (negb c2) "single-cluster agreeing family was corroborated";
  v4 ← classify_row st_agree false;
  _ ← must (String.eqb v4.1.1 "—") ("single-cluster family silently classified regime " +:+ v4.1.1);
  Ok ["regime_side 12 deflated / 14 inflated"; "is_dip distinguishes a 1 ms-below-median dip";
      "agreeing canary is AGREE, not DISAGREE"; "disagreeing canary is DISAGREE";
      "non-uniform witness is MIXED, not silently yes"; "single-cluster family is not regime-classified"].
Definition repr_opt_str (o : option string) : string := match o with Some s => repr_str s | None => "None" end.
Definition selftest_finding : res (list string) :=
  paras ← structural_finding [st_agree; st_disagree];
  p0 ← of_option IndexError (head paras);
  let names_m := names_in (tail (split_on (chr 40) p0)) in
  _ ← must (bool_decide (names_m = Some "disagree-camp"))
        ("disagreement list " +:+ repr_opt_str names_m +:+ ", want 'disagree-camp' only: " +:+ p0);
  _ ← must (str_in "1 disagreement" p0) ("disagreement sentence unexpected: " +:+ p0);
  base ← blob [st_disagree];
  _ ← must (str_in "[12.00, 12.00]" base) ("cluster bound unexpected without extra dip: " +:+ base);
  dip ← blob [st_dipped];
  _ ← must (str_in "[11.00, 12.00]" dip) ("cluster bound did not move with planted dip: " +:+ dip);
  _ ← must (negb (str_in "same position dips on the m-lane" base)) "m-lane dip claim survived input with no m-lane dip";
  mb ← blob [st_m_dipped];
  _ ← must (str_in "same position dips on the m-lane" mb && str_in "7.18" mb)
        ("m-lane dip claim missing on dipping input: " +:+ mb);
  _ ← must (str_in "refutes a first-two-warmups flip" base && str_in "disagree-camp" base)
        ("flip-refute sentence missing when canary ≠ batch-1: " +:+ base);
  b1 ← blob [st_canary_is_b1];
  _ ← must (negb (str_in "refutes a first-two-warmups flip" b1))
        "flip-refute sentence survived input where canary matches batch-1";
  Ok ["structural_finding reports 1 disagreement (disagree-camp only)";
      "cluster bound moves when a planted boot falls outside it"; "m-lane dip claim absent when the m-lane does not dip";
      "m-lane dip claim present when position-1 actually dips";
      "flip-refute sentence tracks canary vs batch-1, not vs the witness"].
Definition selftest_errors : res (list string) :=
  e1 ← expect_fail (structural_finding []) "no pinned campaign has warmup rows" "structural_finding empty";
  e2 ← expect_fail (structural_finding [st_no_cluster]) "found no canary or position-1 dip" "structural_finding no cluster";
  e3 ← expect_fail (campaign_of "" "plant" "" [] []) "no recorded release-default rows" "campaign no safe-arm rows";
  e4 ← expect_fail (campaign_of "" "plant" "" [st_rec; od_update st_rec [("kernel_sha256", PStr (str_repeat 64 "z"));
                                                                          ("trial", PStr "5")]]
                      [st_pv; od_update st_pv [("trial", PStr "5")]])
         "mixed safe-arm kernel_sha256" "campaign mixed kernel";
  e5 ← expect_fail (campaign_of "" "plant" "" [st_rec] []) "no safe-arm page_verify rows" "campaign no page_verify";
  e6 ← expect_fail (warmup_join "plant" st_wu_runs st_wu_phases) "want [1, 2, 3]" "warmup_join incomplete trials";
  Ok [e1; e2; e3; e4; e5; e6].
Definition cmd_selftest_regime : res outcome :=
  a ← selftest_rows; b ← selftest_finding; c ← selftest_errors;
  Ok {| rc := 0; out := "TEST PASS: regime-witness fail-closed selftest" :: ((λ l, "  fired: " +:+ l) <$> (a ++ b ++ c)); err := [] |}.

(** ** The entry point *)
(** The exhibit written, if any, and the outcome. *)
Definition entry_regime (git : list string → proc) (root : string) (argv : list string) : res (option string * outcome) :=
  let guard {A} (f : A → option string * outcome) (r : res A) :=
    match r with
    | Ok x => Ok (f x)
    | Err (UserExn FailC m) => Ok (None, {| rc := 1; out := []; err := [m] |})
    | Err e => Err e
    end in
  match argv with
  | [] => guard (λ x : string * outcome, (Some x.1, x.2)) (main_exhibit git root)
  | _ => if bool_decide (argv = ["selftest"]) then guard (λ o : outcome, (None, o)) cmd_selftest_regime
         else Ok (None, {| rc := 2; out := []; err := ["usage: regime-witness.py [selftest]"] |})
  end.

(** ** The self-test passes *)
Example regime_selftest_passes : rc <$> cmd_selftest_regime = Ok 0.
Proof. vm_compute. reflexivity. Qed.
(** The table reads the canary's side from its three-decimal text, the closing
    finding from the value: a canary of 13.9996 ms under an inflated witness is
    AGREE in the one and a disagreement in the other. *)
Definition edge_row : row := [("canary_stvec_ns", PStr "1000000"); ("canary_page_verify_ns", PStr "13999600")].
Definition edge_camp : camp := plant "edge" "1.000/14.000" (Some (f_ms "13.9996")) "16.0" "16.4" (plant_wj plant_safe plant_m).
Example canary_side_differs :
  canary_cell edge_row = Ok (c_canary edge_camp) ∧ canary_ms edge_row = Ok (c_canary_pv edge_camp) ∧
  (λ v, v.2) <$> classify_row edge_camp true = Ok "AGREE" ∧ disagreement edge_camp = true.
Proof. vm_compute. split_and!; reflexivity. Qed.
(** The gap line says its ranges overlap whatever they are, and the flip line
    calls batch 2's first warm-up deflated whatever its side. *)
Example gap_claim_unconditional :
  gap_line [f_ms "1.0"] [f_ms "5.0"] = Ok ["Idle gap before the spawn (e0_mono − previous trial's e0+E4, same batch): dipped boots 1.00–1.00 s, inflated neighbors 5.00–5.00 s — ranges overlap, so wall-clock spacing is not the driver."].
Proof. vm_compute. reflexivity. Qed.
Example flip_claim_unconditional :
  flip_bit (st_disagree, plant_wj plant_safe plant_m, f_ms "12.0", f_ms "16.3") =
  Ok "disagree-camp: canary 12.000 ms (deflated) vs batch-1 position-1 16.30 ms (inflated); the deflated warmup is batch-2 position-1 16.20 ms, not the first trial-conditions boot" ∧
  regime_side (f_ms "16.2") = "inflated".
Proof. vm_compute. split; reflexivity. Qed.

(** ** The join is the warm-ups *)
(** Row [p] is a [page_verify] of trial [t] of batch [b] in the warm-ups of [config]. *)
Definition wu_row (config : string) (b : pyval) (t : Z) (p : row) : Prop :=
  get "warmup" p = Ok (PStr "1") ∧ get "config" p = Ok (PStr config) ∧ get "phase" p = Ok (PStr "page_verify") ∧
  get "batch_id" p = Ok b ∧ get_int "trial" p = Ok t.
(** The last such row decides the value. *)
Definition last_pv (config : string) (phases : list row) (b : pyval) (t : Z) (v : num) : Prop :=
  ∃ pre p post, phases = pre ++ p :: post ∧ wu_row config b t p ∧ get_ms "delta_ns" p = Ok v ∧
    Forall (λ q, ¬ wu_row config b t q) post.
Lemma pv_step_Ok config d p d' : pv_step config d p = Ok d' →
  (d' = d ∧ ∀ b t, ¬ wu_row config b t p) ∨
  ∃ b t v, wu_row config b t p ∧ get_ms "delta_ns" p = Ok v ∧ d' = od_set (b, t) v d.
Proof.
  unfold pv_step. intros (keep & Hk & H)%bind_Ok. apply bind_Ok in Hk as (b1 & H1 & Hk).
  apply field_is_Ok in H1 as (w & Hw & ->). unfold wu_row. destruct (bool_decide_reflect (w = PStr "1")) as [->|Hne]; cycle 1.
  { cbn [py_and] in Hk. injection Hk as <-. injection H as <-. left. split; [done|]. intros b t (Hw' & _). congruence. }
  cbn [py_and] in Hk. apply bind_Ok in Hk as (b2 & H2 & Hk). apply field_is_Ok in H2 as (c & Hc & ->).
  destruct (bool_decide_reflect (c = PStr config)) as [->|Hne]; cycle 1.
  { cbn [py_and] in Hk. injection Hk as <-. injection H as <-. left. split; [done|]. intros b t (_ & Hc' & _). congruence. }
  cbn [py_and] in Hk. apply field_is_Ok in Hk as (ph & Hp & ->).
  destruct (bool_decide_reflect (ph = PStr "page_verify")) as [->|Hne]; cbn [negb] in H; cycle 1.
  { injection H as <-. left. split; [done|]. intros b t (_ & _ & Hp' & _). congruence. }
  apply bind_Ok in H as (b & Hb & H). apply bind_Ok in H as (t & Ht & H). apply bind_Ok in H as (v & Hv & [= <-]).
  right. exists b, t, v. done.
Qed.
Lemma wu_row_fun config b t b' t' p : wu_row config b t p → wu_row config b' t' p → b = b' ∧ t = t'.
Proof. unfold wu_row. intros (_ & _ & _ & H1 & H2) (_ & _ & _ & H3 & H4). split; congruence. Qed.
Lemma pv_map_spec phases config d : _pv_map phases config = Ok d →
  ∀ b t v, od_get (b, t) d = Some v → last_pv config phases b t v.
Proof.
  unfold _pv_map. revert d. induction phases as [|p phases IH] using rev_ind; intros d H b t v Hg.
  { injection H as <-. done. }
  rewrite foldM_app in H. apply bind_Ok in H as (d0 & H0 & H). cbn [foldM] in H. apply bind_Ok in H as (d1 & H1 & [= <-]).
  assert (¬ wu_row config b t p → od_get (b, t) d0 = Some v → last_pv config (phases ++ [p]) b t v) as Hold.
  { intros Hn Ho. destruct (IH d0 H0 b t v Ho) as (pre & q & post & -> & Hq & Hv & Hpost).
    exists pre, q, (post ++ [p]). rewrite <-app_assoc. split_and!; [done|done|done|]. apply Forall_app. split; [done|by repeat constructor]. }
  destruct (pv_step_Ok _ _ _ _ H1) as [[-> Hn]|(b' & t' & v' & Hw & Hv & ->)]; [by apply Hold|].
  rewrite od_get_set in Hg. destruct (decide ((b', t') = (b, t))) as [[= -> ->]|Hne].
  - injection Hg as ->. exists phases, p, []. done.
  - apply Hold; [|done]. intros Hw'. destruct (wu_row_fun _ _ _ _ _ _ Hw Hw'). congruence.
Qed.
Lemma batch_warmups_Ok pv b vs : batch_warmups pv b = Ok vs → ∃ v1 v2 v3, vs = [v1; v2; v3] ∧
  od_get (b, 1) pv = Some v1 ∧ od_get (b, 2) pv = Some v2 ∧ od_get (b, 3) pv = Some v3 ∧
  ∀ t, (b, t) ∈ od_keys pv → 1 <= t <= 3.
Proof.
  unfold batch_warmups. cbv zeta. intros (u & Ht & H)%bind_Ok. apply raise_when_Ok, negb_false_iff, bool_decide_eq_true in Ht.
  rewrite Ht in H. apply mapR_Ok in H.
  apply Forall2_cons_inv_l in H as (v1 & vs1 & H1 & H & ->). apply Forall2_cons_inv_l in H as (v2 & vs2 & H2 & H & ->).
  apply Forall2_cons_inv_l in H as (v3 & vs3 & H3 & H & ->). apply Forall2_nil_inv_l in H as ->.
  apply of_option_Ok in H1, H2, H3. exists v1, v2, v3. split_and!; try done.
  intros t Hin. assert (t ∈ batch_trials_of b pv) as Hb.
  { unfold batch_trials_of. rewrite elem_of_sort_by. apply list_elem_of_omap. exists (b, t). cbn. by rewrite decide_True. }
  rewrite Ht in Hb. assert (t = 1 ∨ t = 2 ∨ t = 3) by set_solver. lia.
Qed.

(** C20. The warm-up join is faithful: its batches are exactly those with a
    safe warm-up run, without repetition; the value at batch [b], position [t]
    is the one of the last page_verify row of trial [t] of the safe warm-ups of
    [b] in phases.csv, for [t] from 1 to 3. *)
Theorem warmup_join_faithful (rev : string) (runs phases : list row) (w : wjoin)
    (Hok : warmup_join rev runs phases = Ok (Some w)) :
  NoDup (wj_batches w) ∧
  (∀ b, b ∈ wj_batches w ↔ ∃ r, r ∈ runs ∧ is_wu r = Ok true ∧ get "batch_id" r = Ok b) ∧
  length (wj_safe w) = length (wj_batches w) ∧
  ∀ i b, wj_batches w !! i = Some b → ∃ v1 v2 v3, wj_safe w !! i = Some [v1; v2; v3] ∧
    last_pv SAFE_ARM phases b 1 v1 ∧ last_pv SAFE_ARM phases b 2 v2 ∧ last_pv SAFE_ARM phases b 3 v3.
Proof.
  unfold warmup_join in Hok. apply bind_Ok in Hok as (wr & Hwr & Hok). destruct wr as [|r0 wr]; [done|].
  apply bind_Ok in Hok as (bs & Hbs & Hok). apply bind_Ok in Hok as (batches & Hb & Hok).
  apply bind_Ok in Hok as (pv & Hpv & Hok). apply bind_Ok in Hok as (safe0 & Hs0 & Hok).
  apply bind_Ok in Hok as (safe & Hs & Hok). apply of_option_Ok in Hs. subst safe0.
  apply bind_Ok in Hok as (mpv & _ & Hok). apply bind_Ok in Hok as (m & _ & Hok). apply bind_Ok in Hok as (by_b & _ & Hok).
  apply bind_Ok in Hok as (gaps & _ & [= <-]). cbn [wj_batches wj_safe].
  assert (batches ≡ₚ bs) as Hperm.
  { unfold sorted_vals in Hb. destruct (_ || _ || _); [|done]. injection Hb as <-. apply sort_by_perm. }
  assert (NoDup bs) as Hnd.
  { unfold distinct in Hbs. apply bind_Ok in Hbs as (vs & _ & [= <-]). apply NoDup_py_set. }
  destruct pv as [|kv pv]; [done|]. unfold _arm_warmups in Hs0. apply bind_Ok in Hs0 as (rows & Hrows & [= ->]).
  apply mapR_Ok in Hrows. split_and!.
  - by rewrite Hperm.
  - intros b. rewrite Hperm, (distinct_spec _ _ _ Hbs). rewrite (filterR_count _ _ _ Hwr).
    setoid_rewrite list_elem_of_filter. naive_solver.
  - symmetry. by eapply Forall2_length.
  - intros i b Hi. destruct (Forall2_lookup_l _ _ _ _ _ Hrows Hi) as (vs & Hvs & Hbw).
    destruct (batch_warmups_Ok _ _ _ Hbw) as (v1 & v2 & v3 & -> & H1 & H2 & H3 & _).
    exists v1, v2, v3. split; [done|]. split_and!; by eapply pv_map_spec.
Qed.
Definition demo_wu_runs : list row := (λ t, od_update st_rec
  [("warmup", PStr "1"); ("trial", PStr t); ("batch_id", PStr "b-1"); ("run_order", PStr t)]) <$> ["1"; "2"; "3"].
Definition demo_wu_phases : list row := (λ t, od_update st_pv
  [("warmup", PStr "1"); ("trial", PStr t)]) <$> ["1"; "2"; "3"].
Definition demo_join : wjoin := Eval vm_compute in
  match warmup_join "demo" demo_wu_runs demo_wu_phases with
  | Ok (Some w) => w
  | _ => {| wj_batches := []; wj_safe := []; wj_m := None; wj_gaps := [] |}
  end.
Lemma warmup_join_faithful_witness :
  warmup_join "demo" demo_wu_runs demo_wu_phases = Ok (Some demo_join) ∧ wj_batches demo_join = [PStr "b-1"] ∧
  ∃ v1 v2 v3, wj_safe demo_join !! 0%nat = Some [v1; v2; v3].
Proof.
  split; [by vm_compute|]. split; [done|].
  destruct (warmup_join_faithful "demo" demo_wu_runs demo_wu_phases demo_join ltac:(by vm_compute)) as (_ & _ & _ & H).
  destruct (H 0%nat (PStr "b-1") eq_refl) as (v1 & v2 & v3 & Hv & _). by exists v1, v2, v3.
Defined.

(** ** The exit status *)
(** The script writes the exhibit exactly when it exits 0 without an
    argument: any [Fail] exits 1 with its message and leaves the exhibit alone,
    the self-test never writes it, and another command line exits 2. *)
Theorem entry_regime_status (git : list string → proc) (root : string) (argv : list string) (w : option string) (o : outcome)
    (Hok : entry_regime git root argv = Ok (w, o)) :
  (is_some w = true ↔ argv = [] ∧ rc o = 0) ∧
  (∀ text, w = Some text → ∃ rows lines, mapR (campaign git) PINS = Ok rows ∧ length rows = 9%nat ∧
     exhibit rows = Ok lines ∧ text = join nl lines) ∧
  (rc o = 0 ∨ rc o = 1 ∨ (rc o = 2 ∧ argv ≠ [] ∧ argv ≠ ["selftest"])).
Proof.
  unfold entry_regime in Hok. destruct argv as [|x argv].
  - destruct (main_exhibit git root) as [[text o']|e] eqn:Em.
    + injection Hok as <- <-. unfold main_exhibit in Em. apply bind_Ok in Em as (rows & Hr & Em).
      apply bind_Ok in Em as (lines & Hl & [= <- <-]). cbn. split_and!; [naive_solver| |by left].
      intros ? [= <-]. exists rows, lines. split_and!; try done. apply mapR_Ok in Hr. by rewrite <-(Forall2_length _ _ _ Hr).
    + destruct e as [[] m| | | | | | | | | | | | | | |]; try done. injection Hok as <- <-. cbn. split_and!; [naive_solver|done|auto].
  - destruct (bool_decide_reflect (x :: argv = ["selftest"])) as [->|Hne].
    + destruct cmd_selftest_regime as [o'|e] eqn:Es.
      * pose proof regime_selftest_passes as H. rewrite Es in H. injection H as H. clear Es.
        injection Hok as <- <-. split_and!; [naive_solver|done|auto].
      * clear Es. destruct e as [[] m| | | | | | | | | | | | | | |]; try done. injection Hok as <- <-. cbn. split_and!; [naive_solver|done|auto].
    + injection Hok as <- <-. cbn. split_and!; [naive_solver|done|auto].
Qed.
Definition no_git (args : list string) : proc := {| returncode := 128; stdout := ""; stderr := "fatal: bad revision" +:+ nl |}.
Lemma entry_regime_status_witness :
  let o := {| rc := 1; out := []; err := ["TEST FAIL: git show baseline-t4.3:results/runs.csv: fatal: bad revision"] |} in
  entry_regime no_git "r" [] = Ok (None, o) ∧ (is_some (None : option string) = true ↔ ([] : list string) = [] ∧ rc o = 0).
Proof.
  split; [by vm_compute|].
  exact (proj1 (entry_regime_status no_git "r" [] None
    {| rc := 1; out := []; err := ["TEST FAIL: git show baseline-t4.3:results/runs.csv: fatal: bad revision"] |}
    ltac:(by vm_compute))).
Defined.
