(* ===== verification/ExhibitPins.v ===== *)
(** * The pins of the report's exhibits (scripts/report-exhibits.py, constants and formatters)

    The git objects, batches and commits each exhibit is generated from, the
    optimization ladder, the exhibit's prose per phase, and the number formats. *)
From S2P Require Import Prelude PyStr PyFloat PyData.

(** ** Pins.  A [frozenset] of strings is the list of its elements. *)
Definition BASELINE_TAG : string := "baseline-t4.3".
Definition AFTER_REV : string := "c40945cdb71b5aef68c5e72e292a718b66ec651e".
Definition BASELINE_BATCHES : list string := ["20260817T041311Z-1"; "20260817T041311Z-2"].
Definition BASELINE_SHA_PREFIX : string := "35861f3".
Definition AFTER_BATCHES : list string := ["20260817T061753Z-1"; "20260817T061753Z-2"].
Definition AFTER_SHA_PREFIX : string := "76830e13".
Definition LADDER_LABEL : string := "superpages".

(** A rung of the ladder; a missing key is [None]. *)
Record rung := { rg_rung : string; rg_decision : string; rg_kind : string; rg_pin : option string; rg_quoted_ms : option num;
                 rg_disposition : option string; rg_phase : option string; rg_reason : option string }.
Definition LADDER_BAR_FRACTION : num := NFlt (float_lit "0.05").
Definition LADDER_RUNGS : list rung :=
  [{| rg_rung := "T4.3 freeze (no rung)"; rg_decision := "D-0055"; rg_kind := "baseline"; rg_pin := Some "baseline";
      rg_quoted_ms := Some (NFlt (float_lit "21.42")); rg_disposition := Some "the origin every Δ below is against; tag `baseline-t4.3`";
      rg_phase := None; rg_reason := None |};
   {| rg_rung := "bump / lazy free-list"; rg_decision := "D-0065"; rg_kind := "landed"; rg_pin := Some "t44";
      rg_quoted_ms := Some (NFlt (float_lit "9.17")); rg_disposition := Some "landed T4.4; pin `t44` ([t44-bump.md](t44-bump.md)); subsumes D-0060";
      rg_phase := None; rg_reason := None |};
   {| rg_rung := "D-0060 allocated counter"; rg_decision := "D-0060"; rg_kind := "declined"; rg_pin := None;
      rg_quoted_ms := None; rg_disposition := None;
      rg_phase := None; rg_reason := Some "declined-by-subsumption (D-0058): the bump representation is the accounting, and a counter on the old list would have left `frame_init` at its freeze cost" |};
   {| rg_rung := "2 MiB superpages"; rg_decision := "D-0059"; rg_kind := "landed"; rg_pin := Some "after";
      rg_quoted_ms := Some (NFlt (float_lit "6.43")); rg_disposition := Some "landed T4.6; pin `c40945c` (the after-ladder columns of [phase-decomposition.md](phase-decomposition.md))";
      rg_phase := None; rg_reason := None |};
   {| rg_rung := "`virtq_init` skip (discarded first program+verify pass)"; rg_decision := "D-0083"; rg_kind := "declined"; rg_pin := None;
      rg_quoted_ms := None; rg_disposition := None;
      rg_phase := Some "virtq_init"; rg_reason := Some "declined as a stopping decision (D-0083 A1), still eligible under D-0058: the gain is a ceiling (`fill_descriptors` stays) and does not move the comparison claim; a reader who takes the rung measures against the current comparison pin and adds a row" |}].

Definition T44_REV : string := "t44".
Definition T44_SHA_PREFIX : string := "83ca9f9".
Definition T44_BATCHES : list string := ["20260817T052349Z-1"; "20260817T052349Z-2"].
Definition D68_RUN1_REV : string := "59e070321ab5ec30ff97830ac3f9f78577511db4".
Definition D68_RUN1_SHA_PREFIX : string := "c40945cd".
Definition D68_RUN1_BATCHES : list string := ["20260818T013740Z-1"; "20260818T013740Z-2"].
Definition D68_RUN2_REV : string := "4755fa3fe2cf98ded4dd333fa81ca66a2b811cfe".
Definition D68_RUN2_SHA_PREFIX : string := "59e07032".
Definition D68_RUN2_BATCHES : list string := ["20260818T014549Z-1"; "20260818T014549Z-2"].
Definition T48_REV : string := "ffb7ac71234e953ae51339a3e1f5e17ba8c3f1b3".
Definition T48_SHA_PREFIX : string := "1005399".
Definition T48_BATCHES : list string := ["20260818T073023Z-1"; "20260818T073023Z-2"].
Definition T48_N_PER_ARM : nat := 60.
Definition T48B_REV : string := "t48b".
Definition T48B_SHA_PREFIX : string := "06687e2".
Definition T48B_BATCHES : list string := ["20260819T142033Z-1"; "20260819T142033Z-2"].
Definition T48B_N_PER_ARM : nat := 60.
Definition T48C_REV : string := "t48c".
Definition T48C_SHA_PREFIX : string := "1c8816e".
Definition T48C_BATCHES : list string := ["20260821T233038Z-1"; "20260821T233038Z-2"].
Definition T48C_N_PER_ARM : nat := 60.
Definition D0081_DELTA_LO_NS : num := NInt (-27000000).
Definition D0081_DELTA_HI_NS : num := NInt (-16000000).
Definition D0078_CANARY_DIVIDE_NS : Z := 14000000.

(** An entry of the lineage: label, rev, batches, commit, trials per arm, exhibit. *)
Record entry := { en_label : string; en_rev : string; en_batches : list string; en_sha_prefix : string; en_n_per_arm : nat;
                  en_exhibit : string }.
Definition COMPARISON_LINEAGE : list entry :=
  [{| en_label := "T4.8"; en_rev := T48_REV; en_batches := T48_BATCHES; en_sha_prefix := T48_SHA_PREFIX;
      en_n_per_arm := T48_N_PER_ARM; en_exhibit := "cross-system.md" |};
   {| en_label := "T4.8b"; en_rev := T48B_REV; en_batches := T48B_BATCHES; en_sha_prefix := T48B_SHA_PREFIX;
      en_n_per_arm := T48B_N_PER_ARM; en_exhibit := "cross-system-t48b.md" |};
   {| en_label := "T4.8c"; en_rev := T48C_REV; en_batches := T48C_BATCHES; en_sha_prefix := T48C_SHA_PREFIX;
      en_n_per_arm := T48C_N_PER_ARM; en_exhibit := "cross-system-t48c.md" |}].
Definition CURRENT_COMPARISON : string := "T4.8c".
Definition T47_REV : string := "c2759e245bf7cbcf23dcf43ac228b73f06bb0960".
Definition T47_SHA_PREFIX : string := "346f4c1".
Definition T47_BATCHES : list string := ["20260820T130700Z-1"; "20260820T130700Z-2"].
Definition T47_N_PER_ARM : nat := 60.
Definition T47B_REV : string := "793680bcd4fe4174ede1ddd3ec80d9e1135b4b2b".
Definition SERIAL_REV : string := "d705ecb8c67350519f9ce4653a4685a89e20e1d4".
Definition LINUX_SERIAL_PATH : string := "results/serial/linux-trimmed-instrumented-20260818T073023Z-1-t04.log".
Definition WHIMBREL_SERIAL_PATH : string := "results/serial/whimbrel-fast-20260818T073023Z-1-t04.log".
Definition LABEL_REV : string := "93ab617676672f6db7a1d076389f9a049678192a".
Definition LABEL_PATH : string := "results/serial/linux-trimmed-ignore-loglevel-20260818T084831Z-initcalls.txt".
Definition FRAGMENT_PATH : string := "bench/linux/linux-trimmed.fragment".
Definition MANIFEST_PATH : string := "bench/linux/MANIFEST".

(** ** Arms, columns and bounds *)
Definition SAFE : string := "release-default".
Definition FAST : string := "release-fast-boot".
Definition M_FAST : string := "m-release-fast-boot".
Definition M_SAFE : string := "m-release-default".
(** (system, config) *)
Definition T48_ARM_ORDER : list (string * string) :=
  [("whimbrel", "release-fast-boot"); ("whimbrel", "release-default"); ("linux", "trimmed"); ("linux", "trimmed-instrumented"); ("linux", "stock")].
Definition CONTROL_TOL_NS : num := NInt 1000000.
Definition T47_ARM_ORDER : list string := [FAST; SAFE; M_FAST; M_SAFE].
Definition T47_OPENSBI : list string := [FAST; SAFE].
Definition T47_SHIM : list string := [M_FAST; M_SAFE].
Definition T47_SEAM_PHASES : list string := ["stvec"; "frame_init"; "E3g"].
Definition CANARY_FIELDS : list string := ["canary_stvec_ns"; "canary_page_verify_ns"].
Definition DS_EXPECT_ABS_NS : num := NInt 200000.
Definition DS_FALSIFY_SLOWER_NS : num := NInt (-300000).
Definition DS_FALSIFY_ABS_NS : num := NInt 3000000.

(** ** The exhibit's phases, in serial order, with its prose *)
Definition PHASE_ORDER : list string :=
  ["_start"; "stamp_a"; "stamp_b"; "stvec"; "frame_init"; "task_init"; "page_build"; "page_verify";
   "activate"; "virtq_init"; "DRIVER_OK"; "first_rx"; "serving_ready"; "net_init_done"; "heap_init"; "accounting";
   "freeze"; "sret"; "syn_rx"; "established"; "E3g"; "E3g_doorbell"].
Definition PHASE_WHAT : odict string string :=
  [("_start", "first kernel instruction (E2); zero-width by construction");
   ("stamp_a", "overhead pair, first stamp");
   ("stamp_b", "overhead pair, second stamp (the floor)");
   ("stvec", "DBCN probe + CSR snapshot + trap install");
   ("frame_init", "allocator init: eager free-list link at baseline; bump pointer after T4.4");
   ("task_init", "fabricate four task frames (three Exited)");
   ("page_build", "Sv39 identity map, mixed 4 KiB / 2 MiB leaves (D-0059)");
   ("page_verify", "full second walk of the map (D-0043 paranoia); grain-aware after D-0059");
   ("activate", "`satp` write + `sfence.vma`");
   ("virtq_init", "first virtqueue program+verify (wiped by later reset)");
   ("DRIVER_OK", "virtio-net reset, second program+verify, DRIVER_OK");
   ("first_rx", "gateway ARP reply arrived (slirp RTT, not kernel)");
   ("serving_ready", "gateway MAC learned; earliest serve point");
   ("net_init_done", "GARP + diagnostic `ping_gateway` done");
   ("heap_init", "kernel heap init (idle in production images)");
   ("accounting", "frames-consumed check: free-list walk at baseline; bump arithmetic after T4.4");
   ("freeze", "`FROZEN` store; safe profile also prints `free_count()`");
   ("sret", "first `sret` to U-mode");
   ("syn_rx", "client SYN arrived (external)");
   ("established", "TCP handshake complete");
   ("E3g", "HTTP response published to the used ring (D-0043)");
   ("E3g_doorbell", "`QueueNotify` store returned (device-model handoff)")].
Definition PHASE_NECESSARY : odict string string :=
  [("_start", "yes — the origin");
   ("stamp_a", "no — instrumentation");
   ("stamp_b", "no — instrumentation");
   ("stvec", "yes — a trap handler");
   ("frame_init", "an allocator, not the O(n) link; T4.4 collapsed it to a bump (D-0065)");
   ("task_init", "yes — U-mode task slots");
   ("page_build", "yes — Sv39");
   ("page_verify", "no — paranoia; kept as its own line (D-0043)");
   ("activate", "yes — paging on");
   ("virtq_init", "no — discarded first pass (finding 4); still above the 5% bar after superpages");
   ("DRIVER_OK", "yes — the NIC; not bundled with virtq_init");
   ("first_rx", "no — slirp RTT");
   ("serving_ready", "ARP wait; not kernel compute");
   ("net_init_done", "no — ping is diagnostic");
   ("heap_init", "no — heap is idle (finding 11)");
   ("accounting", "no — paranoia; T4.4 subsumed the walk (D-0065)");
   ("freeze", "the bool, not a second walk");
   ("sret", "yes — U-mode");
   ("syn_rx", "external arrival");
   ("established", "protocol");
   ("E3g", "yes — the byte");
   ("E3g_doorbell", "the notify; priced separately (D-0056.2)")].

(** ** Formats *)
(** [x / d] for a float literal [d] other than zero. *)
Definition over (d : float) (x : num) : num := NFlt (SFdiv prec emax (num_f x) d).
Definition e6 : float := float_lit "1e6".
Definition e3 : float := float_lit "1e3".
Definition fmt_ns (ns : num) : string :=
  let mag := num_abs ns in
  if num_geb mag (NInt 1000000) then num_fixed 2 (over e6 ns) +:+ " ms"
  else if num_geb mag (NInt 1000) then num_fixed 1 (over e3 ns) +:+ " µs"
  else num_fixed 0 ns +:+ " ns".
Definition num_zerob (x : num) : bool := num_eqb x (NInt 0).
Definition fmt_delta (ns : num) : string :=
  if num_zerob ns then "0" else (if num_ltb ns (NInt 0) then "−" else "+") +:+ fmt_ns (num_abs ns).
Definition fmt_ratio (n d : num) : res string :=
  _ ← raise_when (num_zerob d) (ExhibitFail "TEST FAIL: ratio denominator is 0");
  q ← num_truediv n d; Ok (num_fixed 1 q +:+ "×").
Definition fmt_ms3 (ns : num) : string := num_fixed 3 (over e6 ns) +:+ " ms".
Definition fmt_signed_ms3 (ns : num) : string :=
  if num_zerob ns then "0.000 ms"
  else (if num_ltb ns (NInt 0) then "−" else "+") +:+ num_fixed 3 (over e6 (num_abs ns)) +:+ " ms".
Definition fmt_ms2 (ns : num) : string := num_fixed 2 (over e6 ns) +:+ " ms".
Definition fmt_us_ms1 (usecs : Z) : string := num_fixed 1 (over (float_lit "1000.0") (NInt usecs)) +:+ " ms".
Definition md_cell (s : string) : string := replace "|" (bslash +:+ "|") s.
(** [f"{x:+.0f}"] *)
Definition fmt_plus0 (x : num) : string := (if fsign (num_f x) then "" else "+") +:+ num_fixed 0 x.
(** [s[:12]] of a git revision, [sorted(batches)[i]] *)
Definition short12 (s : string) : string := slice 0 12 s.
Definition batch_nth (i : nat) (batches : list string) : string := nth i (sorted_strs batches) "".
(** [", ".join(sorted(batches))] *)
Definition batch_list (batches : list string) : string := join ", " (sorted_strs batches).

(** Dividing by a nonzero literal never raises. *)
Lemma over_truediv d x : is_fzero d = false → num_truediv x (NFlt d) = Ok (over d x).
Proof. intros Hd. destruct x; cbn; unfold fdiv; by rewrite Hd. Qed.
