(* ===== verification/ExhibitFixtures.v ===== *)
(** * The self-test's fixtures (scripts/report-exhibits.py, cmd_selftest)

    The clean campaigns the self-test plants its faults in: an old-schema pin, a
    five-arm campaign with its MANIFEST, the two firmware lanes, and the pins of
    the bump, ladder and alias exhibits.  The theorems take their witnesses here. *)
From S2P Require Import Prelude PyStr PyFloat PyData ExhibitPins.

(** [dict(r, k=v)], [del r[k]], [r["config"]], [dict(r, k=v) if p(r) else dict(r)] *)
Definition with_ (k v : string) (r : row) : row := od_set k (PStr v) r.
Definition without (k : string) (r : row) : row := filter (λ kv, kv.1 ≠ k) r.
Definition config_is (cfg : string) (r : row) : bool := is_str (get_or "config" PNone r) cfg.
Definition batch_is (b : string) (r : row) : bool := is_str (get_or "batch_id" PNone r) b.
Definition phase_is_ (ph : string) (r : row) : bool := is_str (get_or "phase" PNone r) ph.
Definition shim_row (r : row) : bool := existsb (λ c, config_is c r) T47_SHIM.
Definition where_ (p : row → bool) (f : row → row) (rows : list row) : list row := (λ r, if p r then f r else r) <$> rows.
Definition only (p : row → bool) (rows : list row) : list row := filter (λ r, p r = true) rows.
(** Changes the first row. *)
Definition on_first (f : row → row) (rows : list row) : list row :=
  match rows with r :: rows => f r :: rows | [] => [] end.
Definition texts (l : list (string * string)) : row := (λ kv : string * string, (kv.1, PStr kv.2)) <$> l.
Definition sixtyfour (s : string) : string := str_repeat 64 s.

(** ** An old-schema pin *)
Definition fix_batches : list string := ["b-1"; "b-2"].
Definition fix_sha : string := "abc1234deadbeef".
Definition fix_n : nat := 2.
Definition old_run (over : list (string * string)) : row :=
  od_update (texts [("batch_id", "b-1"); ("trial", "1"); ("warmup", "0"); ("system", "whimbrel"); ("config", SAFE);
    ("git_sha", fix_sha); ("dirty", "0"); ("steal_ticks", "0"); ("virt", "none"); ("governor", "performance");
    ("smt_control", "off"); ("cpufreq_boost", "0"); ("e0_to_e3w_ns", "1"); ("e0_to_e4_ns", "1");
    ("e0_to_first_connect_ns", "1")]) (texts over).
Definition e3g_row (batch trial cfg : string) : row :=
  texts [("batch_id", batch); ("trial", trial); ("warmup", "0"); ("config", cfg); ("phase", "E3g")].
Definition old_pairs : list (string * string) := b ← fix_batches; cfg ← [SAFE; FAST]; [(b, cfg)].
Definition old_runs : list row :=
  (λ bc : string * string, old_run [("batch_id", bc.1); ("trial", "1"); ("config", bc.2)]) <$> old_pairs.
Definition old_phases : list row := (λ bc : string * string, e3g_row bc.1 "1" bc.2) <$> old_pairs.

(** ** A five-arm campaign *)
Definition stock_h : string := sixtyfour "a".
Definition trim_h : string := sixtyfour "b".
Definition man_of (stock : string) : string := unterminated
  ["artifact Image-stock " +:+ stock; "artifact Image-trimmed " +:+ trim_h; "artifact rootfs.cpio " +:+ sixtyfour "c";
   "artifact init " +:+ sixtyfour "d"].
Definition man_text : string := man_of stock_h.
Definition t48_batches : list string := ["t-1"; "t-2"].
Definition t48_n : nat := 2.
Definition new_run (over : list (string * string)) : row :=
  od_update (texts [("batch_id", "t-1"); ("trial", "1"); ("warmup", "0"); ("system", "whimbrel"); ("config", FAST);
    ("git_sha", "1005399fixture"); ("dirty", "0"); ("steal_ticks", "0"); ("virt", "none"); ("governor", "performance");
    ("smt_control", "off"); ("cpufreq_boost", "0"); ("kernel_sha256", sixtyfour "k"); ("w_ns", "1"); ("d_ack_ns", "1");
    ("d_fin_ns", "1"); ("e0_to_e4_ns", "45000000"); ("e0_to_first_connect_ns", "18500000")]) (texts over).
Definition fix_hash (cfg : string) : string :=
  default (sixtyfour "k") (od_get cfg [("stock", stock_h); ("trimmed", trim_h); ("trimmed-instrumented", trim_h)]).
Definition fix_e4 (cfg : string) : string := default "45000000" (od_get cfg [("stock", "50000000"); ("trimmed", "40000000")]).
Definition t48_pairs : list (string * (string * string)) := b ← t48_batches; arm ← T48_ARM_ORDER; [(b, arm)].
Definition t_runs : list row :=
  (λ p : string * (string * string), let '(b, (sys, cfg)) := p in
     new_run [("batch_id", b); ("trial", "1"); ("system", sys); ("config", cfg); ("kernel_sha256", fix_hash cfg);
              ("e0_to_e4_ns", fix_e4 cfg)]) <$> t48_pairs.
Definition t_ph : list row :=
  (λ p : string * (string * string), texts [("batch_id", p.1); ("trial", "1"); ("warmup", "0"); ("config", p.2.2);
     ("phase", "E3g"); ("system", "whimbrel")])
  <$> filter (λ p : string * (string * string), p.2.2 = FAST ∨ p.2.2 = SAFE) t48_pairs.
Definition quiet_line (tail : string) : string := "append quiet console=ttyS0 quiet loglevel=0 rdinit=/init" +:+ tail.
Definition instrumented_line (tail : string) : string :=
  "append instrumented console=ttyS0 loglevel=7 printk.time=1 initcall_debug rdinit=/init" +:+ tail.
Definition skip_token : string := " unaligned_scalar_speed=fast".
Definition t48c_man : string := man_text +:+ unterminated [quiet_line skip_token; instrumented_line skip_token].
Definition with_canary (stvec pv : string) (rows : list row) : list row :=
  (λ r, with_ "canary_page_verify_ns" pv (with_ "canary_stvec_ns" stvec r)) <$> rows.
Definition c_runs : list row := with_canary "1000000" "12000000" t_runs.
Definition t48_phases_for_write (safe_stvec safe_pv : string) (ph : list row) : list row :=
  p ← ph;
  let r := with_ "delta_ns" "700000" (with_ "ns_since_e2" "6400000" p) in
  r :: (if config_is SAFE r && phase_is_ "E3g" r
        then [with_ "delta_ns" safe_stvec (with_ "phase" "stvec" r); with_ "delta_ns" safe_pv (with_ "phase" "page_verify" r)]
        else []).
Definition t48b_for_delta : list row :=
  where_ (config_is "trimmed") (with_ "e0_to_e4_ns" "60000000")
    (where_ (config_is "stock") (with_ "e0_to_e4_ns" "70000000") t_runs).

(** ** The two firmware lanes *)
Definition t47_batches : list string := ["g-1"; "g-2"].
Definition t47_n : nat := 2.
Definition t47_e4 : odict string string := [(FAST, "50000000"); (SAFE, "140000000"); (M_FAST, "27000000"); (M_SAFE, "120000000")].
Definition t47_w : odict string string := [(FAST, "25000000"); (SAFE, "25000000"); (M_FAST, "2000000"); (M_SAFE, "2000000")].
Definition t47_e2 : odict string string := [(FAST, "6400000"); (SAFE, "90000000"); (M_FAST, "5700000"); (M_SAFE, "80000000")].
Definition t47_run (batch cfg : string) : row :=
  texts [("batch_id", batch); ("trial", "1"); ("warmup", "0"); ("system", "whimbrel"); ("config", cfg);
    ("git_sha", "346f4c1fixture"); ("dirty", "0"); ("steal_ticks", "0"); ("virt", "none"); ("governor", "performance");
    ("smt_control", "off"); ("cpufreq_boost", "0"); ("w_ns", default "" (od_get cfg t47_w)); ("d_ack_ns", "1");
    ("d_fin_ns", "100000"); ("synack_to_http_ns", "500000"); ("e0_to_e4_ns", default "" (od_get cfg t47_e4));
    ("e0_to_first_connect_ns", "18500000"); ("canary_stvec_ns", "1000000"); ("canary_page_verify_ns", "12000000");
    ("bios_sha256", if bool_decide (cfg ∈ T47_SHIM) then sixtyfour "c" else "")].
Definition t47_phase (batch cfg phase since delta : string) : row :=
  texts [("batch_id", batch); ("trial", "1"); ("warmup", "0"); ("config", cfg); ("phase", phase); ("ns_since_e2", since);
         ("delta_ns", delta)].
Definition t47_pairs : list (string * string) := b ← t47_batches; cfg ← T47_ARM_ORDER; [(b, cfg)].
Definition g_runs : list row := (λ bc : string * string, t47_run bc.1 bc.2) <$> t47_pairs.
Definition g_ph : list row :=
  bc ← t47_pairs;
  t47_phase bc.1 bc.2 "E3g" (default "" (od_get bc.2 t47_e2)) "700000" ::
  (if bool_decide (bc.2 ∈ [FAST; M_FAST])
   then [t47_phase bc.1 bc.2 "stvec" "200000" "200000"; t47_phase bc.1 bc.2 "frame_init" "300000" "100000"] else []).

(** ** Pins of the bump, ladder and alias exhibits *)
Definition t44_run (cfg batch : string) : row :=
  texts [("batch_id", batch); ("trial", "1"); ("warmup", "0"); ("config", cfg); ("e0_to_e4_ns", "2000")].
Definition t44_phase_row (cfg batch phase : string) : row :=
  texts [("batch_id", batch); ("trial", "1"); ("warmup", "0"); ("config", cfg); ("phase", phase); ("delta_ns", "100");
         ("ns_since_e2", "1000")].
Definition t44_fix_phases : list string := ["frame_init"; "accounting"; "page_verify"; "E3g"; "freeze"].
Definition t44_fix_rec : list row := cfg ← [FAST; SAFE]; b ← ["y-1"; "y-2"]; [t44_run cfg b].
Definition t44_fix_ph : list row := cfg ← [FAST; SAFE]; b ← ["y-1"; "y-2"]; ph ← t44_fix_phases; [t44_phase_row cfg b ph].
Definition lad_phase (cfg batch phase : string) (since_ns delta_ns : Z) : row :=
  texts [("batch_id", batch); ("trial", "1"); ("warmup", "0"); ("config", cfg); ("phase", phase);
         ("delta_ns", str_of_Z delta_ns); ("ns_since_e2", str_of_Z since_ns)].
Definition lad_pin (e3g_since_ns virtq_delta_ns : Z) : list row * list row :=
  (cfg ← [FAST; SAFE]; b ← ["l-1"; "l-2"]; [t44_run cfg b],
   (cfg ← [FAST; SAFE]; b ← ["l-1"; "l-2"]; [lad_phase cfg b "E3g" e3g_since_ns 100])
   ++ (cfg ← [FAST; SAFE]; b ← ["l-1"; "l-2"]; [lad_phase cfg b "virtq_init" 500 virtq_delta_ns])).
Definition lad_base : list row * list row := lad_pin 21420000 850500.
Definition lad_t44 : list row * list row := lad_pin 9170000 845400.
Definition lad_after : list row * list row := lad_pin 6430000 842000.
Definition lad_cur : list row :=
  (λ b, texts [("batch_id", b); ("warmup", "0"); ("system", "whimbrel"); ("config", FAST); ("e0_to_e4_ns", "51950000")])
  <$> ["l-1"; "l-2"].
Definition lad_entry : entry :=
  {| en_label := "T4.Xl"; en_rev := "fixture-rev"; en_batches := ["l-1"; "l-2"]; en_sha_prefix := "cafe"; en_n_per_arm := 2;
     en_exhibit := "x.md" |}.
Definition alias_run (sysname cfg batch : string) : row :=
  texts [("batch_id", batch); ("warmup", "0"); ("system", sysname); ("config", cfg); ("git_sha", "cafe1234deadbeef");
         ("e0_to_e4_ns", "1000"); ("d_fin_ns", "10")].
Definition alias_entry : entry :=
  {| en_label := "T4.Xf"; en_rev := "fixture-rev"; en_batches := ["x-1"; "x-2"]; en_sha_prefix := "cafe1234";
     en_n_per_arm := 2; en_exhibit := "cross-system-fixture.md" |}.
Definition alias_rec : list row := arm ← T48_ARM_ORDER; b ← ["x-1"; "x-2"]; [alias_run arm.1 arm.2 b].
