(* ===== verification/ExhibitGates.v ===== *)
(** * The gates of the report's exhibits (scripts/report-exhibits.py)

    Reading a pin through git, and the validators a campaign passes before an
    exhibit is made of it: [validate] (the old-schema pins), [validate_t48] and
    [validate_t48c] (the five-arm campaigns) and [validate_t47] (the two firmware
    lanes).  What git answers is a parameter. *)
From S2P Require Import Prelude PyStr PyFloat PyData PyCsv PcapHttp PinGates ExhibitPins ExhibitFixtures.

Section over_git.
(** [git args]: the process [git args] ends as. *)
Context (git : list string → proc).
Definition git_show (rev path : string) : res string :=
  let p := git ["show"; rev +:+ ":" +:+ path] in
  if negb (returncode p =? 0) then
    let e := strip (stderr p) in let o := strip (stdout p) in
    let err := if negb (String.eqb e "") then e else if negb (String.eqb o "") then o else "git show failed" in
    Err (ExhibitFail ("TEST FAIL: git show " +:+ rev +:+ ":" +:+ path +:+ ": " +:+ err))
  else if String.eqb (stdout p) "" then Err (ExhibitFail ("TEST FAIL: git show " +:+ rev +:+ ":" +:+ path +:+ " was empty"))
  else Ok (stdout p).
End over_git.
Definition read_csv_text (text label : string) : res (list row) :=
  rows ← csv_dicts false text;
  _ ← raise_when (match rows with [] => true | _ => false end) (ExhibitFail ("TEST FAIL: empty CSV (" +:+ label +:+ ")"));
  Ok rows.

(** ** Statistics *)
Definition percentile (sorted_vals : list num) (p : float) : res num :=
  let n := Z.of_nat (length sorted_vals) in
  _ ← raise_when (n =? 0) (ExhibitFail "TEST FAIL: percentile of empty list");
  let k := fmul (float_of_Z (n - 1)) p in
  f ← py_trunc k;
  percentile_at sorted_vals k f (Z.min (f + 1) (n - 1)).
Definition iqr (vals : list num) : res num :=
  let s := num_sorted vals in
  a ← percentile s (float_lit "0.75"); b ← percentile s (float_lit "0.25"); Ok (num_sub a b).

(** ** Schema *)
Inductive schema := Old | New.
Definition new_cols : list string := ["w_ns"; "d_ack_ns"; "d_fin_ns"].
Definition runs_schema (fieldnames : list string) : res schema :=
  let has c := bool_decide (c ∈ fieldnames) in
  let has_e3w := has "e0_to_e3w_ns" in
  let has_new := forallb has new_cols in
  _ ← raise_when (has_e3w && has_new) (ExhibitFail
        "TEST FAIL: mixed runs.csv schema (e0_to_e3w_ns and w_ns/d_ack_ns/d_fin_ns both present)");
  if has_e3w then
    match filter (λ c, has c = true) new_cols with
    | [] => Ok Old
    | extra => Err (ExhibitFail ("TEST FAIL: mixed runs.csv schema (e0_to_e3w_ns with partial new columns "
                                 +:+ repr_strs (sorted_strs extra) +:+ ")"))
    end
  else if has_new then Ok New
  else Err (ExhibitFail "TEST FAIL: incomplete runs.csv schema (need e0_to_e3w_ns without w_ns/d_ack_ns/d_fin_ns, or w_ns/d_ack_ns/d_fin_ns without e0_to_e3w_ns)").
#[export] Instance schema_eq_dec : EqDecision schema.
Proof. solve_decision. Defined.
(** [runs_schema(runs[0].keys()) != want: raise] *)
Definition check_schema (runs : list row) (want : schema) (msg : string) : res unit :=
  r0 ← of_option IndexError (head runs);
  s ← runs_schema (od_keys r0);
  raise_when (negb (bool_decide (s = want))) (ExhibitFail msg).

(** ** The old-schema pins *)
Definition steal_msg (label : string) (steal : list Z) : string :=
  "TEST FAIL: nonzero steal_ticks in recorded " +:+ label +:+ " (nonzero="
  +:+ str_of_nat (length (filter (λ s, s ≠ 0) steal)) +:+ "/" +:+ str_of_nat (length steal) +:+ ")".
Definition check_recorded_steal (label : string) (rec : list row) : res unit :=
  check_steal ExhibitFail rec (steal_msg label).
Definition validate (runs phases : list row) (want_batches : list string) (want_sha_prefix label : string)
    (n_per_cfg : nat) : res unit :=
  rec ← recorded runs;
  _ ← check_schema runs Old ("TEST FAIL: " +:+ label
        +:+ " is not old-schema (historical pins keep e0_to_e3w_ns; T4.8 is a different pin)");
  _ ← check_batches ExhibitFail label runs want_batches;
  _ ← check_sha ExhibitFail label rec want_sha_prefix;
  _ ← check_clean ExhibitFail label rec;
  _ ← check_values ExhibitFail "config" rec [SAFE; FAST] (λ s, "TEST FAIL: " +:+ label +:+ " configs " +:+ s
        +:+ " want " +:+ SAFE +:+ ", " +:+ FAST);
  _ ← forM_ (check_count ExhibitFail label rec n_per_cfg) [SAFE; FAST];
  _ ← check_recorded_steal label rec;
  _ ← check_total ExhibitFail label rec (n_per_cfg * 2);
  _ ← forM_ (check_host ExhibitFail label rec) HOST_FIELDS;
  check_e3g ExhibitFail label "E3g" rec phases (n_per_cfg * 2).

(** ** The MANIFEST *)
Definition manifest_artifact (artifacts : odict string string) (raw : string) : odict string string :=
  let line := strip raw in
  if String.eqb line "" || startswith line "#" then artifacts else
  match split_ws line with
  | [a; name; sha] => if String.eqb a "artifact" then od_set name sha artifacts else artifacts
  | _ => artifacts
  end.
Definition ARTIFACTS : list string := ["Image-stock"; "Image-trimmed"; "rootfs.cpio"; "init"].
Definition parse_linux_manifest (text : string) : res (odict string string) :=
  let artifacts := foldl manifest_artifact [] (splitlines text) in
  match filter (λ n, od_in n artifacts = false) ARTIFACTS with
  | [] => Ok artifacts
  | missing => Err (ExhibitFail ("TEST FAIL: MANIFEST missing " +:+ repr_strs missing))
  end.
(** [line.split(None, 2)] of a stripped line: two words and the rest. *)
Definition split_ws2 (line : string) : list string :=
  let l := drop_while is_space (to_l line) in
  let w1 := take_while (λ a, negb (is_space a)) l in
  let l := drop_while is_space (drop_while (λ a, negb (is_space a)) l) in
  let w2 := take_while (λ a, negb (is_space a)) l in
  let l := drop_while is_space (drop_while (λ a, negb (is_space a)) l) in
  of_l <$> filter (λ w, w ≠ []) [w1; w2; l].
Definition manifest_append (appends : odict string string) (raw : string) : res (odict string string) :=
  let line := strip raw in
  if negb (startswith line "append ") then Ok appends else
  match split_ws2 line with
  | [_; kind; rest] => Ok (od_set kind rest appends)
  | _ => Err (ExhibitFail ("TEST FAIL: malformed MANIFEST append: " +:+ line))
  end.
Definition parse_linux_manifest_appends (text : string) : res (odict string string) :=
  foldM manifest_append [] (splitlines text).

(** ** The five-arm campaigns *)
(** [[r for r in rec if r["config"] == cfg]] *)
Definition config_rows (rec : list row) (cfg : string) : res (list row) := filterR (has_config cfg) rec.
(** [[float(r[field]) for r in rec if r["config"] == cfg]] *)
Definition float_of (field : string) (r : row) : res num := NFlt <$> get_float field r.
Definition config_floats (rec : list row) (cfg field : string) : res (list num) :=
  filtered ← mapR (λ r, b ← has_config cfg r; if b : bool then v ← float_of field r; Ok [v] else Ok []) rec;
  Ok (List.concat filtered).
Definition check_system (label : string) (rec : list row) (cfg sys : string) : res unit :=
  rows ← config_rows rec cfg;
  check_values ExhibitFail "system" rows [sys] (λ s, "TEST FAIL: " +:+ label +:+ " " +:+ cfg +:+ " system " +:+ s
    +:+ " want " +:+ sys).
Definition check_arm (label : string) (rec : list row) (n : nat) (arm : string * string) : res unit :=
  _ ← check_count ExhibitFail label rec n arm.2; check_system label rec arm.2 arm.1.
Definition T48_IMAGES : list (string * string) :=
  [("stock", "Image-stock"); ("trimmed", "Image-trimmed"); ("trimmed-instrumented", "Image-trimmed")].
Definition check_image (label : string) (rec : list row) (man : odict string string) (ci : string * string) : res unit :=
  rows ← config_rows rec ci.1;
  want ← of_option (KeyError (repr_str ci.2)) (od_get ci.2 man);
  check_values ExhibitFail "kernel_sha256" rows [want] (λ s, "TEST FAIL: " +:+ label +:+ " " +:+ ci.1
    +:+ " kernel_sha256 " +:+ s +:+ " want MANIFEST " +:+ ci.2 +:+ "=" +:+ want).
(** The spread of the arms' first-connect medians. *)
Definition check_control (label : string) (rec : list row) (cfgs : list string) : res unit :=
  conn_meds ← mapR (λ cfg, vals ← config_floats rec cfg "e0_to_first_connect_ns"; median vals) cfgs;
  hi ← num_max conn_meds; lo ← num_min conn_meds;
  let span := num_sub hi lo in
  raise_when (num_gtb span CONTROL_TOL_NS) (ExhibitFail ("TEST FAIL: " +:+ label +:+ " first-connect medians span "
    +:+ num_fixed 0 span +:+ " ns (> 1 ms): " +:+ repr_list (num_repr <$> conn_meds))).
(** The trimmed arm must be faster than the stock arm. *)
Definition check_tripwire (label : string) (rec : list row) : res unit :=
  e4 ← mapR (λ arm : string * string, vals ← config_floats rec arm.2 "e0_to_e4_ns"; m ← median vals; Ok (arm.2, m)) T48_ARM_ORDER;
  trimmed ← of_option (KeyError "'trimmed'") (od_get "trimmed" e4);
  stock ← of_option (KeyError "'stock'") (od_get "stock" e4);
  raise_when (num_geb trimmed stock) (ExhibitFail ("TEST FAIL: " +:+ label +:+ " trimmed E0→E4 " +:+ num_fixed 0 trimmed
    +:+ " ns ≥ stock " +:+ num_fixed 0 stock +:+ " ns (tripwire; trimmed is not published)")).
Definition is_linux_phase (p : row) : res bool :=
  w ← get_int "warmup" p; Ok ((w =? 0) && is_str (get_or "system" PNone p) "linux").
Definition on_whimbrel (p : row) : res bool := c ← get "config" p; Ok (is_str c FAST || is_str c SAFE).
Definition sorted_reprs (l : list string) : string := repr_strs (sorted_strs l).
Definition validate_t48 (runs phases : list row) (batches : list string) (sha_prefix : string) (n_per_arm : nat)
    (label : string) (manifest_text : res string) : res unit :=
  _ ← check_schema runs New ("TEST FAIL: " +:+ label +:+ " is not new-schema");
  rec ← recorded runs;
  _ ← check_batches ExhibitFail label runs batches;
  _ ← check_sha ExhibitFail label rec sha_prefix;
  _ ← check_clean ExhibitFail label rec;
  _ ← check_values ExhibitFail "config" rec T48_ARM_ORDER.*2 (λ s, "TEST FAIL: " +:+ label +:+ " configs " +:+ s
        +:+ " want " +:+ sorted_reprs T48_ARM_ORDER.*2);
  _ ← forM_ (check_arm label rec n_per_arm) T48_ARM_ORDER;
  _ ← check_recorded_steal label rec;
  _ ← check_total ExhibitFail label rec (n_per_arm * length T48_ARM_ORDER);
  _ ← forM_ (check_host_value ExhibitFail label rec) HOST_FIELDS;
  text ← manifest_text;
  man ← parse_linux_manifest text;
  _ ← forM_ (check_image label rec man) T48_IMAGES;
  _ ← check_control label rec T48_ARM_ORDER.*2;
  _ ← check_tripwire label rec;
  rec_keys ← mapR trial_key_of rec;
  linux_ph ← filterR is_linux_phase phases;
  _ ← raise_when (negb (length linux_ph =? 0)%nat) (ExhibitFail ("TEST FAIL: " +:+ label +:+ " has "
        +:+ str_of_nat (length linux_ph) +:+ " Linux PHASE rows (Linux writes none)"));
  e3g ← filterR (recorded_phase "E3g" on_whimbrel rec_keys) phases;
  raise_when (negb (length e3g =? n_per_arm * 2)%nat) (ExhibitFail ("TEST FAIL: " +:+ label +:+ " has "
    +:+ str_of_nat (length e3g) +:+ " recorded Whimbrel E3g rows, want " +:+ str_of_nat (n_per_arm * 2))).

(** ** Canaries and the serial regime *)
(** [v in (None, "")] *)
Definition is_blank (v : pyval) : bool := py_eqb v PNone || is_str v "".
(** [tuple(r.get(f, "") for f in CANARY_FIELDS)] *)
Definition canary_pair (r : row) : list pyval := (λ f, get_or f (PStr "") r) <$> CANARY_FIELDS.
Definition check_canary_columns (runs : list row) (msg : string → string) : res unit :=
  forM_ (λ field, r0 ← of_option IndexError (head runs);
                  raise_when (negb (od_in field r0)) (ExhibitFail (msg field))) CANARY_FIELDS.
(** The two values of a canary, as ints. *)
Definition canary_ints (cp : list pyval) : res (Z * Z) :=
  match cp with
  | [stvec; pv] => s ← py_int stvec; p ← py_int pv; Ok (s, p)
  | _ => Err ValueError
  end.
Definition campaign_canary (runs : list row) (label : string) : res (Z * Z) :=
  rec ← recorded runs;
  _ ← check_canary_columns runs (λ field, "TEST FAIL: " +:+ label +:+ " missing canary column " +:+ field);
  _ ← forM_ (λ r, raise_when (existsb is_blank (canary_pair r))
                    (ExhibitFail ("TEST FAIL: " +:+ label +:+ " empty canary columns"))) rec;
  match py_set (canary_pair <$> rec) with
  | [cp] => canary_ints cp
  | pairs => Err (ExhibitFail ("TEST FAIL: " +:+ label +:+ " has " +:+ str_of_nat (length pairs) +:+ " canary values, want 1"))
  end.
(** The median delta of a phase over the recorded trials of an arm. *)
Definition config_keys (rec : list row) (cfg : string) : res (list trial_key) :=
  rows ← config_rows rec cfg; mapR trial_key_of rows.
Definition phase_floats (field : string) (keep : row → res bool) (phases : list row) : res (list num) :=
  ls ← mapR (λ p, b ← keep p; if b : bool then v ← float_of field p; Ok [v] else Ok []) phases;
  Ok (List.concat ls).
Definition phase_median_delta (rec phases : list row) (config phase : string) : res num :=
  keys ← config_keys rec config;
  vals ← phase_floats "delta_ns" (recorded_phase phase (has_config config) keys) phases;
  match vals with
  | [] => Err (ExhibitFail ("TEST FAIL: no " +:+ phase +:+ " deltas for " +:+ config))
  | _ => median vals
  end.
Definition filled_pairs (rec : list row) : list (list pyval) :=
  filter (λ p, forallb (λ v, negb (is_blank v)) p = true) (canary_pair <$> rec).
Definition serial_witness (rec phases : list row) (label : string) : res (Z * Z * string) :=
  let filled := match rec with
                | r0 :: _ => if od_in "canary_stvec_ns" r0 then filled_pairs rec else []
                | [] => []
                end in
  match py_set filled with
  | [] =>
    stvec ← phase_median_delta rec phases SAFE "stvec";
    pv ← phase_median_delta rec phases SAFE "page_verify";
    s ← py_trunc (num_f stvec); p ← py_trunc (num_f pv);
    Ok (s, p, "safe-arm phase medians; this pin has no filled canary columns")
  | [cp] => '(s, p) ← canary_ints cp; Ok (s, p, "canary columns")
  | _ => Err (ExhibitFail ("TEST FAIL: " +:+ label +:+ " mixed canary values"))
  end.
Definition d0078_regime (page_verify_ns : Z) : string :=
  if D0078_CANARY_DIVIDE_NS <=? page_verify_ns then "inflated" else "deflated".

(** ** T4.8c: the five-arm shape plus D-0081 *)
Definition SKIP_PROBE : string := "unaligned_scalar_speed=fast".
Definition check_append (label : string) (appends : odict string string) (kind : string) : res unit :=
  let got := default "" (od_get kind appends) in
  raise_when (negb (str_in SKIP_PROBE got)) (ExhibitFail ("TEST FAIL: " +:+ label +:+ " MANIFEST append " +:+ kind
    +:+ " missing " +:+ SKIP_PROBE +:+ ": " +:+ repr_str got)).
Definition check_artifact (label : string) (here before : odict string string) (name : string) : res unit :=
  h ← of_option (KeyError (repr_str name)) (od_get name here);
  b ← of_option (KeyError (repr_str name)) (od_get name before);
  raise_when (negb (String.eqb h b)) (ExhibitFail ("TEST FAIL: " +:+ label +:+ " MANIFEST " +:+ name +:+ " " +:+ h
    +:+ " != t48b " +:+ b +:+ " (D-0081 falsifier 4)")).
Definition before_value (cfg : string) (r : row) : res (list num) :=
  b ← has_config cfg r;
  if negb b then Ok [] else
  w ← py_int (get_or "warmup" (PStr "0") r);
  if w =? 0 then v ← float_of "e0_to_e4_ns" r; Ok [v] else Ok [].
Definition check_delta (label : string) (rec t48b_rec : list row) (cfg : string) : res unit :=
  vals ← config_floats rec cfg "e0_to_e4_ns";
  after ← median vals;
  ls ← mapR (before_value cfg) t48b_rec;
  let before_vals := List.concat ls in
  _ ← raise_when (match before_vals with [] => true | _ => false end)
        (ExhibitFail ("TEST FAIL: " +:+ label +:+ " no t48b " +:+ cfg +:+ " rows for Δ"));
  before ← median before_vals;
  let delta := num_sub after before in
  raise_when (num_ltb delta D0081_DELTA_LO_NS || num_gtb delta D0081_DELTA_HI_NS)
    (ExhibitFail ("TEST FAIL: " +:+ label +:+ " " +:+ cfg +:+ " Δ vs t48b " +:+ num_fixed 2 (over e6 delta)
                  +:+ " ms outside D-0081 [-27, -16] ms")).
Definition validate_t48c (runs phases : list row) (batches : list string) (sha_prefix : string) (n_per_arm : nat)
    (label : string) (manifest_text : res string) (t48b_rec : option (list row)) (t48b_manifest : option string) : res unit :=
  man_text ← manifest_text;
  _ ← validate_t48 runs phases batches sha_prefix n_per_arm label (Ok man_text);
  _ ← campaign_canary runs label;
  appends ← parse_linux_manifest_appends man_text;
  _ ← forM_ (check_append label appends) ["quiet"; "instrumented"];
  _ ← match t48b_manifest with
      | None => Ok tt
      | Some text => here ← parse_linux_manifest man_text; before ← parse_linux_manifest text;
                     forM_ (check_artifact label here before) ARTIFACTS
      end;
  match t48b_rec with
  | None => Ok tt
  | Some t48b_rec => rec ← recorded runs; forM_ (check_delta label rec t48b_rec) ["trimmed"; "stock"]
  end.

(** ** S, and the stability of an arm *)
Definition s_trial_ns (r : row) : res num :=
  _ ← forM_ (λ key, raise_when (is_blank (get_or key PNone r)) (ExhibitFail ("TEST FAIL: missing " +:+ key +:+ " for S")))
        ["e0_to_e4_ns"; "e0_to_first_connect_ns"; "w_ns"; "synack_to_http_ns"; "d_fin_ns"];
  e4 ← float_of "e0_to_e4_ns" r; fc ← float_of "e0_to_first_connect_ns" r;
  w ← float_of "w_ns" r; syn ← float_of "synack_to_http_ns" r; fin ← float_of "d_fin_ns" r;
  Ok (num_sub (num_sub e4 fc) (num_add (num_add w syn) fin)).
Definition s_vals (rec : list row) (config : string) : res (list num) :=
  ls ← mapR (λ r, b ← has_config config r; if b : bool then s ← s_trial_ns r; Ok [s] else Ok []) rec;
  match List.concat ls with
  | [] => Err (ExhibitFail ("TEST FAIL: no S values for " +:+ config))
  | vals => Ok vals
  end.
(** [{(r["batch_id"], r["trial"]) for r in rec if ...}] of an arm, and of one batch of it. *)
Abbreviation pair_key := (pyval * pyval)%type.
Definition pair_key_of (r : row) : res pair_key := b ← get "batch_id" r; t ← get "trial" r; Ok (b, t).
Definition in_arm (config : string) (batch : option pyval) (r : row) : res bool :=
  b ← has_config config r;
  py_and b (match batch with None => Ok true | Some b => v ← get "batch_id" r; Ok (py_eqb v b) end).
Definition cfg_median_batch (rec : list row) (config field : string) (batch_id : pyval) : res num :=
  ls ← mapR (λ r, b ← in_arm config (Some batch_id) r; if b : bool then v ← float_of field r; Ok [v] else Ok []) rec;
  match List.concat ls with
  | [] => Err (ExhibitFail ("TEST FAIL: no " +:+ field +:+ " rows for " +:+ config +:+ " batch " +:+ py_str batch_id))
  | vals => median vals
  end.
Definition is_e2e3g (config : string) (keys : list pair_key) (p : row) : res bool :=
  w ← get_int "warmup" p;
  if negb (w =? 0) then Ok false else
  b ← field_is "phase" "E3g" p;
  if negb b then Ok false else
  b ← has_config config p;
  if negb b then Ok false else
  k ← pair_key_of p;
  Ok (bool_decide (k ∈ keys) && negb (is_blank (get_or "ns_since_e2" PNone p))).
Definition e2e3g_vals (rec phases : list row) (config : string) (batch_id : option pyval) : res (list num) :=
  rows ← filterR (in_arm config batch_id) rec;
  keys ← mapR pair_key_of rows;
  vals ← phase_floats "ns_since_e2" (is_e2e3g config keys) phases;
  match vals with
  | [] => Err (ExhibitFail ("TEST FAIL: no E2→E3g values for "
            +:+ match batch_id with None => config | Some b => config +:+ " batch " +:+ py_str b end))
  | _ => Ok vals
  end.
Definition e2e3g_median (rec phases : list row) (config : string) (batch_id : option pyval) : res num :=
  vals ← e2e3g_vals rec phases config batch_id; median vals.
Definition num_max2 (a b : num) : num := if num_gtb b a then b else a.
Definition stability_tol_ns (median_ns : num) : num :=
  num_max2 (num_mul (NFlt (float_lit "0.02")) (num_abs median_ns)) (NFlt (float_lit "200000.0")).
(** [sorted({r["batch_id"] for r in rec})] *)
Definition batches_of (rec : list row) : res (list pyval) := bs ← distinct "batch_id" rec; sorted_vals bs.
Definition require_e2e3g_stable (rec phases : list row) (config label : string) : res unit :=
  batches ← batches_of rec;
  match batches with
  | [b1; b2] =>
    m1 ← e2e3g_median rec phases config (Some b1);
    m2 ← e2e3g_median rec phases config (Some b2);
    let hi := num_max2 m1 m2 in
    if num_ltb hi (NInt 1000000) then Ok tt else
    let tol := stability_tol_ns hi in
    let d := num_abs (num_sub m1 m2) in
    raise_when (num_gtb d tol) (ExhibitFail ("TEST FAIL: " +:+ label +:+ " " +:+ config
      +:+ " E2→E3g not stable across batches (medians " +:+ num_fixed 0 m1 +:+ " vs " +:+ num_fixed 0 m2 +:+ " ns, Δ="
      +:+ num_fixed 0 d +:+ ", tol=" +:+ num_fixed 0 tol +:+ "; Claim A is stability-gated)"))
  | _ => Err (ExhibitFail ("TEST FAIL: " +:+ label +:+ " has " +:+ str_of_nat (length batches)
           +:+ " batch_id values, want 2 (Claim A is stability-gated)"))
  end.
Definition require_delta_s_sane (rec : list row) (label : string) : res num :=
  f ← s_vals rec FAST; sf ← median f;
  m ← s_vals rec M_FAST; sm ← median m;
  let delta := num_sub sf sm in
  _ ← raise_when (num_ltb delta DS_FALSIFY_SLOWER_NS) (ExhibitFail ("TEST FAIL: " +:+ label +:+ " ΔS = "
        +:+ num_fixed 0 delta +:+ " ns < −0.3 ms (variant made startup slower; unmodelled cost)"));
  _ ← raise_when (num_gtb (num_abs delta) DS_FALSIFY_ABS_NS) (ExhibitFail ("TEST FAIL: " +:+ label +:+ " |ΔS| = "
        +:+ num_fixed 0 (num_abs delta) +:+ " ns > 3 ms (E0-side contaminated; no firmware saving is published)"));
  Ok delta.

(** ** The two firmware lanes *)
Definition lane_batches (rec : list row) (lane : list string) : res (list pyval) :=
  rows ← filterR (λ r, c ← get "config" r; Ok (existsb (is_str c) lane)) rec;
  distinct "batch_id" rows.
Definition check_lanes (label : string) (rec : list row) : res unit :=
  opensbi ← lane_batches rec T47_OPENSBI;
  shim ← lane_batches rec T47_SHIM;
  if set_eqb opensbi shim then Ok tt else
  o ← sorted_repr opensbi; s ← sorted_repr shim;
  Err (ExhibitFail ("TEST FAIL: " +:+ label +:+ " lanes from different batch sets (OpenSBI " +:+ o +:+ " vs shim " +:+ s
    +:+ "; D-0079: one campaign or the exhibit does not generate)")).
Definition one_canary (label : string) (runs : list row) : res unit :=
  _ ← forM_ (λ r, raise_when (existsb is_blank (canary_pair r)) (ExhibitFail ("TEST FAIL: " +:+ label
        +:+ " empty canary columns (D-0079: one canary in the shared header)"))) runs;
  let n := length (py_set (canary_pair <$> runs)) in
  raise_when (negb (n =? 1)%nat) (ExhibitFail ("TEST FAIL: " +:+ label +:+ " has " +:+ str_of_nat n
    +:+ " canary values in the shared header, want 1 (D-0079: lanes from different campaigns do not generate)")).
Definition check_t47_arm (label : string) (rec : list row) (n : nat) (cfg : string) : res unit :=
  _ ← check_count ExhibitFail label rec n cfg; check_system label rec cfg "whimbrel".
Definition check_shim_bios (label : string) (rec : list row) : res unit :=
  rows ← filterR (λ r, c ← get "config" r; Ok (existsb (is_str c) T47_SHIM)) rec;
  let bios := py_set (get_or "bios_sha256" (PStr "") <$> rows) in
  if negb (length bios =? 1)%nat || existsb (λ v, is_str v "") bios then
    s ← sorted_repr bios;
    Err (ExhibitFail ("TEST FAIL: " +:+ label +:+ " shim bios_sha256 " +:+ s
                      +:+ " (want one non-empty blob hash on every shim row)"))
  else Ok tt.
Definition check_seam (label : string) (rec_keys : list trial_key) (phases : list row) (n : nat) (cfg phase : string) : res unit :=
  l ← filterR (recorded_phase phase (has_config cfg) rec_keys) phases;
  raise_when (negb (length l =? n)%nat) (ExhibitFail ("TEST FAIL: " +:+ label +:+ " " +:+ cfg +:+ " has "
    +:+ str_of_nat (length l) +:+ " recorded " +:+ phase +:+ " rows, want " +:+ str_of_nat n)).
Definition check_lane_arm (label : string) (rec phases : list row) (rec_keys : list trial_key) (n : nat) (cfg : string) : res unit :=
  _ ← forM_ (check_seam label rec_keys phases n cfg) T47_SEAM_PHASES;
  require_e2e3g_stable rec phases cfg label.
Definition validate_t47 (runs phases : list row) (batches : list string) (sha_prefix : string) (n_per_arm : nat)
    (label : string) : res unit :=
  _ ← check_schema runs New ("TEST FAIL: " +:+ label +:+ " is not new-schema");
  rec ← recorded runs;
  _ ← check_canary_columns runs (λ field, "TEST FAIL: " +:+ label +:+ " missing canary column " +:+ field
        +:+ " (D-0079: one canary in the shared header)");
  _ ← check_values ExhibitFail "config" rec T47_ARM_ORDER (λ s, "TEST FAIL: " +:+ label +:+ " configs " +:+ s
        +:+ " want " +:+ sorted_reprs T47_ARM_ORDER);
  _ ← check_lanes label rec;
  _ ← check_batches ExhibitFail label runs batches;
  _ ← one_canary label runs;
  _ ← check_sha ExhibitFail label rec sha_prefix;
  _ ← check_clean ExhibitFail label rec;
  _ ← forM_ (check_t47_arm label rec n_per_arm) T47_ARM_ORDER;
  _ ← check_recorded_steal label rec;
  _ ← check_total ExhibitFail label rec (n_per_arm * length T47_ARM_ORDER);
  _ ← forM_ (check_host ExhibitFail label rec) HOST_FIELDS;
  _ ← check_shim_bios label rec;
  _ ← check_control label rec T47_ARM_ORDER;
  rec_keys ← mapR trial_key_of rec;
  e3g ← filterR (recorded_e3g rec_keys) phases;
  _ ← raise_when (negb (length e3g =? n_per_arm * length T47_ARM_ORDER)%nat) (ExhibitFail ("TEST FAIL: " +:+ label +:+ " has "
        +:+ str_of_nat (length e3g) +:+ " recorded E3g rows, want " +:+ str_of_nat (n_per_arm * length T47_ARM_ORDER)));
  _ ← forM_ (check_lane_arm label rec phases rec_keys n_per_arm) [FAST; M_FAST];
  _ ← require_delta_s_sane rec label; Ok tt.

(** ** What the gates guarantee *)
Lemma runs_schema_Old fields : runs_schema fields = Ok Old ↔
  "e0_to_e3w_ns" ∈ fields ∧ ∀ c, c ∈ new_cols → c ∉ fields.
Proof.
  unfold runs_schema. set (has := λ c, bool_decide (c ∈ fields)).
  change (bool_decide ("e0_to_e3w_ns" ∈ fields)) with (has "e0_to_e3w_ns").
  assert (∀ c, has c = true ↔ c ∈ fields) as Hh by (intros c; apply bool_decide_eq_true).
  assert ((∀ c, c ∈ new_cols → c ∉ fields) ↔ ∀ c, c ∈ new_cols → has c = false) as ->.
  { by setoid_rewrite <-not_true_iff_false; setoid_rewrite Hh. }
  rewrite <-Hh. split.
  - intros (u & Hm & H)%bind_Ok. destruct (has "e0_to_e3w_ns").
    2: { destruct (forallb has new_cols); discriminate H. }
    split; [done|]. intros c Hc. apply not_true_iff_false. intros Hcf.
    destruct (filter (λ c, bool_decide (c ∈ fields) = true) new_cols) eqn:E; [|done].
    assert (c ∈ filter (λ c, bool_decide (c ∈ fields) = true) new_cols) as Hi by by apply list_elem_of_filter.
    rewrite E in Hi. by apply elem_of_nil in Hi.
  - intros [-> Hf].
    cbn [forallb new_cols]. rewrite !Hf by set_solver. cbn [andb raise_when mbind res_bind].
    destruct (filter _ new_cols) as [|c cs] eqn:E; [done|].
    assert (c ∈ c :: cs) as Hc by by left. rewrite <-E in Hc. apply list_elem_of_filter in Hc as [Hc1 Hc2].
    specialize (Hf c Hc2). unfold has in Hf. congruence.
Qed.
Lemma runs_schema_New fields : runs_schema fields = Ok New ↔
  "e0_to_e3w_ns" ∉ fields ∧ ∀ c, c ∈ new_cols → c ∈ fields.
Proof.
  unfold runs_schema. set (has := λ c, bool_decide (c ∈ fields)).
  change (bool_decide ("e0_to_e3w_ns" ∈ fields)) with (has "e0_to_e3w_ns").
  assert (forallb has new_cols = true ↔ ∀ c, c ∈ new_cols → c ∈ fields) as <-.
  { rewrite forallb_forall. setoid_rewrite <-list_elem_of_In. unfold has. by setoid_rewrite bool_decide_eq_true. }
  assert (has "e0_to_e3w_ns" = false ↔ "e0_to_e3w_ns" ∉ fields) as <- by apply bool_decide_eq_false.
  destruct (has "e0_to_e3w_ns"), (forallb has new_cols); cbn [andb raise_when mbind res_bind];
    try (destruct (filter _ new_cols)); naive_solver.
Qed.
Lemma check_schema_Ok runs want msg u : check_schema runs want msg = Ok u ↔
  ∃ r0, head runs = Some r0 ∧ runs_schema (od_keys r0) = Ok want.
Proof.
  unfold check_schema. destruct runs as [|r0 runs]; cbn; [split; [done|by intros (? & ? & _)]|].
  rewrite bind_Ok. split.
  - intros (s & Hs & H%raise_when_Ok%negb_false_iff%bool_decide_eq_true). subst. eauto.
  - intros (r & [= <-] & ->). exists want. split; [done|]. by apply raise_when_Ok, negb_false_iff, bool_decide_eq_true.
Qed.
Lemma check_recorded_steal_Ok label rec u : check_recorded_steal label rec = Ok u ↔ all_int "steal_ticks" 0 rec.
Proof. apply check_steal_Ok. Qed.
#[export] Hint Rewrite check_schema_Ok check_recorded_steal_Ok : gates.
