(* ===== verification/ExhibitValid.v ===== *)
(** * The pinned campaigns that validate (scripts/report-exhibits.py)

    The five-arm validators and the firmware-lane validator are exact: each
    accepts a campaign if and only if it is of the shape the exhibits rely on. *)
From S2P Require Import Prelude PyStr PyFloat PyData PinGates ExhibitPins ExhibitFixtures ExhibitGates.

(** ** The old-schema campaigns *)
(** The runs.csv has the E3w column and none of the pcap intervals. *)
Definition old_schema (runs : list row) : Prop :=
  ∃ r0, head runs = Some r0 ∧ "e0_to_e3w_ns" ∈ od_keys r0 ∧ ∀ c, c ∈ new_cols → c ∉ od_keys r0.
Lemma check_schema_old runs msg u : check_schema runs Old msg = Ok u ↔ old_schema runs.
Proof. rewrite check_schema_Ok. unfold old_schema. by setoid_rewrite runs_schema_Old. Qed.
(** A campaign of the two profiles. *)
Definition two_profiles (batches : list string) (prefix : string) (n : nat) (runs phases rec : list row) : Prop :=
  old_schema runs ∧ admitted batches prefix [SAFE; FAST] n runs rec ∧ e3g_rows rec phases (n * 2).
Lemma validate_exact runs phases batches prefix label n :
  validate runs phases batches prefix label n = Ok tt ↔ ∃ rec, two_profiles batches prefix n runs phases rec.
Proof.
  unfold validate. split.
  - intros H. gates_in H. eexists. split_and!; [by apply (check_schema_old runs "" tt), check_schema_Ok|by constructor|done].
  - intros (rec & Hs & Had & He). pose proof (admitted_total _ _ [SAFE; FAST] _ _ _ ltac:(by_eval) Had) as Ht. destruct Had.
    repeat (apply bind_Ok; first [exists tt|eexists]; split; [first [by apply check_schema_old|by autorewrite with gates; eauto]|]).
    by apply check_e3g_Ok.
Qed.
(** C16. The old-schema validator is exact: it accepts a campaign if and only
    if runs.csv has the E3w column and none of the later ones, its batches are
    the wanted ones, and the recorded trials are [n] of each of the two profiles,
    of one clean commit with the wanted prefix, without steal, under the host
    controls, with one recorded E3g row each.  The check of the total count, which
    the source calls unreachable, decides nothing. *)
Theorem validate_iff (runs phases : list row) (batches : list string) (prefix label : string) (n : nat) :
  validate runs phases batches prefix label n = Ok tt ↔ ∃ rec, two_profiles batches prefix n runs phases rec.
Proof. apply validate_exact. Qed.

(** The runs.csv has the three pcap intervals and not the E3w column. *)
Definition new_schema (runs : list row) : Prop :=
  ∃ r0, head runs = Some r0 ∧ "e0_to_e3w_ns" ∉ od_keys r0 ∧ ∀ c, c ∈ new_cols → c ∈ od_keys r0.
Lemma check_schema_new runs msg u : check_schema runs New msg = Ok u ↔ new_schema runs.
Proof. rewrite check_schema_Ok. unfold new_schema. by setoid_rewrite runs_schema_New. Qed.

(** ** The rows of an arm *)
Definition of_arm (rec : list row) (cfg : string) (r : row) : Prop := r ∈ rec ∧ get "config" r = Ok (PStr cfg).
Definition arm_has (rec : list row) (cfg k s : string) : Prop := ∀ r, of_arm rec cfg r → get k r = Ok (PStr s).
Lemma has_config_true r cfg : has_config cfg r = Ok true ↔ get "config" r = Ok (PStr cfg).
Proof.
  unfold has_config. rewrite field_is_Ok. split; [intros (v & -> & H)|eauto using bool_decide_eq_true_2].
  - symmetry in H. apply bool_decide_eq_true in H. by subst.
  - intros H. exists (PStr cfg). by rewrite bool_decide_eq_true_2.
Qed.
Lemma config_rows_elem rec cfg rows r : config_rows rec cfg = Ok rows → r ∈ rows ↔ of_arm rec cfg r.
Proof. intros ->%filterR_count. rewrite list_elem_of_filter, has_config_true. unfold of_arm. naive_solver. Qed.
Section arms.
Context (rec : list row) (arms : list string) (Harms : has_values "config" rec arms).
Lemma config_filter_defined (f : row → res bool) (g : string → bool) :
  (∀ r s, get "config" r = Ok (PStr s) → f r = Ok (g s)) → ∃ rows, filterR f rec = Ok rows.
Proof using Harms.
  intros Hf. apply filterR_defined. intros r Hr. destruct (proj1 Harms r Hr) as (s & _ & Hg). eauto.
Qed.
Lemma config_rows_defined cfg : ∃ rows, config_rows rec cfg = Ok rows.
Proof using Harms. apply (config_filter_defined _ (λ s, bool_decide (s = cfg))). intros r s. apply has_config_str. Qed.
Lemma arm_values k cfg rows s : cfg ∈ arms → config_rows rec cfg = Ok rows → has_values k rows [s] ↔ arm_has rec cfg k s.
Proof using Harms.
  intros Hcfg Hrows. unfold has_values, arm_has. setoid_rewrite (config_rows_elem _ _ _ _ Hrows). split.
  - intros [H _] r Hr. by destruct (H r Hr) as (s' & ->%list_elem_of_singleton & ?).
  - intros H. split; [intros r Hr; exists s; split; [by left|auto]|]. intros s' ->%list_elem_of_singleton.
    destruct (proj2 Harms cfg Hcfg) as (r & Hr & Hg). exists r. split; [done|]. by apply H.
Qed.
Lemma check_system_Ok label cfg sys u : cfg ∈ arms → check_system label rec cfg sys = Ok u ↔ arm_has rec cfg "system" sys.
Proof using Harms.
  intros Hcfg. unfold check_system. rewrite bind_Ok. destruct (config_rows_defined cfg) as (rows & Hr). split.
  - intros (rows' & Hr' & H%check_values_Ok). by apply (arm_values "system" cfg rows' sys).
  - intros H. exists rows. split; [done|]. by apply check_values_Ok, (arm_values "system" cfg rows sys).
Qed.
Lemma check_arm_Ok label n arm u : arm.2 ∈ arms →
  check_arm label rec n arm = Ok u ↔ count_config rec arm.2 n ∧ arm_has rec arm.2 "system" arm.1.
Proof using Harms.
  intros Hin. unfold check_arm. rewrite bind_Ok. setoid_rewrite check_count_Ok. setoid_rewrite check_system_Ok; [|done].
  split; [by intros (_ & ?)|by exists tt].
Qed.
Lemma check_image_Ok label man ci u : ci.1 ∈ arms →
  check_image label rec man ci = Ok u ↔ ∃ sha, od_get ci.2 man = Some sha ∧ arm_has rec ci.1 "kernel_sha256" sha.
Proof using Harms.
  intros Hin. unfold check_image. destruct (config_rows_defined ci.1) as (rows & Hr). rewrite Hr. cbn [mbind res_bind].
  rewrite bind_Ok. setoid_rewrite of_option_Ok. setoid_rewrite check_values_Ok. by setoid_rewrite (λ s, arm_values _ _ _ s Hin Hr).
Qed.
End arms.

(** ** Medians *)
(** The median of a column over the recorded trials of an arm. *)
Definition arm_median (rec : list row) (cfg field : string) (m : num) : Prop :=
  ∃ vals, config_floats rec cfg field = Ok vals ∧ median vals = Ok m.
Lemma arm_median_eq rec cfg field m : (vals ← config_floats rec cfg field; median vals) = Ok m ↔ arm_median rec cfg field m.
Proof. apply bind_Ok. Qed.
(** The arms' first-connect medians lie within the control's tolerance. *)
Definition controlled (rec : list row) (cfgs : list string) : Prop :=
  ∃ meds hi lo, Forall2 (λ cfg m, arm_median rec cfg "e0_to_first_connect_ns" m) cfgs meds ∧
    num_max meds = Ok hi ∧ num_min meds = Ok lo ∧ num_gtb (num_sub hi lo) CONTROL_TOL_NS = false.
Lemma check_control_Ok label rec cfgs u : check_control label rec cfgs = Ok u ↔ controlled rec cfgs.
Proof.
  split.
  - intros (meds & Hm%mapR_Ok & (hi & Hhi & (lo & Hlo & H%raise_when_Ok)%bind_Ok)%bind_Ok)%bind_Ok.
    exists meds, hi, lo. split_and!; try done. eapply Forall2_impl; [exact Hm|]. intros cfg m. apply arm_median_eq.
  - intros (meds & hi & lo & Hm & Hhi & Hlo & H). unfold check_control.
    assert (mapR (λ cfg, vals ← config_floats rec cfg "e0_to_first_connect_ns"; median vals) cfgs = Ok meds) as ->.
    { apply mapR_Ok. eapply Forall2_impl; [exact Hm|]. intros cfg m. apply arm_median_eq. }
    cbn [mbind res_bind]. rewrite Hhi, Hlo. cbn [mbind res_bind]. by apply raise_when_Ok.
Qed.
(** Every arm has an E0-E4 median, and the trimmed arm is faster than the stock one. *)
Definition faster (rec : list row) : Prop :=
  (∀ cfg, cfg ∈ T48_ARM_ORDER.*2 → ∃ m, arm_median rec cfg "e0_to_e4_ns" m) ∧
  ∃ t s, arm_median rec "trimmed" "e0_to_e4_ns" t ∧ arm_median rec "stock" "e0_to_e4_ns" s ∧ num_geb t s = false.
Lemma check_tripwire_Ok label rec u : check_tripwire label rec = Ok u ↔ faster rec.
Proof.
  unfold check_tripwire. rewrite bind_Ok. split.
  - intros (e4 & He%mapR_Ok & (t & Ht%of_option_Ok & (s & Hs%of_option_Ok & H%raise_when_Ok)%bind_Ok)%bind_Ok).
    assert (∀ cfg m, (cfg, m) ∈ e4 → arm_median rec cfg "e0_to_e4_ns" m) as Ha.
    { intros cfg m Hm. destruct (Forall2_elem_r _ _ _ _ He Hm) as (arm & _ & Harm).
      apply bind_Ok in Harm as (vals & ? & (m' & ? & [= <- <-])%bind_Ok). by exists vals. }
    split; [|exists t, s; split_and!; [by apply Ha, od_get_Some_elem..|done]].
    intros cfg (arm & -> & Hin)%list_elem_of_fmap. destruct (Forall2_elem_l _ _ _ _ He Hin) as (cm & _ & Harm).
    apply bind_Ok in Harm as (vals & ? & (m & ? & _)%bind_Ok). by exists m, vals.
  - intros [Hall (t & s & Ht & Hs & H)].
    set (f := λ arm : string * string, vals ← config_floats rec arm.2 "e0_to_e4_ns"; m ← median vals; Ok (arm.2, m)).
    assert (∀ arm m, arm_median rec arm.2 "e0_to_e4_ns" m → f arm = Ok (arm.2, m)) as Hf.
    { intros arm m (vals & Hv & Hm). unfold f. by rewrite Hv; cbn; rewrite Hm. }
    destruct (Hall FAST) as [m1 H1]; [by_eval|]. destruct (Hall SAFE) as [m2 H2]; [by_eval|].
    destruct (Hall "trimmed-instrumented") as [m4 H4]; [by_eval|].
    exists [(FAST, m1); (SAFE, m2); ("trimmed", t); ("trimmed-instrumented", m4); ("stock", s)]. split.
    + apply mapR_Ok. repeat constructor; by apply Hf.
    + apply bind_Ok. exists t. split; [done|]. apply bind_Ok. exists s. split; [done|]. by apply raise_when_Ok.
Qed.

(** ** The five-arm campaigns *)
(** A five-arm campaign, with the images of the MANIFEST. *)
Record five_arms (batches : list string) (prefix : string) (n : nat) (man : odict string string)
    (runs phases rec : list row) : Prop := {
  fa_schema : new_schema runs;
  fa_admitted : admitted batches prefix T48_ARM_ORDER.*2 n runs rec;
  fa_system : ∀ arm, arm ∈ T48_ARM_ORDER → arm_has rec arm.2 "system" arm.1;
  fa_image : ∀ ci, ci ∈ T48_IMAGES → ∃ sha, od_get ci.2 man = Some sha ∧ arm_has rec ci.1 "kernel_sha256" sha;
  fa_control : controlled rec T48_ARM_ORDER.*2;
  fa_faster : faster rec;
  fa_no_linux : ∀ p, p ∈ phases → is_linux_phase p = Ok false;
  fa_e3g : ∃ keys e3g, mapR trial_key_of rec = Ok keys ∧
    filterR (recorded_phase "E3g" on_whimbrel keys) phases = Ok e3g ∧ length e3g = (n * 2)%nat }.
Lemma filterR_nil {A} (f : A → res bool) l : filterR f l = Ok [] ↔ ∀ x, x ∈ l → f x = Ok false.
Proof.
  induction l as [|y l IH]; [split; [intros _ x Hx; by apply elem_of_nil in Hx|done]|]. split.
  - intros ([] & Hb & (ys & Hys & H)%bind_Ok)%bind_Ok x Hx; [done|]. injection H as ->.
    apply elem_of_cons in Hx as [->|Hx]; [done|]. by apply IH.
  - intros H. cbn [filterR]. rewrite (H y) by by left. cbn [mbind res_bind]. rewrite (proj2 IH); [done|].
    intros x Hx. apply H. by right.
Qed.
Lemma check_arms_Ok label rec arms n (l : list (string * string)) u : has_values "config" rec arms → l.*2 ⊆ arms →
  forM_ (check_arm label rec n) l = Ok u ↔
  (∀ cfg, cfg ∈ l.*2 → count_config rec cfg n) ∧ ∀ arm, arm ∈ l → arm_has rec arm.2 "system" arm.1.
Proof.
  intros Hv Hl. rewrite forM_Ok. assert (∀ arm, arm ∈ l → arm.2 ∈ arms) as Hin by (intros; by apply Hl, list_elem_of_fmap_2).
  assert (∀ arm, arm ∈ l → check_arm label rec n arm = Ok tt ↔ count_config rec arm.2 n ∧ arm_has rec arm.2 "system" arm.1) as Ha.
  { intros arm Ha. eapply check_arm_Ok; eauto. }
  split.
  - intros H. split; [intros cfg (arm & -> & Harm)%list_elem_of_fmap|intros arm Harm]; by apply Ha, H.
  - intros [Hc Hs] arm Harm. apply Ha; [done|]. split; [by apply Hc, list_elem_of_fmap_2|auto].
Qed.
Lemma check_images_Ok label rec arms man l u : has_values "config" rec arms → l.*1 ⊆ arms →
  forM_ (check_image label rec man) l = Ok u ↔
  ∀ ci, ci ∈ l → ∃ sha, od_get ci.2 man = Some sha ∧ arm_has rec ci.1 "kernel_sha256" sha.
Proof.
  intros Hv Hl. rewrite forM_Ok. apply forall_proper. intros ci. apply forall_proper. intros Hin.
  eapply check_image_Ok; [done|]. by apply Hl, list_elem_of_fmap_2.
Qed.
Lemma validate_t48_exact runs phases batches prefix n label man_text :
  validate_t48 runs phases batches prefix n label man_text = Ok tt ↔
  ∃ rec text man, man_text = Ok text ∧ parse_linux_manifest text = Ok man ∧ five_arms batches prefix n man runs phases rec.
Proof.
  assert (T48_ARM_ORDER.*2 ⊆ T48_ARM_ORDER.*2 ∧ T48_IMAGES.*1 ⊆ T48_ARM_ORDER.*2) as [Hsub Himg] by by_eval.
  unfold validate_t48. split.
  - intros H. gates_in H. apply raise_when_Ok, negb_false_iff, Nat.eqb_eq in H.
    match goal with H : forM_ (check_arm _ _ _) _ = _ |- _ => rename H into Harm end.
    match goal with H : forM_ (check_image _ _ _) _ = _ |- _ => rename H into Himgs end.
    match goal with H : has_values "config" _ _ |- _ => rename H into Hv end.
    apply (check_arms_Ok _ _ _ _ _ _ Hv Hsub) in Harm as [Hcount Hsys].
    pose proof (proj1 (check_images_Ok _ _ _ _ _ _ Hv Himg) Himgs).
    match goal with H : raise_when (negb (length ?l =? 0)%nat) _ = Ok _ |- _ =>
      apply raise_when_Ok, negb_false_iff, Nat.eqb_eq, nil_length_inv in H as -> end.
    eexists _, _, _. split_and!; [done..|]. constructor; try done.
    + by apply (check_schema_new runs "" tt), check_schema_Ok.
    + by eapply check_control_Ok.
    + by eapply check_tripwire_Ok.
    + by apply filterR_nil.
    + eauto.
  - intros (rec & text & man & -> & Hman & [Hsch Had Hsys Hi Hcon Hfast Hnol (keys & e3g & Hkeys & He3g & Hlen)]).
    pose proof (admitted_total _ _ T48_ARM_ORDER.*2 _ _ _ ltac:(by_eval) Had) as Ht. destruct Had.
    pose proof (proj2 (check_arms_Ok label rec _ n T48_ARM_ORDER tt ad_arms Hsub) (conj ad_count Hsys)) as Ha.
    pose proof (proj2 (check_images_Ok label rec _ man T48_IMAGES tt ad_arms Himg) Hi) as Him.
    apply filterR_nil in Hnol.
    repeat (apply bind_Ok; first [exists tt|eexists]; split;
      [first [eassumption|by apply check_schema_new|by apply check_control_Ok|by apply check_tripwire_Ok|
              by autorewrite with gates; eauto|done]|]).
    by rewrite Hlen, Nat.eqb_refl.
Qed.

(** *** Canaries *)
Definition canary_columns (runs : list row) : Prop :=
  ∃ r0, head runs = Some r0 ∧ ∀ field, field ∈ CANARY_FIELDS → od_in field r0 = true.
Lemma check_canary_columns_Ok runs msg u : check_canary_columns runs msg = Ok u ↔ canary_columns runs.
Proof.
  unfold check_canary_columns, canary_columns. rewrite forM_Ok. destruct runs as [|r0 runs]; cbn [head].
  - split; [intros H; by specialize (H _ ltac:(by left))|by intros (? & ? & _)].
  - cbn [of_option mbind res_bind]. setoid_rewrite raise_when_Ok. setoid_rewrite negb_false_iff. naive_solver.
Qed.
(** One nonblank canary on every row. *)
Definition shared_canary (rows : list row) (cp : list pyval) : Prop :=
  rows ≠ [] ∧ existsb is_blank cp = false ∧ ∀ r, r ∈ rows → canary_pair r = cp.
Lemma shared_canary_iff (rows : list row) (e : exn) u cp :
  forM_ (λ r, raise_when (existsb is_blank (canary_pair r)) e) rows = Ok u ∧ py_set (canary_pair <$> rows) = [cp] ↔
  shared_canary rows cp.
Proof.
  rewrite forM_Ok. setoid_rewrite raise_when_Ok. split.
  - intros [Hb E]. assert (∀ r, r ∈ rows → canary_pair r = cp) as Hall.
    { intros r Hr. apply list_elem_of_singleton. rewrite <-E. by apply elem_of_py_set, list_elem_of_fmap_2. }
    destruct rows as [|r0 rows]; [done|]. split_and!; [done| |done]. rewrite <-(Hall r0) by by left. apply Hb. by left.
  - intros (Hne & Hb & Hall). split; [intros r Hr; by rewrite Hall|].
    apply py_set_const; [by destruct rows|]. intros y (r & -> & Hr)%list_elem_of_fmap. auto.
Qed.
Lemma campaign_canary_Ok runs label sp : campaign_canary runs label = Ok sp ↔
  ∃ rec cp, recorded runs = Ok rec ∧ canary_columns runs ∧ shared_canary rec cp ∧ canary_ints cp = Ok sp.
Proof.
  unfold campaign_canary. split.
  - intros (rec & Hrec & (? & Hcol%check_canary_columns_Ok & (? & Hb & H)%bind_Ok)%bind_Ok)%bind_Ok.
    destruct (py_set (canary_pair <$> rec)) as [|cp [|]] eqn:E; try done. exists rec, cp. split_and!; try done.
    eapply shared_canary_iff. eauto.
  - intros (rec & cp & Hrec & Hcol & Hs & Hi). apply bind_Ok. exists rec. split; [done|].
    apply bind_Ok. exists tt. split; [by apply check_canary_columns_Ok|].
    apply (shared_canary_iff _ (ExhibitFail ("TEST FAIL: " +:+ label +:+ " empty canary columns")) tt) in Hs as [Hb E].
    apply bind_Ok. exists tt. split; [exact Hb|]. by rewrite E.
Qed.

(** *** The skip-probe campaign *)
(** An arm's E0-E4 median moved from the earlier campaign's by an amount inside
    the registered window. *)
Definition moved_inside (rec before : list row) (cfg : string) : Prop := ∃ after ls m,
  arm_median rec cfg "e0_to_e4_ns" after ∧ mapR (before_value cfg) before = Ok ls ∧ median (List.concat ls) = Ok m ∧
  num_ltb (num_sub after m) D0081_DELTA_LO_NS = false ∧ num_gtb (num_sub after m) D0081_DELTA_HI_NS = false.
(** What D-0081 adds to the five-arm shape, against the T4.8b campaign. *)
Record skip_probe (text : string) (man : odict string string) (runs rec : list row) (t48b_rec : option (list row))
    (t48b_manifest : option string) : Prop := {
  sk_columns : canary_columns runs;
  sk_canary : ∃ cp sp, shared_canary rec cp ∧ canary_ints cp = Ok sp;
  sk_append : ∃ appends, parse_linux_manifest_appends text = Ok appends ∧
    ∀ kind, kind ∈ ["quiet"; "instrumented"] → ∃ got, od_get kind appends = Some got ∧ str_in SKIP_PROBE got = true;
  sk_artifacts : ∀ tb, t48b_manifest = Some tb → ∃ before, parse_linux_manifest tb = Ok before ∧
    ∀ name, name ∈ ARTIFACTS → ∃ sha, od_get name man = Some sha ∧ od_get name before = Some sha;
  sk_delta : ∀ b cfg, t48b_rec = Some b → cfg ∈ ["trimmed"; "stock"] → moved_inside rec b cfg }.
Lemma check_artifact_Ok label here before name u : check_artifact label here before name = Ok u ↔
  ∃ sha, od_get name here = Some sha ∧ od_get name before = Some sha.
Proof.
  split.
  - intros (h & Hh%of_option_Ok & (b & Hb%of_option_Ok & H%raise_when_Ok%negb_false_iff%String.eqb_eq)%bind_Ok)%bind_Ok.
    subst. eauto.
  - intros (sha & Hh & Hb). unfold check_artifact. rewrite Hh, Hb. cbn. by apply raise_when_Ok, negb_false_iff, String.eqb_eq.
Qed.
Lemma check_append_Ok label appends kind u : check_append label appends kind = Ok u ↔
  ∃ got, od_get kind appends = Some got ∧ str_in SKIP_PROBE got = true.
Proof.
  unfold check_append. rewrite raise_when_Ok, negb_false_iff. destruct (od_get kind appends) as [got|]; cbn; [naive_solver|].
  split; [by vm_compute|by intros (? & ? & _)].
Qed.
Lemma check_delta_Ok label rec b cfg u : check_delta label rec b cfg = Ok u ↔ moved_inside rec b cfg.
Proof.
  split.
  - intros (vals & Hv & (after & Ha & (ls & Hl & (? & _ & (before & Hb & H)%bind_Ok)%bind_Ok)%bind_Ok)%bind_Ok)%bind_Ok.
    apply raise_when_Ok, orb_false_iff in H as [H1 H2]. exists after, ls, before. split_and!; try done. by exists vals.
  - intros (after & ls & m & (vals & Hv & Ha) & Hl & Hb & H1 & H2). unfold check_delta.
    rewrite Hv. cbn [mbind res_bind]. rewrite Ha. cbn [mbind res_bind]. rewrite Hl. cbn [mbind res_bind].
    assert (∀ e, raise_when (match List.concat ls with [] => true | _ => false end) e = Ok tt) as -> by (by destruct (List.concat ls)).
    cbn [mbind res_bind]. rewrite Hb. cbn [mbind res_bind]. apply raise_when_Ok. by rewrite H1, H2.
Qed.
Lemma validate_t48c_exact runs phases batches prefix n label man_text t48b_rec t48b_manifest :
  validate_t48c runs phases batches prefix n label man_text t48b_rec t48b_manifest = Ok tt ↔
  ∃ rec text man, man_text = Ok text ∧ parse_linux_manifest text = Ok man ∧
    five_arms batches prefix n man runs phases rec ∧ skip_probe text man runs rec t48b_rec t48b_manifest.
Proof.
  unfold validate_t48c. split.
  - intros (text & Ht & (u & H48 & (sp & Hcan & (appends & Happ & (? & Hq & (? & Hart & Hdel)%bind_Ok)%bind_Ok)%bind_Ok)%bind_Ok)%bind_Ok)%bind_Ok.
    destruct u. apply validate_t48_exact in H48 as (rec & text' & man & [= <-] & Hman & Hfive).
    pose proof (ad_rec _ _ _ _ _ _ (fa_admitted _ _ _ _ _ _ _ Hfive)) as Hrec.
    apply campaign_canary_Ok in Hcan as (rec' & cp & Hrec' & Hcol & Hs & Hi). rewrite Hrec in Hrec'.
    injection Hrec' as <-. rewrite forM_Ok in Hq.
    exists rec, text, man. split_and!; try done. constructor; [done|by exists cp, sp| | |].
    + exists appends. split; [done|]. intros kind Hk. by apply (check_append_Ok label appends kind tt), Hq.
    + intros tb ->. apply bind_Ok in Hart as (here & Hh & (before & Hb & Hart)%bind_Ok). rewrite Hman in Hh. injection Hh as <-.
      exists before. split; [done|]. intros name Hname. rewrite forM_Ok in Hart. by eapply check_artifact_Ok, Hart.
    + intros b cfg -> Hcfg. apply bind_Ok in Hdel as (rec' & Hrec' & Hdel). rewrite Hrec in Hrec'. injection Hrec' as <-.
      rewrite forM_Ok in Hdel. by eapply check_delta_Ok, Hdel.
  - intros (rec & text & man & -> & Hman & Hfive & [Hcol (cp & sp & Hs & Hi) (appends & Happ & Hap) Hart Hdel]).
    pose proof (ad_rec _ _ _ _ _ _ (fa_admitted _ _ _ _ _ _ _ Hfive)) as Hrec. cbn [mbind res_bind].
    rewrite (proj2 (validate_t48_exact _ _ _ _ _ _ _)) by (by exists rec, text, man). cbn [mbind res_bind].
    rewrite (proj2 (campaign_canary_Ok _ _ sp)) by (by exists rec, cp). cbn [mbind res_bind]. rewrite Happ. cbn [mbind res_bind].
    rewrite (proj2 (forM_Ok _ _ tt)) by (intros kind Hk; by apply check_append_Ok, Hap). cbn [mbind res_bind].
    apply bind_Ok. exists tt. split.
    + destruct t48b_manifest as [tb|]; [|done]. destruct (Hart tb eq_refl) as (before & Hb & Hsame).
      rewrite Hman, Hb. cbn [mbind res_bind]. apply forM_Ok. intros name Hname. by apply check_artifact_Ok, Hsame.
    + destruct t48b_rec as [b|]; [|done]. rewrite Hrec. cbn [mbind res_bind]. apply forM_Ok.
      intros cfg Hcfg. by eapply check_delta_Ok, Hdel.
Qed.

(** C5. The T4.8c validator is exact.  It accepts a campaign if and only if the
    campaign is five-arm, of the wanted commit and batches (schema, arm sizes,
    systems, pinned images, host controls, first-connect control, trimmed faster
    than stock, no Linux phase rows), it carries one nonblank canary, its MANIFEST
    has the skip-probe token on both command lines and the T4.8b hashes of every
    artifact, and each Linux arm's E0-E4 median moved from T4.8b's by an amount
    inside the registered window. *)
Theorem validate_t48c_iff (runs phases : list row) (batches : list string) (prefix label : string) (n : nat)
    (man_text : res string) (t48b_rec : option (list row)) (t48b_manifest : option string) :
  validate_t48c runs phases batches prefix n label man_text t48b_rec t48b_manifest = Ok tt ↔
  ∃ rec text man, man_text = Ok text ∧ parse_linux_manifest text = Ok man ∧
    five_arms batches prefix n man runs phases rec ∧ skip_probe text man runs rec t48b_rec t48b_manifest.
Proof. apply validate_t48c_exact. Qed.
Definition check_fixture_t48c : res unit :=
  validate_t48c c_runs t_ph t48_batches "1005399" t48_n "t48c-fix" (Ok t48c_man) (Some t48b_for_delta) (Some man_text).
Lemma validate_t48c_iff_witness :
  check_fixture_t48c = Ok tt ∧
  ∃ rec man, five_arms t48_batches "1005399" t48_n man c_runs t_ph rec ∧
    skip_probe t48c_man man c_runs rec (Some t48b_for_delta) (Some man_text).
Proof.
  split; [by vm_compute|].
  destruct (proj1 (validate_t48c_iff c_runs t_ph t48_batches "1005399" "t48c-fix" t48_n (Ok t48c_man)
    (Some t48b_for_delta) (Some man_text)) ltac:(by vm_compute)) as (rec & text & man & [= <-] & _ & H1 & H2).
  by exists rec, man.
Defined.

(** ** The two firmware lanes *)
Definition in_lane (lane : list string) (r : row) : Prop := ∃ cfg, cfg ∈ lane ∧ get "config" r = Ok (PStr cfg).
Lemma lane_filter lane rec rows r :
  filterR (λ r, c ← get "config" r; Ok (existsb (is_str c) lane)) rec = Ok rows → r ∈ rows ↔ r ∈ rec ∧ in_lane lane r.
Proof.
  intros ->%filterR_count. rewrite list_elem_of_filter, bind_Ok. unfold in_lane. split.
  - intros [(c & Hg & [= H]) Hr]. split; [done|]. apply existsb_exists in H as (s & Hs & Hc).
    apply bool_decide_eq_true in Hc. subst. exists s. split; [by apply list_elem_of_In|done].
  - intros [Hr (cfg & Hc & Hg)]. split; [|done]. exists (PStr cfg). split; [done|]. f_equal. apply existsb_exists.
    exists cfg. split; [by apply list_elem_of_In|]. by apply bool_decide_eq_true.
Qed.
Lemma lane_batches_spec rec lane bs : lane_batches rec lane = Ok bs →
  ∀ b, b ∈ bs ↔ ∃ r, r ∈ rec ∧ in_lane lane r ∧ get "batch_id" r = Ok b.
Proof.
  intros (rows & Hr & Hd)%bind_Ok b. rewrite (distinct_spec _ _ _ Hd b).
  setoid_rewrite (lane_filter _ _ _ _ Hr). naive_solver.
Qed.
(** The lanes ran in the same batches. *)
Definition same_batches (rec : list row) : Prop := ∀ b,
  (∃ r, r ∈ rec ∧ in_lane T47_OPENSBI r ∧ get "batch_id" r = Ok b) ↔
  (∃ r, r ∈ rec ∧ in_lane T47_SHIM r ∧ get "batch_id" r = Ok b).
(** One firmware hash on the shim lane. *)
Definition one_blob (rec : list row) : Prop :=
  ∃ sha, sha ≠ PStr "" ∧ ∀ r, r ∈ rec → in_lane T47_SHIM r → get_or "bios_sha256" (PStr "") r = sha.
Section lanes.
Context (rec : list row) (Harms : has_values "config" rec T47_ARM_ORDER).
Lemma lane_rows_defined lane : ∃ rows, filterR (λ r, c ← get "config" r; Ok (existsb (is_str c) lane)) rec = Ok rows.
Proof using Harms. apply (config_filter_defined _ _ Harms _ (λ s, existsb (is_str (PStr s)) lane)). by intros r s ->. Qed.
Lemma check_lanes_Ok label u : (∀ r, r ∈ rec → ∃ b, get "batch_id" r = Ok b) → check_lanes label rec = Ok u ↔ same_batches rec.
Proof using Harms.
  intros Hb. assert (∀ lane, ∃ bs, lane_batches rec lane = Ok bs) as Hdef.
  { intros lane. destruct (lane_rows_defined lane) as [rows Hr]. unfold lane_batches. rewrite Hr. apply distinct_defined.
    intros r [Hin _]%(lane_filter _ _ _ _ Hr). auto. }
  destruct (Hdef T47_OPENSBI) as [o Ho], (Hdef T47_SHIM) as [s Hs].
  assert (set_eqb o s = true ↔ same_batches rec) as <-.
  { rewrite set_eqb_spec. apply forall_proper. intros b. by rewrite (lane_batches_spec _ _ _ Ho b), (lane_batches_spec _ _ _ Hs b). }
  unfold check_lanes. rewrite Ho, Hs. cbn [mbind res_bind]. destruct (set_eqb o s); [by destruct u|].
  split; [|done]. by intros (? & ? & (? & ? & ?)%bind_Ok)%bind_Ok.
Qed.
Lemma check_shim_bios_Ok label u : check_shim_bios label rec = Ok u ↔ one_blob rec.
Proof using Harms.
  unfold check_shim_bios, one_blob. destruct (lane_rows_defined T47_SHIM) as [rows Hr]. rewrite Hr. cbn [mbind res_bind]. cbv zeta.
  split.
  - intros H. destruct (_ || _) eqn:E in H; [by apply bind_Ok in H as (? & ? & ?)|].
    apply orb_false_iff in E as [Hl%negb_false_iff%Nat.eqb_eq Hb].
    apply py_set_singleton in Hl as (sha & Hin & Hall). exists sha. split.
    + intros ->. apply not_true_iff_false in Hb. apply Hb, existsb_exists. exists (PStr "").
      split; [|done]. by apply list_elem_of_In, elem_of_py_set.
    + intros r Hrec Hlane. apply Hall, list_elem_of_fmap. exists r. split; [done|]. by apply (lane_filter _ _ _ _ Hr).
  - intros (sha & Hne & Hall). rewrite (py_set_const _ sha).
    + cbn [length existsb Nat.eqb negb orb]. rewrite orb_false_r. unfold is_str, py_eqb.
      rewrite bool_decide_eq_false_2 by done. by destruct u.
    + destruct (proj2 Harms M_FAST) as (r & Hin & Hg); [by_eval|].
      assert (r ∈ rows) as Hrow by (apply (lane_filter _ _ _ _ Hr); split; [done|]; exists M_FAST; split; [by_eval|done]).
      destruct rows; [by apply elem_of_nil in Hrow|done].
    + intros y (r & -> & Hin)%list_elem_of_fmap. apply (lane_filter _ _ _ _ Hr) in Hin as [? ?]. auto.
Qed.
End lanes.
(** The two batches of an arm have E2-E3g medians that are small or agree within
    tolerance. *)
Definition stable (rec phases : list row) (cfg : string) : Prop :=
  ∃ b1 b2 m1 m2, batches_of rec = Ok [b1; b2] ∧
    e2e3g_median rec phases cfg (Some b1) = Ok m1 ∧ e2e3g_median rec phases cfg (Some b2) = Ok m2 ∧
    (num_ltb (num_max2 m1 m2) (NInt 1000000) = true ∨
     num_gtb (num_abs (num_sub m1 m2)) (stability_tol_ns (num_max2 m1 m2)) = false).
Lemma require_e2e3g_stable_Ok rec phases cfg label u : require_e2e3g_stable rec phases cfg label = Ok u ↔
  stable rec phases cfg.
Proof.
  split.
  - intros (bs & Hb & H)%bind_Ok. destruct bs as [|b1 [|b2 [|]]]; try done.
    apply bind_Ok in H as (m1 & H1 & (m2 & H2 & H)%bind_Ok). cbv zeta in H. exists b1, b2, m1, m2.
    split_and!; try done. destruct (num_ltb _ _); [by left|right]. by apply raise_when_Ok in H.
  - intros (b1 & b2 & m1 & m2 & Hb & H1 & H2 & H). unfold require_e2e3g_stable. rewrite Hb. cbn [mbind res_bind].
    rewrite H1. cbn [mbind res_bind]. rewrite H2. cbn [mbind res_bind]. cbv zeta.
    destruct (num_ltb (num_max2 m1 m2) (NInt 1000000)); [by destruct u|]. apply raise_when_Ok. by destruct H.
Qed.
(** The startup difference of the compared arms, in its window. *)
Definition sane_difference (rec : list row) : Prop :=
  ∃ f sf m sm, s_vals rec FAST = Ok f ∧ median f = Ok sf ∧ s_vals rec M_FAST = Ok m ∧ median m = Ok sm ∧
    num_ltb (num_sub sf sm) DS_FALSIFY_SLOWER_NS = false ∧ num_gtb (num_abs (num_sub sf sm)) DS_FALSIFY_ABS_NS = false.
Lemma require_delta_s_sane_Ok rec label : (∃ d, require_delta_s_sane rec label = Ok d) ↔ sane_difference rec.
Proof.
  split.
  - intros (d & (f & Hf & (sf & Hsf & (m & Hm & (sm & Hsm & (? & H1 & (? & H2 & H)%bind_Ok)%bind_Ok)%bind_Ok)%bind_Ok)%bind_Ok)%bind_Ok).
    apply raise_when_Ok in H1, H2. exists f, sf, m, sm. auto 10.
  - intros (f & sf & m & sm & Hf & Hsf & Hm & Hsm & H1 & H2). exists (num_sub sf sm). unfold require_delta_s_sane.
    rewrite Hf. cbn [mbind res_bind]. rewrite Hsf. cbn [mbind res_bind]. rewrite Hm. cbn [mbind res_bind].
    rewrite Hsm. cbn [mbind res_bind]. cbv zeta. by rewrite H1, H2.
Qed.
(** Every seam phase of a compared arm was recorded once per trial. *)
Definition seam_rows (rec phases : list row) (n : nat) (cfg phase : string) : Prop :=
  ∃ keys l, mapR trial_key_of rec = Ok keys ∧
    filterR (recorded_phase phase (has_config cfg) keys) phases = Ok l ∧ length l = n.
Lemma check_lane_arm_Ok label rec phases keys n cfg u : mapR trial_key_of rec = Ok keys →
  check_lane_arm label rec phases keys n cfg = Ok u ↔
  (∀ phase, phase ∈ T47_SEAM_PHASES → seam_rows rec phases n cfg phase) ∧ stable rec phases cfg.
Proof.
  intros Hk. assert (∀ phase, check_seam label keys phases n cfg phase = Ok tt ↔ seam_rows rec phases n cfg phase) as Hs.
  { intros phase. unfold check_seam, seam_rows. rewrite bind_Ok. setoid_rewrite raise_when_Ok. setoid_rewrite negb_false_iff.
    setoid_rewrite Nat.eqb_eq. split; [intros (l & ? & ?); by exists keys, l|].
    intros (keys' & l & Hk' & ? & ?). rewrite Hk in Hk'. injection Hk' as <-. by exists l. }
  unfold check_lane_arm. rewrite bind_Ok. setoid_rewrite forM_Ok. setoid_rewrite Hs. setoid_rewrite require_e2e3g_stable_Ok.
  split; [by intros (_ & ? & ?)|by exists tt].
Qed.
(** A campaign of both firmware lanes. *)
Record two_lanes (batches : list string) (prefix : string) (n : nat) (runs phases rec : list row) : Prop := {
  tl_schema : new_schema runs;
  tl_columns : canary_columns runs;
  tl_admitted : admitted batches prefix T47_ARM_ORDER n runs rec;
  tl_system : ∀ cfg, cfg ∈ T47_ARM_ORDER → arm_has rec cfg "system" "whimbrel";
  tl_lanes : same_batches rec;
  tl_canary : ∃ cp, shared_canary runs cp;
  tl_bios : one_blob rec;
  tl_control : controlled rec T47_ARM_ORDER;
  tl_e3g : e3g_rows rec phases (n * length T47_ARM_ORDER);
  tl_seam : ∀ cfg phase, cfg ∈ [FAST; M_FAST] → phase ∈ T47_SEAM_PHASES → seam_rows rec phases n cfg phase;
  tl_stable : ∀ cfg, cfg ∈ [FAST; M_FAST] → stable rec phases cfg;
  tl_difference : sane_difference rec }.
Lemma one_canary_Ok label runs u : one_canary label runs = Ok u ↔ ∃ cp, shared_canary runs cp.
Proof.
  unfold one_canary. rewrite bind_Ok. cbv zeta. setoid_rewrite raise_when_Ok. setoid_rewrite negb_false_iff.
  setoid_rewrite Nat.eqb_eq. split.
  - intros (v & Hb & Hl). destruct (py_set (canary_pair <$> runs)) as [|cp [|]] eqn:E; try done.
    exists cp. eapply shared_canary_iff. eauto.
  - intros (cp & Hs). exists tt. eapply shared_canary_iff in Hs as [Hb ->]. by split; [exact Hb|].
Qed.
Lemma check_t47_arms_Ok label rec n u : has_values "config" rec T47_ARM_ORDER →
  forM_ (check_t47_arm label rec n) T47_ARM_ORDER = Ok u ↔
  ∀ cfg, cfg ∈ T47_ARM_ORDER → count_config rec cfg n ∧ arm_has rec cfg "system" "whimbrel".
Proof.
  intros Hv. rewrite forM_Ok. apply forall_proper. intros cfg. apply forall_proper. intros Hin.
  exact (check_arm_Ok rec T47_ARM_ORDER Hv label n ("whimbrel", cfg) tt Hin).
Qed.
Lemma recorded_batches runs rec batches : recorded runs = Ok rec → has_values "batch_id" runs batches →
  ∀ r, r ∈ rec → ∃ b, get "batch_id" r = Ok b.
Proof. intros Hrec [H _] r [Hr _]%(recorded_in _ _ _ Hrec). destruct (H r Hr) as (s & _ & ?). eauto. Qed.
Lemma validate_t47_exact runs phases batches prefix n label :
  validate_t47 runs phases batches prefix n label = Ok tt ↔ ∃ rec, two_lanes batches prefix n runs phases rec.
Proof.
  unfold validate_t47. split.
  - intros H. gates_in H.
    match goal with H : has_values "config" _ _ |- _ => rename H into Hv end.
    match goal with H : forM_ _ T47_ARM_ORDER = _ |- _ => pose proof (proj1 (check_t47_arms_Ok _ _ _ _ Hv) H) as Harm end.
    match goal with H : forM_ _ [FAST; M_FAST] = _ |- _ => rename H into Hlane end.
    match goal with H : raise_when (negb (length _ =? _)%nat) _ = _ |- _ => apply raise_when_Ok, negb_false_iff, Nat.eqb_eq in H as He3g end.
    match goal with H : mapR trial_key_of _ = Ok _ |- _ => rename H into Hkeys end.
    rewrite forM_Ok in Hlane. eexists. constructor.
    + by apply (check_schema_new runs "" tt), check_schema_Ok.
    + by eapply check_canary_columns_Ok.
    + constructor; try done. intros cfg Hin. by apply Harm.
    + intros cfg Hin. by apply Harm.
    + eapply check_lanes_Ok; [done|by eapply recorded_batches|eassumption].
    + by eapply one_canary_Ok.
    + by eapply check_shim_bios_Ok.
    + by eapply check_control_Ok.
    + eexists _, _. eauto.
    + intros cfg phase Hin. by apply (check_lane_arm_Ok label _ _ _ n cfg tt Hkeys), Hlane.
    + intros cfg Hin. by apply (check_lane_arm_Ok label _ _ _ n cfg tt Hkeys), Hlane.
    + eapply require_delta_s_sane_Ok. eauto.
  - intros (rec & [Hsch Hcol Had Hsys Hlan Hcan Hbios Hcon He3g Hseam Hst Hdiff]).
    pose proof (admitted_total _ _ T47_ARM_ORDER _ _ _ ltac:(by_eval) Had) as Ht. destruct Had.
    pose proof (recorded_batches _ _ _ ad_rec ad_batches) as Hb. destruct He3g as (keys & e3g & Hkeys & He3g & Hlen).
    pose proof (proj2 (check_t47_arms_Ok label rec n tt ad_arms)) as Ha.
    pose proof (proj2 (check_lanes_Ok rec ad_arms label tt Hb) Hlan) as Hla.
    pose proof (proj2 (check_shim_bios_Ok rec ad_arms label tt) Hbios) as Hbi.
    pose proof (proj2 (require_delta_s_sane_Ok rec label) Hdiff) as [d Hd].
    assert (forM_ (check_lane_arm label rec phases keys n) [FAST; M_FAST] = Ok tt) as Hlane.
    { apply forM_Ok. intros cfg Hin. apply check_lane_arm_Ok; auto. }
    repeat (apply bind_Ok; first [exists tt|eexists]; split;
      [first [eassumption|by apply check_schema_new|by apply check_canary_columns_Ok|by apply one_canary_Ok|
              by apply check_control_Ok|by apply Ha; auto|by autorewrite with gates; eauto|done]|]).
    rewrite Hlen, Nat.eqb_refl. cbn [negb raise_when mbind res_bind]. by rewrite Hlane, Hd.
Qed.

(** C6. The T4.7 validator is exact.  It accepts a campaign if and only if it is
    one campaign of both firmware lanes: the new schema, the wanted commit and
    batches with [n] trials per arm, the lanes on the same batches, one canary on
    every row of the file, one firmware hash on the shim lane, the host controls
    and the first-connect control, every E3g row and each seam phase of the two
    compared arms, E2-E3g stable between the batches on both, and a startup
    difference between -0.3 and 3 ms. *)
Theorem validate_t47_iff (runs phases : list row) (batches : list string) (prefix label : string) (n : nat) :
  validate_t47 runs phases batches prefix n label = Ok tt ↔ ∃ rec, two_lanes batches prefix n runs phases rec.
Proof. apply validate_t47_exact. Qed.
Lemma validate_t47_iff_witness :
  validate_t47 g_runs g_ph t47_batches "346f4c1" t47_n "t47-fix" = Ok tt ∧
  ∃ rec, two_lanes t47_batches "346f4c1" t47_n g_runs g_ph rec.
Proof.
  split; [by vm_compute|].
  exact (proj1 (validate_t47_iff g_runs g_ph t47_batches "346f4c1" "t47-fix" t47_n) ltac:(by vm_compute)).
Defined.
