(* ===== verification/ExhibitTyping.v ===== *)
(** * Typed tables do not go wrong

    A table read from a CSV file has the same columns in every row and text in
    every cell.  When its counters are numerals, the validators of the exhibits
    end by accepting or with [ExhibitFail], the one class their caller handles:
    never with a KeyError, ValueError, TypeError or StatisticsError. *)
From S2P Require Import Prelude PyStr PyFloat PyData PyCsv PcapHttp PinGates ExhibitPins ExhibitFixtures ExhibitGates.

Abbreviation exhibit_safe := (raises_only ExhibitFailC).
(** Columns [cols], text cells, and [ints] of them numerals. *)
Record typed_row (cols ints : list string) (r : row) : Prop := {
  ty_keys : od_keys r = cols;
  ty_text : ∀ k v, od_get k r = Some v → ∃ s, v = PStr s;
  ty_ints : ∀ k, k ∈ ints → ∃ z, get_int k r = Ok z }.
Definition typed (cols ints : list string) (rows : list row) : Prop := ∀ r, r ∈ rows → typed_row cols ints r.

Lemma typed_get cols ints r k : typed_row cols ints r → k ∈ cols → ∃ s, get k r = Ok (PStr s).
Proof.
  intros [Hk Ht _] Hin. destruct (od_get k r) as [v|] eqn:E.
  - destruct (Ht _ _ E) as [s ->]. exists s. by apply get_Ok.
  - apply od_get_None in E. by rewrite Hk in E.
Qed.
Lemma typed_filterR cols ints f rows l : typed cols ints rows → filterR f rows = Ok l → typed cols ints l.
Proof. intros H Hl r Hr. apply H. rewrite (filterR_count _ _ _ Hl) in Hr. by apply list_elem_of_filter in Hr as [_ ?]. Qed.
Lemma typed_recorded cols ints rows rec : typed cols ints rows → recorded rows = Ok rec → typed cols ints rec.
Proof. apply typed_filterR. Qed.

Section typed.
Context (cols ints : list string) (rows : list row) (Hty : typed cols ints rows).

Lemma safe_get k r : r ∈ rows → k ∈ cols → exhibit_safe (get k r).
Proof using Hty. intros Hr Hk. destruct (typed_get _ _ _ k (Hty r Hr) Hk) as [s ->]. apply raises_Ok. Qed.
Lemma safe_get_int k r : r ∈ rows → k ∈ ints → exhibit_safe (get_int k r).
Proof using Hty. intros Hr Hk. destruct (ty_ints _ _ _ (Hty r Hr) k Hk) as [z ->]. apply raises_Ok. Qed.
Lemma safe_field_is k s r : r ∈ rows → k ∈ cols → exhibit_safe (field_is k s r).
Proof using Hty. intros. unfold field_is. apply raises_bind; [by apply safe_get|intros; apply raises_Ok]. Qed.
Lemma safe_trial_key r : r ∈ rows → "batch_id" ∈ cols → "trial" ∈ cols → "config" ∈ cols → exhibit_safe (trial_key_of r).
Proof using Hty. intros. unfold trial_key_of. repeat (apply raises_bind; [by apply safe_get|intros]). apply raises_Ok. Qed.

(** The distinct values of a column are text, so they sort. *)
Lemma distinct_texts k vals : k ∈ cols → distinct k rows = Ok vals → ∀ v, v ∈ vals → ∃ s, v = PStr s.
Proof using Hty.
  intros Hk Hd v Hv. apply (distinct_spec _ _ _ Hd) in Hv as (r & Hr & Hg).
  destruct (typed_get _ _ _ k (Hty r Hr) Hk) as [s Hs]. exists s. congruence.
Qed.
Lemma safe_sorted_repr vals : (∀ v, v ∈ vals → ∃ s, v = PStr s) → exhibit_safe (sorted_repr vals).
Proof. intros H. by apply raises_total, sorted_repr_texts. Qed.
Lemma safe_distinct k : k ∈ cols → exhibit_safe (distinct k rows).
Proof using Hty. intros Hk. unfold distinct. raises. by apply safe_get. Qed.
Lemma safe_check_values k want msg : k ∈ cols → exhibit_safe (check_values ExhibitFail k rows want msg).
Proof using Hty.
  intros Hk. unfold check_values. apply raises_bind; [by apply safe_distinct|]. intros vals Hd.
  destruct (set_eqb _ _); [apply raises_Ok|]. apply raises_bind; [|intros; apply raises_user].
  apply safe_sorted_repr. by eapply distinct_texts.
Qed.
Lemma safe_check_sha label prefix : "git_sha" ∈ cols → exhibit_safe (check_sha ExhibitFail label rows prefix).
Proof using Hty.
  intros Hk. unfold check_sha, the_value. apply raises_bind.
  - apply raises_bind; [by apply safe_distinct|]. intros vals Hd.
    assert (exhibit_safe (sorted_repr vals)) by (apply safe_sorted_repr; by eapply distinct_texts).
    destruct vals as [|v [|]]; [| apply raises_Ok|]; (apply raises_bind; [done|intros; apply raises_user]).
  - intros sha (vals & Hd & Hv)%bind_Ok.
    destruct vals as [|v [|]]; [by apply bind_Ok in Hv as (? & ? & ?)| |by apply bind_Ok in Hv as (? & ? & ?)].
    injection Hv as ->. destruct (distinct_texts _ _ Hk Hd sha) as [s ->]; [by left|]. cbn. apply raises_when.
Qed.
Lemma safe_check_clean label : "dirty" ∈ ints → exhibit_safe (check_clean ExhibitFail label rows).
Proof using Hty. intros. unfold check_clean. raises. by apply safe_get_int. Qed.
Lemma safe_check_count label n cfg : "config" ∈ cols → exhibit_safe (check_count ExhibitFail label rows n cfg).
Proof using Hty. intros. unfold check_count. raises. by apply safe_field_is. Qed.
Lemma safe_check_total label n : exhibit_safe (check_total ExhibitFail label rows n).
Proof. apply raises_when. Qed.
Lemma safe_check_steal label : "steal_ticks" ∈ ints → exhibit_safe (check_recorded_steal label rows).
Proof using Hty. intros. unfold check_recorded_steal, check_steal. raises. by apply safe_get_int. Qed.
Lemma safe_check_host label fw : rows ≠ [] → exhibit_safe (check_host ExhibitFail label rows fw).
Proof using Hty.
  intros Hne. unfold check_host. destruct (head rows) as [r0|] eqn:E; [|by apply head_None in E].
  apply head_Some_elem_of in E. cbn [of_option mbind res_bind].
  apply raises_bind; [apply raises_when|]. intros u Hin%raise_when_Ok%negb_false_iff.
  apply safe_check_values. rewrite <-(ty_keys _ _ _ (Hty r0 E)). by apply od_in_spec.
Qed.
End typed.

Section phases.
Context (cols ints : list string) (phases : list row) (Hty : typed cols ints phases).
Context (Hcols : ∀ k, k ∈ ["phase"; "batch_id"; "trial"; "config"] → k ∈ cols) (Hint : "warmup" ∈ ints).
Lemma safe_recorded_phase ph on keys p : p ∈ phases → exhibit_safe (on p) → exhibit_safe (recorded_phase ph on keys p).
Proof using Hty Hcols Hint.
  intros Hp Hon. unfold recorded_phase.
  raises; [by eapply safe_get_int|eapply safe_field_is; eauto; apply Hcols; set_solver|].
  eapply safe_trial_key; eauto; apply Hcols; set_solver.
Qed.
Lemma safe_check_e3g rcols rints label what rec n : typed rcols rints rec →
  (∀ k, k ∈ ["batch_id"; "trial"; "config"] → k ∈ rcols) → exhibit_safe (check_e3g ExhibitFail label what rec phases n).
Proof using Hty Hcols Hint.
  intros Hrec Hk. unfold check_e3g. raises.
  - eapply safe_trial_key; eauto; apply Hk; set_solver.
  - apply safe_recorded_phase; [done|apply raises_Ok].
Qed.
End phases.

(** ** The validators on typed tables *)
Definition run_cols : list string := ["batch_id"; "trial"; "config"; "git_sha"].
Definition run_ints : list string := ["warmup"; "dirty"; "steal_ticks"].
Definition phase_cols : list string := ["phase"; "batch_id"; "trial"; "config"].
Definition covers (have want : list string) : Prop := ∀ k, k ∈ want → k ∈ have.
Lemma covers_in have want k : covers have want → k ∈ want → k ∈ have.
Proof. auto. Qed.
Lemma safe_recorded cols ints rows : typed cols ints rows → "warmup" ∈ ints → exhibit_safe (recorded rows).
Proof. intros Hty Hw. unfold recorded, is_recorded. raises. by eapply safe_get_int. Qed.
Lemma has_values_nonnil k rec want : want ≠ [] → has_values k rec want → rec ≠ [].
Proof.
  intros Hw [_ H] ->. destruct want as [|s want]; [done|]. destruct (H s) as (r & Hr & _); [by left|].
  by apply elem_of_nil in Hr.
Qed.
Lemma safe_runs_schema fields : exhibit_safe (runs_schema fields).
Proof. unfold runs_schema. raises. Qed.
Lemma safe_check_schema runs want msg : runs ≠ [] → exhibit_safe (check_schema runs want msg).
Proof.
  intros Hne. unfold check_schema. destruct runs as [|r0 runs]; [done|]. cbn.
  apply raises_bind; [apply safe_runs_schema|]. intros. apply raises_when.
Qed.

(** C35. On typed tables the old-schema validator is total up to its own
    exception: it accepts or raises [ExhibitFail], whatever the batches, commit,
    counts and cells say. *)
Theorem validate_typed (cols ints pcols pints : list string) (runs phases : list row)
    (batches : list string) (prefix label : string) (n : nat)
    (Hruns : typed cols ints runs) (Hphases : typed pcols pints phases) (Hne : runs ≠ [])
    (Hc : covers cols run_cols) (Hi : covers ints run_ints) (Hpc : covers pcols phase_cols) (Hpi : "warmup" ∈ pints) :
  validate runs phases batches prefix label n = Ok tt ∨
  ∃ msg, validate runs phases batches prefix label n = Err (ExhibitFail msg).
Proof.
  destruct (validate runs phases batches prefix label n) as [[]|e] eqn:E; [by left|right].
  revert E. assert (∀ k, k ∈ run_cols → k ∈ cols) as Hc' by exact Hc.
  assert (exhibit_safe (validate runs phases batches prefix label n)) as Hs; [|intros [msg ->]%Hs; eauto].
  unfold validate. apply raises_bind; [by eapply safe_recorded; eauto; apply Hi; set_solver|].
  intros rec Hrec. pose proof (typed_recorded _ _ _ _ Hruns Hrec) as Hty.
  apply raises_bind; [by apply safe_check_schema|intros _ _].
  apply raises_bind; [eapply safe_check_values; [exact Hruns|apply Hc; set_solver]|intros _ _].
  apply raises_bind; [eapply safe_check_sha; [exact Hty|apply Hc; set_solver]|intros _ _].
  apply raises_bind; [eapply safe_check_clean; [exact Hty|apply Hi; set_solver]|intros _ _].
  apply raises_bind; [eapply safe_check_values; [exact Hty|apply Hc; set_solver]|].
  intros ? Hcfg%check_values_Ok%has_values_nonnil; [|done].
  apply raises_bind; [apply raises_forM; intros; eapply safe_check_count; [exact Hty|apply Hc; set_solver]|intros _ _].
  apply raises_bind; [eapply safe_check_steal; [exact Hty|apply Hi; set_solver]|intros _ _].
  apply raises_bind; [apply safe_check_total|intros _ _].
  apply raises_bind; [apply raises_forM; intros; by eapply safe_check_host|intros _ _].
  eapply safe_check_e3g; [exact Hphases|exact Hpc|exact Hpi|exact Hty|].
  intros k Hk. apply Hc. unfold run_cols. set_solver.
Qed.
(** The condition, checked on a table. *)
Definition typed_rowb (cols ints : list string) (r : row) : bool :=
  bool_decide (od_keys r = cols) && all_strs r.*2 && forallb (λ k, is_ok (get_int k r)) ints.
Lemma typed_check cols ints rows : forallb (typed_rowb cols ints) rows = true → typed cols ints rows.
Proof.
  rewrite forallb_forall. intros H r Hr. specialize (H r (proj1 (list_elem_of_In _ _) Hr)).
  apply andb_true_iff in H as [[Hk%bool_decide_eq_true Ht]%andb_true_iff Hi]. constructor; [done|..].
  - intros k v Hv%od_get_Some_elem. unfold all_strs in Ht. rewrite forallb_forall in Ht.
    specialize (Ht v (proj1 (list_elem_of_In _ _) (list_elem_of_fmap_2 snd _ _ Hv))). destruct v; eauto; done.
  - intros k Hk'. rewrite forallb_forall in Hi. specialize (Hi k (proj1 (list_elem_of_In _ _) Hk')).
    destruct (get_int k r); [eauto|done].
Qed.
Definition old_cols : list string := match old_runs with r :: _ => od_keys r | [] => [] end.
Definition old_phase_cols : list string := match old_phases with r :: _ => od_keys r | [] => [] end.
(** The clean pin, and the same pin asked for another commit. *)
Lemma validate_typed_witness :
  validate old_runs old_phases fix_batches "abc1234" "fix" fix_n = Ok tt ∧
  ∃ msg, validate old_runs old_phases fix_batches "ffff" "fix" fix_n = Err (ExhibitFail msg).
Proof.
  assert (typed old_cols run_ints old_runs) as H1 by (by apply typed_check; vm_compute).
  assert (typed old_phase_cols ["warmup"] old_phases) as H2 by (by apply typed_check; vm_compute).
  assert (covers old_cols run_cols) as H3 by (intros k Hk; apply (bool_decide_eq_true_1 (run_cols ⊆ old_cols) ltac:(by vm_compute) k Hk)).
  assert (covers old_phase_cols phase_cols) as H4
    by (intros k Hk; apply (bool_decide_eq_true_1 (phase_cols ⊆ old_phase_cols) ltac:(by vm_compute) k Hk)).
  split; [by vm_compute|].
  destruct (validate_typed old_cols run_ints old_phase_cols ["warmup"] old_runs old_phases fix_batches "ffff" "fix" fix_n
    H1 H2 ltac:(done) H3 ltac:(by intros k ?) H4 ltac:(by left)) as [H|H]; [by vm_compute in H|exact H].
Defined.
