(* ===== verification/ExhibitTables.v ===== *)
(** * The exhibits of the Whimbrel campaigns (scripts/report-exhibits.py)

    Phase deltas and edges of a campaign, and the exhibits made of them: the
    machine, the phase decomposition, the edges, the bump campaign and the ladder.
    The texts are the writers' own; a writer's long literal list is a definition
    of its own, over the values it quotes. *)
From S2P Require Import Prelude PyStr PyFloat PyData PcapHttp PinGates ExhibitPins ExhibitFixtures ExhibitGates.

Definition GENERATED : string := "<!-- generated by scripts/report-exhibits.py — do not edit -->".
Definition cells (l : list string) : string := "| " +:+ join " | " l +:+ " |".

(** ** Phase deltas and statistics *)
Abbreviation deltas := (odict string (list num)).
Definition push (k : string) (x : num) (d : deltas) : deltas := od_upd k [] (λ l, l ++ [x]) d.
Definition delta_step (keys : list trial_key) (out : deltas) (p : row) : res deltas :=
  w ← get_int "warmup" p;
  if negb (w =? 0) then Ok out else
  k ← trial_key_of p;
  if negb (key_in k keys) then Ok out else
  ph ← get "phase" p;
  d ← float_of "delta_ns" p;
  let out := push (py_str ph) d out in
  s ← float_of "ns_since_e2" p;
  Ok (push (py_str ph +:+ "_since") s out).
Definition phase_deltas (rec_runs phases : list row) (config : string) : res deltas :=
  keys ← config_keys rec_runs config; foldM (delta_step keys) [] phases.
(** Median, IQR and minimum. *)
Definition stat (vals : list num) : res (num * num * num) :=
  match vals with
  | [] => Err (ExhibitFail "TEST FAIL: empty metric")
  | _ => m ← median vals; q ← iqr vals; lo ← num_min vals; Ok (m, q, lo)
  end.
Definition stat_cells (vals : list num) : res string :=
  '(med, iq, mn) ← stat vals;
  Ok (str_of_nat (length vals) +:+ " | " +:+ fmt_ns med +:+ " | " +:+ fmt_ns iq +:+ " | " +:+ fmt_ns mn).
(** [| cfg | metric | n | median | IQR | min |] *)
Definition metric_row (cfg metric : string) (vals : list num) : res string :=
  c ← stat_cells vals; Ok ("| " +:+ cfg +:+ " | " +:+ metric +:+ " | " +:+ c +:+ " |").
Definition nonempty_median (fail_msg : string) (vals : list num) : res num :=
  match vals with [] => Err (ExhibitFail fail_msg) | _ => median vals end.
Definition cfg_median (rec : list row) (config field : string) : res num :=
  vals ← config_floats rec config field;
  nonempty_median ("TEST FAIL: no " +:+ field +:+ " rows for " +:+ config) vals.
Definition cfg_iqr (rec : list row) (config field : string) : res num := vals ← config_floats rec config field; iqr vals.

(** ** The machine *)
Definition csv_field_block (rec : list row) (label : string) : res (list string) :=
  r ← of_option IndexError (head rec);
  let f k := get_text k r in
  qv ← f "qemu_version"; qh ← f "qemu_hash"; sha ← f "git_sha"; dirty ← f "dirty"; hk ← f "host_kernel"; cpu ← f "cpu_model";
  gov ← f "governor"; smt ← f "smt_control"; boost ← f "cpufreq_boost"; virt ← f "virt"; steal ← f "steal_start_ticks";
  la ← f "loadavg_1m"; gran ← f "client_granularity_ns"; seed ← f "shuffle_seed";
  Ok ["# " +:+ label +:+ " (CSV fields; not results/summary.txt)"; "qemu_version=" +:+ qv; "qemu_hash=" +:+ qh;
      "git_sha=" +:+ sha +:+ " dirty=" +:+ dirty; "host_kernel=" +:+ hk; "cpu_model=" +:+ cpu;
      "governor=" +:+ gov +:+ " smt_control=" +:+ smt +:+ " cpufreq_boost=" +:+ boost +:+ " virt=" +:+ virt
      +:+ " steal_start_ticks=" +:+ steal +:+ " loadavg_1m=" +:+ la;
      "client_granularity_ns=" +:+ gran; "shuffle_seed=" +:+ seed].
Definition rstrip (s : string) : string := rstrip_chars is_space s.
Fixpoint before_section (lines : list string) : list string :=
  match lines with
  | [] => []
  | l :: lines => if startswith l "## " then [] else rstrip l :: before_section lines
  end.
(** [while header and header[-1] == "": header.pop()] *)
Fixpoint pop_blank (header : list string) : list string :=
  match header with
  | [] => []
  | l :: header => match pop_blank header with
                   | [] => if String.eqb l "" then [] else [l]
                   | h => l :: h
                   end
  end.
Definition pin_lines (rev : string) (n : nat) (batches : list string) : list string :=
  ["rev:                   " +:+ rev; "n_recorded:            " +:+ str_of_nat n;
   "batches:               " +:+ batch_list batches; "source:                git show " +:+ rev +:+ ":results/runs.csv"].
Definition write_machine_spec (base_rec after_rec : list row) (baseline_summary : string) (t48_rec : list row) : res string :=
  let header := pop_blank (before_section (splitlines baseline_summary)) in
  let extra := ["";
                "tag:                   " +:+ BASELINE_TAG;
                "n_recorded:            " +:+ str_of_nat (length base_rec);
                "batches:               " +:+ batch_list BASELINE_BATCHES;
                "source:                git show " +:+ BASELINE_TAG +:+ ":results/baseline-summary.txt"] in
  after_fields ← csv_field_block after_rec (LADDER_LABEL +:+ " " +:+ short12 AFTER_REV);
  let after_block := [""; "## after-ladder (" +:+ LADDER_LABEL +:+ ")"; ""] ++ after_fields
    ++ pin_lines AFTER_REV (length after_rec) AFTER_BATCHES in
  t48_block ← match t48_rec with
              | [] => Ok []
              | _ => fields ← csv_field_block t48_rec ("T4.8 " +:+ short12 T48_REV);
                     Ok ([""; "## T4.8 five-arm campaign"; ""] ++ fields ++ pin_lines T48_REV (length t48_rec) T48_BATCHES)
              end;
  Ok (GENERATED +:+ nl +:+ nl +:+ lines_ header +:+ nl +:+ lines_ extra +:+ nl +:+ lines_ after_block +:+ nl
      +:+ lines_ t48_block +:+ nl).

(** ** The phase decomposition *)
Definition named_stat (d : deltas) (name : string) : res (option (num * num * num)) :=
  match od_get name d with Some vals => Some <$> stat vals | None => Ok None end.
Definition opt_cell (o : option num) : string := match o with Some x => fmt_ns x | None => "—" end.
Definition phase_table_row (safe fast after_fast : deltas) (name : string) : res (list string) :=
  if negb (od_in name fast) && negb (od_in name safe) then Ok [] else
  s ← named_stat safe name;
  f ← named_stat fast name;
  a ← named_stat after_fast name;
  let s_med := (λ x : num * num * num, x.1.1) <$> s in
  let f_med := (λ x : num * num * num, x.1.1) <$> f in
  let '(after_cell, delta_cell) :=
    match a with
    | Some (a_med, _, _) => (fmt_ns a_med, match f_med with Some m => fmt_delta (num_sub a_med m) | None => "—" end)
    | None => ("—", "—")
    end in
  Ok [cells [md_cell name; md_cell (default "" (od_get name PHASE_WHAT)); opt_cell s_med; opt_cell f_med;
             opt_cell ((λ x : num * num * num, x.1.2) <$> f); opt_cell ((λ x : num * num * num, x.2) <$> f);
             after_cell; delta_cell; md_cell (default "" (od_get name PHASE_NECESSARY))]].
Definition phase_table_header : list string :=
  ["| phase | what the work is | safe median | fast median | fast IQR | fast min | after-ladder median | Δ vs "
    +:+ "baseline | structurally necessary? |";
   "|---|---|---:|---:|---:|---:|---:|---:|---|"].
Definition ranked_phase (after_fast : deltas) (name : string) : res (list (num * string)) :=
  match od_get name after_fast with Some vals => '(med, _, _) ← stat vals; Ok [(med, name)] | None => Ok [] end.
(** [ranked.sort(reverse=True)] on (median, name) pairs. *)
Definition rank_ltb (a b : num * string) : bool :=
  if num_eqb a.1 b.1 then negb (str_leb b.2 a.2) else num_ltb a.1 b.1.
Definition sort_ranked (l : list (num * string)) : list (num * string) := sort_by (λ a b, negb (rank_ltb a b)) l.
Definition share_line (e2e3g_after_fast : num) (mn : num * string) : res string :=
  share ← (if num_zerob e2e3g_after_fast then Ok (NFlt (float_lit "0.0"))
           else num_truediv (num_mul (NFlt (float_lit "100.0")) mn.1) e2e3g_after_fast);
  Ok ("| " +:+ md_cell mn.2 +:+ " | " +:+ fmt_ns mn.1 +:+ " | " +:+ num_fixed 0 share +:+ "% |").
Definition share_intro (e2e3g_after_fast : num) : list string :=
  ["";
   "After-ladder (" +:+ LADDER_LABEL +:+ ") fast-boot E2→E3g median is **" +:+ fmt_ns e2e3g_after_fast
    +:+ "** (share denominator; baseline fast E2→E3g stays in the columns to the left). Share is (after-ladder "
    +:+ "phase median) / (after-ladder E2→E3g median), not a median of ratios.";
   "";
   "| phase | " +:+ LADDER_LABEL +:+ " fast median | share of " +:+ LADDER_LABEL +:+ " E2→E3g |";
   "|---|---:|---:|"].
Definition phase_caption : string :=
  "<!-- generated by scripts/report-exhibits.py — do not edit -->" +:+ nl +:+ nl
   +:+ "Safe / fast / IQR / min columns: tag `" +:+ BASELINE_TAG +:+ "` via `git show " +:+ BASELINE_TAG
   +:+ ":results/{runs,phases}.csv` (batches `" +:+ batch_nth 0 BASELINE_BATCHES +:+ "` / `"
   +:+ batch_nth 1 BASELINE_BATCHES +:+ "`, n=60 per config)." +:+ nl +:+ nl +:+ "After-ladder and Δ columns: `"
   +:+ AFTER_REV +:+ "` via `git show " +:+ AFTER_REV +:+ ":results/{runs,phases}.csv` (" +:+ LADDER_LABEL
   +:+ " batches `" +:+ batch_nth 0 AFTER_BATCHES +:+ "` / `" +:+ batch_nth 1 AFTER_BATCHES
   +:+ "`, measured kernel `" +:+ AFTER_SHA_PREFIX +:+ "`, n=60 per config). After-ladder is the fast-boot "
   +:+ "median. Δ is after-ladder minus baseline fast. Working-tree CSVs are not read. Regeneration: `just "
   +:+ "report-exhibits`." +:+ nl +:+ nl.
Definition write_phase_table (base_rec base_phases after_rec after_phases : list row) (e2e3g_after_fast : num) : res string :=
  safe ← phase_deltas base_rec base_phases SAFE;
  fast ← phase_deltas base_rec base_phases FAST;
  after_fast ← phase_deltas after_rec after_phases FAST;
  rows ← mapR (phase_table_row safe fast after_fast) PHASE_ORDER;
  ranked ← mapR (ranked_phase after_fast) PHASE_ORDER;
  shares ← mapR (share_line e2e3g_after_fast) (sort_ranked (List.concat ranked));
  Ok (phase_caption +:+ lines_ (phase_table_header ++ List.concat rows) +:+ nl
      +:+ lines_ (share_intro e2e3g_after_fast ++ shares) +:+ nl).

(** ** Edges *)
Record edge_acc := { ea_e3g : list num; ea_doorbell : list num; ea_overhead : list num }.
(** One phase row of the arm; the old-schema edges read the doorbell, and the
    stamp overhead of the fast arm only. *)
Definition edge_step (config : string) (keys : list pair_key) (doorbell overhead : bool) (a : edge_acc) (p : row) : res edge_acc :=
  w ← get_int "warmup" p;
  if negb (w =? 0) then Ok a else
  b ← has_config config p;
  if negb b then Ok a else
  k ← pair_key_of p;
  if negb (bool_decide (k ∈ keys)) then Ok a else
  ph ← get "phase" p;
  e ← (if is_str ph "E3g" then v ← float_of "ns_since_e2" p; Ok [v] else Ok []);
  d ← (if doorbell && is_str ph "E3g_doorbell" then v ← float_of "delta_ns" p; Ok [v] else Ok []);
  o ← (if overhead && is_str ph "stamp_b" then v ← float_of "delta_ns" p; Ok [v] else Ok []);
  Ok {| ea_e3g := ea_e3g a ++ e; ea_doorbell := ea_doorbell a ++ d; ea_overhead := ea_overhead a ++ o |}.
Definition edges_of (config : string) (cfg_rows phases : list row) (doorbell overhead : bool) : res edge_acc :=
  keys ← mapR pair_key_of cfg_rows;
  foldM (edge_step config keys doorbell overhead) {| ea_e3g := []; ea_doorbell := []; ea_overhead := [] |} phases.
Definition STAMP_OVERHEAD : string := "stamp overhead (`stamp_b`−`stamp_a`)".
Definition edge_vals (rec phases : list row) (config : string) : res deltas :=
  cfg_rows ← config_rows rec config;
  a ← edges_of config cfg_rows phases true (String.eqb config FAST);
  connect ← mapR (float_of "e0_to_first_connect_ns") cfg_rows;
  e3w ← mapR (float_of "e0_to_e3w_ns") cfg_rows;
  e4 ← mapR (float_of "e0_to_e4_ns") cfg_rows;
  Ok ([("E0→first-connect", connect); ("E0→E3w", e3w); ("E0→E4", e4); ("E3w→E4", zip_with num_sub e4 e3w);
       ("E2→E3g", ea_e3g a); ("E3g_doorbell − E3g", ea_doorbell a)]
      ++ match ea_overhead a with [] => [] | o => [(STAMP_OVERHEAD, o)] end).
Definition edge_vals_new (rec phases : list row) (config : string) : res deltas :=
  cfg_rows ← config_rows rec config;
  a ← edges_of config cfg_rows phases false true;
  connect ← mapR (float_of "e0_to_first_connect_ns") cfg_rows;
  e4 ← mapR (float_of "e0_to_e4_ns") cfg_rows;
  fin ← mapR (float_of "d_fin_ns") cfg_rows;
  ack ← mapR (float_of "d_ack_ns") cfg_rows;
  whim ← (match head cfg_rows with
          | Some r0 => if is_str (get_or "system" PNone r0) "whimbrel" then
                         w ← mapR (float_of "w_ns") cfg_rows;
                         Ok ([("W", w); ("E2→E3g", ea_e3g a)] ++ match ea_overhead a with [] => [] | o => [(STAMP_OVERHEAD, o)] end)
                       else Ok []
          | None => Ok []
          end : res deltas);
  Ok ([("E0→first-connect (control)", connect); ("E0→E4", e4); ("D_fin", fin); ("D_ack", ack)] ++ whim).
Definition EDGE_METRICS : list string :=
  ["E0→first-connect"; "E0→E3w"; "E0→E4"; "E3w→E4"; "E2→E3g"; "E3g_doorbell − E3g"].
Definition EDGE_HEADER : list string := ["| config | metric | n | median | IQR | min |"; "|---|---|---:|---:|---:|---:|"].
Definition edge_rows (rec phases : list row) (cfg : string) : res (list string) :=
  vals ← edge_vals rec phases cfg;
  mapR (λ metric, v ← of_option (KeyError (repr_str metric)) (od_get metric vals); metric_row cfg metric v) EDGE_METRICS.
(** The lines [append_edge_table] appends. *)
Definition append_edge_table (rec phases : list row) (title : string) : res (list string) :=
  rows ← mapR (edge_rows rec phases) [FAST; SAFE];
  fast ← edge_vals rec phases FAST;
  over ← match od_get STAMP_OVERHEAD fast with
         | None | Some [] => Ok []
         | Some vals => l ← metric_row FAST STAMP_OVERHEAD vals; Ok [l]
         end;
  Ok ([title; ""] ++ EDGE_HEADER ++ List.concat rows ++ over ++ [""]).
Definition NEW_EDGE_METRICS : list string :=
  ["E0→first-connect (control)"; "E0→E4"; "E2→E3g"; "D_fin"; "W"; "D_ack"; STAMP_OVERHEAD].
Definition new_edge_rows (rec phases : list row) (cfg : string) : res (list string) :=
  vals ← edge_vals_new rec phases cfg;
  ls ← mapR (λ metric, match od_get metric vals with Some v => l ← metric_row cfg metric v; Ok [l] | None => Ok [] end)
         NEW_EDGE_METRICS;
  Ok (List.concat ls).
Definition edges_intro : list string :=
  ["<!-- generated by scripts/report-exhibits.py — do not edit -->";
   "";
   "Host-observed edges and guest E2→E3g. Warmup excluded, both batches of each freeze pooled (n=60 recorded "
    +:+ "per config). E3w is first-connect plus the pcap-relative SYN/ACK→HTTP interval (D-0043); E3w→E4 is "
    +:+ "`e0_to_e4_ns − e0_to_e3w_ns`. Those two metrics are retired (D-0070 / D-0071) and retained here only "
    +:+ "as the record of the mislabeling.";
   "";
   "Baseline sourced from `git show " +:+ BASELINE_TAG +:+ ":results/{runs,phases}.csv`. After-ladder sourced "
    +:+ "from `git show " +:+ AFTER_REV +:+ ":results/{runs,phases}.csv`.";
   ""].
Definition edges_t48_intro : list string :=
  ["### T4.8 Whimbrel arms (`" +:+ short12 T48_REV +:+ "`, new schema)";
   "";
   "Same host and QEMU as the cross-system campaign; three Linux arms interleaved. `csum=off` / TSO-family off "
    +:+ "on the shared virtio-net-device args (no-op for Whimbrel). E0→first-connect is a control. W is "
    +:+ "guest-boot wait (SYN/ACK − slirp ARP), Whimbrel-only — it does not appear on the cross-system table. "
    +:+ "Never E0→E3w / E3w→E4.";
   "";
   "| config | metric | n | median | IQR | min |";
   "|---|---|---:|---:|---:|---:|"].
Definition write_edges (base_rec base_phases after_rec after_phases : list row) (t48 : option (list row * list row)) : res string :=
  base ← append_edge_table base_rec base_phases ("### Baseline (`" +:+ BASELINE_TAG +:+ "`)");
  after ← append_edge_table after_rec after_phases
            ("### After-ladder (" +:+ LADDER_LABEL +:+ ", `" +:+ short12 AFTER_REV +:+ "`)");
  new ← match t48 with
        | Some (rec, phases) => rows ← mapR (new_edge_rows rec phases) [FAST; SAFE];
                                Ok (edges_t48_intro ++ List.concat rows ++ [""])
        | None => Ok []
        end;
  Ok (lines_ (edges_intro ++ base ++ after ++ new)).

(** ** The bump campaign *)
Definition count_rows (rec : list row) (cfg : string) : res nat := rows ← config_rows rec cfg; Ok (length rows).
(** [batches[0], batches[1]] of the sorted batches. *)
Definition first_batches (rec : list row) : res (string * string) :=
  bs ← batches_of rec;
  b0 ← of_option IndexError (bs !! 0%nat); b1 ← of_option IndexError (bs !! 1%nat); Ok (py_str b0, py_str b1).
Definition pmed (d : deltas) (phase label : string) : res num :=
  nonempty_median ("TEST FAIL: " +:+ label +:+ " has no recorded " +:+ phase +:+ " rows") (default [] (od_get phase d)).
Definition pct (base t44 : num) : res string :=
  q ← num_truediv (num_sub t44 base) base; Ok (fmt_plus0 (num_mul q (NInt 100)) +:+ "%").
(** Phase, profile and what the row is. *)
Definition T44_PHASE_ROWS : list (string * string * string) :=
  [("frame_init", "fast", "D-0065 outcome row — the bump-pointer collapse");
   ("accounting", "fast", "D-0065 outcome row — arithmetic `free_count()`");
   ("page_verify", "fast", "unnamed mover; warm-cache half of the matched TCG pair");
   ("E3g", "fast", "unnamed mover; same matched pair");
   ("freeze", "fast", "the T4.6 rung's before — a different pin from the baseline column, not a conflict");
   ("freeze", "safe", "safe profile prints `free_count()`; D-0065 outcome row")].
Definition t44_phase (base_fast base_safe t44_fast t44_safe : deltas) (x : string * string * string) :
    res (string * string * num * num * string) :=
  let '(phase, profile, note) := x in
  let fast := String.eqb profile "fast" in
  b ← pmed (if fast then base_fast else base_safe) phase ("baseline " +:+ profile);
  t ← pmed (if fast then t44_fast else t44_safe) phase ("T4.4 " +:+ profile);
  Ok (phase, profile, b, t, note).
Definition t44_edge_line (x : string * string * num * num) : res string :=
  let '(cfg, metric, b, t) := x in
  p ← pct b t; Ok ("| " +:+ cfg +:+ " | " +:+ metric +:+ " | " +:+ fmt_ns b +:+ " | " +:+ fmt_ns t +:+ " | "
                    +:+ fmt_delta (num_sub t b) +:+ " | " +:+ p +:+ " |").
Definition t44_phase_line (x : string * string * num * num * string) : res string :=
  let '(phase, profile, b, t, note) := x in
  p ← pct b t; Ok ("| " +:+ phase +:+ " | " +:+ profile +:+ " | " +:+ fmt_ns b +:+ " | " +:+ fmt_ns t +:+ " | "
                    +:+ p +:+ " | " +:+ note +:+ " |").
Definition t44_intro (b0 b1 : string) (n : nat) : list string :=
  ["<!-- generated by scripts/report-exhibits.py — do not edit -->";
   "";
   "T4.4 bump / lazy free-list campaign (D-0065), kept as the pre-superpage pin. Source: `git show " +:+ T44_REV
    +:+ ":results/{runs,phases}.csv` (batches `" +:+ b0 +:+ "` / `" +:+ b1 +:+ "`, measured kernel `"
    +:+ T44_SHA_PREFIX +:+ "`, n=" +:+ str_of_nat n +:+ " recorded per config, warmup excluded). Baseline "
    +:+ "columns: tag `baseline-t4.3`. Old-schema pin: E2→E3g is phases.csv `ns_since_e2` at `E3g` — the same "
    +:+ "construction as the baseline and T4.6 pins. The after-ladder (T4.6) columns live in "
    +:+ "[phase-decomposition.md](phase-decomposition.md) and [edges.md](edges.md); this exhibit is the rung "
    +:+ "between. Working-tree CSVs are not read. Regeneration: `just report-exhibits`.";
   "";
   "### Headline edges (`baseline-t4.3` → T4.4)";
   "";
   "| config | metric | baseline | T4.4 | Δ | Δ% |";
   "|---|---|---:|---:|---:|---:|"].
Definition write_t44_bump (t44_rec t44_phases base_rec base_phases : list row) : res string :=
  n ← count_rows t44_rec FAST;
  bs ← batches_of t44_rec;
  e1b ← e2e3g_median base_rec base_phases FAST None; e1t ← e2e3g_median t44_rec t44_phases FAST None;
  e2b ← cfg_median base_rec FAST "e0_to_e4_ns"; e2t ← cfg_median t44_rec FAST "e0_to_e4_ns";
  e3b ← e2e3g_median base_rec base_phases SAFE None; e3t ← e2e3g_median t44_rec t44_phases SAFE None;
  t44_fast ← phase_deltas t44_rec t44_phases FAST;
  t44_safe ← phase_deltas t44_rec t44_phases SAFE;
  base_fast ← phase_deltas base_rec base_phases FAST;
  base_safe ← phase_deltas base_rec base_phases SAFE;
  phase_rows ← mapR (t44_phase base_fast base_safe t44_fast t44_safe) T44_PHASE_ROWS;
  '(b0, b1) ← first_batches t44_rec;
  edge_lines ← mapR t44_edge_line [(FAST, "E2→E3g", e1b, e1t); (FAST, "E0→E4", e2b, e2t); (SAFE, "E2→E3g", e3b, e3t)];
  phase_lines ← mapR t44_phase_line phase_rows;
  Ok (lines_ (t44_intro b0 b1 n ++ edge_lines ++
              ["";
               "### Phase medians the report quotes";
               "";
               "| phase | profile | baseline | T4.4 | Δ% | what it is |";
               "|---|---|---:|---:|---:|---|"] ++ phase_lines ++
              ["";
               "The fast `freeze` cell is the value the draft's matched-TCG-pair discussion quotes as the T4.6 "
                +:+ "rung's before. It sits beside a baseline column from a different campaign pin; the two "
                +:+ "values are two pins, not a disagreement.";
               ""])).

(** ** The ladder *)
Record ladder_env := { le_base_e2 : num; le_after_e2 : num; le_bar : num; le_after_fast : deltas; le_cur : entry; le_cur_e4 : num;
                       le_pins : odict string (list row * list row) }.
Abbreviation ladder_row := (string * string * string * string * string)%type.
Definition key_of_rung {A} (k : string) (o : option A) : res A := of_option (KeyError (repr_str k)) o.
(** A baseline or landed rung: its pin agrees with the value its decision quotes. *)
Definition landed_row (le : ladder_env) (g : rung) : res ladder_row :=
  pin ← key_of_rung "pin" (rg_pin g);
  '(rec, ph) ← key_of_rung pin (od_get pin (le_pins le));
  med ← e2e3g_median rec ph FAST None;
  quoted ← key_of_rung "quoted_ms" (rg_quoted_ms g);
  _ ← raise_when (num_gtb (num_abs (num_sub (over e6 med) quoted)) (NFlt (float_lit "0.005"))) (ExhibitFail
        ("TEST FAIL: ladder row " +:+ repr_str (rg_rung g) +:+ " disagrees with its pin: pin median "
          +:+ fmt_ns med +:+ ", " +:+ rg_decision g +:+ " quotes " +:+ num_fixed 2 quoted +:+ " ms"));
  delta_cell ← (if String.eqb (rg_kind g) "baseline" then Ok "0" else
                let delta := num_sub med (le_base_e2 le) in
                q ← num_truediv delta (le_base_e2 le);
                Ok (replace "-" "−" (fmt_delta delta +:+ " (" +:+ fmt_plus0 (num_mul q (NInt 100)) +:+ "%)")));
  disp ← key_of_rung "disposition" (rg_disposition g);
  Ok (rg_rung g, rg_decision g, fmt_ns med, delta_cell, disp).
(** The share, bar and E0-E4 fraction of a declined rung that names a phase. *)
Definition declined_detail (le : ladder_env) (v_med : num) (side : string) : res string :=
  share ← num_truediv v_med (le_after_e2 le); let share := num_mul share (NInt 100) in
  pct_e4 ← num_truediv v_med (le_cur_e4 le); let pct_e4 := num_mul pct_e4 (NInt 100) in
  Ok (fmt_ns v_med +:+ " = " +:+ num_fixed 0 share +:+ "% of the after-ladder E2→E3g ("
       +:+ fmt_ns (le_after_e2 le) +:+ "), " +:+ side +:+ " the 5% bar (" +:+ fmt_ns (le_bar le) +:+ "); "
       +:+ num_fixed 1 pct_e4 +:+ "% of the " +:+ en_label (le_cur le) +:+ " `" +:+ FAST +:+ "` E0→E4 ("
       +:+ fmt_ns (le_cur_e4 le) +:+ ")").
Definition declined_row (le : ladder_env) (g : rung) : res ladder_row :=
  let reason := strip (default "" (rg_reason g)) in
  match rg_phase g with
  | None =>
    _ ← raise_when (String.eqb reason "") (ExhibitFail ("TEST FAIL: ladder row " +:+ repr_str (rg_rung g)
          +:+ " is declined without a reason"));
    Ok (rg_rung g, rg_decision g, "–", "–", reason)
  | Some phase =>
    v_med ← nonempty_median ("TEST FAIL: ladder has no recorded " +:+ phase +:+ " rows on the after-ladder pin")
              (default [] (od_get phase (le_after_fast le)));
    let side := if num_geb v_med (le_bar le) then "above" else "below" in
    _ ← raise_when (String.eqb reason "") (ExhibitFail ("TEST FAIL: ladder row " +:+ repr_str (rg_rung g)
          +:+ " is declined " +:+ side +:+ " the 5% bar without a reason"));
    detail ← declined_detail le v_med side;
    Ok (rg_rung g, rg_decision g, "–", "–", reason +:+ ". " +:+ detail)
  end.
Definition rung_row (le : ladder_env) (g : rung) : res ladder_row :=
  if String.eqb (rg_kind g) "baseline" || String.eqb (rg_kind g) "landed" then landed_row le g
  else if negb (String.eqb (rg_kind g) "declined") then
    Err (ExhibitFail ("TEST FAIL: ladder row " +:+ repr_str (rg_rung g) +:+ " has unknown kind " +:+ repr_str (rg_kind g)))
  else declined_row le g.
Definition ladder_line (x : ladder_row) : string :=
  let '(name, decision, after_cell, delta_cell, disp) := x in
  "| " +:+ md_cell name +:+ " | " +:+ decision +:+ " | " +:+ after_cell +:+ " | " +:+ delta_cell +:+ " | "
   +:+ md_cell disp +:+ " |".
Definition ladder_intro (cur : entry) : list string :=
  ["<!-- generated by scripts/report-exhibits.py — do not edit -->";
   "";
   "The optimization ladder (D-0058 governance; closed by D-0083). Fast-boot (`" +:+ FAST
    +:+ "`) E2→E3g per rung, from the pins: tag `" +:+ BASELINE_TAG +:+ "` (batches `"
    +:+ batch_nth 0 BASELINE_BATCHES +:+ "` / `" +:+ batch_nth 1 BASELINE_BATCHES +:+ "`, measured kernel `"
    +:+ BASELINE_SHA_PREFIX +:+ "`), tag `" +:+ T44_REV +:+ "` (batches `" +:+ batch_nth 0 T44_BATCHES +:+ "` / `"
    +:+ batch_nth 1 T44_BATCHES +:+ "`, measured kernel `" +:+ T44_SHA_PREFIX +:+ "`), and `" +:+ AFTER_REV
    +:+ "` (batches `" +:+ batch_nth 0 AFTER_BATCHES +:+ "` / `" +:+ batch_nth 1 AFTER_BATCHES
    +:+ "`, measured kernel `" +:+ AFTER_SHA_PREFIX +:+ "`), n=60 recorded per config, warmup excluded. "
    +:+ "Declined rungs are rows carrying their reasons. The 5% bar is "
    +:+ num_fixed 0 (num_mul LADDER_BAR_FRACTION (NInt 100)) +:+ "%" +:+ " of the after-ladder E2→E3g median "
    +:+ "(D-0058). The E0→E4 fraction on a declined row reads the " +:+ en_label cur +:+ " comparison pin (`"
    +:+ en_rev cur +:+ "`), the comparison the decision cites. Each baseline and landed row's after value is "
    +:+ "cross-checked against the value its decision entry quotes; a disagreement refuses to generate. "
    +:+ "Working-tree CSVs are not read. Regeneration: `just report-exhibits`.";
   "";
   "| rung | decision | fast E2→E3g after | cumulative Δ vs `" +:+ BASELINE_TAG +:+ "` | disposition |";
   "|---|---|---:|---:|---|"].
Definition ladder_outro : list string :=
  ["";
   "Every rung is landed-with-row or declined-with-reason (D-0064 gate 2). Closing the ladder does not declare "
    +:+ "the floor: the floor language stays the minimum structurally necessary under these conditions, bounded "
    +:+ "below by the rows argued necessary (D-0064, D-0083).";
   ""].
Definition write_ladder (base t44 after : list row * list row) (cur_rec : list row) (cur_entry : entry) (rungs : list rung) :
    res string :=
  base_e2 ← e2e3g_median base.1 base.2 FAST None;
  after_e2 ← e2e3g_median after.1 after.2 FAST None;
  after_fast ← phase_deltas after.1 after.2 FAST;
  cur_e4 ← cfg_median cur_rec FAST "e0_to_e4_ns";
  let le := {| le_base_e2 := base_e2; le_after_e2 := after_e2; le_bar := num_mul LADDER_BAR_FRACTION after_e2;
               le_after_fast := after_fast; le_cur := cur_entry; le_cur_e4 := cur_e4;
               le_pins := [("baseline", base); ("t44", t44); ("after", after)] |} in
  rows ← mapR (rung_row le) rungs;
  Ok (lines_ (ladder_intro cur_entry ++ (ladder_line <$> rows) ++ ladder_outro)).
