(* ===== verification/ExhibitCross.v ===== *)
(** * The cross-system exhibits (scripts/report-exhibits.py)

    The five-arm comparisons T4.8, T4.8b and T4.8c, the alias of the current one,
    the dump-placement comparison and the firmware exhibit. *)
From S2P Require Import Prelude PyStr PyFloat PyData PcapHttp PinGates ExhibitPins ExhibitFixtures ExhibitGates ExhibitTables.

(** ** The tables the comparisons share *)
Abbreviation arm := (string * string)%type.
(** [{cfg: cfg_median(rec, cfg, field) for _sys, cfg in T48_ARM_ORDER}] *)
Definition arm_medians (rec : list row) (field : string) : res (odict string num) :=
  mapR (λ a : arm, m ← cfg_median rec a.2 field; Ok (a.2, m)) T48_ARM_ORDER.
(** The value of an arm in such a table, which has them all. *)
Definition at_arm (d : odict string num) (cfg : string) : num := default (NInt 0) (od_get cfg d).
Definition spread (d : odict string num) : res num := hi ← num_max d.*2; lo ← num_min d.*2; Ok (num_sub hi lo).
Definition comparison_row (rec : list row) (a : arm) : res string :=
  let '(sys, cfg) := a in
  rows ← config_rows rec cfg;
  e4s ← mapR (float_of "e0_to_e4_ns") rows;
  dfins ← mapR (float_of "d_fin_ns") rows;
  '(med, iq, mn) ← stat e4s;
  dmed ← median dfins;
  Ok ("| " +:+ sys +:+ " | " +:+ cfg +:+ " | " +:+ str_of_nat (length rows) +:+ " | " +:+ fmt_ns med +:+ " | "
       +:+ fmt_ns iq +:+ " | " +:+ fmt_ns mn +:+ " | " +:+ fmt_ns dmed +:+ " |").
Definition control_row (rec : list row) (a : arm) : res string :=
  let '(sys, cfg) := a in
  rows ← config_rows rec cfg;
  vals ← mapR (float_of "e0_to_first_connect_ns") rows;
  '(med, iq, mn) ← stat vals;
  Ok ("| " +:+ sys +:+ " | " +:+ cfg +:+ " | " +:+ str_of_nat (length rows) +:+ " | " +:+ fmt_ns med +:+ " | "
       +:+ fmt_ns iq +:+ " | " +:+ fmt_ns mn +:+ " |").
(** The before and after of an arm. *)
Definition delta_row (e4a e4b : odict string num) (why : odict string string) (a : arm) : string :=
  let cfg := a.2 in
  "| " +:+ cfg +:+ " | " +:+ fmt_ns (at_arm e4a cfg) +:+ " | " +:+ fmt_ns (at_arm e4b cfg) +:+ " | "
   +:+ fmt_delta (num_sub (at_arm e4b cfg) (at_arm e4a cfg)) +:+ " | " +:+ default "" (od_get cfg why) +:+ " |".
(** What an arm table quotes: the E0-E4 medians, the E2-E3g median of the fast
    arm, the spread of the controls, the two ratios. *)
Record arms := { am_e4 : odict string num; am_e2 : num; am_span : num }.
Definition fast_e4 (x : arms) : num := at_arm (am_e4 x) FAST.
Definition trim_e4 (x : arms) : num := at_arm (am_e4 x) "trimmed".
Definition stock_e4 (x : arms) : num := at_arm (am_e4 x) "stock".
Definition instr_e4 (x : arms) : num := at_arm (am_e4 x) "trimmed-instrumented".
Definition ratios (e4 : odict string num) : res (string * string) :=
  t ← fmt_ratio (at_arm e4 "trimmed") (at_arm e4 FAST); s ← fmt_ratio (at_arm e4 "stock") (at_arm e4 FAST); Ok (t, s).

(** ** T4.8 *)
Definition t48_intro : list string :=
  ["<!-- generated by scripts/report-exhibits.py — do not edit -->";
   "";
   "T4.8 five-arm campaign. **RISC-V under QEMU TCG software emulation** (not x86, not KVM hardware "
    +:+ "virtualization). Source: `git show " +:+ T48_REV +:+ ":results/{runs,phases}.csv` (batches `"
    +:+ batch_nth 0 T48_BATCHES +:+ "` / `" +:+ batch_nth 1 T48_BATCHES +:+ "`, measured kernel `"
    +:+ T48_SHA_PREFIX +:+ "`, n=" +:+ str_of_nat T48_N_PER_ARM +:+ " recorded per arm, warmup excluded). "
    +:+ "Working-tree CSVs are not read. Regeneration: `just report-exhibits`.";
   "";
   "E0→E4 is the comparison: two direct client-clock stamps. No E3w-derived column (D-0070 / D-0071). W is not "
    +:+ "in this table — it is the accepted connection waiting for the guest, and a cell next to Linux would be "
    +:+ "boot-wait in disguise. Whimbrel W lives in [edges.md](edges.md) (T4.8 section). E0→first-connect is a "
    +:+ "same-QEMU **control**, not a comparison. D_fin is the same pcap definition on every row (client FIN − "
    +:+ "HTTP frame). Linux guest decomposition is [linux-decomposition.md](linux-decomposition.md) (T4.8 "
    +:+ "instrumented serial plus D-0072 labels on the same Image; not a sixth arm).";
   "";
   "### Comparison (E0→E4)";
   "";
   "| system | config | n | E0→E4 median | IQR | min | D_fin median |";
   "|---|---|---:|---:|---:|---:|---:|"].
Definition t48_ratio_lines (x : arms) (ratio_trim ratio_stock : string) : list string :=
  ["";
   "Ratios below are E0→E4 medians on **RISC-V under QEMU TCG software emulation**, same host, same QEMU, both "
    +:+ "arms. Published unikernel and microVM boot figures come from x86 under KVM hardware virtualization, "
    +:+ "and the medians in this table compare with none of them; the ratio is the comparable quantity, because "
    +:+ "the emulation penalty applies to both arms.";
   "";
   "- `release-fast-boot` / `trimmed` = **" +:+ ratio_trim +:+ "**";
   "- `release-fast-boot` / `stock` = **" +:+ ratio_stock +:+ "**";
   "";
   "This is what a single-purpose VM's structure buys under those conditions, not a " +:+ dq +:+ "fastest" +:+ dq
    +:+ " claim. Whimbrel's guest work is E2→E3g " +:+ fmt_ns (am_e2 x)
    +:+ " in this campaign ([phase-decomposition.md](phase-decomposition.md) is the after-ladder breakdown of "
    +:+ "that interval).";
   "";
   "### Control (E0→first-connect)";
   "";
   "Listener-up during QEMU netdev init. Guest-independent. A miss fails the run; it is not " +:+ dq
    +:+ "Linux connects slower." +:+ dq;
   "";
   "| system | config | n | median | IQR | min |";
   "|---|---|---:|---:|---:|---:|"].
Definition t48_trim_lines (x : arms) (linux_w_trim linux_w_trim_iqr : num) : list string :=
  ["";
   "Span of medians: " +:+ fmt_ns (am_span x) +:+ " (bound 1 ms).";
   "";
   "### Trim and observer cost (Linux, same campaign)";
   "";
   "| comparison | Δ E0→E4 (median − median) | what it is |";
   "|---|---:|---|";
   "| `stock` − `trimmed` | " +:+ fmt_ns (num_sub (stock_e4 x) (trim_e4 x)) +:+ " | trim removed real work; "
    +:+ "tripwire did not fire |";
   "| `trimmed-instrumented` − `trimmed` | " +:+ fmt_ns (num_sub (instr_e4 x) (trim_e4 x))
    +:+ " | `loglevel=7 printk.time=1 initcall_debug` on the same `Image-trimmed` binary |";
   "";
   "The published Linux row is `trimmed`. Config: `bench/linux/linux-trimmed.fragment` merged onto "
    +:+ "`qemu_riscv64_virt_defconfig` (Buildroot 2026.02.3, kernel 6.18.7, `bench/linux/PIN`). Same Image hash "
    +:+ "on `trimmed` and `trimmed-instrumented` (MANIFEST `Image-trimmed`).";
   "";
   "### Confound A evidence (Linux W, not a comparison)";
   "";
   "`trimmed` W median " +:+ fmt_ns linux_w_trim +:+ ", IQR " +:+ fmt_ns linux_w_trim_iqr
    +:+ ". An IQR of a few milliseconds at ~700 ms is incompatible with SYN arrival snapped to slirp's ≥1 s RTO "
    +:+ "grid. The campaign published: SYN-grid and RST gates fail-closed per Linux trial, including warmup.";
   "";
   "### S is per system, never pooled across systems";
   ""].
Definition t48_tail_lines (x : arms) (t46_e2 : num) : list string :=
  ["S (pre-ARP QEMU-startup slice) is a batch-header diagnostic, not a `runs.csv` column and not a report "
    +:+ "number (D-0071). It is per host and per guest-image size: Whimbrel safe and fast may be pooled with "
    +:+ "each other (profile-independent on one ELF); they must not be pooled with Linux (Image load lands in "
    +:+ "S, D-0062). A five-arm pooled S, and a wide IQR on that pool, is two populations — not noise. "
    +:+ "Whimbrel's S in this campaign's header stays at the ~6.8 ms constant of [d0070-pcap.md](d0070-pcap.md) "
    +:+ "(S := −residual).";
   "";
   "### E2→E3g held across campaign shape";
   "";
   "T4.8 `release-fast-boot` E2→E3g median " +:+ fmt_ns (am_e2 x) +:+ ". T4.6 after-ladder (dump-placement / "
    +:+ "edges pin `" +:+ short12 AFTER_REV +:+ "`) " +:+ fmt_ns t46_e2 +:+ " (Δ "
    +:+ fmt_delta (num_sub (am_e2 x) t46_e2) +:+ "). Three extra Linux arms were interleaved in T4.8. This is "
    +:+ "reproducibility across a different campaign shape, not a new rung.";
   ""].
Definition write_cross_system (t48_rec t48_phases t46_rec t46_phases : list row) : res string :=
  e4 ← arm_medians t48_rec "e0_to_e4_ns";
  t48_e2 ← e2e3g_median t48_rec t48_phases FAST None;
  t46_e2 ← e2e3g_median t46_rec t46_phases FAST None;
  conn ← arm_medians t48_rec "e0_to_first_connect_ns";
  conn_span ← spread conn;
  linux_w_trim ← cfg_median t48_rec "trimmed" "w_ns";
  linux_w_trim_iqr ← cfg_iqr t48_rec "trimmed" "w_ns";
  rows ← mapR (comparison_row t48_rec) T48_ARM_ORDER;
  '(rt, rs) ← ratios e4;
  controls ← mapR (control_row t48_rec) T48_ARM_ORDER;
  let x := {| am_e4 := e4; am_e2 := t48_e2; am_span := conn_span |} in
  Ok (lines_ (t48_intro ++ rows ++ t48_ratio_lines x rt rs ++ controls
              ++ t48_trim_lines x linux_w_trim linux_w_trim_iqr ++ t48_tail_lines x t46_e2)).

(** ** T4.8b *)
Definition t48b_intro : list string :=
  ["<!-- generated by scripts/report-exhibits.py — do not edit -->";
   "";
   "T4.8b five-arm campaign (D-0073 after: FTRACE-swept `Image-trimmed`, D-0075 `/init`). **RISC-V under QEMU "
    +:+ "TCG software emulation.** Source: `git show " +:+ T48B_REV +:+ ":results/{runs,phases}.csv` (batches `"
    +:+ batch_nth 0 T48B_BATCHES +:+ "` / `" +:+ batch_nth 1 T48B_BATCHES +:+ "`, measured kernel `"
    +:+ T48B_SHA_PREFIX +:+ "`, n=" +:+ str_of_nat T48B_N_PER_ARM +:+ " recorded per arm, warmup excluded). The "
    +:+ "T4.8 pin (`" +:+ short12 T48_REV +:+ "`) stays the before. Working-tree CSVs are not read. "
    +:+ "Regeneration: `just report-exhibits`.";
   "";
   "Both Linux arms run the D-0075 `/init`: one RTM_SETNEIGHTBL round trip before the announce, a measured "
    +:+ "**2.87 ms** on the Linux side of every row (`T_NEIGH` stamp; a bias toward Whimbrel, identical on "
    +:+ "stock and trimmed, so the trim delta is unaffected). Beside that, image-size scaling of the pre-guest "
    +:+ "slice S is a second disclosed Linux-side component: roughly **6–13 ms (trimmed)** and **10–20 ms "
    +:+ "(stock)** of E0→E4 that Whimbrel does not pay (D-0082; a bracket from two read-only methods on the "
    +:+ "T4.8b artifacts, not from these CSV cells — older pins have no `synack_to_http_ns` column and pcaps "
    +:+ "are gitignored). Charging a small image is a unikernel property; the ratio is not retracted. Threats "
    +:+ "item 20.";
   "";
   "### Comparison (E0→E4)";
   "";
   "| system | config | n | E0→E4 median | IQR | min | D_fin median |";
   "|---|---|---:|---:|---:|---:|---:|"].
Definition t48b_ratio_lines (ratio_trim ratio_stock : string) : list string :=
  ["";
   "Ratios are E0→E4 medians under TCG; the emulation penalty applies to both arms (see the T4.8 exhibit for "
    +:+ "the KVM-comparability caveat, unchanged):";
   "";
   "- `release-fast-boot` / `trimmed` = **" +:+ ratio_trim +:+ "**";
   "- `release-fast-boot` / `stock` = **" +:+ ratio_stock +:+ "**";
   "";
   "### Before/after (T4.8 → T4.8b, E0→E4 medians)";
   "";
   "| config | T4.8 | T4.8b | Δ | why |";
   "|---|---:|---:|---:|---|"].
Definition t48b_why : odict string string :=
  [(FAST, "same kernel; zero in-window serial (control)");
   (SAFE, "same kernel; **day's serial-byte cost, not a regression** (D-0078 / threats 21)");
   ("trimmed", "D-0073 FTRACE sweep (new Image) + D-0075 `/init`");
   ("trimmed-instrumented", "same new Image, instrumented cmdline");
   ("stock", "same Image both campaigns (parity control)")].
Definition t48b_settled_lines (x : arms) (e4a : odict string num) : list string :=
  ["";
   "The `stock` row is the cross-campaign parity control: the same Image, ~900 ms of TCG + virtio + slirp, moved "
    +:+ fmt_delta (num_sub (stock_e4 x) (at_arm e4a "stock")) +:+ " across host boots. General host drift is "
    +:+ "excluded by that cell; the `release-default` movement is the serial-byte variable (D-0078) and is "
    +:+ "quoted per campaign, never across.";
   "";
   "### D-0073 projection, settled";
   "";
   "Pre-registered orientation range for T4.8b trimmed E0→E4 was **540–740 ms** (point prediction refused per "
    +:+ "D-0069); measured **" +:+ fmt_ns (trim_e4 x) +:+ "** — below the low end. The sweep removed more "
    +:+ "quiet-row work than the UART-inflated diagnostic could bound; the direction expected by D-0069 "
    +:+ "(projections flatter the estimate) was the direction observed, but the magnitude was larger than the "
    +:+ "range allowed for. Falsifiers: none fired (trimmed " +:+ fmt_ns (trim_e4 x) +:+ " < T4.8 trimmed "
    +:+ fmt_ns (at_arm e4a "trimmed") +:+ "; trimmed < stock; both Image hashes as pinned; gates as T4.8).";
   "";
   "### Control (E0→first-connect)";
   "";
   "| system | config | n | median | IQR | min |";
   "|---|---|---:|---:|---:|---:|"].
Definition t48b_tail_lines (x : arms) (t48_e2 : num) : list string :=
  ["";
   "Span of medians: " +:+ fmt_ns (am_span x) +:+ " (bound 1 ms).";
   "";
   "### Trim and observer cost (Linux, same campaign)";
   "";
   "| comparison | Δ E0→E4 (median − median) | what it is |";
   "|---|---:|---|";
   "| `stock` − `trimmed` | " +:+ fmt_ns (num_sub (stock_e4 x) (trim_e4 x))
    +:+ " | the D-0073 sweep, measured on the quiet row |";
   "| `trimmed-instrumented` − `trimmed` | " +:+ fmt_ns (num_sub (instr_e4 x) (trim_e4 x))
    +:+ " | observer cost; contains ~11 KB of in-window console output, so this cell is **day-scoped** (D-0078) "
    +:+ "and is not comparable to T4.8's |";
   "";
   "### Passive loss signature (D-0075, first campaign use)";
   "";
   "`guest_ftx_ns` / `guest_arp_req_n` recorded on all 330 trials; zero gate failures. `bench.py "
    +:+ "arp-signature`: one arm-relative outlier (stock, first TX +40.2 ms vs arm median, one ARP request, "
    +:+ "SYN-grid 22 µs, no cliff) — a slow boot in the tail, counted and published, not a loss event. "
    +:+ "`guest_arp_req_n` reads: Linux arms 1, Whimbrel arms structurally 2 (solicit + gratuitous ARP, D-0046).";
   "";
   "### E2→E3g held across campaign shape";
   "";
   "T4.8b `release-fast-boot` E2→E3g median " +:+ fmt_ns (am_e2 x) +:+ "; T4.8's on the same kernel "
    +:+ fmt_ns t48_e2 +:+ " (Δ " +:+ fmt_delta (num_sub (am_e2 x) t48_e2) +:+ "). The whimbrel arms carry no "
    +:+ "D-0073/D-0075 change, and fast-boot's window has no serial exposure (D-0078), so this is the "
    +:+ "cross-campaign hold that entitles the headline to span both tables.";
   ""].
Definition write_cross_system_t48b (t48b_rec t48b_phases t48_rec t48_phases : list row) : res string :=
  e4b ← arm_medians t48b_rec "e0_to_e4_ns";
  e4a ← arm_medians t48_rec "e0_to_e4_ns";
  t48b_e2 ← e2e3g_median t48b_rec t48b_phases FAST None;
  t48_e2 ← e2e3g_median t48_rec t48_phases FAST None;
  conn ← arm_medians t48b_rec "e0_to_first_connect_ns";
  conn_span ← spread conn;
  rows ← mapR (comparison_row t48b_rec) T48_ARM_ORDER;
  '(rt, rs) ← ratios e4b;
  controls ← mapR (control_row t48b_rec) T48_ARM_ORDER;
  let x := {| am_e4 := e4b; am_e2 := t48b_e2; am_span := conn_span |} in
  Ok (lines_ (t48b_intro ++ rows ++ t48b_ratio_lines rt rs ++ (delta_row e4a e4b t48b_why <$> T48_ARM_ORDER)
              ++ t48b_settled_lines x e4a ++ controls ++ t48b_tail_lines x t48_e2)).

(** ** T4.8c *)
(** Serial witness of a campaign and its regime: stvec, page_verify, source. *)
Abbreviation witness := (Z * Z * string)%type.
Definition regime_note (c b : witness) : string :=
  let '(c_stvec, c_pv, c_src) := c in
  let '(b_stvec, b_pv, b_src) := b in
  let c_reg := d0078_regime c_pv in
  let b_reg := d0078_regime b_pv in
  if String.eqb c_reg b_reg then
    "T4.8c serial witness " +:+ fmt_ms3 (NInt c_stvec) +:+ "/" +:+ fmt_ms3 (NInt c_pv) +:+ " (" +:+ c_src +:+ ", "
     +:+ c_reg +:+ ") and T4.8b " +:+ fmt_ms3 (NInt b_stvec) +:+ "/" +:+ fmt_ms3 (NInt b_pv) +:+ " (" +:+ b_src
     +:+ ", " +:+ b_reg +:+ ") sit on the same side of the D-0078 divide, so a safe-profile cross-campaign "
     +:+ "reading is permitted."
  else
    "The serial regime changed between campaigns. T4.8c canary " +:+ fmt_ms3 (NInt c_stvec) +:+ "/"
     +:+ fmt_ms3 (NInt c_pv) +:+ " (" +:+ c_src +:+ ", " +:+ c_reg +:+ "); T4.8b " +:+ fmt_ms3 (NInt b_stvec)
     +:+ "/" +:+ fmt_ms3 (NInt b_pv) +:+ " (" +:+ b_src +:+ ", " +:+ b_reg +:+ "). E0→E4 on the fast arms is "
     +:+ "unaffected (zero in-window serial), but per D-0078 safe-profile numbers do not compare across "
     +:+ "campaigns whose canaries disagree — and this before/after table spans exactly that boundary.".
Definition t48c_why (canaries_agree : bool) : odict string string :=
  [(FAST, "same kernel; zero in-window serial (D-0081 falsifier 3 control)");
   (SAFE, if negb canaries_agree then "not comparable — canaries disagree (D-0078 / threats 21)"
          else "same kernel; canaries agree so D-0078 permits the reading");
   ("trimmed", "`unaligned_scalar_speed=fast` on the quiet append (D-0081); same Image");
   ("trimmed-instrumented", "same parameter on the instrumented append; same Image");
   ("stock", "same Image; cmdline carries one more tuning token (no longer a parity control)")].
Definition t48c_intro (b0 b1 note quiet : string) (n : nat) : list string :=
  ["<!-- generated by scripts/report-exhibits.py — do not edit -->";
   "";
   "T4.8c five-arm campaign (D-0081: skip the RISC-V unaligned-access probe via cmdline). **RISC-V under QEMU "
    +:+ "TCG software emulation.** Source: `git show " +:+ T48C_REV +:+ ":results/{runs,phases}.csv` (batches `"
    +:+ b0 +:+ "` / `" +:+ b1 +:+ "`, measured kernel `" +:+ T48C_SHA_PREFIX +:+ "`, n=" +:+ str_of_nat n
    +:+ " recorded per arm, warmup excluded). The T4.8b pin (`" +:+ T48B_REV +:+ "`) stays the before. "
    +:+ "Working-tree CSVs are not read. Regeneration: `just report-exhibits`.";
   "";
   "Both Linux arms run the D-0075 `/init` (same Image, same cpio as T4.8b). Image-size scaling of the "
    +:+ "pre-guest slice S is a disclosed Linux-side component: roughly **6–13 ms (trimmed)** and **10–20 ms "
    +:+ "(stock)** of E0→E4 that Whimbrel does not pay (D-0082; a bracket from two read-only methods on the "
    +:+ "T4.8b artifacts, not from these CSV cells — older pins have no `synack_to_http_ns` column and pcaps "
    +:+ "are gitignored). Charging a small image is a unikernel property; the ratio is not retracted. Threats "
    +:+ "item 20.";
   "";
   note;
   "";
   "This is a cmdline tuning choice, not a config trim. A deployer who did not know the target's alignment "
    +:+ "behavior would leave the probe in — that is what it is for. The parameter encodes the same "
    +:+ "machine-shape knowledge the campaign already pins, listed as tuning beside `loglevel=0` (quiet append `"
    +:+ quiet +:+ "`). The `stock` row remains config-stock: its config is untouched; its cmdline was already "
    +:+ "tuned and now carries one more disclosed tuning token. We still claim *a* minimal Linux, not *the* "
    +:+ "minimal Linux.";
   "";
   "### Comparison (E0→E4)";
   "";
   "| system | config | n | E0→E4 median | IQR | min | D_fin median |";
   "|---|---|---:|---:|---:|---:|---:|"].
Definition t48c_ratio_lines (ratio_trim ratio_stock : string) : list string :=
  ["";
   "Ratios are E0→E4 medians under TCG; the emulation penalty applies to both arms (see the T4.8 exhibit for "
    +:+ "the KVM-comparability caveat, unchanged):";
   "";
   "- `release-fast-boot` / `trimmed` = **" +:+ ratio_trim +:+ "**";
   "- `release-fast-boot` / `stock` = **" +:+ ratio_stock +:+ "**";
   "";
   "### Before/after (T4.8b → T4.8c, E0→E4 medians)";
   "";
   "| config | T4.8b | T4.8c | Δ | why |";
   "|---|---:|---:|---:|---|"].
Definition t48c_tail_lines (x : arms) (t48b_e2 : num) : list string :=
  ["";
   "Span of medians: " +:+ fmt_ns (am_span x) +:+ " (bound 1 ms).";
   "";
   "### Trim and observer cost (Linux, same campaign)";
   "";
   "| comparison | Δ E0→E4 (median − median) | what it is |";
   "|---|---:|---|";
   "| `stock` − `trimmed` | " +:+ fmt_ns (num_sub (stock_e4 x) (trim_e4 x))
    +:+ " | the D-0073 sweep, measured on the quiet row |";
   "| `trimmed-instrumented` − `trimmed` | " +:+ fmt_ns (num_sub (instr_e4 x) (trim_e4 x))
    +:+ " | observer cost; in-window console output, so this cell is **day-scoped** (D-0078) |";
   "";
   "### E2→E3g held across campaign shape";
   "";
   "T4.8c `release-fast-boot` E2→E3g median " +:+ fmt_ns (am_e2 x) +:+ "; T4.8b's on the same kernel "
    +:+ fmt_ns t48b_e2 +:+ " (Δ " +:+ fmt_delta (num_sub (am_e2 x) t48b_e2) +:+ "). The whimbrel arms carry no "
    +:+ "D-0081 change, and fast-boot's window has no serial exposure (D-0078).";
   ""].
Definition write_cross_system_t48c (t48c_rec t48c_phases t48b_rec t48b_phases : list row) (manifest_text : string) : res string :=
  e4c ← arm_medians t48c_rec "e0_to_e4_ns";
  e4b ← arm_medians t48b_rec "e0_to_e4_ns";
  t48c_e2 ← e2e3g_median t48c_rec t48c_phases FAST None;
  t48b_e2 ← e2e3g_median t48b_rec t48b_phases FAST None;
  conn ← arm_medians t48c_rec "e0_to_first_connect_ns";
  conn_span ← spread conn;
  c ← serial_witness t48c_rec t48c_phases "T4.8c";
  b ← serial_witness t48b_rec t48b_phases "T4.8b";
  appends ← parse_linux_manifest_appends manifest_text;
  n ← count_rows t48c_rec FAST;
  '(b0, b1) ← first_batches t48c_rec;
  let agree := String.eqb (d0078_regime c.1.2) (d0078_regime b.1.2) in
  rows ← mapR (comparison_row t48c_rec) T48_ARM_ORDER;
  '(rt, rs) ← ratios e4c;
  controls ← mapR (control_row t48c_rec) T48_ARM_ORDER;
  let x := {| am_e4 := e4c; am_e2 := t48c_e2; am_span := conn_span |} in
  Ok (lines_ (t48c_intro b0 b1 (regime_note c b) (default "" (od_get "quiet" appends)) n ++ rows ++ t48c_ratio_lines rt rs
              ++ (delta_row e4b e4c (t48c_why agree) <$> T48_ARM_ORDER) ++
              ["";
               "The `stock` row stops being the cross-campaign parity control at this seam (it moves by "
                +:+ "design). Drift control passes to `release-fast-boot` (no change, no serial window) plus "
                +:+ "the D-0078 campaign canary.";
               "";
               "### Control (E0→first-connect)";
               "";
               "| system | config | n | median | IQR | min |";
               "|---|---|---:|---:|---:|---:|"] ++ controls ++ t48c_tail_lines x t48b_e2)).

(** ** The current comparison *)
Definition current_comparison_entry (lineage : list entry) (current : string) : res entry :=
  let labels := en_label <$> lineage in
  _ ← raise_when (negb (bool_decide (current ∈ labels))) (ExhibitFail
        ("TEST FAIL: CURRENT_COMPARISON " +:+ repr_str current +:+ " not in lineage " +:+ repr_strs labels));
  tail ← of_option IndexError (last lineage);
  _ ← raise_when (negb (String.eqb current (en_label tail))) (ExhibitFail
        ("TEST FAIL: CURRENT_COMPARISON " +:+ repr_str current +:+ " is not the lineage tail " +:+ repr_str (en_label tail)));
  Ok tail.
(** [any(field not in r for r in cur_rec)] *)
Definition check_column (label : string) (rec : list row) (field : string) : res unit :=
  raise_when (existsb (λ r, negb (od_in field r)) rec) (ExhibitFail
    ("TEST FAIL: current comparison " +:+ label +:+ " runs.csv missing " +:+ field)).
Definition check_current (cur_rec : list row) (e : entry) : res unit :=
  let label := "current comparison " +:+ en_label e in
  _ ← check_values ExhibitFail "batch_id" cur_rec (en_batches e) (λ s, "TEST FAIL: " +:+ label +:+ " batch_id set " +:+ s
        +:+ " does not match the lineage entry " +:+ sorted_reprs (en_batches e));
  _ ← check_sha ExhibitFail label cur_rec (en_sha_prefix e);
  _ ← forM_ (check_column (en_label e) cur_rec) ["e0_to_e4_ns"; "d_fin_ns"];
  forM_ (check_count ExhibitFail label cur_rec (en_n_per_arm e)) T48_ARM_ORDER.*2.
Definition lineage_str : string :=
  join " → " ((λ e, en_label e +:+ " (`" +:+ short12 (en_rev e) +:+ "`)") <$> COMPARISON_LINEAGE).
Definition lineage_links : string :=
  join ", " ((λ e, "[" +:+ en_label e +:+ "](" +:+ en_exhibit e +:+ ")") <$> COMPARISON_LINEAGE).
Definition current_intro (e : entry) : list string :=
  let batches_str := join " / " ((λ b, "`" +:+ b +:+ "`") <$> sorted_strs (en_batches e)) in
  ["<!-- generated by scripts/report-exhibits.py — do not edit -->";
   "";
   "**Current comparison: " +:+ en_label e +:+ ".** The report's prose cites this file wherever it means " +:+ dq
    +:+ "the comparison" +:+ dq +:+ "; a specific campaign's exhibit is cited only where that campaign is "
    +:+ "discussed as history. Advancing a campaign moves `CURRENT_COMPARISON` in `scripts/report-exhibits.py` "
    +:+ "and regenerates this file.";
   "";
   "Campaign lineage: " +:+ lineage_str +:+ ". Each campaign's full exhibit stays frozen under its own pin: "
    +:+ lineage_links +:+ ".";
   "";
   "Source: `git show " +:+ en_rev e +:+ ":results/{runs,phases}.csv` (batches " +:+ batches_str
    +:+ ", measured kernel `" +:+ en_sha_prefix e +:+ "`, n=" +:+ str_of_nat (en_n_per_arm e)
    +:+ " recorded per arm, warmup excluded). **RISC-V under QEMU TCG software emulation.** Working-tree CSVs "
    +:+ "are not read. Regeneration: `just report-exhibits`.";
   "";
   "### Comparison (E0→E4)";
   "";
   "| system | config | n | E0→E4 median | IQR | min | D_fin median |";
   "|---|---|---:|---:|---:|---:|---:|"].
Definition current_outro (e : entry) (ratio_trim ratio_stock : string) : list string :=
  ["";
   "Ratios are E0→E4 medians under TCG; the emulation penalty applies to both arms (KVM-comparability caveat in "
    +:+ "the T4.8 exhibit, unchanged):";
   "";
   "- `release-fast-boot` / `trimmed` = **" +:+ ratio_trim +:+ "**";
   "- `release-fast-boot` / `stock` = **" +:+ ratio_stock +:+ "**";
   "";
   "Detail — the before/after against the previous campaign, the E0→first-connect control, trim and observer "
    +:+ "cost, and the serial-regime note — lives in the frozen campaign exhibit: [" +:+ en_exhibit e +:+ "]("
    +:+ en_exhibit e +:+ ").";
   ""].
Definition write_cross_system_current (cur_rec : list row) (e : entry) : res string :=
  _ ← check_current cur_rec e;
  e4 ← arm_medians cur_rec "e0_to_e4_ns";
  rows ← mapR (comparison_row cur_rec) T48_ARM_ORDER;
  '(rt, rs) ← ratios e4;
  Ok (lines_ (current_intro e ++ rows ++ current_outro e rt rs)).

(** ** Dump placement *)
Definition PLACEMENT_METRICS : list string := ["E2→E3g"; "E0→E4"; "E3w→E4"; "E0→E3w"].
Definition placement_stats (cfg : string) (pin : list row * list row) : res (odict string num) :=
  ev ← edge_vals pin.1 pin.2 cfg;
  mapR (λ metric, v ← of_option (KeyError (repr_str metric)) (od_get metric ev); '(med, _, _) ← stat v; Ok (metric, med))
    PLACEMENT_METRICS.
(** A row of the table, with the relative disagreement of the two runs. *)
Definition placement_row (cfg : string) (s46 s1 s2 : odict string num) (metric : string) : res (num * string) :=
  let t46 := at_arm s46 metric in
  let r1 := at_arm s1 metric in
  let r2 := at_arm s2 metric in
  mean12 ← num_truediv (num_add r1 r2) (NFlt (float_lit "2.0"));
  rel ← (if num_zerob mean12 then Ok (NFlt (float_lit "0.0")) else num_truediv (num_abs (num_sub r2 r1)) mean12);
  Ok (rel, cells [cfg; metric; fmt_ns t46; fmt_ns r1; fmt_ns r2; fmt_delta (num_sub r2 t46);
                  num_fixed 3 (num_mul (NFlt (float_lit "100.0")) rel) +:+ "%"]).
Definition placement_rows (t46 run1 run2 : list row * list row) (cfg : string) : res (list (num * string)) :=
  s46 ← placement_stats cfg t46; s1 ← placement_stats cfg run1; s2 ← placement_stats cfg run2;
  mapR (placement_row cfg s46 s1 s2) PLACEMENT_METRICS.
Definition placement_intro : list string :=
  ["<!-- generated by scripts/report-exhibits.py — do not edit -->";
   "";
   "D-0068 dump placement: T4.6 (dump immediately after `wait_tx`) versus two independent yield-then-dump "
    +:+ "invocations. Warmup excluded, n=60 recorded per config per pin. E3w→E4 is `e0_to_e4_ns − e0_to_e3w_ns` "
    +:+ "per trial, then median.";
   "";
   "T4.6: `git show " +:+ short12 AFTER_REV +:+ ":results/{runs,phases}.csv` (batches `"
    +:+ batch_nth 0 AFTER_BATCHES +:+ "` / `" +:+ batch_nth 1 AFTER_BATCHES +:+ "`, measured kernel `"
    +:+ AFTER_SHA_PREFIX +:+ "`).";
   "Run 1: `git show " +:+ short12 D68_RUN1_REV +:+ "` (batches `" +:+ batch_nth 0 D68_RUN1_BATCHES +:+ "` / `"
    +:+ batch_nth 1 D68_RUN1_BATCHES +:+ "`, measured kernel `" +:+ D68_RUN1_SHA_PREFIX +:+ "`).";
   "Run 2: `git show " +:+ short12 D68_RUN2_REV +:+ "` (batches `" +:+ batch_nth 0 D68_RUN2_BATCHES +:+ "` / `"
    +:+ batch_nth 1 D68_RUN2_BATCHES +:+ "`, measured kernel `" +:+ D68_RUN2_SHA_PREFIX +:+ "`).";
   "";
   "| config | metric | T4.6 median | D-0068 run 1 | D-0068 run 2 | run 2 − T4.6 | rel(run 1, run 2) |";
   "|---|---|---:|---:|---:|---:|---:|"].
Definition placement_outro (worst : num) : list string :=
  ["";
   "Largest relative disagreement between the two D-0068 invocations in this table is **"
    +:+ num_fixed 3 (num_mul (NFlt (float_lit "100.0")) worst) +:+ "%**. Within-run stability is max(2%, 200 "
    +:+ "µs) on metrics ≥ 1 ms (D-0055).";
   ""].
Definition dump_placement (t46 run1 run2 : list row * list row) : res string :=
  rows ← mapR (placement_rows t46 run1 run2) [FAST; SAFE];
  let rows := List.concat rows in
  worst ← num_max rows.*1;
  Ok (lines_ (placement_intro ++ rows.*2 ++ placement_outro worst)).
Section over_git.
Context (git : list string → proc).
Definition load_csv (rev path : string) : res (list row) :=
  text ← git_show git rev path; read_csv_text text (rev +:+ ":" +:+ path).
Definition load_pin (rev : string) (batches : list string) (sha_prefix label : string) : res (list row * list row) :=
  runs ← load_csv rev "results/runs.csv";
  phases ← load_csv rev "results/phases.csv";
  _ ← validate runs phases batches sha_prefix label 60;
  rec ← recorded runs; Ok (rec, phases).
Definition write_dump_placement : res string :=
  t46 ← load_pin AFTER_REV AFTER_BATCHES AFTER_SHA_PREFIX "T4.6";
  r1 ← load_pin D68_RUN1_REV D68_RUN1_BATCHES D68_RUN1_SHA_PREFIX "D-0068 run 1";
  r2 ← load_pin D68_RUN2_REV D68_RUN2_BATCHES D68_RUN2_SHA_PREFIX "D-0068 run 2";
  dump_placement t46 r1 r2.
End over_git.

(** ** The firmware exhibit *)
(** One batch of the fast pair: E0-E4 of both lanes, the differences, and the
    guest firmware time that is left of them. *)
Record lane_batch := { lb_name : string; lb_open : num; lb_shim : num; lb_d_e4 : num; lb_d_e2 : num; lb_guest : num }.
Definition lane_batch_of (rec phases : list row) (delta_s : num) (b : pyval) : res lane_batch :=
  o ← cfg_median_batch rec FAST "e0_to_e4_ns" b;
  m ← cfg_median_batch rec M_FAST "e0_to_e4_ns" b;
  em ← e2e3g_median rec phases M_FAST (Some b);
  eo ← e2e3g_median rec phases FAST (Some b);
  let d_e4 := num_sub m o in
  let d_e2 := num_sub em eo in
  Ok {| lb_name := py_str b; lb_open := o; lb_shim := m; lb_d_e4 := d_e4; lb_d_e2 := d_e2;
        lb_guest := num_sub (num_sub d_e4 d_e2) delta_s |}.
Definition seam_line (rec phases : list row) (phase : string) : res string :=
  open_med ← phase_median_delta rec phases FAST phase;
  shim_med ← phase_median_delta rec phases M_FAST phase;
  let delta := num_sub shim_med open_med in
  Ok ("| `" +:+ phase +:+ "` | " +:+ fmt_ns open_med +:+ " | " +:+ fmt_ns shim_med +:+ " | " +:+ fmt_delta delta
       +:+ " |").
Definition ds_expect (delta_s : num) : string :=
  if num_leb (num_abs delta_s) DS_EXPECT_ABS_NS then
    "inside the corrected window (ΔS ≈ 0, |ΔS| ≤ " +:+ fmt_ns DS_EXPECT_ABS_NS +:+ ")"
  else
    "outside the corrected window (|ΔS| ≤ " +:+ fmt_ns DS_EXPECT_ABS_NS
     +:+ "); falsifiers still decide publication".
(** One lane's E2-E3g cells: count, median, IQR and minimum. *)
Record e2_cells := { ec_n : nat; ec_med : num; ec_iqr : num; ec_min : num }.
Definition e2_cells_of (vals : list num) : res e2_cells :=
  '(m, q, lo) ← stat vals; Ok {| ec_n := length vals; ec_med := m; ec_iqr := q; ec_min := lo |}.
Definition t47_claims (n : nat) (canary_stvec canary_pv : string) (f m : e2_cells) (claim_a delta_s : num) (p1 p2 : lane_batch) :
    list string :=
  ["<!-- generated by scripts/report-exhibits.py — do not edit -->";
   "";
   "T4.7 firmware-removal campaign (D-0079). Source: `git show " +:+ T47_REV
    +:+ ":results/{runs,phases}.csv` (batches `" +:+ lb_name p1 +:+ "` / `" +:+ lb_name p2
    +:+ "`, measured kernel `" +:+ T47_SHA_PREFIX +:+ "`, n=" +:+ str_of_nat n +:+ " recorded per arm, warmup "
    +:+ "excluded). Working-tree CSVs are not read. Regeneration: `just report-exhibits`.";
   "";
   "Same-campaign gate: both firmware lanes from one batch set; one canary in the shared header (canary_stvec_ns="
    +:+ canary_stvec +:+ " canary_page_verify_ns=" +:+ canary_pv +:+ "). A pair whose lanes come from different "
    +:+ "campaigns does not generate.";
   "";
   "### Claim A — pooled ΔE2→E3g, stability-gated";
   "";
   "Guest work. Pooled across both batches because E2→E3g was stable on both compared arms. Per-batch figures "
    +:+ "sit beside the claim; they are not a second pooling rule.";
   "";
   "| config | n | E2→E3g median | IQR | min | batch 1 Δ vs OpenSBI | batch 2 Δ vs OpenSBI |";
   "|---|---:|---:|---:|---:|---:|---:|";
   "| `" +:+ FAST +:+ "` | " +:+ str_of_nat (ec_n f) +:+ " | " +:+ fmt_ns (ec_med f) +:+ " | "
    +:+ fmt_ns (ec_iqr f) +:+ " | " +:+ fmt_ns (ec_min f) +:+ " | — | — |";
   "| `" +:+ M_FAST +:+ "` | " +:+ str_of_nat (ec_n m) +:+ " | " +:+ fmt_ns (ec_med m) +:+ " | "
    +:+ fmt_ns (ec_iqr m) +:+ " | " +:+ fmt_ns (ec_min m) +:+ " | " +:+ fmt_signed_ms3 (lb_d_e2 p1) +:+ " | "
    +:+ fmt_signed_ms3 (lb_d_e2 p2) +:+ " |";
   "";
   "Claim A (shim − OpenSBI, pooled): **" +:+ fmt_signed_ms3 claim_a +:+ "**.";
   "";
   "### Claim B — ΔE0→E4 per batch, never pooled";
   "";
   "The quantity being removed is the OpenSBI-side firmware window. That window moves across campaigns; "
    +:+ "per-trial `w_ns` records it. Claim B is therefore one number per batch, not a pooled median.";
   "";
   "| batch | OpenSBI fast E0→E4 | shim fast E0→E4 | ΔE0→E4 | ΔS (fast pair) |";
   "|---|---:|---:|---:|---:|"].
Definition t47_terms (claim_a delta_s : num) (p1 p2 : lane_batch) : list string :=
  ["| `" +:+ lb_name p1 +:+ "` | " +:+ fmt_ns (lb_open p1) +:+ " | " +:+ fmt_ns (lb_shim p1) +:+ " | "
    +:+ fmt_signed_ms3 (lb_d_e4 p1) +:+ " | " +:+ fmt_signed_ms3 delta_s +:+ " |";
   "| `" +:+ lb_name p2 +:+ "` | " +:+ fmt_ns (lb_open p2) +:+ " | " +:+ fmt_ns (lb_shim p2) +:+ " | "
    +:+ fmt_signed_ms3 (lb_d_e4 p2) +:+ " | " +:+ fmt_signed_ms3 delta_s +:+ " |";
   "";
   "ΔS is a campaign-header quantity (one fast-pair median, not per batch) sitting in the same table because it "
    +:+ "is a different kind of firmware cost from the guest window Claim B removes.";
   "";
   "### Decomposition — three terms, not one firmware number";
   "";
   "D-0079: the E0→E4 improvement is guest firmware execution removed + ΔS (host-side firmware load removed) + "
    +:+ "seam deltas. Those are different kinds of cost.";
   "";
   "| term | kind | how | batch 1 | batch 2 |";
   "|---|---|---|---:|---:|";
   "| guest firmware execution removed | guest M-mode runtime (OpenSBI init / banner / jump) | ΔE0→E4 − ΔE2→E3g "
    +:+ "− ΔS, per batch | " +:+ fmt_signed_ms3 (lb_guest p1) +:+ " | " +:+ fmt_signed_ms3 (lb_guest p2) +:+ " |";
   "| ΔS | host-side firmware load | S(`release-fast-boot`) − S(`m-release-fast-boot`); never pooled across "
    +:+ "lanes | " +:+ fmt_signed_ms3 delta_s +:+ " | " +:+ fmt_signed_ms3 delta_s +:+ " |";
   "| seam envelope | guest work that contains the seams | Claim A (pooled ΔE2→E3g) | " +:+ fmt_signed_ms3 claim_a
    +:+ " | " +:+ fmt_signed_ms3 claim_a +:+ " |";
   "";
   "Seam deltas itemised (D-0079 registered set `stvec`, `frame_init`, `E3g` — replaced-SBI call sites or "
    +:+ "in-window print). These are inside the Claim A envelope; they are not folded into the firmware window.";
   "";
   "| phase | OpenSBI fast | shim fast | Δ (shim − OpenSBI) |";
   "|---|---:|---:|---:|"].
Definition t47_s_lines (s_fast s_safe s_m_fast s_m_safe delta_s : num) : list string :=
  ["";
   "### Per-lane S (batch header, never pooled across lanes)";
   "";
   "S is not a CSV column. Each line is one config's recorded median of `(E0→E4 − E0→first_connect) − (W + "
    +:+ "SYN→HTTP + D_fin)`. OpenSBI and shim are different populations by construction (D-0062 / D-0071 / "
    +:+ "D-0079). The shim-safe arm is a known open item with no consumer — quoted, never gated, never pooled "
    +:+ "with the fast pair that carries ΔS.";
   "";
   "`s_ns_fast=" +:+ num_fixed 0 s_fast +:+ "` `s_ns_safe=" +:+ num_fixed 0 s_safe +:+ "`";
   "`s_ns_m_fast=" +:+ num_fixed 0 s_m_fast +:+ "` `s_ns_m_safe=" +:+ num_fixed 0 s_m_safe +:+ "`";
   "ΔS = " +:+ fmt_signed_ms3 delta_s +:+ " — " +:+ ds_expect delta_s
    +:+ ". Falsifiers (unchanged coarse sanity): ΔS < " +:+ fmt_signed_ms3 DS_FALSIFY_SLOWER_NS +:+ " or |ΔS| > "
    +:+ fmt_ms3 DS_FALSIFY_ABS_NS +:+ "."].
Definition t47_span_lines (shim_s_span : num) : list string :=
  if num_gtb shim_s_span CONTROL_TOL_NS then
    ["";
     "Shim-lane S is profile-dependent (|s_ns_m_fast − s_ns_m_safe| = " +:+ fmt_ns shim_s_span
      +:+ "). D-0079 open item; no consumer."]
  else [].
Definition t47_published (n_per_batch : nat) (claim_a : num) (p1 p2 : lane_batch) (ratio_b1 ratio_b2 : string) : list string :=
  ["";
   "### Published claim";
   "";
   "Under QEMU TCG software emulation on RISC-V, with no KVM, on the pinned bench host (D-0055 controls: " +:+ "2"
    +:+ " interleaved " +:+ str_of_nat n_per_batch +:+ "-trial batches, Claim A stability-gated, steal 0), "
    +:+ "replacing OpenSBI with the M-mode shim in the `-bios` slot cuts the fast-boot image's "
    +:+ "spawn-to-first-HTTP-byte median from " +:+ fmt_ns (lb_open p1) +:+ " / " +:+ fmt_ns (lb_open p2)
    +:+ " to " +:+ fmt_ns (lb_shim p1) +:+ " / " +:+ fmt_ns (lb_shim p2) +:+ " per batch ("
    +:+ fmt_signed_ms3 (lb_d_e4 p1) +:+ " / " +:+ fmt_signed_ms3 (lb_d_e4 p2) +:+ ", " +:+ ratio_b1 +:+ " / "
    +:+ ratio_b2 +:+ "), of which only " +:+ fmt_signed_ms3 claim_a +:+ " is guest-side work (pooled ΔE2→E3g); "
    +:+ "the remainder is the removed firmware window, whose OpenSBI-side size is the volatile quantity being "
    +:+ "removed and is therefore reported per batch, never pooled.";
   ""].
Definition write_t47_firmware (rec phases : list row) : res string :=
  batches ← batches_of rec;
  '(b1, b2) ← match batches with [b1; b2] => Ok (b1, b2) | _ => Err ValueError end;
  n ← count_rows rec FAST;
  canary ← of_option IndexError (head rec);
  s1 ← s_vals rec FAST; s_fast ← median s1;
  s2 ← s_vals rec SAFE; s_safe ← median s2;
  s3 ← s_vals rec M_FAST; s_m_fast ← median s3;
  s4 ← s_vals rec M_SAFE; s_m_safe ← median s4;
  let delta_s := num_sub s_fast s_m_fast in
  e2_fast ← e2e3g_vals rec phases FAST None;
  e2_m_fast ← e2e3g_vals rec phases M_FAST None;
  mm ← median e2_m_fast; mf ← median e2_fast;
  let claim_a := num_sub mm mf in
  p1 ← lane_batch_of rec phases delta_s b1;
  p2 ← lane_batch_of rec phases delta_s b2;
  seams ← mapR (seam_line rec phases) T47_SEAM_PHASES;
  f ← e2_cells_of e2_fast; m ← e2_cells_of e2_m_fast;
  r1 ← fmt_ratio (lb_open p1) (lb_shim p1); r2 ← fmt_ratio (lb_open p2) (lb_shim p2);
  cs ← get_text "canary_stvec_ns" canary; cp ← get_text "canary_page_verify_ns" canary;
  Ok (lines_ (t47_claims n cs cp f m claim_a delta_s p1 p2 ++ t47_terms claim_a delta_s p1 p2 ++ seams
              ++ t47_s_lines s_fast s_safe s_m_fast s_m_safe delta_s ++ t47_span_lines (num_abs (num_sub s_m_fast s_m_safe))
              ++ t47_published (n / 2) claim_a p1 p2 r1 r2)).
