(* ===== verification/ExhibitSerial.v ===== *)
(** * The kernel-boot decomposition exhibit (scripts/report-exhibits.py)

    The parsers of the two serial logs and of the initcall label file, the checks
    [write_linux_decomposition] makes on them, and the text it writes. *)
From S2P Require Import Prelude PyStr Regex PyFloat PyData ExhibitPins ExhibitGates ExhibitTables.
From S2P Require BenchSerial InitcallLabels.
From Stdlib Require Import Ascii.

(** ** Patterns *)
Definition cdecimal (a : ascii) : bool := is_digit a || (ord a =? 46)%N.
Definition cnot_tick (a : ascii) : bool := negb (ord a =? 96)%N.
(** The same two patterns as label-linux-initcalls.py, and the same [printk_ns]. *)
Definition PRINTK_RE : regex := InitcallLabels.PRINTK_RE.
Definition INITCALL_RET_RE : regex := InitcallLabels.INITCALL_RET_RE.
Definition printk_ns (sec frac : string) : res Z := InitcallLabels.printk_ns sec frac.
Definition INIT_STAMP_RE : regex :=
  (RBol ⋅⋅ RLit "INIT " ⋅⋅ RGrp 1 (RPlus is_word) ⋅⋅ RLit " mono_ns=" ⋅⋅ RGrp 2 (RPlus cd) ⋅⋅ RStar cs ⋅⋅ REol)%re.
Definition PHASE_RE : regex :=
  (RBol ⋅⋅ RLit "PHASE " ⋅⋅ RGrp 1 (RPlus cS) ⋅⋅ RLit " ticks=" ⋅⋅ RGrp 2 (RPlus cd)
   ⋅⋅ RLit " ns=" ⋅⋅ RGrp 3 (RPlus cd) ⋅⋅ RLit " since_start=" ⋅⋅ RGrp 4 (RPlus cd)
   ⋅⋅ RLit " ns=" ⋅⋅ RGrp 5 (RPlus cd) ⋅⋅ RLit " delta=" ⋅⋅ RGrp 6 (RPlus cd)
   ⋅⋅ RLit " ns=" ⋅⋅ RGrp 7 (RPlus cd))%re.
Definition LABEL_ROW_RE : regex :=
  (RBol ⋅⋅ RLit "| " ⋅⋅ RGrp 1 (RPlus cd) ⋅⋅ RLit " | " ⋅⋅ RGrp 2 (RPlus cd) ⋅⋅ RLit " | `" ⋅⋅ RGrp 3 (RPlus cnot_tick)
   ⋅⋅ RLit "` | " ⋅⋅ RGrp 4 (ROpt (RLit "-") ⋅⋅ RPlus cd) ⋅⋅ RLit " | " ⋅⋅ RGrp 5 (RPlus cdecimal) ⋅⋅ RLit " |"
   ⋅⋅ RStar cs ⋅⋅ REol)%re.
Definition INIT_STAMP_ORDER : list string := ["listen"; "ifup"; "announce"; "ready"; "accept"; "read"; "response"].
Definition rstrip_cr (raw : string) : string := rstrip_chars (λ a, (ord a =? 13)%N) raw.
(** [int(m.group(n))], [s.split(sub, 1)[0]] *)
Definition group_int (n : nat) (m : rmatch) : res Z := of_option ValueError (int_of_str (grp_of n m)).
Definition before (sub s : string) : string := match find sub s with Some i => slice 0 i s | None => s end.
Definition missing_if (b : bool) (msg : string) : res unit := raise_when b (ExhibitFail msg).

(** ** The initcall label file *)
Definition manifest_image_trimmed_sha (text : string) : res string :=
  let is_image (parts : list string) := match parts with
    | p0 :: p1 :: _ :: _ => String.eqb p0 "artifact" && String.eqb p1 "Image-trimmed"
    | _ => false
    end in
  match List.find is_image (split_ws <$> splitlines text) with
  | Some (_ :: _ :: sha :: _) => Ok sha
  | _ => Err (ExhibitFail "TEST FAIL: MANIFEST missing artifact Image-trimmed")
  end.
Record initcall_label := { la_rank : Z; la_usecs : Z; la_symbol : string; la_ret : Z; la_printk_s : float }.
(** [line.split("=", 1)[1]] *)
Definition after_eq (line : string) : res string :=
  of_option IndexError (snd <$> split_once (chr 61) line).
Definition label_meta (meta : odict string string) (line : string) : res (odict string string) :=
  if startswith line "# Image-trimmed sha256=" then v ← after_eq line; Ok (od_set "image_sha" (strip v) meta)
  else if startswith line "# cmdline=" then v ← after_eq line; Ok (od_set "cmdline" v meta)
  else if startswith line "# qemu=" then v ← after_eq line; Ok (od_set "qemu" v meta)
  else if startswith line "# System.map sha256=" then
    v ← after_eq line; w ← of_option IndexError (head (split_ws v)); Ok (od_set "smap_sha" w meta)
  else Ok meta.
Definition label_of (m : rmatch) : res initcall_label :=
  rank ← group_int 1 m; usecs ← group_int 2 m; ret ← group_int 4 m;
  s ← of_option ValueError (float_of_str (grp_of 5 m));
  Ok {| la_rank := rank; la_usecs := usecs; la_symbol := grp_of 3 m; la_ret := ret; la_printk_s := s |}.
(** [section] is [None], [Some true] in the hole's table and [Some false] in the
    table of all initcalls. *)
Record label_state := { ls_hole : list initcall_label; ls_all : list initcall_label; ls_section : option bool }.
Definition label_line (s : label_state) (line : string) : res label_state :=
  if startswith line "## Hole window" then Ok {| ls_hole := ls_hole s; ls_all := ls_all s; ls_section := Some true |}
  else if startswith line "## All initcalls" then Ok {| ls_hole := ls_hole s; ls_all := ls_all s; ls_section := Some false |}
  else match re_match LABEL_ROW_RE line, ls_section s with
       | Some m, Some hole =>
         rec ← label_of m;
         Ok (if hole : bool then {| ls_hole := ls_hole s ++ [rec]; ls_all := ls_all s; ls_section := ls_section s |}
             else {| ls_hole := ls_hole s; ls_all := ls_all s ++ [rec]; ls_section := ls_section s |})
       | _, _ => Ok s
       end.
Definition parse_initcall_label_file (text : string) :
    res (list initcall_label * list initcall_label * odict string string) :=
  meta ← foldM label_meta [] (splitlines text);
  s ← foldM label_line {| ls_hole := []; ls_all := []; ls_section := None |} (splitlines text);
  _ ← missing_if (negb (od_in "image_sha" meta && od_in "cmdline" meta && od_in "qemu" meta))
        "TEST FAIL: D-0072 label header missing sha/cmdline/qemu";
  _ ← missing_if (match ls_hole s with [] => true | _ => false end) "TEST FAIL: D-0072 label file has no hole-window rows";
  _ ← missing_if (match ls_all s with [] => true | _ => false end) "TEST FAIL: D-0072 label file has no all-initcall rows";
  Ok (ls_hole s, ls_all s, meta).
Definition has_symbol (symbol : string) (r : initcall_label) : bool := String.eqb (la_symbol r) symbol.
Definition lookup_initcall (rows : list initcall_label) (symbol : string) : res initcall_label :=
  match List.filter (has_symbol symbol) rows with
  | [r] => Ok r
  | hits => Err (ExhibitFail ("TEST FAIL: want one " +:+ symbol +:+ " in initcall labels, got " +:+ str_of_nat (length hits)))
  end.

(** ** The two serial logs *)
(** Time, its text, message. *)
Abbreviation printk := (Z * string * string)%type.
Definition pk_ns (p : printk) : Z := p.1.1.
Definition pk_msg (p : printk) : string := p.2.
Definition parse_printk (text : string) : res (list printk) :=
  mapR (λ m, ts ← printk_ns (grp_of 1 m) (grp_of 2 m); Ok (ts, grp_of 1 m +:+ "." +:+ grp_of 2 m, grp_of 3 m))
    (omap (λ raw, re_match PRINTK_RE (rstrip_cr raw)) (splitlines text)).
Definition parse_init_stamps (text : string) : res (odict string Z) :=
  found ← foldM (λ d m, v ← group_int 2 m; Ok (od_set (grp_of 1 m) v d)) []
            (omap (λ raw, re_match INIT_STAMP_RE (rstrip_cr raw)) (splitlines text));
  let missing := List.filter (λ n, negb (od_in n found)) INIT_STAMP_ORDER in
  _ ← missing_if (match missing with [] => false | _ => true end)
        ("TEST FAIL: Linux serial missing INIT stamps " +:+ repr_strs missing);
  Ok found.
Record phase_row := { ph_name : string; ph_mtime_ns : Z; ph_since_start_ns : Z; ph_delta_ns : Z }.
Definition phase_row_of (m : rmatch) : res phase_row :=
  t ← group_int 3 m; s ← group_int 5 m; d ← group_int 7 m;
  Ok {| ph_name := grp_of 1 m; ph_mtime_ns := t; ph_since_start_ns := s; ph_delta_ns := d |}.
Definition parse_phases_serial (text : string) : res (list phase_row) :=
  rows ← mapR phase_row_of (omap (λ raw, re_match PHASE_RE (rstrip_cr raw)) (splitlines text));
  _ ← missing_if (match rows with [] => true | _ => false end) "TEST FAIL: Whimbrel serial has no PHASE rows";
  Ok rows.

(** ** What the exhibit needs of the labels *)
Record label_facts := {
  lf_hole1 : initcall_label; lf_ranks : list initcall_label; lf_ranks_us : Z;
  lf_of_serial : initcall_label; lf_virtio_net : initcall_label; lf_serial8250 : initcall_label;
  lf_virtio_mmio : initcall_label; lf_virtio_us : Z }.
Definition check_label_header (meta : odict string string) (want_sha : string) : res unit :=
  let at_ k := default "" (od_get k meta) in
  _ ← missing_if (negb (String.eqb (at_ "image_sha") want_sha)) ("TEST FAIL: D-0072 label Image-trimmed sha256 "
        +:+ at_ "image_sha" +:+ " != MANIFEST " +:+ want_sha);
  _ ← missing_if (negb (str_in "ignore_loglevel" (at_ "cmdline")))
        ("TEST FAIL: D-0072 label cmdline missing ignore_loglevel: " +:+ repr_str (at_ "cmdline"));
  _ ← missing_if (negb (str_in "initcall_debug" (at_ "cmdline"))) "TEST FAIL: D-0072 label cmdline missing initcall_debug";
  missing_if (negb (str_in "10.2.1" (at_ "qemu"))) ("TEST FAIL: D-0072 label qemu is not 10.2.1: " +:+ repr_str (at_ "qemu")).
Definition in_labels (rows : list initcall_label) (r : initcall_label) : bool := existsb (has_symbol (la_symbol r)) rows.
Definition check_labels (hole all_initcalls : list initcall_label) : res label_facts :=
  h1 ← of_option IndexError (head hole);
  _ ← missing_if (negb (la_rank h1 =? 1) || negb (has_symbol "trace_eval_sync" h1))
        ("TEST FAIL: hole rank 1 is not trace_eval_sync (rank " +:+ str_of_Z (la_rank h1) +:+ " " +:+ la_symbol h1 +:+ ")");
  _ ← missing_if (length hole <? 29)%nat ("TEST FAIL: hole has " +:+ str_of_nat (length hole) +:+ " initcalls, want ≥ 29");
  let ranks_2_29 := take 28 (drop 1 hole) in
  let ranks_2_29_us := sumZ (la_usecs <$> ranks_2_29) in
  _ ← missing_if (20000 <=? ranks_2_29_us) ("TEST FAIL: hole ranks 2–29 combined " +:+ str_of_Z ranks_2_29_us
        +:+ " usecs, want < 20 ms");
  of_serial ← lookup_initcall all_initcalls "of_platform_serial_driver_init";
  virtio_net ← lookup_initcall all_initcalls "virtio_net_driver_init";
  serial8250 ← lookup_initcall all_initcalls "serial8250_init";
  virtio_mmio ← lookup_initcall all_initcalls "virtio_mmio_init";
  _ ← missing_if (in_labels hole of_serial)
        "TEST FAIL: of_platform_serial_driver_init is inside the 327 ms hole; the inversion claim would be wrong";
  _ ← missing_if (in_labels hole virtio_net || in_labels hole virtio_mmio)
        "TEST FAIL: a virtio initcall is inside the 327 ms hole";
  let virtio_us := la_usecs virtio_net + la_usecs virtio_mmio in
  _ ← missing_if (15000 <=? virtio_us) ("TEST FAIL: virtio pair " +:+ str_of_Z virtio_us +:+ " usecs, want ~5 ms");
  _ ← missing_if (la_usecs of_serial <? 10 * la_usecs serial8250)
        ("TEST FAIL: of_platform_serial is not ≫ serial8250_init (" +:+ str_of_Z (la_usecs of_serial) +:+ " vs "
         +:+ str_of_Z (la_usecs serial8250) +:+ ")");
  Ok {| lf_hole1 := h1; lf_ranks := ranks_2_29; lf_ranks_us := ranks_2_29_us; lf_of_serial := of_serial;
        lf_virtio_net := virtio_net; lf_serial8250 := serial8250; lf_virtio_mmio := virtio_mmio; lf_virtio_us := virtio_us |}.
Definition check_fragment (fragment_text : string) : res unit :=
  _ ← missing_if (str_in "CONFIG_FTRACE" fragment_text)
        "TEST FAIL: linux-trimmed.fragment mentions FTRACE; the missed-trim claim needs a rewrite";
  missing_if (negb (str_in "CONFIG_SERIAL_OF_PLATFORM=y" fragment_text))
    "TEST FAIL: fragment missing CONFIG_SERIAL_OF_PLATFORM=y keep".
Definition label_part (labels_text fragment_text manifest_text : string) : res label_facts :=
  '(hole, all_initcalls, meta) ← parse_initcall_label_file labels_text;
  want_sha ← manifest_image_trimmed_sha manifest_text;
  _ ← check_label_header meta want_sha;
  lf ← check_labels hole all_initcalls;
  _ ← check_fragment fragment_text;
  Ok lf.

(** ** What it needs of the Linux log *)
(** [next((... for p in printk if keep(msg)), None)] *)
Definition next_msg (keep : string → bool) (printk_rows : list printk) : option printk :=
  List.find (λ p, keep (pk_msg p)) printk_rows.
Definition need {A} (msg : string) (o : option A) : res A := of_option (ExhibitFail msg) o.
(** A gap between consecutive lines: length, messages, time texts. *)
Record gap := { gp_ns : Z; gp_src : string; gp_dst : string; gp_t0 : string; gp_t1 : string }.
Fixpoint gaps_of (l : list printk) : list gap :=
  match l with
  | p :: (q :: _) as l' =>
    {| gp_ns := pk_ns q - pk_ns p; gp_src := pk_msg p; gp_dst := pk_msg q; gp_t0 := p.1.2; gp_t1 := q.1.2 |} :: gaps_of l'
  | _ => []
  end.
Definition sorted_gaps (l : list gap) : list gap := sort_by (λ a b, gp_ns b <=? gp_ns a) l.
Definition kernel_gaps (printk_rows : list printk) (run_init_ns : Z) : list gap :=
  sorted_gaps (gaps_of (List.filter (λ p, pk_ns p <=? run_init_ns) printk_rows)).
Definition check_gap1 (g : gap) : res unit :=
  missing_if (negb (str_in "Key type dns_resolver registered" (gp_src g)) || negb (str_in "clk: Disabling unused clocks" (gp_dst g)))
    ("TEST FAIL: largest printk gap is not dns_resolver → clk-disable (" +:+ repr_str (gp_src g) +:+ " → "
     +:+ repr_str (gp_dst g) +:+ ")").
Record serial_facts := {
  sf_printk : nat; sf_first : printk; sf_cmdline : string; sf_run_init : Z; sf_shutdown : Z; sf_stamps : odict string Z;
  sf_zero : nat; sf_sched : printk; sf_opensbi : nat; sf_span : Z; sf_top : list gap; sf_gap1 : Z;
  sf_8250 : string; sf_tty : string }.
Definition serial_cmdline (rows : list printk) : res string :=
  _ ← missing_if (length rows <? 100)%nat ("TEST FAIL: Linux serial has " +:+ str_of_nat (length rows)
        +:+ " timestamped printk lines, want ≥ 100");
  _ ← missing_if (existsb (λ p, is_some (re_search INITCALL_RET_RE (pk_msg p))) rows)
        "TEST FAIL: T4.8 instrumented serial has initcall-returned lines; that pin is loglevel=7 (D-0072)";
  let cmdline := default "" (pk_msg <$> next_msg (str_in "Kernel command line:") rows) in
  _ ← missing_if (negb (str_in "initcall_debug" cmdline) || negb (str_in "loglevel=7" cmdline))
        ("TEST FAIL: Linux serial cmdline missing initcall_debug or loglevel=7: " +:+ repr_str cmdline);
  _ ← missing_if (negb (existsb (λ p, str_in "PM: Calling 0x" (pk_msg p)) rows))
        "TEST FAIL: Linux serial missing PM: Calling 0x… (%pS-without-kallsyms witness)";
  Ok cmdline.
Definition serial_part (linux_text : string) : res serial_facts :=
  rows ← parse_printk linux_text;
  cmdline ← serial_cmdline rows;
  run_init ← need "TEST FAIL: Linux serial missing Run /init" (next_msg (str_in "Run /init as init process") rows);
  shutdown ← need "TEST FAIL: Linux serial missing pmu shutdown"
               (next_msg (λ msg, endswith msg "shutdown" && str_in "riscv-pmu-sbi" msg) rows);
  _ ← missing_if (negb (str_in "LINUX INIT OK" linux_text)) "TEST FAIL: Linux serial missing LINUX INIT OK";
  stamps ← parse_init_stamps linux_text;
  first ← of_option IndexError (head rows);
  sched ← need "TEST FAIL: Linux serial missing sched_clock" (next_msg (λ msg, startswith msg "sched_clock:") rows);
  let prefix := before "[    0.000000]" linux_text in
  _ ← missing_if (negb (str_in "OpenSBI" prefix)) "TEST FAIL: Linux serial missing OpenSBI prefix";
  let kernel_span := pk_ns run_init - pk_ns first in
  _ ← missing_if (kernel_span <=? 0) "TEST FAIL: Run /init is not after the first printk";
  let top := take 10 (kernel_gaps rows (pk_ns run_init)) in
  _ ← missing_if (length top <? 10)%nat "TEST FAIL: fewer than 10 printk gaps before Run /init";
  gap1 ← of_option IndexError (head top);
  _ ← check_gap1 gap1;
  m8250 ← need "TEST FAIL: T4.8 serial missing Serial: 8250 banner" (next_msg (λ msg, startswith msg "Serial: 8250") rows);
  tty ← need "TEST FAIL: T4.8 serial missing 10000000.serial: ttyS0" (next_msg (str_in "10000000.serial: ttyS0") rows);
  Ok {| sf_printk := length rows; sf_first := first; sf_cmdline := cmdline; sf_run_init := pk_ns run_init;
        sf_shutdown := pk_ns shutdown; sf_stamps := stamps;
        sf_zero := length (List.filter (λ p, pk_ns p =? 0) rows); sf_sched := sched;
        sf_opensbi := length (splitlines (strip prefix)); sf_span := kernel_span; sf_top := top; sf_gap1 := gp_ns gap1;
        sf_8250 := pk_msg m8250; sf_tty := pk_msg tty |}.

(** ** Shares and the clock cross-check *)
(** [100.0 * us * 1000.0 / gap1_ns] *)
Definition share_of_gap (us gap1_ns : Z) : res num :=
  num_truediv (num_mul (num_mul (NFlt (float_lit "100.0")) (NInt us)) (NFlt (float_lit "1000.0"))) (NInt gap1_ns).
(** [100.0 * dur / span] *)
Definition share_of_span (dur span : Z) : res num := num_truediv (num_mul (NFlt (float_lit "100.0")) (NInt dur)) (NInt span).
(** [round(ns / 1e4) / 100.0]: milliseconds at two decimals *)
Definition ms_round2 (ns : Z) : res num :=
  z ← py_round (num_f (over (float_lit "1e4") (NInt ns))); Ok (over (float_lit "100.0") (NInt z)).
Record clocks := { ck_exec : Z; ck_serve : Z; ck_down : Z; ck_run : Z; ck_p0 : num; ck_p1 : num; ck_p2 : num; ck_span : num }.
Definition clock_check (run_init_ns listen resp shutdown_ns : Z) : res clocks :=
  let exec_to_listen := listen - run_init_ns in
  let listen_to_resp := resp - listen in
  let resp_to_shut := shutdown_ns - resp in
  let run_to_shut := shutdown_ns - run_init_ns in
  p0 ← ms_round2 exec_to_listen; p1 ← ms_round2 listen_to_resp; p2 ← ms_round2 resp_to_shut;
  span_ms ← ms_round2 run_to_shut;
  _ ← missing_if (num_gtb (num_abs (num_sub (py_sum [num_f p0; num_f p1; num_f p2]) span_ms)) (NFlt (float_lit "0.011")))
        ("TEST FAIL: clock cross-check " +:+ num_repr span_ms +:+ " != " +:+ num_repr p0 +:+ "+" +:+ num_repr p1 +:+ "+"
         +:+ num_repr p2);
  Ok {| ck_exec := exec_to_listen; ck_serve := listen_to_resp; ck_down := resp_to_shut; ck_run := run_to_shut;
        ck_p0 := p0; ck_p1 := p1; ck_p2 := p2; ck_span := span_ms |}.

(** ** What it needs of the Whimbrel log *)
Record whim_facts := { wf_phases : nat; wf_start : phase_row; wf_e3g : phase_row }.
Definition next_phase (name : string) (phases : list phase_row) : option phase_row :=
  List.find (λ p, String.eqb (ph_name p) name) phases.
Definition whim_part (whim_text : string) : res whim_facts :=
  phases ← parse_phases_serial whim_text;
  '(start, e3g) ← match next_phase "_start" phases, next_phase "E3g" phases with
                  | Some s, Some e => Ok (s, e)
                  | _, _ => Err (ExhibitFail "TEST FAIL: Whimbrel serial missing _start or E3g")
                  end;
  _ ← missing_if (negb (str_in "OpenSBI" (before "HTTP READY" whim_text))) "TEST FAIL: Whimbrel serial missing OpenSBI prefix";
  _ ← missing_if (negb (str_in "HTTP READY" whim_text)) "TEST FAIL: Whimbrel serial missing HTTP READY";
  Ok {| wf_phases := length phases; wf_start := start; wf_e3g := e3g |}.

(** ** The text *)
(** [len(s)] in characters *)
Definition char_length (s : string) : nat := length (List.filter (λ a, negb (is_cont a)) (to_l s)).
Definition clip (msg : string) (n : nat) : string :=
  let msg := md_cell (strip msg) in
  if (char_length msg <=? n)%nat then msg else take_chars (n - 1) msg +:+ "…".
Definition cmdline_args (cmdline : string) : string :=
  if startswith cmdline "Kernel command line: " then slice_from (String.length "Kernel command line: ") cmdline else cmdline.
Definition stamp_at (d : odict string Z) (name : string) : num := NInt (default 0 (od_get name d)).
Definition decomposition_intro (lf : label_facts) (sf : serial_facts) (hole_rank1_share : num) : list string :=
  ["<!-- generated by scripts/report-exhibits.py — do not edit -->";
   "";
   "The virtio path Linux actually needs — `virtio_net_driver_init` plus `virtio_mmio_init` — costs **"
    +:+ fmt_us_ms1 (lf_virtio_us lf) +:+ "** (UART-inflated; `ignore_loglevel` boot). The **"
    +:+ fmt_ms2 (NInt (sf_gap1 sf)) +:+ "** T4.8 hole is not that path: `trace_eval_sync` is "
    +:+ num_fixed 1 hole_rank1_share +:+ "% of it, and full-file the other giant is generic serial-bus probing "
    +:+ "(`of_platform_serial_driver_init` " +:+ fmt_us_ms1 (la_usecs (lf_of_serial lf))
    +:+ ", UART-inflated). Kind, not magnitude: named subsystems a single-purpose kernel never runs, not " +:+ dq
    +:+ "Linux is slower." +:+ dq;
   "";
   "T4.8 source: `git show " +:+ SERIAL_REV
    +:+ ":results/serial/{linux-trimmed-instrumented,whimbrel-fast}-20260818T073023Z-1-t04.log` (batch "
    +:+ "`20260818T073023Z-1`, trial 4, measured kernel `1005399`, same QEMU). Labels: `git show " +:+ LABEL_REV
    +:+ ":" +:+ LABEL_PATH +:+ "` (same `Image-trimmed`, `ignore_loglevel`). **RISC-V under QEMU TCG software "
    +:+ "emulation.** Working-tree serials are not read. Regeneration: `just report-exhibits`. This is the T4.8 "
    +:+ "/ pre-FTRACE Image. D-0073 / T4.8b is the after; those pins are not these.";
   "";
   "This exhibit is not a cross-system table and not a sixth arm. Diagnostic durations **label** the "
    +:+ fmt_ms2 (NInt (sf_gap1 sf)) +:+ " cell; they do not replace it.";
   "";
   "## Instrumentation limit";
   "";
   "The cmdline is in the log (`" +:+ md_cell (cmdline_args (sf_cmdline sf)) +:+ "`). "
    +:+ str_of_nat (sf_printk sf) +:+ " timestamped printk lines, **zero** `initcall … returned … after … "
    +:+ "usecs` lines.";
   "";
   "Two factors, this order (D-0072):";
   "";
   "1. **`loglevel=7` filters `KERN_DEBUG`.** Necessary and sufficient for the missing lines. Linux 6.18 prints "
    +:+ "initcall_debug at `KERN_DEBUG`; console emits levels strictly below `console_loglevel`; debug is 7."].
Definition decomposition_kernel (lf : label_facts) (sf : serial_facts) : list string :=
  ["2. **`# CONFIG_KALLSYMS is not set`** (`linux-trimmed.fragment` line 71) affects **names only**. `%pS` "
    +:+ "still prints the pointer. Witness in this log: `PM: Calling 0xffffffff800614ec`.";
   "";
   "A kernel trimmed this hard cannot be fully instrumented by its own debug facility. That is a general "
    +:+ "observation about minimal-kernel measurement, not a mistake in the T4.8 setup. A sixth arm with "
    +:+ "kallsyms would describe a different binary than the trimmed row, and without `ignore_loglevel` would "
    +:+ "still print nothing.";
   "";
   "## Printk-visible kernel";
   "";
   "Earliest timestamped line: `[" +:+ (sf_first sf).1.2 +:+ "] " +:+ clip (pk_msg (sf_first sf)) 80 +:+ "`. "
    +:+ str_of_nat (sf_zero sf) +:+ " lines sit at `0.000000`. First moving clock: `[" +:+ (sf_sched sf).1.2
    +:+ "] " +:+ clip (pk_msg (sf_sched sf)) 80 +:+ "` (" +:+ fmt_ns (NInt (pk_ns (sf_sched sf)))
    +:+ " after the printk epoch). Printk epoch is kernel timekeeping, not firmware handoff.";
   "";
   "Milestones that *are* visible: dummy console; `PF_INET` / `TCP: Hash tables configured` (inet_init, not a "
    +:+ "listening socket); PLIC; 8250; `legacy console [ttyS0] enabled`; `Run /init as init process` at "
    +:+ fmt_ms2 (NInt (sf_run_init sf)) +:+ ". Virtio-mmio probe and virtio-net ready are **not** on the T4.8 "
    +:+ "printk boot path — `virtio_net virtio0` and `10008000.virtio_mmio` appear only at shutdown. The "
    +:+ "diagnostic boot names those initcalls outside the hole (" +:+ fmt_us_ms1 (lf_virtio_us lf)
    +:+ " UART-inflated combined).";
   "";
   "Printk-visible kernel is the span from the first timestamp to `Run /init`: **" +:+ fmt_ms2 (NInt (sf_span sf))
    +:+ "**. The gaps between consecutive timestamps are the decomposition we have. Top ten, as a share of that "
    +:+ "span:";
   "";
   "| rank | from | to | duration | share of printk-visible kernel | notes |";
   "|---|---|---|---:|---:|---|"].
(** Rank 1 is the first row. *)
Definition gap_note (lf : label_facts) (sf : serial_facts) (hole_rank1_share : num) (i : nat) : string :=
  if (i =? 1)%nat then
    "`trace_eval_sync` (" +:+ fmt_us_ms1 (la_usecs (lf_hole1 lf)) +:+ " UART-inflated on the ignore_loglevel "
     +:+ "boot) labels " +:+ num_fixed 1 hole_rank1_share +:+ "% of this " +:+ fmt_ms2 (NInt (sf_gap1 sf))
     +:+ " cell; it does not replace it"
  else "".
Definition gap_row (lf : label_facts) (sf : serial_facts) (hole_rank1_share : num) (ig : nat * gap) : res string :=
  let '(i, g) := ig in
  share ← share_of_span (gp_ns g) (sf_span sf);
  Ok ("| " +:+ str_of_nat i +:+ " | " +:+ clip (gp_src g) 48 +:+ " | " +:+ clip (gp_dst g) 48 +:+ " | "
       +:+ fmt_ms2 (NInt (gp_ns g)) +:+ " | " +:+ num_fixed 1 share +:+ "% | "
       +:+ gap_note lf sf hole_rank1_share i +:+ " |").
Definition decomposition_gap1 (lf : label_facts) (sf : serial_facts) (top_share hole_rank1_share ranks_2_29_share : num) : list string :=
  ["";
   "Those ten gaps are **" +:+ num_fixed 1 top_share +:+ "%** of " +:+ fmt_ms2 (NInt (sf_span sf))
    +:+ ". Gap 1 is after ttyS0 is enabled, so it is real silence, not a buffered early console. Around it the "
    +:+ "log still names general-purpose work the trim did not remove: NFS, 9p, USB, ALSA, SDHCI, mousedev, "
    +:+ "HugeTLB, audit, RPC.";
   "";
   "## Gap 1 named";
   "";
   "The D-0072 `ignore_loglevel` boot of the same `Image-trimmed` names the hole. Durations in this section are "
    +:+ "UART-inflated (extra `KERN_DEBUG` on the console). They label the **" +:+ fmt_ms2 (NInt (sf_gap1 sf))
    +:+ "** T4.8 cell; they do not replace it.";
   "";
   "| what | duration (UART-inflated; ignore_loglevel boot) | share of the T4.8 hole |";
   "|---|---:|---:|";
   "| hole rank 1: `trace_eval_sync` | " +:+ fmt_us_ms1 (la_usecs (lf_hole1 lf)) +:+ " | "
    +:+ num_fixed 1 hole_rank1_share +:+ "% of " +:+ fmt_ms2 (NInt (sf_gap1 sf)) +:+ " |";
   "| hole ranks 2–29 combined (" +:+ str_of_nat (length (lf_ranks lf)) +:+ " initcalls) | "
    +:+ fmt_us_ms1 (lf_ranks_us lf) +:+ " | " +:+ num_fixed 1 ranks_2_29_share +:+ "% of "
    +:+ fmt_ms2 (NInt (sf_gap1 sf)) +:+ " |"].
Definition decomposition_tracing (lf : label_facts) : list string :=
  ["";
   "One initcall is essentially the whole anonymous region. Ranks 2–29 inside the hole sum to under 20 ms "
    +:+ "combined (" +:+ fmt_us_ms1 (lf_ranks_us lf) +:+ ", UART-inflated).";
   "";
   "`trace_eval_sync` is `late_initcall_sync` in Linux 6.18 `kernel/trace/trace.c` (`obj-$(CONFIG_TRACING) += "
    +:+ "trace.o`). `trace_eval_init` (a `subsys_initcall`) queues `eval_map_work_func` on a tracing workqueue; "
    +:+ "that work walks `__start_ftrace_eval_maps` … `__stop_ftrace_eval_maps` and rewrites trace-event print "
    +:+ "formats so userspace parsers can decode `TRACE_DEFINE_ENUM` names. `trace_eval_sync` destroys the "
    +:+ "workqueue and therefore flushes the pass. This guest is one hart under TCG, so the " +:+ dq
    +:+ "background" +:+ dq +:+ " work runs at sync time on the boot CPU and shows up as one giant initcall.";
   "";
   "No tracing consumer is running. `/init` is a static musl HTTP server; `PROC_FS` and `SYSFS` are unset, so "
    +:+ "tracefs is not a usable ABI. The maps exist for a userspace that is not here. "
    +:+ "`CONFIG_TRACE_EVAL_MAP_FILE` only keeps a debugfs dump of the maps; it is not the gate for this "
    +:+ "initcall.";
   "";
   "The user-visible compile gate is `menuconfig FTRACE` (" +:+ dq +:+ "Tracers" +:+ dq
    +:+ "), which defaults y when `CONFIG_DEBUG_KERNEL=y`. Buildroot's `qemu_riscv64_virt_defconfig` uses the "
    +:+ "riscv `defconfig` (`BR2_LINUX_KERNEL_USE_ARCH_DEFAULT_CONFIG`), and that defconfig sets "
    +:+ "`DEBUG_KERNEL=y`. The T4.8 `linux-trimmed.fragment` (this pin) never unsets `FTRACE`, `TRACING`, or "
    +:+ "`DEBUG_KERNEL`. `FTRACE` is not EXPERT-gated, so `# CONFIG_FTRACE is not set` would have stuck. That "
    +:+ "is a further trim we **missed** on this Image, not a keep we documented. D-0062 already claims *a* "
    +:+ "minimal Linux, not *the* minimal Linux. **This exhibit stays the before.** D-0073 acts on the miss "
    +:+ "with a new Image and a T4.8b five-arm campaign. Do not retarget `ffb7ac7` / `d705ecb` / `93ab617`.";
   ""].
Definition decomposition_context (lf : label_facts) (sf : serial_facts) (serial_ratio : num) (listen listen_to_resp : Z) : list string :=
  ["## Full-file context";
   "";
   "Ranked across the whole diagnostic boot, not inside the hole. Every duration in this table is UART-inflated "
    +:+ "from the `ignore_loglevel` boot; none of them replace a T4.8 cell. `of_platform_serial_driver_init` "
    +:+ "finishes before `dns_resolver registered` — it is not the " +:+ fmt_ms2 (NInt (sf_gap1 sf)) +:+ " hole.";
   "";
   "| symbol | duration (UART-inflated; ignore_loglevel boot) | in the T4.8 hole? |";
   "|---|---:|---|";
   "| `trace_eval_sync` | " +:+ fmt_us_ms1 (la_usecs (lf_hole1 lf)) +:+ " | yes |";
   "| `of_platform_serial_driver_init` | " +:+ fmt_us_ms1 (la_usecs (lf_of_serial lf)) +:+ " | no |";
   "| `virtio_net_driver_init` | " +:+ fmt_us_ms1 (la_usecs (lf_virtio_net lf)) +:+ " | no |";
   "| `serial8250_init` | " +:+ fmt_us_ms1 (la_usecs (lf_serial8250 lf)) +:+ " | no |";
   "| `virtio_mmio_init` | " +:+ fmt_us_ms1 (la_usecs (lf_virtio_mmio lf)) +:+ " | no |";
   "";
   "`virtio_net_driver_init` + `virtio_mmio_init` = **" +:+ fmt_us_ms1 (lf_virtio_us lf)
    +:+ "** (UART-inflated). That is the virtio path this comparison actually needs. The dominant costs are a "
    +:+ "tracing-infrastructure sync pass and generic serial-bus probing — work a single-purpose kernel never "
    +:+ "runs.";
   "";
   "`serial8250_init` (`CONFIG_SERIAL_8250`, kept) is the 8250/16550 core: `uart_register_driver` and the "
    +:+ "ISA/legacy port table (`nr_uarts`). The T4.8 log prints `" +:+ md_cell (sf_8250 sf)
    +:+ "` from that initcall. It does not probe the QEMU virt DT UART.";
   "";
   "`of_platform_serial_driver_init` (`CONFIG_SERIAL_OF_PLATFORM=y`, kept on purpose in "
    +:+ "`linux-trimmed.fragment` so ttyS0 comes from the virt board DT) is `module_platform_driver` → "
    +:+ "`of_platform_serial_probe` in `drivers/tty/serial/8250/8250_of.c`: ioremap, IRQ, "
    +:+ "`serial8250_register_8250_port` for `10000000.serial`. That is the MMIO + console registration the "
    +:+ "T4.8 log shows as `" +:+ md_cell (sf_tty sf) +:+ "`. The **" +:+ num_fixed 1 serial_ratio
    +:+ "×** gap (UART-inflated " +:+ fmt_us_ms1 (la_usecs (lf_of_serial lf)) +:+ " vs "
    +:+ fmt_us_ms1 (la_usecs (lf_serial8250 lf)) +:+ ") is core-register versus DT-probe, not two copies of the "
    +:+ "same work. Kept, not missed.";
   "";
   "## `/init` stamps";
   "";
   "**" +:+ fmt_ms2 (NInt listen) +:+ " of kernel boot before userspace**, then **"
    +:+ fmt_ms2 (NInt listen_to_resp) +:+ " of server work** (listen → response).";
   "";
   "| stamp | CLOCK_MONOTONIC | Δ from previous |";
   "|---|---:|---:|";
   "| listen | " +:+ fmt_ms2 (stamp_at (sf_stamps sf) "listen") +:+ " | — |"].
Fixpoint stamp_rows (stamps : odict string Z) (prev : num) (names : list string) : list string :=
  match names with
  | [] => []
  | name :: names =>
    let cur := stamp_at stamps name in
    ("| " +:+ name +:+ " | " +:+ fmt_ms2 cur +:+ " | " +:+ fmt_ms2 (num_sub cur prev) +:+ " |") :: stamp_rows stamps cur names
  end.
Definition decomposition_clocks (lf : label_facts) (sf : serial_facts) (ck : clocks) : list string :=
  ["";
   "ready → accept is sub-millisecond: the SYN was already queued (confound A's announce). Virtio-net bring-up "
    +:+ "is not in this table; the diagnostic names it outside gap 1 (`virtio_mmio_init` + "
    +:+ "`virtio_net_driver_init` = " +:+ fmt_us_ms1 (lf_virtio_us lf) +:+ ", UART-inflated).";
   "";
   "## Clock cross-check";
   "";
   "Printk `Run /init` → first shutdown line versus `CLOCK_MONOTONIC` listen / response. Evidence the two "
    +:+ "clocks **agree**, not a claim they are the same clock:";
   "";
   "`Run /init` → shutdown = **" +:+ fmt_ms2 (NInt (ck_run ck)) +:+ "** = " +:+ fmt_ms2 (NInt (ck_exec ck))
    +:+ " (exec → listen) + " +:+ fmt_ms2 (NInt (ck_serve ck)) +:+ " (listen → response) + "
    +:+ fmt_ms2 (NInt (ck_down ck)) +:+ " (response → shutdown).";
   "";
   "At 0.01 ms rounding that is " +:+ num_fixed 2 (ck_span ck) +:+ " = " +:+ num_fixed 2 (ck_p0 ck) +:+ " + "
    +:+ num_fixed 2 (ck_p1 ck) +:+ " + " +:+ num_fixed 2 (ck_p2 ck) +:+ ". `READY` itself has no kernel "
    +:+ "timestamp; it sits in the printk hole between `Run /init` and shutdown by design (one 6-byte write on "
    +:+ "the measured path).";
   "";
   "## Unmeasured prefix";
   "";
   "**" +:+ str_of_nat (sf_opensbi sf) +:+ " untimed OpenSBI lines** before the first `[    0.000000]`, then **"
    +:+ str_of_nat (sf_zero sf) +:+ " kernel lines collapsed at `0.000000`** until `sched_clock` at "
    +:+ fmt_ns (NInt (pk_ns (sf_sched sf))) +:+ ". Early asm, mem setup, and the cmdline are on the epoch, "
    +:+ "duration unknown. No E2 is constructed from the OpenSBI banner, from the 0.000000 cluster, or from a "
    +:+ "mixed-clock remainder against W. The prefix is unmeasured.";
   ""].
Definition decomposition_whimbrel (wf : whim_facts) : list string :=
  ["## Whimbrel, same batch and trial";
   "";
   "Same OpenSBI v1.8 banner, still untimed on the serial. Then `HTTP READY` and **" +:+ str_of_nat (wf_phases wf)
    +:+ " named `PHASE` deltas** on the 10 MHz mtime, including virtio as `virtq_init` / `DRIVER_OK`. `_start` "
    +:+ "is at " +:+ fmt_ms2 (NInt (ph_mtime_ns (wf_start wf))) +:+ " mtime — OpenSBI is priced. Linux printk 0 "
    +:+ "is later and does not include that interval.";
   "";
   "This trial's `_start` → `E3g` is " +:+ fmt_ms2 (NInt (ph_since_start_ns (wf_e3g wf)))
    +:+ " (the campaign median 6.43 ms lives in [phase-decomposition.md](phase-decomposition.md); this dump is "
    +:+ "one trial, used here for kind). Every interval has a name. Linux's T4.8 printk never prints a virtio "
    +:+ "probe on the way up; the diagnostic names that work outside the hole.";
   "";
   "That is the comparison: twenty named deltas against named general-purpose work a single-purpose VM does not "
    +:+ "do — a tracing eval-map sync pass and leftover probes — not an unnamed virtio tax. The T4.8 "
    +:+ "instrumented serial could not name the hole; the diagnostic boot of the same Image did.";
   ""].
Definition stamp_of (d : odict string Z) (name : string) : res Z := of_option (KeyError (repr_str name)) (od_get name d).
Definition write_linux_decomposition (linux_text whim_text labels_text fragment_text manifest_text : string) : res string :=
  lf ← label_part labels_text fragment_text manifest_text;
  sf ← serial_part linux_text;
  hole_rank1_share ← share_of_gap (la_usecs (lf_hole1 lf)) (sf_gap1 sf);
  ranks_2_29_share ← share_of_gap (lf_ranks_us lf) (sf_gap1 sf);
  serial_ratio ← num_truediv (NInt (la_usecs (lf_of_serial lf))) (NInt (la_usecs (lf_serial8250 lf)));
  listen ← stamp_of (sf_stamps sf) "listen";
  resp ← stamp_of (sf_stamps sf) "response";
  ck ← clock_check (sf_run_init sf) listen resp (sf_shutdown sf);
  wf ← whim_part whim_text;
  rows ← mapR (gap_row lf sf hole_rank1_share) (imap (λ i g, (S i, g)) (sf_top sf));
  top_share ← share_of_span (sumZ (gp_ns <$> sf_top sf)) (sf_span sf);
  Ok (lines_ (decomposition_intro lf sf hole_rank1_share ++ decomposition_kernel lf sf ++ rows
              ++ decomposition_gap1 lf sf top_share hole_rank1_share ranks_2_29_share ++ decomposition_tracing lf
              ++ decomposition_context lf sf serial_ratio listen (ck_serve ck)
              ++ stamp_rows (sf_stamps sf) (stamp_at (sf_stamps sf) "listen") (tail INIT_STAMP_ORDER)
              ++ decomposition_clocks lf sf ck ++ decomposition_whimbrel wf)).
