(* ===== verification/ExhibitSerialFacts.v ===== *)
(** * What the boot decomposition reads (scripts/report-exhibits.py)

    The exhibit's PHASE parser against the harness's, and the gaps between the
    printk lines against the span they divide. *)
From S2P Require Import Prelude PyStr Regex PyFloat PyData PinGates ExhibitGates ExhibitSerial.
From S2P Require BenchSerial.
From Stdlib Require Import Ascii.

(** ** Lines and their ends *)
Lemma splitlines_l_no_break l : ∀ acc, Forall (λ a, is_linebreak a = false) acc →
  Forall (Forall (λ a, is_linebreak a = false)) (splitlines_l acc l).
Proof.
  remember (length l) as n eqn:Hn. revert l Hn. induction n as [n IH] using lt_wf_ind. intros l -> acc Hacc.
  assert (Forall (λ a, is_linebreak a = false) (reverse acc)) as Hr by by rewrite reverse_Permutation.
  destruct l as [|a l]; cbn [splitlines_l]; [destruct acc; by repeat constructor|].
  destruct (ord a =? 13)%N.
  - destruct l as [|b l]; [by repeat constructor|]. destruct (ord b =? 10)%N.
    + constructor; [done|]. eapply (IH (length l)); [cbn; lia|done|constructor].
    + constructor; [done|]. eapply (IH (length (b :: l))); [cbn; lia|done|constructor].
  - destruct (is_linebreak a) eqn:Ha; [constructor; [done|]|]; (eapply (IH (length l)); [cbn; lia|done|]);
      [constructor|by constructor].
Qed.
Lemma splitlines_no_break s : Forall no_break (splitlines s).
Proof.
  unfold splitlines. apply Forall_fmap. eapply Forall_impl; [by apply splitlines_l_no_break|].
  intros l Hl. unfold no_break. cbn. by rewrite to_l_of_l.
Qed.
Lemma rstrip_cr_id s : no_break s → rstrip_cr s = s.
Proof.
  intros H. unfold rstrip_cr, rstrip_chars. rewrite drop_while_id; [by rewrite reverse_involutive, of_l_to_l|].
  intros a Ha. apply is_linebreak_cr. unfold no_break in H. rewrite Forall_forall in H. apply H.
  rewrite <-elem_of_reverse. by apply head_Some_elem_of.
Qed.
Lemma drop_while_split p l : ∃ u, l = u ++ drop_while p l ∧ Forall (λ a, p a = true) u.
Proof.
  induction l as [|a l (u & Hl & Hu)]; [by exists []|]. cbn. destruct (p a) eqn:Ha; [|by exists []].
  exists (a :: u). split; [by rewrite Hl at 1|by constructor].
Qed.
(** Stripping a text that does not start with a space removes spaces at its end. *)
Lemma strip_tail s : (∀ a, head (to_l s) = Some a → is_space a = false) →
  ∃ sp, to_l s = to_l (strip s) ++ sp ∧ Forall (λ a, is_space a = true) sp.
Proof.
  intros Hh. unfold strip, strip_l. rewrite to_l_of_l, (drop_while_id _ (to_l s)) by done.
  destruct (drop_while_split is_space (reverse (to_l s))) as (u & Hu & Hf). exists (reverse u).
  split; [|by rewrite reverse_Permutation]. rewrite <-reverse_app, <-Hu. by rewrite reverse_involutive.
Qed.
Lemma drop_while_keep p (a b : list ascii) c : p c = false → ∃ a', drop_while p (a ++ c :: b) = a' ++ c :: b.
Proof.
  intros Hc. induction a as [|x a [a' IH]]; cbn; [rewrite Hc; by exists []|].
  destruct (p x); [eauto|]. by exists (x :: a).
Qed.
Lemma startswith_strip s rest : to_l s = to_l "PHASE" ++ rest → startswith (strip s) "PHASE" = true.
Proof.
  intros Hs. unfold startswith, strip, strip_l. rewrite to_l_of_l, Hs.
  change (drop_while is_space (to_l "PHASE" ++ rest)) with (to_l "PHASE" ++ rest). rewrite reverse_app.
  change (reverse (to_l "PHASE")) with (chr 69 :: to_l "SAHP").
  destruct (drop_while_keep is_space (reverse rest) (to_l "SAHP") (chr 69)) as [a' ->]; [done|].
  rewrite reverse_app. apply prefix_l_spec. by exists (reverse a').
Qed.

(** ** The two PHASE parsers *)
(** The same name, time since start and delta. *)
Definition same_phase (r : row) (p : ExhibitSerial.phase_row) : Prop :=
  get "phase" r = Ok (PStr (ph_name p)) ∧ get_int "ns_since_e2" r = Ok (ph_since_start_ns p) ∧
  get_int "delta_ns" r = Ok (ph_delta_ns p).
(** No PHASE line is indented: a line that starts with the word once it is
    stripped starts with it as it stands. *)
Definition unindented (raw : string) : Prop := startswith (strip raw) "PHASE" = true → startswith raw "PHASE" = true.
(** A pattern that consumes a prefix [u] of the subject with captures [c]. *)
Lemma re_match_prefix r s u l c : to_l s = u ++ l →
  (∀ R (k : option ascii → list ascii → caps → option R) x,
     k (last_of None u) l c = Some x → rm r None (u ++ l) [] k = Some x) →
  ∃ m, re_match r s = Some m ∧ m_caps m = c.
Proof.
  intros Hs H. unfold re_match, match_at. rewrite Hs. erewrite H; [|reflexivity]. by eexists.
Qed.
(** Every line the pattern matches starts with [PHASE], its name and [ticks=]. *)
Lemma phase_re_text s m : re_match PHASE_RE s = Some m → ∃ u rest, u ≠ [] ∧ Forall (λ a, cS a = true) u ∧
  to_l s = to_l "PHASE " ++ u ++ to_l " ticks=" ++ rest.
Proof.
  intros (pv & l & H)%re_match_Some. unfold PHASE_RE in H. inv_rm. subst. eauto 10.
Qed.
(** The texts both row patterns are about. *)
Definition row_text (u1 u2 u3 u4 u5 u6 u7 : list ascii) : list ascii :=
  to_l "PHASE " ++ u1 ++ to_l " ticks=" ++ u2 ++ to_l " ns=" ++ u3 ++ to_l " since_start=" ++ u4 ++ to_l " ns=" ++ u5
  ++ to_l " delta=" ++ u6 ++ to_l " ns=" ++ u7.
Definition digits_run (u : list ascii) : Prop := u ≠ [] ∧ Forall (λ a, cd a = true) u.
Definition row_caps (u1 u2 u3 u4 u5 u6 u7 : list ascii) : list (nat * string) :=
  [(7, of_l u7); (6, of_l u6); (5, of_l u5); (4, of_l u4); (3, of_l u3); (2, of_l u2); (1, of_l u1)]%nat.
Lemma phase_re_row raw u1 u2 u3 u4 u5 u6 u7 tl : u1 ≠ [] → Forall (λ a, cS a = true) u1 →
  Forall digits_run [u2; u3; u4; u5; u6; u7] → (∀ a, head tl = Some a → cd a = false) →
  to_l raw = row_text u1 u2 u3 u4 u5 u6 u7 ++ tl →
  ∃ m, re_match PHASE_RE raw = Some m ∧ m_caps m = row_caps u1 u2 u3 u4 u5 u6 u7.
Proof.
  intros Hn1 Hf1 Hd Htl Hraw. rewrite !Forall_cons in Hd. unfold digits_run in Hd. destruct_and?.
  apply (re_match_prefix _ _ _ _ _ Hraw). intros R k x Hk. unfold PHASE_RE, row_text. rewrite <-!app_assoc.
  rewrite rm_seq, rm_bol, rm_seq, rm_lit_app, rm_seq.
  do 6 (apply rm_grp_plus_greedy; [done|done|by intros a [= <-]|]; rewrite rm_seq, rm_lit_app; first [rewrite rm_seq|idtac]).
  apply rm_grp_plus_greedy; [done..|]. rewrite !last_of_app. exact Hk.
Qed.
(** A row the harness reads, with spaces after it, is one the exhibit reads. *)
Lemma row_re_phase_re line raw m sp : re_match BenchSerial.PHASE_ROW_RE line = Some m →
  to_l raw = to_l line ++ sp → Forall (λ a, is_space a = true) sp →
  ∃ m', re_match PHASE_RE raw = Some m' ∧ m_caps m' = m_caps m ∧ ∃ n, int_of_str (grp_of 3 m) = Some (Z.of_N n).
Proof.
  intros (pv & l & H)%re_match_Some Hraw Hsp. unfold BenchSerial.PHASE_ROW_RE in H. inv_rm. subst.
  match goal with H : to_l line = _ |- _ => rewrite H in Hraw end.
  match goal with H : m_caps m = ?c |- _ => rename H into Hc end. unfold grp_of. rewrite Hc.
  rewrite <-!app_assoc in Hraw.
  match type of Hraw with to_l raw = to_l _ ++ ?v1 ++ _ ++ ?v2 ++ _ ++ ?v3 ++ _ ++ ?v4 ++ _ ++ ?v5 ++ _ ++ ?v6 ++ _ ++ ?v7 ++ ?vt =>
    destruct (phase_re_row raw v1 v2 v3 v4 v5 v6 v7 vt) as (m' & Hm' & Hcaps) end.
  1-2: done.
  - by repeat (constructor; [by split|]).
  - match goal with |- ∀ a, head (?sp1 ++ ?nl1 ++ sp) = _ → _ => assert (Forall (λ a, is_space a = true) (sp1 ++ nl1 ++ sp)) as Hall end.
    { apply Forall_app. split; [done|]. apply Forall_app. split; [|done].
      match goal with H : at_end ?l = true |- _ => rename H into Hend; destruct l as [|a [|]]; [constructor| |done] end.
      apply N.eqb_eq in Hend. constructor; [|constructor]. unfold is_space, in_range. by rewrite Hend. }
    intros a Ha. rewrite Forall_forall in Hall. specialize (Hall a (head_Some_elem_of _ _ Ha)).
    destruct (cd a) eqn:E; [|done]. apply is_space_digit in E. congruence.
  - unfold row_text. by rewrite <-!app_assoc.
  - exists m'. split_and!; [done..|]. rewrite !grp_miss, grp_hit by done. by apply int_of_digits.
Qed.
(** What a line does to the harness's rows, and what the exhibit makes of it. *)
Lemma phase_line_both raw rows rows' : no_break raw → unindented raw → BenchSerial.phase_line rows raw = Ok rows' →
  (rows' = rows ∧ re_match PHASE_RE raw = None) ∨
  ∃ r m p, rows' = rows ++ [r] ∧ re_match PHASE_RE raw = Some m ∧ phase_row_of m = Ok p ∧ same_phase r p.
Proof.
  intros Hnb Hun. unfold BenchSerial.phase_line. rewrite replace_cr_id by done. cbv zeta.
  destruct (startswith (strip raw) "PHASE") eqn:Hs; cbn [negb]; cycle 1.
  { intros [= <-]. left. split; [done|]. destruct (re_match PHASE_RE raw) as [m|] eqn:E; [|done]. exfalso.
    apply phase_re_text in E as (u & rest & _ & _ & E). change (to_l "PHASE ") with (to_l "PHASE" ++ [chr 32]) in E.
    rewrite <-app_assoc in E. by rewrite (startswith_strip _ _ E) in Hs. }
  specialize (Hun Hs). apply prefix_l_spec in Hun as [rest Hrest].
  destruct (strip_tail raw) as (sp & Hraw & Hsp); [by rewrite Hrest; intros a [= <-]|].
  destruct (re_match BenchSerial.PHASE_HEADER_RE (strip raw)) as [mh|] eqn:Eh; cbn [is_some].
  - intros [= <-]. left. split; [done|]. destruct (re_match PHASE_RE raw) as [m|] eqn:E; [|done]. exfalso.
    apply phase_re_text in E as (u & tl & _ & Hu & E). apply re_match_Some in Eh as (pv & l & H).
    unfold BenchSerial.PHASE_HEADER_RE in H. inv_rm. subst. rewrite E in Hraw.
    match goal with H : to_l (strip raw) = _ |- _ => rewrite H in Hraw end.
    change (to_l "PHASE ticks (") with (to_l "PHASE " ++ to_l "ticks" ++ chr 32 :: [chr 40]) in Hraw.
    rewrite <-!app_assoc in Hraw. apply app_inv_head in Hraw. change (to_l " ticks=") with (chr 32 :: to_l "ticks=") in Hraw.
    rewrite <-!app_comm_cons in Hraw. apply (span_unique cS) in Hraw as [_ Hraw]; [done|done|by repeat constructor|done..].
  - destruct (is_some (re_match BenchSerial.PHASE_UNSET_RE _)); [done|].
    destruct (re_match BenchSerial.PHASE_ROW_RE (strip raw)) as [m|] eqn:Em; [|done].
    destruct (BenchSerial.phase_row m) as [r|] eqn:Er; [|done]. intros [= <-]. right.
    destruct (row_re_phase_re _ raw _ sp Em Hraw Hsp) as (m' & Hm' & Hc & n & Hn).
    unfold BenchSerial.phase_row in Er. cbv zeta in Er. gates_in Er. injection Er as <-.
    eexists _, m', _. split_and!; [done..| |].
    + unfold phase_row_of, group_int, grp_of. rewrite Hc. fold (grp_of 3 m) (grp_of 5 m) (grp_of 7 m) (grp_of 1 m).
      rewrite Hn. cbn [of_option mbind res_bind]. rewrite Er1. cbn [mbind res_bind]. rewrite Er3. reflexivity.
    + by split_and!.
Qed.
Lemma phase_lines_both raws : Forall no_break raws → Forall unindented raws → ∀ rows rows' ps0, Forall2 same_phase rows ps0 →
  foldM BenchSerial.phase_line rows raws = Ok rows' →
  ∃ ps, mapR phase_row_of (omap (λ raw, re_match PHASE_RE (rstrip_cr raw)) raws) = Ok ps ∧ Forall2 same_phase rows' (ps0 ++ ps).
Proof.
  induction 1 as [|raw raws Hnb _ IH]; intros Hun rows rows' ps0 Hps; cbn [foldM].
  - intros [= <-]. exists []. by rewrite app_nil_r.
  - apply Forall_cons in Hun as [Hu Hun]. intros H. apply bind_Ok in H as (rows1 & H1 & H).
    cbn [omap list_omap]. change (list_omap ?f ?l) with (omap f l). rewrite rstrip_cr_id by done.
    destruct (phase_line_both raw rows rows1 Hnb Hu H1) as [[-> ->]|(r & m & p & -> & -> & Hp & Hr)].
    + by apply (IH Hun _ _ _ Hps).
    + assert (Forall2 same_phase (rows ++ [r]) (ps0 ++ [p])) as Hps' by (apply Forall2_app; [done|by constructor; [done|constructor]]).
      destruct (IH Hun _ _ _ Hps' H) as (ps & Hm & Hf).
      exists (p :: ps). cbn [mapR]. rewrite Hp, Hm. split; [done|]. by rewrite <-app_assoc in Hf.
Qed.

(** C17. The harness and the exhibit read the same phases.  On every serial log in
    which no PHASE line is indented, whatever else it holds, when the harness's
    parser accepts the log the exhibit's own parser accepts it too and finds the same
    phases in the same order, each with the same time since start and the same delta.
    The condition is needed: the harness strips a line before it matches it and the
    exhibit does not ([indented_phase]). *)
Theorem phase_parsers_agree (text : string) (rows : list row) (Hun : Forall unindented (splitlines text))
    (Hok : BenchSerial.parse_phases text = Ok rows) :
  ∃ ps, parse_phases_serial text = Ok ps ∧ Forall2 same_phase rows ps.
Proof.
  unfold BenchSerial.parse_phases in Hok. apply bind_Ok in Hok as (rows0 & Hf & Hok).
  destruct (phase_lines_both _ (splitlines_no_break text) Hun [] rows0 [] ltac:(constructor) Hf) as (ps & Hm & Hps).
  destruct rows0 as [|r0 rows0]; [done|]. gates_in Hok. injection Hok as <-. exists ps. unfold parse_phases_serial. rewrite Hm. cbn [mbind res_bind app] in *. split; [|done].
  by destruct ps; [apply Forall2_length in Hps|].
Qed.
Definition phase_text (name numbers : string) : string := "PHASE " +:+ name +:+ " ticks=" +:+ numbers.
Definition sample_dump (pad : string) : string := unterminated
  ["OpenSBI v1.8"; "PHASE ticks (10 MHz)"; phase_text "_start" "10 ns=1000 since_start=0 ns=0 delta=0 ns=0  ";
   pad +:+ phase_text "stamp_a" "11 ns=1100 since_start=1 ns=100 delta=1 ns=100";
   phase_text "stamp_b" "12 ns=1200 since_start=2 ns=200 delta=1 ns=100";
   phase_text "E3g" "40 ns=4000 since_start=30 ns=3000 delta=28 ns=2800"; "HTTP READY"].
Lemma phase_parsers_agree_witness : ∃ rows ps, length rows = 4%nat ∧
  BenchSerial.parse_phases (sample_dump "") = Ok rows ∧ parse_phases_serial (sample_dump "") = Ok ps ∧ Forall2 same_phase rows ps.
Proof.
  destruct (BenchSerial.parse_phases (sample_dump "")) as [rows|] eqn:E; [|by vm_compute in E].
  assert (Forall unindented (splitlines (sample_dump ""))) as Hun.
  { apply (bool_decide_eq_true (Forall (λ raw, startswith (strip raw) "PHASE" = true → startswith raw "PHASE" = true) _)). by vm_compute. }
  destruct (phase_parsers_agree (sample_dump "") rows Hun E) as (ps & H1 & H2).
  assert (match BenchSerial.parse_phases (sample_dump "") with Ok r => length r | _ => 0%nat end = 4%nat) as Hl
    by (by vm_compute).
  rewrite E in Hl. exists rows, ps. exact (conj Hl (conj eq_refl (conj H1 H2))).
Defined.
(** An indented row: the harness reads four phases, the exhibit three. *)
Lemma indented_phase : ∃ rows ps, BenchSerial.parse_phases (sample_dump "  ") = Ok rows ∧ length rows = 4%nat ∧
  parse_phases_serial (sample_dump "  ") = Ok ps ∧ length ps = 3%nat.
Proof. do 2 eexists. split; [by vm_compute|]. split; [done|]. split; [by vm_compute|done]. Qed.

(** ** The gaps *)
Definition in_order (l : list printk) : Prop := StronglySorted (λ p q, pk_ns p ≤ pk_ns q) l.
Lemma sorted_filter {A} (R : A → A → Prop) (f : A → bool) l : StronglySorted R l → StronglySorted R (List.filter f l).
Proof.
  induction 1 as [|x l _ IH Hx]; cbn; [constructor|]. destruct (f x); [|done]. constructor; [done|].
  apply Forall_forall. intros y [Hy _]%list_elem_of_In%filter_In. rewrite Forall_forall in Hx. by apply Hx, list_elem_of_In.
Qed.
Lemma default_last {A} (p q : A) l : default p (last (q :: l)) = default q (last l).
Proof. rewrite last_cons. by destruct (last l). Qed.
Lemma gaps_sum p l : sumZ (gp_ns <$> gaps_of (p :: l)) = pk_ns (default p (last l)) - pk_ns p.
Proof.
  revert p. induction l as [|q l IH]; intros p; [cbn; lia|].
  change (gaps_of (p :: q :: l)) with
    ({| gp_ns := pk_ns q - pk_ns p; gp_src := pk_msg p; gp_dst := pk_msg q; gp_t0 := p.1.2; gp_t1 := q.1.2 |} :: gaps_of (q :: l)).
  rewrite fmap_cons, sumZ_cons, IH, default_last. cbn [gp_ns]. lia.
Qed.
Lemma gaps_nonneg l : in_order l → Forall (λ g, 0 ≤ gp_ns g) (gaps_of l).
Proof.
  induction 1 as [|p l Hl IH Hp]; [constructor|]. destruct l as [|q l]; [constructor|].
  apply Forall_cons in Hp as [Hq _]. constructor; [cbn in *; lia|exact IH].
Qed.
Lemma last_of_log p tl : in_order (p :: tl) →
  default p (last tl) ∈ p :: tl ∧ ∀ q, q ∈ p :: tl → pk_ns q ≤ pk_ns (default p (last tl)).
Proof.
  revert p. induction tl as [|r tl IH]; intros p Ho.
  { split; [by left|]. by intros q ->%list_elem_of_singleton. }
  apply StronglySorted_inv in Ho as [Ho Hp]. destruct (IH r Ho) as [Hin Hle].
  rewrite default_last.
  split; [by right|]. intros q [->|Hq]%elem_of_cons; [|by apply Hle].
  rewrite Forall_forall in Hp. apply (Hp _ Hin).
Qed.
(** The lines up to [Run /init] of an ordered log end at its time. *)
Lemma kernel_lines (rows : list printk) p rest run : in_order rows → run ∈ rows → rows = p :: rest →
  ∃ tl, List.filter (λ q, pk_ns q <=? pk_ns run) rows = p :: tl ∧ pk_ns (default p (last tl)) = pk_ns run.
Proof.
  intros Ho Hrun ->. assert (pk_ns p ≤ pk_ns run) as Hp.
  { apply StronglySorted_inv in Ho as [_ Hf]. rewrite Forall_forall in Hf.
    apply elem_of_cons in Hrun as [->|H]; [done|by apply (Hf _ H)]. }
  set (l := List.filter (λ q, pk_ns q <=? pk_ns run) (p :: rest)).
  assert (in_order l) as Hs by by apply sorted_filter.
  assert (∀ q, q ∈ l ↔ pk_ns q ≤ pk_ns run ∧ q ∈ p :: rest) as Hin.
  { intros q. unfold l. rewrite list_elem_of_In, filter_In, <-list_elem_of_In, Z.leb_le. tauto. }
  assert (l = p :: List.filter (λ q, pk_ns q <=? pk_ns run) rest) as Hl.
  { subst l. cbn [List.filter]. by apply Z.leb_le in Hp as ->. }
  clearbody l. subst l. eexists. split; [done|]. destruct (last_of_log _ _ Hs) as [Hlast Hmax].
  apply Hin in Hlast as [Hle _]. specialize (Hmax run). rewrite Hin in Hmax. specialize (Hmax (conj (Z.le_refl _) Hrun)). lia.
Qed.
(** The line itself is among the lines up to it. *)
Lemma kept_lines (rows : list printk) run : run ∈ rows →
  ∃ p tl, List.filter (λ q, pk_ns q <=? pk_ns run) rows = p :: tl.
Proof.
  intros Hrun. assert (run ∈ List.filter (λ q, pk_ns q <=? pk_ns run) rows) as H.
  { apply list_elem_of_In, filter_In. rewrite <-list_elem_of_In, Z.leb_le. split; [done|lia]. }
  destruct (List.filter _ rows) as [|p tl]; [by apply elem_of_nil in H|eauto].
Qed.
Lemma next_msg_in keep rows p : next_msg keep rows = Some p → p ∈ rows.
Proof. intros [H _]%List.find_some. by apply list_elem_of_In. Qed.
Lemma sorted_gaps_spec l : StronglySorted (λ g h, gp_ns h ≤ gp_ns g) (sorted_gaps l) ∧ sorted_gaps l ≡ₚ l.
Proof.
  split; [|apply sort_by_perm]. unfold sorted_gaps. apply sort_by_sorted_rel.
  - intros x y z. lia.
  - intros x y. apply Z.leb_le.
  - intros x y H. apply Z.leb_gt in H. lia.
Qed.

(** What an accepted log's facts are made of. *)
Lemma serial_part_facts text rows sf : parse_printk text = Ok rows → serial_part text = Ok sf → ∃ run first g,
  run ∈ rows ∧ head rows = Some first ∧ sf_run_init sf = pk_ns run ∧ sf_span sf = pk_ns run - pk_ns first ∧
  sf_top sf = take 10 (kernel_gaps rows (pk_ns run)) ∧ length (sf_top sf) = 10%nat ∧
  head (sf_top sf) = Some g ∧ sf_gap1 sf = gp_ns g.
Proof.
  intros Hrows Hok. unfold serial_part in Hok. rewrite Hrows in Hok. cbn [mbind res_bind] in Hok. gates_in Hok.
  apply of_option_Ok, next_msg_in in Hok1. apply of_option_Ok in Hok5, Hok10. apply raise_when_Ok, Nat.ltb_ge in Hok9.
  injection Hok as <-. exists x0, x4, x9. cbn [sf_run_init sf_span sf_top sf_gap1]. split_and!; try done.
  rewrite length_take in *. lia.
Qed.
(** C18. The gap table accounts for the printk-visible kernel.  The ten gaps it
    lists are ten of the gaps between the log's lines up to [Run /init], in descending
    order and none smaller than a gap left out, the first being the largest of all;
    and all the gaps sum to the time from the first of these lines to the last.  The
    source never checks that the log's timestamps do not go back; when they do not,
    every gap is nonnegative, the sum is the span the exhibit quotes, and the ten,
    whose share of it is printed, are at most the span. *)
Theorem gaps_divide_span (text : string) (rows : list printk) (sf : serial_facts)
    (Hrows : parse_printk text = Ok rows) (Hok : serial_part text = Ok sf) :
  let lines := List.filter (λ p, pk_ns p <=? sf_run_init sf) rows in
  ∃ first final rest, head lines = Some first ∧ last lines = Some final ∧
    sf_top sf ++ rest ≡ₚ gaps_of lines ∧ length (sf_top sf) = 10%nat ∧
    StronglySorted (λ g h, gp_ns h ≤ gp_ns g) (sf_top sf ++ rest) ∧
    Forall (λ g, gp_ns g ≤ sf_gap1 sf) (sf_top sf ++ rest) ∧
    sumZ (gp_ns <$> sf_top sf ++ rest) = pk_ns final - pk_ns first ∧
    (in_order rows → Forall (λ g, 0 ≤ gp_ns g) (sf_top sf ++ rest) ∧
       sumZ (gp_ns <$> sf_top sf ++ rest) = sf_span sf ∧ sumZ (gp_ns <$> sf_top sf) ≤ sf_span sf).
Proof.
  destruct (serial_part_facts _ _ _ Hrows Hok) as (run & p & g & Hrun & Hfst & Hri & Hsp & Htop & Hlen & Hg & Hg1).
  cbv zeta. rewrite Hri. set (lines := List.filter (λ q, pk_ns q <=? pk_ns run) rows). set (gs := gaps_of lines).
  assert (sf_top sf ++ drop 10 (sorted_gaps gs) = sorted_gaps gs) as Happ by (rewrite Htop; apply take_drop).
  destruct (sorted_gaps_spec gs) as [Hs Hp]. destruct (kept_lines rows run Hrun) as (first & tl & Hl). fold lines in Hl.
  exists first, (default first (last tl)), (drop 10 (sorted_gaps gs)). rewrite Happ. split_and!; try done.
  - by rewrite Hl.
  - rewrite Hl, last_cons. by destruct (last tl).
  - destruct (sf_top sf) as [|g' top]; [done|]. injection Hg as ->. rewrite <-Happ in *. cbn [app] in *. rewrite Hg1.
    apply StronglySorted_inv in Hs as [_ Hmax]. by constructor.
  - rewrite Hp. subst gs. by rewrite Hl, gaps_sum.
  - intros Ho. destruct rows as [|p' rest]; [done|]. injection Hfst as ->.
    destruct (kernel_lines _ _ _ _ Ho Hrun eq_refl) as (tl' & Hk & Hlast). fold lines in Hk. rewrite Hk in Hl. injection Hl as <- <-.
    assert (Forall (λ h, 0 ≤ gp_ns h) (sorted_gaps gs)) as Hnn by (rewrite Hp; by apply gaps_nonneg, sorted_filter).
    assert (sumZ (gp_ns <$> sorted_gaps gs) = sf_span sf) as Hsum.
    { rewrite Hp, Hsp. subst gs. rewrite Hk, gaps_sum. lia. }
    split_and!; [done..|]. rewrite <-Hsum, <-Happ, fmap_app, sumZ_app.
    assert (0 ≤ sumZ (gp_ns <$> drop 10 (sorted_gaps gs))); [|lia].
    apply sumZ_nonneg, Forall_fmap. rewrite <-Happ in Hnn. by apply Forall_app in Hnn as [_ ?].
Qed.
(** A log the exhibit accepts: a hundred lines of driver chatter, the long gap, and
    the seven stamps. *)
Definition log_line (us : Z) (msg : string) : string :=
  "[    0." +:+ rjust 6 (chr 48) (str_of_Z us) +:+ "] " +:+ msg.
Definition sample_log : string := unterminated
  (["OpenSBI v1.8"; log_line 0 "Linux version 6.18.7";
    log_line 0 "Kernel command line: console=ttyS0 loglevel=7 printk.time=1 initcall_debug";
    log_line 0 "sched_clock: 64 bits at 10MHz"]
   ++ ((λ i, log_line (Z.of_nat i) "probe") <$> seq 1 100)
   ++ [log_line 200 "Serial: 8250/16550 driver"; log_line 210 "10000000.serial: ttyS0 at MMIO 0x10000000";
       log_line 220 "Key type dns_resolver registered"; log_line 900 "clk: Disabling unused clocks";
       log_line 910 "Run /init as init process"]
   ++ imap (λ i n, "INIT " +:+ n +:+ " mono_ns=" +:+ str_of_Z (920000 + Z.of_nat i)) INIT_STAMP_ORDER
   ++ ["LINUX INIT OK"; log_line 990 "PM: Calling 0xffffffff800614ec"; log_line 995 "riscv-pmu-sbi: shutdown"]).
Lemma gaps_divide_span_witness : ∃ rows sf rest,
  parse_printk sample_log = Ok rows ∧ serial_part sample_log = Ok sf ∧ sf_gap1 sf = 680000 ∧ sf_span sf = 910000 ∧
  Forall (λ g, gp_ns g ≤ 680000) (sf_top sf ++ rest) ∧
  sumZ (gp_ns <$> sf_top sf ++ rest) = 910000 ∧ sumZ (gp_ns <$> sf_top sf) ≤ 910000.
Proof.
  destruct (parse_printk sample_log) as [rows|] eqn:Er; [|by vm_compute in Er].
  destruct (serial_part sample_log) as [sf|] eqn:Es; [|by vm_compute in Es].
  assert (match serial_part sample_log with Ok x => (sf_gap1 x =? 680000) && (sf_span x =? 910000) | _ => false end = true) as Hc
    by (by vm_compute).
  rewrite Es in Hc. apply andb_true_iff in Hc as [H1%Z.eqb_eq H2%Z.eqb_eq].
  assert (match parse_printk sample_log with
          | Ok x => bool_decide (in_order x) | _ => false end = true) as Ho by (by vm_compute).
  rewrite Er in Ho. apply bool_decide_eq_true in Ho.
  destruct (gaps_divide_span sample_log rows sf Er Es) as (first & final & rest & _ & _ & _ & _ & _ & Hmax & _ & H).
  destruct (H Ho) as (_ & H3 & H4). rewrite H1 in Hmax. rewrite H2 in H3, H4. exists rows, sf, rest.
  exact (conj eq_refl (conj eq_refl (conj H1 (conj H2 (conj Hmax (conj H3 H4)))))).
Defined.

(** The cross-check of the two clocks compares a telescoping sum with itself: a
    listen stamp six hundred milliseconds before [Run /init], and a response four
    seconds after the shutdown, pass it. *)
Lemma clock_check_blind :
  is_ok (clock_check 700000000 100000000 5000000000 720000000) = true.
Proof. by vm_compute. Qed.
(** An 8250 initcall of 0 µs passes the ratio gate; the division by it then raises
    outside the class the command handles. *)
Definition label_fix (rank usecs : Z) (symbol : string) : initcall_label :=
  {| la_rank := rank; la_usecs := usecs; la_symbol := symbol; la_ret := 0; la_printk_s := float_lit "0.1" |}.
Definition hole_fix : list initcall_label :=
  label_fix 1 222000 "trace_eval_sync" :: ((λ i, label_fix (Z.of_nat i) 10 "other") <$> seq 2 28).
Definition all_fix : list initcall_label :=
  [label_fix 1 163000 "of_platform_serial_driver_init"; label_fix 2 4000 "virtio_net_driver_init";
   label_fix 3 900 "virtio_mmio_init"; label_fix 4 0 "serial8250_init"].
Lemma serial_ratio_escapes : ∃ lf, check_labels hole_fix all_fix = Ok lf ∧
  num_truediv (NInt (la_usecs (lf_of_serial lf))) (NInt (la_usecs (lf_serial8250 lf))) = Err ZeroDivisionError.
Proof. eexists. split; [by vm_compute|done]. Qed.
