(* ===== verification/ExhibitLabels.v ===== *)
(** * The label file, from writer to reader

    label-linux-initcalls.py prints the two initcall tables, linux-initcall-label.sh
    puts seven lines above them, and report-exhibits.py reads the committed file.
    The tables and the values of the header round trip. *)
From S2P Require Import Prelude PyStr Regex PyFloat FloatFacts PyData ExhibitSerial.
From S2P Require InitcallLabels BenchSerial.
From Stdlib Require Import Ascii.
Import InitcallLabels (labeled, lb_call, lb_symbol, ic_usecs, ic_ret, ic_ns, fmt_row, fmt_table, seconds6).

(** ** Printed decimals *)
Lemma div_half_even_nonneg n d : 0 ≤ n → 0 < d → 0 ≤ div_half_even n d.
Proof.
  intros. unfold div_half_even. assert (0 ≤ n / d) by (by apply Z.div_pos). repeat case_match; lia.
Qed.
Lemma scaled_nonneg m e k : 0 ≤ scaled_half_even m e k.
Proof.
  unfold scaled_half_even. cbv zeta. assert (0 ≤ Z.abs m * 10 ^ Z.of_nat k) as Hn.
  { apply Z.mul_nonneg_nonneg; [lia|]. by apply Z.pow_nonneg. }
  destruct (0 <=? e) eqn:E.
  - apply Z.mul_nonneg_nonneg; [done|]. by apply Z.pow_nonneg.
  - apply div_half_even_nonneg; [done|]. apply Z.pow_pos_nonneg; lia.
Qed.
Lemma fmt_fixed_decimal k x : is_ffinite x = true → fsign x = false → decimal (fmt_fixed (S k) x).
Proof.
  intros Hf Hs. assert (∃ n, 0 ≤ n ∧ fmt_fixed (S k) x = fixed_digits n (S k)) as (n & Hn & ->).
  { unfold fmt_fixed. rewrite Hs. destruct x; try done; cbn [dyadic]; eexists; (split; [apply scaled_nonneg|done]). }
  unfold fixed_digits. assert (0 < 10 ^ Z.of_nat (S k)) as Hp by (apply Z.pow_pos_nonneg; lia).
  destruct (digits_of_nonneg (n / 10 ^ Z.of_nat (S k))) as [Hne Hd]; [by apply Z.div_pos|].
  destruct (digits_of_nonneg (n mod 10 ^ Z.of_nat (S k))) as [_ Hm]; [by apply Z.mod_pos_bound|].
  eexists _, _. rewrite !to_l_app. split_and!; [reflexivity|done..|by apply rjust_digits].
Qed.

(** ** One row *)
(** A row whose printed form the reader's pattern accepts: the duration is a
    count, the symbol is a run without a backquote or a line break, the time a
    finite, nonnegative number of seconds. *)
Definition symbol_ok (s : string) : bool :=
  negb (String.eqb s "") && forallb (λ a, cnot_tick a && negb (is_linebreak a)) (to_l s).
Definition seconds (ns : Z) : float := default S754_nan (match fdiv (float_of_Z ns) (float_of_Z 1000000000) with Ok x => Some x | Err _ => None end).
Definition plain_row (r : labeled) : bool :=
  (0 <=? ic_usecs (lb_call r)) && symbol_ok (lb_symbol r) && is_ffinite (seconds (ic_ns (lb_call r)))
  && negb (fsign (seconds (ic_ns (lb_call r)))).
(** What the reader makes of row [i] of a table (from 0). *)
Definition reads_as (i : nat) (r : labeled) (x : initcall_label) : Prop :=
  la_rank x = Z.of_nat (S i) ∧ la_usecs x = ic_usecs (lb_call r) ∧ la_symbol x = lb_symbol r ∧
  la_ret x = ic_ret (lb_call r) ∧ ∃ s, seconds6 (ic_ns (lb_call r)) = Ok s ∧ float_of_str s = Some (la_printk_s x).
Lemma rm_opt_skip {R} r pv l c (k : option ascii → list ascii → caps → option R) :
  rm r pv l c k = None → rm (ROpt r) pv l c k = k pv l c.
Proof. intros H. cbn. by rewrite H. Qed.
Lemma rm_opt_take {R} r pv l c (k : option ascii → list ascii → caps → option R) x :
  rm r pv l c k = Some x → rm (ROpt r) pv l c k = Some x.
Proof. intros H. cbn. by rewrite H. Qed.
Lemma rm_signed_group {R} n z pv l c (k : option ascii → list ascii → caps → option R) x :
  (∀ a, head l = Some a → is_digit a = false) →
  k (last_of pv (to_l (str_of_Z z))) l ((n, str_of_Z z) :: c) = Some x →
  rm (RGrp n (RSeq (ROpt (RLit "-")) (RPlus cd))) pv (to_l (str_of_Z z) ++ l) c k = Some x.
Proof.
  intros Hl Hk. rewrite rm_grp, rm_seq. destruct (Z_le_gt_dec 0 z) as [Hz|Hz].
  - destruct (digits_of_nonneg z Hz) as [Hne Hd]. rewrite rm_opt_skip.
    { apply (rm_plus_greedy cd); [done..|]. by rewrite take_matched, of_l_to_l. }
    apply m_lit_mismatch. destruct (to_l (str_of_Z z)) as [|a u]; [done|]. apply Forall_cons in Hd as [Ha _]. clear -Ha.
    destruct a as [[] [] [] [] [] [] [] []]; vm_compute in Ha; done.
  - destruct z as [|p|p]; [lia..|]. cbn [str_of_Z] in *. rewrite to_l_app in *. rewrite <-app_assoc in *.
    apply rm_opt_take. rewrite rm_lit_app.
    apply (rm_plus_greedy cd); [rewrite to_l_str_of_N; by apply digits_nonnil
      |rewrite to_l_str_of_N; apply digits_10_digit|done|].
    rewrite app_assoc, take_matched, <-to_l_app, of_l_to_l. by rewrite last_of_app.
Qed.
Lemma decimal_chars s : decimal s → to_l s ≠ [] ∧ Forall (λ a, cdecimal a = true) (to_l s).
Proof.
  intros (ip & fp & -> & Hne & Hi & Hf). split; [by destruct ip|]. apply Forall_app. split.
  - eapply Forall_impl; [exact Hi|]. intros a Ha. unfold cdecimal. by rewrite Ha.
  - constructor; [done|]. eapply Forall_impl; [exact Hf|]. intros a Ha. unfold cdecimal. by rewrite Ha.
Qed.
Lemma symbol_ok_chars s : symbol_ok s = true → to_l s ≠ [] ∧ Forall (λ a, cnot_tick a = true) (to_l s) ∧ no_break s.
Proof.
  unfold symbol_ok. rewrite andb_true_iff, negb_true_iff, String.eqb_neq, forallb_forall. intros [Hne H].
  split; [by destruct s|]. split; apply Forall_forall; intros a Ha%list_elem_of_In; specialize (H a Ha);
    apply andb_true_iff in H as [H1 H2]; [done|by apply negb_true_iff].
Qed.
Lemma plain_seconds r : plain_row r = true → ∃ s, seconds6 (ic_ns (lb_call r)) = Ok s ∧ decimal s.
Proof.
  unfold plain_row, seconds, seconds6. intros [[_ Hf]%andb_true_iff Hs%negb_true_iff]%andb_true_iff.
  destruct (fdiv _ _) as [x|e] eqn:E; [|done]. cbn in Hf, Hs |- *. eexists. split; [done|]. by apply fmt_fixed_decimal.
Qed.
Lemma nat_digits i : to_l (str_of_nat i) ≠ [] ∧ Forall (λ a, cd a = true) (to_l (str_of_nat i)).
Proof. unfold str_of_nat. rewrite to_l_str_of_N. split; [by apply digits_nonnil|apply digits_10_digit]. Qed.
(** The reader's pattern finds the five fields of a printed row. *)
Lemma label_row_match i r line : plain_row r = true → fmt_row (S i) r = Ok line →
  ∃ m x, re_match LABEL_ROW_RE line = Some m ∧ label_of m = Ok x ∧ reads_as i r x.
Proof.
  intros Hp Hrow. destruct (plain_seconds r Hp) as (s & Hs & Hdec). unfold fmt_row in Hrow. rewrite Hs in Hrow.
  injection Hrow as <-. destruct (float_of_decimal s Hdec) as [v Hv]. destruct (decimal_chars s Hdec) as [Hsne Hsd].
  unfold plain_row in Hp. apply andb_true_iff in Hp as [[[Hu%Z.leb_le Hsym]%andb_true_iff _]%andb_true_iff _].
  destruct (symbol_ok_chars _ Hsym) as (Hyne & Hyt & _). destruct (digits_of_nonneg _ Hu) as [Hune Hud].
  destruct (nat_digits (S i)) as [Hine Hid].
  set (c := [(5%nat, s); (4%nat, str_of_Z (ic_ret (lb_call r))); (3%nat, lb_symbol r);
             (2%nat, str_of_Z (ic_usecs (lb_call r))); (1%nat, str_of_nat (S i))]).
  eexists {| m_group0 := _; m_caps := c |},
    {| la_rank := Z.of_nat (S i); la_usecs := ic_usecs (lb_call r); la_symbol := lb_symbol r;
       la_ret := ic_ret (lb_call r); la_printk_s := v |}.
  split; [|split; [|by split_and!; try done; exists s]].
  2: { unfold label_of, group_int, grp_of. cbn [m_caps].
       change (grp 1 c) with (str_of_nat (S i)). change (grp 2 c) with (str_of_Z (ic_usecs (lb_call r))).
       change (grp 3 c) with (lb_symbol r). change (grp 4 c) with (str_of_Z (ic_ret (lb_call r))). change (grp 5 c) with s.
       unfold str_of_nat. rewrite !int_of_str_of_Z, int_of_str_of_N, Hv. cbn. by rewrite nat_N_Z. }
  apply re_match_whole. intros R k x Hk. unfold LABEL_ROW_RE. rewrite !to_l_app in *.
  rewrite rm_seq, rm_bol, rm_seq, rm_lit_app, rm_seq.
  apply rm_grp_plus_greedy; [done..|by intros a [= <-]|]. rewrite rm_seq, rm_lit_app, rm_seq.
  apply rm_grp_plus_greedy; [done..|by intros a [= <-]|]. rewrite rm_seq, rm_lit_app, rm_seq.
  apply rm_grp_plus_greedy; [done..|by intros a [= <-]|]. rewrite rm_seq, rm_lit_app, rm_seq.
  apply rm_signed_group; [by intros a [= <-]|]. rewrite rm_seq, rm_lit_app, rm_seq.
  apply rm_grp_plus_greedy; [done..|by intros a [= <-]|]. rewrite <-(app_nil_r (to_l " |")), rm_seq, rm_lit_app, rm_seq.
  rewrite rm_star. cbn [m_star]. rewrite rm_eol_end, !of_l_to_l, !last_of_app. exact Hk.
Qed.

(** ** The tables *)
Definition reads_table (rs : list labeled) (xs : list initcall_label) : Prop :=
  Forall2 (λ (ir : nat * labeled) x, reads_as ir.1 ir.2 x) (imap pair rs) xs.
(** A line of a table or of the file outside its header. *)
Lemma row_text i r line : fmt_row i r = Ok line → ∃ rest, line = "| " +:+ rest.
Proof. unfold fmt_row. intros (s & _ & [= <-])%bind_Ok. eauto. Qed.
Lemma row_no_meta meta i r line : fmt_row i r = Ok line → label_meta meta line = Ok meta.
Proof. by intros [rest ->]%row_text. Qed.
Lemma row_no_break i r line : plain_row r = true → fmt_row (S i) r = Ok line → no_break line.
Proof.
  intros Hp Hrow. destruct (plain_seconds r Hp) as (s & Hs & Hdec). unfold fmt_row in Hrow. rewrite Hs in Hrow.
  injection Hrow as <-. destruct (decimal_chars s Hdec) as [_ Hsd].
  unfold plain_row in Hp. apply andb_true_iff in Hp as [[[Hu%Z.leb_le Hsym]%andb_true_iff _]%andb_true_iff _].
  destruct (symbol_ok_chars _ Hsym) as (_ & _ & Hy).
  assert (∀ z, no_break (str_of_Z z)) as Hz.
  { intros z. destruct z; [by apply no_break_literal|apply BenchSerial.str_of_N_no_break|].
    apply no_break_app. split; [by apply no_break_literal|apply BenchSerial.str_of_N_no_break]. }
  assert (no_break s) as Hsb.
  { eapply Forall_impl; [exact Hsd|]. intros a. destruct a as [[] [] [] [] [] [] [] []]; by vm_compute. }
  repeat (rewrite no_break_app; split); try done; try by apply no_break_literal.
  apply BenchSerial.str_of_N_no_break.
Qed.
Definition add_rows (b : bool) (s : label_state) (xs : list initcall_label) : label_state :=
  if b then {| ls_hole := ls_hole s ++ xs; ls_all := ls_all s; ls_section := ls_section s |}
  else {| ls_hole := ls_hole s; ls_all := ls_all s ++ xs; ls_section := ls_section s |}.
Lemma read_rows b (l : list (nat * labeled)) s lines : Forall (λ ir, plain_row ir.2 = true) l →
  mapR (λ ir, fmt_row (S ir.1) ir.2) l = Ok lines → ls_section s = Some b → ∃ xs,
  Forall2 (λ ir x, reads_as ir.1 ir.2 x) l xs ∧ foldM label_line s lines = Ok (add_rows b s xs) ∧
  (∀ meta, foldM label_meta meta lines = Ok meta) ∧ Forall no_break lines.
Proof.
  revert s lines. induction l as [|[i r] l IH]; intros s lines Hp Hl Hs.
  - injection Hl as <-. exists []. split_and!; [constructor| |done|constructor].
    cbn. destruct s, b; unfold add_rows; cbn; by rewrite app_nil_r.
  - apply Forall_cons in Hp as [Hr Hp]. cbn [mapR fst snd] in Hl.
    apply bind_Ok in Hl as (line & Hline & (rest & Hrest & [= <-])%bind_Ok).
    destruct (label_row_match i r line Hr Hline) as (m & x & Hm & Hx & Hreads).
    assert (label_line s line = Ok (add_rows b s [x])) as Hstep.
    { assert (startswith line "## Hole window" = false ∧ startswith line "## All initcalls" = false) as [H1 H2]
        by (by destruct (row_text _ _ _ Hline) as [tl ->]).
      unfold label_line. rewrite H1, H2, Hm. destruct s as [h a sec]. cbn in Hs |- *. subst. cbn. rewrite Hx. by destruct b. }
    destruct (IH (add_rows b s [x]) rest Hp Hrest) as (xs & Hf & Hfold & Hmeta & Hnb); [by destruct b|].
    exists (x :: xs). split_and!.
    + by constructor.
    + cbn [foldM]. rewrite Hstep. cbn [mbind res_bind]. rewrite Hfold. f_equal.
      destruct b; unfold add_rows; cbn; by rewrite <-app_assoc.
    + intros meta. cbn [foldM]. rewrite (row_no_meta _ _ _ _ Hline). apply Hmeta.
    + constructor; [by eapply row_no_break|done].
Qed.
Definition TABLE_HEAD : list string := ["| rank | usecs | symbol | ret | printk_s |"; "|---|---:|---|---:|---:|"].
Lemma read_table b rs s lines : forallb plain_row rs = true → fmt_table rs = Ok lines → ls_section s = Some b → ∃ xs,
  reads_table rs xs ∧ foldM label_line s lines = Ok (add_rows b s xs) ∧
  (∀ meta, foldM label_meta meta lines = Ok meta) ∧ Forall no_break lines.
Proof.
  intros Hp (body & Hb & [= <-])%bind_Ok Hs.
  assert (mapR (λ ir : nat * labeled, fmt_row (S ir.1) ir.2) (imap pair rs) = Ok body) as Hb'.
  { rewrite <-Hb. clear. replace (imap (λ i r, (S i, r)) rs) with ((λ ir : nat * labeled, (S ir.1, ir.2)) <$> imap pair rs)
      by (by rewrite fmap_imap). induction (imap pair rs) as [|p l IH]; [done|]. cbn [mapR fmap list_fmap]. by rewrite IH. }
  assert (Forall (λ ir : nat * labeled, plain_row ir.2 = true) (imap pair rs)) as Hpl.
  { apply Forall_forall. intros ir (i & r & -> & Hr)%elem_of_lookup_imap. rewrite forallb_forall in Hp. apply Hp.
    apply list_elem_of_In. by eapply list_elem_of_lookup_2. }
  destruct (read_rows b _ s body Hpl Hb' Hs) as (xs & Hf & Hfold & Hmeta & Hnb). exists xs. split_and!; [done|..].
  - change (foldM label_line s (TABLE_HEAD ++ body) = Ok (add_rows b s xs)). rewrite foldM_app.
    replace (foldM label_line s TABLE_HEAD) with (Ok s); [done|]. destruct s as [h a sec]. by destruct sec.
  - intros meta. apply Hmeta.
  - by repeat (constructor; [by apply no_break_literal|]).
Qed.

(** ** The file *)
(** The values scripts/linux-initcall-label.sh prints above the tables: the hash
    of the image, the hash and path of its System.map, the command line, QEMU's
    version line and the path of the serial log. *)
Record label_run := {
  lr_image_sha : string; lr_map_sha : string; lr_smap : string; lr_append : string; lr_qemu : string; lr_serial : string }.
Definition file_header (h : label_run) : list string :=
  ["# generated by scripts/linux-initcall-label.sh — D-0072";
   "# Image-trimmed sha256=" +:+ lr_image_sha h;
   "# System.map sha256=" +:+ (lr_map_sha h +:+ " path=" +:+ lr_smap h);
   "# cmdline=" +:+ lr_append h;
   "# qemu=" +:+ lr_qemu h;
   "# serial=" +:+ lr_serial h;
   "#"].
Definition file_meta (h : label_run) : odict string string :=
  [("image_sha", strip (lr_image_sha h)); ("smap_sha", lr_map_sha h); ("cmdline", lr_append h); ("qemu", lr_qemu h)].
(** The values have no line break, and the map's hash is a word ([awk '{print $1}']). *)
Definition word (s : string) : bool := negb (String.eqb s "") && forallb (λ a, negb (is_space a)) (to_l s).
Definition label_run_ok (h : label_run) : Prop :=
  word (lr_map_sha h) = true ∧ Forall no_break [lr_image_sha h; lr_smap h; lr_append h; lr_qemu h; lr_serial h].
Lemma split_ws_l_word w rest : ∀ acc, forallb (λ a, negb (is_space a)) w = true → reverse acc ++ w ≠ [] →
  split_ws_l acc (w ++ chr 32 :: rest) = (reverse acc ++ w) :: split_ws_l [] rest.
Proof.
  induction w as [|a w IH]; intros acc Hw Hne.
  - cbn [app split_ws_l]. change (is_space (chr 32)) with true. cbv iota. rewrite app_nil_r in Hne |- *. by destruct acc.
  - cbn [forallb] in Hw. apply andb_true_iff in Hw as [Ha%negb_true_iff Hw]. cbn [app split_ws_l]. rewrite Ha.
    rewrite IH; [|done|rewrite reverse_cons; by destruct (reverse acc)]. by rewrite reverse_cons, <-app_assoc.
Qed.
Lemma first_word w rest : word w = true → hd_error (split_ws (w +:+ " " +:+ rest)) = Some w.
Proof.
  intros [Hne%negb_true_iff%String.eqb_neq Hw]%andb_true_iff. unfold split_ws. rewrite !to_l_app.
  change (to_l " " ++ to_l rest) with (chr 32 :: to_l rest). rewrite split_ws_l_word by (try done; by destruct w).
  cbn. by rewrite of_l_to_l.
Qed.
Lemma meta_image x m : label_meta m ("# Image-trimmed sha256=" +:+ x) = Ok (od_set "image_sha" (strip x) m).
Proof. rewrite <-(of_l_to_l x) at 2. reflexivity. Qed.
Lemma meta_cmdline x m : label_meta m ("# cmdline=" +:+ x) = Ok (od_set "cmdline" x m).
Proof. rewrite <-(of_l_to_l x) at 2. reflexivity. Qed.
Lemma meta_qemu x m : label_meta m ("# qemu=" +:+ x) = Ok (od_set "qemu" x m).
Proof. rewrite <-(of_l_to_l x) at 2. reflexivity. Qed.
Lemma meta_map w smap m : word w = true →
  label_meta m ("# System.map sha256=" +:+ (w +:+ " path=" +:+ smap)) = Ok (od_set "smap_sha" w m).
Proof.
  intros Hw. set (x := w +:+ " path=" +:+ smap).
  transitivity (v ← of_option IndexError (hd_error (split_ws (of_l (to_l x)))); Ok (od_set "smap_sha" v m)); [reflexivity|].
  rewrite of_l_to_l. unfold x. change (" path=" +:+ smap) with (" " +:+ ("path=" +:+ smap)). by rewrite first_word.
Qed.
Lemma header_meta h : label_run_ok h → foldM label_meta [] (file_header h) = Ok (file_meta h).
Proof.
  intros [Hw _]. destruct h as [img sha smap cmd qemu serial]. unfold file_header, file_meta.
  cbn [foldM lr_image_sha lr_map_sha lr_smap lr_append lr_qemu lr_serial] in *.
  change (label_meta [] "# generated by scripts/linux-initcall-label.sh — D-0072") with (Ok (A := odict string string) []).
  cbn [mbind res_bind]. rewrite meta_image. cbn [mbind res_bind]. rewrite meta_map by done. cbn [mbind res_bind].
  rewrite meta_cmdline. cbn [mbind res_bind]. rewrite meta_qemu. reflexivity.
Qed.
(** The output of the labelling script below a header. *)
Definition label_output (th ta : list string) : list string :=
  ["## Hole window (labels for gap 1), sorted by usecs"; ""] ++ th ++
  [""; "## All initcalls, sorted by usecs (UART-inflated; not a report number)"; ""] ++ ta.
(** The fixed lines of the output, to both folds. *)
Lemma output_meta th ta meta : (∀ m, foldM label_meta m th = Ok m) → (∀ m, foldM label_meta m ta = Ok m) →
  foldM label_meta meta (label_output th ta) = Ok meta.
Proof.
  intros Hth Hta. unfold label_output. rewrite foldM_app.
  change (foldM label_meta meta ["## Hole window (labels for gap 1), sorted by usecs"; ""]) with (Ok meta).
  cbn [mbind res_bind]. rewrite foldM_app, Hth. cbn [mbind res_bind]. rewrite foldM_app.
  change (foldM label_meta meta [""; "## All initcalls, sorted by usecs (UART-inflated; not a report number)"; ""]) with (Ok meta).
  apply Hta.
Qed.
Lemma output_lines th ta s s1 s2 :
  foldM label_line {| ls_hole := ls_hole s; ls_all := ls_all s; ls_section := Some true |} th = Ok s1 →
  foldM label_line {| ls_hole := ls_hole s1; ls_all := ls_all s1; ls_section := Some false |} ta = Ok s2 →
  foldM label_line s (label_output th ta) = Ok s2.
Proof.
  intros Hth Hta. unfold label_output. rewrite foldM_app.
  change (foldM label_line s ["## Hole window (labels for gap 1), sorted by usecs"; ""]) with
    (Ok {| ls_hole := ls_hole s; ls_all := ls_all s; ls_section := Some true |}). cbn [mbind res_bind].
  rewrite foldM_app, Hth. cbn [mbind res_bind]. rewrite foldM_app.
  assert (∀ st, foldM label_line st [""; "## All initcalls, sorted by usecs (UART-inflated; not a report number)"; ""] =
    Ok {| ls_hole := ls_hole st; ls_all := ls_all st; ls_section := Some false |}) as -> by (by intros [? ? []]).
  exact Hta.
Qed.
Lemma label_output_no_break th ta : Forall no_break th → Forall no_break ta → Forall no_break (label_output th ta).
Proof.
  intros Hth Hta. unfold label_output. repeat (apply Forall_app; split); try done;
    by repeat (constructor; [by apply no_break_literal|]).
Qed.
Lemma word_no_break s : word s = true → no_break s.
Proof.
  intros [_ Hw]%andb_true_iff. apply no_break_literal. rewrite forallb_forall in Hw |- *. intros a Ha%Hw.
  apply negb_true_iff in Ha. apply negb_true_iff. destruct (is_linebreak a) eqn:E; [|done]. exfalso.
  destruct a as [[][][][][][][][]]; vm_compute in E; try discriminate E; by vm_compute in Ha.
Qed.
Lemma header_no_break h : label_run_ok h → Forall no_break (file_header h).
Proof.
  intros [Hw%word_no_break Hn]. rewrite !Forall_cons in Hn. destruct Hn as (H1 & H2 & H3 & H4 & H5 & _). unfold file_header.
  repeat (constructor; [repeat (apply no_break_app; split); first [done|by apply no_break_literal]|]). constructor.
Qed.
Lemma read_file h hole all th ta : label_run_ok h →
  forallb plain_row hole = true → forallb plain_row all = true → fmt_table hole = Ok th → fmt_table all = Ok ta →
  hole ≠ [] → all ≠ [] →
  ∃ hole' all', reads_table hole hole' ∧ reads_table all all' ∧
    parse_initcall_label_file (unterminated (file_header h ++ label_output th ta)) =
    Ok (hole', all', file_meta h).
Proof.
  intros Hh Hph Hpa Hth Hta Hnh Hna.
  destruct (read_table true hole {| ls_hole := []; ls_all := []; ls_section := Some true |} th Hph Hth eq_refl)
    as (xs & Hxs & Hfold & Hmeta & Hnb).
  destruct (read_table false all {| ls_hole := xs; ls_all := []; ls_section := Some false |} ta Hpa Hta eq_refl)
    as (ys & Hys & Hfold' & Hmeta' & Hnb').
  exists xs, ys. split_and!; [done..|]. unfold parse_initcall_label_file. rewrite splitlines_unterminated.
  2: { apply Forall_app. split; [by apply header_no_break|by apply label_output_no_break]. }
  rewrite (foldM_app label_line), (foldM_app label_meta), header_meta by done. cbn [mbind res_bind].
  rewrite output_meta by done. cbn [mbind res_bind].
  change (foldM label_line {| ls_hole := []; ls_all := []; ls_section := None |} (file_header h))
    with (Ok {| ls_hole := []; ls_all := []; ls_section := None |}). cbn [mbind res_bind].
  erewrite output_lines; [|exact Hfold|exact Hfold']. cbn [mbind res_bind add_rows ls_hole ls_all].
  assert (xs ≠ [] ∧ ys ≠ []) as [Hx Hy].
  { apply Forall2_length in Hxs, Hys. rewrite length_imap in Hxs, Hys. by split; intros ->; [destruct hole|destruct all]. }
  cbn. by destruct xs, ys.
Qed.

(** C13. The label file round trips.  When label-linux-initcalls.py labels a
    log and prints its two tables, and the printed tables stand below the seven
    lines linux-initcall-label.sh puts above them, report-exhibits.py reads back
    both tables row by row, in order and complete, with rank, duration, symbol,
    return value and printed time of each row, and the four header fields: the
    image's and the System.map's hash, the command line and QEMU's version.  A row is read back if its duration
    is a count, its symbol has no backquote and no line break, and its time is a
    finite, nonnegative number of seconds. *)
Theorem label_file_roundtrip (h : label_run) (serial_text map_text : string) (hole all : list labeled)
    (read_text : string → option string) (serial_path map_path : string) (o : outcome)
    (Hs : read_text serial_path = Some serial_text) (Hm : read_text map_path = Some map_text)
    (Hlabel : InitcallLabels.label serial_text map_text = Ok (hole, all))
    (Hout : InitcallLabels.main_label read_text [serial_path; map_path] = Ok o)
    (Hplain : forallb plain_row all = true)
    (Hhead : label_run_ok h) :
  ∃ hole' all', reads_table hole hole' ∧ reads_table all all' ∧
    parse_initcall_label_file (unterminated (file_header h ++ out o)) =
    Ok (hole', all', file_meta h).
Proof.
  assert (hole ⊆ all ∧ hole ≠ []) as [Hsub Hne].
  { unfold InitcallLabels.label in Hlabel. apply bind_Ok in Hlabel as (es & _ & (st & _ & (u & _ & H)%bind_Ok)%bind_Ok).
    destruct (InitcallLabels.hole_start st), (InitcallLabels.hole_end st); try done.
    apply bind_Ok in H as (u' & _ & (recs & _ & (u'' & Hf%raise_when_Ok & [= <- <-])%bind_Ok)%bind_Ok).
    split; [by intros x [_ ?]%list_elem_of_filter|]. by intros E; rewrite E in Hf. }
  unfold InitcallLabels.main_label, InitcallLabels.label_files in Hout.
  rewrite bool_decide_eq_false_2 in Hout by done. rewrite Hs, Hm in Hout. cbn [of_option mbind res_bind] in Hout.
  rewrite Hlabel in Hout. cbn [mbind res_bind] in Hout.
  destruct (InitcallLabels.fmt_table_total hole) as [th Hth], (InitcallLabels.fmt_table_total all) as [ta Hta].
  rewrite Hth, Hta in Hout. injection Hout as <-. cbn [out].
  apply read_file; try done.
  - rewrite forallb_forall in Hplain |- *. intros x Hx%list_elem_of_In%Hsub. by apply Hplain, list_elem_of_In.
  - intros ->. destruct hole as [|x hole]; [done|]. by destruct (proj1 (elem_of_nil _) (Hsub x ltac:(by left))).
Qed.
Definition st_run : label_run :=
  {| lr_image_sha := "ab"; lr_map_sha := "cd"; lr_smap := "build/System.map"; lr_append := "console=ttyS0 initcall_debug";
     lr_qemu := "QEMU emulator version 10.2.1"; lr_serial := "results/serial.txt" |}.
Lemma label_file_roundtrip_witness : ∃ hole all o hole' all',
  InitcallLabels.label InitcallLabels.st_serial InitcallLabels.st_smap = Ok (hole, all) ∧ length all = 3%nat ∧
  reads_table hole hole' ∧ reads_table all all' ∧
  parse_initcall_label_file (unterminated (file_header st_run ++ out o)) =
  Ok (hole', all', file_meta st_run).
Proof.
  set (files := λ p, if String.eqb p "s" then Some InitcallLabels.st_serial else Some InitcallLabels.st_smap).
  destruct (InitcallLabels.label InitcallLabels.st_serial InitcallLabels.st_smap) as [[hole all]|] eqn:E; [|by vm_compute in E].
  destruct (InitcallLabels.main_label files ["s"; "m"]) as [o|] eqn:Eo; [|by vm_compute in Eo].
  assert (match InitcallLabels.label InitcallLabels.st_serial InitcallLabels.st_smap with
          | Ok (_, all) => forallb plain_row all && (length all =? 3)%nat | Err _ => false end = true) as Hc by (by vm_compute).
  rewrite E in Hc. apply andb_true_iff in Hc as [Hp Hl%Nat.eqb_eq].
  destruct (label_file_roundtrip st_run InitcallLabels.st_serial InitcallLabels.st_smap hole all
    files "s" "m" o eq_refl eq_refl E Eo Hp ltac:(split; [done|repeat constructor; by apply no_break_literal])) as (h' & a' & H1 & H2 & H3).
  exists hole, all, o, h', a'. exact (conj eq_refl (conj Hl (conj H1 (conj H2 H3)))).
Defined.
