(* ===== verification/ExhibitFacts.v ===== *)
(** * What the ladder and the current comparison promise (scripts/report-exhibits.py)

    A ladder that generates has checked every rung against its pin or its reason;
    the alias of the current comparison serves the tail of the lineage, whole. *)
From S2P Require Import Prelude PyStr PyFloat PyData PinGates ExhibitPins ExhibitFixtures ExhibitGates ExhibitTables ExhibitCross.

(** ** The ladder *)
(** The rung's pin has an E2-E3g median within 0.005 ms of what its decision quotes. *)
Definition quoted_as_pinned (pins : odict string (list row * list row)) (g : rung) : Prop :=
  ∃ name pin med quoted, rg_pin g = Some name ∧ od_get name pins = Some pin ∧
    e2e3g_median pin.1 pin.2 FAST None = Ok med ∧ rg_quoted_ms g = Some quoted ∧
    num_gtb (num_abs (num_sub (over e6 med) quoted)) (NFlt (float_lit "0.005")) = false.
(** The rung has a reason, and its phase, if it names one, was recorded. *)
Definition declined_with_reason (after_fast : deltas) (g : rung) : Prop :=
  strip (default "" (rg_reason g)) ≠ "" ∧
  ∀ phase, rg_phase g = Some phase → ∃ vals, od_get phase after_fast = Some vals ∧ vals ≠ [].
Definition is_landed (g : rung) : bool := String.eqb (rg_kind g) "baseline" || String.eqb (rg_kind g) "landed".
Lemma landed_row_Ok le g x : landed_row le g = Ok x → quoted_as_pinned (le_pins le) g ∧ x.1.1.1.1 = rg_rung g.
Proof.
  unfold landed_row. intros (name & Hn%of_option_Ok & ([rec ph] & Hp%of_option_Ok & H)%bind_Ok)%bind_Ok.
  apply bind_Ok in H as (med & Hm & (quoted & Hq%of_option_Ok & (u & Hb%raise_when_Ok & H)%bind_Ok)%bind_Ok).
  apply bind_Ok in H as (d & _ & (disp & _ & [= <-])%bind_Ok). split; [|reflexivity]. exists name, (rec, ph), med, quoted.
  exact (conj Hn (conj Hp (conj Hm (conj Hq Hb)))).
Qed.
Lemma declined_row_Ok le g x : declined_row le g = Ok x →
  declined_with_reason (le_after_fast le) g ∧ x.1.1.1.1 = rg_rung g.
Proof.
  unfold declined_row, declined_with_reason. destruct (rg_phase g) as [phase|].
  - intros (v & Hv & (u & Hr%raise_when_Ok%String.eqb_neq & (d & _ & [= <-])%bind_Ok)%bind_Ok)%bind_Ok.
    split_and!; [done| |done]. intros ph [= <-]. destruct (od_get phase (le_after_fast le)) as [vals|]; [|done].
    exists vals. split; [done|]. by intros ->.
  - intros (u & Hr%raise_when_Ok%String.eqb_neq & [= <-])%bind_Ok. done.
Qed.

(** C23. A ladder that generates is checked and complete: it has one line for each
    rung, in the rungs' order and under its name; every baseline and landed rung's
    pin has a fast-boot E2-E3g median within 0.005 ms of the value its decision
    quotes; every other rung is declined, with a nonblank reason and, when it names a
    phase, with that phase recorded on the after-ladder pin. *)
Theorem ladder_checked (base t44 after : list row * list row) (cur_rec : list row) (cur : entry) (rungs : list rung) (text : string)
    (Hok : write_ladder base t44 after cur_rec cur rungs = Ok text) :
  ∃ after_fast rows, phase_deltas after.1 after.2 FAST = Ok after_fast ∧
    text = lines_ (ladder_intro cur ++ (ladder_line <$> rows) ++ ladder_outro) ∧
    Forall2 (λ (g : rung) (x : ladder_row), x.1.1.1.1 = rg_rung g ∧
      if is_landed g then quoted_as_pinned [("baseline", base); ("t44", t44); ("after", after)] g
      else rg_kind g = "declined" ∧ declined_with_reason after_fast g) rungs rows.
Proof.
  unfold write_ladder in Hok. gates_in Hok. injection Hok as <-. apply mapR_Ok in Hok4.
  eexists _, _. split_and!; [done..|]. eapply Forall2_impl; [exact Hok4|]. cbn. intros g y Hy. unfold rung_row in Hy.
  fold (is_landed g) in Hy. destruct (is_landed g).
  - by apply landed_row_Ok in Hy as [? ?].
  - destruct (String.eqb_spec (rg_kind g) "declined"); [|done]. by apply declined_row_Ok in Hy as [? ?].
Qed.
Definition ladder_fixture : res string := write_ladder lad_base lad_t44 lad_after lad_cur lad_entry LADDER_RUNGS.
Lemma ladder_checked_witness : is_ok ladder_fixture = true ∧
  ∃ after_fast rows, phase_deltas lad_after.1 lad_after.2 FAST = Ok after_fast ∧
    Forall2 (λ (g : rung) (x : ladder_row), x.1.1.1.1 = rg_rung g ∧
      if is_landed g then quoted_as_pinned [("baseline", lad_base); ("t44", lad_t44); ("after", lad_after)] g
      else rg_kind g = "declined" ∧ declined_with_reason after_fast g) LADDER_RUNGS rows.
Proof.
  destruct ladder_fixture as [text|e] eqn:E; [|by vm_compute in E]. split; [done|].
  destruct (ladder_checked lad_base lad_t44 lad_after lad_cur lad_entry LADDER_RUNGS text E) as (af & rows & H1 & _ & H2).
  exists af, rows. exact (conj H1 H2).
Defined.

(** ** The current comparison *)
Lemma current_entry_Ok lineage current e : current_comparison_entry lineage current = Ok e ↔
  last lineage = Some e ∧ en_label e = current.
Proof.
  unfold current_comparison_entry. split.
  - intros (u & _ & (tl & Hl%of_option_Ok & (v & Hc%raise_when_Ok%negb_false_iff%String.eqb_eq & [= <-])%bind_Ok)%bind_Ok)%bind_Ok.
    done.
  - intros [Hl <-]. rewrite bool_decide_eq_true_2.
    2: { apply list_elem_of_fmap. exists e. split; [done|]. by apply last_Some_elem_of. }
    cbn. rewrite Hl. cbn. by rewrite String.eqb_refl.
Qed.
(** The rows the entry promises, all of them, with the two columns the table reads. *)
Record whole_comparison (rec : list row) (e : entry) : Prop := {
  wc_batches : has_values "batch_id" rec (en_batches e);
  wc_sha : one_sha rec (en_sha_prefix e);
  wc_columns : ∀ field r, field ∈ ["e0_to_e4_ns"; "d_fin_ns"] → r ∈ rec → field ∈ od_keys r;
  wc_arms : ∀ cfg, cfg ∈ T48_ARM_ORDER.*2 → count_config rec cfg (en_n_per_arm e) }.
Lemma check_column_Ok label rec field u : check_column label rec field = Ok u ↔ ∀ r, r ∈ rec → field ∈ od_keys r.
Proof.
  unfold check_column. rewrite raise_when_Ok. setoid_rewrite <-od_in_spec. split.
  - intros H r Hr. destruct (od_in field r) eqn:E; [done|]. rewrite <-H. apply existsb_exists.
    exists r. split; [by apply list_elem_of_In|]. by rewrite E.
  - intros H. apply not_true_iff_false. intros (r & Hr & Hn)%existsb_exists. by rewrite H in Hn by by apply list_elem_of_In.
Qed.
Lemma check_current_Ok rec e u : check_current rec e = Ok u ↔ whole_comparison rec e.
Proof.
  unfold check_current. split.
  - intros H. gates_in H. match goal with H : forM_ (check_column _ _) _ = _ |- _ => rename H into Hcol end.
    rewrite forM_Ok in Hcol. constructor; try done.
    intros field r Hf. by apply (proj1 (check_column_Ok _ _ _ _) (Hcol field Hf)).
  - intros [Hb Hs Hc Ha]. destruct u. repeat (apply bind_Ok; exists tt; split; [by autorewrite with gates|]).
    apply bind_Ok. exists tt. split; [|by autorewrite with gates].
    apply forM_Ok. intros field Hf. apply check_column_Ok. by intros r; apply Hc.
Qed.

(** C22. The alias serves the lineage's tail, whole or not at all.  When the
    entry resolves and the writer generates, the entry is the last of the lineage and
    carries the current label, and the trials are the entry's batches, of one commit
    with its prefix, with both columns in every row and the entry's count of trials in
    each of the five arms; the text is the header, one line per arm in order, and the
    two ratios. *)
Theorem current_comparison_whole (lineage : list entry) (current : string) (rec : list row) (e : entry) (text : string)
    (He : current_comparison_entry lineage current = Ok e) (Hok : write_cross_system_current rec e = Ok text) :
  last lineage = Some e ∧ en_label e = current ∧ whole_comparison rec e ∧
  ∃ e4 rows rt rs, arm_medians rec "e0_to_e4_ns" = Ok e4 ∧ ratios e4 = Ok (rt, rs) ∧
    Forall2 (λ a line, comparison_row rec a = Ok line) T48_ARM_ORDER rows ∧
    text = lines_ (current_intro e ++ rows ++ current_outro e rt rs).
Proof.
  apply current_entry_Ok in He as [Hl Hc]. unfold write_cross_system_current in Hok.
  apply bind_Ok in Hok as (u & Hw%check_current_Ok & (e4 & He4 & (rows & Hr%mapR_Ok & ([rt rs] & Hrs & [= <-])%bind_Ok)%bind_Ok)%bind_Ok).
  split_and!; [done..|]. by exists e4, rows, rt, rs.
Qed.
Definition alias_lineage : list entry := [lad_entry; alias_entry].
Lemma current_comparison_whole_witness : ∃ text,
  current_comparison_entry alias_lineage "T4.Xf" = Ok alias_entry ∧ write_cross_system_current alias_rec alias_entry = Ok text ∧
  whole_comparison alias_rec alias_entry.
Proof.
  destruct (write_cross_system_current alias_rec alias_entry) as [text|] eqn:E; [|by vm_compute in E]. exists text.
  assert (current_comparison_entry alias_lineage "T4.Xf" = Ok alias_entry) as He by (by vm_compute).
  destruct (current_comparison_whole alias_lineage "T4.Xf" alias_rec alias_entry text He E) as (_ & _ & Hw & _).
  exact (conj He (conj eq_refl Hw)).
Defined.
