(* ===== verification/ExhibitMain.v ===== *)
(** * The exhibit generator's command (scripts/report-exhibits.py, [main])

    The pins are read through git and validated, then the twelve exhibits are
    written in order.  A computation is a state passing over the exhibits'
    directory: a failure keeps the files already written.  What git answers and
    the directory's name are parameters; the writes themselves succeed. *)
From S2P Require Import Prelude PyStr PyFloat PyData PcapHttp PinGates ExhibitPins ExhibitGates ExhibitValid ExhibitTables ExhibitCross ExhibitSerial.

(** ** The directory *)
Abbreviation files := (odict string string).
Definition io (A : Type) : Type := files → files * res A.
#[export] Instance io_ret : MRet io := λ A a fs, (fs, Ok a).
#[export] Instance io_bind : MBind io := λ A B f m fs,
  match m fs with (fs, Ok a) => f a fs | (fs, Err e) => (fs, Err e) end.
Definition lift {A} (r : res A) : io A := λ fs, (fs, r).
(** [(OUT_DIR / name).write_text(text)]: the argument is evaluated first. *)
Definition write_text (name : string) (text : res string) : io unit := λ fs,
  match text with Ok s => (od_set name s fs, Ok tt) | Err e => (fs, Err e) end.
Definition read_text (name : string) : io string := λ fs, (fs, of_option FileNotFoundError (od_get name fs)).

(** ** The pins *)
Abbreviation pin := (list row * list row)%type.
Record campaigns := {
  ca_base : pin; ca_after : pin; ca_t48 : pin; ca_t48b : pin; ca_t48c : pin; ca_t47 : pin; ca_t44 : pin;
  ca_summary : string; ca_t48c_manifest : string; ca_e2e3g : num }.

Section over_git.
Context (git : list string → proc).
Definition RUNS : string := "results/runs.csv".
Definition PHASES : string := "results/phases.csv".
(** [runs.csv] and [phases.csv] of a revision, every trial *)
Definition read_pin (rev : string) : res pin :=
  runs ← load_csv git rev RUNS; phases ← load_csv git rev PHASES; Ok (runs, phases).
(** The recorded trials of a pin that has been read. *)
Definition keep (p : pin) : res pin := rec ← recorded p.1; Ok (rec, p.2).
Definition load_campaigns : res campaigns :=
  base ← read_pin BASELINE_TAG;
  after ← read_pin AFTER_REV;
  summary ← git_show git BASELINE_TAG "results/baseline-summary.txt";
  _ ← validate base.1 base.2 BASELINE_BATCHES BASELINE_SHA_PREFIX "baseline" 60;
  _ ← validate after.1 after.2 AFTER_BATCHES AFTER_SHA_PREFIX "after" 60;
  t48 ← read_pin T48_REV;
  _ ← validate_t48 t48.1 t48.2 T48_BATCHES T48_SHA_PREFIX T48_N_PER_ARM "T4.8" (git_show git T48_REV MANIFEST_PATH);
  t48b ← read_pin T48B_REV;
  _ ← validate_t48 t48b.1 t48b.2 T48B_BATCHES T48B_SHA_PREFIX T48B_N_PER_ARM "T4.8b" (git_show git T48B_REV MANIFEST_PATH);
  t48c ← read_pin T48C_REV;
  t48c_manifest ← git_show git T48C_REV MANIFEST_PATH;
  t48b_manifest ← git_show git T48B_REV MANIFEST_PATH;
  t48b_rec ← recorded t48b.1;
  _ ← validate_t48c t48c.1 t48c.2 T48C_BATCHES T48C_SHA_PREFIX T48C_N_PER_ARM "T4.8c" (Ok t48c_manifest) (Some t48b_rec)
        (Some t48b_manifest);
  t47 ← read_pin T47_REV;
  _ ← validate_t47 t47.1 t47.2 T47_BATCHES T47_SHA_PREFIX T47_N_PER_ARM "T4.7";
  t44 ← load_pin git T44_REV T44_BATCHES T44_SHA_PREFIX "T4.4";
  base ← keep base; after ← keep after; t48 ← keep t48; t48b ← keep t48b; t48c ← keep t48c; t47 ← keep t47;
  e2e3g_after_fast ← e2e3g_median after.1 after.2 FAST None;
  Ok {| ca_base := base; ca_after := after; ca_t48 := t48; ca_t48b := t48b; ca_t48c := t48c; ca_t47 := t47; ca_t44 := t44;
        ca_summary := summary; ca_t48c_manifest := t48c_manifest; ca_e2e3g := e2e3g_after_fast |}.

(** ** The exhibits *)
Definition linux_decomposition : res string :=
  linux_serial ← git_show git SERIAL_REV LINUX_SERIAL_PATH;
  whim_serial ← git_show git SERIAL_REV WHIMBREL_SERIAL_PATH;
  labels_text ← git_show git LABEL_REV LABEL_PATH;
  fragment_text ← git_show git LABEL_REV FRAGMENT_PATH;
  manifest_text ← git_show git LABEL_REV MANIFEST_PATH;
  write_linux_decomposition linux_serial whim_serial labels_text fragment_text manifest_text.
Definition write_exhibits (c : campaigns) : io unit :=
  _ ← write_text "machine-spec.md" (write_machine_spec (ca_base c).1 (ca_after c).1 (ca_summary c) (ca_t48 c).1);
  _ ← write_text "phase-decomposition.md"
        (write_phase_table (ca_base c).1 (ca_base c).2 (ca_after c).1 (ca_after c).2 (ca_e2e3g c));
  _ ← write_text "edges.md" (write_edges (ca_base c).1 (ca_base c).2 (ca_after c).1 (ca_after c).2 (Some (ca_t48 c)));
  _ ← write_text "t44-bump.md" (write_t44_bump (ca_t44 c).1 (ca_t44 c).2 (ca_base c).1 (ca_base c).2);
  _ ← write_text "dump-placement.md" (write_dump_placement git);
  _ ← write_text "cross-system.md" (write_cross_system (ca_t48 c).1 (ca_t48 c).2 (ca_after c).1 (ca_after c).2);
  _ ← write_text "cross-system-t48b.md" (write_cross_system_t48b (ca_t48b c).1 (ca_t48b c).2 (ca_t48 c).1 (ca_t48 c).2);
  _ ← write_text "cross-system-t48c.md"
        (write_cross_system_t48c (ca_t48c c).1 (ca_t48c c).2 (ca_t48b c).1 (ca_t48b c).2 (ca_t48c_manifest c));
  cur_entry ← lift (current_comparison_entry COMPARISON_LINEAGE CURRENT_COMPARISON);
  cur_runs ← lift (load_csv git (en_rev cur_entry) RUNS);
  _ ← write_text "cross-system-current.md" (cur_rec ← recorded cur_runs; write_cross_system_current cur_rec cur_entry);
  _ ← write_text "ladder.md"
        (cur_rec ← recorded cur_runs; write_ladder (ca_base c) (ca_t44 c) (ca_after c) cur_rec cur_entry LADDER_RUNGS);
  _ ← write_text "linux-decomposition.md" linux_decomposition;
  write_text "t47-firmware.md" (write_t47_firmware (ca_t47 c).1 (ca_t47 c).2).

(** ** The command.  The exhibits are printed in this order. *)
Definition PRINTED : list string :=
  ["machine-spec.md"; "phase-decomposition.md"; "edges.md"; "t44-bump.md"; "dump-placement.md"; "cross-system.md";
   "cross-system-t48b.md"; "cross-system-t48c.md"; "cross-system-current.md"; "linux-decomposition.md"; "t47-firmware.md";
   "ladder.md"].
Fixpoint read_all (names : list string) : io (list string) :=
  match names with
  | [] => mret []
  | name :: names => text ← read_text name; rest ← read_all names; mret (text :: rest)
  end.
Context (out_dir : string).
Definition pass_line : string :=
  "TEST PASS: exhibits from " +:+ BASELINE_TAG +:+ " + " +:+ AFTER_REV +:+ " + " +:+ T44_REV +:+ " + " +:+ short12 T48_REV
  +:+ " + " +:+ T48B_REV +:+ " + " +:+ T48C_REV +:+ " + " +:+ short12 SERIAL_REV +:+ " + " +:+ short12 LABEL_REV +:+ " + "
  +:+ short12 T47_REV +:+ " → " +:+ out_dir.
Definition main_body : io outcome :=
  c ← lift load_campaigns;
  _ ← write_exhibits c;
  texts ← read_all PRINTED;
  mret {| rc := 0; out := pass_line :: texts; err := [] |}.
(** [except ExhibitFail as e: print(e, file=sys.stderr); return 1] *)
Definition exhibit_fail_rc (r : res outcome) : res outcome :=
  match r with Err (UserExn ExhibitFailC msg) => Ok {| rc := 1; out := []; err := [msg] |} | _ => r end.
Definition main : io outcome := λ fs, let '(fs, r) := main_body fs in (fs, exhibit_fail_rc r).
(** The script's entry point, over its arguments and [cmd_selftest]. *)
Definition entry_point (cmd_selftest : res outcome) (argv : list string) : io outcome := λ fs,
  if bool_decide (argv = ["selftest"]) then (fs, exhibit_fail_rc cmd_selftest)
  else match argv with
       | [] => main fs
       | _ => (fs, Ok {| rc := 2; out := []; err := ["usage: report-exhibits.py [selftest]"] |})
       end.
End over_git.

(** ** Writing a list of exhibits *)
Lemma bind_write {B} n x (k : unit → io B) fs : mbind k (write_text n x) fs =
  match x with Ok s => k tt (od_set n s fs) | Err e => (fs, Err e) end.
Proof. unfold mbind, io_bind, write_text. by destruct x. Qed.
Lemma bind_lift {A B} (r : res A) (k : A → io B) fs : mbind k (lift r) fs =
  match r with Ok a => k a fs | Err e => (fs, Err e) end.
Proof. unfold mbind, io_bind, lift. by destruct r. Qed.
Fixpoint write_all (l : list (string * res string)) : io unit :=
  match l with [] => mret tt | (name, text) :: l => _ ← write_text name text; write_all l end.
Definition put (fs : files) (nt : string * string) : files := od_set nt.1 nt.2 fs.
Lemma write_all_spec l fs fs' r : write_all l fs = (fs', r) → ∃ done rest : list (string * res string), ∃ texts,
  l = done ++ rest ∧ Forall2 (λ nx nt, nx.1 = nt.1 ∧ nx.2 = Ok nt.2) done texts ∧ fs' = foldl put fs texts ∧
  ((r = Ok tt ∧ rest = []) ∨ ∃ e nx rest', r = Err e ∧ rest = nx :: rest' ∧ nx.2 = Err e).
Proof.
  revert fs. induction l as [|[name text] l IH]; intros fs H.
  - injection H as <- <-. exists [], [], []. split_and!; [done|constructor|done|by left].
  - cbn in H. unfold io_bind, write_text in H. destruct text as [s|e].
    + destruct (IH _ H) as (dn & rest & texts & -> & Hf & -> & Hr).
      exists ((name, Ok s) :: dn), rest, ((name, s) :: texts). split_and!; [done| |done|done]. by constructor.
    + injection H as <- <-. exists [], ((name, Err e) :: l), []. split_and!; [done|constructor|done|]. 
      right. by exists e, (name, Err e), l.
Qed.
Lemma put_keep texts fs n : n ∉ texts.*1 → od_get n (foldl put fs texts) = od_get n fs.
Proof.
  revert fs. induction texts as [|[m t] texts IH]; intros fs Hn; [done|]. cbn in *.
  apply not_elem_of_cons in Hn as [Hm Hn]. rewrite IH by done. unfold put. by apply od_get_set_ne.
Qed.
Lemma put_get texts fs n t : NoDup texts.*1 → (n, t) ∈ texts → od_get n (foldl put fs texts) = Some t.
Proof.
  revert fs. induction texts as [|[m s] texts IH]; intros fs Hnd Hin; [by apply elem_of_nil in Hin|].
  cbn in *. apply NoDup_cons in Hnd as [Hm Hnd]. apply elem_of_cons in Hin as [[= -> ->]|Hin].
  - rewrite put_keep by done. apply od_get_set_eq.
  - by apply IH.
Qed.

(** ** The table of exhibits, the reference of [write_exhibits] *)
Section table.
Context (git : list string → proc) (out_dir : string).
Definition current_pin : res (entry * list row) :=
  e ← current_comparison_entry COMPARISON_LINEAGE CURRENT_COMPARISON; runs ← load_csv git (en_rev e) RUNS; Ok (e, runs).
Definition exhibits (c : campaigns) : list (string * res string) :=
  [("machine-spec.md", write_machine_spec (ca_base c).1 (ca_after c).1 (ca_summary c) (ca_t48 c).1);
   ("phase-decomposition.md", write_phase_table (ca_base c).1 (ca_base c).2 (ca_after c).1 (ca_after c).2 (ca_e2e3g c));
   ("edges.md", write_edges (ca_base c).1 (ca_base c).2 (ca_after c).1 (ca_after c).2 (Some (ca_t48 c)));
   ("t44-bump.md", write_t44_bump (ca_t44 c).1 (ca_t44 c).2 (ca_base c).1 (ca_base c).2);
   ("dump-placement.md", write_dump_placement git);
   ("cross-system.md", write_cross_system (ca_t48 c).1 (ca_t48 c).2 (ca_after c).1 (ca_after c).2);
   ("cross-system-t48b.md", write_cross_system_t48b (ca_t48b c).1 (ca_t48b c).2 (ca_t48 c).1 (ca_t48 c).2);
   ("cross-system-t48c.md",
     write_cross_system_t48c (ca_t48c c).1 (ca_t48c c).2 (ca_t48b c).1 (ca_t48b c).2 (ca_t48c_manifest c));
   ("cross-system-current.md",
     '(e, runs) ← current_pin; rec ← recorded runs; write_cross_system_current rec e);
   ("ladder.md",
     '(e, runs) ← current_pin; rec ← recorded runs;
     write_ladder (ca_base c) (ca_t44 c) (ca_after c) rec e LADDER_RUNGS);
   ("linux-decomposition.md", linux_decomposition git);
   ("t47-firmware.md", write_t47_firmware (ca_t47 c).1 (ca_t47 c).2)].
Lemma write_exhibits_table c fs : write_exhibits git c fs = write_all (exhibits c) fs.
Proof.
  unfold write_exhibits, exhibits, current_pin. cbn [write_all].
  rewrite !bind_write; do 8 (case_match; [|done]; rewrite ?bind_write).
  rewrite bind_lift. destruct (current_comparison_entry _ _) as [e|e]; [|done]. cbn [mbind res_bind].
  rewrite bind_lift. destruct (load_csv git (en_rev e) RUNS) as [runs|e']; [|done]. cbn [mbind res_bind].
  rewrite bind_write. case_match; [|done]. rewrite !bind_write. case_match; [|done].
  rewrite !bind_write. case_match; [|done]. rewrite bind_write. unfold write_text. by case_match.
Qed.

(** ** What the pins have passed when anything is written

    A pin is the recorded trials and the phases of a campaign in git whose runs
    satisfy the specification of its validator. *)
Definition pin_of (rev : string) (spec : list row → list row → list row → Prop) (p : pin) : Prop :=
  ∃ runs, read_pin git rev = Ok (runs, p.2) ∧ spec runs p.2 p.1.
Definition old_pin (rev : string) (batches : list string) (prefix : string) : pin → Prop :=
  pin_of rev (two_profiles batches prefix 60).
Definition five_arm_spec (manifest : res string) (batches : list string) (prefix : string) (runs phases rec : list row) : Prop :=
  ∃ text man, manifest = Ok text ∧ parse_linux_manifest text = Ok man ∧ five_arms batches prefix 60 man runs phases rec.
Definition five_arm_pin (rev : string) (batches : list string) (prefix : string) : pin → Prop :=
  pin_of rev (five_arm_spec (git_show git rev MANIFEST_PATH) batches prefix).
Definition skip_probe_spec (batches : list string) (prefix text : string) (t48b_rec : list row) (t48b_text : string)
    (runs phases rec : list row) : Prop :=
  ∃ man, parse_linux_manifest text = Ok man ∧ five_arms batches prefix 60 man runs phases rec ∧
    skip_probe text man runs rec (Some t48b_rec) (Some t48b_text).
(** The campaigns the exhibits are made of: every pin is of its kind, the T4.8c
    one against the T4.8b pin and its MANIFEST, and the fast-boot E2-E3g median of
    the after-ladder pin is defined. *)
Record admitted_pins (c : campaigns) : Prop := {
  ap_base : old_pin BASELINE_TAG BASELINE_BATCHES BASELINE_SHA_PREFIX (ca_base c);
  ap_after : old_pin AFTER_REV AFTER_BATCHES AFTER_SHA_PREFIX (ca_after c);
  ap_t44 : old_pin T44_REV T44_BATCHES T44_SHA_PREFIX (ca_t44 c);
  ap_t48 : five_arm_pin T48_REV T48_BATCHES T48_SHA_PREFIX (ca_t48 c);
  ap_t48b : five_arm_pin T48B_REV T48B_BATCHES T48B_SHA_PREFIX (ca_t48b c);
  ap_t48c : ∃ text_b, git_show git T48B_REV MANIFEST_PATH = Ok text_b ∧
    pin_of T48C_REV (skip_probe_spec T48C_BATCHES T48C_SHA_PREFIX (ca_t48c_manifest c) (ca_t48b c).1 text_b) (ca_t48c c);
  ap_t47 : pin_of T47_REV (two_lanes T47_BATCHES T47_SHA_PREFIX 60) (ca_t47 c);
  ap_manifest : git_show git T48C_REV MANIFEST_PATH = Ok (ca_t48c_manifest c);
  ap_summary : git_show git BASELINE_TAG "results/baseline-summary.txt" = Ok (ca_summary c);
  ap_e2e3g : e2e3g_median (ca_after c).1 (ca_after c).2 FAST None = Ok (ca_e2e3g c) }.
Lemma keep_Ok p q : keep p = Ok q ↔ recorded p.1 = Ok q.1 ∧ q.2 = p.2.
Proof.
  unfold keep. rewrite bind_Ok. split.
  - by intros (rec & H & [= <-]).
  - intros [H E]. exists q.1. split; [done|]. rewrite <-E. by destruct q.
Qed.
(** A pin read, validated and kept is a pin of the validator's specification. *)
Lemma kept_exact (spec : list row → list row → list row → Prop) (validator : list row → list row → res unit) rev p :
  (∀ runs phases, validator runs phases = Ok tt ↔ ∃ rec, spec runs phases rec) →
  (∀ runs phases rec, spec runs phases rec → recorded runs = Ok rec) →
  (∃ raw, read_pin git rev = Ok raw ∧ validator raw.1 raw.2 = Ok tt ∧ keep raw = Ok p) ↔ pin_of rev spec p.
Proof.
  intros Hv Hrec. split.
  - intros ([runs phases] & Hr & (rec & Hs)%Hv & [Hk Hp]%keep_Ok). cbn [fst snd] in Hs, Hk, Hp. subst phases.
    rewrite (Hrec _ _ _ Hs) in Hk. injection Hk as ->. by exists runs.
  - intros (runs & Hr & Hs). exists (runs, p.2). split_and!; [done|by apply Hv; eauto|]. apply keep_Ok. by split; [eapply Hrec|].
Qed.
Lemma kept_old rev batches prefix label p :
  (∃ raw, read_pin git rev = Ok raw ∧ validate raw.1 raw.2 batches prefix label 60 = Ok tt ∧ keep raw = Ok p) ↔
  old_pin rev batches prefix p.
Proof.
  apply (kept_exact _ (λ runs phases, validate runs phases batches prefix label 60)).
  - intros. apply validate_exact.
  - intros runs phases rec (_ & Had & _). apply Had.
Qed.
Lemma kept_five rev batches prefix label p :
  (∃ raw, read_pin git rev = Ok raw ∧
     validate_t48 raw.1 raw.2 batches prefix 60 label (git_show git rev MANIFEST_PATH) = Ok tt ∧ keep raw = Ok p) ↔
  five_arm_pin rev batches prefix p.
Proof.
  apply (kept_exact _ (λ runs phases, validate_t48 runs phases batches prefix 60 label (git_show git rev MANIFEST_PATH))).
  - intros. apply validate_t48_exact.
  - intros runs phases rec (text & man & _ & _ & Hf). by eapply ad_rec, fa_admitted.
Qed.
Lemma kept_skip_probe rev batches prefix label p text rec_b text_b :
  (∃ raw, read_pin git rev = Ok raw ∧
     validate_t48c raw.1 raw.2 batches prefix 60 label (Ok text) (Some rec_b) (Some text_b) = Ok tt ∧ keep raw = Ok p) ↔
  pin_of rev (skip_probe_spec batches prefix text rec_b text_b) p.
Proof.
  apply (kept_exact _ (λ runs phases, validate_t48c runs phases batches prefix 60 label (Ok text) (Some rec_b) (Some text_b))).
  - intros. rewrite validate_t48c_exact. unfold skip_probe_spec. split.
    + intros (rec & text' & man & [= <-] & H). eauto.
    + intros (rec & man & H). by exists rec, text, man.
  - intros runs phases rec (man & _ & Hf & _). by eapply ad_rec, fa_admitted.
Qed.
Lemma kept_two_lanes rev batches prefix label p :
  (∃ raw, read_pin git rev = Ok raw ∧ validate_t47 raw.1 raw.2 batches prefix 60 label = Ok tt ∧ keep raw = Ok p) ↔
  pin_of rev (two_lanes batches prefix 60) p.
Proof.
  apply (kept_exact _ (λ runs phases, validate_t47 runs phases batches prefix 60 label)).
  - intros. apply validate_t47_exact.
  - intros runs phases rec Hl. by eapply ad_rec, tl_admitted.
Qed.
Lemma load_pin_exact rev batches prefix label p : load_pin git rev batches prefix label = Ok p ↔ old_pin rev batches prefix p.
Proof.
  rewrite <-(kept_old _ _ _ label). unfold load_pin, read_pin, keep, RUNS, PHASES.
  destruct (load_csv git rev "results/runs.csv") as [runs|]; cbn [mbind res_bind]; [|split; [done|by intros (? & ? & _)]].
  destruct (load_csv git rev "results/phases.csv") as [phases|]; cbn [mbind res_bind]; [|split; [done|by intros (? & ? & _)]].
  split.
  - intros ([] & Hv & H)%bind_Ok. by exists (runs, phases).
  - intros (raw & [= <-] & Hv & H). cbn [fst snd] in Hv, H. by rewrite Hv.
Qed.
Lemma load_campaigns_exact c : load_campaigns git = Ok c ↔ admitted_pins c.
Proof.
  unfold load_campaigns. split.
  - intros H. gates_in H. destruct x2, x3, x5, x7, x12, x14.
    assert (x11 = x19.1) as -> by (apply keep_Ok in H20 as [Hr _]; congruence).
    injection H as <-. constructor; cbn [ca_base ca_after ca_t48 ca_t48b ca_t48c ca_t47 ca_t44 ca_summary ca_t48c_manifest ca_e2e3g].
    + eapply kept_old; eauto.
    + eapply kept_old; eauto.
    + by eapply load_pin_exact.
    + eapply kept_five; eauto.
    + eapply kept_five; eauto.
    + eexists. split; [eassumption|]. eapply kept_skip_probe; eauto.
    + eapply kept_two_lanes; eauto.
    + done.
    + done.
    + done.
  - intros [Hbase Hafter Ht44 Ht48 Ht48b (text_b & Hb & Ht48c) Ht47 Hman Hsum Hmed].
    apply (kept_old _ _ _ "baseline") in Hbase as (base & R1 & V1 & K1). apply (kept_old _ _ _ "after") in Hafter as (after & R2 & V2 & K2).
    apply (load_pin_exact _ _ _ "T4.4") in Ht44. apply (kept_five _ _ _ "T4.8") in Ht48 as (t48 & R3 & V3 & K3).
    apply (kept_five _ _ _ "T4.8b") in Ht48b as (t48b & R4 & V4 & K4).
    apply (kept_skip_probe _ _ _ "T4.8c") in Ht48c as (t48c & R5 & V5 & K5). apply (kept_two_lanes _ _ _ "T4.7") in Ht47 as (t47 & R6 & V6 & K6).
    pose proof K4 as [Hrec_b _]%keep_Ok.
    repeat (apply bind_Ok; eexists; split; [eassumption|]). by destruct c.
Qed.

(** ** The command *)
Lemma exhibit_names c : (exhibits c).*1 =
  ["machine-spec.md"; "phase-decomposition.md"; "edges.md"; "t44-bump.md"; "dump-placement.md"; "cross-system.md";
   "cross-system-t48b.md"; "cross-system-t48c.md"; "cross-system-current.md"; "ladder.md"; "linux-decomposition.md";
   "t47-firmware.md"].
Proof. done. Qed.
Lemma names_of_texts (dn : list (string * res string)) texts :
  Forall2 (λ nx nt, nx.1 = nt.1 ∧ nx.2 = Ok nt.2) dn texts → texts.*1 = dn.*1.
Proof. induction 1 as [|x y dn' texts' [E _] _ IH]; [done|]. cbn. by rewrite E, IH. Qed.
Lemma texts_nodup c (dn rest : list (string * res string)) texts : exhibits c = dn ++ rest →
  Forall2 (λ nx nt, nx.1 = nt.1 ∧ nx.2 = Ok nt.2) dn texts → NoDup texts.*1.
Proof.
  intros He Hf%names_of_texts. rewrite Hf. assert (NoDup (exhibits c).*1) as Hnd by (rewrite exhibit_names; by_eval).
  rewrite He, fmap_app in Hnd. by apply NoDup_app in Hnd as [? _].
Qed.
Lemma read_all_written names fs : read_all names fs =
  (fs, mapR (λ n, of_option FileNotFoundError (od_get n fs)) names).
Proof.
  induction names as [|n names IH]; [done|]. cbn [read_all mapR]. unfold mbind, io_bind, read_text.
  destruct (od_get n fs); [|done]. cbn. rewrite IH. unfold res_bind. by destruct (mapR _ names).
Qed.
(** The run once the pins are loaded: the texts written are those of an initial
    part of the table, all of it exactly when the command ends with status 0. *)
Definition wrote (c : campaigns) (fs fs' : files) (r : res outcome) : Prop :=
  ∃ dn rest : list (string * res string), ∃ texts,
    exhibits c = dn ++ rest ∧ Forall2 (λ nx nt, nx.1 = nt.1 ∧ nx.2 = Ok nt.2) dn texts ∧ fs' = foldl put fs texts ∧
    ((rest = [] ∧ ∃ printed, Forall2 (λ n t, (n, t) ∈ texts) PRINTED printed ∧
        r = Ok {| rc := 0; out := pass_line out_dir :: printed; err := [] |}) ∨
     ∃ e name rest', rest = (name, Err e) :: rest' ∧ r = exhibit_fail_rc (Err e)).
Lemma printed_texts c texts fs : texts.*1 = (exhibits c).*1 → NoDup texts.*1 →
  ∃ printed, Forall2 (λ n t, (n, t) ∈ texts) PRINTED printed ∧
    mapR (λ n, of_option FileNotFoundError (od_get n (foldl put fs texts))) PRINTED = Ok printed.
Proof.
  intros Hn Hnd. assert (∀ n, n ∈ PRINTED → n ∈ texts.*1) as Hin.
  { rewrite Hn, exhibit_names. intros n Hp. assert (∀ n, n ∈ PRINTED → n ∈ (exhibits c).*1) as H; [|by apply H].
    apply Forall_forall. rewrite exhibit_names. by_eval. }
  clear Hn. induction PRINTED as [|n ns IH]; [by exists []|].
  destruct IH as (printed & Hf & Hm); [intros; apply Hin; by right|].
  destruct (proj1 (list_elem_of_fmap _ _ _) (Hin n ltac:(by left))) as ([n' t] & -> & Ht). exists (t :: printed). split.
  - by constructor.
  - cbn [mapR]. rewrite (put_get _ _ _ _ Hnd Ht), Hm. done.
Qed.
Lemma main_run fs fs' r : main git out_dir fs = (fs', r) →
  match load_campaigns git with
  | Err e => fs' = fs ∧ r = exhibit_fail_rc (Err e)
  | Ok c => wrote c fs fs' r
  end.
Proof.
  unfold main, main_body. rewrite bind_lift. destruct (load_campaigns git) as [c|e]; [|by intros [= <- <-]].
  unfold mbind, io_bind. rewrite write_exhibits_table. destruct (write_all (exhibits c) fs) as [fs1 r1] eqn:E.
  apply write_all_spec in E as (dn & rest & texts & He & Hf & -> & Hr).
  pose proof (texts_nodup _ _ _ _ He Hf) as Hnd. destruct Hr as [[-> ->]|(e & [name x] & rest' & -> & -> & Hx)].
  - rewrite read_all_written. rewrite app_nil_r in He.
    destruct (printed_texts c texts fs) as (printed & Hp & Hm); [rewrite He; by apply names_of_texts|done|].
    rewrite Hm. intros [= <- <-]. exists dn, [], texts. rewrite app_nil_r. split_and!; try done. left. eauto.
  - intros [= <- <-]. exists dn, ((name, x) :: rest'), texts. split_and!; try done. right. cbn in Hx. subst. eauto.
Qed.
End table.

(** The two D-0068 campaigns, which the dump-placement writer reads and
    validates itself. *)
Definition placement_pins (git : list string → proc) : Prop :=
  ∃ r1 r2, old_pin git D68_RUN1_REV D68_RUN1_BATCHES D68_RUN1_SHA_PREFIX r1 ∧
           old_pin git D68_RUN2_REV D68_RUN2_BATCHES D68_RUN2_SHA_PREFIX r2.
Lemma placement_written git text : write_dump_placement git = Ok text → placement_pins git.
Proof.
  unfold write_dump_placement. intros H. apply bind_Ok in H as (t46 & _ & H). apply bind_Ok in H as (r1 & H1 & H).
  apply bind_Ok in H as (r2 & H2 & _). exists r1, r2. split; by eapply load_pin_exact.
Qed.
(** Every writer of [l] gave its text. *)
Definition all_given (l : list (string * res string)) : Prop := Forall (λ nx, ∃ text, nx.2 = Ok text) l.
Lemma written_prefix (dn rest : list (string * res string)) texts name t :
  Forall2 (λ nx nt, nx.1 = nt.1 ∧ nx.2 = Ok nt.2) dn texts → (name, t) ∈ texts →
  ∃ before after, dn ++ rest = before ++ (name, Ok t) :: after ∧ all_given before.
Proof.
  intros Hf Ht. destruct (Forall2_elem_r _ _ _ _ Hf Ht) as ([n x] & Hin & Hn & Hx). cbn in Hn, Hx. subst n x.
  apply list_elem_of_split in Hin as (before & after & ->). exists before, (after ++ rest). split.
  - by rewrite <-app_assoc.
  - apply Forall2_app_inv_l in Hf as (t1 & t2 & Hf & _ & _). clear -Hf. induction Hf as [|x y l k [_ E] _ IH]; constructor; eauto.
Qed.
Lemma placement_given git c before rest : exhibits git c = before ++ rest → all_given before →
  "dump-placement.md" ∈ before.*1 → placement_pins git.
Proof.
  intros He Hg Hin. apply list_elem_of_fmap in Hin as ([n x] & En & Hin). cbn in En. subst n.
  destruct (proj1 (Forall_forall _ _) Hg _ Hin) as [text Ex]. cbn in Ex. subst x. apply (placement_written git text).
  assert (("dump-placement.md", Ok text) ∈ exhibits git c) as H by (rewrite He; apply elem_of_app; by left).
  unfold exhibits in H. repeat (apply elem_of_cons in H as [H|H]; [first [discriminate H|by injection H as H]|]). by apply elem_of_nil in H.
Qed.

(** C1. The command fails closed.  Whatever git answers, a file of the
    exhibits' directory changes only to the text of its writer, only when the
    seven pins loaded at the start are admitted (the baseline, T4.4 and
    after-ladder campaigns, the three five-arm campaigns with their images,
    T4.8c's skip-probe evidence against T4.8b, and the two firmware lanes), and
    only when every writer before it gave its text.  When the seven are not
    admitted, no file changes and the command fails.  The two D-0068 campaigns
    are the dump-placement writer's own: that exhibit and those after it change
    only when both are admitted too, but the four before it may have been
    rewritten when they are not; in the same way the serial logs and the label
    file are checked by the linux-decomposition writer, after ten exhibits. *)
Theorem main_fail_closed (git : list string → proc) (out_dir : string) (fs : files) :
  let '(fs', r) := main git out_dir fs in
  ((¬ ∃ c, admitted_pins git c) → fs' = fs ∧ ∃ e, r = exhibit_fail_rc (Err e)) ∧
  ∀ name, od_get name fs' ≠ od_get name fs → ∃ c text before after,
    admitted_pins git c ∧ od_get name fs' = Some text ∧
    exhibits git c = before ++ (name, Ok text) :: after ∧ all_given before ∧
    ("dump-placement.md" ∈ before.*1 ++ [name] → placement_pins git).
Proof.
  destruct (main git out_dir fs) as [fs' r] eqn:E. apply main_run in E.
  destruct (load_campaigns git) as [c|e] eqn:El; cycle 1.
  { destruct E as [-> ->]. split; [eauto|done]. }
  apply load_campaigns_exact in El. split; [intros Hno; destruct Hno; eauto|]. intros name Hd. destruct E as (dn & rest & texts & He & Hf & -> & _).
  destruct (decide (name ∈ texts.*1)) as [Hin|Hin]; [|by rewrite put_keep in Hd].
  apply list_elem_of_fmap in Hin as ([name' t] & -> & Ht). cbn [fst].
  destruct (written_prefix _ rest _ _ _ Hf Ht) as (before & after & Hs & Hg). rewrite <-He in Hs.
  exists c, t, before, after. split_and!; [done| |done|done|].
  - apply put_get; [|done]. by eapply (texts_nodup _ _ _ _ _ He).
  - intros Hin. eapply (placement_given git c (before ++ [(name', Ok t)]) after); [by rewrite <-app_assoc| |].
    + apply Forall_app. split; [done|]. constructor; [by exists t|constructor].
    + by rewrite fmap_app.
Qed.

(** C10. The command completes: it ends with status 0 if and only if the pins
    are admitted and every one of the twelve writers gives its text; every exhibit
    then holds its text and the command prints the twelve texts in its order.  Otherwise
    the outcome is the failure's: status 1 for an [ExhibitFail], the exception
    itself for another. *)
Theorem main_completes (git : list string → proc) (out_dir : string) (fs : files) :
  let '(fs', r) := main git out_dir fs in
  (∃ c printed, admitted_pins git c ∧
     (∀ name x, (name, x) ∈ exhibits git c → ∃ text, x = Ok text ∧ od_get name fs' = Some text) ∧
     Forall2 (λ name text, (name, Ok text) ∈ exhibits git c) PRINTED printed ∧
     r = Ok {| rc := 0; out := pass_line out_dir :: printed; err := [] |}) ∨
  ((∀ c, admitted_pins git c → ∃ name e, (name, Err e) ∈ exhibits git c) ∧
   ∃ e, r = exhibit_fail_rc (Err e)).
Proof.
  destruct (main git out_dir fs) as [fs' r] eqn:E. apply main_run in E.
  destruct (load_campaigns git) as [c|e] eqn:El; cycle 1.
  { right. destruct E as [_ ->]. split; [|eauto]. intros c Hc%load_campaigns_exact. congruence. }
  pose proof (proj1 (load_campaigns_exact _ _) El) as Hc.
  destruct E as (dn & rest & texts & He & Hf & -> & [[-> (printed & Hp & ->)]|(e & name & rest' & -> & ->)]).
  - left. exists c, printed. rewrite app_nil_r in He. split_and!; [done| | |done].
    + intros name x Hin. rewrite He in Hin. destruct (Forall2_elem_l _ _ _ _ Hf Hin) as ([n t] & Ht & Hn & Hx).
      cbn in *. subst. exists t. split; [done|]. apply put_get; [|done].
      eapply (texts_nodup git _ _ []); [by rewrite app_nil_r|done].
    + eapply Forall2_impl; [exact Hp|]. cbn. intros n t Ht.
      destruct (Forall2_elem_r _ _ _ _ Hf Ht) as ([m x] & Hin & Hn & Hx). cbn in Hn, Hx. by rewrite He, <-Hn, <-Hx.
  - right. split; [|eauto]. intros c' Hc'%load_campaigns_exact. rewrite El in Hc'. injection Hc' as <-. exists name, e. rewrite He. apply elem_of_app. right. by left.
Qed.
