(* ===== verification/ExhibitSelftest.v ===== *)
(** * The exhibits' self-test (scripts/report-exhibits.py, [cmd_selftest])

    Every planted fault of the self-test, in its order, over the fixtures of
    ExhibitFixtures.  One of them mixes the lanes of two pins read through git,
    and one asks git for a pin that does not exist; the rest is evaluated. *)
From S2P Require Import Prelude PyStr SelfTest Regex PyFloat PyData PyCsv PcapHttp PinGates ExhibitPins ExhibitFixtures ExhibitGates ExhibitValid ExhibitTyping ExhibitTables ExhibitCross ExhibitMain.
From Stdlib Require Import Ascii.

(** [rows[:-1]], [rows[0][k] = v], [del r[k]] of several keys *)
Definition but_last (rows : list row) : list row := take (pred (length rows)) rows.
Definition all_rows (f : row → row) (rows : list row) : list row := f <$> rows.
Definition first_sha (sha : string) (rows : list row) : list row := on_first (with_ "git_sha" sha) rows.
Definition move_batch (from to : string) (rows : list row) : list row := where_ (batch_is from) (with_ "batch_id" to) rows.

(** ** validate *)
Definition check_old (runs phases : list row) : res unit := validate runs phases fix_batches "abc1234" "old-fix" fix_n.
Definition newish : list row :=
  all_rows (λ r, without "e0_to_e3w_ns" (with_ "d_fin_ns" "1" (with_ "d_ack_ns" "1" (with_ "w_ns" "1" r)))) old_runs.
Definition old_steps : list step :=
  let runs := old_runs in let phases := old_phases in
  [accepts (check_old runs phases) "validate accepts a clean old-schema fixture";
   refuses (check_old newish phases) "is not old-schema" "validate schema";
   refuses (check_old (move_batch "b-1" "other" runs) phases) "batch_id set" "validate batch-set";
   refuses (check_old (first_sha "zzzzzzzdeadbeef" runs) phases) "mixed git_sha" "validate mixed sha";
   refuses (validate runs phases fix_batches "nope" "old-fix" fix_n) "does not start with" "validate sha-prefix";
   refuses (check_old (all_rows (with_ "dirty" "1") runs) phases) "dirty-tree row" "validate dirty";
   refuses (check_old (only (config_is SAFE) runs) (only (config_is SAFE) phases)) "configs" "validate configs";
   refuses (check_old (but_last runs) (but_last phases)) "recorded trials, want 2" "validate n-per-arm";
   refuses (check_old (all_rows (with_ "steal_ticks" "1") runs) phases) "nonzero steal_ticks" "validate steal";
   refuses (check_old (all_rows (without "governor") runs) phases) "runs.csv missing governor"
     "validate missing host-control field";
   refuses (check_old (all_rows (with_ "governor" "powersave") runs) phases) "governor values" "validate governor";
   refuses (check_old runs []) "recorded E3g rows" "validate E3g count"].

(** ** validate_t48 *)
Definition check_t48_on (man : string) (runs phases : list row) : res unit :=
  validate_t48 runs phases t48_batches "1005399" t48_n "t48-fix" (Ok man).
Definition check_t48 (runs phases : list row) : res unit := check_t48_on man_text runs phases.
Definition to_old_schema (r : row) : row :=
  without "d_fin_ns" (without "d_ack_ns" (without "w_ns" (with_ "e0_to_e3w_ns" "1" r))).
Definition linux_phase : row :=
  texts [("batch_id", "t-1"); ("trial", "1"); ("warmup", "0"); ("config", "stock"); ("phase", "E3g"); ("system", "linux")].
Definition not_at (cfg b : string) (r : row) : bool := negb (config_is cfg r && batch_is b r).
Definition t48_steps : list step :=
  [accepts (check_t48 t_runs t_ph) "validate_t48 accepts a clean five-arm fixture";
   refuses (check_t48 (all_rows to_old_schema t_runs) t_ph) "is not new-schema" "validate_t48 schema";
   refuses (check_t48 (move_batch "t-1" "x" t_runs) t_ph) "batch_id set" "validate_t48 batch-set";
   refuses (check_t48 (first_sha (str_repeat 12 "0") t_runs) t_ph) "mixed git_sha" "validate_t48 mixed sha";
   refuses (validate_t48 t_runs t_ph t48_batches "nope" t48_n "t48-fix" (Ok man_text)) "does not start with"
     "validate_t48 sha-prefix";
   refuses (check_t48 (all_rows (with_ "dirty" "1") t_runs) t_ph) "dirty-tree row" "validate_t48 dirty";
   refuses (check_t48 (only (λ r, negb (config_is "stock" r)) t_runs) t_ph) "configs" "validate_t48 configs";
   refuses (check_t48 (only (not_at "stock" "t-2") t_runs) t_ph) "stock has 1 recorded trials, want 2" "validate_t48 n-per-arm";
   refuses (check_t48 (where_ (config_is "stock") (with_ "system" "whimbrel") t_runs) t_ph) "system" "validate_t48 arm system";
   refuses (check_t48 (all_rows (with_ "steal_ticks" "1") t_runs) t_ph) "nonzero steal_ticks" "validate_t48 steal";
   refuses (check_t48 (all_rows (with_ "governor" "schedutil") t_runs) t_ph) "governor values" "validate_t48 governor";
   refuses (check_t48 (where_ (config_is "stock") (with_ "kernel_sha256" (sixtyfour "e")) t_runs) t_ph) "kernel_sha256"
     "validate_t48 MANIFEST-hash";
   refuses (check_t48_on (unterminated ["artifact Image-stock " +:+ stock_h]) t_runs t_ph) "MANIFEST missing"
     "validate_t48 MANIFEST incomplete";
   refuses (check_t48 (where_ (config_is FAST) (with_ "e0_to_first_connect_ns" "20500000") t_runs) t_ph)
     "first-connect medians span" "validate_t48 span";
   refuses (check_t48 (where_ (config_is "trimmed") (with_ "e0_to_e4_ns" "60000000") t_runs) t_ph) "trimmed is not published"
     "validate_t48 tripwire";
   refuses (check_t48 t_runs (t_ph ++ [linux_phase])) "Linux PHASE rows" "validate_t48 linux PHASE";
   refuses (check_t48 t_runs []) "recorded Whimbrel E3g rows" "validate_t48 E3g count"].

(** ** validate_t48c and its exhibit *)
Definition check_t48c (runs phases : list row) (man : string) (t48b_rec : option (list row)) (t48b_man : option string) : res unit :=
  validate_t48c runs phases t48_batches "1005399" t48_n "t48c-fix" (Ok man) t48b_rec t48b_man.
Definition must (b : bool) (msg : string) : res unit := raise_when (negb b) (ExhibitFail ("TEST FAIL: " +:+ msg)).
Definition write_phases : list row := t48_phases_for_write "1200000" "16000000" t_ph.
Definition check_c_md : res unit :=
  rec ← recorded c_runs; brec ← recorded t48b_for_delta;
  c_md ← write_cross_system_t48c rec write_phases brec write_phases t48c_man;
  let has s := str_in s c_md in
  _ ← must (negb (has "2.87" || has "~11 KB" || has "40.2" || has "540–740")) "T4.8c exhibit copied typed T4.8b measurements";
  _ ← must (has "6–13 ms" && has "10–20 ms" && has "D-0082") "T4.8c exhibit missing D-0082 size-scaling bracket";
  _ ← must (has "did not know the target") "T4.8c exhibit missing D-0081 not-claimed";
  _ ← must (has "loglevel=0" && has "unaligned_scalar_speed=fast") "T4.8c exhibit missing cmdline tuning tokens";
  _ ← must (has "1.000 ms" && has "12.000 ms") "T4.8c exhibit did not generate canary";
  _ ← must (has "deflated" && has "inflated") "T4.8c exhibit missing D-0078 regime labels";
  must (has "canaries disagree") "T4.8c exhibit missing canary-disagree note".
Definition split_canary_c : list row := on_first (with_ "canary_stvec_ns" "999") c_runs.
Definition no_quiet : string := man_text +:+ unterminated [quiet_line ""; instrumented_line skip_token].
Definition no_instr : string := man_text +:+ unterminated [quiet_line skip_token; instrumented_line ""].
Definition stock_only_out : list row := where_ (config_is "trimmed") (with_ "e0_to_e4_ns" "60000000") t_runs.
Definition t48c_steps : list step :=
  let b_rec := t48b_for_delta in
  [accepts (check_t48c c_runs t_ph t48c_man None None) "validate_t48c accepts a clean five-arm fixture";
   accepts (check_t48c c_runs t_ph t48c_man (Some b_rec) (Some man_text)) "validate_t48c accepts a clean fixture against t48b";
   accepts check_c_md "write_cross_system_t48c accepts a clean fixture";
   refuses (check_t48c t_runs t_ph t48c_man None None) "missing canary column" "validate_t48c missing canary";
   refuses (check_t48c (all_rows (with_ "canary_stvec_ns" "") c_runs) t_ph t48c_man None None) "empty canary columns"
     "validate_t48c empty canary";
   refuses (check_t48c split_canary_c t_ph t48c_man None None) "canary values" "validate_t48c split canary";
   refuses (rec ← recorded split_canary_c; serial_witness rec t_ph "t48c-fix") "mixed canary values"
     "serial_witness mixed canary";
   refuses (check_t48c c_runs t_ph no_quiet None None) "append quiet missing" "validate_t48c quiet append token";
   refuses (check_t48c c_runs t_ph no_instr None None) "append instrumented missing" "validate_t48c instrumented append token";
   refuses (check_t48c c_runs t_ph (man_text +:+ unterminated ["append quiet"]) None None) "malformed MANIFEST append"
     "validate_t48c malformed append";
   refuses (check_t48c c_runs t_ph t48c_man None (Some (man_of (sixtyfour "f")))) "D-0081 falsifier 4"
     "validate_t48c hash mismatch";
   refuses (check_t48c c_runs t_ph t48c_man (Some (only (config_is FAST) b_rec)) None) "no t48b trimmed rows"
     "validate_t48c no t48b trimmed";
   refuses (check_t48c c_runs t_ph t48c_man (Some (only (λ r, negb (config_is "stock" r)) b_rec)) None) "no t48b stock rows"
     "validate_t48c no t48b stock";
   refuses (check_t48c c_runs t_ph t48c_man (Some t_runs) None) "outside D-0081" "validate_t48c Δ out of range";
   refuses (check_t48c c_runs t_ph t48c_man (Some stock_only_out) None) "stock Δ vs t48b" "validate_t48c stock Δ out of range"].

(** ** validate_t47 and its exhibit *)
Definition check_t47 (runs phases : list row) : res unit := validate_t47 runs phases t47_batches "346f4c1" t47_n "t47-fix".
(** [re.split(r"(?<=\.)\s+", text)]: cut at the spaces after a full stop. *)
Fixpoint sentences_l (after_dot in_gap : bool) (cur l : list ascii) : list (list ascii) :=
  match l with
  | [] => [reverse cur]
  | a :: l =>
    if is_space a && after_dot then reverse cur :: sentences_l false true [] l
    else if is_space a && in_gap then sentences_l false true [] l
    else sentences_l ((ord a =? 46)%N) false (a :: cur) l
  end.
Definition sentences (s : string) : list string := of_l <$> sentences_l false false [] (to_l s).
Definition S_NS_RE : regex := (RLit "s_ns=" ⋅⋅ RCls cd)%re.
Definition check_g_md : res unit :=
  rec ← recorded g_runs;
  g_md ← write_t47_firmware rec g_ph;
  let has s := str_in s g_md in
  _ ← must (has "QEMU TCG software emulation" && has "no KVM") "T4.7 exhibit missing TCG substrate";
  let tcg_ok := existsb (λ sent, str_in "QEMU TCG software emulation" sent && str_in "no KVM" sent && str_in "×" sent)
                  (sentences g_md) in
  _ ← must tcg_ok "T4.7 exhibit ratio is not in the same sentence as QEMU TCG / no KVM";
  _ ← must (negb (is_some (re_search S_NS_RE g_md))) "T4.7 exhibit pooled an s_ns= line across lanes";
  must (negb (has "+0.1" || has "1.5 ms")) "T4.7 exhibit used the retired ΔS load-model window".
Definition rebatch (p : row → bool) (b1 b2 : string) (rows : list row) : list row :=
  where_ p (λ r, with_ "batch_id" (if batch_is "g-1" r then b1 else b2) r) rows.
Definition lane_row (r : row) : bool := existsb (λ c, config_is c r) T47_OPENSBI.
Definition late_e3g (p : row) : bool := config_is M_FAST p && phase_is_ "E3g" p && batch_is "g-2" p.
Definition everywhere (_ : row) : bool := true.
Definition t47_steps : list step :=
  [accepts (check_t47 g_runs g_ph) "validate_t47 accepts a clean four-arm fixture";
   accepts check_g_md "write_t47_firmware accepts a clean fixture";
   refuses (check_t47 (all_rows to_old_schema g_runs) g_ph) "is not new-schema" "validate_t47 schema";
   refuses (check_t47 (all_rows (λ r, without "canary_page_verify_ns" (without "canary_stvec_ns" r)) g_runs) g_ph)
     "missing canary column" "validate_t47 missing canary";
   refuses (check_t47 (all_rows (with_ "canary_stvec_ns" "") g_runs) g_ph) "empty canary columns" "validate_t47 empty canary";
   refuses (check_t47 (where_ shim_row (with_ "canary_stvec_ns" "999") g_runs) g_ph) "canary values" "validate_t47 split canary";
   refuses (check_t47 (rebatch shim_row "x-1" "x-2" g_runs) (rebatch shim_row "x-1" "x-2" g_ph))
     "lanes from different batch sets" "validate_t47 cross-campaign";
   refuses (check_t47 (rebatch everywhere "z-1" "z-2" g_runs) (rebatch everywhere "z-1" "z-2" g_ph)) "batch_id set"
     "validate_t47 batch-set";
   refuses (check_t47 (first_sha "zzzzzzzdeadbeef" g_runs) g_ph) "mixed git_sha" "validate_t47 mixed sha";
   refuses (validate_t47 g_runs g_ph t47_batches "nope" t47_n "t47-fix") "does not start with" "validate_t47 sha-prefix";
   refuses (check_t47 (all_rows (with_ "dirty" "1") g_runs) g_ph) "dirty-tree row" "validate_t47 dirty";
   refuses (check_t47 (only lane_row g_runs) (only lane_row g_ph)) "configs" "validate_t47 configs";
   refuses (check_t47 (but_last g_runs) (but_last g_ph)) "recorded trials, want 2" "validate_t47 n-per-arm";
   refuses (check_t47 (all_rows (with_ "steal_ticks" "1") g_runs) g_ph) "nonzero steal_ticks" "validate_t47 steal";
   refuses (check_t47 (all_rows (without "governor") g_runs) g_ph) "runs.csv missing governor"
     "validate_t47 missing host-control field";
   refuses (check_t47 (all_rows (with_ "governor" "powersave") g_runs) g_ph) "governor values" "validate_t47 governor"].
Definition t47_lane_steps : list step :=
  [refuses (check_t47 (where_ (config_is FAST) (with_ "system" "linux") g_runs) g_ph) "system" "validate_t47 system";
   refuses (check_t47 (where_ shim_row (with_ "bios_sha256" "") g_runs) g_ph) "shim bios_sha256" "validate_t47 bios";
   refuses (check_t47 (where_ (config_is M_FAST) (with_ "e0_to_first_connect_ns" "20500000") g_runs) g_ph)
     "first-connect medians span" "validate_t47 span";
   refuses (check_t47 g_runs []) "recorded E3g rows" "validate_t47 E3g count";
   refuses (check_t47 g_runs (only (λ p, negb (phase_is_ "stvec" p)) g_ph)) "stvec rows" "validate_t47 seam count";
   refuses (check_t47 g_runs (where_ late_e3g (with_ "ns_since_e2" "9000000") g_ph)) "E2→E3g not stable"
     "validate_t47 Claim A stability";
   refuses (check_t47 (where_ (config_is M_FAST) (with_ "w_ns" "1000000") g_runs) g_ph) "< −0.3 ms" "validate_t47 ΔS slower";
   refuses (check_t47 (where_ (config_is FAST) (with_ "w_ns" "20000000") g_runs) g_ph) "> 3 ms" "validate_t47 |ΔS|"].

(** ** The planted pair: the OpenSBI lane of one pin with the shim lane of another *)
Section over_git.
Context (git : list string → proc).
Definition row_of_lane (lane : list string) (r : row) : res bool := c ← get "config" r; Ok (existsb (is_str c) lane).
Definition mix_lanes (c b : list row) : res (list row) :=
  o ← filterR (row_of_lane T47_OPENSBI) c; s ← filterR (row_of_lane T47_SHIM) b; Ok (o ++ s).
Definition planted_pair : res (list row * list row) :=
  t47c_runs ← load_csv git T47_REV RUNS; t47c_ph ← load_csv git T47_REV PHASES;
  t47b_runs ← load_csv git T47B_REV RUNS; t47b_ph ← load_csv git T47B_REV PHASES;
  mixed_pin ← mix_lanes t47c_runs t47b_runs; mixed_pin_ph ← mix_lanes t47c_ph t47b_ph;
  Ok (mixed_pin, mixed_pin_ph).
Definition check_pair : res unit :=
  '(mixed_pin, mixed_pin_ph) ← planted_pair;
  validate_t47 mixed_pin mixed_pin_ph T47_BATCHES T47_SHA_PREFIX T47_N_PER_ARM "T4.7".
Definition pair_steps : list step :=
  [Accept (_ ← planted_pair; Ok []);
   refuses check_pair "lanes from different batch sets" "validate_t47 planted t47c/t47b pair"].
End over_git.

(** ** The bump, ladder and alias exhibits *)
Definition t44_steps : list step :=
  let rec := t44_fix_rec in let ph := t44_fix_ph in
  [accepts (write_t44_bump rec ph rec ph) "write_t44_bump accepts a clean fixture";
   refuses (write_t44_bump rec (only (λ p, negb (phase_is_ "frame_init" p)) ph) rec ph) "no recorded frame_init rows"
     "t44 missing phase rows";
   refuses (write_t44_bump rec (only (λ p, negb (phase_is_ "E3g" p)) ph) rec ph) "no E2→E3g values" "t44 missing E3g"].
Definition lad_write (base t44 after : list row * list row) (rungs : list rung) : res string :=
  write_ladder base t44 after lad_cur lad_entry rungs.
Definition set_quoted_ms (x : num) (g : rung) : rung :=
  {| rg_rung := rg_rung g; rg_decision := rg_decision g; rg_kind := rg_kind g; rg_pin := rg_pin g; rg_quoted_ms := Some x;
     rg_disposition := rg_disposition g; rg_phase := rg_phase g; rg_reason := rg_reason g |}.
Definition set_reason (s : string) (g : rung) : rung :=
  {| rg_rung := rg_rung g; rg_decision := rg_decision g; rg_kind := rg_kind g; rg_pin := rg_pin g;
     rg_quoted_ms := rg_quoted_ms g; rg_disposition := rg_disposition g; rg_phase := rg_phase g; rg_reason := Some s |}.
Definition set_kind (s : string) (g : rung) : rung :=
  {| rg_rung := rg_rung g; rg_decision := rg_decision g; rg_kind := s; rg_pin := rg_pin g; rg_quoted_ms := rg_quoted_ms g;
     rg_disposition := rg_disposition g; rg_phase := rg_phase g; rg_reason := rg_reason g |}.
Definition rungs_where (p : rung → bool) (f : rung → rung) : list rung := (λ g, if p g then f g else g) <$> LADDER_RUNGS.
Definition pinned_t44 (g : rung) : bool := bool_decide (rg_pin g = Some "t44").
Definition on_virtq (g : rung) : bool := bool_decide (rg_phase g = Some "virtq_init").
Definition check_lad_text : res unit :=
  text ← lad_write lad_base lad_t44 lad_after LADDER_RUNGS;
  must (str_in "above the 5% bar" text) "ladder fixture did not report virtq_init above the bar".
Definition lad_after_novirtq : list row * list row := (lad_after.1, only (λ p, negb (phase_is_ "virtq_init" p)) lad_after.2).
Definition ladder_steps : list step :=
  let lad := lad_write lad_base lad_t44 lad_after in
  [accepts check_lad_text "write_ladder accepts a clean fixture";
   refuses (lad (rungs_where pinned_t44 (set_quoted_ms (NFlt (float_lit "9.18"))))) "disagrees with its pin"
     "ladder planted cell disagreeing with its pin";
   refuses (lad_write lad_base (lad_pin 9230000 845400) lad_after LADDER_RUNGS) "disagrees with its pin"
     "ladder planted pin disagreeing with the quoted cell";
   refuses (lad (rungs_where on_virtq (set_reason ""))) "above the 5% bar without a reason"
     "ladder planted declined-above-bar row without a reason";
   refuses (lad (rungs_where (λ g, startswith (rg_rung g) "D-0060") (set_reason ""))) "declined without a reason"
     "ladder planted declined row without a reason";
   refuses (lad_write lad_base lad_t44 lad_after_novirtq LADDER_RUNGS) "no recorded virtq_init rows" "ladder missing phase rows";
   refuses (lad (rungs_where pinned_t44 (set_kind "parked"))) "unknown kind" "ladder unknown row kind"].
Definition resolve_current (current : string) : res entry := current_comparison_entry COMPARISON_LINEAGE current.
Definition check_current_entry : res unit :=
  e ← resolve_current CURRENT_COMPARISON;
  must (String.eqb (en_label e) CURRENT_COMPARISON) "current_comparison_entry resolved wrong label".
Definition alias_steps : list step :=
  let alias rec := write_cross_system_current rec alias_entry in
  [accepts check_current_entry "current_comparison_entry resolves the lineage tail";
   refuses (resolve_current "T4.9z") "not in lineage" "alias unknown CURRENT_COMPARISON";
   refuses (resolve_current "T4.8") "not the lineage tail" "alias history-as-current";
   accepts (alias alias_rec) "write_cross_system_current accepts a clean fixture";
   refuses (alias (move_batch "x-2" "x-3" alias_rec)) "does not match the lineage entry" "alias batch-set mismatch";
   refuses (alias (only (not_at "stock" "x-2") alias_rec)) "recorded trials, want" "alias half-populated arm";
   refuses (alias (all_rows (without "d_fin_ns") alias_rec)) "missing d_fin_ns" "alias missing field";
   refuses (alias (first_sha "beef9999deadbeef" alias_rec)) "mixed git_sha" "alias mixed sha";
   refuses (alias (all_rows (with_ "git_sha" "beef9999deadbeef") alias_rec)) "does not start with" "alias sha-prefix"].

(** ** The command *)
Definition before_pair : list step := old_steps ++ t48_steps ++ t48c_steps ++ t47_steps ++ t47_lane_steps.
Definition after_pair : list step := t44_steps ++ ladder_steps ++ alias_steps.
Section command.
Context (git : list string → proc) (out_dir : string).
Definition missing_pin : step :=
  refuses (load_csv git "no-such-pin" RUNS) "git show" "alias missing-CSV pin (git_show fails closed)".
Definition selftest_steps : list step := before_pair ++ pair_steps git ++ after_pair ++ [missing_pin].
Definition cmd_selftest : res outcome :=
  fired ← run_steps ExhibitFailC selftest_steps;
  Ok {| rc := 0; out := "TEST PASS: report-exhibits fail-closed selftest" :: ((λ line, "  fired: " +:+ line) <$> fired);
        err := [] |}.
Definition script (argv : list string) : io outcome := entry_point git out_dir cmd_selftest argv.
End command.

(** ** Two firmware campaigns never pass as one *)
(** A row of a new-schema campaign with canary columns: text where the lanes are
    read, a numeral for the warm-up flag. *)
Record pin_row (r : row) : Prop := {
  pr_new : runs_schema (od_keys r) = Ok New;
  pr_canary : ∀ field, field ∈ CANARY_FIELDS → od_in field r = true;
  pr_batch : ∃ s, get "batch_id" r = Ok (PStr s);
  pr_config : ∃ s, get "config" r = Ok (PStr s);
  pr_warmup : ∃ z, get_int "warmup" r = Ok z }.
(** Every one of the arms has a recorded trial. *)
Definition records (arms : list string) (rows : list row) : Prop :=
  ∀ cfg, cfg ∈ arms → ∃ r, r ∈ rows ∧ is_recorded r = Ok true ∧ get "config" r = Ok (PStr cfg).
Lemma recorded_defined rows : (∀ r, r ∈ rows → pin_row r) → ∃ rec, recorded rows = Ok rec.
Proof.
  intros H. apply filterR_defined. intros r Hr. destruct (pr_warmup r (H r Hr)) as [z Hz]. unfold is_recorded. rewrite Hz.
  by eexists.
Qed.
Lemma lane_defined lane rows : (∀ r, r ∈ rows → ∃ v, get "config" r = Ok v) →
  ∃ l, filterR (row_of_lane lane) rows = Ok l.
Proof. intros H. apply filterR_defined. intros r Hr. unfold row_of_lane. destruct (H r Hr) as [v ->]. by eexists. Qed.
Lemma in_lane_pin lane r : pin_row r → row_of_lane lane r = Ok true ↔ in_lane lane r.
Proof.
  intros [_ _ _ (s & Hs) _]. unfold row_of_lane, in_lane. rewrite Hs. cbn. split.
  - intros [= (x & Hx & He)%existsb_exists]. apply bool_decide_eq_true in He as [= ->]. exists x.
    by rewrite list_elem_of_In.
  - intros (cfg & Hc & [= <-]). f_equal. apply existsb_exists. exists s. rewrite <-list_elem_of_In. split; [done|].
    by apply bool_decide_eq_true.
Qed.
Lemma lane_batches_defined lane rec : (∀ r, r ∈ rec → pin_row r) →
  ∃ bs s, lane_batches rec lane = Ok bs ∧ sorted_repr bs = Ok s.
Proof.
  intros H. assert (∃ rows, filterR (row_of_lane lane) rec = Ok rows) as [rows Hrows].
  { apply lane_defined. intros r Hr. destruct (pr_config r (H r Hr)). eauto. }
  assert (∀ r, r ∈ rows → ∃ s, get "batch_id" r = Ok (PStr s)) as Hb.
  { intros r Hr. rewrite (filterR_count _ _ _ Hrows) in Hr. apply list_elem_of_filter in Hr as [_ Hr].
    by apply pr_batch, H. }
  destruct (distinct_defined "batch_id" rows) as [bs Hbs]; [intros r Hr; destruct (Hb r Hr); eauto|].
  destruct (sorted_repr_texts bs) as [s Hs].
  { intros v (r & Hr & Hg)%(distinct_spec _ _ _ Hbs). destruct (Hb r Hr) as [s Hs]. exists s. congruence. }
  exists bs, s. split; [|done]. unfold lane_batches. change (filterR _ rec) with (filterR (row_of_lane lane) rec).
  by rewrite Hrows.
Qed.
(** The lanes are compared before anything of the campaign's content: when their
    batches differ, that is the failure. *)
Lemma lanes_differ_refused runs phases batches prefix n label rec : (∀ r, r ∈ runs → pin_row r) →
  recorded runs = Ok rec → has_values "config" rec T47_ARM_ORDER →
  (∃ r, r ∈ rec ∧ in_lane T47_OPENSBI r ∧
     ∀ r', r' ∈ rec → in_lane T47_SHIM r' → get "batch_id" r' ≠ get "batch_id" r) →
  ∃ tail, validate_t47 runs phases batches prefix n label =
    Err (ExhibitFail ("TEST FAIL: " +:+ label +:+ " lanes from different batch sets (OpenSBI " +:+ tail)).
Proof.
  intros Hpin Hrec Harms (r & Hr & Hlane & Hne).
  assert (∀ x, x ∈ rec → pin_row x) as Hpr by (intros x [Hx _]%(recorded_in _ _ _ Hrec); auto).
  destruct (lane_batches_defined T47_OPENSBI rec Hpr) as (o & so & Ho & Hso).
  destruct (lane_batches_defined T47_SHIM rec Hpr) as (s & ss & Hs & Hss).
  destruct runs as [|r0 runs]; [apply (recorded_in _ _ _ Hrec) in Hr as [Hr _]; by apply elem_of_nil in Hr|].
  destruct (Hpin r0 ltac:(by left)) as [Hnew Hcan _ _ _].
  assert (∀ msg, check_schema (r0 :: runs) New msg = Ok tt) as Hsch.
  { intros msg. unfold check_schema. cbn [head of_option mbind res_bind]. by rewrite Hnew. }
  assert (∀ msg, check_canary_columns (r0 :: runs) msg = Ok tt) as Hcc.
  { intros msg. apply forM_Ok. intros field Hf. cbn. by rewrite Hcan. }
  assert (set_eqb o s = false) as Hos.
  { apply not_true_iff_false. rewrite set_eqb_spec. intros He. destruct (pr_batch r (Hpr r Hr)) as [b Hb].
    assert (PStr b ∈ s) as Hin by (apply He, (lane_batches_spec _ _ _ Ho); eauto).
    apply (lane_batches_spec _ _ _ Hs) in Hin as (r' & Hr' & Hl' & Hg). apply (Hne r' Hr' Hl'). congruence. }
  eexists. unfold validate_t47. rewrite Hsch, Hrec. cbn [mbind res_bind]. rewrite Hcc. cbn [mbind res_bind].
  match goal with |- context [check_values ?f ?k ?l ?w ?m] => rewrite (proj2 (check_values_Ok f k l w m tt) Harms) end.
  cbn [mbind res_bind]. unfold check_lanes. rewrite Ho, Hs. cbn [mbind res_bind]. rewrite Hos, Hso, Hss. done.
Qed.

Lemma mix_lanes_in c b l r : mix_lanes c b = Ok l →
  r ∈ l ↔ (r ∈ c ∧ row_of_lane T47_OPENSBI r = Ok true) ∨ (r ∈ b ∧ row_of_lane T47_SHIM r = Ok true).
Proof.
  intros (o & ->%filterR_count & (s & ->%filterR_count & [= <-])%bind_Ok)%bind_Ok.
  rewrite elem_of_app, !list_elem_of_filter. naive_solver.
Qed.
Lemma mix_lanes_defined c b : (∀ r, r ∈ c ++ b → ∃ v, get "config" r = Ok v) → ∃ l, mix_lanes c b = Ok l.
Proof.
  intros H. destruct (lane_defined T47_OPENSBI c) as [o Ho]; [intros; apply H, elem_of_app; auto|].
  destruct (lane_defined T47_SHIM b) as [s Hs]; [intros; apply H, elem_of_app; auto|].
  exists (o ++ s). unfold mix_lanes. by rewrite Ho, Hs.
Qed.
Lemma t47_arms cfg : cfg ∈ T47_ARM_ORDER ↔ cfg ∈ T47_OPENSBI ∨ cfg ∈ T47_SHIM.
Proof. unfold T47_ARM_ORDER, T47_OPENSBI, T47_SHIM. rewrite !elem_of_cons, !elem_of_nil. tauto. Qed.
Lemma t47_lanes_disjoint cfg : cfg ∈ T47_OPENSBI → cfg ∉ T47_SHIM.
Proof. intros H. apply (proj1 (List.Forall_forall (λ c, c ∉ T47_SHIM) T47_OPENSBI) ltac:(by_eval)). by apply list_elem_of_In. Qed.
(** The two pins of the planted pair: both firmware campaigns with all four arms,
    of different batches. *)
Definition different_campaigns (c b : list row) : Prop :=
  ∀ r r', r ∈ c → r' ∈ b → get "batch_id" r ≠ get "batch_id" r'.
Lemma mixed_pair_refused c b mixed phases batches prefix n label :
  (∀ r, r ∈ c ++ b → pin_row r) → records T47_OPENSBI c → records T47_SHIM b → different_campaigns c b →
  mix_lanes c b = Ok mixed → ∃ tail, validate_t47 mixed phases batches prefix n label =
    Err (ExhibitFail ("TEST FAIL: " +:+ label +:+ " lanes from different batch sets (OpenSBI " +:+ tail)).
Proof.
  intros Hpin Hc Hb Hd Hmix. pose proof (λ r, mix_lanes_in _ _ _ r Hmix) as Hin.
  assert (∀ r, r ∈ mixed → pin_row r) as Hpm by (intros r [[? _]|[? _]]%Hin; apply Hpin, elem_of_app; auto).
  destruct (recorded_defined mixed Hpm) as [rec Hrec]. pose proof (λ r, recorded_in _ _ r Hrec) as Hr.
  assert (∀ cfg, cfg ∈ T47_OPENSBI → ∃ r, r ∈ rec ∧ r ∈ c ∧ get "config" r = Ok (PStr cfg)) as Ho.
  { intros cfg Hcfg. destruct (Hc cfg Hcfg) as (r & Hrc & Hrr & Hg). exists r. split_and!; try done. apply Hr. split; [|done].
    apply Hin. left. split; [done|]. apply in_lane_pin; [apply Hpin, elem_of_app; auto|]. by exists cfg. }
  assert (∀ cfg, cfg ∈ T47_SHIM → ∃ r, r ∈ rec ∧ get "config" r = Ok (PStr cfg)) as Hs.
  { intros cfg Hcfg. destruct (Hb cfg Hcfg) as (r & Hrb & Hrr & Hg). exists r. split; try done. apply Hr. split; [|done].
    apply Hin. right. split; [done|]. apply in_lane_pin; [apply Hpin, elem_of_app; auto|]. by exists cfg. }
  apply (lanes_differ_refused _ _ _ _ _ _ rec); [done..| |].
  - split.
    + intros r [Hrm _]%Hr. pose proof (Hpm r Hrm) as Hp. apply Hin in Hrm as [[_ Hl]|[_ Hl]];
        apply (in_lane_pin _ _ Hp) in Hl as (cfg & Hcfg & Hg); exists cfg; (split; [|done]); apply t47_arms; auto.
    + intros cfg [H|H]%t47_arms.
      * destruct (Ho cfg H) as (r & ? & _ & ?); eauto.
      * destruct (Hs cfg H) as (r & ? & ?); eauto.
  - destruct (Ho FAST) as (r & Hrr & Hrc & Hg); [by_eval|]. exists r. split_and!; [done| |].
    { exists FAST. split; [by_eval|done]. }
    intros r' [Hm _]%Hr Hl' He. apply Hin in Hm as [[Hrc' Hl]|[Hrb _]]; [|exact (Hd r r' Hrc Hrb (eq_sym He))].
    apply in_lane_pin in Hl as (cfg & Hcfg & Hg'); [|by apply Hpin, elem_of_app; left].
    destruct Hl' as (cfg' & Hcfg' & Hg''). assert (cfg = cfg') as -> by congruence.
    by apply (t47_lanes_disjoint cfg').
Qed.

(** ** The self-test *)
(** The plants no gate decides: their needle is a word of their own label. *)
Definition VACUOUS : list string :=
  ["validate configs"; "validate_t48 configs"; "validate_t48 arm system"; "validate_t47 configs"; "validate_t47 system"].
Definition fires_lines (n : nat) (r : res (list string)) : bool :=
  match r with Ok l => (length l =? n)%nat | Err _ => false end.
Lemma fires_lines_Ok n r : fires_lines n r = true → ∃ l, r = Ok l ∧ length l = n.
Proof. destruct r as [l|]; [|done]. intros H%Nat.eqb_eq. by exists l. Qed.
(** The steps that ask git nothing all pass. *)
Lemma before_pair_passes : ∃ l, run_steps ExhibitFailC before_pair = Ok l ∧ length l = 68%nat.
Proof. apply fires_lines_Ok. by vm_compute. Qed.
Lemma after_pair_passes : ∃ l, run_steps ExhibitFailC after_pair = Ok l ∧ length l = 19%nat.
Proof. apply fires_lines_Ok. by vm_compute. Qed.
Lemma refuses_fires {A} (r : res A) needle label msg : r = Err (ExhibitFail msg) → str_in needle msg = true →
  ∃ line, run_steps ExhibitFailC [refuses r needle label] = Ok [line].
Proof.
  intros -> Hin. set (line := label +:+ ": " +:+ msg). exists line. apply run_steps_Ok. exists [[line]]. split; [|done].
  constructor; [|constructor]. cbn [step_lines refuses]. rewrite (proj2 (fires_Ok _ _ line)); [done|]. left. exists msg.
  split; [split; [done|]|done]. cbn. unfold in_message. by rewrite Hin.
Qed.
Lemma git_show_fails git rev path : returncode (git ["show"; rev +:+ ":" +:+ path]) ≠ 0 →
  ∃ tail, git_show git rev path = Err (ExhibitFail ("TEST FAIL: " +:+ "git show" +:+ tail)).
Proof.
  intros H. unfold git_show. apply Z.eqb_neq in H. rewrite H. cbn [negb]. eexists. reflexivity.
Qed.

(** The self-test passes on every checkout it is meant for: when git has
    the two firmware pins, both campaigns of the new schema with a recorded trial in
    the arms that are mixed, of different batches, and no pin named no-such-pin, the
    command ends with status 0 and prints the 89 lines of its clean inputs and
    planted faults. *)
Theorem selftest_passes (git : list string → proc) (c_runs c_ph b_runs b_ph : list row)
    (Hc : load_csv git T47_REV RUNS = Ok c_runs) (Hcp : load_csv git T47_REV PHASES = Ok c_ph)
    (Hb : load_csv git T47B_REV RUNS = Ok b_runs) (Hbp : load_csv git T47B_REV PHASES = Ok b_ph)
    (Hpin : ∀ r, r ∈ c_runs ++ b_runs → pin_row r) (Hph : ∀ p, p ∈ c_ph ++ b_ph → ∃ v, get "config" p = Ok v)
    (Hrc : records T47_OPENSBI c_runs) (Hrb : records T47_SHIM b_runs) (Hdiff : different_campaigns c_runs b_runs)
    (Hno : returncode (git ["show"; "no-such-pin:results/runs.csv"]) ≠ 0) :
  ∃ fired, cmd_selftest git = Ok {| rc := 0; err := [];
      out := "TEST PASS: report-exhibits fail-closed selftest" :: ((λ line, "  fired: " +:+ line) <$> fired) |} ∧
    length fired = 89%nat.
Proof.
  destruct before_pair_passes as (l1 & E1 & Hl1), after_pair_passes as (l2 & E2 & Hl2).
  destruct (mix_lanes_defined c_runs b_runs) as [mixed Hm].
  { intros r Hr. destruct (pr_config r (Hpin r Hr)). eauto. }
  destruct (mix_lanes_defined c_ph b_ph Hph) as [mixed_ph Hmp].
  assert (planted_pair git = Ok (mixed, mixed_ph)) as Hpair.
  { unfold planted_pair. rewrite Hc, Hcp, Hb, Hbp. cbn [mbind res_bind]. by rewrite Hm, Hmp. }
  destruct (mixed_pair_refused c_runs b_runs mixed mixed_ph T47_BATCHES T47_SHA_PREFIX T47_N_PER_ARM "T4.7"
    Hpin Hrc Hrb Hdiff Hm) as [tail Ht].
  destruct (refuses_fires (check_pair git) "lanes from different batch sets" "validate_t47 planted t47c/t47b pair" _
    ltac:(unfold check_pair; rewrite Hpair; exact Ht)
    (str_in_app "lanes from different batch sets" "TEST FAIL: T4.7 " (" (OpenSBI " +:+ tail))) as [line Hline].
  destruct (git_show_fails git "no-such-pin" RUNS Hno) as [tail' Hg].
  destruct (refuses_fires (load_csv git "no-such-pin" RUNS) "git show" "alias missing-CSV pin (git_show fails closed)" _
    ltac:(unfold load_csv; rewrite Hg; done) (str_in_app "git show" "TEST FAIL: " tail')) as [line' Hline'].
  assert (run_steps ExhibitFailC (pair_steps git) = Ok [line]) as Hp.
  { unfold pair_steps. change (Accept ?a :: ?l) with ([Accept a] ++ l). apply run_steps_app. exists [], [line].
    split_and!; [|exact Hline|reflexivity]. unfold run_steps. cbn [foldM run_step]. by rewrite Hpair. }
  assert (run_steps ExhibitFailC (selftest_steps git) = Ok (l1 ++ [line] ++ l2 ++ [line'])) as Hrun.
  { apply run_steps_app. exists l1, ([line] ++ l2 ++ [line']). split_and!; [exact E1| |reflexivity].
    apply run_steps_app. exists [line], (l2 ++ [line']). split_and!; [exact Hp| |reflexivity].
    apply run_steps_app. exists l2, [line']. split_and!; [exact E2|exact Hline'|reflexivity]. }
  exists (l1 ++ [line] ++ l2 ++ [line']). unfold cmd_selftest. rewrite Hrun. split; [done|].
  rewrite !length_app, Hl1, Hl2. done.
Qed.
(** A checkout whose two pins are the fixture and the fixture with other batches. *)
Definition csv_of (rows : list row) : string := csv_write (od_keys (default [] (head rows))) rows.
Definition t47b_of (rows : list row) : list row := rebatch everywhere "y-1" "y-2" rows.
Definition objects : odict string string :=
  [(T47_REV +:+ ":" +:+ RUNS, csv_of g_runs); (T47_REV +:+ ":" +:+ PHASES, csv_of g_ph);
   (T47B_REV +:+ ":" +:+ RUNS, csv_of (t47b_of g_runs)); (T47B_REV +:+ ":" +:+ PHASES, csv_of (t47b_of g_ph))].
Definition fixture_git (args : list string) : proc :=
  match args with
  | [_; object] => match od_get object objects with
                   | Some text => {| returncode := 0; stdout := text; stderr := "" |}
                   | None => {| returncode := 128; stdout := ""; stderr := "fatal: invalid object name" |}
                   end
  | _ => {| returncode := 1; stdout := ""; stderr := "" |}
  end.
Definition pin_rowb (r : row) : bool :=
  bool_decide (runs_schema (od_keys r) = Ok New) && forallb (λ f, od_in f r) CANARY_FIELDS &&
  match get "batch_id" r, get "config" r with Ok (PStr _), Ok (PStr _) => is_ok (get_int "warmup" r) | _, _ => false end.
Lemma pin_row_check rows : forallb pin_rowb rows = true → ∀ r, r ∈ rows → pin_row r.
Proof.
  rewrite forallb_forall. intros H r Hr%list_elem_of_In. specialize (H r Hr).
  apply andb_true_iff in H as [[Hn%bool_decide_eq_true Hc]%andb_true_iff H]. rewrite forallb_forall in Hc.
  destruct (get "batch_id" r) as [[]|] eqn:Eb; try done. destruct (get "config" r) as [[]|] eqn:Ec; try done.
  constructor; [done| |eauto..|].
  - intros f Hf. by apply Hc, list_elem_of_In.
  - destruct (get_int "warmup" r); eauto; done.
Qed.
Lemma config_check rows : forallb (λ r, is_ok (get "config" r)) rows = true → ∀ r, r ∈ rows → ∃ v, get "config" r = Ok v.
Proof.
  rewrite forallb_forall. intros H r Hr%list_elem_of_In. specialize (H r Hr). destruct (get "config" r); eauto; done.
Qed.
Definition records_arm (rows : list row) (cfg : string) : bool :=
  existsb (λ r, bool_decide (is_recorded r = Ok true) && bool_decide (get "config" r = Ok (PStr cfg))) rows.
Lemma records_check arms rows : forallb (records_arm rows) arms = true → records arms rows.
Proof.
  rewrite forallb_forall. intros H cfg Hc%list_elem_of_In. specialize (H cfg Hc).
  apply existsb_exists in H as (r & Hr & [H1%bool_decide_eq_true H2%bool_decide_eq_true]%andb_true_iff).
  exists r. by rewrite list_elem_of_In.
Qed.
Definition apart (c b : list row) : bool :=
  forallb (λ r, forallb (λ r', negb (bool_decide (get "batch_id" r = get "batch_id" r'))) b) c.
Lemma apart_check c b : apart c b = true → different_campaigns c b.
Proof.
  unfold apart. rewrite forallb_forall. intros H r r' Hr%list_elem_of_In Hr'%list_elem_of_In. specialize (H r Hr).
  rewrite forallb_forall in H. specialize (H r' Hr'). by apply negb_true_iff, bool_decide_eq_false in H.
Qed.
Lemma selftest_passes_witness : ∃ fired,
  rc <$> cmd_selftest fixture_git = Ok 0 ∧ out <$> cmd_selftest fixture_git =
    Ok ("TEST PASS: report-exhibits fail-closed selftest" :: ((λ line, "  fired: " +:+ line) <$> fired)).
Proof.
  assert (∀ r, r ∈ g_runs ++ t47b_of g_runs → pin_row r) as H1 by (apply pin_row_check; by vm_compute).
  assert (∀ p, p ∈ g_ph ++ t47b_of g_ph → ∃ v, get "config" p = Ok v) as H2 by (apply config_check; by vm_compute).
  assert (records T47_OPENSBI g_runs) as H3 by (apply records_check; by vm_compute).
  assert (records T47_SHIM (t47b_of g_runs)) as H4 by (apply records_check; by vm_compute).
  assert (different_campaigns g_runs (t47b_of g_runs)) as H5 by (apply apart_check; by vm_compute).
  destruct (selftest_passes fixture_git g_runs g_ph (t47b_of g_runs) (t47b_of g_ph) ltac:(by vm_compute) ltac:(by vm_compute)
    ltac:(by vm_compute) ltac:(by vm_compute) H1 H2 H3 H4 H5 ltac:(by vm_compute)) as (fired & H & _).
  exists fired. rewrite H. exact (conj eq_refl eq_refl).
Defined.

Lemma selftest_vacuous git : vacuous_labels (selftest_steps git) = VACUOUS.
Proof. by vm_compute. Qed.
Lemma selftest_marks git : forallb (marks_vacuous VACUOUS) (plants (selftest_steps git)) = true.
Proof. by vm_compute. Qed.
Lemma cmd_selftest_run git o : cmd_selftest git = Ok o → ∃ fired, run_steps ExhibitFailC (selftest_steps git) = Ok fired.
Proof. unfold cmd_selftest. generalize (run_steps ExhibitFailC (selftest_steps git)). intros [fired|e] H; [by exists fired|done]. Qed.
(** C24. What a passing self-test shows, and five of its plants that show
    nothing.  Every planted fault was refused with the script's exception and the
    expected words, except possibly the five whose expected word also occurs in the
    message that the gate did not fire: that message is raised inside the same try,
    so these five fire whether the gate refuses the fault or lets it through. *)
Theorem selftest_evidence (git : list string → proc) (o : outcome) (Hok : cmd_selftest git = Ok o) :
  (∀ p, Plant p ∈ selftest_steps git → pl_label p ∉ VACUOUS → ∃ msg, refused ExhibitFailC p msg) ∧
  vacuous_labels (selftest_steps git) = VACUOUS ∧
  (∀ p, Plant p ∈ selftest_steps git → pl_label p ∈ VACUOUS →
     is_ok (fires ExhibitFailC (let_through p)) = true).
Proof.
  split_and!.
  - intros p Hp Hl. destruct (cmd_selftest_run git o Hok) as [fired Hrun].
    exact (run_steps_evidence _ _ _ _ p Hrun (selftest_vacuous git) Hp Hl).
  - exact (selftest_vacuous git).
  - exact (λ p Hp Hl, marked_fires _ _ _ p (selftest_marks git) Hp Hl).
Qed.
Lemma fixture_passes : ∃ o, cmd_selftest fixture_git = Ok o.
Proof. apply is_ok_Ok. by vm_compute. Qed.
Definition e3g_plant : plant := expected (check_t48 t_runs []) "recorded Whimbrel E3g rows" "validate_t48 E3g count".
Lemma selftest_evidence_witness : ∃ o, cmd_selftest fixture_git = Ok o ∧ ∃ msg, refused ExhibitFailC e3g_plant msg.
Proof.
  destruct fixture_passes as [o Ho]. exists o. split; [exact Ho|].
  destruct (selftest_evidence fixture_git o Ho) as (H & _).
  apply H; [apply list_elem_of_lookup; exists 28%nat; reflexivity|by_eval].
Defined.
